(* ===== verification/_CoqProject ===== *)
-Q . S2P
Prelude.v
Table.v
PyStr.v
Json.v
AiClient.v
Doubles.v
Schema.v
Store.v
Accounts.v
Registration.v
Canonical.v
Signatures.v
Registry.v
Timestamps.v
Dates.v
Calendar.v
Evidence.v
OutboxWorker.v
Notifications.v
Devices.v
Hooks.v
Announcements.v
Cases.v
Locations.v
Triage.v
TriageAi.v
Documents.v
Reporting.v
Proposals.v
Prices.v
Fund.v
Settlements.v
FundSeries.v
Books.v
Integrity.v
Tenancy.v
Tokens.v
Downloads.v
Explorer.v
Worker.v
Inbox.v
ResidentPages.v
ResidentApi.v
Staff.v
Exports.v
Billing.v
Gate.v
Plates.v
Readers.v
