(* ===== verification/Prelude.v ===== *)
(** * LamTo: a verification library

    LamTo ([src/src/lamto]) is a Django service that follows the maintenance money of an
    apartment building from a resident's report to a public, signed and anchored ledger
    entry.  This library translates its service layer, its worker and its resident API into
    Rocq functions over one explicit database state and proves what the services promise.

    ** How the program is put together

    A resident registers ([accounts/registration.py]), logs in under a throttle
    ([accounts/security.py]), reports a problem ([maintenance/reporting.py]) with photos
    ([documents/services.py]); a manager confirms the report into a case
    ([maintenance/triage.py]), works on it ([maintenance/cases.py]), and for a case that
    costs money publishes a proposal in chained versions and decides it
    ([finance/proposals.py]).  The completed proposal is settled
    ([finance/settlements.py]): an outflow is posted to the building's append-only fund
    ([finance/fund.py]) and the entry is published ([finance/publication.py]).  Versions
    and settlements queue an EIP-712 signed evidence event ([evidence/services.py]) that a
    worker with leases delivers ([evidence/worker.py]) to the contract
    [chain/src/EvidenceRegistry.sol].  Any published entry can be checked again
    ([finance/integrity.py]).  The services tell residents and managers what happened
    through on-commit callbacks ([notifications/hooks.py], [notifications/services.py]).

    ** How it is modelled

    - A service call is a value of [DB A := world -> result A * world] ([Table],
      [Schema]).  [world] holds every table, the clock, the settings read and the
      callbacks registered with [transaction.on_commit].  [Err] carries the Python
      exception; [atomic] is [transaction.atomic], which restores the world of its entry
      when the body raises.
    - A table is a finite map from primary keys to rows with its next serial key.  A Python
      model instance is a copy of its row ([obj]); [save(update_fields=...)] rewrites only
      those columns of the stored row, so stale copies behave as they do in the code.
      Locking reads ([select_for_update]) are reads: a call runs alone, and concurrency
      appears as sequences of whole calls, and in [OutboxWorker] as separate claim and
      finish steps of several workers.
    - A database constraint or trigger the services rely on is part of the insert that it
      guards ([Store], and the component's file).
    - Python integers are [Z]; instants are [Z] microseconds; a [str] is the [string] of its
      UTF-8 bytes.  [lower], [upper] and [strip] act on ASCII letters and blanks only.
    - Values whose type the code inspects at run time, and JSON, are [pyval].

    ** What is a parameter

    Code that is not in the repository is an argument of the definitions that use it:
    digests, Unicode normalization and tokens are the class [Crypto] ([Store]); the ECDSA
    of [eth_account] is the class [EthAccount] ([Signatures]), whose law, the roundtrip of
    a signature, is its documented behaviour, and which is instantiated by a concrete
    account in the witnesses; storage, the virus scanner and the image decoder ([Documents]),
    mail, FCM ([Notifications]) and the node's answers ([OutboxWorker], [Integrity]) are
    functions whose result is arbitrary.

    ** The files

    - [Prelude], [Table], [PyStr], [Schema], [Store]: record update, the error monad, Python
      values; tables with the queries and lookups of the ORM; strings; the models of
      [*/models.py] as records; the ORM operations on [world] and the [keeps] logic, which
      shows that a service leaves a table's rows related step by step.
    - [Accounts]: [accounts/services.py], [security.py], [backends.py], [audit/services.py].
    - [Registration]: [accounts/registration.py].
    - [Canonical], [Signatures], [Timestamps], [Evidence], [OutboxWorker]:
      [evidence/canonical.py], [signatures.py], [services.py], [worker.py], [chain.py];
      [Registry]: the contract.
    - [Notifications], [Devices], [Hooks], [Announcements]: [notifications/*.py].
    - [Cases], [Locations], [Triage], [Reporting]: [maintenance/cases.py], [ratings.py],
      [triage.py], [reporting.py].
    - [Documents]: [documents/services.py], [access.py].
    - [Dates], [Proposals], [Fund], [Settlements], [Integrity]: [finance/proposals.py],
      [fund.py], [settlements.py] with [publication.py], [integrity.py].
    - [Json], [AiClient], [TriageAi], [Prices], [Doubles]: [json.loads] as CPython reads it;
      the endpoint and envelope checks the two AI clients share ([maintenance/ai.py],
      [finance/ai.py]); the triage worker with [maintenance/candidates.py] and
      [config/worker.py]; [finance/reference_prices.py], [predictions.py]; binary64.
    - [Calendar], [FundSeries]: the fund pages and the lists of [finance/selectors.py].
    - [Billing]: [billing/services.py] and the bills of [api/bill_views.py].
    - [Gate], [Plates], [Readers]: [gate/*.py], the entrance gate: face enrolment, its
      review photo and its queued deletion; plates; reader credentials, recognition and
      the retention purge.
    - [Tenancy], [Tokens]: [accounts/tenancy.py], [api/occupancy.py]; the login of
      [api/views.py], [api/services.py], [api/authentication.py], [api/signals.py].
    - [Downloads]: [api/downloads.py] and the view that redeems its links.
    - [Explorer]: [explorer/views.py], the public page.
    - [Worker]: [config/worker.py], the seven processors and their loop.
    - [Inbox]: [web/action_inbox.py], the manager's inbox.
    - [ResidentPages], [ResidentApi]: the reading and the writing views of [api/views.py]
      with [api/serializers.py], [api/problems.py], [maintenance/selectors.py].
    - [Staff], [Exports]: [web/staff.py], [web/views/exceptions.py], the stages of
      [web/views/staff_common.py]; the CSV files of [web/views/exports.py].
    - [Books]: the machine of all operations on the finance tables, its invariant
      [books_ok], and the account book it refines.

    ** What the theorems show

    - Money ([Fund], [Books]): whatever operations ran, the balance a resident reads is the
      verified sources less the settlements; recording a source moves nothing until it is
      verified, a settlement posts exactly the amount frozen in the version that was
      decided, once; every operation refines an idle, credit or debit step of an account.
    - Evidence ([Canonical], [Signatures], [Evidence], [Proposals], [Settlements]): canonical bytes
      are injective on normalized payloads; what is queued commits to the stored payload;
      an event id is never reused for other content; the versions of a proposal stay
      chained under every later operation; signatures recover to the platform.
    - Delivery ([OutboxWorker], [Registry], [Notifications]): the worker only moves rows along
      the delivery graph and confirms only on a matching record or a mined transaction;
      a lease is exclusive; the registry is append only; deliveries are tried a bounded
      number of times and final ones stay.
    - Verification ([Integrity]): a VERIFIED verdict implies that documents, payloads,
      rows and chain agree; what [record_settlement] just wrote verifies.
    - Workflow ([Registration], [Cases], [Triage], [Reporting], [Proposals]): the life cycles
      are invariants of every sequence of calls; a report is in at most one active case;
      submission is idempotent in its client reference; the location walk terminates.
    - Files and access ([Accounts], [Documents]): the throttle, the upload gate, who may
      download, and the round trip from an upload to a download.
    - What pages show ([FundSeries], [Books]): the chart and the calendar of the fund are
      reference charts computed entry by entry; the reconciliation list is always empty.
    - AI ([TriageAi], [Prices]): whatever the provider answers, a job ends with at most one
      validated suggestion and a comparison stores an ordered band; the floating-point
      percentage is within one percent of the exact one.
    - Bills ([Billing]): the life cycle of a bill and of its payment.
    - The gate ([Gate], [Plates], [Readers]): a face vector exists exactly while it is under
      review or approved and a photo exactly while it is under review, and no stored photo
      is forgotten; a plate has one holder; who a reader may be and for how long; an answer
      is the nearest approved resident of the reader's building; what a purge leaves.
    - The residents' API ([Tenancy], [Tokens], [Downloads]): the occupancy a request acts
      for is one of the caller's own; every live token belongs to an active user who lives
      somewhere, and there are at most five; a link serves its resident and nobody else,
      what that resident may see now; no file name breaks out of its header.
    - The public page ([Explorer]) shows no level of evidence that the records, the stored
      status and the chain's answer do not support, and serves only the documents it names.
    - The worker ([Worker]): enough cycles check every published entry; a deadline is
      announced once; a cycle runs and reports every processor, whatever fails.
    - The inbox ([Inbox]) is exactly what waits in the manager's building, sorted, each
      thing once.
    - The residents' pages ([ResidentPages]) link only to what opens, to entries and to
      documents; the requests ([ResidentApi]) of other residents spare one's rows, a retry
      is safe, the page offers a rating exactly when it is accepted, preferences are
      patched as a whole.
    - The workspace ([Staff], [Exports]): a manager acts under an own active membership; a
      response to a failure is recorded under a name and clears nothing; an exported file
      reads back to the building's rows, and no cell of it is a formula.
    Some theorems state behaviour that the code did not mean: a stale worker reopens a confirmed row,
    a missing document masks a forged one, a republished proposal can never be completed, a mismatch
    of standalone spending tells nobody, a resident downloads from another building, a triage job
    that raises is stranded, a figure of the price provider that does not fit its column escapes
    the fallback, a face photo sent after the manager's page was rendered is approved unseen, one
    vector that does not open stops recognition in its building, the public page confirms an
    event of which the chain has no record, the worker never checks an entry a second time,
    an entry that mismatches again and again hides the others from the inbox, the page of a
    settled proposal calls it complete whatever became of its settlement's event.

    ** Fuel

    [Locations.walk] gets one step more than there are locations and [walk] is proved never
    to run out ([room]); [Canonical.read_value] is given the length of its text, enough for
    every text [canonical_bytes] writes; [Json.loads] gets twice the length of its text and
    one step, and is total ([loads_total]); [FundSeries.day_cells] gets 31 steps, and no month
    is longer.  Everything else is structural.

    ** Not modelled

    Staff forms and dashboards, serializers and templates, except those named above (request parsing and
    layout over these services); settings, deployment and management commands; the mobile application;
    sessions and password hashing, which are Django's; web3 transport and nonce locking;
    the purge of quarantined uploads (it only deletes stored objects); the restore drill's
    second database alias; the field types, pagination
    and OpenAPI schemas of the API and its location list, which the database's collation
    orders; the embedding model, the sealing of vectors and [gate/calibration.py]; the throttle that the reader
    views keep in the cache. *)

From Stdlib Require Import ZArith Lia.
From stdpp Require Export base tactics gmap strings list pretty sorting.
Open Scope Z_scope.

(** ** Record update

    [r <| f := v |>] is the Python assignment [r.f = v] on an immutable copy.
    [Eta] lists a record's constructor applied to its projections; [Setter] is
    computed from it by abstracting the projection. *)

Class Eta (R : Type) := eta : R -> R.
Class Setter {R T : Type} (proj : R -> T) := set : (T -> T) -> R -> R.
Arguments set {R T} proj {_} _ _.

Ltac solve_setter :=
  match goal with
  | |- @Setter ?R ?T ?proj =>
    let e := constr:(ltac:(typeclasses eauto) : Eta R) in
    let e := eval unfold eta in e in
    let e := eval red in e in
    let p := (eval pattern proj in e) in
    match p with
    | ?f _ =>
      let t := constr:(fun (g : T -> T) => f (fun r => g (proj r))) in
      let t := eval cbv beta in t in
      exact t
    end
  end.
#[global] Hint Extern 1 (Setter _) => solve_setter : typeclass_instances.

Declare Scope upd_scope.
Notation "r <| f := v |>" := (set f (fun _ => v) r)
  (at level 12, left associativity, f constr at level 60, v at level 200,
   format "r  <| f  :=  v |>") : upd_scope.
Notation "r <| f ::= g |>" := (set f g r)
  (at level 12, left associativity, f constr at level 60, g at level 200,
   format "r  <| f  ::=  g |>") : upd_scope.
Open Scope upd_scope.

(** ** Python values

    Arguments and JSON payloads whose type the code inspects at run time
    ([type(x) is int], [isinstance(x, str)], ...).  A dictionary keeps its
    insertion order; [POther] stands for any type the code rejects by its
    default branch, and carries the type's name. *)

Inductive pyval :=
  | PNone
  | PBool (b : bool)
  | PInt (z : Z)
  | PStr (s : string)
  | PList (l : list pyval)
  | PDict (d : list (pyval * pyval))
  | POther (tyname : string).

(** Induction on a value and everything nested in its lists and dictionaries. *)
Lemma pyval_nested_ind (P : pyval -> Prop) :
  P PNone -> (forall b, P (PBool b)) -> (forall z, P (PInt z)) -> (forall s, P (PStr s)) ->
  (forall l, Forall P l -> P (PList l)) ->
  (forall d, Forall (fun kv => P kv.2) d -> P (PDict d)) ->
  (forall n, P (POther n)) -> forall v, P v.
Proof.
  intros HN HB HI HS HL HD HO. fix IH 1. intros [| | | |l|d|].
  - done.
  - apply HB.
  - apply HI.
  - apply HS.
  - apply HL. induction l; constructor; [apply IH|assumption].
  - apply HD. induction d as [|[k x] d IHd]; constructor; [apply IH|assumption].
  - apply HO.
Qed.

Section ListEqb.
Context {A : Type} (eqb : A -> A -> bool).
Fixpoint list_eqb (l1 l2 : list A) : bool :=
  match l1, l2 with
  | [], [] => true
  | x :: l1, y :: l2 => eqb x y && list_eqb l1 l2
  | _, _ => false
  end.
End ListEqb.

(** Structural equality of values, keys included. *)
Fixpoint pyval_eqb (v w : pyval) : bool :=
  match v, w with
  | PNone, PNone => true
  | PBool a, PBool b => Bool.eqb a b
  | PInt a, PInt b => Z.eqb a b
  | PStr a, PStr b => String.eqb a b
  | PList l1, PList l2 => list_eqb pyval_eqb l1 l2
  | PDict d1, PDict d2 =>
    list_eqb (fun x y => pyval_eqb x.1 y.1 && pyval_eqb x.2 y.2) d1 d2
  | POther a, POther b => String.eqb a b
  | _, _ => false
  end.

Lemma list_eqb_eq {A} (eqb : A -> A -> bool) l1 l2 :
  Forall (fun x => forall y, eqb x y = true <-> x = y) l1 ->
  list_eqb eqb l1 l2 = true <-> l1 = l2.
Proof.
  intros H. revert l2. induction H as [|x l1 Hx Hl IH]; intros [|y l2]; simpl; try done.
  rewrite andb_true_iff, Hx, IH. naive_solver.
Qed.

(** Induction on a value, its elements, and the keys and values of its dictionaries. *)
Lemma pyval_deep_ind (P : pyval -> Prop) :
  P PNone -> (forall b, P (PBool b)) -> (forall z, P (PInt z)) -> (forall s, P (PStr s)) ->
  (forall l, Forall P l -> P (PList l)) ->
  (forall d, Forall (fun kv => P kv.1 /\ P kv.2) d -> P (PDict d)) ->
  (forall n, P (POther n)) -> forall v, P v.
Proof.
  intros HN HB HI HS HL HD HO. fix IH 1. intros [| | | |l|d|].
  - done.
  - apply HB.
  - apply HI.
  - apply HS.
  - apply HL. induction l; constructor; [apply IH|assumption].
  - apply HD. induction d as [|[k x] d IHd]; constructor; [split; apply IH|assumption].
  - apply HO.
Qed.

Lemma pyval_eqb_eq v w : pyval_eqb v w = true <-> v = w.
Proof.
  revert w. induction v as [|b|z|s|l IH|d IH|n] using pyval_deep_ind; intros [] ; simpl;
    try (split; [done|congruence]); try done.
  - rewrite Bool.eqb_true_iff. naive_solver.
  - rewrite Z.eqb_eq. naive_solver.
  - rewrite String.eqb_eq. naive_solver.
  - rewrite list_eqb_eq by done. naive_solver.
  - rewrite list_eqb_eq; [naive_solver|]. rewrite Forall_forall in *. intros [k x] Hx [k' x'].
    destruct (IH _ Hx) as [Hk Hv]. simpl in *. rewrite andb_true_iff, Hk, Hv. naive_solver.
  - rewrite String.eqb_eq. naive_solver.
Qed.

#[global] Instance pyval_eq_dec : EqDecision pyval.
Proof.
  intros v w. destruct (pyval_eqb v w) eqn:E.
  - left. by apply pyval_eqb_eq.
  - right. intros ->. rewrite (proj2 (pyval_eqb_eq w w) eq_refl) in E. done.
Defined.

(** ** Exceptions, results and the store-passing monad

    An operation threads a store [S] and either returns or raises.  A raise keeps
    the writes made so far, as Python does; [atomic] is
    [transaction.atomic]: it restores the store it started from. *)

Inductive exn :=
  | ValidationError (msg : string)
  | PermissionDenied (msg : string)
  | ValueError (msg : string)
  | TypeError (msg : string)
  | KeyError (key : string)
  | IntegrityError (constraint : string)
  | DoesNotExist (model : string)
  | MultipleObjectsReturned (model : string)
  | AttributeError
  | DatabaseError (msg : string)
  | EvidenceConflict
  | ImproperlyConfigured
  | ClientError (msg : string)
  | AnnouncementConflict
  | RegistrationConflict
  | ArithmeticError (msg : string)
  | BillError (msg : string)
  | BillVoidedError
  | BillReferenceError
  | BillActorError
  | PhotoRejected (msg : string)
  | PhotoVersionMissing
  | FaceQualityError (code : string)
  | FaceEmbedderUnavailable (msg : string)
  | EmbeddingDecryptionError
  | PlateFormatError
  | PlateAlreadyRegistered
  | ReviewNotPermitted
  | ReviewNotPossible (msg : string)
  | GateAuthenticationFailed
  | GateCredentialRevoked
  | GateCredentialExpired
  | ReportClientRefConflict
  | DocumentUploadRejected (reason : string)
  | DocumentUploadQuarantined (reason : string)
  | DocumentStorageError (msg : string)
  | DocumentIntegrityError (msg : string)
  | Http404
  | NotFound (detail : string)
  | AuthenticationFailed
  | Throttled
  | OccupancySelectionRequired
  | ApiValidationError (detail : string)
  | ClientRefConflict.

#[global] Instance exn_eq_dec : EqDecision exn.
Proof. solve_decision. Defined.

Inductive result (A : Type) :=
  | Ok (a : A)
  | Err (e : exn).
Arguments Ok {A} a.
Arguments Err {A} e.

#[global] Instance result_ret : MRet result := fun A a => Ok a.
#[global] Instance result_bind : MBind result := fun A B f r =>
  match r with Ok a => f a | Err e => Err e end.

Lemma result_bind_Ok {A B} (f : A -> result B) (r : result A) b :
  r ≫= f = Ok b <-> exists a, r = Ok a /\ f a = Ok b.
Proof. destruct r; simpl; naive_solver. Qed.

(** [[f(x) for x in l]], stopping at the first exception. *)
Section RMap.
Context {A B : Type} (f : A -> result B).
Fixpoint rmap (l : list A) : result (list B) :=
  match l with
  | [] => Ok []
  | x :: l => y ← f x; ys ← rmap l; Ok (y :: ys)
  end.
End RMap.

Definition M (S A : Type) : Type := S -> result A * S.

#[global] Instance M_ret {S} : MRet (M S) := fun A a s => (Ok a, s).
#[global] Instance M_bind {S} : MBind (M S) := fun A B f m s =>
  match m s with
  | (Ok a, s') => f a s'
  | (Err e, s') => (Err e, s')
  end.

Section Monad.
Context {S A B : Type}.
Implicit Types (m : M S A) (s : S).

Definition raise (e : exn) : M S A := fun s => (Err e, s).
Definition gets (f : S -> A) : M S A := fun s => (Ok (f s), s).
Definition modify (f : S -> S) : M S unit := fun s => (Ok tt, f s).
(** [if not b: raise e] *)
Definition require (b : bool) (e : exn) : M S unit :=
  fun s => if b then (Ok tt, s) else (Err e, s).
Definition of_option (e : exn) (o : option A) : M S A :=
  fun s => match o with Some a => (Ok a, s) | None => (Err e, s) end.
Definition of_result (r : result A) : M S A := fun s => (r, s).
Definition atomic m : M S A := fun s =>
  match m s with
  | (Ok a, s') => (Ok a, s')
  | (Err e, _) => (Err e, s)
  end.
(** [try: m except e: h e]; the handler itself selects the exceptions. *)
Definition try_except m (h : exn -> M S A) : M S A := fun s =>
  match m s with
  | (Ok a, s') => (Ok a, s')
  | (Err e, s') => h e s'
  end.

Lemma bind_Ok (f : A -> M S B) m s b s' :
  (m ≫= f) s = (Ok b, s') <-> exists a s1, m s = (Ok a, s1) /\ f a s1 = (Ok b, s').
Proof.
  unfold mbind, M_bind. destruct (m s) as [[a|e] s1].
  - split; [eauto|]. by intros (a' & s2 & [= <- <-] & ?).
  - split; [done|]. by intros (a' & s2 & ? & _).
Qed.

Lemma bind_run m (f : A -> M S B) s a s1 : m s = (Ok a, s1) -> (m ≫= f) s = f a s1.
Proof. unfold mbind, M_bind. by intros ->. Qed.

Lemma bind_Err (f : A -> M S B) m s e s' :
  (m ≫= f) s = (Err e, s') <->
  m s = (Err e, s') \/ exists a s1, m s = (Ok a, s1) /\ f a s1 = (Err e, s').
Proof.
  unfold mbind, M_bind. destruct (m s) as [[a|e'] s1].
  - split; [eauto|]. by intros [?|(a' & s2 & [= <- <-] & ?)].
  - split; [intros [= <- <-]; auto|]. intros [[= <- <-]|(a' & s2 & ? & _)]; done.
Qed.

Lemma ret_Ok (a b : A) s s' : (mret a : M S A) s = (Ok b, s') <-> a = b /\ s = s'.
Proof. unfold mret, M_ret. split; [by intros [= <- <-]|by intros [-> ->]]. Qed.

Lemma require_Ok b e s u s' :
  require b e s = (Ok u, s') <-> b = true /\ s = s'.
Proof.
  unfold require. destruct b, u; split; try done; try (by intros [= <-]).
  - by intros [_ ->].
  - by intros [? _].
Qed.

Lemma gets_Ok (f : S -> A) s a s' : gets f s = (Ok a, s') <-> f s = a /\ s = s'.
Proof. unfold gets. split; [by intros [= <- <-]|by intros [-> ->]]. Qed.

Lemma modify_Ok f s u s' : modify f s = (Ok u, s') <-> f s = s'.
Proof. unfold modify. destruct u. split; [by intros [= <-]|by intros ->]. Qed.

Lemma raise_Ok e s a s' : raise e s = (Ok a, s') <-> False.
Proof. done. Qed.

Lemma of_option_Ok e (o : option A) s a s' :
  of_option e o s = (Ok a, s') <-> o = Some a /\ s = s'.
Proof.
  unfold of_option. destruct o; split; try done.
  - by intros [= <- <-].
  - by intros [[= ->] ->].
  - by intros [? _].
Qed.

Lemma of_result_Ok (r : result A) s a s' :
  of_result r s = (Ok a, s') <-> r = Ok a /\ s = s'.
Proof. unfold of_result. split; [by intros [= -> ->]|by intros [-> ->]]. Qed.

Lemma atomic_Ok m s a s' : atomic m s = (Ok a, s') <-> m s = (Ok a, s').
Proof. unfold atomic. by destruct (m s) as [[?|?] ?]. Qed.

(** A transaction that raises leaves no trace in the store. *)
Lemma atomic_Err m s e s' : atomic m s = (Err e, s') -> s' = s.
Proof. unfold atomic. destruct (m s) as [[?|?] ?]; by intros [= _ <-]. Qed.

Lemma atomic_Err_iff m s e s' :
  atomic m s = (Err e, s') <-> s' = s /\ exists s1, m s = (Err e, s1).
Proof.
  unfold atomic. destruct (m s) as [[?|?] s1]; split; try done.
  - by intros [_ [? ?]].
  - intros [= <- <-]. eauto.
  - by intros [-> [? [= <- _]]].
Qed.
End Monad.

(** A loop [for x in l: f x] over a list fixed before the loop starts. *)
Fixpoint for_each {S A} (f : A -> M S unit) (l : list A) : M S unit :=
  match l with
  | [] => mret tt
  | x :: l => f x ;; for_each f l
  end.

Fixpoint map_m {S A B} (f : A -> M S B) (l : list A) : M S (list B) :=
  match l with
  | [] => mret []
  | x :: l => y ← f x; ys ← map_m f l; mret (y :: ys)
  end.

(** Invert a successful run into the facts its steps established. *)
Ltac inv_ok_step :=
  match goal with
  | H : (_ ≫= _) _ = (Ok _, _) |- _ =>
    apply bind_Ok in H; destruct H as (? & ? & ? & ?)
  | H : mret _ _ = (Ok _, _) |- _ => apply ret_Ok in H; destruct H as [? ?]
  | H : require _ _ _ = (Ok _, _) |- _ => apply require_Ok in H; destruct H as [? ?]
  | H : gets _ _ = (Ok _, _) |- _ => apply gets_Ok in H; destruct H as [? ?]
  | H : modify _ _ = (Ok _, _) |- _ => apply modify_Ok in H
  | H : raise _ _ = (Ok _, _) |- _ => apply raise_Ok in H; destruct H
  | H : of_option _ _ _ = (Ok _, _) |- _ => apply of_option_Ok in H; destruct H as [? ?]
  | H : of_result _ _ = (Ok _, _) |- _ => apply of_result_Ok in H; destruct H as [? ?]
  | H : atomic _ _ = (Ok _, _) |- _ => apply (proj1 (atomic_Ok _ _ _ _)) in H
  end.
Ltac inv_ok := repeat (inv_ok_step; simplify_eq).

(** [sum(l)] *)
Definition zsum : list Z -> Z := foldr Z.add 0.
Lemma zsum_app l1 l2 : zsum (l1 ++ l2) = zsum l1 + zsum l2.
Proof. induction l1; cbn; lia. Qed.
#[global] Instance zsum_perm : Proper ((≡ₚ) ==> eq) zsum.
Proof. intros l1 l2 H. induction H; cbn; lia. Qed.

(** A list whose elements all have an image. *)
Lemma length_omap_le {A B} (f : A -> option B) l : (length (omap f l) <= length l)%nat.
Proof. induction l as [|x l IH]; cbn; [done|]. destruct (f x); cbn; lia. Qed.
Lemma omap_full {A B} (f : A -> option B) l :
  length (omap f l) = length l -> Forall2 (fun a b => f a = Some b) l (omap f l).
Proof.
  induction l as [|x l IH]; [constructor|]. cbn. pose proof (length_omap_le f l).
  destruct (f x) eqn:E; cbn; intros Hl; [|lia]. constructor; [done|]. apply IH. lia.
Qed.

(** ** What every run keeps

    [keeps R m w]: running [m] from [w] leaves a store related to [w] by the
    preorder [R], whether [m] returns or raises. *)
Section Keeps.
Context {S : Type} (R : S -> S -> Prop) `{!PreOrder R}.

Definition keeps {A} (m : M S A) (w : S) : Prop := R w (m w).2.

Lemma keeps_ret {A} (a : A) w : keeps (mret a) w.
Proof. unfold keeps. reflexivity. Qed.
Lemma keeps_raise {A} e w : keeps (raise e : M S A) w.
Proof. unfold keeps. reflexivity. Qed.
Lemma keeps_gets {A} (f : S -> A) w : keeps (gets f) w.
Proof. unfold keeps. reflexivity. Qed.
Lemma keeps_require b e w : keeps (require b e) w.
Proof. unfold keeps, require. destruct b; reflexivity. Qed.
Lemma keeps_of_option {A} e (o : option A) w : keeps (of_option e o) w.
Proof. unfold keeps, of_option. destruct o; reflexivity. Qed.
Lemma keeps_of_result {A} (r : result A) w : keeps (of_result r) w.
Proof. unfold keeps. reflexivity. Qed.
Lemma keeps_modify f w : R w (f w) -> keeps (modify f) w.
Proof. done. Qed.

Lemma keeps_bind {A B} (m : M S A) (f : A -> M S B) w :
  keeps m w -> (forall a w', m w = (Ok a, w') -> keeps (f a) w') -> keeps (m ≫= f) w.
Proof.
  unfold keeps, mbind, M_bind. intros Hm Hf. destruct (m w) as [[a|e] w1]; [|done].
  transitivity w1; [done|]. by apply Hf.
Qed.

Lemma keeps_atomic {A} (m : M S A) w : keeps m w -> keeps (atomic m) w.
Proof. unfold keeps, atomic. destruct (m w) as [[?|?] ?]; [done|]. reflexivity. Qed.

Lemma keeps_try {A} (m : M S A) h w :
  keeps m w -> (forall e w', keeps (h e) w') -> keeps (try_except m h) w.
Proof.
  unfold keeps, try_except. intros Hm Hh. destruct (m w) as [[?|e] w1]; [done|].
  transitivity w1; [done|]. apply Hh.
Qed.

Lemma keeps_for_each {A} (f : A -> M S unit) l w :
  (forall x w', x ∈ l -> keeps (f x) w') -> keeps (for_each f l) w.
Proof.
  revert w. induction l as [|x l IH]; intros w Hf; simpl; [apply keeps_ret|].
  apply keeps_bind; [apply Hf; left|]. intros _ w' _. apply IH.
  intros y w'' Hy. apply Hf. by right.
Qed.

Lemma keeps_map_m {A B} (f : A -> M S B) l w :
  (forall x w', x ∈ l -> keeps (f x) w') -> keeps (map_m f l) w.
Proof.
  revert w. induction l as [|x l IH]; intros w Hf; simpl; [apply keeps_ret|].
  apply keeps_bind; [apply Hf; left|]. intros y w' _.
  apply keeps_bind; [|intros; apply keeps_ret]. apply IH.
  intros z w'' Hz. apply Hf. by right.
Qed.
End Keeps.

Lemma keeps_impl {S A} (R R' : S -> S -> Prop) (m : M S A) w :
  (forall x y, R x y -> R' x y) -> keeps R m w -> keeps R' m w.
Proof. unfold keeps. auto. Qed.

(** One step of a [keeps] proof, directed by the program. *)
Ltac keeps_step :=
  match goal with
  | |- keeps ?R (_ ≫= _) _ => apply (keeps_bind R); [|intros ? ? ?]
  | |- keeps ?R (mret _) _ => apply (keeps_ret R)
  | |- keeps ?R (raise _) _ => apply (keeps_raise R)
  | |- keeps ?R (gets _) _ => apply (keeps_gets R)
  | |- keeps ?R (require _ _) _ => apply (keeps_require R)
  | |- keeps ?R (of_option _ _) _ => apply (keeps_of_option R)
  | |- keeps ?R (of_result _) _ => apply (keeps_of_result R)
  | |- keeps ?R (atomic _) _ => apply (keeps_atomic R)
  | |- keeps ?R (try_except _ _) _ => apply (keeps_try R); [|intros ? ?]
  | |- keeps ?R (for_each _ _) _ => apply (keeps_for_each R); intros ? ? ?
  | |- keeps ?R (map_m _ _) _ => apply (keeps_map_m R); intros ? ? ?
  | |- keeps _ (if ?b then _ else _) _ => destruct b eqn:?
  | |- keeps _ (match ?x with _ => _ end) _ => destruct x eqn:?
  | |- keeps _ (let _ := _ in _) _ => cbv zeta
  end.
