(* ===== verification/Table.v ===== *)
(** * Tables: the rows of one Django model

    A table maps primary keys to rows and remembers the next serial key.  A query
    returns objects in primary-key order, which is what the code's unordered
    [.first()] and [order_by("pk")] give.  A Python object is a copy of its row
    ([obj]); [save(update_fields=...)] is [update], which rewrites the named
    fields of the stored row. *)

From S2P Require Import Prelude.

Record obj (R : Type) := Obj { pk : Z; val : R }.
Arguments Obj {R}.
Arguments pk {R}.
Arguments val {R}.

(** [o~>f] is the attribute [o.f]. *)
Notation "o ~> f" := (f (val o)) (at level 2, left associativity, f at level 1, only parsing).

Record table (R : Type) := Table { rows : gmap Z R; next : Z }.
Arguments Table {R}.
Arguments rows {R}.
Arguments next {R}.

Definition empty_table {R} : table R := Table ∅ 1.

Section Ops.
Context {R : Type}.
Implicit Types (t : table R) (P : obj R -> bool) (f : R -> R).

Definition find (k : Z) t : option (obj R) := Obj k <$> rows t !! k.

Definition keys t : list Z := merge_sort Z.le (elements (dom (rows t))).
(** Every row, by increasing primary key. *)
Definition objs t : list (obj R) := omap (fun k => find k t) (keys t).

Definition select P t : list (obj R) := List.filter P (objs t).
Definition first P t : option (obj R) := head (select P t).
Definition exists_ P t : bool := existsb P (objs t).

Definition insert_row (r : R) t : table R := Table (<[next t := r]> (rows t)) (next t + 1).
Definition update (k : Z) f t : table R := Table (alter f k (rows t)) (next t).
Definition update_where P f t : table R :=
  Table (map_imap (fun k r => Some (if P (Obj k r) then f r else r)) (rows t)) (next t).
Definition delete_where P t : table R :=
  Table (map_imap (fun k r => if P (Obj k r) then None else Some r) (rows t)) (next t).
End Ops.

Section Facts.
Context {R : Type}.
Implicit Types (t : table R) (P : obj R -> bool) (f : R -> R).

Lemma find_Some k t o : find k t = Some o <-> pk o = k /\ rows t !! k = Some (val o).
Proof.
  unfold find. rewrite fmap_Some. split.
  - by intros (r & Hr & ->).
  - intros [<- H]. exists (val o). by destruct o.
Qed.

Lemma elem_of_keys t k : k ∈ keys t <-> is_Some (rows t !! k).
Proof. unfold keys. by rewrite merge_sort_Permutation, elem_of_elements, elem_of_dom. Qed.

Lemma NoDup_keys t : NoDup (keys t).
Proof. unfold keys. rewrite merge_sort_Permutation. apply NoDup_elements. Qed.

Lemma elem_of_objs t o : o ∈ objs t <-> rows t !! pk o = Some (val o).
Proof.
  unfold objs. rewrite list_elem_of_omap. split.
  - intros (k & _ & H). apply find_Some in H as [<- ?]. done.
  - intros H. exists (pk o). rewrite elem_of_keys, find_Some. by eauto.
Qed.

Definition updated k f (o : obj R) : obj R :=
  if decide (pk o = k) then Obj k (f (val o)) else o.

Lemma updated_same k f (r : R) : updated k f (Obj k r) = Obj k (f r).
Proof. unfold updated. by rewrite decide_True. Qed.

Lemma find_update j k f t : find j (update k f t) = updated k f <$> find j t.
Proof.
  unfold find, update, updated; simpl. rewrite lookup_alter.
  destruct (decide (k = j)) as [->|].
  - destruct (rows t !! j); simpl; [|done]. by rewrite decide_True.
  - destruct (rows t !! j); simpl; [|done]. by rewrite decide_False.
Qed.

Lemma update_update k f g t : update k f (update k g t) = update k (fun r => f (g r)) t.
Proof.
  unfold update. simpl. f_equal. apply map_eq. intros j. rewrite !lookup_alter.
  rewrite (decide_True (P := k = k)) by done.
  case_decide; [by destruct (rows t !! k)|done].
Qed.

Lemma objs_update k f t : objs (update k f t) = updated k f <$> objs t.
Proof.
  unfold objs. replace (keys (update k f t)) with (keys t)
    by (unfold keys, update; simpl; by rewrite dom_alter_L).
  induction (keys t) as [|j l IH]; [done|]. csimpl. rewrite find_update, IH.
  by destruct (find j t).
Qed.

(** An update that a query cannot see keeps its first answer, rewritten. *)
Lemma first_update P k f t :
  (forall r, P (Obj k (f r)) = P (Obj k r)) ->
  first P (update k f t) = updated k f <$> first P t.
Proof.
  intros HP. unfold first, select. rewrite objs_update.
  induction (objs t) as [|[j r] l IH]; [done|]. csimpl.
  replace (P (updated k f (Obj j r))) with (P (Obj j r))
    by (unfold updated; case_decide; simplify_eq/=; by rewrite ?HP).
  by destruct (P _).
Qed.

Lemma elem_of_select P t o :
  o ∈ select P t <-> rows t !! pk o = Some (val o) /\ P o = true.
Proof.
  unfold select. rewrite list_elem_of_In, filter_In, <- list_elem_of_In, elem_of_objs. done.
Qed.

Lemma select_singleton P t o :
  select P t = [o] -> rows t !! pk o = Some (val o) /\ P o = true.
Proof. intros H. apply elem_of_select. rewrite H. left. Qed.

Lemma first_Some P t o :
  first P t = Some o -> rows t !! pk o = Some (val o) /\ P o = true.
Proof.
  intros H. apply elem_of_select. unfold first in H.
  destruct (select P t); simplify_eq/=. apply list_elem_of_here.
Qed.

Lemma first_None P t :
  first P t = None <-> forall k r, rows t !! k = Some r -> P (Obj k r) = false.
Proof.
  unfold first. split.
  - intros H k r Hk. destruct (P (Obj k r)) eqn:E; [|done].
    assert (Hin : Obj k r ∈ select P t) by by apply elem_of_select.
    destruct (select P t); [by apply elem_of_nil in Hin|done].
  - intros H. destruct (select P t) as [|o l] eqn:E; [done|].
    assert (Hin : o ∈ select P t) by (rewrite E; apply list_elem_of_here).
    apply elem_of_select in Hin as [Hk HP]. apply H in Hk. destruct o; simpl in *. congruence.
Qed.

Lemma exists_true P t :
  exists_ P t = true <-> exists k r, rows t !! k = Some r /\ P (Obj k r) = true.
Proof.
  unfold exists_. rewrite existsb_exists. split.
  - intros (o & Hin & HP). apply list_elem_of_In, elem_of_objs in Hin.
    exists (pk o), (val o). by destruct o.
  - intros (k & r & Hk & HP). exists (Obj k r).
    by rewrite <- list_elem_of_In, elem_of_objs.
Qed.

Lemma exists_false P t :
  exists_ P t = false <-> forall k r, rows t !! k = Some r -> P (Obj k r) = false.
Proof.
  split.
  - intros H k r Hk. apply not_true_iff_false. intros HP.
    apply not_true_iff_false in H. apply H, exists_true. eauto.
  - intros H. apply not_true_iff_false. rewrite exists_true.
    intros (k & r & Hk & HP). rewrite (H _ _ Hk) in HP. done.
Qed.

Lemma lookup_insert_row (r : R) t k :
  rows (insert_row r t) !! k = if decide (next t = k) then Some r else rows t !! k.
Proof. apply lookup_insert. Qed.

Lemma lookup_update j f t k :
  rows (update j f t) !! k = if decide (j = k) then f <$> rows t !! k else rows t !! k.
Proof. unfold update; simpl. rewrite lookup_alter. by case_decide; subst. Qed.

Lemma lookup_update_where P f t k :
  rows (update_where P f t) !! k =
  (fun r => if P (Obj k r) then f r else r) <$> rows t !! k.
Proof. unfold update_where; simpl. rewrite map_lookup_imap. by destruct (rows t !! k). Qed.

Lemma lookup_delete_where P t k :
  rows (delete_where P t) !! k =
  rows t !! k ≫= fun r => if P (Obj k r) then None else Some r.
Proof. unfold delete_where; simpl. by rewrite map_lookup_imap. Qed.

Lemma lookup_inserted (r : R) t : rows (insert_row r t) !! next t = Some r.
Proof. by rewrite lookup_insert_row, decide_True. Qed.

Lemma all_inserted (P : Z -> R -> Prop) (r : R) t :
  (forall k x, rows t !! k = Some x -> P k x) -> P (next t) r ->
  forall k x, rows (insert_row r t) !! k = Some x -> P k x.
Proof. intros Ht Hr k x. rewrite lookup_insert_row. case_decide as E; [intros [= <-]; by subst|auto]. Qed.
Lemma is_Some_inserted (r : R) t k : is_Some (rows t !! k) -> is_Some (rows (insert_row r t) !! k).
Proof. intros H. rewrite lookup_insert_row. case_decide; eauto. Qed.

Lemma exists_inserted P (r : R) t :
  P (Obj (next t) r) = true -> exists_ P (insert_row r t) = true.
Proof. intros H. apply exists_true. exists (next t), r. by rewrite lookup_inserted. Qed.

(** The serial key of a well-formed table is fresh. *)
Definition table_wf t : Prop :=
  0 < next t /\ forall k, is_Some (rows t !! k) -> 0 < k < next t.

Lemma table_wf_fresh t : table_wf t -> rows t !! next t = None.
Proof.
  intros [_ Hwf]. destruct (rows t !! next t) eqn:E; [|done].
  assert (0 < next t < next t) by (apply Hwf; eauto). lia.
Qed.

Lemma keys_insert_row (r : R) t :
  table_wf t -> keys (insert_row r t) = keys t ++ [next t].
Proof.
  intros Hwf. apply (Sorted_unique Z.le).
  - apply Sorted_merge_sort; apply _.
  - apply StronglySorted_Sorted, StronglySorted_app_2.
    + intros x y Hx%elem_of_keys%(proj2 Hwf) ->%list_elem_of_singleton. lia.
    + apply Sorted_StronglySorted; [apply _|]. apply Sorted_merge_sort; apply _.
    + repeat constructor.
  - unfold keys. rewrite !merge_sort_Permutation. unfold insert_row; simpl.
    rewrite dom_insert_L, elements_disj_union, elements_singleton.
    + by rewrite Permutation_app_comm.
    + intros x ->%elem_of_singleton [? Hx]%elem_of_dom.
      rewrite table_wf_fresh in Hx by done. done.
Qed.

Lemma objs_insert_row (r : R) t :
  table_wf t -> objs (insert_row r t) = objs t ++ [Obj (next t) r].
Proof.
  intros Hwf. unfold objs. rewrite keys_insert_row, omap_app by done. f_equal.
  - apply list_omap_ext, Forall2_same_length_lookup_2; [done|].
    intros i x y Hx Hy. simplify_eq. unfold find. rewrite lookup_insert_row.
    case_decide; [|done]. subst. apply list_elem_of_lookup_2, elem_of_keys in Hx as [? Hx].
    by rewrite table_wf_fresh in Hx.
  - simpl. unfold find. rewrite lookup_insert_row. by rewrite decide_True.
Qed.

Lemma first_insert_row P (r : R) t :
  table_wf t ->
  first P (insert_row r t) =
  match first P t with
  | Some o => Some o
  | None => if P (Obj (next t) r) then Some (Obj (next t) r) else None
  end.
Proof.
  intros Hwf. unfold first, select. rewrite objs_insert_row by done.
  rewrite List.filter_app. destruct (List.filter P (objs t)); simpl; [|done].
  by destruct (P _).
Qed.

Lemma empty_table_wf : table_wf (@empty_table R).
Proof. split; [done|]. intros k [r Hr]. done. Qed.

Lemma update_inserted f (r : R) t : update (next t) f (insert_row r t) = insert_row (f r) t.
Proof. unfold update, insert_row. cbn. by rewrite alter_insert_eq. Qed.

Lemma insert_row_wf (r : R) t : table_wf t -> table_wf (insert_row r t).
Proof.
  intros [Hpos Hwf]. split; [simpl; lia|]. intros k [r' Hk].
  rewrite lookup_insert_row in Hk; simpl in *.
  case_decide; [lia|]. specialize (Hwf k (ex_intro _ _ Hk)). lia.
Qed.

Lemma update_wf j f t : table_wf t -> table_wf (update j f t).
Proof.
  intros [Hpos Hwf]. split; [done|]. intros k. rewrite lookup_update.
  case_decide; [rewrite fmap_is_Some|]; apply Hwf.
Qed.

Lemma update_where_wf P f t : table_wf t -> table_wf (update_where P f t).
Proof.
  intros [Hpos Hwf]. split; [done|]. intros k. rewrite lookup_update_where, fmap_is_Some.
  apply Hwf.
Qed.

Lemma delete_where_wf P t : table_wf t -> table_wf (delete_where P t).
Proof.
  intros [Hpos Hwf]. split; [done|]. intros k. rewrite lookup_delete_where.
  intros [r Hr]. apply bind_Some in Hr as (r' & Hr & _). apply Hwf. eauto.
Qed.

Lemma pk_objs t : pk <$> objs t = keys t.
Proof.
  unfold objs. assert (Forall (fun k => is_Some (rows t !! k)) (keys t)) as H
    by (apply Forall_forall; intros k; by rewrite elem_of_keys).
  induction H as [|k l [r Hk] Hl IH]; [done|]. csimpl. unfold find at 1. rewrite Hk. csimpl.
  by rewrite IH.
Qed.

Lemma NoDup_objs t : NoDup (objs t).
Proof. apply (NoDup_fmap_1 pk). rewrite pk_objs. apply NoDup_keys. Qed.

Lemma NoDup_select P t : NoDup (select P t).
Proof.
  unfold select. induction (NoDup_objs t) as [|o l Hin Hl IH]; simpl; [constructor|].
  destruct (P o); [|done]. constructor; [|done].
  rewrite list_elem_of_In, filter_In, <- list_elem_of_In. naive_solver.
Qed.

(** Updating a selected row so that it is no longer selected removes exactly it. *)
Lemma select_update_removed P k f t r :
  rows t !! k = Some r -> P (Obj k r) = true -> P (Obj k (f r)) = false ->
  select P t ≡ₚ Obj k r :: select P (update k f t).
Proof.
  intros Hk Hin Hout. apply NoDup_Permutation; [apply NoDup_select| |].
  - constructor; [|apply NoDup_select]. rewrite elem_of_select, lookup_update. simpl.
    rewrite decide_True, Hk by done. simpl. intros [H1 H2]. injection H1 as H1.
    rewrite H1 in Hout. congruence.
  - intros [j x]. rewrite elem_of_cons, !elem_of_select, lookup_update. simpl. case_decide as E.
    + subst. rewrite Hk. simpl. split.
      * intros [[= ->] _]. by left.
      * intros [[= ->]|[[= <-] H]]; [done|congruence].
    + split; [tauto|]. intros [[= -> ->]|?]; [done|tauto].
Qed.

(** Well-formedness of a concrete table is checked by evaluation. *)
Definition table_wf_b t : bool :=
  (0 <? next t) && forallb (fun k => (0 <? k) && (k <? next t)) (keys t).

Lemma table_wf_b_true t : table_wf_b t = true -> table_wf t.
Proof.
  unfold table_wf_b. rewrite andb_true_iff, forallb_forall, Z.ltb_lt. intros [H0 H].
  split; [done|]. intros k Hk. specialize (H k). rewrite <- list_elem_of_In, elem_of_keys in H.
  specialize (H Hk). rewrite andb_true_iff, !Z.ltb_lt in H. done.
Qed.

Lemma select_insert_row P (r : R) t :
  table_wf t ->
  select P (insert_row r t) =
  select P t ++ (if P (Obj (next t) r) then [Obj (next t) r] else []).
Proof.
  intros Hwf. unfold select. rewrite objs_insert_row, List.filter_app by done. simpl.
  by destruct (P _).
Qed.

Lemma exists_insert_row P (r : R) t :
  table_wf t -> exists_ P (insert_row r t) = P (Obj (next t) r) || exists_ P t.
Proof.
  intros Hwf. unfold exists_. rewrite objs_insert_row, existsb_app by done. cbn.
  by rewrite orb_false_r, orb_comm.
Qed.

Lemma select_ext P Q t :
  (forall k r, rows t !! k = Some r -> P (Obj k r) = Q (Obj k r)) -> select P t = select Q t.
Proof.
  intros H. unfold select. assert (Forall (fun o => P o = Q o) (objs t)) as HF.
  { apply Forall_forall. intros [k r] Ho%elem_of_objs. by apply H. }
  induction HF as [|o l Ho _ IH]; [done|]. cbn. by rewrite Ho, IH.
Qed.

(** A query that gains exactly one row. *)
Lemma select_gains P Q k r t :
  rows t !! k = Some r -> P (Obj k r) = false -> Q (Obj k r) = true ->
  (forall j x, j <> k -> rows t !! j = Some x -> P (Obj j x) = Q (Obj j x)) ->
  select Q t ≡ₚ Obj k r :: select P t.
Proof.
  intros Hk HP HQ Hrest. apply NoDup_Permutation; [apply NoDup_select| |].
  - constructor; [|apply NoDup_select]. rewrite elem_of_select. cbn. intros [_ H]. congruence.
  - intros [j x]. rewrite elem_of_cons, !elem_of_select. cbn. destruct (decide (j = k)) as [->|Hne].
    + split; [intros [Hx _]; left; congruence|]. intros [[= ->]|[Hx H]]; [done|congruence].
    + split.
      * intros [Hx H]. right. by rewrite (Hrest _ _ Hne Hx).
      * intros [[= -> _]|[Hx H]]; [done|]. by rewrite <- (Hrest _ _ Hne Hx).
Qed.

Lemma select_nil P t :
  select P t = [] <-> forall k r, rows t !! k = Some r -> P (Obj k r) = false.
Proof. rewrite <- first_None. unfold first. by destruct (select P t). Qed.
End Facts.

Create HintDb tables discriminated.
#[export] Hint Resolve empty_table_wf insert_row_wf update_wf update_where_wf
  delete_where_wf table_wf_fresh : tables.
Create Rewrite HintDb tables.
#[export] Hint Rewrite @lookup_insert_row @lookup_update @lookup_update_where
  @lookup_delete_where : tables.

(** ** Evolution of a table

    [evolves P t t']: the table keeps its serial keys apart, and every row of [t] is
    still there, changed at most by [P]. *)
Section Evolves.
Context {R : Type} (P : R -> R -> Prop) `{!PreOrder P}.
Implicit Types (t : table R).

Definition evolves t t' : Prop :=
  table_wf t -> table_wf t' /\
  forall k r, rows t !! k = Some r -> exists r', rows t' !! k = Some r' /\ P r r'.

#[export] Instance evolves_preorder : PreOrder evolves.
Proof.
  split.
  - intros t Hwf. split; [done|]. intros k r Hk. exists r. split; [done|]. reflexivity.
  - intros t1 t2 t3 H12 H23 Hwf. destruct (H12 Hwf) as [Hwf2 H1]. destruct (H23 Hwf2) as [Hwf3 H2].
    split; [done|]. intros k r Hk. destruct (H1 k r Hk) as (r2 & Hk2 & HP).
    destruct (H2 k r2 Hk2) as (r3 & Hk3 & HP'). exists r3. split; [done|].
    by transitivity r2.
Qed.

Lemma evolves_insert (r : R) t : evolves t (insert_row r t).
Proof.
  intros Hwf. split; [auto with tables|]. intros k r' Hk. exists r'. split; [|reflexivity].
  rewrite lookup_insert_row. case_decide as E; [|done]. subst.
  by rewrite table_wf_fresh in Hk.
Qed.

Lemma evolves_update j f t :
  (forall r, rows t !! j = Some r -> P r (f r)) -> evolves t (update j f t).
Proof.
  intros Hf Hwf. split; [auto with tables|]. intros k r Hk. rewrite lookup_update.
  case_decide as E; [subst; rewrite Hk; simpl; eauto|]. exists r. split; [done|]. reflexivity.
Qed.

Lemma evolves_update_where Q f t :
  (forall k r, rows t !! k = Some r -> Q (Obj k r) = true -> P r (f r)) ->
  evolves t (update_where Q f t).
Proof.
  intros Hf Hwf. split; [auto with tables|]. intros k r Hk. rewrite lookup_update_where, Hk.
  simpl. destruct (Q _) eqn:E; [eauto|]. exists r. split; [done|]. reflexivity.
Qed.
End Evolves.

(** Turn lookups in an updated table into lookups in the table it came from. *)
Ltac simpl_table := repeat (progress (autorewrite with tables in *; simpl in *) || case_decide).

(** Use the facts a successful query established. *)
Ltac inv_query :=
  repeat match goal with
  | H : Some _ = find _ _ |- _ => symmetry in H
  | H : Some _ = first _ _ |- _ => symmetry in H
  | H : None = first _ _ |- _ => symmetry in H
  | H : false = exists_ _ _ |- _ => symmetry in H
  | H : true = exists_ _ _ |- _ => symmetry in H
  | H : find _ _ = Some _ |- _ => apply find_Some in H as [? ?]
  | H : select _ _ = [_] |- _ => apply select_singleton in H as [? ?]
  | H : first _ _ = Some _ |- _ => apply first_Some in H as [? ?]
  | H : exists_ _ _ = false |- _ => rewrite exists_false in H
  | H : first _ _ = None |- _ => rewrite first_None in H
  end; simplify_eq.

(** [order_by(key)]: a stable sort. *)
Definition key_le {R} (key : obj R -> Z) (a b : obj R) : Prop := key a <= key b.
#[export] Instance key_le_dec {R} (key : obj R -> Z) : RelDecision (key_le key).
Proof. intros a b. unfold key_le. apply _. Defined.
Definition order_by {R} (key : obj R -> Z) : list (obj R) -> list (obj R) :=
  merge_sort (key_le key).

Lemma order_by_perm {R} (key : obj R -> Z) l : order_by key l ≡ₚ l.
Proof. unfold order_by. apply merge_sort_Permutation. Qed.
Lemma elem_of_order_by {R} (key : obj R -> Z) l o : o ∈ order_by key l <-> o ∈ l.
Proof. unfold order_by. by rewrite merge_sort_Permutation. Qed.

(** The rows a query selects have distinct keys. *)
Lemma sublist_filter {A} (f : A -> bool) l : sublist (List.filter f l) l.
Proof. induction l as [|x l IH]; cbn; [constructor|]. destruct (f x); by constructor. Qed.
Lemma NoDup_pk_select {R} P (t : table R) : NoDup (pk <$> select P t).
Proof.
  pose proof (NoDup_keys t) as H. rewrite <-pk_objs in H.
  refine (sublist_NoDup _ _ H _). apply fmap_sublist, sublist_filter.
Qed.
Lemma filter_and {A} (f g : A -> bool) l : List.filter f (List.filter g l) = List.filter (fun x => g x && f x) l.
Proof. induction l as [|x l IH]; [done|]. cbn. destruct (g x); cbn; [|done]. by destruct (f x); rewrite IH. Qed.
Lemma existsb_In {A} (f : A -> bool) l : existsb f l = true <-> exists x, x ∈ l /\ f x = true.
Proof. rewrite existsb_exists. by setoid_rewrite list_elem_of_In. Qed.
