(* ===== verification/PyStr.v ===== *)
(** * Python strings

    A Python [str] is modelled by its UTF-8 encoding, a Rocq [string] of bytes:
    byte order is code-point order, [encode("utf-8")] is the identity, and
    [py_len] counts code points.  [lower], [upper] and [strip] act on the ASCII
    characters and leave every other byte alone. *)

From Stdlib Require Export Ascii String.
From Stdlib Require Import DecimalString DecimalPos DecimalZ DecimalFacts.
From S2P Require Import Prelude.
Open Scope Z_scope.
Abbreviation length := List.length.

Definition code (c : ascii) : Z := Z.of_nat (nat_of_ascii c).
Definition chr (n : Z) : ascii := ascii_of_nat (Z.to_nat n).

Definition between (lo hi : Z) (c : ascii) : bool := (lo <=? code c) && (code c <=? hi).
Definition is_digit : ascii -> bool := between 48 57.
Definition is_upper : ascii -> bool := between 65 90.
Definition is_lower : ascii -> bool := between 97 122.
(** [str.isspace] on ASCII. *)
Definition is_space (c : ascii) : bool := between 9 13 c || between 28 32 c.
Definition is_hex (c : ascii) : bool := is_digit c || between 97 102 c.

Definition lower_char (c : ascii) : ascii := if is_upper c then chr (code c + 32) else c.
Definition upper_char (c : ascii) : ascii := if is_lower c then chr (code c - 32) else c.

Fixpoint smap (f : ascii -> ascii) (s : string) : string :=
  match s with
  | EmptyString => EmptyString
  | String c s => String (f c) (smap f s)
  end.
Fixpoint sforall (p : ascii -> bool) (s : string) : bool :=
  match s with
  | EmptyString => true
  | String c s => p c && sforall p s
  end.
Fixpoint sfilter (p : ascii -> bool) (s : string) : string :=
  match s with
  | EmptyString => EmptyString
  | String c s => if p c then String c (sfilter p s) else sfilter p s
  end.

Definition py_lower : string -> string := smap lower_char.
Definition py_upper : string -> string := smap upper_char.

Fixpoint lstrip (p : ascii -> bool) (s : string) : string :=
  match s with
  | EmptyString => EmptyString
  | String c s' => if p c then lstrip p s' else s
  end.
(** Drop the longest suffix of characters in [p]. *)
Fixpoint rstrip (p : ascii -> bool) (s : string) : string :=
  match s with
  | EmptyString => EmptyString
  | String c s' =>
    match rstrip p s' with
    | EmptyString => if p c then EmptyString else String c EmptyString
    | r => String c r
    end
  end.
Definition strip_chars (p : ascii -> bool) (s : string) : string := rstrip p (lstrip p s).
Definition py_strip : string -> string := strip_chars is_space.

(** [bool(s)] *)
Definition truthy (s : string) : bool := match s with EmptyString => false | _ => true end.
Definition blank (s : string) : bool := negb (truthy (py_strip s)).

(** [s.removeprefix(p)]: [None] when [p] is not a prefix. *)
Fixpoint drop_prefix (p s : string) : option string :=
  match p, s with
  | EmptyString, _ => Some s
  | String a p, String b s => if Ascii.eqb a b then drop_prefix p s else None
  | String _ _, EmptyString => None
  end.
Definition starts_with (p s : string) : bool :=
  match drop_prefix p s with Some _ => true | None => false end.
Definition removeprefix (p s : string) : string :=
  match drop_prefix p s with Some r => r | None => s end.

Definition slen (s : string) : Z := Z.of_nat (String.length s).
(** A UTF-8 continuation byte [10xxxxxx] does not start a code point. *)
Definition is_cont (c : ascii) : bool := between 128 191 c.
Definition py_len (s : string) : Z := slen (sfilter (fun c => negb (is_cont c)) s).
(** [s[:n]] in code points. *)
Fixpoint py_take (n : nat) (s : string) : string :=
  match s with
  | EmptyString => EmptyString
  | String c s' =>
    if is_cont c then String c (py_take n s')
    else match n with O => EmptyString | S n => String c (py_take n s') end
  end.

(** [s.split(sep, 1)[0]] *)
Fixpoint before_char (sep : ascii) (s : string) : string :=
  match s with
  | EmptyString => EmptyString
  | String c s => if Ascii.eqb c sep then EmptyString else String c (before_char sep s)
  end.

(** [s.split(sep)]: never empty. *)
Fixpoint split_char (sep : ascii) (s : string) : list string :=
  match s with
  | EmptyString => [EmptyString]
  | String c s =>
    if Ascii.eqb c sep then EmptyString :: split_char sep s
    else match split_char sep s with
      | [] => [String c EmptyString]
      | x :: l => String c x :: l
      end
  end.
(** [s.rsplit(sep, 1)[-1]] *)
Definition after_last_char (sep : ascii) (s : string) : string :=
  default EmptyString (last (split_char sep s)).
(** [needle in s] *)
Fixpoint contains (needle s : string) : bool :=
  starts_with needle s ||
  match s with EmptyString => false | String _ s => contains needle s end.

(** [s in l] *)
Definition str_in (s : string) (l : list string) : bool := existsb (String.eqb s) l.

(** [str(n)] and [int(s)] on decimal notation. *)
Definition zstr (n : Z) : string := NilZero.string_of_int (Z.to_int n).
Definition parse_int (s : string) : option Z := Z.of_int <$> NilZero.int_of_string s.

(** The order of two strings: by code points, which is byte order in UTF-8. *)
Fixpoint sle (s1 s2 : string) : bool :=
  match s1, s2 with
  | EmptyString, _ => true
  | String _ _, EmptyString => false
  | String a s1, String b s2 => (code a <? code b) || ((code a =? code b) && sle s1 s2)
  end.

(** The longest prefix of characters in [p], and the rest. *)
Fixpoint span (p : ascii -> bool) (s : string) : string * string :=
  match s with
  | EmptyString => (EmptyString, EmptyString)
  | String c s' =>
    if p c then let '(a, b) := span p s' in (String c a, b) else (EmptyString, s)
  end.

(** [sep.join(parts)] *)
Fixpoint join (sep : string) (parts : list string) : string :=
  match parts with
  | [] => EmptyString
  | [x] => x
  | x :: l => x +:+ sep +:+ join sep l
  end.

Section Facts.
Implicit Types (s : string) (p : ascii -> bool).

(** A property of characters is checked on all 256 of them. *)
Lemma ascii_forall p : forallb p (chr <$> seqZ 0 256) = true -> forall c, p c = true.
Proof.
  rewrite forallb_forall. intros H c. apply H, list_elem_of_In, list_elem_of_fmap.
  exists (code c). unfold chr, code. rewrite Nat2Z.id, ascii_nat_embedding. split; [done|].
  apply elem_of_seqZ. pose proof (nat_ascii_bounded c). lia.
Qed.

Lemma ascii_forall_impl p q :
  forallb (fun c => implb (p c) (q c)) (chr <$> seqZ 0 256) = true ->
  forall c, p c = true -> q c = true.
Proof. intros H c Hp. pose proof (ascii_forall _ H c) as Hc. simpl in Hc. by rewrite Hp in Hc. Qed.

Lemma app_cons c s1 s2 : String c s1 +:+ s2 = String c (s1 +:+ s2).
Proof. done. Qed.

Lemma app_nil_l s : EmptyString +:+ s = s.
Proof. done. Qed.

Lemma sforall_app p s1 s2 : sforall p (s1 +:+ s2) = sforall p s1 && sforall p s2.
Proof. induction s1; simpl; [done|]. rewrite IHs1. by destruct (p a). Qed.

Lemma smap_app f s1 s2 : smap f (s1 +:+ s2) = smap f s1 +:+ smap f s2.
Proof. induction s1; [done|]. rewrite app_cons. simpl. rewrite IHs1. done. Qed.

Lemma smap_id f s p :
  (forall c, p c = true -> f c = c) -> sforall p s = true -> smap f s = s.
Proof.
  intros Hf. induction s; simpl; [done|]. rewrite andb_true_iff. intros [? ?].
  rewrite Hf, IHs; done.
Qed.

Lemma sforall_smap p q f s :
  (forall c, p c = true -> q (f c) = true) -> sforall p s = true ->
  sforall q (smap f s) = true.
Proof.
  intros Hf. induction s; simpl; [done|]. rewrite !andb_true_iff. naive_solver.
Qed.

Lemma sforall_impl p q s :
  (forall c, p c = true -> q c = true) -> sforall p s = true -> sforall q s = true.
Proof. intros Hi. induction s; simpl; rewrite ?andb_true_iff; naive_solver. Qed.

Lemma length_smap f s : String.length (smap f s) = String.length s.
Proof. induction s; simpl; congruence. Qed.

Lemma sforall_sfilter p s : sforall p (sfilter p s) = true.
Proof. induction s; simpl; [done|]. destruct (p a) eqn:E; simpl; rewrite ?E; done. Qed.

Lemma sfilter_id p s : sforall p s = true -> sfilter p s = s.
Proof.
  induction s; simpl; [done|]. rewrite andb_true_iff. intros [-> ?]. by rewrite IHs.
Qed.

Lemma drop_prefix_app (x s : string) : drop_prefix x (x +:+ s) = Some s.
Proof. induction x; simpl; [done|]. by rewrite Ascii.eqb_refl. Qed.

Lemma drop_prefix_Some (x s r : string) : drop_prefix x s = Some r <-> s = x +:+ r.
Proof.
  split; [|intros ->; apply drop_prefix_app].
  revert s; induction x; intros s; simpl; [by intros [= ->]|].
  destruct s as [|b s]; [done|]. destruct (Ascii.eqb_spec a b) as [->|]; [|done].
  intros H. rewrite app_cons. f_equal. by apply IHx.
Qed.

Lemma string_app_nil_r s : s +:+ EmptyString = s.
Proof. induction s; [done|]. rewrite app_cons. by rewrite IHs. Qed.

Lemma string_app_assoc s1 s2 s3 : s1 +:+ (s2 +:+ s3) = (s1 +:+ s2) +:+ s3.
Proof. induction s1; [done|]. rewrite !app_cons. by rewrite IHs1. Qed.

Lemma string_app_inj_r s s1 s2 : s +:+ s1 = s +:+ s2 -> s1 = s2.
Proof. induction s; [done|]. rewrite !app_cons. intros [= H]. auto. Qed.
Lemma string_length_app s1 s2 :
  String.length (s1 +:+ s2) = (String.length s1 + String.length s2)%nat.
Proof. induction s1; [done|]. rewrite app_cons. simpl. by rewrite IHs1. Qed.

(** Joined parts are at least as long as the parts and the separators between them. *)
Lemma join_length {A} (f : A -> string) (g : A -> nat) l :
  l <> [] -> Forall (fun x => (g x <= String.length (f x))%nat) l ->
  (list_sum (List.map (fun x => S (g x)) l) <= S (String.length (join "," (List.map f l))))%nat.
Proof.
  induction l as [|x l IH]; [done|]. intros _ HF. inv HF.
  destruct l as [|y l]; [simpl in *; lia|].
  change (join "," (List.map f (x :: y :: l)))
    with (f x +:+ ("," +:+ join "," (List.map f (y :: l)))).
  rewrite !string_length_app. specialize (IH ltac:(done) ltac:(done)). simpl in *. lia.
Qed.

Lemma code_inj a b : code a = code b -> a = b.
Proof.
  unfold code. intros H. rewrite <- (ascii_nat_embedding a), <- (ascii_nat_embedding b).
  by replace (nat_of_ascii a) with (nat_of_ascii b) by lia.
Qed.

Lemma sle_total s1 s2 : sle s1 s2 = true \/ sle s2 s1 = true.
Proof.
  revert s2. induction s1 as [|a s1 IH]; intros [|b s2]; simpl; auto.
  destruct (Z.lt_trichotomy (code a) (code b)) as [H|[H|H]].
  - left. by rewrite (proj2 (Z.ltb_lt _ _) H).
  - rewrite H, Z.ltb_irrefl, Z.eqb_refl. simpl. apply IH.
  - right. by rewrite (proj2 (Z.ltb_lt _ _) H).
Qed.

Lemma sle_antisym s1 s2 : sle s1 s2 = true -> sle s2 s1 = true -> s1 = s2.
Proof.
  revert s2. induction s1 as [|a s1 IH]; intros [|b s2]; simpl; try done.
  rewrite !orb_true_iff, !andb_true_iff, !Z.ltb_lt, !Z.eqb_eq.
  intros [?|[? ?]] [?|[? ?]]; try lia. f_equal; [by apply code_inj|auto].
Qed.

Lemma sle_trans s1 s2 s3 : sle s1 s2 = true -> sle s2 s3 = true -> sle s1 s3 = true.
Proof.
  revert s2 s3. induction s1 as [|a s1 IH]; intros [|b s2] [|c s3]; simpl; try done.
  rewrite !orb_true_iff, !andb_true_iff, !Z.ltb_lt, !Z.eqb_eq.
  intros [?|[? ?]] [?|[? ?]]; try (left; lia). right. split; [lia|eauto].
Qed.

Lemma parse_zstr n : parse_int (zstr n) = Some n.
Proof.
  unfold parse_int, zstr. rewrite NilZero.isi; simpl; [by rewrite DecimalZ.of_to| |].
  - destruct n as [|p|p]; simpl; try done. intros [= H]. by apply DecimalPos.Unsigned.to_uint_nonnil in H.
  - destruct n as [|p|p]; simpl; try done. intros [= H]. by apply DecimalPos.Unsigned.to_uint_nonnil in H.
Qed.

Lemma zstr_inj n m : zstr n = zstr m -> n = m.
Proof. intros H. pose proof (parse_zstr n) as Hn. rewrite H, parse_zstr in Hn. congruence. Qed.

Lemma span_app p s rest :
  sforall p s = true -> match rest with String c _ => p c = false | _ => True end ->
  span p (s +:+ rest) = (s, rest).
Proof.
  intros Hs Hr. induction s as [|c s IH].
  - rewrite app_nil_l. destruct rest as [|c r]; simpl; [done|]. by rewrite Hr.
  - rewrite app_cons. simpl in *. apply andb_true_iff in Hs as [-> Hs]. by rewrite IH.
Qed.

Definition is_number_char (c : ascii) : bool := is_digit c || Ascii.eqb c "-".

Lemma zstr_chars n : sforall is_number_char (zstr n) = true.
Proof.
  assert (forall d, sforall is_number_char (NilEmpty.string_of_uint d) = true) as H
    by (induction d; simpl; auto).
  unfold zstr, NilZero.string_of_int, NilZero.string_of_uint.
  destruct (Z.to_int n) as [d|d]; destruct d eqn:E; try rewrite <- E; simpl; auto.
Qed.

Lemma zstr_nonempty n : exists c s, zstr n = String c s /\ is_number_char c = true.
Proof.
  destruct (zstr n) as [|c s] eqn:E.
  - pose proof (parse_zstr n) as H. by rewrite E in H.
  - exists c, s. split; [done|]. pose proof (zstr_chars n) as H. rewrite E in H. simpl in H.
    by apply andb_true_iff in H as [? _].
Qed.
End Facts.
