(* ===== verification/Json.v ===== *)
(** * Json: reading JSON text the program did not write

    What [maintenance/ai.py] and [finance/ai.py] take from [json.loads]: the whole grammar
    CPython accepts, white space, escapes, surrogate pairs and duplicate keys included.  A
    number with a fraction or an exponent, [NaN] and the infinities are the value
    [POther "float"], which every check of the callers refuses.  The interpreter's
    recursion limit is not modelled. *)

From S2P Require Import Prelude PyStr.
Open Scope Z_scope.

(** [JSONDecodeError] is [Malformed]; [IntTooLong] is the [ValueError] that CPython raises
    on an integer of more than 4300 digits. *)
Inductive parsed (A : Type) :=
  | Parsed (a : A) (rest : string)
  | Malformed
  | IntTooLong
  | OutOfFuel.
Arguments Parsed {A} a rest.
Arguments Malformed {A}.
Arguments IntTooLong {A}.
Arguments OutOfFuel {A}.

Definition pbind {A B} (p : parsed A) (f : A -> string -> parsed B) : parsed B :=
  match p with
  | Parsed a rest => f a rest
  | Malformed => Malformed
  | IntTooLong => IntTooLong
  | OutOfFuel => OutOfFuel
  end.

(** ** Tokens *)

Definition is_json_space (c : ascii) : bool :=
  (code c =? 32) || (code c =? 9) || (code c =? 10) || (code c =? 13).
Definition skip_ws : string -> string := lstrip is_json_space.

(** The UTF-8 encoding of a code point; a lone surrogate takes three bytes too. *)
Definition utf8 (n : Z) (rest : string) : string :=
  if n <? 128 then String (chr n) rest
  else if n <? 2048 then String (chr (192 + n / 64)) (String (chr (128 + n mod 64)) rest)
  else if n <? 65536 then
    String (chr (224 + n / 4096)) (String (chr (128 + n / 64 mod 64))
      (String (chr (128 + n mod 64)) rest))
  else String (chr (240 + n / 262144)) (String (chr (128 + n / 4096 mod 64))
    (String (chr (128 + n / 64 mod 64)) (String (chr (128 + n mod 64)) rest))).

Definition hex_digit_of (c : ascii) : option Z :=
  if is_digit c then Some (code c - 48)
  else if between 97 102 c then Some (code c - 87)
  else if between 65 70 c then Some (code c - 55) else None.
Definition hex4 (a b c d : ascii) : option Z :=
  match hex_digit_of a, hex_digit_of b, hex_digit_of c, hex_digit_of d with
  | Some a, Some b, Some c, Some d => Some (a * 4096 + b * 256 + c * 16 + d)
  | _, _, _, _ => None
  end.
Definition is_high (n : Z) : bool := (55296 <=? n) && (n <=? 56319).
Definition is_low (n : Z) : bool := (56320 <=? n) && (n <=? 57343).

Definition escaped_char (c : ascii) : option Z :=
  match code c with
  | 34 => Some 34 | 92 => Some 92 | 47 => Some 47 | 98 => Some 8
  | 102 => Some 12 | 110 => Some 10 | 114 => Some 13 | 116 => Some 9
  | _ => None
  end.

(** The text after an opening quote, up to the closing one.  [high] is a high surrogate
    just read, which a low one completes. *)
Fixpoint scan_string (high : option Z) (s : string) : parsed string :=
  let flush rest := match high with Some h => utf8 h rest | None => rest end in
  let push n p := pbind p (fun t rest => Parsed (flush (utf8 n t)) rest) in
  match s with
  | EmptyString => Malformed
  | String c s =>
    if code c =? 34 then Parsed (flush EmptyString) s
    else if code c <? 32 then Malformed
    else if negb (code c =? 92) then pbind (scan_string None s) (fun t rest => Parsed (flush (String c t)) rest)
    else match s with
    | EmptyString => Malformed
    | String e s =>
      match escaped_char e with
      | Some n => push n (scan_string None s)
      | None =>
        if negb (code e =? 117) then Malformed else
        match s with
        | String a (String b (String c (String d s))) =>
          match hex4 a b c d, high with
          | None, _ => Malformed
          | Some n, Some h =>
            if is_low n
            then pbind (scan_string None s) (fun t rest =>
              Parsed (utf8 (65536 + (h - 55296) * 1024 + (n - 56320)) t) rest)
            else if is_high n
            then pbind (scan_string (Some n) s) (fun t rest => Parsed (flush t) rest)
            else push n (scan_string None s)
          | Some n, None =>
            if is_high n then scan_string (Some n) s else push n (scan_string None s)
          end
        | _ => Malformed
        end
      end
    end
  end.

Definition after (c : ascii) (s : string) : option string :=
  match s with
  | String c' r => if Ascii.eqb c' c then Some r else None
  | EmptyString => None
  end.

(** A number, its integer part read; [rest] may continue it to a float. *)
Definition fraction (s : string) : option string :=
  match after "." s with
  | Some r => let '(digits, rest) := span is_digit r in if truthy digits then Some rest else None
  | None => None
  end.
Definition exponent (s : string) : option string :=
  match s with
  | String e r =>
    if Ascii.eqb e "e" || Ascii.eqb e "E" then
      let r := match r with
        | String c r' => if Ascii.eqb c "+" || Ascii.eqb c "-" then r' else r
        | EmptyString => r
        end in
      let '(digits, rest) := span is_digit r in if truthy digits then Some rest else None
    else None
  | EmptyString => None
  end.

Definition MAX_INT_DIGITS : Z := 4300.
Definition PFloat : pyval := POther "float".

Definition scan_number (s : string) : parsed pyval :=
  let '(sign, s) := match after "-" s with Some r => ("-", r) | None => (EmptyString, s) end in
  let '(digits, rest) := match after "0" s with Some r => ("0", r) | None => span is_digit s end in
  if negb (truthy digits) then Malformed
  else match fraction rest, exponent (default rest (fraction rest)) with
    | _, Some rest => Parsed PFloat rest
    | Some rest, None => Parsed PFloat rest
    | None, None =>
      if MAX_INT_DIGITS <? slen digits then IntTooLong
      else match parse_int (sign +:+ digits) with
        | Some z => Parsed (PInt z) rest
        | None => Malformed
        end
    end.

Definition constants : list (string * pyval) :=
  [("null", PNone); ("true", PBool true); ("false", PBool false); ("NaN", PFloat);
   ("Infinity", PFloat); ("-Infinity", PFloat)].
Fixpoint scan_constant (l : list (string * pyval)) (s : string) : option (pyval * string) :=
  match l with
  | [] => None
  | (name, v) :: l =>
    match drop_prefix name s with Some rest => Some (v, rest) | None => scan_constant l s end
  end.

(** ** Values *)

(** [d[k] = v] *)
Fixpoint dict_set (k : pyval) (v : pyval) (d : list (pyval * pyval)) : list (pyval * pyval) :=
  match d with
  | [] => [(k, v)]
  | (k', v') :: d => if decide (k' = k) then (k, v) :: d else (k', v') :: dict_set k v d
  end.

(** [d.get(k)] *)
Fixpoint item_get (k : string) (d : list (pyval * pyval)) : option pyval :=
  match d with
  | [] => None
  | (k', v) :: d => if bool_decide (k' = PStr k) then Some v else item_get k d
  end.

(** [bool(v)]; a float counts as true. *)
Definition py_bool (v : pyval) : bool :=
  match v with
  | PNone => false
  | PBool b => b
  | PInt z => negb (z =? 0)
  | PStr s => truthy s
  | PList l => negb (Nat.eqb (length l) 0)
  | PDict d => negb (Nat.eqb (length d) 0)
  | POther _ => true
  end.

(** [scan_once]; the elements of an array and the members of an object are read after
    their opening bracket, with what was read before them. *)
Fixpoint scan_value (fuel : nat) (s : string) : parsed pyval :=
  match fuel with
  | O => OutOfFuel
  | S fuel =>
    match s with
    | EmptyString => Malformed
    | String c r =>
      if code c =? 34 then pbind (scan_string None r) (fun t rest => Parsed (PStr t) rest)
      else if Ascii.eqb c "[" then
        match after "]" (skip_ws r) with
        | Some rest => Parsed (PList []) rest
        | None => pbind (scan_items fuel (skip_ws r)) (fun l rest => Parsed (PList l) rest)
        end
      else if Ascii.eqb c "{" then
        match after "}" (skip_ws r) with
        | Some rest => Parsed (PDict []) rest
        | None => pbind (scan_members fuel [] (skip_ws r)) (fun d rest => Parsed (PDict d) rest)
        end
      else match scan_constant constants s with
        | Some (v, rest) => Parsed v rest
        | None => scan_number s
        end
    end
  end
with scan_items (fuel : nat) (s : string) : parsed (list pyval) :=
  match fuel with
  | O => OutOfFuel
  | S fuel =>
    pbind (scan_value fuel s) (fun v rest =>
      let rest := skip_ws rest in
      match after "]" rest, after "," rest with
      | Some rest, _ => Parsed [v] rest
      | None, Some rest => pbind (scan_items fuel (skip_ws rest)) (fun l rest => Parsed (v :: l) rest)
      | None, None => Malformed
      end)
  end
with scan_members (fuel : nat) (d : list (pyval * pyval)) (s : string) :
    parsed (list (pyval * pyval)) :=
  match fuel with
  | O => OutOfFuel
  | S fuel =>
    match s with
    | String q r =>
      if negb (code q =? 34) then Malformed else
      pbind (scan_string None r) (fun k rest =>
        match after ":" (skip_ws rest) with
        | None => Malformed
        | Some rest =>
          pbind (scan_value fuel (skip_ws rest)) (fun v rest =>
            let rest := skip_ws rest in
            let d := dict_set (PStr k) v d in
            match after "}" rest, after "," rest with
            | Some rest, _ => Parsed d rest
            | None, Some rest => scan_members fuel d (skip_ws rest)
            | None, None => Malformed
            end)
        end)
    | EmptyString => Malformed
    end
  end.

(** [json.loads(s)]: the value and nothing but white space after it. *)
Definition loads (s : string) : parsed pyval :=
  pbind (scan_value (S (2 * String.length s)) (skip_ws s)) (fun v rest =>
    match skip_ws rest with EmptyString => Parsed v EmptyString | _ => Malformed end).

Definition demo_quote : string := String (chr 34) EmptyString.
Example loads_object :
  loads ("{" +:+ demo_quote +:+ "a" +:+ demo_quote +:+ ": [1, -20, 1.5], " +:+ demo_quote +:+ "a" +:+ demo_quote +:+ " : null }") =
    Parsed (PDict [(PStr "a", PNone)]) "".
Proof. vm_compute. reflexivity. Qed.
Example loads_pair :
  loads (demo_quote +:+ "\ud83d\ude00\u00e9\n" +:+ demo_quote) = Parsed (PStr ("😀é" +:+ String (chr 10) "")) "".
Proof. vm_compute. reflexivity. Qed.

(** ** The reader always answers

    Every step consumes text: a value costs two units of fuel per character, so [loads]
    never runs out. *)

Definition consumes {A} (p : parsed A) (n : nat) : Prop :=
  match p with
  | Parsed _ rest => (String.length rest < n)%nat
  | OutOfFuel => False
  | _ => True
  end.

Lemma consumes_pbind {A B} (p : parsed A) (f : A -> string -> parsed B) n m :
  consumes p n -> (forall a rest, (String.length rest < n)%nat -> consumes (f a rest) m) ->
  consumes (pbind p f) m.
Proof. destruct p; cbn; auto. Qed.
Lemma consumes_weaken {A} (p : parsed A) n m : consumes p n -> (n <= m)%nat -> consumes p m.
Proof. destruct p; cbn; auto. lia. Qed.

Lemma lstrip_length p s : (String.length (lstrip p s) <= String.length s)%nat.
Proof. induction s as [|c s IH]; cbn; [done|]. destruct (p c); cbn; lia. Qed.
Lemma span_length p s :
  String.length s = (String.length (span p s).1 + String.length (span p s).2)%nat.
Proof.
  induction s as [|c s IH]; cbn; [done|]. destruct (p c); [|done].
  destruct (span p s) as [a b]. cbn in *. lia.
Qed.
Lemma drop_prefix_length p s r : drop_prefix p s = Some r -> String.length s = (String.length p + String.length r)%nat.
Proof. intros H%drop_prefix_Some. subst. by rewrite string_length_app. Qed.
Lemma after_length c s r : after c s = Some r -> String.length s = S (String.length r).
Proof. destruct s as [|c' s]; cbn; [done|]. destruct (Ascii.eqb c' c); [|done]. by intros [= ->]. Qed.

(** Follow a reader through its cases; [IH] is what its recursive calls consume. *)
Ltac eats IH :=
  repeat match goal with
  | |- consumes Malformed _ => exact I
  | |- consumes IntTooLong _ => exact I
  | |- consumes (Parsed _ _) _ => cbn [consumes String.length] in *; lia
  | |- consumes (pbind _ _) _ => eapply consumes_pbind; [apply IH; cbn [String.length] in *; lia|intros ? ? ?]
  | |- consumes (match ?x with _ => _ end) _ => destruct x eqn:?
  | |- consumes (if ?x then _ else _) _ => destruct x eqn:?
  | |- consumes _ _ => eapply consumes_weaken; [apply IH; cbn [String.length] in *; lia|cbn [String.length] in *; lia]
  end.

Lemma scan_string_consumes s high : consumes (scan_string high s) (String.length s).
Proof.
  assert (forall n s high, (String.length s < n)%nat -> consumes (scan_string high s) (String.length s)) as H;
    [|by apply (H (S (String.length s))); lia].
  clear s high. induction n as [|n IH]; intros s high Hn; [lia|].
  destruct s as [|c s]; [exact I|]. cbn [scan_string]. cbn [String.length] in Hn. eats IH.
Qed.

Lemma fraction_length s r : fraction s = Some r -> (String.length r < String.length s)%nat.
Proof.
  unfold fraction. destruct (after "." s) as [t|] eqn:Ea; [|done]. apply after_length in Ea.
  destruct (span is_digit t) as [a b] eqn:E. pose proof (span_length is_digit t) as Hs.
  rewrite E in Hs. cbn in *. destruct (truthy a); [|done]. intros [= <-]. lia.
Qed.
Lemma exponent_length s r : exponent s = Some r -> (String.length r < String.length s)%nat.
Proof.
  unfold exponent. destruct s as [|e s]; [done|]. destruct (_ || _); [|done].
  set (t := match s with String c r' => if Ascii.eqb c "+" || Ascii.eqb c "-" then r' else s | _ => s end).
  assert (String.length t <= String.length s)%nat by (subst t; destruct s; [done|]; destruct (_ || _); cbn; lia).
  destruct (span is_digit t) as [a b] eqn:E. pose proof (span_length is_digit t) as Hs.
  rewrite E in Hs. cbn in *. destruct (truthy a); [|done]. intros [= <-]. lia.
Qed.

Lemma scan_number_consumes s : consumes (scan_number s) (String.length s).
Proof.
  unfold scan_number.
  destruct (match after "-" s with Some r => _ | None => _ end) as [sign t] eqn:Et.
  assert (String.length t <= String.length s)%nat as Ht.
  { destruct (after "-" s) eqn:E; [apply after_length in E|]; injection Et as _ <-; lia. }
  destruct (match after "0" t with Some r => _ | None => _ end) as [digits rest] eqn:Ed.
  assert (truthy digits = true -> (String.length rest < String.length t)%nat) as Hd.
  { destruct (after "0" t) eqn:E; [apply after_length in E; injection Ed as _ <-; lia|].
    pose proof (span_length is_digit t) as Hs. rewrite Ed in Hs. cbn in Hs.
    intros H. destruct digits; [done|cbn in *; lia]. }
  destruct (truthy digits); [|exact I]. specialize (Hd eq_refl). cbn [negb].
  destruct (fraction rest) as [r|] eqn:Ef; [apply fraction_length in Ef|]; cbn [default from_option id].
  - destruct (exponent r) eqn:Ee; [apply exponent_length in Ee|]; cbn; lia.
  - destruct (exponent rest) eqn:Ee; [apply exponent_length in Ee; cbn; lia|].
    destruct (_ <? _); [exact I|]. destruct (parse_int _); cbn; [lia|exact I].
Qed.

Lemma scan_constant_length l s v r :
  Forall (fun x => x.1 <> EmptyString) l -> scan_constant l s = Some (v, r) ->
  (String.length r < String.length s)%nat.
Proof.
  induction 1 as [|[name x] l Hne Hl IH]; cbn; [done|].
  destruct (drop_prefix name s) eqn:E; [|done]. intros [= _ <-]. apply drop_prefix_length in E.
  destruct name; cbn in *; [done|lia].
Qed.

(** What the three readers consume under enough fuel. *)
Lemma scan_consumes fuel :
  (forall s, (2 * String.length s < fuel)%nat -> consumes (scan_value fuel s) (String.length s)) /\
  (forall s, (2 * String.length s + 1 < fuel)%nat -> consumes (scan_items fuel s) (String.length s)) /\
  (forall d s, (2 * String.length s < fuel)%nat -> consumes (scan_members fuel d s) (String.length s)).
Proof.
  induction fuel as [|fuel (IHv & IHi & IHm)]; [split; [|split]; intros; lia|].
  split; [|split].
  - intros s Hf. destruct s as [|c r]; [exact I|]. cbn [scan_value String.length] in *.
    assert (String.length (skip_ws r) <= String.length r)%nat as Hr by apply lstrip_length.
    destruct (code c =? 34).
    { eapply consumes_pbind; [apply scan_string_consumes|]. cbn. lia. }
    destruct (Ascii.eqb c "[").
    { destruct (after "]" _) eqn:E; [apply after_length in E; cbn; lia|].
      eapply consumes_pbind; [apply IHi; lia|]. cbn. lia. }
    destruct (Ascii.eqb c "{").
    { destruct (after "}" _) eqn:E; [apply after_length in E; cbn; lia|].
      eapply consumes_pbind; [apply IHm; lia|]. cbn. lia. }
    destruct (scan_constant constants (String c r)) as [[v rest]|] eqn:E.
    { apply scan_constant_length in E; [exact E|]. unfold constants. repeat constructor; done. }
    apply scan_number_consumes.
  - intros s Hf. cbn [scan_items]. eapply consumes_pbind; [apply IHv; lia|]. intros v rest Hrest.
    assert (String.length (skip_ws rest) <= String.length rest)%nat as Hr by apply lstrip_length.
    destruct (after "]" _) eqn:E; [apply after_length in E; cbn; lia|].
    destruct (after "," _) as [t|] eqn:E'; [apply after_length in E'|exact I].
    assert (String.length (skip_ws t) <= String.length t)%nat by apply lstrip_length.
    eapply consumes_pbind; [apply IHi; lia|]. cbn. lia.
  - intros d s Hf. destruct s as [|c r]; [exact I|]. cbn [scan_members String.length] in *.
    destruct (negb _); [exact I|]. eapply consumes_pbind; [apply scan_string_consumes|].
    intros k rest Hrest.
    assert (String.length (skip_ws rest) <= String.length rest)%nat by apply lstrip_length.
    destruct (after ":" _) as [t|] eqn:E; [apply after_length in E|exact I].
    assert (String.length (skip_ws t) <= String.length t)%nat by apply lstrip_length.
    eapply consumes_pbind; [apply IHv; lia|]. intros v rest' Hrest'.
    assert (String.length (skip_ws rest') <= String.length rest')%nat by apply lstrip_length.
    destruct (after "}" _) eqn:E'; [apply after_length in E'; cbn; lia|].
    destruct (after "," _) as [u|] eqn:Eu; [apply after_length in Eu|exact I].
    assert (String.length (skip_ws u) <= String.length u)%nat by apply lstrip_length.
    eapply consumes_weaken; [apply IHm; lia|lia].
Qed.

(** Reading a text always ends in a value or in one of the two errors. *)
Lemma loads_total s : loads s <> OutOfFuel.
Proof.
  unfold loads. assert (String.length (skip_ws s) <= String.length s)%nat by apply lstrip_length.
  assert (consumes (scan_value (S (2 * String.length s)) (skip_ws s)) (String.length (skip_ws s))) as H0
    by (apply scan_consumes; lia).
  destruct (scan_value _ _); cbn in *; try done. by case_match.
Qed.

(** ** Concrete text *)

(** JSON text written with ['] for a quote and [~] for an escaped one. *)
Fixpoint quoted_text (s : string) : string :=
  match s with
  | EmptyString => EmptyString
  | String c r =>
    if Ascii.eqb c "'" then String (chr 34) (quoted_text r)
    else if Ascii.eqb c "~" then String (chr 92) (String (chr 34) (quoted_text r))
    else String c (quoted_text r)
  end.
