(* ===== verification/AiClient.v ===== *)
(** * AiClient: calling an OpenAI-compatible chat endpoint

    The steps [maintenance/ai.py] and [finance/ai.py] share: the checks of the endpoint's
    settings, and reading the message out of the provider's envelope.  An error is the text
    of the exception.  White space is the ASCII one; a host in brackets is not looked at. *)

From S2P Require Import Prelude PyStr Json.
Open Scope Z_scope.

(** What the providers read from [django.conf.settings]. *)
Record ai_settings := AiSettings {
  ai_triage_url : string; ai_triage_allow_http : bool; ai_triage_token : string;
  ai_triage_model : string; ai_price_model : string }.

(** What a call of the endpoint gives: the text its bytes decode to ([None] when they are
    not UTF-8); or the text of a [URLError], [TimeoutError], [OSError] or [ValueError]; or
    another exception, as [http.client.IncompleteRead] is. *)
Inductive answer :=
  | Responds (text : option string)
  | Fails (error : string)
  | Breaks (e : exn).

(** ** The endpoint *)

Definition is_control (c : ascii) : bool := (code c <? 32) || (code c =? 127).
Definition is_alpha (c : ascii) : bool := is_upper c || is_lower c.
Definition is_scheme_char (c : ascii) : bool :=
  is_alpha c || is_digit c || (code c =? 43) || (code c =? 45) || (code c =? 46).
Definition is_netloc_end (c : ascii) : bool := (code c =? 47) || (code c =? 63) || (code c =? 35).

(** The scheme and the rest of a URL without white space. *)
Definition split_scheme (url : string) : string * string :=
  let '(s, r) := span (fun c => negb (code c =? 58)) url in
  match s, r with
  | String c _, String _ rest =>
    if is_alpha c && sforall is_scheme_char s then (py_lower s, rest) else (EmptyString, url)
  | _, _ => (EmptyString, url)
  end.
(** [urllib.parse.urlsplit(url)]: the scheme and the network location. *)
Definition urlsplit (url : string) : string + (string * string) :=
  let '(scheme, rest) := split_scheme url in
  match drop_prefix "//" rest with
  | None => inr (scheme, EmptyString)
  | Some r =>
    let netloc := (span (fun c => negb (is_netloc_end c)) r).1 in
    if Bool.eqb (contains "[" netloc) (contains "]" netloc) then inr (scheme, netloc)
    else inl "Invalid IPv6 URL"
  end.

(** What both [_endpoint_url] check of [AI_TRIAGE_URL]. *)
Definition check_url (st : ai_settings) : string + string :=
  let url := ai_triage_url st in
  if negb (sforall (fun c => negb (is_space c || is_control c)) url) then
    inl "AI_TRIAGE_URL must not contain whitespace or control characters"
  else match urlsplit url with
    | inl error => inl ("AI_TRIAGE_URL is invalid: " +:+ error)
    | inr (scheme, netloc) =>
      if negb (truthy scheme && truthy netloc) then inl "AI_TRIAGE_URL must be an absolute URL"
      else if negb (String.eqb scheme "https") &&
        negb (String.eqb scheme "http" && ai_triage_allow_http st) then
        inl "AI_TRIAGE_URL must use HTTPS outside local/test mode"
      else inr url
    end.

(** ** The envelope *)

(** [type(v).__name__] *)
Definition py_type (v : pyval) : string :=
  match v with
  | PNone => "NoneType"
  | PBool _ => "bool"
  | PInt _ => "int"
  | PStr _ => "str"
  | PList _ => "list"
  | PDict _ => "dict"
  | POther t => t
  end.
Definition not_subscriptable (v : pyval) : string :=
  "'" +:+ py_type v +:+ "' object is not subscriptable".

(** [v[0]], on a value read from JSON, whose dictionaries have [str] keys. *)
Definition first_item (v : pyval) : string + pyval :=
  match v with
  | PList (x :: _) => inr x
  | PList [] => inl "list index out of range"
  | PStr s => if truthy s then inr (PStr (py_take 1 s)) else inl "string index out of range"
  | PDict _ => inl "0"
  | _ => inl (not_subscriptable v)
  end.
(** [v[k]] *)
Definition member (k : string) (v : pyval) : string + pyval :=
  match v with
  | PDict d =>
    match item_get k d with Some x => inr x | None => inl ("'" +:+ k +:+ "'") end
  | PList _ => inl "list indices must be integers or slices, not str"
  | PStr _ => inl "string indices must be integers, not 'str'"
  | _ => inl (not_subscriptable v)
  end.

Definition ebind {A B} (x : string + A) (f : A -> string + B) : string + B :=
  match x with inl e => inl e | inr a => f a end.
Lemma ebind_inr {A B} (x : string + A) (f : A -> string + B) b :
  ebind x f = inr b <-> exists a, x = inr a /\ f a = inr b.
Proof. destruct x; cbn; naive_solver. Qed.

(** [envelope["choices"][0]["message"]] *)
Definition first_message (envelope : list (pyval * pyval)) : string + pyval :=
  ebind (member "choices" (PDict envelope)) (fun choices =>
  ebind (first_item choices) (member "message")).

Definition _valid_string (v : pyval) : option string :=
  match v with PStr s => if truthy s then Some s else None | _ => None end.

Definition MAX_PROVIDER_REQUEST_ID_CHARS : Z := 255.
(** The checks of [envelope["id"]]. *)
Definition request_id_of (envelope : list (pyval * pyval)) : string + string :=
  match item_get "id" envelope ≫= _valid_string with
  | None => inl "provider envelope is missing id"
  | Some request_id =>
    if MAX_PROVIDER_REQUEST_ID_CHARS <? py_len request_id
    then inl "provider envelope id exceeds 255 characters" else inr request_id
  end.

(** ** The keys of an answer *)

Definition key_in (keys : list string) (k : pyval) : bool :=
  match k with PStr s => str_in s keys | _ => false end.
(** [set(payload) == keys] *)
Definition has_keys (keys : list string) (d : list (pyval * pyval)) : bool :=
  forallb (fun kv => key_in keys kv.1) d &&
  forallb (fun k => bool_decide (is_Some (item_get k d))) keys.

(** ** The fence around a JSON answer *)

(** The bytes of the line boundary at the head of [s], [0] when there is none. *)
Definition line_break (s : string) : nat :=
  match s with
  | EmptyString => 0%nat
  | String c r =>
    if code c =? 13 then
      match r with String d _ => if code d =? 10 then 2%nat else 1%nat | _ => 1%nat end
    else if between 10 12 c || between 28 30 c then 1%nat
    else if code c =? 194 then
      match r with String d _ => if code d =? 133 then 2%nat else O | _ => O end
    else if code c =? 226 then
      match r with
      | String d (String e _) => if (code d =? 128) && between 168 169 e then 3%nat else O
      | _ => O
      end
    else O
  end.
Fixpoint lines_from (skip : nat) (s : string) : list string :=
  match s with
  | EmptyString => []
  | String c r =>
    match skip with
    | S skip => lines_from skip r
    | O =>
      match line_break s with
      | S n => EmptyString :: lines_from n r
      | O => match lines_from O r with
        | [] => [String c EmptyString]
        | x :: l => String c x :: l
        end
      end
    end
  end.
(** [s.splitlines()] *)
Definition splitlines : string -> list string := lines_from O.

Definition FENCE : string := "```".
Definition newline : string := String (chr 10) EmptyString.

(** The JSON text of a message: without the Markdown fence models like to put around it. *)
Definition clean_content (content : string) : string :=
  let cleaned := py_strip content in
  if starts_with FENCE cleaned then
    let lines := splitlines cleaned in
    let lines := match lines with
      | x :: l => if starts_with FENCE x then l else lines
      | [] => lines
      end in
    let lines := match last lines with
      | Some x => if starts_with FENCE x then removelast lines else lines
      | None => lines
      end in
    py_strip (join newline lines)
  else cleaned.

Example clean_fenced :
  clean_content ("```json" +:+ newline +:+ "{}" +:+ newline +:+ "```") = "{}".
Proof. vm_compute. reflexivity. Qed.
Example check_https :
  check_url (AiSettings "https://ai.example/v1" false "t" "m" "") = inr "https://ai.example/v1".
Proof. vm_compute. reflexivity. Qed.
Example check_http :
  check_url (AiSettings "http://ai.example/v1" false "t" "m" "") =
    inl "AI_TRIAGE_URL must use HTTPS outside local/test mode".
Proof. vm_compute. reflexivity. Qed.
