(* ===== verification/Doubles.v ===== *)
(** * Doubles: the positive floats of a percentage

    What [compare_price_against_band] of [finance/reference_prices.py] computes in floating
    point: [round(a / b * 100)] on integers.  A double is a mantissa and an exponent; the
    quotient and the product are rounded to the nearest one, ties to even, subnormals
    included, as CPython's [int.__truediv__] and IEEE 754 do. *)

From Stdlib Require Import Lia ZArith.
From S2P Require Import Prelude.
Open Scope Z_scope.

(** [m * 2 ^ e] *)
Record double := Double { mantissa : Z; exp2 : Z }.

(** The integer nearest to [n / d], ties to even. *)
Definition round_half_even (n d : Z) : Z :=
  let q := n / d in
  let r := n mod d in
  if 2 * r <? d then q else if d <? 2 * r then q + 1 else if Z.even q then q else q + 1.

(** [n / d] in units of [2 ^ e], as a fraction. *)
Definition up (e : Z) : Z := 2 ^ Z.max 0 e.
Definition scaled (n d e : Z) : Z := round_half_even (n * up (- e)) (d * up e).

(** The exponent that gives [n / d] 53 bits. *)
Definition unit_of (n d : Z) : Z :=
  let e := Z.log2 n - Z.log2 d - 53 in
  let e := if n * up (- (e + 53)) <? d * up (e + 53) then e else e + 1 in
  Z.max (-1074) e.
Definition nearest (n d : Z) : double :=
  if n =? 0 then Double 0 0 else let e := unit_of n d in Double (scaled n d e) e.

(** A double as a fraction. *)
Definition num (x : double) : Z := mantissa x * up (exp2 x).
Definition den (x : double) : Z := up (- exp2 x).
Definition finite (x : double) : option double :=
  if num x <? 2 ^ 1024 * den x then Some x else None.

(** [a / b] and [x * 100], [None] where Python raises [OverflowError]. *)
Definition true_div (a b : Z) : option double := finite (nearest a b).
Definition times (n : Z) (x : double) : option double := finite (nearest (n * num x) (den x)).
Definition py_round (x : double) : Z := round_half_even (num x) (den x).

Definition percentage (a b : Z) : option Z := py_round <$> (true_div a b ≫= times 100).

Example percentage_third : percentage 1 3 = Some 33.
Proof. vm_compute. reflexivity. Qed.
Example percentage_half_even : percentage 1 8 = Some 12 /\ percentage 3 8 = Some 38.
Proof. vm_compute. done. Qed.

(** ** How far the result is from the fraction *)

Lemma up_pos e : 0 < up e.
Proof. unfold up. apply Z.pow_pos_nonneg; lia. Qed.
#[export] Hint Resolve up_pos : core.
Lemma den_pos x : 0 < den x.
Proof. apply up_pos. Qed.

Lemma round_half_even_close n d : 0 < d -> 2 * Z.abs (round_half_even n d * d - n) <= d.
Proof.
  intros Hd. pose proof (Z.div_mod n d ltac:(lia)) as E. pose proof (Z.mod_pos_bound n d Hd).
  unfold round_half_even. set (q := n / d) in *. set (r := n mod d) in *.
  assert (q * d - n = - r) as H1 by lia. assert ((q + 1) * d - n = d - r) as H2 by lia.
  destruct (Z.ltb_spec (2 * r) d); [rewrite H1; lia|].
  destruct (Z.ltb_spec d (2 * r)); [rewrite H2; lia|].
  destruct (Z.even q); [rewrite H1|rewrite H2]; lia.
Qed.

Lemma up_shift e k : 0 <= k -> up (e + k) * up (- e) = 2 ^ k * up e * up (- (e + k)).
Proof.
  intros Hk. unfold up. destruct (Z.le_gt_cases 0 e).
  - rewrite !(Z.max_l 0 (- _)), !(Z.max_r 0 e), (Z.max_r 0 (e + k)) by lia.
    rewrite Z.pow_add_r by lia. lia.
  - rewrite (Z.max_l 0 e), (Z.max_r 0 (- e)) by lia. destruct (Z.le_gt_cases 0 (e + k)).
    + rewrite (Z.max_r 0 (e + k)), (Z.max_l 0 (- (e + k))), <- Z.pow_add_r by lia.
      rewrite !Z.pow_0_r, !Z.mul_1_r. f_equal. lia.
    + rewrite (Z.max_l 0 (e + k)), (Z.max_r 0 (- (e + k))) by lia.
      rewrite !Z.pow_0_r, Z.mul_1_l, Z.mul_1_r, <- Z.pow_add_r by lia. f_equal. lia.
Qed.

Lemma up_pow p e : 0 <= p -> 0 <= p + e -> 2 ^ p * up e = 2 ^ (p + e) * up (- e).
Proof.
  intros Hp He. unfold up. destruct (Z.le_gt_cases 0 e).
  - rewrite (Z.max_r 0 e), (Z.max_l 0 (- e)) by lia.
    rewrite Z.pow_0_r, Z.mul_1_r, <- Z.pow_add_r by lia. done.
  - rewrite (Z.max_l 0 e), (Z.max_r 0 (- e)) by lia.
    rewrite Z.pow_0_r, Z.mul_1_r, <- Z.pow_add_r by lia. f_equal. lia.
Qed.

(** The chosen unit gives the quotient at least 53 bits, unless it is subnormal. *)
Lemma unit_of_large n d :
  0 < n -> 0 < d -> -1074 < unit_of n d ->
  2 ^ 52 * (d * up (unit_of n d)) <= n * up (- unit_of n d).
Proof.
  intros Hn Hd. unfold unit_of. set (e := Z.log2 n - Z.log2 d - 53).
  pose proof (Z.log2_spec n Hn) as [Hn1 _]. pose proof (Z.log2_spec d Hd) as [_ Hd1].
  pose proof (Z.log2_nonneg n). pose proof (Z.log2_nonneg d).
  destruct (Z.ltb_spec (n * up (- (e + 53))) (d * up (e + 53))) as [_|Hge]; intros Hmax;
    rewrite Z.max_r by lia.
  - pose proof (up_pow (52 + (Z.log2 d + 1)) e ltac:(lia) ltac:(lia)) as E.
    rewrite Z.pow_add_r in E by lia. replace (52 + (Z.log2 d + 1) + e) with (Z.log2 n) in E by lia.
    pose proof (up_pos e). pose proof (up_pos (- e)).
    rewrite <- Z.add_1_r in Hd1.
    transitivity (2 ^ 52 * (2 ^ (Z.log2 d + 1) * up e)); [nia|]. nia.
  - pose proof (up_shift (e + 1) 52 ltac:(lia)) as E. replace (e + 1 + 52) with (e + 53) in E by lia.
    pose proof (up_pos (- (e + 53))) as Hu. pose proof (up_pos (- (e + 1))) as Hv.
    apply (Z.mul_le_mono_pos_r _ _ _ Hu).
    replace (2 ^ 52 * (d * up (e + 1)) * up (- (e + 53))) with (d * (2 ^ 52 * up (e + 1) * up (- (e + 53)))) by lia.
    rewrite <- E. nia.
Qed.

Lemma unit_of_least n d : 0 < n -> 0 < d -> - Z.log2 d - 53 <= unit_of n d.
Proof.
  intros Hn Hd. unfold unit_of. pose proof (Z.log2_nonneg n). destruct (_ <? _); lia.
Qed.

(** The nearest double is within a relative error of [2 ^ -53]. *)
Lemma nearest_close n d :
  0 < n -> 0 < d -> Z.log2 d < 1000 ->
  2 ^ 53 * Z.abs (num (nearest n d) * d - n * den (nearest n d)) <= n * den (nearest n d).
Proof.
  intros Hn Hd Hl. unfold nearest. destruct (Z.eqb_spec n 0); [lia|].
  pose proof (unit_of_least n d Hn Hd). pose proof (unit_of_large n d Hn Hd ltac:(lia)) as Hlarge.
  unfold num, den, scaled. cbn [mantissa exp2]. set (e := unit_of n d) in *.
  pose proof (up_pos e). pose proof (round_half_even_close (n * up (- e)) (d * up e) ltac:(nia)) as Hr.
  set (m := round_half_even _ _) in *. replace (m * up e * d) with (m * (d * up e)) by lia. lia.
Qed.
Lemma nearest_den n d : 0 < n -> 0 < d -> Z.log2 (den (nearest n d)) <= Z.log2 d + 53.
Proof.
  intros Hn Hd. unfold nearest. destruct (Z.eqb_spec n 0); [lia|].
  pose proof (unit_of_least n d Hn Hd). pose proof (Z.log2_nonneg d).
  unfold den, up. cbn [exp2]. rewrite Z.log2_pow2 by lia. lia.
Qed.

(** The three rounding errors of a percentage, over a common denominator. *)
Lemma errors_add a b N1 D1 N2 D2 p :
  0 < b -> 0 < D1 -> 0 < D2 -> 0 <= a <= 2 ^ 40 * b ->
  2 ^ 53 * Z.abs (N1 * b - a * D1) <= a * D1 ->
  2 ^ 53 * Z.abs (N2 * D1 - 100 * N1 * D2) <= 100 * N1 * D2 ->
  2 * Z.abs (p * D2 - N2) <= D2 ->
  Z.abs (p * b - 100 * a) <= b.
Proof.
  intros Hb H1 H2 Ha HA HB HC.
  set (U := b * D1 * D2). set (T := a * D1 * D2). set (X := N1 * b * D2). set (Y := N2 * D1 * b).
  set (V := p * b * D1 * D2).
  assert (2 ^ 53 * Z.abs (X - T) <= T) as HA'.
  { replace (X - T) with ((N1 * b - a * D1) * D2) by (unfold X, T; lia).
    rewrite Z.abs_mul, (Z.abs_eq D2) by lia. unfold T. nia. }
  assert (2 ^ 53 * Z.abs (Y - 100 * X) <= 100 * X) as HB'.
  { replace (Y - 100 * X) with ((N2 * D1 - 100 * N1 * D2) * b) by (unfold X, Y; lia).
    rewrite Z.abs_mul, (Z.abs_eq b) by lia. unfold X. nia. }
  assert (2 * Z.abs (V - Y) <= U) as HC'.
  { replace (V - Y) with ((p * D2 - N2) * (D1 * b)) by (unfold V, Y; lia).
    rewrite Z.abs_mul, (Z.abs_eq (D1 * b)) by nia. unfold U. nia. }
  assert (T <= 2 ^ 40 * U) as HT by (unfold T, U; nia).
  assert (Z.abs (V - 100 * T) <= U) as HV by lia.
  assert (0 < D1 * D2) as HD by nia.
  replace (V - 100 * T) with ((p * b - 100 * a) * (D1 * D2)) in HV by (unfold V, T; lia).
  rewrite Z.abs_mul, (Z.abs_eq (D1 * D2)) in HV by lia. unfold U in HV. nia.
Qed.

(** A percentage is the exact one to within one unit, for the amounts the columns hold. *)
Lemma percentage_close a b :
  0 <= a <= 2 ^ 40 * b -> 0 < b < 2 ^ 63 ->
  exists p, percentage a b = Some p /\ Z.abs (p * b - 100 * a) <= b.
Proof.
  intros Ha Hb. destruct (Z.eq_dec a 0) as [->|Hne]; [exists 0; split; [done|lia]|].
  assert (Z.log2 b < 63) as Hlb by (apply Z.log2_lt_pow2; lia).
  pose proof (nearest_close a b ltac:(lia) ltac:(lia) ltac:(lia)) as Hx.
  pose proof (nearest_den a b ltac:(lia) ltac:(lia)) as Hdx.
  unfold percentage, true_div. set (x := nearest a b) in *. pose proof (den_pos x).
  assert (0 < num x) as Hnx by nia.
  pose proof (nearest_close (100 * num x) (den x) ltac:(lia) ltac:(lia) ltac:(lia)) as Hy.
  unfold times. set (y := nearest (100 * num x) (den x)) in *. pose proof (den_pos y).
  pose proof (round_half_even_close (num y) (den y) ltac:(lia)) as Hp.
  fold (py_round y) in Hp. 
  assert (finite x = Some x) as ->.
  { unfold finite. destruct (Z.ltb_spec (num x) (2 ^ 1024 * den x)); [done|]. nia. }
  cbn [option_bind mbind]. fold y.
  assert (finite y = Some y) as ->.
  { unfold finite. destruct (Z.ltb_spec (num y) (2 ^ 1024 * den y)); [done|]. nia. }
  exists (py_round y). split; [done|].
  apply (errors_add a b (num x) (den x) (num y) (den y)); try lia; nia.
Qed.
