(* ===== verification/Schema.v ===== *)
(** * Schema: the Django models as records, and the database they live in

    One record per model with the source's fields (foreign keys are primary keys,
    [option Z] when nullable; instants are integer microseconds), one inductive
    per [TextChoices], and [world]: every table, the clock, the settings the
    services read, and the callbacks registered with [transaction.on_commit]. *)

From S2P Require Import Prelude Table PyStr.
Open Scope Z_scope.

(** ** Time: microseconds *)
Definition seconds (n : Z) : Z := n * 1000000.
Definition minutes (n : Z) : Z := seconds (60 * n).
Definition hours (n : Z) : Z := minutes (60 * n).
Definition days (n : Z) : Z := hours (24 * n).

(** ** accounts *)
Record user_row := User {
  u_email : option string; u_display_name : string; u_phone : option string;
  u_password : string; u_is_active : bool }.
Record unit_row := Unit_ { un_building : Z; un_label : string }.
Record occupancy_row := Occupancy { oc_user : Z; oc_unit : Z; oc_active : bool }.
#[global] Instance eta_user : Eta user_row := fun r => User
  (u_email r) (u_display_name r) (u_phone r) (u_password r) (u_is_active r).
#[global] Instance eta_occupancy : Eta occupancy_row := fun r => Occupancy
  (oc_user r) (oc_unit r) (oc_active r).
Record membership_row := Membership { mb_user : Z; mb_building : Z; mb_active : bool }.

Inductive registration_status := RegPending | RegApproved | RegRejected | RegExpired.
#[global] Instance registration_status_eq_dec : EqDecision registration_status.
Proof. solve_decision. Defined.
Record registration_row := Registration {
  rg_full_name : string; rg_phone : string; rg_email : option string;
  rg_building : Z; rg_unit : Z; rg_password_hash : string; rg_token_digest : string;
  rg_status : registration_status; rg_rejection_reason : string;
  rg_decided_by : option Z; rg_decided_at : option Z;
  rg_updated_at : Z; rg_expires_at : Z }.
#[global] Instance eta_registration : Eta registration_row := fun r => Registration
  (rg_full_name r) (rg_phone r) (rg_email r) (rg_building r) (rg_unit r)
  (rg_password_hash r) (rg_token_digest r) (rg_status r) (rg_rejection_reason r)
  (rg_decided_by r) (rg_decided_at r) (rg_updated_at r) (rg_expires_at r).

Record throttle_row := Throttle {
  th_key_digest : string; th_failure_count : Z;
  th_window_started_at : option Z; th_locked_until : option Z }.
#[global] Instance eta_throttle : Eta throttle_row := fun r => Throttle
  (th_key_digest r) (th_failure_count r) (th_window_started_at r) (th_locked_until r).

(** A token of the resident API, as [knox] keeps it. *)
Record token_row := AuthToken {
  tk_user : Z; tk_digest : string; tk_created : Z; tk_expiry : option Z }.

(** ** audit *)
Record audit_row := Audit {
  au_actor : Z; au_membership : option Z; au_action : string; au_target_type : string;
  au_target_id : string; au_result : string; au_metadata : pyval }.

(** ** documents *)
Inductive doc_kind := REPORT_PHOTO | QUOTATION | INVOICE | ACCEPTANCE_REPORT
  | PAYMENT_PROOF | CONTRACT | RESIDENT_BILL.
#[global] Instance doc_kind_eq_dec : EqDecision doc_kind.
Proof. solve_decision. Defined.
Record document_row := Document { dc_building : Z; dc_kind : doc_kind }.
(** [ScanStatus] has the single value [CLEAN]; the column is free text. *)
Definition CLEAN : string := "CLEAN".
Record doc_version_row := DocVersion {
  dv_document : Z; dv_version : Z; dv_storage_key : string; dv_provider_version_id : string;
  dv_filename : string; dv_content_type : string; dv_byte_size : Z; dv_sha256 : string;
  dv_scan_status : string; dv_uploader : Z }.

Record quarantined_row := Quarantined {
  qu_uploader : Z; qu_building : option Z; qu_filename : string; qu_content_type : string;
  qu_byte_size : Z; qu_sha256 : string; qu_reason : string; qu_storage_key : option string;
  qu_provider_version_id : string; qu_retention_expires_at : Z }.

(** ** evidence *)
Inductive outbox_status := PENDING | SUBMITTED | CONFIRMED | LOCAL | FAILED | MISMATCH.
#[global] Instance outbox_status_eq_dec : EqDecision outbox_status.
Proof. solve_decision. Defined.
Record outbox_row := Outbox {
  ev_event_id : string; ev_event_type : Z; ev_payload : pyval; ev_payload_hash : string;
  ev_previous_hash : string; ev_signature : string; ev_signer_address : string;
  ev_building : Z; ev_status : outbox_status; ev_attempts : Z;
  ev_next_attempt_at : option Z; ev_lease_expires_at : option Z;
  ev_last_attempt_at : option Z; ev_transaction_hash : string;
  ev_receipt_status : option Z; ev_receipt : list (string * pyval); ev_last_error : string;
  ev_chain_confirmed_block : option Z; ev_chain_block_timestamp : option Z;
  ev_submitted_at : option Z; ev_confirmed_at : option Z; ev_created_at : Z }.
#[global] Instance eta_outbox : Eta outbox_row := fun r => Outbox
  (ev_event_id r) (ev_event_type r) (ev_payload r) (ev_payload_hash r)
  (ev_previous_hash r) (ev_signature r) (ev_signer_address r) (ev_building r)
  (ev_status r) (ev_attempts r) (ev_next_attempt_at r) (ev_lease_expires_at r)
  (ev_last_attempt_at r) (ev_transaction_hash r) (ev_receipt_status r) (ev_receipt r)
  (ev_last_error r) (ev_chain_confirmed_block r) (ev_chain_block_timestamp r)
  (ev_submitted_at r) (ev_confirmed_at r) (ev_created_at r).

(** ** maintenance *)
Record location_row := Location {
  lo_building : Z; lo_parent : option Z; lo_name : string; lo_active : bool }.

Inductive report_status := RSubmitted | RInReview | RNeedsInfo | RDeclined
  | RInProgress | RProposed | RCompleted | RClosed.
#[global] Instance report_status_eq_dec : EqDecision report_status.
Proof. solve_decision. Defined.
Record report_row := Report {
  rp_reporter : Z; rp_unit : Z; rp_building : Z; rp_text : string;
  rp_selected_location : Z; rp_location_path_snapshot : string; rp_status : report_status;
  rp_is_private : bool; rp_declined_reason : string; rp_declined_by : option Z;
  rp_declined_at : option Z; rp_client_ref : option string }.
#[global] Instance eta_report : Eta report_row := fun r => Report
  (rp_reporter r) (rp_unit r) (rp_building r) (rp_text r) (rp_selected_location r)
  (rp_location_path_snapshot r) (rp_status r) (rp_is_private r) (rp_declined_reason r)
  (rp_declined_by r) (rp_declined_at r) (rp_client_ref r).
Record report_photo_row := ReportPhoto {
  ph_report : Z; ph_version : Z; ph_content_sha : string }.

Inductive triage_status := TPending | TProcessing | TSucceeded | TNeedsManual.
#[global] Instance triage_status_eq_dec : EqDecision triage_status.
Proof. solve_decision. Defined.
Record triage_job_row := TriageJob {
  tj_report : Z; tj_status : triage_status; tj_failure_reason : string;
  tj_started_at : option Z; tj_completed_at : option Z }.
#[global] Instance eta_triage_job : Eta triage_job_row := fun r => TriageJob
  (tj_report r) (tj_status r) (tj_failure_reason r) (tj_started_at r) (tj_completed_at r).
Record suggestion_row := Suggestion {
  sg_job : Z; sg_category : string; sg_interpreted_location : string; sg_urgency : string;
  sg_confidence_percent : Z; sg_duplicate_report_ids : list Z; sg_management_queue : string;
  sg_deadline_minutes : Z; sg_missing_information : list string;
  sg_raw_response : pyval; sg_provider_request_id : string; sg_candidate_ids : list Z;
  sg_elapsed_ms : Z }.
Record decision_row := Decision_ {
  de_report : Z; de_suggestion : option Z; de_operator : Z; de_category : string;
  de_urgency : string; de_location : Z; de_management_queue : string;
  de_deadline_minutes : Z; de_differences : list (string * (pyval * pyval)) }.
Record case_row := Case {
  ca_decision : Z; ca_building : Z; ca_category : string; ca_urgency : string;
  ca_location : Z; ca_management_queue : string; ca_deadline_at : Z; ca_active : bool;
  ca_started_at : option Z; ca_completed_at : option Z; ca_closed_at : option Z }.
#[global] Instance eta_case : Eta case_row := fun r => Case
  (ca_decision r) (ca_building r) (ca_category r) (ca_urgency r) (ca_location r)
  (ca_management_queue r) (ca_deadline_at r) (ca_active r) (ca_started_at r)
  (ca_completed_at r) (ca_closed_at r).
Record case_report_row := CaseReport { cr_case : Z; cr_report : Z; cr_grouped_by : Z }.
Record info_request_row := InfoRequest {
  ir_report : Z; ir_message : string; ir_created_by : Z; ir_reply_text : string;
  ir_resolved_at : option Z }.
#[global] Instance eta_info_request : Eta info_request_row := fun r => InfoRequest
  (ir_report r) (ir_message r) (ir_created_by r) (ir_reply_text r) (ir_resolved_at r).
Record work_update_row := WorkUpdate {
  wu_case : option Z; wu_proposal : option Z; wu_author : option Z;
  wu_cause : string; wu_result : string }.
Record rating_row := Rating {
  ra_resident : Z; ra_case : option Z; ra_proposal : option Z; ra_satisfied : bool;
  ra_comment : string; ra_created_at : Z }.

(** ** finance *)
Inductive proposal_status := PDraft | PPublished | PNotProceeding | PInProgress
  | PCompleted | PClosed.
#[global] Instance proposal_status_eq_dec : EqDecision proposal_status.
Proof. solve_decision. Defined.
Record proposal_row := Proposal {
  pr_case : option Z; pr_building : Z; pr_creator_membership : Z;
  pr_status : proposal_status; pr_current_version : option Z; pr_decided_by : option Z;
  pr_decided_at : option Z; pr_decision_note : string; pr_public_token : option string;
  pr_completed_at : option Z; pr_closed_at : option Z }.
#[global] Instance eta_proposal : Eta proposal_row := fun r => Proposal
  (pr_case r) (pr_building r) (pr_creator_membership r) (pr_status r)
  (pr_current_version r) (pr_decided_by r) (pr_decided_at r) (pr_decision_note r)
  (pr_public_token r) (pr_completed_at r) (pr_closed_at r).

(** A calendar date, as [datetime.date] compares and prints it. *)
Record date := Date { d_year : Z; d_month : Z; d_day : Z }.
#[global] Instance date_eq_dec : EqDecision date.
Proof. solve_decision. Defined.

Record version_row := Version {
  ve_proposal : Z; ve_number : Z; ve_amount_vnd : Z; ve_contractor_name : string;
  ve_purpose : string; ve_proposed_action : string; ve_expected_start : option date;
  ve_expected_end : option date; ve_expected_schedule : string; ve_snapshot : pyval;
  ve_snapshot_hash : string; ve_creator_membership : Z; ve_outbox_event : Z }.
Record prop_doc_row := PropDoc { pd_version : Z; pd_document_version : Z }.

Inductive prediction_source := Predicted | Fallback.
#[global] Instance prediction_source_eq_dec : EqDecision prediction_source.
Proof. solve_decision. Defined.
Record prediction_row := Prediction {
  pp_building : Z; pp_case : option Z; pp_category : string; pp_amount_vnd : Z;
  pp_minimum_vnd : Z; pp_central_vnd : Z; pp_maximum_vnd : Z; pp_reasoning : string;
  pp_source : prediction_source; pp_requested_by : Z; pp_proposal_version : option Z }.
#[global] Instance eta_prediction : Eta prediction_row := fun r => Prediction
  (pp_building r) (pp_case r) (pp_category r) (pp_amount_vnd r) (pp_minimum_vnd r)
  (pp_central_vnd r) (pp_maximum_vnd r) (pp_reasoning r) (pp_source r)
  (pp_requested_by r) (pp_proposal_version r).

Record settlement_row := Settlement {
  se_proposal : Z; se_amount_vnd : Z; se_transfer : Z; se_settled_by : Z;
  se_settled_at : Z; se_outbox_event : option Z }.
#[global] Instance eta_settlement : Eta settlement_row := fun r => Settlement
  (se_proposal r) (se_amount_vnd r) (se_transfer r) (se_settled_by r) (se_settled_at r)
  (se_outbox_event r).

Record fund_row := Fund { fu_building : Z }.
Inductive entry_type := OPENING_BALANCE | INFLOW | OUTFLOW | REVERSAL | REPLACEMENT.
#[global] Instance entry_type_eq_dec : EqDecision entry_type.
Proof. solve_decision. Defined.
Record fund_entry_row := FundEntry {
  fe_fund : Z; fe_entry_type : entry_type; fe_amount_vnd : Z; fe_evidence : option Z;
  fe_evidence_hash : string; fe_recorder : option Z; fe_proposal : option Z;
  fe_source_key : string; fe_recorded_at : Z }.
Record fund_verification_row := FundVerification {
  fv_entry : Z; fv_membership : Z; fv_verified_at : Z }.

Inductive verdict := VVerified | VMismatch | VUnavailable.
#[global] Instance verdict_eq_dec : EqDecision verdict.
Proof. solve_decision. Defined.
Record observation_row := Observation {
  ob_published_entry : Z; ob_result : verdict; ob_checked_document_hashes : list string;
  ob_checked_chain_event_ids : list string; ob_chain_consulted : bool; ob_details : pyval;
  ob_observed_at : Z }.
Record ledger_row := Ledger {
  le_resident_payload : pyval; le_case : option Z; le_proposal : Z; le_settlement : Z;
  le_actual_cost_vnd : Z; le_contractor_name : string; le_published_at : Z }.

(** ** notifications *)
Inductive announcement_state := AnPublished | AnWithdrawn.
#[global] Instance announcement_state_eq_dec : EqDecision announcement_state.
Proof. solve_decision. Defined.
Record announcement_row := Announcement {
  an_building : Z; an_title : string; an_body : string; an_revision : Z;
  an_state : announcement_state; an_created_by : Z; an_updated_by : Z;
  an_withdrawn_at : option Z }.
#[global] Instance eta_announcement : Eta announcement_row := fun r => Announcement
  (an_building r) (an_title r) (an_body r) (an_revision r) (an_state r)
  (an_created_by r) (an_updated_by r) (an_withdrawn_at r).
Record preference_row := Preference {
  pf_user : Z; pf_event_code : string; pf_email_enabled : bool; pf_push_enabled : bool }.
Inductive channel := IN_APP | EMAIL | PUSH.
#[global] Instance channel_eq_dec : EqDecision channel.
Proof. solve_decision. Defined.
Inductive delivery_status := DPending | DAvailable | DSent | DFailed | DDead.
#[global] Instance delivery_status_eq_dec : EqDecision delivery_status.
Proof. solve_decision. Defined.
Record delivery_row := Delivery {
  dl_recipient : Z; dl_building : option Z; dl_event_key : string; dl_event_code : string;
  dl_subject : string; dl_body : string; dl_channel : channel; dl_status : delivery_status;
  dl_attempts : Z; dl_next_retry_at : option Z; dl_last_error : string;
  dl_push_sent_device_ids : list Z; dl_read_at : option Z; dl_created_at : Z;
  dl_updated_at : Z }.
#[global] Instance eta_delivery : Eta delivery_row := fun r => Delivery
  (dl_recipient r) (dl_building r) (dl_event_key r) (dl_event_code r) (dl_subject r)
  (dl_body r) (dl_channel r) (dl_status r) (dl_attempts r) (dl_next_retry_at r)
  (dl_last_error r) (dl_push_sent_device_ids r) (dl_read_at r) (dl_created_at r)
  (dl_updated_at r).
Record device_row := Device {
  dv_user : Z; dv_install_id : string; dv_fcm_token : string; dv_platform : string;
  dv_app_version : string; dv_active : bool; dv_last_seen_at : Z }.
#[global] Instance eta_device : Eta device_row := fun r => Device
  (dv_user r) (dv_install_id r) (dv_fcm_token r) (dv_platform r) (dv_app_version r)
  (dv_active r) (dv_last_seen_at r).

(** ** billing *)
Inductive bill_status := BIssued | BPaid | BVoid.
#[global] Instance bill_status_eq_dec : EqDecision bill_status.
Proof. solve_decision. Defined.
Inductive payment_source := SELF_ATTESTED_DEMO | BANK_WEBHOOK | MANAGEMENT_MANUAL.
#[global] Instance payment_source_eq_dec : EqDecision payment_source.
Proof. solve_decision. Defined.
Record bill_row := Bill {
  bi_building : Z; bi_resident : Z; bi_title : string; bi_note : string; bi_period : string;
  bi_due_date : option date; bi_amount_vnd : Z; bi_document : Z; bi_reference : string;
  bi_status : bill_status; bi_payment_source : option payment_source; bi_issued_by : Z;
  bi_issued_at : Z; bi_paid_at : option Z; bi_paid_confirmed_by : option Z; bi_void_by : option Z;
  bi_void_at : option Z; bi_void_reason : string }.
#[global] Instance eta_bill : Eta bill_row := fun r => Bill
  (bi_building r) (bi_resident r) (bi_title r) (bi_note r) (bi_period r) (bi_due_date r)
  (bi_amount_vnd r) (bi_document r) (bi_reference r) (bi_status r) (bi_payment_source r)
  (bi_issued_by r) (bi_issued_at r) (bi_paid_at r) (bi_paid_confirmed_by r) (bi_void_by r) (bi_void_at r)
  (bi_void_reason r).

(** ** gate *)

Inductive review_status := RvPending | RvApproved | RvRejected | RvExpired.
#[global] Instance review_status_eq_dec : EqDecision review_status.
Proof. solve_decision. Defined.
(** The embedding is sealed. *)
Record face_row := Face {
    fc_occupancy : Z; fc_embedding : option string; fc_model_name : string; fc_model_version :
  string; fc_status : review_status; fc_submitted_at : Z; fc_reviewed_by : option Z;
  fc_reviewed_at : option Z; fc_review_note : string }.
#[global] Instance eta_face : Eta face_row := fun r => Face
    (fc_occupancy r) (fc_embedding r) (fc_model_name r) (fc_model_version r) (fc_status r)
  (fc_submitted_at r) (fc_reviewed_by r) (fc_reviewed_at r) (fc_review_note r).
Record plate_row := Plate {
    vp_occupancy : Z; vp_building : Z; vp_plate : string; vp_status : review_status;
  vp_submitted_at : Z; vp_reviewed_by : option Z; vp_reviewed_at : option Z; vp_review_note :
  string }.
#[global] Instance eta_plate : Eta plate_row := fun r => Plate
    (vp_occupancy r) (vp_building r) (vp_plate r) (vp_status r) (vp_submitted_at r)
  (vp_reviewed_by r) (vp_reviewed_at r) (vp_review_note r).
Record pending_photo_row := PendingPhoto {
    ph_enrollment : Z; ph_storage_key : string; ph_version_id : string; ph_content_type :
  string; ph_byte_size : Z; ph_expires_at : Z }.
#[global] Instance eta_pending_photo : Eta pending_photo_row := fun r => PendingPhoto
    (ph_enrollment r) (ph_storage_key r) (ph_version_id r) (ph_content_type r) (ph_byte_size r)
  (ph_expires_at r).
Record photo_deletion_row := PhotoDeletion {
  pq_storage_key : string; pq_version_id : string }.
#[global] Instance eta_photo_deletion : Eta photo_deletion_row := fun r => PhotoDeletion
  (pq_storage_key r) (pq_version_id r).
Inductive gate_direction := ENTRY | EXIT.
#[global] Instance gate_direction_eq_dec : EqDecision gate_direction.
Proof. solve_decision. Defined.
Record gate_device_row := GateDevice {
    gd_building : Z; gd_label : string; gd_direction : gate_direction; gd_active : bool;
  gd_last_seen_hour : option Z }.
#[global] Instance eta_gate_device : Eta gate_device_row := fun r => GateDevice
  (gd_building r) (gd_label r) (gd_direction r) (gd_active r) (gd_last_seen_hour r).
Record credential_row := Credential {
    gc_device : Z; gc_token_sha256 : string; gc_created_by : Z; gc_expires_at : option Z;
  gc_revoked_at : option Z; gc_revoked_by : option Z }.
#[global] Instance eta_credential : Eta credential_row := fun r => Credential
    (gc_device r) (gc_token_sha256 r) (gc_created_by r) (gc_expires_at r) (gc_revoked_at r)
  (gc_revoked_by r).
Inductive event_kind := FACE | PLATE.
#[global] Instance event_kind_eq_dec : EqDecision event_kind.
Proof. solve_decision. Defined.
(** A score is a finite double, in units of 2^-1074. *)
Record gate_event_row := GateEvent {
    ge_building : Z; ge_device : Z; ge_kind : event_kind; ge_direction : gate_direction;
  ge_occurred_at : Z; ge_matched_occupancy : option Z; ge_matched_plate : option Z;
  ge_raw_plate_text : string; ge_normalized_plate_text : string; ge_model_name : string;
  ge_model_version : string; ge_match_metric : string; ge_threshold_used : option Z;
  ge_match_score : option Z }.
#[global] Instance eta_gate_event : Eta gate_event_row := fun r => GateEvent
    (ge_building r) (ge_device r) (ge_kind r) (ge_direction r) (ge_occurred_at r)
  (ge_matched_occupancy r) (ge_matched_plate r) (ge_raw_plate_text r) (ge_normalized_plate_text
  r) (ge_model_name r) (ge_model_version r) (ge_match_metric r) (ge_threshold_used r)
  (ge_match_score r).
Record heartbeat_row := Heartbeat {
  hb_last_success_at : Z; hb_events_deleted : Z; hb_photos_deleted : Z }.
#[global] Instance eta_heartbeat : Eta heartbeat_row := fun r => Heartbeat
  (hb_last_success_at r) (hb_events_deleted r) (hb_photos_deleted r).

(** ** Settings and the world *)

(** What the modelled services read from [django.conf.settings], and the secret stored
    in [lamto_security.write_authorization_secret]. *)
Record settings := Settings {
  st_anchoring_disabled : bool; st_chain_id : Z; st_contract_address : string;
  st_signer_key : string; st_write_secret : string; st_db_secret : string; st_push_enabled : bool;
  st_push_daily_cap : Z }.

(** A callback [queue_notification_after_commit] registers: the arguments its
    closure captures. *)
Record notice := Notice {
  no_recipient : Z; no_event_key : string; no_subject : string; no_body : string;
  no_channels : option (list channel); no_event_code : string; no_building : option Z }.

Record world := World {
  w_settings : settings; w_now : Z; w_on_commit : list notice;
  buildings : table string; users : table user_row; units : table unit_row;
  occupancies : table occupancy_row; memberships : table membership_row;
  registrations : table registration_row; throttles : table throttle_row;
  audits : table audit_row; documents : table document_row;
  doc_versions : table doc_version_row; quarantined : table quarantined_row;
  outbox : table outbox_row;
  locations : table location_row; reports : table report_row;
  report_photos : table report_photo_row; triage_jobs : table triage_job_row;
  suggestions : table suggestion_row; decisions : table decision_row;
  cases : table case_row; case_reports : table case_report_row;
  info_requests : table info_request_row; work_updates : table work_update_row;
  ratings : table rating_row; proposals : table proposal_row;
  versions : table version_row; prop_docs : table prop_doc_row;
  predictions : table prediction_row; settlements : table settlement_row;
  funds : table fund_row; fund_entries : table fund_entry_row;
  fund_verifications : table fund_verification_row; observations : table observation_row;
  ledger : table ledger_row; announcements : table announcement_row;
  preferences : table preference_row; deliveries : table delivery_row;
  devices : table device_row; bills : table bill_row;
  faces : table face_row; plates : table plate_row;
  pending_photos : table pending_photo_row; photo_deletions : table photo_deletion_row;
  gate_devices : table gate_device_row; credentials : table credential_row;
  gate_events : table gate_event_row; heartbeats : table heartbeat_row;
  tokens : table token_row;
  (** the versions of enrolment photos in the private storage, and the deletions to
      process when the transaction commits *)
  w_photo_objects : list (string * string); w_photo_callbacks : list Z }.
#[global] Instance eta_world : Eta world := fun w => World
  (w_settings w) (w_now w) (w_on_commit w) (buildings w) (users w) (units w)
  (occupancies w) (memberships w) (registrations w) (throttles w) (audits w)
  (documents w) (doc_versions w) (quarantined w) (outbox w) (locations w) (reports w) (report_photos w)
  (triage_jobs w) (suggestions w) (decisions w) (cases w) (case_reports w)
  (info_requests w) (work_updates w) (ratings w) (proposals w) (versions w) (prop_docs w)
  (predictions w) (settlements w) (funds w) (fund_entries w) (fund_verifications w)
  (observations w) (ledger w) (announcements w) (preferences w) (deliveries w) (devices w)
  (bills w) (faces w) (plates w) (pending_photos w) (photo_deletions w) (gate_devices w)
  (credentials w) (gate_events w) (heartbeats w) (tokens w) (w_photo_objects w) (w_photo_callbacks w).

(** A database with no rows, at instant [now]. *)
Definition empty_world (st : settings) (now : Z) : world := World st now []
  empty_table empty_table empty_table empty_table empty_table empty_table empty_table
  empty_table empty_table empty_table empty_table empty_table empty_table empty_table
  empty_table empty_table empty_table empty_table empty_table empty_table empty_table
  empty_table empty_table empty_table empty_table empty_table empty_table empty_table
  empty_table empty_table empty_table empty_table empty_table empty_table empty_table
  empty_table empty_table empty_table empty_table empty_table empty_table empty_table
  empty_table empty_table empty_table empty_table empty_table [] [].

Abbreviation DB := (M world).
