(* ===== verification/Store.v ===== *)
(** * Store: the ORM operations on [world], and the constraints the database adds

    [create], [save] and [bulk_update] write one table; [insert_*] are the
    inserts on which the database enforces a uniqueness constraint or trigger
    that the services rely on, and raise [IntegrityError] with its name. *)

From S2P Require Import Prelude Table PyStr Schema.
Open Scope Z_scope.

(** What the code takes from [hashlib], [unicodedata] and [secrets]: a digest of
    64 lowercase hexadecimal characters, and NFC normalization, which leaves
    normalized text alone. *)
Class Crypto := {
  sha256 : string -> string;
  sha256_length s : String.length (sha256 s) = 64%nat;
  sha256_hex s : sforall is_hex (sha256 s) = true;
  nfc : string -> string;
  nfc_idem s : nfc (nfc s) = nfc s;
}.
#[export] Hint Resolve sha256_length sha256_hex : core.

Section Ops.
Context {R : Type} (T : world -> table R) `{!Setter T}.

Definition create (r : R) : DB (obj R) :=
  k ← gets (fun w => next (T w)); modify (set T (insert_row r)) ;; mret (Obj k r).
(** [Model.objects.get(pk=k)] *)
Definition get_row (model : string) (k : Z) : DB (obj R) :=
  o ← gets (fun w => find k (T w)); of_option (DoesNotExist model) o.
Definition save (k : Z) (f : R -> R) : DB unit := modify (set T (update k f)).
Definition bulk_update (P : obj R -> bool) (f : R -> R) : DB unit :=
  modify (set T (update_where P f)).
Definition bulk_delete (P : obj R -> bool) : DB unit := modify (set T (delete_where P)).
(** [filter(...).update(...)] with the number of rows it returns. *)
Definition bulk_update_count (P : obj R -> bool) (f : R -> R) : DB Z := fun w =>
  (Ok (Z.of_nat (length (select P (T w)))), set T (update_where P f) w).
Definition query (P : obj R -> bool) : DB (list (obj R)) := gets (fun w => select P (T w)).
Definition query_first (P : obj R -> bool) : DB (option (obj R)) :=
  gets (fun w => first P (T w)).
Definition query_exists (P : obj R -> bool) : DB bool := gets (fun w => exists_ P (T w)).
Definition query_pk (k : Z) : DB (option (obj R)) := gets (fun w => find k (T w)).

Lemma create_Ok r w o w' :
  create r w = (Ok o, w') <-> o = Obj (next (T w)) r /\ w' = set T (insert_row r) w.
Proof. unfold create, mbind, M_bind, gets, modify, mret, M_ret. split; [by intros [= <- <-]|by intros [-> ->]]. Qed.

Lemma get_row_Ok m k w o w' :
  get_row m k w = (Ok o, w') <-> find k (T w) = Some o /\ w' = w.
Proof.
  unfold get_row, mbind, M_bind, gets, of_option. destruct (find k (T w)) as [o0|]; split;
    [by intros [= <- <-]|by intros [[= <-] ->]|discriminate|intros [H _]; discriminate].
Qed.

Lemma get_row_Err m k w e w' : get_row m k w = (Err e, w') -> w' = w.
Proof.
  unfold get_row, mbind, M_bind, gets, of_option. destruct (find k (T w)); [done|]. by intros [= _ <-].
Qed.

Lemma save_Ok k f w u w' : save k f w = (Ok u, w') <-> w' = set T (update k f) w.
Proof. unfold save. rewrite modify_Ok. naive_solver. Qed.
Lemma bulk_update_Ok P f w u w' :
  bulk_update P f w = (Ok u, w') <-> w' = set T (update_where P f) w.
Proof. unfold bulk_update. rewrite modify_Ok. naive_solver. Qed.
Lemma bulk_update_count_Ok P f w n w' :
  bulk_update_count P f w = (Ok n, w') <->
  n = Z.of_nat (length (select P (T w))) /\ w' = set T (update_where P f) w.
Proof. unfold bulk_update_count. split; [by intros [= <- <-]|by intros [-> ->]]. Qed.
Lemma bulk_delete_Ok P w u w' :
  bulk_delete P w = (Ok u, w') <-> w' = set T (delete_where P) w.
Proof. unfold bulk_delete. rewrite modify_Ok. naive_solver. Qed.
Lemma query_Ok P w l w' : query P w = (Ok l, w') <-> l = select P (T w) /\ w' = w.
Proof. unfold query. rewrite gets_Ok. naive_solver. Qed.
Lemma query_first_Ok P w o w' :
  query_first P w = (Ok o, w') <-> o = first P (T w) /\ w' = w.
Proof. unfold query_first. rewrite gets_Ok. naive_solver. Qed.
Lemma query_exists_Ok P w b w' :
  query_exists P w = (Ok b, w') <-> b = exists_ P (T w) /\ w' = w.
Proof. unfold query_exists. rewrite gets_Ok. naive_solver. Qed.
Lemma query_pk_Ok k w o w' : query_pk k w = (Ok o, w') <-> o = find k (T w) /\ w' = w.
Proof. unfold query_pk. rewrite gets_Ok. naive_solver. Qed.
End Ops.

(** An insert under a uniqueness constraint or trigger: [clash r o] when the stored
    row [o] forbids the new row [r]. *)
Definition insert_unless {R} (T : world -> table R) `{!Setter T} (constraint : string)
    (clash : R -> obj R -> bool) (r : R) : DB (obj R) :=
  dup ← query_exists T (clash r);
  require (negb dup) (IntegrityError constraint) ;;
  create T r.

Lemma insert_unless_Ok {R} (T : world -> table R) `{!Setter T} c clash r w o w' :
  insert_unless T c clash r w = (Ok o, w') <->
  (forall k r', rows (T w) !! k = Some r' -> clash r (Obj k r') = false) /\
  o = Obj (next (T w)) r /\ w' = set T (insert_row r) w.
Proof.
  unfold insert_unless, query_exists, mbind, M_bind, gets, require.
  destruct (exists_ (clash r) (T w)) eqn:E; simpl.
  - split; [done|]. intros [H _]. apply exists_true in E as (k & r' & Hk & HP).
    by rewrite (H _ _ Hk) in HP.
  - rewrite create_Ok. rewrite exists_false in E. naive_solver.
Qed.

(** A refused insert writes nothing. *)
Lemma insert_unless_Err {R} (T : world -> table R) `{!Setter T} c clash r w e w' :
  insert_unless T c clash r w = (Err e, w') -> w' = w.
Proof.
  unfold insert_unless, query_exists, mbind, M_bind, gets, require, create, modify.
  destruct (exists_ (clash r) (T w)); cbn; by intros [= _ <-].
Qed.

(** PostgreSQL stores neither NUL nor a lone surrogate, in text or in [jsonb]. *)
Fixpoint storable_str (s : string) : bool :=
  match s with
  | EmptyString => true
  | String c r =>
    negb (code c =? 0) &&
    negb ((code c =? 237) && match r with String d _ => 160 <=? code d | EmptyString => false end) &&
    storable_str r
  end.
Fixpoint storable (v : pyval) : bool :=
  match v with
  | PStr s => storable_str s
  | PList l => forallb storable l
  | PDict d => forallb (fun kv => storable kv.1 && storable kv.2) d
  | _ => true
  end.

(** [Model.objects.get(...)] on a query that may match several rows. *)
Definition get_one {R} (T : world -> table R) `{!Setter T} (model : string) (P : obj R -> bool) :
    DB (obj R) :=
  os ← query T P;
  match os with
  | [] => raise (DoesNotExist model)
  | [o] => mret o
  | _ => raise (MultipleObjectsReturned model)
  end.

Lemma get_one_Ok {R} (T : world -> table R) `{!Setter T} model P w o w' :
  get_one T model P w = (Ok o, w') <-> select P (T w) = [o] /\ w' = w.
Proof.
  unfold get_one, query, mbind, M_bind, gets. destruct (select P (T w)) as [|o1 [|]]; simpl.
  - split; [done|]. by intros [? _].
  - rewrite ret_Ok. split; [by intros [-> ->]|by intros [[= ->] ->]].
  - split; [done|]. by intros [? _].
Qed.

(** [save(update_fields=...)] of the object [k]; [check] is what the database checks. *)
Definition save_fields {R} (T : world -> table R) `{!Setter T} (check : R -> DB unit) (k : Z) (f : R -> R) :
    DB unit :=
  found ← query_pk T k;
  match found with
  | None => raise (DatabaseError "Save with update_fields did not affect any rows.")
  | Some o => check (f (val o)) ;; save T k f
  end.

Definition timezone_now : DB Z := gets w_now.
Definition get_settings : DB settings := gets w_settings.

(** [try: m except Exception: pass] *)
Definition swallow {A} (m : DB A) : DB unit := try_except (m ;; mret tt) (fun _ => mret tt).

(** [order_by("-created_at", "-pk")] on rows in key order. *)
Definition newest_first {R} (key : obj R -> Z) (l : list (obj R)) : list (obj R) :=
  order_by (fun o => - key o) (rev l).
Lemma newest_first_perm {R} (key : obj R -> Z) l : newest_first key l ≡ₚ l.
Proof. unfold newest_first. rewrite order_by_perm. symmetry. apply Permutation_rev. Qed.

Ltac inv_db_step :=
  match goal with
  | H : create _ _ _ = (Ok _, _) |- _ => apply create_Ok in H; destruct H as [? ?]
  | H : insert_unless _ _ _ _ _ = (Ok _, _) |- _ =>
    apply insert_unless_Ok in H; destruct H as (? & ? & ?)
  | H : get_row _ _ _ _ = (Ok _, _) |- _ => apply get_row_Ok in H; destruct H as [? ?]
  | H : timezone_now _ = (Ok _, _) |- _ => apply gets_Ok in H; destruct H as [? ?]
  | H : get_settings _ = (Ok _, _) |- _ => apply gets_Ok in H; destruct H as [? ?]
  | H : get_one _ _ _ _ = (Ok _, _) |- _ => apply get_one_Ok in H; destruct H as [? ?]
  | H : save _ _ _ _ = (Ok _, _) |- _ => apply save_Ok in H
  | H : bulk_update _ _ _ _ = (Ok _, _) |- _ => apply bulk_update_Ok in H
  | H : bulk_update_count _ _ _ _ = (Ok _, _) |- _ =>
    apply bulk_update_count_Ok in H; destruct H as [? ?]
  | H : bulk_delete _ _ _ = (Ok _, _) |- _ => apply bulk_delete_Ok in H
  | H : query _ _ _ = (Ok _, _) |- _ => apply query_Ok in H; destruct H as [? ?]
  | H : query_first _ _ _ = (Ok _, _) |- _ => apply query_first_Ok in H; destruct H as [? ?]
  | H : query_exists _ _ _ = (Ok _, _) |- _ => apply query_exists_Ok in H; destruct H as [? ?]
  | H : query_pk _ _ _ = (Ok _, _) |- _ => apply query_pk_Ok in H; destruct H as [? ?]
  end.
(** Invert a successful run of an operation, through control flow and queries. *)
Ltac inv_db := repeat ((inv_ok_step || inv_db_step); simplify_eq).

Notation "a ==? b" := (bool_decide (a = b)) (at level 70).

Ltac to_prop := repeat match goal with
  | H : bool_decide _ = true |- _ => apply bool_decide_eq_true in H
  | H : bool_decide _ = false |- _ => apply bool_decide_eq_false in H
  | H : negb _ = true |- _ => apply negb_true_iff in H
  | H : negb _ = false |- _ => apply negb_false_iff in H
  | H : _ && _ = true |- _ => apply andb_true_iff in H; destruct H
  | H : _ || _ = false |- _ => apply orb_false_iff in H; destruct H
  | H : (_ <? _) = true |- _ => apply Z.ltb_lt in H
  | H : (_ <? _) = false |- _ => apply Z.ltb_ge in H
  | H : (_ <=? _) = true |- _ => apply Z.leb_le in H
  | H : (_ <=? _) = false |- _ => apply Z.leb_gt in H
  end.

(** ** Evolution of one table of the world *)

Definition on {R} (T : world -> table R) (E : table R -> table R -> Prop) (w w' : world) : Prop :=
  E (T w) (T w').
#[export] Instance on_preorder {R} (T : world -> table R) E `{!PreOrder E} : PreOrder (on T E).
Proof.
  split; [intros ?; unfold on; reflexivity|].
  intros x y z ??. unfold on in *. by transitivity (T y).
Qed.

(** Split a [keeps] goal about one table into its updates of that table. *)
Ltac keeps_db_step :=
  match goal with
  | |- keeps _ (create _ _) _ => unfold create
  | |- keeps _ (insert_unless _ _ _ _) _ => unfold insert_unless
  | |- keeps _ (get_row _ _ _) _ => unfold get_row
  | |- keeps _ (get_one _ _ _) _ => unfold get_one
  | |- keeps ?R (query _ _) _ => apply (keeps_gets R)
  | |- keeps ?R (query_first _ _) _ => apply (keeps_gets R)
  | |- keeps ?R (query_exists _ _) _ => apply (keeps_gets R)
  | |- keeps ?R (query_pk _ _) _ => apply (keeps_gets R)
  | |- keeps ?R timezone_now _ => apply (keeps_gets R)
  | |- keeps ?R get_settings _ => apply (keeps_gets R)
  | |- keeps ?R (save _ _ _) _ => apply (keeps_modify R)
  | |- keeps ?R (bulk_update _ _ _) _ => apply (keeps_modify R)
  | |- keeps ?R (bulk_delete _ _) _ => apply (keeps_modify R)
  | |- keeps _ (bulk_update_count _ _ _) _ => unfold keeps, bulk_update_count, snd
  | |- keeps _ (swallow _) _ => unfold swallow
  | |- keeps ?R (modify _) _ => apply (keeps_modify R)
  | |- on _ _ _ _ => first
      [ unfold on; reflexivity
      | unfold on; cbn; apply evolves_insert; apply _
      | unfold on; cbn; apply evolves_update; [apply _|intros ? ?]
      | unfold on; cbn; apply evolves_update_where; [apply _|intros ? ? ? ?] ]
  end.
Ltac keeps_db := repeat (keeps_step || keeps_db_step).

(** The value of a concrete run, or [d] when it raises. *)
Definition got {A} (d : A) (r : result A * world) : A :=
  match r.1 with Ok a => a | Err _ => d end.

(** ** A concrete digest, on which the witnesses compute

    The real functions are parameters of every theorem; this instance only shows
    that the class is inhabited and lets concrete runs be evaluated. *)

Definition hex_digit (n : Z) : ascii := chr (if n <? 10 then 48 + n else 87 + n).
Fixpoint hex_digits (k : nat) (n : Z) : string :=
  match k with
  | O => EmptyString
  | S k => String (hex_digit (n mod 16)) (hex_digits k (n / 16))
  end.
Fixpoint poly_hash (s : string) (acc : Z) : Z :=
  match s with
  | EmptyString => acc
  | String c s => poly_hash s ((acc * 257 + code c + 1) mod 1000000007)
  end.

Lemma hex_digit_hex n : 0 <= n < 16 -> is_hex (hex_digit n) = true.
Proof.
  intros Hn. assert (forallb (fun n => is_hex (hex_digit n)) (seqZ 0 16) = true) as H
    by reflexivity.
  rewrite forallb_forall in H. apply H, list_elem_of_In, elem_of_seqZ. lia.
Qed.

Lemma length_hex_digits k n : String.length (hex_digits k n) = k.
Proof. revert n. induction k; intros n; simpl; congruence. Qed.

Lemma hex_digits_hex k n : sforall is_hex (hex_digits k n) = true.
Proof.
  revert n. induction k; intros n; simpl; [done|].
  rewrite hex_digit_hex, IHk; [done|]. apply Z.mod_pos_bound. lia.
Qed.

Definition demo_crypto : Crypto := {|
  sha256 s := hex_digits 64 (poly_hash s 7);
  sha256_length s := length_hex_digits 64 _;
  sha256_hex s := hex_digits_hex 64 _;
  nfc s := s;
  nfc_idem s := eq_refl |}.
