(* ===== verification/Accounts.v ===== *)
(** * Accounts: authorization, audit attribution, throttling, phone numbers

    [accounts/services.py], [audit/services.py], [accounts/security.py] and the
    phone normalization of [accounts/backends.py]. *)

From S2P Require Import Prelude Table PyStr Schema Store.
Open Scope Z_scope.

(** ** Management authorization *)

Definition manages (user building : Z) (m : obj membership_row) : bool :=
  (m~>mb_user ==? user) && (m~>mb_building ==? building) && m~>mb_active.

Definition require_management (user building_id : Z) : DB (obj membership_row) :=
  membership ← query_first memberships (manages user building_id);
  of_option (PermissionDenied "management") membership.

(** An active occupancy of [user] in [building_id]. *)
Definition resides (w : world) (user building_id : Z) (o : obj occupancy_row) : bool :=
  (o~>oc_user ==? user) && o~>oc_active &&
  match find o~>oc_unit (units w) with
  | Some u => u~>un_building ==? building_id
  | None => false
  end.

(** ** Audit attribution *)

Definition metadata := list (string * pyval).
Fixpoint assoc {A} (k : string) (d : list (string * A)) : option A :=
  match d with
  | [] => None
  | (k', v) :: d => if String.eqb k k' then Some v else assoc k d
  end.
Definition mk_dict (d : metadata) : pyval := PDict ((fun kv => (PStr kv.1, kv.2)) <$> d).

(** [(metadata or {}).get("occupancy_id")], [None] when absent or [None]. *)
Definition meta_occupancy (m : metadata) : option Z :=
  match assoc "occupancy_id" m with Some (PInt z) => Some z | _ => None end.

Definition valid_occupancy (w : world) (actor : Z) (oid : option Z) : bool :=
  match oid with
  | None => false
  | Some o => exists_ (fun r => (pk r ==? o) && (r~>oc_user ==? actor) && r~>oc_active)
      (occupancies w)
  end.

Definition has_active_membership (w : world) (actor : Z) : bool :=
  exists_ (fun m => (m~>mb_user ==? actor) && m~>mb_active) (memberships w).

(** The condition under which [record_audit] accepts the attribution. *)
Definition attribution_ok (w : world) (actor : Z) (membership : option Z)
    (action target_type : string) (meta : metadata) : bool :=
  let occupancy_id := meta_occupancy meta in
  match membership with
  | None =>
    let resident_report := ((action ==? "report.submit") && (target_type ==? "IssueReport"))
      || ((action ==? "request.info_replied") && (target_type ==? "InfoRequest")) in
    let resident_rating := (action ==? "work.rate") && (target_type ==? "CompletionRating") in
    let resident_document := (action ==? "document.upload") && (target_type ==? "DocumentVersion") in
    let bill_payment := (action ==? "bill.payment_recorded") && (target_type ==? "Bill") in
    let valid := valid_occupancy w actor occupancy_id in
    if bill_payment || (resident_report || resident_rating || resident_document) && valid
    then true
    else negb (negb ((action ==? "document.download") && (target_type ==? "DocumentVersion"))
      || has_active_membership w actor
      || (bool_decide (is_Some occupancy_id) && negb valid))
  | Some m =>
    exists_ (fun r => (pk r ==? m) && (r~>mb_user ==? actor) && r~>mb_active) (memberships w)
  end.

Definition record_audit (actor : Z) (membership : option Z)
    (action target_type target_id result : string) (meta : metadata) : DB (obj audit_row) :=
  ok ← gets (fun w => attribution_ok w actor membership action target_type meta);
  require ok (PermissionDenied "Audit membership attribution is invalid.") ;;
  create audits (Audit actor membership action target_type target_id result (mk_dict meta)).

(** ** Authentication throttling *)

Section Throttle.
Context {CR : Crypto}.

Definition THROTTLE_MAX_FAILURES : Z := 5.
Definition THROTTLE_WINDOW : Z := seconds (15 * 60).

Definition throttle_digest (account : string) (ip : option string) : string :=
  sha256 (py_lower (py_strip account) +:+ "|" +:+ py_strip (default "" ip)).

Definition locked_at (b : throttle_row) (now : Z) : bool :=
  match th_locked_until b with Some u => now <? u | None => false end.

Definition assert_not_throttled (account : string) (ip : option string) : DB unit :=
  atomic (
    bucket ← query_first throttles (fun o => o~>th_key_digest ==? throttle_digest account ip);
    match bucket with
    | None => mret tt
    | Some b =>
      now ← timezone_now;
      require (negb (locked_at (val b) now))
        (PermissionDenied "Too many authentication attempts. Try again later.")
    end).

(** [get_or_create(key_digest=digest, defaults=...)] *)
Definition get_or_create_bucket (digest : string) : DB (obj throttle_row) :=
  bucket ← query_first throttles (fun o => o~>th_key_digest ==? digest);
  match bucket with
  | Some b => mret b
  | None => now ← timezone_now; create throttles (Throttle digest 0 (Some now) None)
  end.

(** The assignments [record_auth_failure] and [record_registration_attempt] share. *)
Definition count_failure (now : Z) (b : throttle_row) : throttle_row :=
  let b :=
    match th_window_started_at b with
    | Some s =>
      if THROTTLE_WINDOW <? now - s
      then b <| th_failure_count := 1 |> <| th_window_started_at := Some now |>
             <| th_locked_until := None |>
      else b <| th_failure_count := th_failure_count b + 1 |>
    | None => b <| th_failure_count := 1 |> <| th_window_started_at := Some now |>
                <| th_locked_until := None |>
    end in
  if THROTTLE_MAX_FAILURES <=? th_failure_count b
  then b <| th_locked_until := Some (now + THROTTLE_WINDOW) |> else b.

Definition record_auth_failure (account : string) (ip : option string) : DB throttle_row :=
  atomic (
    bucket ← get_or_create_bucket (throttle_digest account ip);
    now ← timezone_now;
    let b := count_failure now (val bucket) in
    save throttles (pk bucket) (count_failure now) ;;
    mret b).

Definition record_registration_attempt (account : string) (ip : option string) :
    DB throttle_row :=
  atomic (
    bucket ← get_or_create_bucket (throttle_digest account ip);
    now ← timezone_now;
    require (negb (locked_at (val bucket) now))
      (PermissionDenied "Too many registration attempts. Try again later.") ;;
    let b := count_failure now (val bucket) in
    save throttles (pk bucket) (count_failure now) ;;
    mret b).

Definition reset_auth_throttle (account : string) (ip : option string) : DB unit :=
  atomic (
    bucket ← query_first throttles (fun o => o~>th_key_digest ==? throttle_digest account ip);
    match bucket with
    | None => mret tt
    | Some b => save throttles (pk b) (fun r =>
        r <| th_failure_count := 0 |> <| th_window_started_at := None |>
          <| th_locked_until := None |>)
    end).
End Throttle.

(** ** Vietnamese phone numbers *)

(** [re.compile(r"[\s.\-()]+").sub("", ...)] *)
Definition is_separator (c : ascii) : bool :=
  is_space c || (code c =? 46) || (code c =? 45) || (code c =? 40) || (code c =? 41).

(** [^0\d{9,10}$] *)
Definition is_vn_phone (s : string) : bool :=
  match s with
  | EmptyString => false
  | String c t => (code c =? 48) && sforall is_digit t && ((slen t =? 9) || (slen t =? 10))
  end.

Definition normalize_phone (raw : string) : option string :=
  if negb (truthy raw) then None else
  let value := sfilter (fun c => negb (is_separator c)) raw in
  let value :=
    match drop_prefix "+84" value with
    | Some rest => "0" +:+ rest
    | None =>
      match drop_prefix "84" value with
      | Some rest => if 11 <=? slen value then "0" +:+ rest else value
      | None => value
      end
    end in
  if is_vn_phone value then Some value else None.

(** ** Login *)

(** [PhoneOrEmailBackend.authenticate]; [check_password stored raw] is the hasher's
    comparison. *)
Definition authenticate (check_password : string -> string -> bool)
    (username password : option string) : DB (option (obj user_row)) :=
  match username, password with
  | Some username, Some password =>
    user ← try_except
      (match normalize_phone username with
       | Some phone => u ← get_one users "User" (fun o => o~>u_phone ==? Some phone); mret (Some u)
       | None => u ← get_one users "User" (fun o =>
           (py_lower <$> o~>u_email) ==? Some (py_lower username)); mret (Some u)
       end)
      (fun e => match e with DoesNotExist _ => mret None | _ => raise e end);
    match user with
    | None => mret None
    | Some u =>
      mret (if check_password u~>u_password password && u~>u_is_active then Some u else None)
    end
  | _, _ => mret None
  end.

(** ** Facts the other components use *)

Section Facts.
Implicit Types (w : world).

Lemma require_management_Ok u b w m w' :
  require_management u b w = (Ok m, w') <->
  first (manages u b) (memberships w) = Some m /\ w' = w.
Proof.
  unfold require_management. split; [intros H; inv_db; eauto|].
  intros [H ->]. unfold mbind, M_bind, query_first, gets, of_option. by rewrite H.
Qed.

(** The membership an authorized caller gets is an active membership of that user
    in that building. *)
Lemma require_management_spec u b w m w' :
  require_management u b w = (Ok m, w') ->
  w' = w /\ rows (memberships w) !! pk m = Some (val m) /\
  m~>mb_user = u /\ m~>mb_building = b /\ m~>mb_active = true.
Proof.
  intros [H ->]%require_management_Ok. apply first_Some in H as [Hm H].
  unfold manages in H. to_prop. done.
Qed.

Lemma record_audit_Ok a m act tt ti res meta w r w' :
  record_audit a m act tt ti res meta w = (Ok r, w') <->
  attribution_ok w a m act tt meta = true /\
  r = Obj (next (audits w)) (Audit a m act tt ti res (mk_dict meta)) /\
  w' = set audits (insert_row (Audit a m act tt ti res (mk_dict meta))) w.
Proof.
  unfold record_audit. split.
  - intros H. inv_db. done.
  - intros (H & -> & ->). unfold mbind, M_bind, gets, require. rewrite H. done.
Qed.

(** Attribution to an active membership of the actor is always accepted. *)
Lemma attribution_membership w m act tt meta :
  rows (memberships w) !! pk m = Some (val m) -> m~>mb_active = true ->
  attribution_ok w m~>mb_user (Some (pk m)) act tt meta = true.
Proof.
  intros Hm Ha. simpl. apply exists_true. exists (pk m), (val m). split; [done|]. simpl.
  by rewrite !bool_decide_eq_true_2, Ha.
Qed.
End Facts.

Ltac inv_accounts_step :=
  match goal with
  | H : require_management _ _ _ = (Ok _, _) |- _ =>
    apply require_management_spec in H; destruct H as (? & ? & ? & ? & ?)
  | H : record_audit _ _ _ _ _ _ _ _ = (Ok _, _) |- _ =>
    apply record_audit_Ok in H; destruct H as (? & ? & ?)
  end.
Ltac inv_op := repeat ((inv_accounts_step || inv_ok_step || inv_db_step); simplify_eq).

(** [keeps_db] through the authorization and audit calls. *)
Ltac keeps_op_step :=
  match goal with
  | |- keeps _ (require_management _ _) _ => unfold require_management
  | |- keeps _ (record_audit _ _ _ _ _ _ _) _ => unfold record_audit
  end.
Ltac keeps_op := repeat (keeps_step || keeps_db_step || keeps_op_step).

Section Throttling.
Context {CR : Crypto}.
Implicit Types (b : throttle_row).

(** Failures at the instants [ts], one after the other. *)
Definition failures (ts : list Z) b : throttle_row := foldl (fun b t => count_failure t b) b ts.

Lemma failures_snoc ts t b : failures (ts ++ [t]) b = count_failure t (failures ts b).
Proof. unfold failures. by rewrite foldl_app. Qed.

Lemma count_failure_in_window t t0 b :
  th_window_started_at b = Some t0 -> t - t0 <= THROTTLE_WINDOW ->
  count_failure t b =
  Throttle (th_key_digest b) (th_failure_count b + 1) (Some t0)
    (if THROTTLE_MAX_FAILURES <=? th_failure_count b + 1
     then Some (t + THROTTLE_WINDOW) else th_locked_until b).
Proof.
  intros Hs Ht. unfold count_failure. rewrite Hs.
  replace (THROTTLE_WINDOW <? t - t0) with false by (symmetry; apply Z.ltb_ge; lia).
  destruct b; cbn in *. subst. by destruct (_ <=? _).
Qed.

(** Inside one window the counter is the number of failures, and the lock is set
    exactly from the fifth on, fifteen minutes past the last one. *)
Lemma failures_in_window ts t0 b :
  th_window_started_at b = Some t0 -> th_failure_count b = 0 -> th_locked_until b = None ->
  Forall (fun t => t - t0 <= THROTTLE_WINDOW) ts ->
  failures ts b = Throttle (th_key_digest b) (Z.of_nat (length ts)) (Some t0)
    (if decide (5 <= length ts)%nat
     then (fun t => t + THROTTLE_WINDOW) <$> last ts else None).
Proof.
  intros Hs Hc Hl. induction ts as [|t ts IH] using rev_ind.
  - destruct b; simpl in *. by subst.
  - intros [HF Ht]%Forall_app. rewrite Forall_singleton in Ht. rewrite failures_snoc.
    rewrite (count_failure_in_window t t0) by (done || (rewrite IH by done; done)).
    rewrite IH by done. simpl. rewrite length_app, last_snoc. simpl.
    unfold THROTTLE_MAX_FAILURES. f_equal; [lia|].
    repeat case_decide; try destruct (Z.leb_spec 5 (Z.of_nat (length ts) + 1)); try lia; try done.
Qed.

(** Failed logins of one (account, ip), each at its own instant. *)
Definition at_time (t : Z) (w : world) : world := w <| w_now := t |>.
Definition fail_at (account : string) (ip : option string) (w : world) (t : Z) : world :=
  (record_auth_failure account ip (at_time t w)).2.
Definition bucket_of (account : string) (ip : option string) (w : world) :
    option (obj throttle_row) :=
  first (fun o => o~>th_key_digest ==? throttle_digest account ip) (throttles w).

Lemma count_failure_digest t b : th_key_digest (count_failure t b) = th_key_digest b.
Proof.
  unfold count_failure. destruct b; cbn. repeat case_match; done.
Qed.

Lemma fail_at_Some account ip w t (b : obj throttle_row) :
  bucket_of account ip w = Some b ->
  bucket_of account ip (fail_at account ip w t) = Some (Obj (pk b) (count_failure t (val b))).
Proof.
  unfold bucket_of. intros Hb.
  unfold fail_at, record_auth_failure, atomic, get_or_create_bucket, mbind, M_bind,
    query_first, gets, mret, M_ret. simpl. rewrite Hb. simpl.
  rewrite first_update by (intros; simpl; by rewrite count_failure_digest).
  rewrite Hb. simpl. unfold updated. by rewrite decide_True.
Qed.

Lemma fail_at_None account ip w t :
  table_wf (throttles w) -> bucket_of account ip w = None ->
  bucket_of account ip (fail_at account ip w t) =
  Some (Obj (next (throttles w))
    (count_failure t (Throttle (throttle_digest account ip) 0 (Some t) None))).
Proof.
  unfold bucket_of. intros Hwf Hb.
  unfold fail_at, record_auth_failure, atomic, get_or_create_bucket, create, mbind, M_bind,
    query_first, gets, mret, M_ret. simpl. rewrite Hb. simpl.
  rewrite first_update by (intros; simpl; by rewrite count_failure_digest).
  rewrite first_insert_row, Hb by done. simpl. rewrite bool_decide_eq_true_2 by done.
  simpl. unfold updated. by rewrite decide_True.
Qed.

Lemma fail_at_many account ip ts w (b : obj throttle_row) :
  bucket_of account ip w = Some b ->
  bucket_of account ip (foldl (fail_at account ip) w ts) =
  Some (Obj (pk b) (failures ts (val b))).
Proof.
  revert w b. induction ts as [|t ts IH]; intros w b Hb; simpl; [by destruct b|].
  by rewrite (IH _ _ (fail_at_Some _ _ _ t _ Hb)).
Qed.

Lemma assert_not_throttled_fst account ip now w :
  (assert_not_throttled account ip (at_time now w)).1 =
  match bucket_of account ip w with
  | Some b => if locked_at (val b) now
    then Err (PermissionDenied "Too many authentication attempts. Try again later.")
    else Ok tt
  | None => Ok tt
  end.
Proof.
  unfold assert_not_throttled, atomic, mbind, M_bind, query_first, gets, bucket_of. simpl.
  destruct (first _ _) as [b|]; simpl; [|done]. unfold require.
  by destruct (locked_at (val b) now).
Qed.
End Throttling.

(** ** Properties *)

Section Properties.
Context {CR : Crypto}.

(** Login throttling.  Failures of one (account, ip) pair within fifteen
    minutes of the first one lock the pair exactly when there are at least five of
    them, and the lock lasts until fifteen minutes past the last failure. *)
Theorem throttle_five_strikes account ip w t0 ts t now :
  table_wf (throttles w) -> bucket_of account ip w = None ->
  Forall (fun t => t - t0 <= THROTTLE_WINDOW) (ts ++ [t]) ->
  (assert_not_throttled account ip
    (at_time now (foldl (fail_at account ip) w (t0 :: ts ++ [t])))).1 =
  if decide (5 <= length (t0 :: ts ++ [t]))%nat
  then if now <? t + THROTTLE_WINDOW
    then Err (PermissionDenied "Too many authentication attempts. Try again later.")
    else Ok tt
  else Ok tt.
Proof.
  intros Hwf Hb Hts. rewrite assert_not_throttled_fst. simpl.
  rewrite (fail_at_many _ _ _ _ _ (fail_at_None _ _ _ t0 Hwf Hb)). simpl.
  change (count_failure t0 ?b) with (failures [t0] b) at 1.
  replace (failures (ts ++ [t]) (failures [t0] _)) with
    (failures (t0 :: ts ++ [t]) (Throttle (throttle_digest account ip) 0 (Some t0) None))
    by done.
  assert (Forall (fun t => t - t0 <= THROTTLE_WINDOW) (t0 :: ts ++ [t])) as Hall.
  { constructor; [rewrite Z.sub_diag; done|done]. }
  rewrite (failures_in_window _ t0) by done.
  unfold locked_at. cbn [th_locked_until].
  change (S (length (ts ++ [t]))) with (length (t0 :: ts ++ [t])).
  case_decide; [|done].
  change (t0 :: ts ++ [t]) with ((t0 :: ts) ++ [t]). by rewrite last_snoc.
Qed.
End Properties.

Section Phones.
Lemma is_vn_phone_inv s :
  is_vn_phone s = true ->
  exists t, s = String "0" t /\ sforall is_digit t = true /\ (slen t = 9 \/ slen t = 10).
Proof.
  destruct s as [|c t]; simpl; [done|]. intros H. to_prop. exists t.
  assert (c = "0"%char) as ->.
  { apply Z.eqb_eq in H. unfold code in H.
    rewrite <- (ascii_nat_embedding c). by replace (nat_of_ascii c) with 48%nat by lia. }
  split; [done|]. split; [done|]. apply orb_true_iff in H0.
  rewrite !Z.eqb_eq in H0. done.
Qed.

Lemma digit_not_separator c : is_digit c = true -> negb (is_separator c) = true.
Proof.
  revert c. apply ascii_forall_impl. reflexivity.
Qed.

Lemma digits_kept s : sforall is_digit s = true -> sfilter (fun c => negb (is_separator c)) s = s.
Proof. intros H. apply sfilter_id. revert H. apply sforall_impl, digit_not_separator. Qed.

Lemma is_vn_phone_canonical s : is_vn_phone s = true -> normalize_phone s = Some s.
Proof.
  intros H. destruct (is_vn_phone_inv s H) as (t & -> & Ht & _).
  unfold normalize_phone. rewrite (digits_kept (String "0" t)) by done.
  simpl truthy. cbn -[is_vn_phone]. by rewrite H.
Qed.

Lemma normalize_phone_vn raw v : normalize_phone raw = Some v -> is_vn_phone v = true.
Proof.
  unfold normalize_phone. destruct (truthy raw); simpl; [|done].
  destruct (is_vn_phone _) eqn:E; [|done]. by intros [= <-].
Qed.

(** A normalized phone number is a fixed point of normalization: what
    [User.save] stores is what login looks up, however the number was written. *)
Theorem normalize_phone_idempotent raw v :
  normalize_phone raw = Some v -> normalize_phone v = Some v.
Proof. intros H. by apply is_vn_phone_canonical, (normalize_phone_vn raw). Qed.

Lemma normalize_phone_international v :
  is_vn_phone v = true -> exists t, v = String "0" t /\ normalize_phone ("+84" +:+ t) = Some v.
Proof.
  intros H. destruct (is_vn_phone_inv v H) as (t & -> & Ht & _). exists t. split; [done|].
  unfold normalize_phone. simpl truthy. cbn [negb].
  change ("+84" +:+ t) with (String "+" (String "8" (String "4" t))).
  replace (sfilter _ _) with ("+84" +:+ t); [|simpl; by rewrite (digits_kept t)].
  rewrite drop_prefix_app. cbv zeta. change ("0" +:+ t) with (String "0" t). by rewrite H.
Qed.
End Phones.

(** ** Witnesses *)

Lemma throttle_five_strikes_witness :
  (assert_not_throttled (CR := demo_crypto) "a@b.c" (Some "10.0.0.1")
    (at_time (seconds 60) (foldl (fail_at (CR := demo_crypto) "a@b.c" (Some "10.0.0.1"))
      (empty_world (Settings false 1 "" "" "" "" true 5) 0)
      (0 :: [seconds 10; seconds 20; seconds 30] ++ [seconds 40])))).1
  = Err (PermissionDenied "Too many authentication attempts. Try again later.").
Proof.
  etransitivity.
  - apply (throttle_five_strikes (CR := demo_crypto)).
    + apply empty_table_wf.
    + reflexivity.
    + repeat constructor; unfold THROTTLE_WINDOW; vm_compute; discriminate.
  - reflexivity.
Defined.

Lemma normalize_phone_idempotent_witness :
  normalize_phone "+84 (90) 123-4567" = Some "0901234567" /\
  normalize_phone "0901234567" = Some "0901234567".
Proof.
  split; [reflexivity|]. apply (normalize_phone_idempotent "+84 (90) 123-4567"). reflexivity.
Defined.
