(* ===== verification/Registration.v ===== *)
(** * Registration: resident sign-up requests and the resident's tenant context

    [accounts/registration.py] and [accounts/tenancy.py].  A request is submitted
    with a phone in any notation, stored as [+84...], and approval creates a login
    whose phone is the canonical local form. *)

From S2P Require Import Prelude Table PyStr Schema Store Accounts.
Open Scope Z_scope.

Definition UNAVAILABLE : exn := RegistrationConflict.
Definition is_duplicate_constraint (c : string) : bool :=
  (c ==? "unique_pending_registration_phone") || (c ==? "unique_pending_registration_email").
Definition is_user_duplicate_constraint (c : string) : bool :=
  (c ==? "accounts_user_email_key") || (c ==? "accounts_user_phone_key").

(** [User.save]: the phone is kept in the form login accepts. *)
Definition user_save (u : user_row) : user_row :=
  match u_phone u with
  | Some p =>
    if truthy p then
      match normalize_phone p with
      | Some c => User (u_email u) (u_display_name u) (Some c) (u_password u) (u_is_active u)
      | None => u
      end
    else u
  | None => u
  end.

Definition same_some (a b : option string) : bool :=
  match a, b with Some x, Some y => x ==? y | _, _ => false end.

Definition insert_user (u : user_row) : DB (obj user_row) :=
  let u := user_save u in
  email ← query_exists users (fun o => same_some (u_email u) o~>u_email);
  require (negb email) (IntegrityError "accounts_user_email_key") ;;
  insert_unless users "accounts_user_phone_key"
    (fun r o => same_some (u_phone r) o~>u_phone) u.

Definition is_pending (r : registration_row) : bool := rg_status r ==? RegPending.

(** The partial unique constraints of [RegistrationRequest.Meta]. *)
Definition insert_registration (r : registration_row) : DB (obj registration_row) :=
  phone ← query_exists registrations
    (fun o => is_pending r && is_pending (val o) && (o~>rg_phone ==? rg_phone r));
  require (negb phone) (IntegrityError "unique_pending_registration_phone") ;;
  email ← query_exists registrations
    (fun o => is_pending r && is_pending (val o) && same_some (rg_email r) o~>rg_email);
  require (negb email) (IntegrityError "unique_pending_registration_email") ;;
  insert_unless registrations "accounts_registrationrequest_status_token_digest_key"
    (fun r o => o~>rg_token_digest ==? rg_token_digest r) r.

(** ["+84" + user_phone[1:]] *)
Definition international (user_phone : string) : string :=
  "+84" +:+ match user_phone with String _ rest => rest | EmptyString => EmptyString end.

Section Registration.
Context {CR : Crypto}.
(** [django.contrib.auth.hashers.make_password] *)
Context (make_password : string -> string).

Definition status_token_digest (token : string) : string := sha256 token.

Definition expired_row (now : Z) (r : registration_row) : registration_row :=
  r <| rg_status := RegExpired |> <| rg_password_hash := "" |>
    <| rg_decided_at := Some now |> <| rg_updated_at := now |>.

Definition _expire_requests (requests : list (obj registration_row)) (now : Z) : DB unit :=
  for_each (fun o => save registrations (pk o) (expired_row now)) requests.

Definition lapsed (now : Z) (o : obj registration_row) : bool :=
  is_pending (val o) && (o~>rg_expires_at <=? now).

Definition expire_registration_requests (limit : nat) : DB Z :=
  now ← timezone_now;
  atomic (
    due ← query registrations (lapsed now);
    let requests := take limit (order_by (fun o => o~>rg_expires_at) due) in
    _expire_requests requests now ;;
    mret (Z.of_nat (length requests))).

(** [BaseUserManager.normalize_email(email.strip()).casefold()]: normalization
    lowers the domain, which folding does again. *)
Definition clean_email (email : option string) : option string :=
  match email with
  | Some e => if truthy (py_strip e) then Some (py_lower (py_strip e)) else None
  | None => None
  end.

Definition submit_registration (full_name phone : string) (email : option string)
    (password : string) (building_id unit_id : Z) (token : string) :
    DB (obj registration_row * string) :=
  atomic (
    let email := clean_email email in
    in_building ← query_exists units (fun u => (pk u ==? unit_id) && (u~>un_building ==? building_id));
    match normalize_phone phone with
    | None => raise RegistrationConflict
    | Some user_phone =>
      require in_building RegistrationConflict ;;
      let phone := international user_phone in
      let matching := fun o => (o~>rg_phone ==? phone) || same_some email o~>rg_email in
      now ← timezone_now;
      stale ← query registrations (fun o => matching o && lapsed now o);
      _expire_requests stale now ;;
      expire_registration_requests 100 ;;
      duplicate ← query_exists users (fun o => (o~>u_phone ==? Some user_phone)
        || same_some email (py_lower <$> o~>u_email));
      pending ← query_exists registrations (fun o => is_pending (val o) && matching o);
      require (negb duplicate && negb pending) RegistrationConflict ;;
      request ← try_except
        (insert_registration
          (Registration (py_strip full_name) phone email building_id unit_id
            (make_password password) (status_token_digest token) RegPending "" None None
            now (now + days 30)))
        (fun e => match e with
          | IntegrityError c =>
            if is_duplicate_constraint c then raise RegistrationConflict else raise e
          | _ => raise e
          end);
      mret (request, token)
    end).

Definition get_registration_status (status_token : string) : DB (obj registration_row) :=
  now ← timezone_now;
  atomic (
    request ← get_one registrations "RegistrationRequest"
      (fun o => o~>rg_token_digest ==? status_token_digest status_token);
    (if lapsed now request then _expire_requests [request] now else mret tt) ;;
    get_row registrations "RegistrationRequest" (pk request)).

(** [None]: the request had lapsed, and its expiry is committed. *)
Definition approve_locked (request_id actor : Z) : DB (option (obj user_row)) :=
  request ← get_row registrations "RegistrationRequest" request_id;
  membership ← require_management actor request~>rg_building;
  require (is_pending (val request)) RegistrationConflict ;;
  now ← timezone_now;
  if request~>rg_expires_at <=? now then
    _expire_requests [request] now ;; mret None
  else
    user ← insert_user (User request~>rg_email request~>rg_full_name
      (Some request~>rg_phone) request~>rg_password_hash true);
    create occupancies (Occupancy (pk user) request~>rg_unit true) ;;
    save registrations request_id (fun r =>
      r <| rg_status := RegApproved |> <| rg_password_hash := "" |>
        <| rg_decided_by := Some actor |> <| rg_decided_at := Some now |>
        <| rg_updated_at := now |>) ;;
    record_audit actor (Some (pk membership)) "registration.approved" "RegistrationRequest"
      (zstr request_id) "accepted"
      [("building_id", PInt request~>rg_building); ("unit_id", PInt request~>rg_unit)] ;;
    mret (Some user).

Definition approve_registration (request_id actor : Z) : DB (obj user_row) :=
  outcome ← try_except (atomic (approve_locked request_id actor))
    (fun e => match e with
      | IntegrityError c =>
        if is_user_duplicate_constraint c then raise RegistrationConflict else raise e
      | _ => raise e
      end);
  of_option RegistrationConflict outcome.

Definition reject_registration (request_id actor : Z) (reason : string) : DB unit :=
  let reason := py_strip reason in
  require (truthy reason) (ValueError "Rejection reason is required") ;;
  expired ← atomic (
    request ← get_row registrations "RegistrationRequest" request_id;
    membership ← require_management actor request~>rg_building;
    require (is_pending (val request)) RegistrationConflict ;;
    now ← timezone_now;
    if request~>rg_expires_at <=? now then
      _expire_requests [request] now ;; mret true
    else
      save registrations request_id (fun r =>
        r <| rg_status := RegRejected |> <| rg_password_hash := "" |>
          <| rg_rejection_reason := reason |> <| rg_decided_by := Some actor |>
          <| rg_decided_at := Some now |> <| rg_updated_at := now |>) ;;
      record_audit actor (Some (pk membership)) "registration.rejected" "RegistrationRequest"
        (zstr request_id) "accepted"
        [("building_id", PInt request~>rg_building); ("unit_id", PInt request~>rg_unit);
         ("reason", PStr reason)] ;;
      mret false);
  require (negb expired) RegistrationConflict.
End Registration.

(** ** A request is decided once *)

(** What may happen to a stored request: nothing, or the one move out of [PENDING],
    which erases the password hash and stamps the decision. *)
Definition decided_once (r r' : registration_row) : Prop :=
  r' = r \/
  rg_status r = RegPending /\ rg_status r' <> RegPending /\ rg_password_hash r' = "" /\
  is_Some (rg_decided_at r') /\ rg_phone r' = rg_phone r /\ rg_email r' = rg_email r /\
  rg_full_name r' = rg_full_name r /\ rg_building r' = rg_building r /\
  rg_unit r' = rg_unit r /\ rg_token_digest r' = rg_token_digest r.

#[export] Instance decided_once_preorder : PreOrder decided_once.
Proof.
  split; [by left|]. unfold decided_once. intros x y z Hxy Hyz.
  destruct Hxy as [->|Hxy]; [done|]. destruct Hyz as [->|Hyz]; [by right|]. naive_solver.
Qed.

Inductive registration_op :=
  | Submit (full_name phone : string) (email : option string) (password : string)
      (building unit_ : Z) (token : string)
  | ExpireDue (limit : nat)
  | Status (token : string)
  | Approve (request actor : Z)
  | Reject (request actor : Z) (reason : string).

Section Facts.
Context {CR : Crypto} (make_password : string -> string).

Definition run_registration (op : registration_op) : DB unit :=
  match op with
  | Submit n p e pw b u t => _ ← submit_registration make_password n p e pw b u t; mret tt
  | ExpireDue l => _ ← expire_registration_requests l; mret tt
  | Status t => _ ← get_registration_status t; mret tt
  | Approve r a => _ ← approve_registration r a; mret tt
  | Reject r a reason => reject_registration r a reason
  end.

Lemma is_pending_true r : is_pending r = true -> rg_status r = RegPending.
Proof. apply bool_decide_eq_true. Qed.

Lemma expired_row_decided now r : is_pending r = true -> decided_once r (expired_row now r).
Proof. intros H%is_pending_true. right. destruct r; simpl in *. naive_solver. Qed.

Notation keeps_reg := (keeps (on registrations (evolves decided_once))).

(** What expiring a list of requests leaves in the database. *)
Lemma expire_result l now w :
  exists w', _expire_requests l now w = (Ok tt, w') /\
  w' = w <| registrations := registrations w' |> /\
  (table_wf (registrations w) -> table_wf (registrations w')) /\
  forall k, rows (registrations w') !! k =
    (fun r => if decide (k ∈ pk <$> l) then expired_row now r else r)
      <$> rows (registrations w) !! k.
Proof.
  unfold _expire_requests. revert w. induction l as [|o l IH]; intros w; simpl.
  { exists w. split; [done|]. split; [by destruct w|]. split; [done|]. intros k.
    by destruct (rows _ !! k). }
  destruct (IH (w <| registrations ::= update (pk o) (expired_row now) |>))
    as (w' & Hrun & Hw' & Hwf & Hrows). clear IH.
  exists w'. split; [exact Hrun|]. split; [rewrite Hw'; by destruct w|].
  split; [intros H; apply Hwf; simpl; auto with tables|].
  intros k. rewrite Hrows. simpl. rewrite lookup_alter.
  destruct (decide (pk o = k)) as [->|Hne].
  - destruct (rows _ !! k) as [r|]; [|done]. simpl.
    repeat case_decide; try done; exfalso;
      match goal with H : ~ (_ ∈ _ :: _) |- _ => apply H; left end.
  - destruct (rows _ !! k) as [r|]; [|done]. simpl.
    repeat case_decide; try done; exfalso; rewrite elem_of_cons in *; naive_solver.
Qed.

Lemma keeps_expire l now w :
  (forall o, o ∈ l -> rows (registrations w) !! pk o = Some (val o) /\ is_pending (val o) = true) ->
  keeps_reg (_expire_requests l now) w.
Proof.
  intros Hl. unfold keeps, on. destruct (expire_result l now w) as (w' & -> & _ & Hwf & Hrows).
  simpl. intros Ht. split; [by apply Hwf|]. intros k r Hk. rewrite Hrows, Hk. simpl.
  eexists. split; [done|]. case_decide as Hin; [|done].
  apply list_elem_of_fmap in Hin as (o & -> & [Ho Hp]%Hl).
  apply expired_row_decided. congruence.
Qed.

Lemma keeps_expire_due limit w : keeps_reg (expire_registration_requests limit) w.
Proof.
  unfold expire_registration_requests. keeps_op. inv_db. apply keeps_expire.
  intros o Ho%elem_of_take. destruct Ho as (i & Ho & _).
  apply list_elem_of_lookup_2, elem_of_order_by, elem_of_select in Ho as [? Hp].
  unfold lapsed in Hp. to_prop. done.
Qed.
Lemma insert_user_Ok u w o w' :
  insert_user u w = (Ok o, w') ->
  (forall k r, rows (users w) !! k = Some r ->
    same_some (u_email (user_save u)) (u_email r) = false /\
    same_some (u_phone (user_save u)) (u_phone r) = false) /\
  o = Obj (next (users w)) (user_save u) /\ w' = set users (insert_row (user_save u)) w.
Proof.
  unfold insert_user. intros H. inv_db. to_prop. inv_query. split; [|done]. intros k r Hk.
  split; [by apply (H0 k)|]. by apply (H1 k).
Qed.

Lemma keeps_insert_registration r w : keeps_reg (insert_registration r) w.
Proof. unfold insert_registration. keeps_op. Qed.
Lemma keeps_insert_user u w : keeps_reg (insert_user u) w.
Proof. unfold insert_user. keeps_op. Qed.
Lemma keeps_submit n p e pw b u t w :
  keeps_reg (submit_registration make_password n p e pw b u t) w.
Proof.
  unfold submit_registration.
  keeps_op; auto using keeps_expire_due, keeps_insert_registration.
  inv_db. apply keeps_expire. intros o [? Hp]%elem_of_select. unfold lapsed in Hp.
  to_prop. done.
Qed.
Lemma keeps_status t w : keeps_reg (get_registration_status t) w.
Proof.
  unfold get_registration_status.
  keeps_op; try done.
  apply keeps_expire. intros o ->%list_elem_of_singleton. inv_db. inv_query.
  unfold lapsed in *. to_prop. done.
Qed.

Lemma keeps_approve r a w : keeps_reg (approve_registration r a) w.
Proof.
  unfold approve_registration, approve_locked.
  keeps_op; auto using keeps_insert_user.
  - apply keeps_expire. intros o ->%list_elem_of_singleton. inv_op. inv_query. to_prop. done.
  - inv_op.
    match goal with H : insert_user _ _ = _ |- _ => apply insert_user_Ok in H as (? & ? & ?) end.
    simplify_eq/=. inv_query. simplify_eq.
    match goal with H : is_pending _ = true |- _ => apply is_pending_true in H end.
    right. destruct (val a0); simpl in *. naive_solver.
Qed.

Lemma keeps_reject r a reason w : keeps_reg (reject_registration r a reason) w.
Proof.
  unfold reject_registration. keeps_op.
  - apply keeps_expire. intros o ->%list_elem_of_singleton. inv_op. inv_query. to_prop. done.
  - inv_op. inv_query.
    match goal with H : is_pending _ = true |- _ => apply is_pending_true in H end.
    right. destruct (val a1); simpl in *. naive_solver.
Qed.
End Facts.

(** ** Submission and approval in detail *)

Section Results.
Context {CR : Crypto} (make_password : string -> string).

Lemma expire_due_users limit w n w' :
  expire_registration_requests limit w = (Ok n, w') -> users w' = users w /\ w_now w' = w_now w.
Proof.
  unfold expire_registration_requests. intros H. inv_op.
  match goal with H : _expire_requests ?l ?n ?w = _ |- _ =>
    destruct (expire_result l n w) as (w1 & Hrun & Hw & _); rewrite Hrun in H end.
  simplify_eq. by rewrite Hw.
Qed.

(** What a successful submission stores. *)
Lemma submit_stores n p e pw b u t w req tok w' :
  submit_registration make_password n p e pw b u t w = (Ok (req, tok), w') ->
  exists up, normalize_phone p = Some up /\ tok = t /\
  rows (registrations w') !! pk req = Some (val req) /\
  req~>rg_phone = international up /\
  req~>rg_password_hash = make_password pw /\ req~>rg_status = RegPending /\
  req~>rg_building = b /\ req~>rg_unit = u.
Proof.
  unfold submit_registration. intros H. inv_op.
  destruct (normalize_phone p) as [up|]; [|inv_op]. inv_op.
  match goal with H : try_except _ _ _ = _ |- _ => unfold try_except in H end.
  destruct (insert_registration _ _) as [[?|e'] ?] eqn:Hi in *.
  2: { destruct e'; try done. by destruct (is_duplicate_constraint _). }
  simplify_eq. unfold insert_registration in Hi. inv_op. simpl.
  exists up. repeat split; try done. by rewrite lookup_insert, decide_True.
Qed.

Lemma local_form up : is_vn_phone up = true ->
  normalize_phone (international up) = Some up.
Proof. intros H. destruct (normalize_phone_international up H) as (t & -> & Ht). exact Ht. Qed.

(** What a successful approval does. *)
Lemma approve_creates id actor w u w' :
  approve_registration id actor w = (Ok u, w') ->
  exists r, rows (registrations w) !! id = Some r /\ rg_status r = RegPending /\
    w_now w < rg_expires_at r /\
    u = Obj (next (users w)) (user_save (User (rg_email r) (rg_full_name r)
      (Some (rg_phone r)) (rg_password_hash r) true)) /\
    users w' = insert_row (val u) (users w) /\
    (forall k x, rows (users w) !! k = Some x ->
      same_some (u_phone (val u)) (u_phone x) = false) /\
    exists_ (fun o => (o~>oc_user ==? pk u) && (o~>oc_unit ==? rg_unit r) && o~>oc_active)
      (occupancies w') = true.
Proof.
  unfold approve_registration. intros H. inv_op.
  unfold try_except, atomic in *.
  destruct (approve_locked id actor w) as [[o|e'] w1] eqn:Hl.
  2: { destruct e'; try done. by destruct (is_user_duplicate_constraint _). }
  simplify_eq. unfold approve_locked in Hl. inv_op. inv_query.
  match goal with H : (if ?b then _ else _) _ = _ |- _ => destruct b eqn:? end; inv_op.
  match goal with H : insert_user _ _ = _ |- _ => apply insert_user_Ok in H as (Hno & ? & ?) end.
  simplify_eq/=. to_prop. exists (val x). repeat split; try done.
  - by apply is_pending_true.
  - intros k y Hk. by apply (Hno k y Hk).
  - apply exists_inserted. simpl. by rewrite !bool_decide_eq_true_2.
Qed.

(** Login by phone finds the one active account that holds it. *)
Lemma authenticate_phone check raw ph pw w (u : obj user_row) :
  normalize_phone raw = Some ph ->
  select (fun o => o~>u_phone ==? Some ph) (users w) = [u] ->
  check u~>u_password pw = true -> u~>u_is_active = true ->
  authenticate check (Some raw) (Some pw) w = (Ok (Some u), w).
Proof.
  intros Hn Hs Hc Ha. unfold authenticate, try_except, get_one, query, mbind, M_bind, gets.
  rewrite Hn, Hs. unfold mret, M_ret. by rewrite Hc, Ha.
Qed.
End Results.

(** ** Properties *)

Section Properties.
Context {CR : Crypto} (make_password : string -> string).

(** A registration request is decided once.  Whatever operation runs, and
    whether it succeeds or raises, a stored request either stays as it was or makes
    the single move from [PENDING] to a final status; that move erases the password
    hash, stamps the instant and keeps the applicant's data. *)
Theorem registration_decided_once op w :
  on registrations (evolves decided_once) w (run_registration make_password op w).2.
Proof.
  change (keeps (on registrations (evolves decided_once)) (run_registration make_password op) w).
  destruct op; simpl; keeps_op; auto using keeps_submit, keeps_expire_due, keeps_status,
    keeps_approve, keeps_reject.
Qed.

(** C34: sign-up round trip.  A resident submits a request with a phone in some
    notation; if the request is still stored when a manager approves it, the new
    account exists, and logging in with any notation of that phone and the chosen
    password returns that account. *)
Theorem registration_login check n p e pw b u t w req tok w1 w2 actor user w3 raw :
  (forall x, check (make_password x) x = true) ->
  submit_registration make_password n p e pw b u t w = (Ok (req, tok), w1) ->
  rows (registrations w2) !! pk req = Some (val req) -> table_wf (users w2) ->
  approve_registration (pk req) actor w2 = (Ok user, w3) ->
  normalize_phone raw = normalize_phone p ->
  authenticate check (Some raw) (Some pw) w3 = (Ok (Some user), w3).
Proof.
  intros Hcheck Hsub Hreq Hwf Happ Hraw.
  apply submit_stores in Hsub as (up & Hp & -> & _ & Hph & Hpw & _).
  apply approve_creates in Happ as (r & Hr & _ & _ & Huser & Hus & Hno & _).
  simplify_eq. pose proof (local_form up (normalize_phone_vn _ _ Hp)) as Hloc.
  rewrite Hph, Hpw in *. unfold user_save in *. simpl in *. rewrite Hloc in *. simpl in *.
  apply (authenticate_phone _ _ up); simpl; [congruence| |apply Hcheck|done].
  rewrite Hus, select_insert_row by done. simpl. rewrite bool_decide_eq_true_2 by done.
  replace (select _ _) with (@nil (obj user_row)); [done|]. symmetry. apply select_nil.
  intros k x Hk. specialize (Hno k x Hk). simpl. destruct (u_phone x); simpl in *.
  - apply bool_decide_eq_false in Hno. apply bool_decide_eq_false. congruence.
  - done.
Qed.
End Properties.

(** ** A concrete sign-up *)

Definition demo_make_password (raw : string) : string := "hashed:" +:+ raw.
Definition demo_check_password (stored raw : string) : bool := stored ==? demo_make_password raw.
Definition demo_settings : settings := Settings false 1337 "0xcontract" "" "secret" "secret" true 5.
(** Building 1 with unit 1, managed by user 1. *)
Definition demo_building : world :=
  empty_world demo_settings 0
    <| buildings ::= insert_row "Tower A" |>
    <| units ::= insert_row (Unit_ 1 "A-101") |>
    <| users ::= insert_row (User (Some "m@lamto.vn") "Manager" None "x" true) |>
    <| memberships ::= insert_row (Membership 1 1 true) |>.

Definition demo_submission : result (obj registration_row * string) * world :=
  submit_registration (CR := demo_crypto) demo_make_password "An" "0901 234 567" None "pw" 1 1 "t"
    demo_building.
Definition demo_request : obj registration_row :=
  Obj 1 (Registration "An" "+84901234567" None 1 1 "hashed:pw"
    (status_token_digest (CR := demo_crypto) "t") RegPending "" None None 0 (days 30)).
Definition demo_approval : result (obj user_row) * world :=
  approve_registration 1 1 demo_submission.2.
Definition demo_user : obj user_row := Obj 2 (User None "An" (Some "0901234567") "hashed:pw" true).

Lemma registration_login_witness :
  demo_submission = (Ok (demo_request, "t"), demo_submission.2) /\
  authenticate demo_check_password (Some "84 901-234-567") (Some "pw") demo_approval.2
    = (Ok (Some demo_user), demo_approval.2).
Proof.
  split; [vm_compute; reflexivity|].
  apply (registration_login (CR := demo_crypto) demo_make_password demo_check_password "An"
    "0901 234 567" None "pw" 1 1 "t" demo_building demo_request "t" demo_submission.2
    demo_submission.2 1 demo_user demo_approval.2).
  - intros x. unfold demo_check_password. by rewrite bool_decide_eq_true_2.
  - vm_compute. reflexivity.
  - vm_compute. reflexivity.
  - apply table_wf_b_true. vm_compute. reflexivity.
  - vm_compute. reflexivity.
  - vm_compute. reflexivity.
Defined.
