(* ===== verification/Canonical.v ===== *)
(** * Canonical JSON: the bytes that evidence hashes commit to

    [evidence/canonical.py].  [_normalize] and [canonical_bytes] are the source's;
    [dumps] and [loads] model [json.dumps(..., sort_keys=True, separators=(",", ":"),
    ensure_ascii=False)] and [json.loads] on the grammar [dumps] writes (no floats, no
    whitespace between tokens). *)

From S2P Require Import Prelude PyStr Schema Store.
Open Scope Z_scope.

(** ** Writing *)

Definition key_str (k : pyval) : string := match k with PStr s => s | _ => EmptyString end.

(** Sorting the items of a dictionary by key. *)
Fixpoint insert_item (kv : pyval * pyval) (l : list (pyval * pyval)) : list (pyval * pyval) :=
  match l with
  | [] => [kv]
  | kv' :: l' => if sle (key_str kv.1) (key_str kv'.1) then kv :: l else kv' :: insert_item kv l'
  end.
Definition sort_items (l : list (pyval * pyval)) : list (pyval * pyval) := foldr insert_item [] l.

Fixpoint sort_keys (v : pyval) : pyval :=
  match v with
  | PList l => PList (List.map sort_keys l)
  | PDict d => PDict (sort_items (List.map (fun '(k, x) => (k, sort_keys x)) d))
  | _ => v
  end.

Definition quote_ : ascii := chr 34.
Definition backslash : ascii := chr 92.

(** [json.encoder]'s [ESCAPE_DCT], and [\\u00XX] for the other control characters. *)
Definition escape_char (c : ascii) : string :=
  let n := code c in
  if n =? 34 then String backslash (String quote_ EmptyString)
  else if n =? 92 then String backslash (String backslash EmptyString)
  else if n =? 10 then String backslash "n"
  else if n =? 13 then String backslash "r"
  else if n =? 9 then String backslash "t"
  else if n =? 12 then String backslash "f"
  else if n =? 8 then String backslash "b"
  else if n <? 32 then
    String backslash ("u00" +:+ String (hex_digit (n / 16)) (String (hex_digit (n mod 16)) EmptyString))
  else String c EmptyString.

Fixpoint escape (s : string) : string :=
  match s with
  | EmptyString => EmptyString
  | String c s => escape_char c +:+ escape s
  end.
Definition quoted (s : string) : string := String quote_ (escape s +:+ String quote_ EmptyString).

Fixpoint write (v : pyval) : string :=
  match v with
  | PNone => "null"
  | PBool true => "true"
  | PBool false => "false"
  | PInt z => zstr z
  | PStr s => quoted s
  | PList l => "[" +:+ join "," (List.map write l) +:+ "]"
  | PDict d =>
    "{" +:+ join "," (List.map (fun '(k, x) => quoted (key_str k) +:+ ":" +:+ write x) d) +:+ "}"
  | POther _ => EmptyString
  end.

Definition dumps (v : pyval) : string := write (sort_keys v).

(** ** Reading *)

Definition hex_value (c : ascii) : Z :=
  if is_digit c then code c - 48 else if between 97 102 c then code c - 87 else 16.

(** The characters of a string literal, up to its closing quote. *)
Fixpoint read_chars (s : string) : option (string * string) :=
  match s with
  | EmptyString => None
  | String c s =>
    if code c =? 34 then Some (EmptyString, s)
    else if code c =? 92 then
      match s with
      | EmptyString => None
      | String e r =>
        let push n := (fun xr => (String (chr n) xr.1, xr.2)) <$> read_chars r in
        if code e =? 34 then push 34
        else if code e =? 92 then push 92
        else if code e =? 47 then push 47
        else if code e =? 110 then push 10
        else if code e =? 114 then push 13
        else if code e =? 116 then push 9
        else if code e =? 102 then push 12
        else if code e =? 98 then push 8
        else if code e =? 117 then
          match r with
          | String z1 (String z2 (String h (String l r'))) =>
            if (code z1 =? 48) && (code z2 =? 48) && (hex_value h <? 8) && (hex_value l <? 16)
            then (fun xr => (String (chr (hex_value h * 16 + hex_value l)) xr.1, xr.2)) <$> read_chars r'
            else None
          | _ => None
          end
        else None
      end
    else if code c <? 32 then None
    else (fun xr => (String c xr.1, xr.2)) <$> read_chars s
  end.

Definition read_number (s : string) : option (pyval * string) :=
  let '(digits, rest) := span is_number_char s in
  match parse_int digits with
  | Some z => if (digits ==? zstr z) || (digits ==? "-0") then Some (PInt z, rest) else None
  | None => None
  end.

Definition expect (c : ascii) (s : string) : option string :=
  match s with
  | String c' s => if Ascii.eqb c c' then Some s else None
  | EmptyString => None
  end.

Fixpoint read_value (fuel : nat) (s : string) : option (pyval * string) :=
  match fuel with
  | O => None
  | S fuel =>
    match s with
    | EmptyString => None
    | String c r =>
      if Ascii.eqb c quote_ then (fun xr => (PStr xr.1, xr.2)) <$> read_chars r
      else if Ascii.eqb c "["%char then
        match expect "]" r with
        | Some r => Some (PList [], r)
        | None => (fun xr => (PList xr.1, xr.2)) <$> read_items fuel r
        end
      else if Ascii.eqb c "{"%char then
        match expect "}" r with
        | Some r => Some (PDict [], r)
        | None => (fun xr => (PDict xr.1, xr.2)) <$> read_members fuel r
        end
      else if is_number_char c then read_number s
      else match drop_prefix "null" s, drop_prefix "true" s, drop_prefix "false" s with
        | Some r, _, _ => Some (PNone, r)
        | _, Some r, _ => Some (PBool true, r)
        | _, _, Some r => Some (PBool false, r)
        | _, _, _ => None
        end
    end
  end
with read_items (fuel : nat) (s : string) : option (list pyval * string) :=
  match fuel with
  | O => None
  | S fuel =>
    match read_value fuel s with
    | None => None
    | Some (x, r) =>
      match expect "," r with
      | Some r => (fun lr => (x :: lr.1, lr.2)) <$> read_items fuel r
      | None => (fun r => ([x], r)) <$> expect "]" r
      end
    end
  end
with read_members (fuel : nat) (s : string) : option (list (pyval * pyval) * string) :=
  match fuel with
  | O => None
  | S fuel =>
    match expect quote_ s ≫= read_chars with
    | None => None
    | Some (k, r) =>
      match expect ":" r ≫= read_value fuel with
      | None => None
      | Some (x, r) =>
        match expect "," r with
        | Some r => (fun lr => ((PStr k, x) :: lr.1, lr.2)) <$> read_members fuel r
        | None => (fun r => ([(PStr k, x)], r)) <$> expect "}" r
        end
      end
    end
  end.

(** [json.loads(s)]; a text has at most as many tokens as characters. *)
Definition loads (s : string) : option pyval :=
  match read_value (S (String.length s)) s with
  | Some (v, EmptyString) => Some v
  | _ => None
  end.

(** ** Normalization and hashing *)

Definition has_key (k : string) (d : list (pyval * pyval)) : bool :=
  existsb (fun kv => String.eqb (key_str kv.1) k) d.

Section Canonical.
Context {CR : Crypto}.

Section Members.
Context (f : pyval -> result pyval).
Fixpoint normalize_members (normalized d : list (pyval * pyval)) : result (list (pyval * pyval)) :=
  match d with
  | [] => Ok normalized
  | (k, item) :: d =>
    match k with
    | PStr key =>
      let key := nfc key in
      if has_key key normalized
      then Err (ValueError "Canonical object keys must remain unique after NFC normalization.")
      else y ← f item; normalize_members (normalized ++ [(PStr key, y)]) d
    | _ => Err (TypeError "Canonical object keys must be strings.")
    end
  end.
End Members.

Fixpoint _normalize (value : pyval) : result pyval :=
  match value with
  | PNone | PBool _ | PInt _ => Ok value
  | PStr s => Ok (PStr (nfc s))
  | PList l => l ← rmap _normalize l; Ok (PList l)
  | PDict d => d ← normalize_members _normalize [] d; Ok (PDict d)
  | POther n => Err (TypeError ("Unsupported canonical value: " +:+ n))
  end.

Definition canonical_bytes (payload : pyval) : result string :=
  match payload with
  | PDict _ | PList _ => n ← _normalize payload; Ok (dumps n)
  | _ => Err (TypeError "Canonical payload must be a dictionary or list.")
  end.

Definition payload_hash (payload : pyval) : result string :=
  b ← canonical_bytes payload; Ok (sha256 b).
End Canonical.

(** ** Reading back what was written *)

(** JSON values: string keys, no foreign values. *)
Fixpoint is_json (v : pyval) : bool :=
  match v with
  | PList l => forallb is_json l
  | PDict d => forallb (fun '(k, x) => match k with PStr _ => is_json x | _ => false end) d
  | POther _ => false
  | _ => true
  end.

Lemma read_escaped_char c t :
  read_chars (escape_char c +:+ t) = (fun xr => (String c xr.1, xr.2)) <$> read_chars t.
Proof. destruct c as [[][][][][][][][]]; reflexivity. Qed.

Lemma read_quoted s rest : read_chars (escape s +:+ String quote_ rest) = Some (s, rest).
Proof.
  induction s as [|c s IH]; [done|]. simpl escape.
  by rewrite <- string_app_assoc, read_escaped_char, IH.
Qed.

Lemma quoted_app s t : quoted s +:+ t = String quote_ (escape s +:+ String quote_ t).
Proof. unfold quoted. by rewrite app_cons, <- string_app_assoc. Qed.

(** A text on which a number cannot continue. *)
Definition no_number (s : string) : Prop :=
  match s with String c _ => is_number_char c = false | EmptyString => True end.

Lemma read_zstr z rest : no_number rest -> read_number (zstr z +:+ rest) = Some (PInt z, rest).
Proof.
  intros Hr. unfold read_number. rewrite span_app; [|apply zstr_chars|done].
  rewrite parse_zstr. by rewrite bool_decide_eq_true_2.
Qed.

(** The fuel a value needs: a token for it, one per element. *)
Fixpoint tokens (v : pyval) : nat :=
  match v with
  | PList l => S (list_sum (List.map (fun x => S (tokens x)) l))
  | PDict d => S (list_sum (List.map (fun '(_, x) => S (tokens x)) d))
  | _ => 1
  end.

Definition reads_back (v : pyval) : Prop :=
  is_json v = true -> forall fuel rest, (tokens v <= fuel)%nat -> no_number rest ->
  read_value fuel (write v +:+ rest) = Some (v, rest).

Lemma read_items_back l : Forall reads_back l -> forall fuel rest,
  l <> [] -> forallb is_json l = true ->
  (list_sum (List.map (fun x => S (tokens x)) l) <= fuel)%nat ->
  read_items fuel (join "," (List.map write l) +:+ String "]" rest) = Some (l, rest).
Proof.
  induction 1 as [|x l Hx Hl IH]; intros fuel rest Hne Hj Hf; [done|].
  simpl in Hj, Hf. apply andb_true_iff in Hj as [Hjx Hjl].
  destruct fuel as [|fuel]; [lia|]. destruct l as [|y l].
  - simpl. rewrite Hx; simpl; try done. lia.
  - change (join "," (List.map write (x :: y :: l)))
      with (write x +:+ ("," +:+ join "," (List.map write (y :: l)))).
    rewrite <- !string_app_assoc, app_cons, app_nil_l. cbn [read_items].
    rewrite Hx; [|done|lia|done]. cbn [expect Ascii.eqb Bool.eqb].
    rewrite IH; [done..|]. simpl in *. lia.
Qed.

Definition write_member (kv : pyval * pyval) : string :=
  quoted (key_str kv.1) +:+ ":" +:+ write kv.2.

Lemma write_dict d : write (PDict d) = "{" +:+ join "," (List.map write_member d) +:+ "}".
Proof. simpl. do 2 f_equal. f_equal. apply List.map_ext. by intros []. Qed.

Lemma read_members_back d : Forall (fun kv => reads_back kv.2) d -> forall fuel rest,
  d <> [] -> is_json (PDict d) = true ->
  (list_sum (List.map (fun '(_, x) => S (tokens x)) d) <= fuel)%nat ->
  read_members fuel (join "," (List.map write_member d) +:+ String "}" rest) = Some (d, rest).
Proof.
  induction 1 as [|[k x] d Hx Hd IH]; intros fuel rest Hne Hj Hf; [done|].
  simpl in Hj, Hf, Hx. apply andb_true_iff in Hj as [Hjx Hjd]. destruct k as [| | |k| | |]; try done.
  destruct fuel as [|fuel]; [lia|].
  assert (forall t, read_members (S fuel) (write_member (PStr k, x) +:+ t) =
    match read_value fuel (write x +:+ t) with
    | None => None
    | Some (x, r) =>
      match expect "," r with
      | Some r => (fun lr => ((PStr k, x) :: lr.1, lr.2)) <$> read_members fuel r
      | None => (fun r => ([(PStr k, x)], r)) <$> expect "}" r
      end
    end) as Hstep.
  { intros t. unfold write_member. simpl fst. simpl snd. simpl key_str.
    rewrite <- !string_app_assoc, quoted_app. cbn [read_members expect].
    change (Ascii.eqb quote_ quote_) with true. simpl mbind. by rewrite read_quoted. }
  destruct d as [|y d].
  - simpl join. rewrite Hstep, Hx; simpl; try done. lia.
  - change (join "," (List.map write_member ((PStr k, x) :: y :: d)))
      with (write_member (PStr k, x) +:+ ("," +:+ join "," (List.map write_member (y :: d)))).
    rewrite <- !string_app_assoc, app_cons, app_nil_l, Hstep.
    rewrite Hx; [|done|lia|done]. cbn [expect Ascii.eqb Bool.eqb].
    rewrite IH; [done..|]. simpl in *. lia.
Qed.

Lemma bracket_app a b s rest :
  (String a EmptyString +:+ s +:+ String b EmptyString) +:+ rest = String a (s +:+ String b rest).
Proof. by rewrite <- string_app_assoc, <- string_app_assoc. Qed.

Lemma number_char_no_close c : is_number_char c = true -> Ascii.eqb "]" c = false.
Proof.
  intros H. apply negb_true_iff. revert c H.
  exact (ascii_forall_impl is_number_char (fun c => negb (Ascii.eqb "]" c)) eq_refl).
Qed.

(** A written value does not start like the end of a list. *)
Lemma write_head v : is_json v = true ->
  exists c s, write v = String c s /\ Ascii.eqb "]" c = false.
Proof.
  destruct v as [|[]|z|s|l|d|]; intros Hj; simpl; [..|done];
    try (eexists _, _; split; reflexivity).
  destruct (zstr_nonempty z) as (c & s & Hz & Hc). exists c, s.
  split; [exact Hz|]. by apply number_char_no_close.
Qed.

Lemma number_char_kind c : is_number_char c = true ->
  Ascii.eqb c quote_ = false /\ Ascii.eqb c "[" = false /\ Ascii.eqb c "{" = false.
Proof.
  intros H. rewrite <- !negb_true_iff.
  pose proof (ascii_forall_impl is_number_char (fun c => negb (Ascii.eqb c quote_) &&
    (negb (Ascii.eqb c "[") && negb (Ascii.eqb c "{"))) eq_refl c H) as Hk.
  rewrite !andb_true_iff in Hk. done.
Qed.

Lemma read_write v : reads_back v.
Proof.
  induction v as [|b|z|s|l IH|d IH|n] using pyval_nested_ind;
    intros Hj fuel rest Hf Hr; (destruct fuel as [|fuel]; [simpl in Hf; lia|]).
  - done.
  - by destruct b.
  - simpl write. destruct (zstr_nonempty z) as (c & s & Hz & Hc).
    destruct (number_char_kind c Hc) as (H1 & H2 & H3).
    pose proof (read_zstr z rest Hr) as Hread. rewrite Hz, app_cons in *.
    cbn [read_value]. by rewrite H1, H2, H3, Hc.
  - simpl write. rewrite quoted_app. cbn [read_value].
    change (Ascii.eqb quote_ quote_) with true. simpl. by rewrite read_quoted.
  - cbn [write]. rewrite bracket_app. cbn [read_value].
    change (Ascii.eqb "[" quote_) with false. change (Ascii.eqb "[" "[") with true. cbv iota.
    destruct l as [|x l]; [done|].
    assert (expect "]" (join "," (List.map write (x :: l)) +:+ String "]" rest) = None) as ->.
    { simpl in Hj. apply andb_true_iff in Hj as [Hx _].
      destruct (write_head x Hx) as (c & s & Hw & Hc).
      destruct l; cbn [List.map join]; rewrite Hw, ?app_cons; unfold expect; by rewrite Hc. }
    rewrite (read_items_back (x :: l)); try done. simpl in *. lia.
  - rewrite write_dict, bracket_app. cbn [read_value].
    change (Ascii.eqb "{" quote_) with false. change (Ascii.eqb "{" "[") with false.
    change (Ascii.eqb "{" "{") with true. cbv iota.
    destruct d as [|x d]; [done|].
    assert (expect "}" (join "," (List.map write_member (x :: d)) +:+ String "}" rest) = None) as ->
      by by destruct d.
    rewrite (read_members_back (x :: d)); try done. simpl in *. lia.
  - done.
Qed.

Lemma tokens_length v : is_json v = true -> (tokens v <= String.length (write v))%nat.
Proof.
  induction v as [|b|z|s|l IH|d IH|n] using pyval_nested_ind; intros Hj; try (simpl; lia); try done.
  - destruct b; simpl; lia.
  - simpl. destruct (zstr_nonempty z) as (c & s & -> & _). simpl; lia.
  - destruct l as [|x l]; [simpl; lia|]. cbn [tokens write]. rewrite !string_length_app.
    pose proof (join_length write tokens (x :: l) ltac:(done)) as H.
    cbn [String.length]. apply le_n_S. etrans; [apply H|lia].
    simpl in Hj. fold (forallb is_json (x :: l)) in Hj. rewrite Forall_forall in *.
    intros y Hy. apply IH; [done|]. apply (proj1 (forallb_forall is_json (x :: l)) Hj).
    by apply list_elem_of_In.
  - destruct d as [|x d]; [simpl; lia|]. rewrite write_dict. cbn [tokens].
    rewrite !string_length_app.
    pose proof (join_length write_member (fun kv => tokens kv.2) (x :: d) ltac:(done)) as H.
    cbn [String.length]. apply le_n_S. etrans; [|etrans; [apply H|lia]].
    + apply Nat.eq_le_incl. f_equal. apply List.map_ext. by intros [].
    + rewrite Forall_forall in *. intros [k y] Hy. specialize (IH (k, y) Hy). simpl in IH.
      assert (is_json y = true) as Hjy.
      { simpl in Hj. pose proof (proj1 (forallb_forall _ (x :: d)) Hj (k, y)) as Hk.
        rewrite <- list_elem_of_In in Hk. specialize (Hk Hy). simpl in Hk. by destruct k. }
      unfold write_member. simpl. rewrite !string_length_app. specialize (IH Hjy). lia.
Qed.

(** [json.loads] inverts the writer. *)
Lemma loads_write v : is_json v = true -> loads (write v) = Some v.
Proof.
  intros Hj. unfold loads. rewrite <- (string_app_nil_r (write v)) at 2.
  rewrite read_write; try done. pose proof (tokens_length v Hj). lia.
Qed.

(** ** Sorting the keys *)

Definition item_key (kv : pyval * pyval) : string := key_str kv.1.
Definition item_le (a b : pyval * pyval) : Prop := sle (item_key a) (item_key b) = true.

#[export] Instance item_le_trans : Transitive item_le.
Proof. intros a b c. apply sle_trans. Qed.

Lemma insert_item_perm kv l : insert_item kv l ≡ₚ kv :: l.
Proof.
  induction l as [|kv' l IH]; simpl; [done|]. destruct (sle _ _); [done|].
  rewrite IH. constructor.
Qed.

Lemma sort_items_perm l : sort_items l ≡ₚ l.
Proof.
  induction l as [|kv l IH]; [done|]. change (sort_items (kv :: l)) with (insert_item kv (sort_items l)).
  by rewrite insert_item_perm, IH.
Qed.

Lemma insert_item_sorted kv l : Sorted item_le l -> Sorted item_le (insert_item kv l).
Proof.
  induction 1 as [|kv' l Hl IH Hhd]; simpl; [by repeat constructor|].
  destruct (sle (key_str kv.1) (key_str kv'.1)) eqn:E.
  - constructor; [by constructor|]. by constructor.
  - assert (item_le kv' kv) as Hle.
    { destruct (sle_total (key_str kv.1) (key_str kv'.1)); unfold item_le, item_key; congruence. }
    constructor; [done|]. destruct l as [|kv2 l]; simpl; [by constructor|].
    inv Hhd. by destruct (sle (key_str kv.1) (key_str kv2.1)); constructor.
Qed.

Lemma sort_items_sorted l : Sorted item_le (sort_items l).
Proof. induction l; simpl; [constructor|]. by apply insert_item_sorted. Qed.

(** A dictionary with distinct keys has one sorted form. *)
Lemma sorted_items_unique l1 l2 :
  NoDup (item_key <$> l1) -> Sorted item_le l1 -> Sorted item_le l2 -> l1 ≡ₚ l2 -> l1 = l2.
Proof.
  intros Hnd H1 H2 HP. apply (Sorted_unique_strong item_le); try done.
  intros x1 x2 Hx1 Hx2 Hle1 Hle2.
  assert (item_key x1 = item_key x2) as Hk by by apply sle_antisym.
  rewrite <- HP in Hx2. apply list_elem_of_lookup in Hx1 as [i Hi].
  apply list_elem_of_lookup in Hx2 as [j Hj].
  assert (i = j) as ->; [|congruence].
  apply (NoDup_lookup _ _ _ (item_key x1) Hnd); rewrite list_lookup_fmap; [by rewrite Hi|].
  rewrite Hj. simpl. by rewrite Hk.
Qed.

Lemma sort_items_eq l1 l2 :
  NoDup (item_key <$> l1) -> l1 ≡ₚ l2 -> sort_items l1 = sort_items l2.
Proof.
  intros Hnd HP. apply sorted_items_unique; try apply sort_items_sorted.
  - by rewrite sort_items_perm.
  - by rewrite !sort_items_perm.
Qed.

(** Python equality of JSON values: dictionaries compare as unordered. *)
Inductive py_eq : pyval -> pyval -> Prop :=
  | eq_none : py_eq PNone PNone
  | eq_bool b : py_eq (PBool b) (PBool b)
  | eq_int z : py_eq (PInt z) (PInt z)
  | eq_str s : py_eq (PStr s) (PStr s)
  | eq_list l1 l2 : Forall2 py_eq l1 l2 -> py_eq (PList l1) (PList l2)
  | eq_dict d1 d2 d2' : d2' ≡ₚ d2 -> Forall2 (fun x y => x.1 = y.1) d1 d2' ->
      Forall2 (fun x y => py_eq x.2 y.2) d1 d2' -> py_eq (PDict d1) (PDict d2).

(** Values that [_normalize] returns: composed text, distinct string keys. *)
Inductive normal `{!Crypto} : pyval -> Prop :=
  | normal_none : normal PNone
  | normal_bool b : normal (PBool b)
  | normal_int z : normal (PInt z)
  | normal_str s : nfc s = s -> normal (PStr s)
  | normal_list l : Forall normal l -> normal (PList l)
  | normal_dict d : Forall (fun kv => exists k, kv.1 = PStr k /\ nfc k = k) d ->
      NoDup (item_key <$> d) -> Forall (fun kv => normal kv.2) d -> normal (PDict d).

Section Facts.
Context {CR : Crypto}.

Definition sort_member (kv : pyval * pyval) : pyval * pyval := (kv.1, sort_keys kv.2).

Lemma sort_keys_dict d : sort_keys (PDict d) = PDict (sort_items (sort_member <$> d)).
Proof.
  simpl. do 2 f_equal. apply List.map_ext. by intros [].
Qed.

Lemma sort_keys_list l : sort_keys (PList l) = PList (sort_keys <$> l).
Proof. done. Qed.

Lemma item_key_sort_member (d : list (pyval * pyval)) : item_key <$> (sort_member <$> d) = item_key <$> d.
Proof. rewrite <- list_fmap_compose. by apply list_fmap_ext. Qed.

Lemma normal_json v : normal v -> is_json v = true.
Proof.
  induction v as [|b|z|s|l IH|d IH|n] using pyval_nested_ind; intros Hn; inv Hn; try done.
  - simpl. apply forallb_forall. intros x Hx%list_elem_of_In. rewrite Forall_forall in *. auto.
  - simpl. apply forallb_forall. intros [k x] Hx%list_elem_of_In. rewrite Forall_forall in *.
    destruct (H0 _ Hx) as (k' & Hk & _). simpl in Hk. subst. apply (IH _ Hx), (H2 _ Hx).
Qed.

Lemma normal_sort_keys v : normal v -> normal (sort_keys v).
Proof.
  induction v as [|b|z|s|l IH|d IH|n] using pyval_nested_ind; intros Hn; inv Hn; try by constructor.
  - constructor. rewrite Forall_forall in *. intros y Hy. apply list_elem_of_fmap in Hy as (x & -> & Hx).
    auto.
  - rewrite sort_keys_dict. constructor.
    + rewrite sort_items_perm, Forall_fmap. done.
    + rewrite sort_items_perm, item_key_sort_member. done.
    + rewrite sort_items_perm, Forall_fmap. rewrite Forall_forall in *. intros x Hx.
      apply (IH _ Hx), (H2 _ Hx).
Qed.

Lemma sort_keys_idem v : normal v -> sort_keys (sort_keys v) = sort_keys v.
Proof.
  induction v as [|b|z|s|l IH|d IH|n] using pyval_nested_ind; intros Hn; inv Hn; try done.
  - rewrite !sort_keys_list. f_equal. rewrite <- list_fmap_compose. apply list_fmap_ext.
    intros i x Hx. rewrite Forall_forall in *. apply list_elem_of_lookup_2 in Hx. apply IH; auto.
  - rewrite !sort_keys_dict. f_equal.
    assert (sort_member <$> sort_items (sort_member <$> d) = sort_items (sort_member <$> d)) as Hid.
    { rewrite <- (list_fmap_id (sort_items _)) at 2. apply list_fmap_ext.
      intros i x Hx. apply list_elem_of_lookup_2 in Hx. rewrite sort_items_perm in Hx.
      apply list_elem_of_fmap in Hx as (y & -> & Hy). unfold sort_member. simpl. f_equal.
      rewrite Forall_forall in *. apply (IH _ Hy), (H2 _ Hy). }
    rewrite Hid. apply sorted_items_unique; try apply sort_items_sorted.
    + by rewrite !sort_items_perm, item_key_sort_member.
    + apply sort_items_perm.
Qed.

Lemma sort_keys_py_eq v w : normal v -> py_eq v w -> sort_keys v = sort_keys w.
Proof.
  revert w. induction v as [|b|z|s|l IH|d IH|n] using pyval_nested_ind;
    intros w Hn Heq; inv Hn; inv Heq; try done.
  - rewrite !sort_keys_list. f_equal.
    match goal with H : Forall2 _ _ _ |- _ => revert IH; induction H; intros IH; [done|] end.
    inv IH. match goal with H : Forall normal (_ :: _) |- _ => inv H end.
    csimpl. f_equal; auto.
  - rewrite !sort_keys_dict. f_equal.
    transitivity (sort_items (sort_member <$> d2')).
    + f_equal. clear H0 H1 H3.
      match goal with H : Forall2 _ _ _ |- _ => revert IH H2; induction H; intros IH H2; [done|] end.
      inv IH. inv H2. match goal with H : Forall2 _ (_ :: _) _ |- _ => inv H end.
      csimpl. f_equal; [|auto]. unfold sort_member. f_equal; auto.
    + apply sort_items_eq; [|by f_equiv].
      rewrite item_key_sort_member.
      replace (item_key <$> d2') with (item_key <$> d); [done|].
      clear -H4. induction H4 as [|x y ?? Hxy]; [done|]. csimpl. f_equal; [|done].
      unfold item_key. by rewrite Hxy.
Qed.

Lemma py_eq_sort_keys v w : normal v -> normal w -> sort_keys v = sort_keys w -> py_eq v w.
Proof.
  revert w. induction v as [|b|z|s|l IH|d IH|n] using pyval_nested_ind;
    intros w Hn Hm Heq; destruct w as [|b'|z'|s'|l0|d0|n'];
    rewrite ?sort_keys_list, ?sort_keys_dict in Heq; try discriminate Heq.
  - constructor.
  - injection Heq as <-. constructor.
  - injection Heq as <-. constructor.
  - injection Heq as <-. constructor.
  - injection Heq as Heq. constructor. inv Hn. inv Hm. revert l0 Heq H1.
    induction l as [|x l IHl]; intros [|x' l'] Heq Hl'; try done.
    csimpl in *. injection Heq as Hx Heq. inv IH. inv H0. inv Hl'. constructor; auto.
  - injection Heq as Heq. inv Hn. inv Hm.
    assert (sort_member <$> d ≡ₚ sort_member <$> d0) as HP
      by by rewrite <- (sort_items_perm (_ <$> d)), Heq, sort_items_perm.
    apply Permutation_map_inv in HP as (d2' & Hd2 & HP).
    assert (Forall (fun kv => normal kv.2) d2') as Hn2 by by rewrite <- HP.
    assert (Forall (fun kv => normal kv.2) d) as Hn1 by done.
    apply (eq_dict _ _ d2'); [done|..].
    + apply (f_equal (fmap fst)) in Hd2. clear -Hd2. revert d2' Hd2.
      induction d as [|x d IHd]; intros [|y d2'] H; try done.
      csimpl in *. injection H as Hx H. constructor; auto.
    + clear -IH Hd2 Hn1 Hn2. revert d2' Hd2 Hn2. induction d as [|x d IHd];
        intros [|y d2'] Hd Hn2; try done.
      csimpl in *. injection Hd as _ Hxy Hd. inv IH. inv Hn1. inv Hn2. constructor; auto.
  - inv Hn.
Qed.

(** ** What [_normalize] returns *)

Lemma has_key_false k l : has_key k l = false <-> k ∉ item_key <$> l.
Proof.
  unfold has_key. rewrite <- not_true_iff_false, existsb_exists. split; intros H Hin; apply H.
  - apply list_elem_of_fmap in Hin as (x & -> & Hx). exists x. split; [by apply list_elem_of_In|].
    apply String.eqb_refl.
  - destruct Hin as (x & Hx & E%String.eqb_eq). apply list_elem_of_fmap. exists x.
    split; [done|by apply list_elem_of_In].
Qed.

Lemma normalize_members_normal (f : pyval -> result pyval) d :
  Forall (fun kv => forall n, f kv.2 = Ok n -> normal n) d ->
  forall acc r, normalize_members f acc d = Ok r -> normal (PDict acc) -> normal (PDict r).
Proof.
  induction 1 as [|[k x] d Hx Hd IH]; intros acc r Hr Hacc; [by injection Hr as <-|].
  simpl in Hr. destruct k as [| | |k| | |]; try done.
  destruct (has_key _ _) eqn:Hk; [done|]. apply result_bind_Ok in Hr as (y & Hy & Hr).
  apply (IH _ _ Hr). inv Hacc. constructor.
  - apply Forall_app. split; [done|]. apply Forall_singleton. exists (nfc k). split; [done|apply nfc_idem].
  - rewrite fmap_app. apply NoDup_app. split; [done|]. split; [|apply NoDup_singleton].
    intros z Hz Hz'. apply list_elem_of_singleton in Hz'. subst.
    by apply has_key_false in Hk.
  - apply Forall_app. split; [done|]. apply Forall_singleton. by apply Hx.
Qed.

Lemma normalize_normal v n : _normalize v = Ok n -> normal n.
Proof.
  revert n. induction v as [|b|z|s|l IH|d IH|m] using pyval_nested_ind; intros n Hn; simpl in Hn;
    try (injection Hn as <-; constructor; try apply nfc_idem); try done.
  - apply result_bind_Ok in Hn as (l' & Hl & [= <-]). constructor. revert l' Hl.
    induction IH as [|x l Hx Hl IHl]; intros l' H; [by injection H as <-|].
    simpl in H. apply result_bind_Ok in H as (y & Hy & H). apply result_bind_Ok in H as (ys & Hys & [= <-]).
    constructor; auto.
  - apply result_bind_Ok in Hn as (d' & Hd & [= <-]).
    apply (normalize_members_normal _normalize d IH [] _ Hd). by repeat constructor.
Qed.

Lemma normalize_members_id d acc :
  Forall (fun kv => _normalize kv.2 = Ok kv.2) d ->
  Forall (fun kv => exists k, kv.1 = PStr k /\ nfc k = k) d ->
  NoDup (item_key <$> acc ++ d) ->
  normalize_members _normalize acc d = Ok (acc ++ d).
Proof.
  intros Hv Hk. revert acc. induction d as [|[k x] d IH]; intros acc Hnd; simpl.
  - by rewrite app_nil_r.
  - inv Hv. inv Hk. simpl in *. destruct H3 as (k' & -> & Hk'). rewrite Hk'.
    assert (has_key k' acc = false) as ->.
    { apply has_key_false. intros Hin. rewrite fmap_app in Hnd. apply NoDup_app in Hnd as (_ & Hd & _).
      apply (Hd _ Hin). csimpl. left. }
    rewrite H1. simpl. rewrite IH; try done; rewrite <- app_assoc; done.
Qed.

Lemma normalize_id n : normal n -> _normalize n = Ok n.
Proof.
  induction n as [|b|z|s|l IH|d IH|m] using pyval_nested_ind; intros Hn; inv Hn; simpl; try done.
  - by rewrite H0.
  - assert (rmap _normalize l = Ok l) as ->; [|done].
    induction l as [|x l IHl]; [done|]. inv IH. inv H0. simpl. by rewrite H2, IHl.
  - rewrite normalize_members_id; try done. rewrite Forall_forall in *. intros x Hx. auto.
Qed.

Lemma canonical_bytes_Ok p s :
  canonical_bytes p = Ok s -> exists n, _normalize p = Ok n /\ normal n /\ s = dumps n.
Proof.
  unfold canonical_bytes. intros H.
  assert (exists n, _normalize p = Ok n /\ s = dumps n) as (n & Hn & ->).
  { destruct p; try done; apply result_bind_Ok in H as (n & Hn & [= <-]); eauto. }
  eauto using normalize_normal.
Qed.

Lemma loads_dumps n : normal n -> loads (dumps n) = Some (sort_keys n).
Proof. intros Hn. apply loads_write, normal_json. by apply normal_sort_keys. Qed.

Lemma canonical_container p n : _normalize p = Ok n -> forall s, canonical_bytes p = Ok s ->
  canonical_bytes (sort_keys n) = Ok (dumps (sort_keys n)).
Proof.
  intros Hn s Hs. pose proof (normalize_normal _ _ Hn) as Hnn.
  pose proof (normalize_id _ (normal_sort_keys _ Hnn)) as Hid.
  destruct p; try done; simpl in Hn; apply result_bind_Ok in Hn as (x & Hx & [= <-]);
    unfold canonical_bytes; [rewrite sort_keys_list in *|rewrite sort_keys_dict in *];
    by rewrite Hid.
Qed.
End Facts.

(** ** Properties *)

Section Properties.
Context {CR : Crypto}.

(** Reading canonical bytes back gives the normalized payload with its keys
    sorted, and that value is a fixed point: its canonical bytes are the same bytes.
    This is what [queue_platform_event] relies on when it stores
    [json.loads(canonical_bytes(payload))] and hashes the stored value. *)
Theorem canonical_roundtrip p s :
  canonical_bytes p = Ok s ->
  exists v, loads s = Some v /\ canonical_bytes v = Ok s.
Proof.
  intros H. destruct (canonical_bytes_Ok p s H) as (n & Hn & Hnn & ->).
  exists (sort_keys n). split; [by apply loads_dumps|].
  rewrite (canonical_container p n Hn _ H). unfold dumps. by rewrite sort_keys_idem.
Qed.

End Properties.

(** ** Witnesses *)

Definition demo_payload : pyval :=
  PDict [(PStr "b", PList [PInt (-7); PStr (String quote_ "x")]);
         (PStr "a", PDict [(PStr "k", PBool true); (PStr "j", PNone)])].
(** The same payload, built in another order. *)
Definition demo_payload' : pyval :=
  PDict [(PStr "a", PDict [(PStr "j", PNone); (PStr "k", PBool true)]);
         (PStr "b", PList [PInt (-7); PStr (String quote_ "x")])].
Definition demo_bytes : string := dumps demo_payload.

Lemma canonical_roundtrip_witness :
  exists v, loads demo_bytes = Some v /\ canonical_bytes (CR := demo_crypto) v = Ok demo_bytes.
Proof. apply (canonical_roundtrip (CR := demo_crypto) demo_payload). reflexivity. Defined.

