(* ===== verification/Signatures.v ===== *)
(** * Signatures: EIP-712 evidence messages and canonical secp256k1 signatures

    [evidence/signatures.py].  A signature is a list of bytes; [eth_account] is the
    interface [EthAccount]. *)

From S2P Require Import Prelude PyStr Schema Store Canonical.
Open Scope Z_scope.

(** ** Hexadecimal *)

Definition byte_hex (n : Z) : string :=
  String (hex_digit (n / 16)) (String (hex_digit (n mod 16)) EmptyString).
(** [bytes.hex] *)
Fixpoint to_hex (bs : list Z) : string :=
  match bs with
  | [] => EmptyString
  | b :: bs => byte_hex b +:+ to_hex bs
  end.

Definition hex_value_any (c : ascii) : option Z :=
  if is_digit c then Some (code c - 48)
  else if between 97 102 c then Some (code c - 87)
  else if between 65 70 c then Some (code c - 55)
  else None.

(** [bytes.fromhex]: blanks between the bytes are skipped. *)
Fixpoint fromhex (s : string) : option (list Z) :=
  match s with
  | EmptyString => Some []
  | String c s =>
    if is_space c then fromhex s
    else match s with
      | EmptyString => None
      | String d r =>
        match hex_value_any c, hex_value_any d with
        | Some h, Some l => (fun bs => h * 16 + l :: bs) <$> fromhex r
        | _, _ => None
        end
      end
  end.

(** [int.from_bytes(bs, "big")] *)
Definition int_from_bytes (bs : list Z) : Z := foldl (fun acc b => acc * 256 + b) 0 bs.

Definition is_byte (b : Z) : Prop := 0 <= b < 256.

(** ** Canonical signatures *)

Definition is_bytes32 (s : string) : bool :=
  match drop_prefix "0x" s with
  | Some h => sforall is_hex h && (slen h =? 64)
  | None => false
  end.
Definition SECP256K1_N : Z :=
  115792089237316195423570985008687907852837564279074904382605163141518161494337.

Inductive signature_input :=
  | SigStr (s : string)
  | SigBytes (raw : list Z)
  | SigOther.

Definition signature_bytes (signature : signature_input) : result (list Z) :=
  match signature with
  | SigStr s =>
    match fromhex (removeprefix "0x" s) with
    | Some raw => Ok raw
    | None => Err (ValueError "Signature must be hexadecimal.")
    end
  | SigBytes raw => Ok raw
  | SigOther => Err (ValueError "Signature must be bytes or hexadecimal.")
  end.

Definition canonical_signature (raw : list Z) : bool :=
  let r := int_from_bytes (take 32 raw) in
  let s := int_from_bytes (take 32 (drop 32 raw)) in
  let v := default 0 (raw !! 64%nat) in
  (0 <? r) && (r <? SECP256K1_N) && (0 <? s) && (s <=? SECP256K1_N / 2)
  && ((v =? 27) || (v =? 28)).

Definition normalize_signature (signature : signature_input) : result string :=
  raw ← signature_bytes signature;
  if negb (Nat.eqb (length raw) 65) then Err (ValueError "Signature must be exactly 65 bytes.")
  else
    let v := default 0 (raw !! 64%nat) in
    let raw := if (v =? 0) || (v =? 1) then <[64%nat := v + 27]> raw else raw in
    if canonical_signature raw then Ok ("0x" +:+ to_hex raw)
    else Err (ValueError "Signature is not canonical secp256k1.").

(** ** Typed data and the platform signer *)

Record typed_data := TypedData {
  td_name : string; td_version : string; td_chain_id : Z; td_verifying_contract : string;
  td_event_id : string; td_payload_hash : string; td_previous_hash : string;
  td_event_type : Z }.

Definition bytes32_arg (v : pyval) : option string :=
  match v with PStr s => if is_bytes32 s then Some s else None | _ => None end.

Definition build_evidence_typed_data (st : settings)
    (event_id event_type payload_hash_hex previous_hash_hex : pyval) : result typed_data :=
  match bytes32_arg event_id, bytes32_arg payload_hash_hex, bytes32_arg previous_hash_hex with
  | Some e, Some h, Some p =>
    match event_type with
    | PInt t =>
      if (1 <=? t) && (t <? 12)
      then Ok (TypedData "LamToEvidence" "1" (st_chain_id st) (st_contract_address st) e h p t)
      else Err (ValueError "Evidence event type must be an integer from 1 through 11.")
    | _ => Err (ValueError "Evidence event type must be an integer from 1 through 11.")
    end
  | _, _, _ => Err (ValueError "Evidence IDs and hashes must be lowercase 0x-prefixed bytes32 values.")
  end.

(** What the code takes from [eth_account]: signing yields 65 bytes with a low [s],
    and recovery inverts it. *)
Class EthAccount := {
  account_address : string -> string;
  sign_typed_data : string -> typed_data -> list Z;
  recover_message : typed_data -> string -> string;
  to_checksum_address : string -> string;
  sign_typed_data_length key td : length (sign_typed_data key td) = 65%nat;
  sign_typed_data_bytes key td : Forall is_byte (sign_typed_data key td);
  sign_typed_data_canonical key td : canonical_signature (sign_typed_data key td) = true;
  recover_signed key td :
    recover_message td ("0x" +:+ to_hex (sign_typed_data key td)) = account_address key;
  account_address_nonempty key : truthy (account_address key) = true;
}.

Section Platform.
Context {ETH : EthAccount}.

Definition recover_signer (td : typed_data) (signature : signature_input) : result string :=
  s ← normalize_signature signature; Ok (recover_message td s).

Definition _platform_account (st : settings) : result string :=
  if truthy (st_signer_key st) then Ok (st_signer_key st) else Err ImproperlyConfigured.

Definition platform_signer_address (st : settings) : result string :=
  key ← _platform_account st; Ok (account_address key).

Definition platform_sign_evidence (st : settings)
    (event_id : string) (event_type : Z) (payload_hash_hex previous_hash_hex : string) :
    result string :=
  let payload_hash_hex :=
    if starts_with "0x" payload_hash_hex then payload_hash_hex else "0x" +:+ payload_hash_hex in
  td ← build_evidence_typed_data st (PStr event_id) (PInt event_type) (PStr payload_hash_hex)
    (PStr previous_hash_hex);
  key ← _platform_account st;
  normalize_signature (SigStr (to_hex (sign_typed_data key td))).
End Platform.

(** ** Round trips *)

Lemma hex_digit_value n : 0 <= n < 16 -> hex_value_any (hex_digit n) = Some n.
Proof.
  intros Hn. assert (forallb (fun n => hex_value_any (hex_digit n) ==? Some n) (seqZ 0 16) = true) as H
    by reflexivity.
  rewrite forallb_forall in H. specialize (H n).
  rewrite <- list_elem_of_In, elem_of_seqZ, bool_decide_eq_true in H. apply H. lia.
Qed.

Lemma hex_digit_not_space n : 0 <= n < 16 -> is_space (hex_digit n) = false.
Proof.
  intros Hn. assert (forallb (fun n => negb (is_space (hex_digit n))) (seqZ 0 16) = true) as H
    by reflexivity.
  rewrite forallb_forall in H. specialize (H n).
  rewrite <- list_elem_of_In, elem_of_seqZ, negb_true_iff in H. apply H. lia.
Qed.

Lemma fromhex_to_hex bs : Forall is_byte bs -> fromhex (to_hex bs) = Some bs.
Proof.
  induction 1 as [|b bs Hb Hbs IH]; [done|]. unfold is_byte in Hb.
  change (to_hex (b :: bs)) with
    (String (hex_digit (b / 16)) (String (hex_digit (b mod 16)) (to_hex bs))).
  assert (0 <= b / 16 < 16) by (split; [apply Z.div_pos; lia|apply Z.div_lt_upper_bound; lia]).
  pose proof (Z.mod_pos_bound b 16). 
  cbn [fromhex]. rewrite hex_digit_not_space, !hex_digit_value, IH by lia. simpl.
  do 2 f_equal. pose proof (Z.div_mod b 16). lia.
Qed.

Lemma to_hex_no_prefix bs : Forall is_byte bs -> removeprefix "0x" (to_hex bs) = to_hex bs.
Proof.
  intros H. unfold removeprefix. destruct (drop_prefix "0x" (to_hex bs)) as [r|] eqn:E; [|done].
  apply drop_prefix_Some in E. pose proof (fromhex_to_hex bs H) as Hf. rewrite E in Hf.
  vm_compute in Hf. done.
Qed.

Lemma removeprefix_app p s : removeprefix p (p +:+ s) = s.
Proof. unfold removeprefix. by rewrite drop_prefix_app. Qed.

(** The byte string that [normalize_signature] returns in hexadecimal. *)
Lemma normalize_signature_Ok sig s :
  normalize_signature sig = Ok s ->
  exists raw, s = "0x" +:+ to_hex raw /\ length raw = 65%nat /\ canonical_signature raw = true /\
  forall raw0, signature_bytes sig = Ok raw0 -> Forall is_byte raw0 -> Forall is_byte raw.
Proof.
  unfold normalize_signature. intros H. apply result_bind_Ok in H as (raw & Hraw & H).
  destruct (Nat.eqb_spec (length raw) 65) as [Hlen|]; [|done]. simpl in H.
  destruct (canonical_signature _) eqn:Hc; [|done]. injection H as <-.
  eexists. split; [done|]. split; [by case_match; rewrite ?length_insert|]. split; [done|].
  intros raw0 Hr0 Hb. rewrite Hraw in Hr0. injection Hr0 as ->.
  case_match eqn:Hv; [|done]. apply Forall_insert; [done|]. unfold is_byte.
  apply orb_true_iff in Hv as [Hv%Z.eqb_eq|Hv%Z.eqb_eq]; rewrite Hv; lia.
Qed.

(** A canonical signature is already normal. *)
Lemma normalize_canonical raw :
  length raw = 65%nat -> canonical_signature raw = true ->
  normalize_signature (SigBytes raw) = Ok ("0x" +:+ to_hex raw).
Proof.
  intros Hlen Hc. unfold normalize_signature. simpl. rewrite Hlen. simpl.
  assert ((default 0 (raw !! 64%nat) =? 0) || (default 0 (raw !! 64%nat) =? 1) = false) as ->.
  { unfold canonical_signature in Hc. apply andb_true_iff in Hc as [_ Hv].
    rewrite orb_true_iff, !Z.eqb_eq in Hv. rewrite orb_false_iff, !Z.eqb_neq. lia. }
  by rewrite Hc.
Qed.

Lemma signature_text raw :
  Forall is_byte raw ->
  normalize_signature (SigStr ("0x" +:+ to_hex raw)) = normalize_signature (SigBytes raw) /\
  normalize_signature (SigStr (to_hex raw)) = normalize_signature (SigBytes raw).
Proof.
  intros Hb. unfold normalize_signature, signature_bytes.
  rewrite removeprefix_app, to_hex_no_prefix, fromhex_to_hex by done. done.
Qed.

Lemma fromhex_bytes s bs : fromhex s = Some bs -> Forall is_byte bs.
Proof.
  assert (forall n s bs, (String.length s < n)%nat -> fromhex s = Some bs -> Forall is_byte bs) as H.
  2: by apply (H (S (String.length s))); auto.
  assert (forall c h, hex_value_any c = Some h -> 0 <= h < 16) as Hv.
  { intros c h. unfold hex_value_any, is_digit, between.
    repeat case_match; try done; intros [= <-];
      repeat match goal with H : _ && _ = true |- _ => apply andb_true_iff in H as [?%Z.leb_le ?%Z.leb_le] end;
      lia. }
  intros n. induction n as [|n IH]; intros s1 bs1 Hn H; [lia|]. destruct s1 as [|c s1]; [by injection H as <-|].
  cbn [fromhex] in H. simpl in Hn. destruct (is_space c); [apply (IH s1); [lia|done]|].
  destruct s1 as [|d s1]; [done|]. destruct (hex_value_any c) as [h|] eqn:Hc; [|done].
  destruct (hex_value_any d) as [l|] eqn:Hd; [|done]. apply fmap_Some in H as (bs' & Hbs & ->).
  constructor; [|apply (IH s1); simpl in *; [lia|done]].
  apply Hv in Hc. apply Hv in Hd. unfold is_byte. lia.
Qed.

Lemma recover_platform `{ETH : EthAccount} st e t h p s td :
  platform_sign_evidence st e t h p = Ok s ->
  build_evidence_typed_data st (PStr e) (PInt t)
    (PStr (if starts_with "0x" h then h else "0x" +:+ h)) (PStr p) = Ok td ->
  recover_signer td (SigStr s) = platform_signer_address st.
Proof.
  unfold platform_sign_evidence, platform_signer_address, recover_signer. intros H Htd.
  rewrite Htd in H. cbn [mbind result_bind] in H. apply result_bind_Ok in H as (key & Hkey & H).
  rewrite Hkey. cbn [mbind result_bind].
  rewrite (proj2 (signature_text _ (sign_typed_data_bytes key td))) in H.
  rewrite normalize_canonical in H by auto using sign_typed_data_length, sign_typed_data_canonical.
  injection H as <-.
  rewrite (proj1 (signature_text _ (sign_typed_data_bytes key td))).
  rewrite normalize_canonical by auto using sign_typed_data_length, sign_typed_data_canonical.
  simpl. by rewrite recover_signed.
Qed.

(** ** Properties *)

(** Signature normalization.  An accepted signature text or byte string becomes
    [0x] and 65 bytes in lowercase hexadecimal, with [0 < r < n], [0 < s <= n/2] and a
    recovery id of 27 or 28; normalizing the result again changes nothing. *)
Theorem normalize_signature_canonical text s :
  normalize_signature (SigStr text) = Ok s ->
  exists raw, s = "0x" +:+ to_hex raw /\ length raw = 65%nat /\ Forall is_byte raw /\
  canonical_signature raw = true /\ normalize_signature (SigStr s) = Ok s.
Proof.
  intros H. destruct (normalize_signature_Ok _ _ H) as (raw & -> & Hlen & Hc & Hb).
  assert (Forall is_byte raw) as Hbytes.
  { unfold normalize_signature in H. apply result_bind_Ok in H as (raw0 & H0 & _).
    apply (Hb raw0 H0). simpl in H0. destruct (fromhex _) eqn:E; [|done]. injection H0 as <-.
    by apply fromhex_bytes in E. }
  exists raw. repeat split; try done.
  rewrite (proj1 (signature_text raw Hbytes)). by apply normalize_canonical.
Qed.

(** The platform's signature recovers to the platform's address: whatever
    well-formed evidence identity it signs, [recover_signer] on the same typed data
    returns [platform_signer_address]. *)
Theorem platform_signature_recovers `{ETH : EthAccount} st e t h p s td :
  platform_sign_evidence st e t h p = Ok s ->
  build_evidence_typed_data st (PStr e) (PInt t)
    (PStr (if starts_with "0x" h then h else "0x" +:+ h)) (PStr p) = Ok td ->
  recover_signer td (SigStr s) = platform_signer_address st.
Proof. apply recover_platform. Qed.

(** ** Witnesses *)

Definition demo_signature (v : Z) : list Z :=
  replicate 31 0 ++ [1] ++ replicate 31 0 ++ [1] ++ [v].
(** A signer for whom one signature is always right; it shows the interface has an
    instance and lets runs be evaluated. *)
Program Definition demo_account : EthAccount := {|
  account_address _ := "0xDemoSigner";
  sign_typed_data _ _ := demo_signature 27;
  recover_message _ _ := "0xDemoSigner";
  to_checksum_address a := py_lower a |}.
Next Obligation.
  reflexivity.
Qed.
Next Obligation.
  intros. unfold demo_signature. rewrite !Forall_app.
  split_and!; try apply Forall_replicate; repeat constructor; unfold is_byte; lia.
Qed.
Next Obligation. reflexivity. Qed.
Next Obligation. reflexivity. Qed.
Next Obligation. reflexivity. Qed.

Definition demo_id (n : Z) : string := "0x" +:+ hex_digits 64 n.

Lemma normalize_signature_canonical_witness :
  exists raw, "0x" +:+ to_hex (demo_signature 28) = "0x" +:+ to_hex raw /\ length raw = 65%nat /\
  Forall is_byte raw /\ canonical_signature raw = true /\
  normalize_signature (SigStr ("0x" +:+ to_hex (demo_signature 28))) =
    Ok ("0x" +:+ to_hex (demo_signature 28)).
Proof.
  apply (normalize_signature_canonical (to_hex (demo_signature 1))). reflexivity.
Defined.

Definition demo_chain : settings := Settings false 1337 "0xregistry" "0xkey" "secret" "secret" true 5.

Lemma platform_signature_recovers_witness :
  recover_signer (ETH := demo_account)
    (TypedData "LamToEvidence" "1" 1337 "0xregistry" (demo_id 5) (demo_id 9) (demo_id 0) 1)
    (SigStr ("0x" +:+ to_hex (demo_signature 27)))
  = platform_signer_address (ETH := demo_account) demo_chain.
Proof.
  apply (platform_signature_recovers (ETH := demo_account) demo_chain (demo_id 5) 1 (demo_id 9)
    (demo_id 0)); vm_compute; reflexivity.
Defined.
