(* ===== verification/Registry.v ===== *)
(** * Registry: the on-chain evidence contract

    [chain/src/EvidenceRegistry.sol].  The contract's storage is the set of authorized
    signers and the map of records; [recordEvidence] is permissionless but demands a
    signature of an authorized signer, and never overwrites a record. *)

From S2P Require Import Prelude PyStr Schema Store Canonical Signatures.
Open Scope Z_scope.

Record chain_entry := ChainEntry {
  ce_payload_hash : string; ce_previous_hash : string; ce_event_type : Z; ce_signer : string;
  ce_recorded_at : Z }.

Record registry := Registry {
  rg_owner : string; rg_chain_id : Z; rg_address : string;
  authorized_signers : gset string; records : gmap string chain_entry }.

Definition zero_bytes32 : string := "0x" +:+ hex_digits 64 0.
Definition zero_address : string := "0x" +:+ hex_digits 40 0.

Section Contract.
Context {ETH : EthAccount}.

Definition setAuthorizedSigner (sender signer : string) (authorized : bool) (c : registry) :
    option registry :=
  if negb (sender ==? rg_owner c) then None
  else if signer ==? zero_address then None
  else Some (Registry (rg_owner c) (rg_chain_id c) (rg_address c)
    (if authorized then {[signer]} ∪ authorized_signers c else authorized_signers c ∖ {[signer]})
    (records c)).

Definition hash_evidence (c : registry) (event_id payload_hash previous_hash : string) (event_type : Z) :
    typed_data :=
  TypedData "LamToEvidence" "1" (rg_chain_id c) (rg_address c) event_id payload_hash previous_hash
    event_type.

(** A [mapping] entry never written has [recordedAt = 0]. *)
Definition recorded_at (c : registry) (event_id : string) : Z :=
  match records c !! event_id with Some e => ce_recorded_at e | None => 0 end.

Definition recordEvidence (block_timestamp : Z) (event_id payload_hash previous_hash : string)
    (event_type : Z) (signer signature : string) (c : registry) : option registry :=
  if event_id ==? zero_bytes32 then None
  else if payload_hash ==? zero_bytes32 then None
  else if negb ((1 <=? event_type) && (event_type <=? 11)) then None
  else if negb (recorded_at c event_id =? 0) then None
  else if negb (bool_decide (signer ∈ authorized_signers c)) then None
  else if negb (recover_message (hash_evidence c event_id payload_hash previous_hash event_type)
      signature ==? signer) then None
  else Some (Registry (rg_owner c) (rg_chain_id c) (rg_address c) (authorized_signers c)
    (<[event_id := ChainEntry payload_hash previous_hash event_type signer block_timestamp]> (records c))).

(** Transactions anyone may send; a reverted one leaves the storage alone. *)
Inductive chain_tx :=
  | TxSetSigner (sender signer : string) (authorized : bool)
  | TxRecord (timestamp : Z) (event_id payload_hash previous_hash : string) (event_type : Z)
      (signer signature : string).

Definition mine (c : registry) (tx : chain_tx) : registry :=
  default c match tx with
  | TxSetSigner sender signer a => setAuthorizedSigner sender signer a c
  | TxRecord ts e h p t s sig => recordEvidence ts e h p t s sig c
  end.
Definition mine_all (c : registry) (txs : list chain_tx) : registry := foldl mine c txs.

Definition positive_time (tx : chain_tx) : Prop :=
  match tx with TxRecord ts _ _ _ _ _ _ => 0 < ts | _ => True end.

(** What a stored record proves about its origin. *)
Definition justified (c : registry) (event_id : string) (e : chain_entry) : Prop :=
  0 < ce_recorded_at e /\ event_id <> zero_bytes32 /\ 1 <= ce_event_type e <= 11 /\
  exists signature, recover_message (hash_evidence c event_id (ce_payload_hash e)
    (ce_previous_hash e) (ce_event_type e)) signature = ce_signer e.

Definition registry_ok (c : registry) : Prop := forall id e, records c !! id = Some e -> justified c id e.

Lemma recordEvidence_Some ts e h p t s sig c c' :
  recordEvidence ts e h p t s sig c = Some c' ->
  records c' = <[e := ChainEntry h p t s ts]> (records c) /\
  rg_chain_id c' = rg_chain_id c /\ rg_address c' = rg_address c /\
  authorized_signers c' = authorized_signers c /\ recorded_at c e = 0 /\ e <> zero_bytes32 /\
  1 <= t <= 11 /\ s ∈ authorized_signers c /\ recover_message (hash_evidence c e h p t) sig = s.
Proof.
  unfold recordEvidence.
  destruct (bool_decide (e = zero_bytes32)) eqn:E1; [done|].
  destruct (bool_decide (h = zero_bytes32)) eqn:E2; [done|].
  destruct ((1 <=? t) && (t <=? 11)) eqn:E3; simpl; [|done].
  destruct (recorded_at c e =? 0) eqn:E4; simpl; [|done].
  destruct (bool_decide (s ∈ _)) eqn:E5; simpl; [|done].
  destruct (bool_decide (recover_message _ _ = s)) eqn:E6; simpl; [|done].
  intros [= <-]. to_prop. apply Z.eqb_eq in E4. repeat split; done.
Qed.

Lemma mine_ok c tx :
  registry_ok c -> positive_time tx ->
  registry_ok (mine c tx) /\
  (forall id e, records c !! id = Some e -> records (mine c tx) !! id = Some e).
Proof.
  intros Hok Hpos. unfold mine. destruct tx as [sender signer a|ts e h p t s sig].
  - unfold setAuthorizedSigner.
    by destruct (negb (sender ==? rg_owner c)), (signer ==? zero_address);
      (split; [exact Hok|auto]).
  - destruct (recordEvidence ts e h p t s sig c) as [c'|] eqn:E; [|done]. simpl.
    apply recordEvidence_Some in E as (Hr & Hcid & Haddr & _ & Hz & Hne & Ht & _ & Hrec). split.
    + intros id x. rewrite Hr, lookup_insert. unfold justified, hash_evidence. rewrite Hcid, Haddr.
      case_decide; [intros [= <-]; subst; simpl; eauto 6|apply Hok].
    + intros id x Hx. rewrite Hr, lookup_insert. case_decide; [|done]. subst.
      destruct (Hok _ _ Hx) as [Hp _]. unfold recorded_at in Hz. rewrite Hx in Hz. lia.
Qed.

(** The registry is append-only.  Whatever transactions are mined, by whomever, a
    record once stored is never changed or removed, and every record carries a
    signature of its signer over exactly its event id, hashes and type. *)
Theorem registry_append_only c txs :
  registry_ok c -> Forall positive_time txs ->
  registry_ok (mine_all c txs) /\
  (forall id e, records c !! id = Some e -> records (mine_all c txs) !! id = Some e).
Proof.
  intros Hok Htx. revert c Hok. induction Htx as [|tx txs Hp Htx IH]; intros c Hok; [done|].
  destruct (mine_ok c tx Hok Hp) as [Hok' Hkeep].
  destruct (IH _ Hok') as [Hfin Hk]. split; [done|]. auto.
Qed.
End Contract.

Definition demo_registry : registry :=
  Registry "0xowner" 1337 "0xregistry" {["0xDemoSigner"]} ∅.

Lemma registry_append_only_witness :
  let c := mine_all (ETH := demo_account) demo_registry
    [TxRecord 5 (demo_id 1) (demo_id 2) (demo_id 0) 1 "0xDemoSigner" "sig";
     TxRecord 6 (demo_id 1) (demo_id 3) (demo_id 0) 1 "0xDemoSigner" "sig"] in
  registry_ok (ETH := demo_account) c /\
  forall id e, records demo_registry !! id = Some e -> records c !! id = Some e.
Proof.
  apply (registry_append_only (ETH := demo_account)).
  - intros id e H. vm_compute in H. discriminate.
  - repeat constructor.
Defined.
