(* ===== verification/Timestamps.v ===== *)
(** * Timestamps: instants as RFC 3339 text

    [utc_rfc3339] and [_is_valid_utc_timestamp] of [evidence/services.py].  An instant
    is a number of microseconds since 1970-01-01 UTC; the calendar is CPython's
    proleptic Gregorian one ([datetime._ord2ymd]). *)

From S2P Require Import Prelude PyStr Schema Canonical.
From Stdlib Require Import ZifyBool.
Open Scope Z_scope.

(** ** The calendar *)

Definition is_leap (y : Z) : bool :=
  (y mod 4 =? 0) && (negb (y mod 100 =? 0) || (y mod 400 =? 0)).

(** Days before month [m] in a common year. *)
Definition days_before_month (m : Z) : Z :=
  nth (Z.to_nat m) [0; 0; 31; 59; 90; 120; 151; 181; 212; 243; 273; 304; 334; 365] 365.
Definition days_in_month (leap : bool) (m : Z) : Z :=
  if (m =? 2) && leap then 29
  else nth (Z.to_nat m) [0; 31; 28; 31; 30; 31; 30; 31; 31; 30; 31; 30; 31] 0.

(** The month and day of day [n] (from 0) of a year. *)
Definition month_day (leap : bool) (n : Z) : Z * Z :=
  let month := Z.shiftr (n + 50) 5 in
  let preceding m := days_before_month m + (if (2 <? m) && leap then 1 else 0) in
  if n <? preceding month then (month - 1, n - preceding (month - 1) + 1)
  else (month, n - preceding month + 1).

(** The date of ordinal [n] (1 is 0001-01-01). *)
Definition ord2ymd (n : Z) : date :=
  let n := n - 1 in
  let n400 := n / 146097 in
  let n := n mod 146097 in
  let n100 := n / 36524 in
  let n := n mod 36524 in
  let n4 := n / 1461 in
  let n := n mod 1461 in
  let n1 := n / 365 in
  let n := n mod 365 in
  let year := n400 * 400 + 1 + n100 * 100 + n4 * 4 + n1 in
  if (n1 =? 4) || (n100 =? 4) then Date (year - 1) 12 31
  else
    let leap := (n1 =? 3) && (negb (n4 =? 24) || (n100 =? 3)) in
    let '(m, d) := month_day leap n in
    Date year m d.

Definition EPOCH_ORDINAL : Z := 719163.

(** ** Printing *)

(** [f"{n:0{k}d}"] for [0 <= n < 10^k]. *)
Fixpoint zpad (k : nat) (n : Z) : string :=
  match k with
  | O => EmptyString
  | S k => zpad k (n / 10) +:+ String (chr (48 + n mod 10)) EmptyString
  end.

Definition DAY : Z := days 1.

Definition utc_rfc3339 (t : Z) : string :=
  let d := ord2ymd (t / DAY + EPOCH_ORDINAL) in
  let us := t mod DAY in
  zpad 4 (d_year d) +:+ "-" +:+ zpad 2 (d_month d) +:+ "-" +:+ zpad 2 (d_day d) +:+ "T" +:+
  zpad 2 (us / hours 1) +:+ ":" +:+ zpad 2 (us / minutes 1 mod 60) +:+ ":" +:+
  zpad 2 (us / seconds 1 mod 60) +:+ "." +:+ zpad 6 (us mod seconds 1) +:+ "Z".

(** ** Parsing *)

(** Exactly [k] decimal digits, and their value. *)
Fixpoint read_digits (k : nat) (acc : Z) (s : string) : option (Z * string) :=
  match k with
  | O => Some (acc, s)
  | S k =>
    match s with
    | String c s => if is_digit c then read_digits k (acc * 10 + (code c - 48)) s else None
    | EmptyString => None
    end
  end.

Record timestamp := Timestamp {
  ts_date : date; ts_hour : Z; ts_minute : Z; ts_second : Z; ts_micros : Z }.

(** [UTC_RFC3339_RE]: the fields of a text of the right shape. *)
Definition match_rfc3339 (s : string) : option timestamp :=
  '(y, s) ← read_digits 4 0 s; s ← expect "-" s;
  '(m, s) ← read_digits 2 0 s; s ← expect "-" s;
  '(d, s) ← read_digits 2 0 s; s ← expect "T" s;
  '(h, s) ← read_digits 2 0 s; s ← expect ":" s;
  '(mi, s) ← read_digits 2 0 s; s ← expect ":" s;
  '(se, s) ← read_digits 2 0 s; s ← expect "." s;
  '(us, s) ← read_digits 6 0 s; s ← expect "Z" s;
  if truthy s then None else Some (Timestamp (Date y m d) h mi se us).

Definition valid_date (d : date) : bool :=
  (1 <=? d_year d) && (d_year d <=? 9999) && (1 <=? d_month d) && (d_month d <=? 12) &&
  (1 <=? d_day d) && (d_day d <=? days_in_month (is_leap (d_year d)) (d_month d)).

(** [datetime.strptime] on the fields. *)
Definition valid_timestamp (t : timestamp) : bool :=
  valid_date (ts_date t) && (ts_hour t <? 24) && (ts_minute t <? 60) && (ts_second t <? 60).

Definition is_utc_timestamp (s : string) : bool :=
  match match_rfc3339 s with Some t => valid_timestamp t | None => false end.

(** ** Facts *)

Lemma month_day_valid (leap : bool) (n : Z) :
  0 <= n < 365 + (if leap then 1 else 0) ->
  let '(m, d) := month_day leap n in 1 <= m <= 12 /\ 1 <= d <= days_in_month leap m.
Proof.
  intros Hn. set (ok n := let '(m, d) := month_day leap n in
    (1 <=? m) && (m <=? 12) && (1 <=? d) && (d <=? days_in_month leap m)).
  assert (forallb ok (seqZ 0 (365 + (if leap then 1 else 0))) = true) as H
    by (unfold ok; destruct leap; reflexivity).
  rewrite forallb_forall in H. specialize (H n). rewrite <- list_elem_of_In, elem_of_seqZ in H.
  specialize (H ltac:(lia)). unfold ok in H. destruct (month_day leap n) as [m d]. lia.
Qed.

#[local] Ltac Zify.zify_post_hook ::= Z.to_euclidean_division_equations.

Lemma leap_year_cycle n400 n100 n4 n1 :
  0 <= n100 < 4 -> 0 <= n4 < 25 -> 0 <= n1 < 4 ->
  is_leap (n400 * 400 + 1 + n100 * 100 + n4 * 4 + n1) =
  (n1 =? 3) && (negb (n4 =? 24) || (n100 =? 3)).
Proof.
  intros H100 H4 H1. unfold is_leap.
  assert ((n400 * 400 + 1 + n100 * 100 + n4 * 4 + n1) mod 4 = (1 + n1) mod 4) as -> by lia.
  assert ((n400 * 400 + 1 + n100 * 100 + n4 * 4 + n1) mod 100 = (1 + n4 * 4 + n1) mod 100) as -> by lia.
  assert ((n400 * 400 + 1 + n100 * 100 + n4 * 4 + n1) mod 400 = (1 + n100 * 100 + n4 * 4 + n1) mod 400)
    as -> by lia.
  lia.
Qed.

Lemma ord2ymd_valid n :
  1 <= n <= 3652059 -> valid_date (ord2ymd n) = true.
Proof.
  intros Hn. unfold ord2ymd, valid_date.
  set (m := n - 1). assert (0 <= m < 3652059) as Hm by lia.
  set (n400 := m / 146097). assert (0 <= n400 < 25) by (unfold n400; lia).
  set (m1 := m mod 146097). assert (0 <= m1 < 146097) by (unfold m1; lia).
  set (n100 := m1 / 36524). assert (0 <= n100 <= 4) by (unfold n100; lia).
  set (m2 := m1 mod 36524). assert (0 <= m2 < 36524) by (unfold m2; lia).
  assert (n100 = 4 -> m2 = 0) by (unfold n100, m2; lia).
  set (n4 := m2 / 1461). assert (0 <= n4 < 25) by (unfold n4; lia).
  set (m3 := m2 mod 1461). assert (0 <= m3 < 1461) by (unfold m3; lia).
  set (n1 := m3 / 365). assert (0 <= n1 <= 4) by (unfold n1; lia).
  set (m4 := m3 mod 365). assert (0 <= m4 < 365) by (unfold m4; lia).
  assert (m = n400 * 146097 + n100 * 36524 + n4 * 1461 + n1 * 365 + m4) as Hsum
    by (unfold n400, n100, n4, n1, m4, m3, m2, m1; lia).
  clearbody n400 n100 n4 n1 m4 m3 m2 m1 m.
  destruct ((n1 =? 4) || (n100 =? 4)) eqn:E; simpl.
  - unfold days_in_month. simpl. lia.
  - pose proof (month_day_valid ((n1 =? 3) && (negb (n4 =? 24) || (n100 =? 3))) m4
      ltac:(destruct ((n1 =? 3) && _); lia)) as H'.
    destruct (month_day _ m4) as [mo d]. simpl.
    rewrite leap_year_cycle by lia. lia.
Qed.

(** ** Reading printed fields back *)

Lemma digit_char n : 0 <= n < 10 -> is_digit (chr (48 + n)) = true /\ code (chr (48 + n)) - 48 = n.
Proof.
  intros Hn. assert (forallb (fun n => is_digit (chr (48 + n)) && (code (chr (48 + n)) - 48 =? n))
    (seqZ 0 10) = true) as H by reflexivity.
  rewrite forallb_forall in H. specialize (H n). rewrite <- list_elem_of_In, elem_of_seqZ in H.
  specialize (H ltac:(lia)). rewrite andb_true_iff, Z.eqb_eq in H. done.
Qed.

Lemma read_zpad_acc k : forall n acc rest, 0 <= n < 10 ^ Z.of_nat k ->
  forall j, read_digits (k + j) acc (zpad k n +:+ rest) =
  read_digits j (acc * 10 ^ Z.of_nat k + n) rest.
Proof.
  induction k as [|k IH]; intros n acc rest Hn j.
  - simpl. rewrite app_nil_l. f_equal. simpl in Hn. lia.
  - rewrite Nat2Z.inj_succ, Z.pow_succ_r in * by lia.
    cbn [zpad]. rewrite <- string_app_assoc. replace (S k + j)%nat with (k + S j)%nat by lia.
    rewrite IH by lia. rewrite app_cons, app_nil_l. cbn [read_digits].
    destruct (digit_char (n mod 10) ltac:(lia)) as [-> ->]. f_equal. lia.
Qed.

Lemma read_zpad k n rest :
  0 <= n < 10 ^ Z.of_nat k -> read_digits k 0 (zpad k n +:+ rest) = Some (n, rest).
Proof.
  intros Hn. pose proof (read_zpad_acc k n 0 rest Hn 0) as H. rewrite Nat.add_0_r in H.
  rewrite H. simpl. by replace (0 * 10 ^ Z.of_nat k + n) with n by lia.
Qed.

Lemma expect_app c s : expect c (String c EmptyString +:+ s) = Some s.
Proof. rewrite app_cons, app_nil_l. simpl. by rewrite Ascii.eqb_refl. Qed.

Lemma days_in_month_lt leap m : 1 <= m <= 12 -> days_in_month leap m < 100.
Proof.
  intros Hm. unfold days_in_month. destruct (_ && leap); [done|].
  assert (forallb (fun m => nth (Z.to_nat m) [0; 31; 28; 31; 30; 31; 30; 31; 31; 30; 31; 30; 31] 0 <? 100)
    (seqZ 0 13) = true) as H by reflexivity.
  rewrite forallb_forall in H. specialize (H m). rewrite <- list_elem_of_In, elem_of_seqZ in H. lia.
Qed.

(** The instants whose year has four digits, as [datetime] requires. *)
Definition representable (t : Z) : Prop := 1 <= t / DAY + EPOCH_ORDINAL <= 3652059.

Lemma match_utc_rfc3339 t :
  representable t ->
  match_rfc3339 (utc_rfc3339 t) = Some (Timestamp (ord2ymd (t / DAY + EPOCH_ORDINAL))
    (t mod DAY / hours 1) (t mod DAY / minutes 1 mod 60) (t mod DAY / seconds 1 mod 60)
    (t mod DAY mod seconds 1)).
Proof.
  intros Ht. pose proof (ord2ymd_valid _ Ht) as Hd. unfold valid_date in Hd.
  unfold utc_rfc3339, match_rfc3339. destruct (ord2ymd _) as [y m d]. simpl in Hd. simpl d_year.
  simpl d_month. simpl d_day.
  assert (d < 100) by (pose proof (days_in_month_lt (is_leap y) m); lia).
  pose proof (Z.mod_pos_bound t DAY ltac:(reflexivity)) as Hus. set (us := t mod DAY) in *.
  clearbody us. change DAY with 86400000000 in Hus.
  change (hours 1) with 3600000000. change (minutes 1) with 60000000. change (seconds 1) with 1000000.
  rewrite read_zpad by (simpl; lia). cbn [mbind option_bind]. rewrite expect_app.
  do 2 (cbn [mbind option_bind]; rewrite read_zpad by (simpl; lia); cbn [mbind option_bind];
    rewrite expect_app).
  cbn [mbind option_bind]. rewrite read_zpad by (simpl; lia). cbn [mbind option_bind]. rewrite expect_app.
  do 2 (cbn [mbind option_bind]; rewrite read_zpad by (simpl; lia); cbn [mbind option_bind];
    rewrite expect_app).
  cbn [mbind option_bind]. rewrite read_zpad by (simpl; lia). done.
Qed.

(** Every instant the platform stamps is printed as a timestamp the evidence
    schema accepts: for a date in years 1 to 9999, [utc_rfc3339] has the shape of
    [UTC_RFC3339_RE] and [strptime] accepts its calendar fields. *)
Theorem utc_rfc3339_accepted t : representable t -> is_utc_timestamp (utc_rfc3339 t) = true.
Proof.
  intros Ht. unfold is_utc_timestamp. rewrite match_utc_rfc3339 by done.
  unfold valid_timestamp. simpl. rewrite ord2ymd_valid by done.
  pose proof (Z.mod_pos_bound t DAY ltac:(reflexivity)) as Hus. set (us := t mod DAY) in *.
  clearbody us. change DAY with 86400000000 in Hus.
  change (hours 1) with 3600000000. change (minutes 1) with 60000000. change (seconds 1) with 1000000.
  lia.
Qed.

Lemma utc_rfc3339_accepted_witness :
  utc_rfc3339 1721111696000123 = "2024-07-16T06:34:56.000123Z" /\
  is_utc_timestamp (utc_rfc3339 1721111696000123) = true.
Proof.
  split; [reflexivity|]. apply (utc_rfc3339_accepted 1721111696000123).
  unfold representable. vm_compute. split; discriminate.
Defined.
