(* ===== verification/Dates.v ===== *)
(** * Dates: calendar dates as ISO 8601 text

    What [finance/proposals.py] takes from [datetime.date]: [isoformat], [fromisoformat]
    (calendar dates and ISO weeks, with and without dashes), the order, and
    [strftime("%d/%m/%Y")] (the year unpadded, as glibc prints it). *)

From S2P Require Import Prelude PyStr Schema Canonical Timestamps.
Open Scope Z_scope.

(** [datetime._ymd2ord] *)
Definition days_before_year (y : Z) : Z :=
  let y := y - 1 in y * 365 + y / 4 - y / 100 + y / 400.
Definition ymd2ord (d : date) : Z :=
  days_before_year (d_year d) + days_before_month (d_month d)
  + (if (2 <? d_month d) && is_leap (d_year d) then 1 else 0) + d_day d.

(** Monday is 0. *)
Definition weekday (d : date) : Z := (ymd2ord d + 6) mod 7.
Definition iso_week1_monday (year : Z) : Z :=
  let first_day := ymd2ord (Date year 1 1) in
  let first_weekday := (first_day + 6) mod 7 in
  first_day - first_weekday + (if 3 <? first_weekday then 7 else 0).
Definition has_week_53 (year : Z) : bool :=
  let w := weekday (Date year 1 1) in (w =? 3) || ((w =? 2) && is_leap year).
Definition iso_to_ymd (year week day : Z) : option date :=
  if ((1 <=? year) && (year <=? 9999))
     && ((1 <=? week) && ((week <=? 52) || ((week =? 53) && has_week_53 year)))
     && ((1 <=? day) && (day <=? 7))
  then Some (ord2ymd (iso_week1_monday year + (week - 1) * 7 + (day - 1)))
  else None.

(** The separator, when the text has one. *)
Definition separator (dashed : bool) (s : string) : option string :=
  if dashed then expect "-" s else Some s.

Definition fromisoformat (s : string) : option date :=
  '(y, s) ← read_digits 4 0 s;
  let dashed := starts_with "-" s in
  s ← separator dashed s;
  d ← (match drop_prefix "W" s with
    | Some s =>
      '(week, s) ← read_digits 2 0 s;
      if truthy s then
        s ← separator dashed s;
        '(day, s) ← read_digits 1 0 s;
        if truthy s then None else iso_to_ymd y week day
      else iso_to_ymd y week 1
    | None =>
      '(m, s) ← read_digits 2 0 s;
      s ← separator dashed s;
      '(d, s) ← read_digits 2 0 s;
      if truthy s then None else Some (Date y m d)
    end);
  if valid_date d then Some d else None.

Definition isoformat (d : date) : string :=
  zpad 4 (d_year d) +:+ "-" +:+ zpad 2 (d_month d) +:+ "-" +:+ zpad 2 (d_day d).
Definition strftime_dmy (d : date) : string :=
  zpad 2 (d_day d) +:+ "/" +:+ zpad 2 (d_month d) +:+ "/" +:+ zstr (d_year d).

Definition date_lt (a b : date) : bool :=
  (d_year a <? d_year b)
  || ((d_year a =? d_year b) && ((d_month a <? d_month b)
      || ((d_month a =? d_month b) && (d_day a <? d_day b)))).

(** The ISO calendar around two year ends. *)
Example week_53 : fromisoformat "2020-W53-5" = Some (Date 2021 1 1).
Proof. reflexivity. Qed.
Example no_week_53 : fromisoformat "2021W53" = None.
Proof. reflexivity. Qed.
Example week_1 : fromisoformat "2019W011" = Some (Date 2018 12 31).
Proof. reflexivity. Qed.

(** A date that was printed reads back. *)
Lemma fromisoformat_isoformat d : valid_date d = true -> fromisoformat (isoformat d) = Some d.
Proof.
  destruct d as [y m d]. intros H. pose proof H as Hv. unfold valid_date in H. cbn [d_year d_month d_day] in H.
  rewrite !andb_true_iff, !Z.leb_le in H. destruct H as [[[[[Hy1 Hy2] Hm1] Hm2] Hd1] Hd].
  assert (d < 100) by (pose proof (days_in_month_lt (is_leap y) m); lia).
  unfold fromisoformat, isoformat. cbn [d_year d_month d_day].
  rewrite read_zpad by (simpl; lia). cbn [mbind option_bind].
  change (starts_with "-" ("-" +:+ zpad 2 m +:+ "-" +:+ zpad 2 d)) with true. unfold separator.
  rewrite expect_app. cbn [mbind option_bind].
  assert (drop_prefix "W" (zpad 2 m +:+ "-" +:+ zpad 2 d) = None) as ->.
  { change (zpad 2 m +:+ "-" +:+ zpad 2 d) with (String (chr (48 + m / 10 mod 10))
      (String (chr (48 + m mod 10)) ("-" +:+ zpad 2 d))). cbn [drop_prefix].
    match goal with |- (if ?b then _ else _) = _ => destruct b eqn:E; [|done] end.
    apply Ascii.eqb_eq in E. apply (f_equal code) in E. exfalso.
    assert (0 <= m / 10 mod 10 < 10) by (apply Z.mod_pos_bound; lia).
    unfold code, chr in E. rewrite nat_ascii_embedding, Z2Nat.id in E by lia.
    change (Z.of_nat (nat_of_ascii "W")) with 87 in E. lia. }
  rewrite read_zpad by (simpl; lia). cbn [mbind option_bind]. rewrite expect_app. cbn [mbind option_bind].
  rewrite <- (string_app_nil_r (zpad 2 d)), read_zpad by (simpl; lia). cbn [mbind option_bind truthy].
  by rewrite Hv.
Qed.
