(* ===== verification/Calendar.v ===== *)
(** * Calendar: date arithmetic by ordinals

    [datetime.date]'s order, day arithmetic and months: [date + timedelta], [replace(day=1)],
    and the local day of an instant ([timezone.localtime], Asia/Ho_Chi_Minh: UTC+7). *)

From S2P Require Import Prelude PyStr Schema Canonical Timestamps Dates.
From Stdlib Require Import ZifyBool.
Open Scope Z_scope.

(** [date + timedelta(days=n)]; the code stays far from the ends of the calendar. *)
Definition add_days (d : date) (n : Z) : date := ord2ymd (ymd2ord d + n).
Definition first_of (d : date) : date := Date (d_year d) (d_month d) 1.
Definition local_ordinal (t : Z) : Z := (t + hours 7) / DAY + EPOCH_ORDINAL.
Definition local_date (t : Z) : date := ord2ymd (local_ordinal t).
(** The months since year 0. *)
Definition month_index (d : date) : Z := 12 * d_year d + (d_month d - 1).

(** The ordinals of the dates Python has. *)
Definition on_calendar (n : Z) : Prop := 1 <= n <= 3652059.

(** ** Ordinals *)

Definition leap_day (leap : bool) (m : Z) : Z := if (2 <? m) && leap then 1 else 0.

Lemma month_day_ordinal (leap : bool) (n : Z) :
  0 <= n < 365 + (if leap then 1 else 0) ->
  let '(m, d) := month_day leap n in days_before_month m + leap_day leap m + d = n + 1.
Proof.
  intros Hn. set (ok n := let '(m, d) := month_day leap n in
    days_before_month m + leap_day leap m + d =? n + 1).
  assert (forallb ok (seqZ 0 (365 + (if leap then 1 else 0))) = true) as H
    by (unfold ok; destruct leap; reflexivity).
  rewrite forallb_forall in H. specialize (H n). rewrite <- list_elem_of_In, elem_of_seqZ in H.
  specialize (H ltac:(lia)). unfold ok in H. destruct (month_day leap n) as [m d]. lia.
Qed.

(** Later months start after earlier ones end, the last one ends the year. *)
Lemma months_grow (leap : bool) m m' :
  1 <= m <= 12 -> 1 <= m' <= 12 ->
  days_before_month m + leap_day leap m + days_in_month leap m <= 365 + (if leap then 1 else 0) /\
  0 <= days_before_month m + leap_day leap m /\
  (m < m' -> days_before_month m + leap_day leap m + days_in_month leap m <=
    days_before_month m' + leap_day leap m') /\
  (m' = m + 1 -> days_before_month m' + leap_day leap m' =
    days_before_month m + leap_day leap m + days_in_month leap m) /\
  (m = 12 -> days_before_month m + leap_day leap m + days_in_month leap m =
    365 + (if leap then 1 else 0)) /\
  28 <= days_in_month leap m <= 31.
Proof.
  intros Hm Hm'. set (start m := days_before_month m + leap_day leap m).
  set (ok m m' := (start m + days_in_month leap m <=? 365 + (if leap then 1 else 0)) && (0 <=? start m) &&
    (negb (m <? m') || (start m + days_in_month leap m <=? start m')) &&
    (negb (m' =? m + 1) || (start m' =? start m + days_in_month leap m)) &&
    (negb (m =? 12) || (start m + days_in_month leap m =? 365 + (if leap then 1 else 0))) &&
    (28 <=? days_in_month leap m) && (days_in_month leap m <=? 31)).
  assert (forallb (fun m => forallb (ok m) (seqZ 1 12)) (seqZ 1 12) = true) as H
    by (unfold ok, start; destruct leap; reflexivity).
  rewrite forallb_forall in H. specialize (H m). rewrite <- list_elem_of_In, elem_of_seqZ in H.
  specialize (H ltac:(lia)). rewrite forallb_forall in H. specialize (H m').
  rewrite <- list_elem_of_In, elem_of_seqZ in H. specialize (H ltac:(lia)). unfold ok, start in H. lia.
Qed.

Lemma valid_date_inv d : valid_date d = true ->
  1 <= d_year d <= 9999 /\ 1 <= d_month d <= 12 /\
  1 <= d_day d <= days_in_month (is_leap (d_year d)) (d_month d).
Proof. unfold valid_date. lia. Qed.

Lemma valid_first_of d : valid_date d = true -> valid_date (first_of d) = true.
Proof. unfold valid_date, first_of. cbn. lia. Qed.

Lemma ymd2ord_eq d : ymd2ord d =
  days_before_year (d_year d) + (days_before_month (d_month d) + leap_day (is_leap (d_year d)) (d_month d)) + d_day d.
Proof. unfold ymd2ord, leap_day. lia. Qed.

Section Euclid.
#[local] Ltac Zify.zify_post_hook ::= Z.to_euclidean_division_equations.

Lemma next_year y :
  days_before_year (y + 1) = days_before_year y + 365 + (if is_leap y then 1 else 0).
Proof.
  unfold days_before_year, is_leap. replace (y + 1 - 1) with y by lia.
  assert (forall q, q = 4 \/ q = 100 \/ q = 400 ->
    y / q - (y - 1) / q = if y mod q =? 0 then 1 else 0) as Hq
    by (intros q [->|[-> | ->]]; case Z.eqb_spec; intros; lia).
  pose proof (Hq 4) as H4. pose proof (Hq 100) as H100. pose proof (Hq 400) as H400. clear Hq.
  assert (y mod 100 = 0 -> y mod 4 = 0) by lia. assert (y mod 400 = 0 -> y mod 100 = 0) by lia.
  destruct (Z.eqb_spec (y mod 4) 0), (Z.eqb_spec (y mod 100) 0), (Z.eqb_spec (y mod 400) 0);
    cbn [andb orb negb]; lia.
Qed.

Lemma years_grow y y' : y < y' ->
  days_before_year y + 365 + (if is_leap y then 1 else 0) <= days_before_year y'.
Proof. intros H. rewrite <- next_year. unfold days_before_year. lia. Qed.

(** [_ymd2ord] takes [_ord2ymd] back. *)
Lemma ymd2ord_ord2ymd n : on_calendar n -> ymd2ord (ord2ymd n) = n.
Proof.
  intros Hn. unfold on_calendar in Hn. unfold ord2ymd.
  set (m := n - 1). assert (0 <= m < 3652059) as Hm by lia.
  set (n400 := m / 146097). assert (0 <= n400 < 25) by (unfold n400; lia).
  set (m1 := m mod 146097). assert (0 <= m1 < 146097) by (unfold m1; lia).
  set (n100 := m1 / 36524). assert (0 <= n100 <= 4) by (unfold n100; lia).
  set (m2 := m1 mod 36524). assert (0 <= m2 < 36524) by (unfold m2; lia).
  assert (n100 = 4 -> m2 = 0) by (unfold n100, m2; lia).
  set (n4 := m2 / 1461). assert (0 <= n4 < 25) by (unfold n4; lia).
  set (m3 := m2 mod 1461). assert (0 <= m3 < 1461) by (unfold m3; lia).
  set (n1 := m3 / 365). assert (0 <= n1 <= 4) by (unfold n1; lia).
  set (m4 := m3 mod 365). assert (0 <= m4 < 365) by (unfold m4; lia).
  assert (n1 = 4 -> m4 = 0) by (unfold n1, m4; lia).
  assert (n = n400 * 146097 + n100 * 36524 + n4 * 1461 + n1 * 365 + m4 + 1) as Hsum
    by (unfold n400, n100, n4, n1, m4, m3, m2, m1, m; lia).
  assert (n100 = 4 -> n4 = 0 /\ n1 = 0 /\ m4 = 0) by (unfold m4, n4, n1, m3; lia).
  assert (n1 = 4 -> n100 < 4 /\ (n4 < 24 \/ n100 = 3)) by (unfold n1, m3, n4, m2, n100, m1; lia).
  clearbody n400 n100 n4 n1 m4 m3 m2 m1 m.
  destruct ((n1 =? 4) || (n100 =? 4)) eqn:E.
  - unfold ymd2ord. cbn [d_year d_month d_day]. 
    change (days_before_month 12) with 334. unfold days_before_year, is_leap.
    set (y := n400 * 400 + 1 + n100 * 100 + n4 * 4 + n1 - 1).
    assert (y mod 4 = 0 /\ (y mod 100 <> 0 \/ y mod 400 = 0)) as [-> Hy] by (unfold y; lia).
    assert ((2 <? 12) && ((0 =? 0) && (negb (y mod 100 =? 0) || (y mod 400 =? 0))) = true) as -> by lia.
    unfold y in *. clear Hy y. lia.
  - pose proof (month_day_ordinal ((n1 =? 3) && (negb (n4 =? 24) || (n100 =? 3))) m4
      ltac:(destruct ((n1 =? 3) && _); lia)) as H'.
    destruct (month_day _ m4) as [mo d]. rewrite ymd2ord_eq. cbn [d_year d_month d_day].
    rewrite leap_year_cycle by lia. unfold days_before_year.
    assert ((n400 * 400 + 1 + n100 * 100 + n4 * 4 + n1 - 1) / 4 = n400 * 100 + n100 * 25 + n4) as -> by lia.
    assert ((n400 * 400 + 1 + n100 * 100 + n4 * 4 + n1 - 1) / 100 = n400 * 4 + n100) as -> by lia.
    assert ((n400 * 400 + 1 + n100 * 100 + n4 * 4 + n1 - 1) / 400 = n400) as -> by lia. lia.
Qed.
End Euclid.

(** The order of valid dates is that of their ordinals. *)
Lemma date_lt_ord a b : valid_date a = true -> valid_date b = true ->
  date_lt a b = (ymd2ord a <? ymd2ord b).
Proof.
  intros (Ya & Ma & Da)%valid_date_inv (Yb & Mb & Db)%valid_date_inv. rewrite !ymd2ord_eq.
  destruct a as [y m d], b as [y' m' d']. unfold date_lt. cbn [d_year d_month d_day] in *.
  pose proof (months_grow (is_leap y) m m' Ma Mb) as (E1 & Z1 & G1 & _).
  pose proof (months_grow (is_leap y') m' m Mb Ma) as (E2 & Z2 & G2 & _).
  destruct (Z.lt_trichotomy y y') as [H|[->|H]].
  - pose proof (years_grow y y' H). lia.
  - destruct (Z.lt_trichotomy m m') as [H|[->|H]]; lia.
  - pose proof (years_grow y' y H). lia.
Qed.

Lemma ymd2ord_inj a b :
  valid_date a = true -> valid_date b = true -> ymd2ord a = ymd2ord b -> a = b.
Proof.
  intros Ha Hb H. pose proof (date_lt_ord a b Ha Hb) as H1. pose proof (date_lt_ord b a Hb Ha) as H2.
  rewrite H, Z.ltb_irrefl in H1. rewrite H, Z.ltb_irrefl in H2.
  clear H. destruct a as [y m d], b as [y' m' d']. unfold date_lt in *. cbn [d_year d_month d_day] in *.
  assert (y = y') as -> by lia. assert (m = m') as -> by lia. f_equal. lia.
Qed.

Lemma valid_on_calendar d : valid_date d = true -> on_calendar (ymd2ord d).
Proof.
  intros (Y & M & D)%valid_date_inv. rewrite ymd2ord_eq. unfold on_calendar.
  pose proof (months_grow (is_leap (d_year d)) _ _ M M) as (E & S & _).
  pose proof (years_grow (d_year d) 10000 ltac:(lia)) as Hy. change (days_before_year 10000) with 3652059 in Hy.
  pose proof (years_grow 0 (d_year d) ltac:(lia)) as H0.
  change (days_before_year 0 + 365 + (if is_leap 0 then 1 else 0)) with 0 in H0. lia.
Qed.

Lemma ord2ymd_ymd2ord d : valid_date d = true -> ord2ymd (ymd2ord d) = d.
Proof.
  intros H. pose proof (valid_on_calendar d H) as Hc.
  apply ymd2ord_inj; [by apply ord2ymd_valid|done|by apply ymd2ord_ord2ymd].
Qed.

Lemma ord2ymd_eq_iff n d : on_calendar n -> valid_date d = true -> ord2ymd n = d <-> n = ymd2ord d.
Proof.
  intros Hn Hd. split; [intros <-; by rewrite ymd2ord_ord2ymd|intros ->; by apply ord2ymd_ymd2ord].
Qed.

(** ** Months *)

Definition next_month (d : date) : date :=
  if d_month d =? 12 then Date (d_year d + 1) 1 1 else Date (d_year d) (d_month d + 1) 1.
Definition month_length (d : date) : Z := days_in_month (is_leap (d_year d)) (d_month d).

Lemma next_month_ordinal d : 1 <= d_month d <= 12 ->
  ymd2ord (next_month d) = ymd2ord (first_of d) + month_length d.
Proof.
  intros M. destruct d as [y m dd]. unfold next_month, month_length, first_of. cbn [d_year d_month d_day] in *.
  rewrite !ymd2ord_eq. destruct (Z.eqb_spec m 12) as [->|Hne]; cbn [d_year d_month d_day].
  - pose proof (months_grow (is_leap y) 12 12 M M) as (_ & _ & _ & _ & H & _). specialize (H eq_refl).
    rewrite next_year. change (days_before_month 1 + leap_day (is_leap (y + 1)) 1) with 0. lia.
  - pose proof (months_grow (is_leap y) m (m + 1) M ltac:(lia)) as (_ & _ & _ & H & _). specialize (H eq_refl). lia.
Qed.

(** [(first + timedelta(days=32)).replace(day=1)] is the first of the next month. *)
Lemma month_after d : valid_date d = true -> d_year d <= 9998 ->
  first_of (add_days (first_of d) 32) = next_month d.
Proof.
  intros Hv Hy. pose proof (next_month_ordinal d ltac:(apply valid_date_inv in Hv; lia)) as Ho.
  apply valid_date_inv in Hv as (Y & M & D).
  pose proof (months_grow (is_leap (d_year d)) _ _ M M) as (_ & _ & _ & _ & _ & L). fold (month_length d) in L.
  set (n := next_month d) in *. set (e := Date (d_year n) (d_month n) (33 - month_length d)).
  assert (1 <= d_year n <= 9999 /\ 1 <= d_month n <= 12 /\ d_day n = 1) as (Yn & Mn & Dn).
  { unfold n, next_month. destruct (Z.eqb_spec (d_month d) 12); cbn; lia. }
  pose proof (months_grow (is_leap (d_year n)) _ _ Mn Mn) as (_ & _ & _ & _ & _ & Ln).
  assert (valid_date e = true) as He by (unfold valid_date, e; cbn; lia).
  assert (ymd2ord e = ymd2ord (first_of d) + 32) as E.
  { rewrite ymd2ord_eq in *. unfold e. cbn [d_year d_month d_day]. rewrite Dn in Ho. lia. }
  unfold add_days. rewrite <- E, ord2ymd_ymd2ord by done. unfold first_of, e. cbn. rewrite <- Dn.
  by destruct n.
Qed.
