(* ===== verification/Evidence.v ===== *)
(** * Evidence: payload schemas and the platform queue

    [evidence/services.py] and the state functions of [evidence/models.py].  An event
    is signed and inserted once; its identity columns never change afterwards. *)

From S2P Require Import Prelude Table PyStr Schema Store Canonical Signatures Timestamps.
Open Scope Z_scope.

Definition PROPOSAL_CREATED : Z := 1.
Definition SETTLEMENT : Z := 10.

(** ** Evidence levels *)

Inductive evidence_level_t := LevelPending | LOCAL_SIGNED | CHAIN_CONFIRMED | LevelMismatch.

Definition evidence_level (status : outbox_status) : evidence_level_t :=
  match status with
  | LOCAL => LOCAL_SIGNED
  | CONFIRMED => CHAIN_CONFIRMED
  | MISMATCH => LevelMismatch
  | _ => LevelPending
  end.
Definition is_settled (status : outbox_status) : bool :=
  match status with LOCAL | CONFIRMED => true | _ => false end.

(** ** Payload schemas *)

(** [OPAQUE_PAYLOAD_SHAPES], and the closed vocabulary of a [frozenset] shape. *)
Inductive shape :=
  | ShId | ShPositiveInt | ShMoney | ShBool | ShHash | ShHashes | ShBytes32 | ShTimestamp | ShText
  | ShOneOf (values : list string).

Definition schema := list (string * shape).

Definition EVIDENCE_PAYLOAD_SCHEMAS (event_type : Z) : option (schema * schema) :=
  if event_type =? PROPOSAL_CREATED then
    Some ([("proposal_id", ShId); ("proposal_version", ShPositiveInt); ("record_id", ShId);
           ("amount_vnd", ShMoney); ("proposal_snapshot_hash", ShHash);
           ("quotation_hash", ShHash)],
          [("building_id", ShId); ("case_id", ShId); ("report_id", ShId);
           ("case_snapshot_hash", ShHash); ("report_snapshot_hash", ShHash);
           ("estimated_amount_vnd", ShMoney); ("photo_hash", ShHash); ("photo_hashes", ShHashes)])
  else if event_type =? SETTLEMENT then
    Some ([("schema", ShOneOf ["settlement.v2"]); ("settlement_id", ShId); ("proposal_id", ShId);
           ("proposal_version", ShPositiveInt); ("amount_vnd", ShMoney);
           ("transfer_sha256", ShHash); ("settled_at", ShTimestamp)], [])
  else None.

(** [HASH_RE]: [(?:0x)?[0-9a-f]{64}] *)
Definition is_hash (s : string) : bool :=
  (sforall is_hex s && (slen s =? 64)) || is_bytes32 s.

Definition has_shape (sh : shape) (value : pyval) : bool :=
  match sh, value with
  | ShId, PInt z | ShPositiveInt, PInt z => 0 <? z
  | ShMoney, PInt z => 0 <=? z
  | ShBool, PBool _ => true
  | ShText, PStr s => truthy s
  | ShHash, PStr s => is_hash s
  | ShBytes32, PStr s => is_bytes32 s
  | ShHashes, PList (x :: l) =>
    forallb (fun v => match v with PStr s => is_hash s | _ => false end) (x :: l)
  | ShTimestamp, PStr s => is_utc_timestamp s
  | ShOneOf values, PStr s => existsb (String.eqb s) values
  | _, _ => false
  end.

Fixpoint field_shape (k : string) (sc : schema) : option shape :=
  match sc with
  | [] => None
  | (k', sh) :: sc => if String.eqb k k' then Some sh else field_shape k sc
  end.

Definition string_keys (d : list (pyval * pyval)) : bool :=
  forallb (fun kv => match kv.1 with PStr _ => true | _ => false end) d.

(** The names of [sc] that the payload lacks, sorted. *)
Definition missing_fields (sc : schema) (d : list (pyval * pyval)) : list string :=
  let missing := List.filter (fun ks => negb (has_key ks.1 d)) sc in
  item_key <$> sort_items ((fun ks => (PStr ks.1, PNone)) <$> missing).

Definition known_field (required optional : schema) (kv : pyval * pyval) : bool :=
  match field_shape (key_str kv.1) (required ++ optional) with Some _ => true | None => false end.
Definition valid_field (required optional : schema) (kv : pyval * pyval) : bool :=
  match field_shape (key_str kv.1) (required ++ optional) with
  | Some sh => has_shape sh kv.2
  | None => false
  end.

Definition _validate_payload (event_type payload : pyval) : result unit :=
  match event_type with
  | PInt t =>
    match EVIDENCE_PAYLOAD_SCHEMAS t with
    | None => Err (ValidationError "Only proposal versions and settlements may be anchored.")
    | Some (required, optional) =>
      match payload with
      | PDict d =>
        if negb (string_keys d) then
          Err (ValidationError "Evidence payload must be an object with known fields.")
        else if negb (forallb (known_field required optional) d) then
          Err (ValidationError "Evidence payload contains fields outside its event schema.")
        else
          match missing_fields required d with
          | (_ :: _) as missing =>
            Err (ValidationError ("Evidence payload is missing required fields: " +:+
              join ", " missing +:+ "."))
          | [] =>
            match List.find (fun kv => negb (valid_field required optional kv)) d with
            | Some kv => Err (ValidationError ("Evidence payload field '" +:+ key_str kv.1 +:+
                "' has an invalid value."))
            | None => Ok tt
            end
          end
      | _ => Err (ValidationError "Evidence payload must be an object with known fields.")
      end
    end
  | _ => Err (ValueError "Evidence event type must be an integer from 1 through 11.")
  end.

(** ** Small normalizations *)

Definition lowercase_identifier (value : string) : string := py_lower value.

Definition normalize_vnd (value : pyval) : result Z :=
  match value with
  | PInt z => if z <? 0 then Err (ValueError "VND amounts must be non-negative integers.") else Ok z
  | _ => Err (ValueError "VND amounts must be non-negative integers.")
  end.

(** ** The queue *)

Section Queue.
Context {CR : Crypto} {ETH : EthAccount}.

(** A digest as raw bytes. *)
Definition digest_bytes (hex : string) : string :=
  string_of_list_ascii (chr <$> default [] (fromhex hex)).

Definition _platform_write_authorization (secret : string) (parts : list string) : string :=
  let message := join "|" ("platform-evidence-queue" :: parts) in
  let inner := digest_bytes (sha256 (secret +:+ message)) in
  sha256 (secret +:+ inner).

(** The columns [queue_platform_event] compares.  Both payloads are the normal form
    [json.loads] returns, keys sorted, so Python equality is structural. *)
Definition same_identity (e : outbox_row) (event_type : Z) (payload : pyval)
    (payload_hash previous_hash signature signer : string) : bool :=
  (ev_event_type e =? event_type) && (ev_payload e ==? payload)
  && (ev_payload_hash e ==? payload_hash) && (ev_previous_hash e ==? previous_hash)
  && (ev_signature e ==? signature) && (ev_signer_address e ==? signer).

(** The check constraints and the unique column of [BlockchainOutboxEvent]. *)
Definition insert_outbox (r : outbox_row) : DB (obj outbox_row) :=
  require (truthy (ev_signer_address r)) (IntegrityError "outbox_signer_address_required") ;;
  require (is_bytes32 (ev_event_id r)) (IntegrityError "outbox_event_id_bytes32") ;;
  require (sforall is_hex (ev_payload_hash r) && (slen (ev_payload_hash r) =? 64))
    (IntegrityError "outbox_payload_hash_sha256") ;;
  require (is_bytes32 (ev_previous_hash r)) (IntegrityError "outbox_previous_hash_bytes32") ;;
  require ((1 <=? ev_event_type r) && (ev_event_type r <=? 11))
    (IntegrityError "outbox_known_event_type") ;;
  insert_unless outbox "evidence_blockchainoutboxevent_event_id_key"
    (fun r o => o~>ev_event_id ==? ev_event_id r) r.

(** The SQL function [lamto_security.evidence_insert_platform_outbox_event]. *)
Definition evidence_insert_platform_outbox_event (event_id : string) (event_type : Z)
    (payload : pyval) (payload_hash previous_hash signature signer_address : string)
    (building_id : Z) (canonical_payload authorization : string) : DB (obj outbox_row) :=
  st ← get_settings;
  require (loads canonical_payload ==? Some payload)
    (IntegrityError "canonical evidence payload does not match the queued payload") ;;
  require (authorization ==? _platform_write_authorization (st_db_secret st)
      [event_id; zstr event_type; payload_hash; previous_hash; signature; signer_address;
       zstr building_id; canonical_payload])
    (DatabaseError "platform evidence queue authorization is invalid") ;;
  now ← timezone_now;
  insert_outbox (Outbox event_id event_type payload payload_hash previous_hash signature
    signer_address building_id PENDING 0 None None None "" None [] "" None None None None now).

(** After a failed statement PostgreSQL refuses every query of the transaction. *)
Definition in_aborted_transaction {A} (_ : DB A) : DB A :=
  raise (DatabaseError "current transaction is aborted").

Definition queue_platform_event (event_id : string) (event_type : Z) (payload : pyval)
    (previous_hash : string) (building : Z) : DB (obj outbox_row) :=
  atomic (
    st ← get_settings;
    let event_id := lowercase_identifier event_id in
    let previous_hash := lowercase_identifier previous_hash in
    of_result (_validate_payload (PInt event_type) payload) ;;
    require (is_bytes32 event_id && is_bytes32 previous_hash)
      (ValidationError "Event ID and previous hash must be 0x-prefixed bytes32 values.") ;;
    bytes ← of_result (canonical_bytes payload);
    normalized_payload ← of_option (ValueError "json") (loads bytes);
    digest ← of_result (payload_hash normalized_payload);
    signature ← of_result (platform_sign_evidence st event_id event_type ("0x" +:+ digest)
      previous_hash);
    signer_address ← of_result (platform_signer_address st);
    canonical_payload ← of_result (canonical_bytes normalized_payload);
    existing ← query_first outbox (fun o => o~>ev_event_id ==? event_id);
    let same (e : obj outbox_row) :=
      same_identity (val e) event_type normalized_payload digest previous_hash signature
        signer_address in
    match existing with
    | Some e => require (same e) EvidenceConflict ;; mret e
    | None =>
      try_except
        (let authorization := _platform_write_authorization (st_write_secret st)
           [event_id; zstr event_type; digest; previous_hash; signature; signer_address;
            zstr building; canonical_payload] in
         evidence_insert_platform_outbox_event event_id event_type normalized_payload digest
           previous_hash signature signer_address building canonical_payload authorization)
        (fun e => match e with
         | IntegrityError _ =>
           e ← in_aborted_transaction
             (get_one outbox "BlockchainOutboxEvent" (fun o => o~>ev_event_id ==? event_id));
           require (same e) EvidenceConflict ;; mret e
         | _ => raise e
         end)
    end).
End Queue.

(** ** Validation, exactly *)

Lemma find_None_forallb {A} (p : A -> bool) l :
  List.find (fun x => negb (p x)) l = None <-> forallb p l = true.
Proof.
  induction l as [|x l IH]; simpl; [done|]. destruct (p x); simpl; [apply IH|done].
Qed.

Lemma missing_nil sc d :
  missing_fields sc d = [] <-> forall k sh, (k, sh) ∈ sc -> has_key k d = true.
Proof.
  unfold missing_fields. split.
  - intros H k sh Hin. destruct (has_key k d) eqn:E; [done|].
    assert ((PStr k, PNone) ∈ sort_items ((fun ks => (PStr ks.1, PNone)) <$>
      List.filter (fun ks => negb (has_key ks.1 d)) sc)) as Hk.
    { rewrite sort_items_perm. apply list_elem_of_fmap. exists (k, sh). split; [done|].
      apply list_elem_of_In, filter_In. split; [by apply list_elem_of_In|]. simpl. by rewrite E. }
    destruct (sort_items _); [by apply not_elem_of_nil in Hk|done].
  - intros H. assert (List.filter (fun ks => negb (has_key ks.1 d)) sc = []) as ->; [|done].
    induction sc as [|[k sh] sc IH]; [done|]. simpl. rewrite (H k sh) by left. simpl.
    apply IH. intros k' sh' Hin. apply (H k' sh'). by right.
Qed.

Lemma validate_payload_Ok t p :
  _validate_payload (PInt t) p = Ok tt <->
  exists required optional d, EVIDENCE_PAYLOAD_SCHEMAS t = Some (required, optional) /\
    p = PDict d /\ string_keys d = true /\
    (forall k sh, (k, sh) ∈ required -> has_key k d = true) /\
    forallb (valid_field required optional) d = true.
Proof.
  unfold _validate_payload. split.
  - destruct (EVIDENCE_PAYLOAD_SCHEMAS t) as [[req opt]|]; [|done].
    destruct p as [| | | | |d|]; try done.
    destruct (string_keys d) eqn:Hk; [|done]. simpl.
    destruct (forallb (known_field req opt) d) eqn:Hkn; [|done]. simpl.
    destruct (missing_fields req d) eqn:Hm; [|done].
    destruct (List.find _ d) eqn:Hf; [done|]. intros _.
    exists req, opt, d. repeat split; try done; [by apply missing_nil|].
    by apply find_None_forallb.
  - intros (req & opt & d & -> & -> & -> & Hm & Hv). simpl.
    assert (forallb (known_field req opt) d = true) as ->.
    { rewrite forallb_forall in *. intros x Hx. specialize (Hv x Hx). unfold valid_field in Hv.
      unfold known_field. by destruct (field_shape _ _). }
    simpl. rewrite (proj2 (missing_nil req d) Hm).
    by rewrite (proj2 (find_None_forallb (valid_field req opt) d) Hv).
Qed.

(** ** What the queue signs *)

(** The columns computed before the outbox is consulted. *)
Record signed_event := SignedEvent {
  si_event_id : string; si_previous : string; si_payload : pyval; si_digest : string;
  si_signature : string; si_signer : string; si_canonical : string }.

Section QueueFacts.
Context {CR : Crypto} {ETH : EthAccount}.

Definition sign_event (st : settings) (event_id : string) (t : Z) (p : pyval) (prev : string) :
    result signed_event :=
  let event_id := lowercase_identifier event_id in
  let prev := lowercase_identifier prev in
  _validate_payload (PInt t) p ;;
  (if is_bytes32 event_id && is_bytes32 prev then Ok tt
   else Err (ValidationError "Event ID and previous hash must be 0x-prefixed bytes32 values.")) ;;
  bytes ← canonical_bytes p;
  n ← (match loads bytes with Some n => Ok n | None => Err (ValueError "json") end);
  digest ← payload_hash n;
  signature ← platform_sign_evidence st event_id t ("0x" +:+ digest) prev;
  signer ← platform_signer_address st;
  canonical ← canonical_bytes n;
  Ok (SignedEvent event_id prev n digest signature signer canonical).

Definition matches_signed (t : Z) (i : signed_event) (e : outbox_row) : bool :=
  same_identity e t (si_payload i) (si_digest i) (si_previous i) (si_signature i) (si_signer i).

Definition find_event (event_id : string) (w : world) : option (obj outbox_row) :=
  first (fun o => o~>ev_event_id ==? event_id) (outbox w).

(** The row the queue inserts for a signed event. *)
Definition new_event (now t b : Z) (i : signed_event) : outbox_row :=
  Outbox (si_event_id i) t (si_payload i) (si_digest i) (si_previous i) (si_signature i)
    (si_signer i) b PENDING 0 None None None "" None [] "" None None None None now.

Definition queue_insert (t b : Z) (i : signed_event) : DB (obj outbox_row) := fun w =>
  match evidence_insert_platform_outbox_event (si_event_id i) t (si_payload i) (si_digest i)
      (si_previous i) (si_signature i) (si_signer i) b (si_canonical i)
      (_platform_write_authorization (st_write_secret (w_settings w))
        [si_event_id i; zstr t; si_digest i; si_previous i; si_signature i; si_signer i; zstr b;
         si_canonical i]) w with
  | (Ok o, w') => (Ok o, w')
  | (Err (IntegrityError _), _) => (Err (DatabaseError "current transaction is aborted"), w)
  | (Err e, _) => (Err e, w)
  end.

Lemma queue_unfold event_id t p prev b w :
  queue_platform_event event_id t p prev b w =
  match sign_event (w_settings w) event_id t p prev with
  | Err e => (Err e, w)
  | Ok i =>
    match find_event (si_event_id i) w with
    | Some e => if matches_signed t i (val e) then (Ok e, w) else (Err EvidenceConflict, w)
    | None => queue_insert t b i w
    end
  end.
Proof.
  unfold queue_platform_event, sign_event, atomic, get_settings, gets, mbind, M_bind, result_bind,
    of_result, of_option, require, query_first, find_event, matches_signed. cbv beta iota zeta.
  destruct (_validate_payload (PInt t) p) as [[]|]; [|done].
  destruct (is_bytes32 (lowercase_identifier event_id) && _); [|done].
  destruct (canonical_bytes p) as [bytes|]; [|done].
  destruct (loads bytes) as [n|]; [|done].
  destruct (payload_hash n) as [digest|]; [|done].
  match goal with |- context [platform_sign_evidence ?a ?b ?c ?d ?e] =>
    destruct (platform_sign_evidence a b c d e) as [sig|]; [|done] end.
  destruct (platform_signer_address (w_settings w)) as [addr|]; [|done].
  destruct (canonical_bytes n) as [canon|]; [|done]. simpl.
  match goal with |- context [first ?P ?T] => destruct (first P T) as [e|] end.
  - by destruct (same_identity _ _ _ _ _ _ _).
  - unfold queue_insert, try_except, in_aborted_transaction, raise. simpl.
    match goal with |- context [evidence_insert_platform_outbox_event ?a ?b ?c ?d ?e ?f ?g ?h ?i ?j ?k] =>
      destruct (evidence_insert_platform_outbox_event a b c d e f g h i j k) as [[o|[]] w'] end; done.
Qed.

(** A signed event is well formed, and its hash is that of the payload. *)
Lemma sign_event_Ok st event_id t p prev i :
  sign_event st event_id t p prev = Ok i ->
  _validate_payload (PInt t) p = Ok tt /\
  si_event_id i = py_lower event_id /\ si_previous i = py_lower prev /\
  is_bytes32 (si_event_id i) = true /\ is_bytes32 (si_previous i) = true /\
  canonical_bytes p = Ok (si_canonical i) /\ loads (si_canonical i) = Some (si_payload i) /\
  canonical_bytes (si_payload i) = Ok (si_canonical i) /\ si_digest i = sha256 (si_canonical i) /\
  platform_sign_evidence st (si_event_id i) t ("0x" +:+ si_digest i) (si_previous i)
    = Ok (si_signature i) /\
  platform_signer_address st = Ok (si_signer i).
Proof.
  unfold sign_event. intros H.
  apply result_bind_Ok in H as ([] & Hv & H). apply result_bind_Ok in H as ([] & Hb & H).
  destruct (is_bytes32 _ && is_bytes32 _) eqn:E; [|done]. apply andb_true_iff in E as [He Hp].
  apply result_bind_Ok in H as (bytes & Hbytes & H). apply result_bind_Ok in H as (n & Hn & H).
  destruct (loads bytes) as [n'|] eqn:Hl; [|done]. injection Hn as ->.
  apply result_bind_Ok in H as (digest & Hd & H). apply result_bind_Ok in H as (sig & Hs & H).
  apply result_bind_Ok in H as (addr & Ha & H). apply result_bind_Ok in H as (canon & Hc & H).
  injection H as <-. simpl.
  destruct (canonical_bytes_Ok p bytes Hbytes) as (m & Hm & Hmn & ->).
  rewrite loads_dumps in Hl by done. injection Hl as <-.
  rewrite (canonical_container p m Hm _ Hbytes) in Hc. unfold dumps in Hc at 1.
  rewrite sort_keys_idem in Hc by done. injection Hc as <-.
  unfold payload_hash in Hd. rewrite (canonical_container p m Hm _ Hbytes) in Hd.
  unfold dumps in Hd. rewrite sort_keys_idem in Hd by done. simpl in Hd. injection Hd as <-.
  change (write (sort_keys m)) with (dumps m) in *.
  repeat split; try done.
  - rewrite loads_dumps by done. done.
  - rewrite (canonical_container p m Hm _ Hbytes). unfold dumps. by rewrite sort_keys_idem.
Qed.
Lemma find_event_None id w :
  find_event id w = None <-> forall k r, rows (outbox w) !! k = Some r -> ev_event_id r <> id.
Proof.
  unfold find_event. rewrite first_None. split; intros H k r Hk; specialize (H k r Hk).
  - by apply bool_decide_eq_false in H.
  - by apply bool_decide_eq_false.
Qed.

Lemma queue_insert_Ok t b i w o w' :
  queue_insert t b i w = (Ok o, w') ->
  o = Obj (next (outbox w)) (new_event (w_now w) t b i) /\
  w' = w <| outbox ::= insert_row (new_event (w_now w) t b i) |> /\
  find_event (si_event_id i) w = None.
Proof.
  unfold queue_insert.
  destruct (evidence_insert_platform_outbox_event _ _ _ _ _ _ _ _ _ _ _) as [[o'|[]] w1] eqn:E;
    try done. intros [= <- <-].
  unfold evidence_insert_platform_outbox_event, insert_outbox in E. inv_db.
  split; [done|]. split; [done|]. apply find_event_None. intros k r Hk.
  apply (bool_decide_eq_false_1 _). match goal with H : _ |- _ => exact (H k r Hk) end.
Qed.

Lemma queue_insert_total st t b i w event_id p prev :
  w_settings w = st -> sign_event st event_id t p prev = Ok i ->
  st_write_secret st = st_db_secret st -> find_event (si_event_id i) w = None ->
  queue_insert t b i w = (Ok (Obj (next (outbox w)) (new_event (w_now w) t b i)),
    w <| outbox ::= insert_row (new_event (w_now w) t b i) |>).
Proof.
  intros Hst Hi Hsec Hno.
  apply sign_event_Ok in Hi as (Hv & _ & _ & Hid & Hprev & _ & Hl & _ & Hd & _ & Ha).
  assert (1 <= t <= 11) as Ht.
  { apply validate_payload_Ok in Hv as (req & opt & d & Hs & _).
    unfold EVIDENCE_PAYLOAD_SCHEMAS in Hs.
    destruct (Z.eqb_spec t PROPOSAL_CREATED) as [->|]; [done|].
    destruct (Z.eqb_spec t SETTLEMENT) as [->|]; [done|]. done. }
  assert (truthy (si_signer i) = true) as Hs.
  { unfold platform_signer_address in Ha. apply result_bind_Ok in Ha as (key & _ & [= <-]).
    apply account_address_nonempty. }
  assert (exists_ (fun o => o~>ev_event_id ==? si_event_id i) (outbox w) = false) as Hex.
  { apply exists_false. intros k r Hk. apply bool_decide_eq_false.
    by apply (proj1 (find_event_None _ _) Hno k r). }
  unfold queue_insert, evidence_insert_platform_outbox_event, insert_outbox, insert_unless,
    query_exists, create, get_settings, timezone_now, require, gets, modify, mbind, M_bind.
  rewrite Hst, Hl, Hsec, !bool_decide_eq_true_2 by done. simpl.
  rewrite Hs, Hid, Hprev, Hd, sha256_hex. unfold slen. rewrite sha256_length. simpl.
  replace ((1 <=? t) && (t <=? 11)) with true by lia. rewrite Hex. unfold new_event.
  by rewrite Hd.
Qed.

(** The signed columns of an event, spelled out. *)
Lemma matches_signed_Ok t i e :
  matches_signed t i e = true <->
  ev_event_type e = t /\ ev_payload e = si_payload i /\ ev_payload_hash e = si_digest i /\
  ev_previous_hash e = si_previous i /\ ev_signature e = si_signature i /\
  ev_signer_address e = si_signer i.
Proof.
  unfold matches_signed, same_identity. rewrite !andb_true_iff, !bool_decide_eq_true, Z.eqb_eq. tauto.
Qed.

(** A successful queue call: what it signed, and the one row it may have written. *)
Lemma queue_run event_id t p prev b w o w' :
  queue_platform_event event_id t p prev b w = (Ok o, w') ->
  exists i, sign_event (w_settings w) event_id t p prev = Ok i /\
    matches_signed t i (val o) = true /\
    (w' = w /\ find_event (si_event_id i) w = Some o \/
     find_event (si_event_id i) w = None /\ o = Obj (next (outbox w)) (new_event (w_now w) t b i) /\
     w' = w <| outbox ::= insert_row (val o) |>).
Proof.
  rewrite queue_unfold. destruct (sign_event _ _ _ _ _) as [i|]; [|done]. intros H.
  exists i. split; [done|]. destruct (find_event _ _) as [e|] eqn:Hf.
  - destruct (matches_signed t i (val e)) eqn:E; [|done]. injection H as <- <-. eauto.
  - apply queue_insert_Ok in H as (-> & -> & _). split; [|right; done].
    by apply matches_signed_Ok.
Qed.

Lemma queue_Err event_id t p prev b w e w' :
  queue_platform_event event_id t p prev b w = (Err e, w') -> w' = w.
Proof.
  rewrite queue_unfold. destruct (sign_event _ _ _ _ _) as [i|]; [|by intros [= _ <-]].
  destruct (find_event _ _) as [o|]; [destruct (matches_signed _ _ _); by intros [= _ <-]|].
  unfold queue_insert. destruct (evidence_insert_platform_outbox_event _ _ _ _ _ _ _ _ _ _ _) as [[?|[]] ?];
    by intros [= _ <-].
Qed.
End QueueFacts.

(** ** Properties *)

Section Properties.
Context {CR : Crypto} {ETH : EthAccount}.

(** The anchoring schema is exactly what is documented: a payload is accepted for
    an event type iff the type is a proposal version or a settlement, the payload is a
    dictionary with string keys, every required field is there, and every field is in
    the schema with a value of its shape. *)
Theorem validate_payload_exact t p :
  _validate_payload (PInt t) p = Ok tt <->
  exists required optional d, EVIDENCE_PAYLOAD_SCHEMAS t = Some (required, optional) /\
    p = PDict d /\ string_keys d = true /\
    (forall k sh, (k, sh) ∈ required -> has_key k d = true) /\
    (forall kv, kv ∈ d -> exists sh, field_shape (key_str kv.1) (required ++ optional) = Some sh /\
      has_shape sh kv.2 = true).
Proof.
  rewrite validate_payload_Ok. do 3 f_equiv; intros. repeat f_equiv.
  rewrite forallb_forall. unfold valid_field. split.
  - intros H kv Hin%list_elem_of_In. specialize (H kv Hin).
    destruct (field_shape _ _) as [sh|]; [eauto|done].
  - intros H kv Hin%list_elem_of_In. destruct (H kv Hin) as (sh & -> & Hsh). done.
Qed.

(** Queueing succeeds on valid input: with a valid payload, bytes32 identifiers, a
    configured signer and the database's secret, an unused event id is inserted as
    [PENDING] with no attempts, and nothing else in the database changes. *)
Theorem queue_platform_event_total event_id t p prev b w s :
  _validate_payload (PInt t) p = Ok tt -> canonical_bytes p = Ok s ->
  is_bytes32 (py_lower event_id) = true -> is_bytes32 (py_lower prev) = true ->
  truthy (st_signer_key (w_settings w)) = true ->
  st_write_secret (w_settings w) = st_db_secret (w_settings w) ->
  find_event (py_lower event_id) w = None ->
  exists r, queue_platform_event event_id t p prev b w =
    (Ok (Obj (next (outbox w)) r), w <| outbox ::= insert_row r |>) /\
  ev_event_id r = py_lower event_id /\ ev_previous_hash r = py_lower prev /\
  ev_event_type r = t /\ ev_building r = b /\ ev_status r = PENDING /\ ev_attempts r = 0 /\
  ev_payload_hash r = sha256 s.
Proof.
  intros Hv Hs Hid Hprev Hkey Hsec Hno.
  destruct (canonical_bytes_Ok p s Hs) as (n & Hn & Hnn & ->).
  pose proof (canonical_container p n Hn _ Hs) as Hc.
  assert (exists i, sign_event (w_settings w) event_id t p prev = Ok i) as [i Hi].
  { unfold sign_event, lowercase_identifier. rewrite Hv, Hid, Hprev, Hs. cbn [mbind result_bind].
    rewrite loads_dumps by done. cbn [mbind result_bind]. unfold payload_hash. rewrite Hc.
    cbn [mbind result_bind]. unfold platform_sign_evidence, platform_signer_address, _platform_account.
    rewrite Hkey. unfold starts_with. rewrite drop_prefix_app. cbn [mbind result_bind].
    assert (1 <=? t = true /\ t <? 12 = true) as [Ht1 Ht2].
    { apply validate_payload_Ok in Hv as (req & opt & d & Hsc & _).
      unfold EVIDENCE_PAYLOAD_SCHEMAS in Hsc.
      destruct (Z.eqb_spec t PROPOSAL_CREATED) as [->|]; [done|].
      destruct (Z.eqb_spec t SETTLEMENT) as [->|]; [done|]. done. }
    unfold build_evidence_typed_data, bytes32_arg. rewrite Hid, Hprev.
    assert (forall x, is_bytes32 ("0x" +:+ sha256 x) = true) as Hb32.
    { intros x. unfold is_bytes32. rewrite drop_prefix_app, sha256_hex. unfold slen.
      by rewrite sha256_length. }
    rewrite Hb32, Ht1, Ht2. cbn [andb mbind result_bind].
    rewrite (proj2 (signature_text _ (sign_typed_data_bytes _ _))).
    rewrite normalize_canonical by auto using sign_typed_data_length, sign_typed_data_canonical.
    cbn [mbind result_bind]. eauto. }
  rewrite queue_unfold, Hi.
  pose proof (sign_event_Ok _ _ _ _ _ _ Hi) as (_ & Hide & Hpre & _ & _ & Hcan & _ & _ & Hd & _).
  rewrite Hide, Hno. rewrite (queue_insert_total _ _ _ _ _ _ _ _ eq_refl Hi Hsec) by by rewrite Hide.
  eexists. split; [done|]. unfold new_event. simpl. repeat split; try done.
  rewrite Hd. congruence.
Qed.

(** C4: what is anchored commits to what is stored: the event a queue call returns
    carries the payload's normal form, its hash is the SHA-256 of that form's
    canonical bytes, which are the canonical bytes of the argument, and its signature
    recovers to its signer's address. *)
Theorem queue_stores_commitment event_id t p prev b w o w' :
  queue_platform_event event_id t p prev b w = (Ok o, w') ->
  exists bytes, canonical_bytes p = Ok bytes /\ loads bytes = Some o~>ev_payload /\
    payload_hash o~>ev_payload = Ok o~>ev_payload_hash /\ o~>ev_payload_hash = sha256 bytes /\
    o~>ev_event_type = t /\ o~>ev_previous_hash = py_lower prev /\
    exists td, build_evidence_typed_data (w_settings w) (PStr (py_lower event_id)) (PInt t)
        (PStr ("0x" +:+ o~>ev_payload_hash)) (PStr o~>ev_previous_hash) = Ok td /\
      recover_signer td (SigStr o~>ev_signature) = Ok o~>ev_signer_address.
Proof.
  intros (i & Hi & Hm & _)%queue_run.
  apply sign_event_Ok in Hi as (Hv & Hide & Hpre & Hid & Hprev & Hc & Hl & Hc' & Hd & Hsig & Ha).
  apply matches_signed_Ok in Hm as (-> & -> & -> & -> & -> & ->).
  exists (si_canonical i). repeat split; try done.
  - unfold payload_hash. rewrite Hc'. simpl. by rewrite Hd.
  - rewrite <- Hide. pose proof Hsig as Hsig'. unfold platform_sign_evidence in Hsig.
    unfold starts_with in Hsig. rewrite drop_prefix_app in Hsig.
    apply result_bind_Ok in Hsig as (td & Htd & _). exists td. split; [done|].
    rewrite <- Ha. apply (recover_platform _ _ _ _ _ _ _ Hsig').
    unfold starts_with. by rewrite drop_prefix_app.
Qed.

(** Queueing an event id again is idempotent or refused, and never writes.  If the
    id is taken, the call returns the stored event when the six signed columns agree
    and raises [EvidenceConflict] otherwise, whatever the outbox worker did to the
    event's delivery columns meanwhile. *)
Theorem queue_replay event_id t p prev b w o w1 w2 e2 q prev2 b2 :
  queue_platform_event event_id t p prev b w = (Ok o, w1) ->
  w_settings w2 = w_settings w -> find_event (py_lower event_id) w2 = Some e2 ->
  matches_signed t (SignedEvent (py_lower event_id) o~>ev_previous_hash o~>ev_payload
    o~>ev_payload_hash o~>ev_signature o~>ev_signer_address EmptyString) (val e2) = true ->
  queue_platform_event event_id t p prev b2 w2 = (Ok e2, w2) /\
  (forall i, sign_event (w_settings w) event_id t q prev2 = Ok i -> si_payload i <> o~>ev_payload ->
    queue_platform_event event_id t q prev2 b2 w2 = (Err EvidenceConflict, w2)).
Proof.
  intros (i & Hi & Hmo & _)%queue_run Hst Hf Hm. rewrite queue_unfold, Hst.
  pose proof (sign_event_Ok _ _ _ _ _ _ Hi) as (_ & Hide & Hpre & _). split.
  - rewrite Hi, Hide, Hf. assert (matches_signed t i (val e2) = true) as ->; [|done].
    apply matches_signed_Ok in Hmo, Hm. apply matches_signed_Ok. cbn in Hm. naive_solver congruence.
  - intros j Hj Hne. rewrite queue_unfold, Hst, Hj.
    pose proof (sign_event_Ok _ _ _ _ _ _ Hj) as (_ & -> & _). rewrite Hf.
    destruct (matches_signed t j (val e2)) eqn:E; [|done]. exfalso. apply Hne.
    apply matches_signed_Ok in E, Hm. cbn in Hm. naive_solver congruence.
Qed.
End Properties.

(** ** Witnesses *)

Definition demo_event_payload : pyval := PDict
  [(PStr "proposal_id", PInt 7); (PStr "proposal_version", PInt 1); (PStr "record_id", PInt 7);
   (PStr "amount_vnd", PInt 5000000); (PStr "proposal_snapshot_hash", PStr (hex_digits 64 1));
   (PStr "quotation_hash", PStr (hex_digits 64 2))].
Definition demo_outbox_world : world := empty_world demo_chain (days 20000).
Definition demo_event_id : string := "0x" +:+ py_upper (hex_digits 64 171).
Definition demo_queue (p : pyval) : DB (obj outbox_row) :=
  queue_platform_event (CR := demo_crypto) (ETH := demo_account) demo_event_id PROPOSAL_CREATED p
    (demo_id 0) 1.
Definition demo_event : obj outbox_row :=
  got (Obj 0 (Outbox "" 0 PNone "" "" "" "" 0 PENDING 0 None None None "" None [] "" None None
      None None 0)) (demo_queue demo_event_payload demo_outbox_world).

Lemma queue_platform_event_total_witness :
  exists r, queue_platform_event (CR := demo_crypto) (ETH := demo_account) demo_event_id
    PROPOSAL_CREATED demo_event_payload (demo_id 0) 1 demo_outbox_world =
    (Ok (Obj (next (outbox demo_outbox_world)) r), demo_outbox_world <| outbox ::= insert_row r |>) /\
  ev_event_id r = py_lower demo_event_id /\ ev_previous_hash r = py_lower (demo_id 0) /\
  ev_event_type r = PROPOSAL_CREATED /\ ev_building r = 1 /\ ev_status r = PENDING /\
  ev_attempts r = 0 /\
  ev_payload_hash r = sha256 (Crypto := demo_crypto) (dumps demo_event_payload).
Proof.
  refine (queue_platform_event_total (CR := demo_crypto) (ETH := demo_account) demo_event_id
    PROPOSAL_CREATED demo_event_payload (demo_id 0) 1 demo_outbox_world (dumps demo_event_payload)
    _ _ _ _ _ _ _); vm_compute; reflexivity.
Defined.

Lemma queue_stores_commitment_witness :
  exists bytes, canonical_bytes (CR := demo_crypto) demo_event_payload = Ok bytes /\
    loads bytes = Some demo_event~>ev_payload /\
    payload_hash (CR := demo_crypto) demo_event~>ev_payload = Ok demo_event~>ev_payload_hash /\
    demo_event~>ev_payload_hash = sha256 (Crypto := demo_crypto) bytes /\
    demo_event~>ev_event_type = PROPOSAL_CREATED /\ demo_event~>ev_previous_hash = py_lower (demo_id 0) /\
    exists td, build_evidence_typed_data (w_settings demo_outbox_world)
        (PStr (py_lower demo_event_id)) (PInt PROPOSAL_CREATED)
        (PStr ("0x" +:+ demo_event~>ev_payload_hash)) (PStr demo_event~>ev_previous_hash) = Ok td /\
      recover_signer (ETH := demo_account) td (SigStr demo_event~>ev_signature)
        = Ok demo_event~>ev_signer_address.
Proof.
  refine (queue_stores_commitment (CR := demo_crypto) (ETH := demo_account) demo_event_id
    PROPOSAL_CREATED demo_event_payload (demo_id 0) 1 demo_outbox_world demo_event
    (demo_queue demo_event_payload demo_outbox_world).2 _).
  vm_compute. reflexivity.
Defined.

Definition demo_queued : world := (demo_queue demo_event_payload demo_outbox_world).2.

Lemma queue_replay_witness :
  queue_platform_event (CR := demo_crypto) (ETH := demo_account) demo_event_id
    PROPOSAL_CREATED demo_event_payload (demo_id 0) 1 demo_queued = (Ok demo_event, demo_queued).
Proof.
  refine (proj1 (queue_replay (CR := demo_crypto) (ETH := demo_account) demo_event_id
    PROPOSAL_CREATED demo_event_payload (demo_id 0) 1 demo_outbox_world demo_event demo_queued
    demo_queued demo_event PNone EmptyString 1 _ _ _ _)); vm_compute; reflexivity.
Defined.
