(* ===== verification/OutboxWorker.v ===== *)
(** * OutboxWorker: delivering signed events to the chain

    [evidence/worker.py] and the client calls of [evidence/chain.py].  The chain is
    reached through [rpc], the answers of the node during one call. *)

From S2P Require Import Prelude Table PyStr Schema Store Accounts Signatures Evidence.
Open Scope Z_scope.

Definition LEASE_SECONDS : Z := 180.
Definition RETRY_BASE_SECONDS : Z := 30.
Definition RETRY_MAX_SECONDS : Z := 3600.

Definition _retry_delay (attempts : Z) : Z :=
  let exponent := Z.max (attempts - 1) 0 in
  seconds (Z.min (RETRY_BASE_SECONDS * 2 ^ exponent) RETRY_MAX_SECONDS).

Definition _normalize_payload_hash (value : string) : string := removeprefix "0x" (py_lower value).

Record chain_record := ChainRecord {
  cr_payload_hash : string; cr_previous_hash : string; cr_event_type : Z; cr_signer : string;
  cr_recorded_at : Z }.

Definition receipt_dict := list (string * pyval).

(** What the node answers: [records(event_id)] as hexadecimal text, sending the
    [recordEvidence] transaction of an event, and waiting for a receipt. *)
Record rpc := Rpc {
  rpc_records : string -> result chain_record;
  rpc_send : outbox_row -> result string;
  rpc_wait : string -> result receipt_dict;
  rpc_relayer_key : string }.

(** [str(exc)] *)
Definition exn_str (e : exn) : string :=
  match e with
  | ValidationError m | PermissionDenied m | ValueError m | TypeError m | ClientError m
  | DatabaseError m => m
  | IntegrityError c => c
  | _ => "error"
  end.

(** [int(v)] on a JSON-safe value. *)
Definition py_int (v : pyval) : result Z :=
  match v with
  | PInt z => Ok z
  | PBool b => Ok (if b then 1 else 0)
  | PStr s => match parse_int s with Some z => Ok z | None => Err (ValueError "int") end
  | _ => Err (TypeError "int")
  end.

Fixpoint dict_get (k : string) (d : receipt_dict) : option pyval :=
  match d with
  | [] => None
  | (k', v) :: d => if String.eqb k k' then Some v else dict_get k d
  end.

Section Worker.
Context {CR : Crypto} {ETH : EthAccount}.

(** ** The client *)

Definition _normalize_bytes32 (value : string) : string :=
  if starts_with "0x" value then py_lower value else "0x" +:+ py_lower value.

Definition find (c : rpc) (e : obj outbox_row) : result (option chain_record) :=
  r ← rpc_records c e~>ev_event_id;
  Ok (if cr_recorded_at r =? 0 then None
      else Some (ChainRecord (_normalize_bytes32 (cr_payload_hash r))
        (_normalize_bytes32 (cr_previous_hash r)) (cr_event_type r)
        (to_checksum_address (cr_signer r)) (cr_recorded_at r))).

Definition submit (c : rpc) (e : obj outbox_row) : DB (string * receipt_dict) :=
  require (truthy (py_strip (rpc_relayer_key c)))
    (ClientError "BLOCKCHAIN_RELAYER_PRIVATE_KEY is not configured.") ;;
  tx_hash ← of_result (rpc_send c (val e));
  (if truthy e~>ev_transaction_hash then mret tt
   else save outbox (pk e) (fun r => r <| ev_transaction_hash := tx_hash |>)) ;;
  receipt ← of_result (rpc_wait c tx_hash);
  status ← of_result (py_int (default (PInt 0) (dict_get "status" receipt)));
  require (status =? 1) (ClientError ("recordEvidence receipt status " +:+ zstr status +:+ " for " +:+ tx_hash)) ;;
  mret (tx_hash, receipt).

Definition _record_matches_event (r : chain_record) (e : outbox_row) : bool :=
  (_normalize_payload_hash (cr_payload_hash r) ==? _normalize_payload_hash (ev_payload_hash e))
  && (py_lower (cr_previous_hash r) ==? py_lower (ev_previous_hash e))
  && (cr_event_type r =? ev_event_type e)
  && (to_checksum_address (cr_signer r) ==? to_checksum_address (ev_signer_address e)).

(** ** Claiming *)

Definition is_due (now : Z) (e : outbox_row) : bool :=
  match ev_status e with
  | PENDING => match ev_next_attempt_at e with None => true | Some t => t <=? now end
  | SUBMITTED => match ev_lease_expires_at e with None => false | Some t => t <=? now end
  | _ => false
  end.

Definition claimed_row (now : Z) (e : outbox_row) : outbox_row :=
  e <| ev_status := SUBMITTED |> <| ev_lease_expires_at := Some (now + seconds LEASE_SECONDS) |>
    <| ev_submitted_at := Some (default now (ev_submitted_at e)) |>
    <| ev_last_attempt_at := Some now |> <| ev_last_error := "" |>.

Definition claim (now : Z) (event : option (obj outbox_row)) : DB (option (obj outbox_row)) :=
  match event with
  | None => mret None
  | Some e =>
    save outbox (pk e) (claimed_row now) ;;
    mret (Some (Obj (pk e) (claimed_row now (val e))))
  end.

Definition _claim_outbox_event (event_pk : Z) : DB (option (obj outbox_row)) :=
  now ← timezone_now;
  atomic (
    event ← query_first outbox (fun o => (pk o ==? event_pk) && is_due now (val o));
    claim now event).

Definition claim_next_due_outbox_event : DB (option (obj outbox_row)) :=
  now ← timezone_now;
  atomic (
    due ← query outbox (fun o => is_due now (val o));
    claim now (head (order_by (fun o => o~>ev_created_at) due))).

(** ** Marking *)

Definition mark (pk_ : Z) (f : outbox_row -> outbox_row) : DB (obj outbox_row) :=
  atomic (
    e ← get_row outbox "BlockchainOutboxEvent" pk_;
    save outbox pk_ f ;;
    mret (Obj pk_ (f (val e)))).

Definition confirmed_row (now : Z) (tx : string) (receipt : receipt_dict)
    (status block : option Z) (recorded_at : Z) (e : outbox_row) : outbox_row :=
  let e := e <| ev_status := CONFIRMED |> <| ev_lease_expires_at := None |>
    <| ev_confirmed_at := Some now |> <| ev_last_error := "" |> in
  let e := if truthy tx then e <| ev_transaction_hash := tx |> else e in
  let e := match receipt with [] => e | _ => e <| ev_receipt := receipt |> end in
  let e := match status with Some s => e <| ev_receipt_status := Some s |> | None => e end in
  let e := match block with Some b => e <| ev_chain_confirmed_block := Some b |> | None => e end in
  if recorded_at =? 0 then e else e <| ev_chain_block_timestamp := Some (seconds recorded_at) |>.

(** [int(receipt[k])] when the receipt has [k]; [skip_none] for [.get(k) is not None]. *)
Definition receipt_int (k : string) (skip_none : bool) (receipt : receipt_dict) : result (option Z) :=
  match dict_get k receipt with
  | None => Ok None
  | Some PNone => if skip_none then Ok None else Err (TypeError "int")
  | Some v => z ← py_int v; Ok (Some z)
  end.

Definition _mark_confirmed (pk_ : Z) (tx : string) (receipt : receipt_dict) (recorded_at : Z) :
    DB (obj outbox_row) :=
  now ← timezone_now;
  status ← of_result (receipt_int "status" false receipt);
  block ← of_result (receipt_int "blockNumber" true receipt);
  mark pk_ (confirmed_row now tx receipt status block recorded_at).

Definition mismatch_row (r : chain_record) (e : outbox_row) : outbox_row :=
  e <| ev_status := MISMATCH |> <| ev_lease_expires_at := None |>
    <| ev_last_error := "On-chain record does not match outbox signed identity (payload="
         +:+ cr_payload_hash r +:+ ", previous=" +:+ cr_previous_hash r +:+ ", type="
         +:+ zstr (cr_event_type r) +:+ ", signer=" +:+ cr_signer r +:+ ")." |>.
Definition _mark_mismatch (pk_ : Z) (r : chain_record) : DB (obj outbox_row) :=
  mark pk_ (mismatch_row r).

Definition retry_row (now : Z) (error : exn) (e : outbox_row) : outbox_row :=
  let attempts := ev_attempts e + 1 in
  e <| ev_attempts := attempts |> <| ev_status := PENDING |> <| ev_lease_expires_at := None |>
    <| ev_next_attempt_at := Some (now + _retry_delay attempts) |>
    <| ev_last_attempt_at := Some now |> <| ev_last_error := py_take 2000 (exn_str error) |>.
Definition _mark_retry (pk_ : Z) (error : exn) : DB (obj outbox_row) :=
  now ← timezone_now; mark pk_ (retry_row now error).

Definition local_row (e : outbox_row) : outbox_row :=
  e <| ev_status := LOCAL |> <| ev_lease_expires_at := None |> <| ev_submitted_at := None |>
    <| ev_transaction_hash := "" |> <| ev_confirmed_at := None |> <| ev_last_error := "" |>.
Definition _mark_local (pk_ : Z) : DB (obj outbox_row) := mark pk_ local_row.

(** ** Processing *)

Definition _process_claimed_event (c : rpc) (claimed : obj outbox_row) : DB (obj outbox_row) :=
  st ← get_settings;
  if st_anchoring_disabled st then _mark_local (pk claimed)
  else
    match find c claimed with
    | Err exc => _mark_retry (pk claimed) exc
    | Ok (Some record) =>
      atomic (
        event ← get_row outbox "BlockchainOutboxEvent" (pk claimed);
        if _record_matches_event record (val event)
        then _mark_confirmed (pk claimed) event~>ev_transaction_hash [] (cr_recorded_at record)
        else _mark_mismatch (pk claimed) record)
    | Ok None =>
      sent ← try_except (r ← submit c claimed; mret (inl r)) (fun exc => mret (inr exc));
      match sent with
      | inr exc => _mark_retry (pk claimed) exc
      | inl (tx_hash, receipt) => atomic (_mark_confirmed (pk claimed) tx_hash receipt 0)
      end
    end.

Definition process_outbox_event (c : rpc) (event_id : Z) : DB (obj outbox_row) :=
  existing ← query_pk outbox event_id;
  match existing with
  | None => raise (DoesNotExist "BlockchainOutboxEvent")
  | Some e =>
    match e~>ev_status with
    | CONFIRMED =>
      st ← get_settings;
      if st_anchoring_disabled st then mret e
      else
        match find c e with
        | Err _ => mret e
        | Ok (Some record) =>
          if _record_matches_event record (val e) then mret e
          else atomic (_mark_mismatch (pk e) record)
        | Ok None => mret e
        end
    | MISMATCH | LOCAL => mret e
    | _ =>
      claimed ← _claim_outbox_event event_id;
      match claimed with
      | None => get_row outbox "BlockchainOutboxEvent" event_id
      | Some claimed => _process_claimed_event c claimed
      end
    end
  end.

(** [for _ in range(limit)]; the client answers per call. *)
Fixpoint process_due_outbox_events (c : rpc) (limit : nat) : DB (list (obj outbox_row)) :=
  match limit with
  | O => mret []
  | S limit =>
    claimed ← claim_next_due_outbox_event;
    match claimed with
    | None => mret []
    | Some e =>
      processed ← _process_claimed_event c e;
      rest ← process_due_outbox_events c limit;
      mret (processed :: rest)
    end
  end.

(** ** What delivery may change *)

Definition same_signed_columns (r r' : outbox_row) : Prop :=
  ev_event_id r' = ev_event_id r /\ ev_event_type r' = ev_event_type r /\
  ev_payload r' = ev_payload r /\ ev_payload_hash r' = ev_payload_hash r /\
  ev_previous_hash r' = ev_previous_hash r /\ ev_signature r' = ev_signature r /\
  ev_signer_address r' = ev_signer_address r /\ ev_building r' = ev_building r /\
  ev_created_at r' = ev_created_at r.

(** The transitions of delivery: an unsettled row may be claimed, retried and settled;
    a confirmed one may only be found mismatched; the others are final. *)
Definition may_become (s s' : outbox_status) : bool :=
  match s, s' with
  | PENDING, (PENDING | SUBMITTED | CONFIRMED | MISMATCH | LOCAL) => true
  | SUBMITTED, (PENDING | SUBMITTED | CONFIRMED | MISMATCH | LOCAL) => true
  | CONFIRMED, (CONFIRMED | MISMATCH) => true
  | _, _ => bool_decide (s = s')
  end.
Definition is_final (s : outbox_status) : bool :=
  match s with LOCAL | MISMATCH | FAILED => true | _ => false end.

Definition delivery_step (r r' : outbox_row) : Prop :=
  same_signed_columns r r' /\ may_become (ev_status r) (ev_status r') = true /\
  (is_final (ev_status r) = true -> r' = r) /\ ev_attempts r <= ev_attempts r'.
End Worker.

#[export] Instance delivery_step_preorder : PreOrder delivery_step.
Proof.
  split.
  - intros r. repeat split; try done. by destruct (ev_status r).
  - intros x y z (Hxy & Sxy & Fxy & Axy) (Hyz & Syz & Fyz & Ayz).
    unfold delivery_step, same_signed_columns in *. split; [naive_solver congruence|].
    split; [by destruct (ev_status x), (ev_status y), (ev_status z)|]. split; [|lia].
    intros Hf. rewrite (Fxy Hf) in *. auto.
Qed.

(** ** Facts *)

Section Facts.
Context {CR : Crypto} {ETH : EthAccount}.
Implicit Types (w : world) (c : rpc).

Notation keeps_outbox := (keeps (on outbox (evolves delivery_step))).

(** The row [k] is claimed: its status is [SUBMITTED]. *)
Definition claimed_in w (k : Z) : Prop :=
  forall r, rows (outbox w) !! k = Some r -> ev_status r = SUBMITTED.

Lemma due_unsettled now r : is_due now r = true -> ev_status r = PENDING \/ ev_status r = SUBMITTED.
Proof. unfold is_due. by destruct (ev_status r); auto. Qed.

Lemma claimed_row_step now r : is_due now r = true -> delivery_step r (claimed_row now r).
Proof.
  intros H%due_unsettled. unfold delivery_step, same_signed_columns.
  destruct r; simpl in *. destruct H as [->| ->]; simpl; repeat split; try done; lia.
Qed.

Lemma submitted_step r r' :
  ev_status r = SUBMITTED -> same_signed_columns r r' -> ev_attempts r <= ev_attempts r' ->
  may_become SUBMITTED (ev_status r') = true -> delivery_step r r'.
Proof. intros Hs Hid Ha Hb. unfold delivery_step. rewrite Hs. repeat split; try done; apply Hid. Qed.

Lemma retry_row_step now exc r : ev_status r = SUBMITTED -> delivery_step r (retry_row now exc r).
Proof. intros H. apply submitted_step; [done|repeat split|simpl; lia|done]. Qed.

Lemma local_row_step r : ev_status r = SUBMITTED -> delivery_step r (local_row r).
Proof. intros H. apply submitted_step; [done|repeat split|simpl; lia|done]. Qed.

Lemma confirmed_row_signed now tx rc s b t r :
  same_signed_columns r (confirmed_row now tx rc s b t r) /\
  ev_status (confirmed_row now tx rc s b t r) = CONFIRMED /\
  ev_attempts (confirmed_row now tx rc s b t r) = ev_attempts r.
Proof.
  unfold confirmed_row. destruct (truthy tx), rc, s, b, (t =? 0); repeat split.
Qed.

Lemma confirmed_row_step now tx rc s b t r :
  ev_status r = SUBMITTED -> delivery_step r (confirmed_row now tx rc s b t r).
Proof.
  intros H. destruct (confirmed_row_signed now tx rc s b t r) as (Hid & Hs & Ha).
  apply submitted_step; [done|done|lia|by rewrite Hs].
Qed.

Lemma mismatch_row_step rec r :
  ev_status r = SUBMITTED \/ ev_status r = CONFIRMED -> delivery_step r (mismatch_row rec r).
Proof.
  unfold delivery_step, same_signed_columns. destruct r; simpl in *.
  intros [->| ->]; simpl; repeat split; try done; lia.
Qed.

Lemma keeps_mark k f w :
  (forall r, rows (outbox w) !! k = Some r -> delivery_step r (f r)) -> keeps_outbox (mark k f) w.
Proof. intros Hf. unfold mark. keeps_db. inv_db. inv_query. auto. Qed.

Lemma keeps_claim_one now k w :
  (forall r, rows (outbox w) !! pk k = Some r -> r = val k) -> is_due now (val k) = true ->
  keeps_outbox (claim now (Some k)) w.
Proof.
  intros Hr Hd. unfold claim. keeps_db. apply claimed_row_step.
  match goal with H : rows _ !! _ = Some _ |- _ => by rewrite (Hr _ H) end.
Qed.

Lemma keeps_claim pk_ w : keeps_outbox (_claim_outbox_event pk_) w.
Proof.
  unfold _claim_outbox_event. keeps_db. inv_db.
  destruct (first _ _) as [o|] eqn:E; [|apply (keeps_ret _)]. inv_query. to_prop.
  apply keeps_claim_one; [intros; congruence|done].
Qed.

Lemma keeps_claim_next w : keeps_outbox claim_next_due_outbox_event w.
Proof.
  unfold claim_next_due_outbox_event. keeps_db. inv_db.
  destruct (head _) as [o|] eqn:E; [|apply (keeps_ret _)].
  apply head_Some_elem_of, elem_of_order_by, elem_of_select in E as [? ?].
  apply keeps_claim_one; [intros; congruence|done].
Qed.

(** Submission writes at most the transaction hash of the claimed row. *)
Lemma submit_state c e w :
  (submit c e w).2 = w \/
  exists tx, (submit c e w).2 = w <| outbox ::= update (pk e) (fun r => r <| ev_transaction_hash := tx |>) |>.
Proof.
  unfold submit, mbind, M_bind, require, of_result, save, modify, mret, M_ret.
  destruct (truthy (py_strip _)); [|by left].
  destruct (rpc_send c (val e)) as [tx|]; [|by left].
  destruct (truthy e~>ev_transaction_hash); [left|right; exists tx];
    (destruct (rpc_wait c tx) as [rc|]; [|done]; destruct (py_int _); [|done];
     destruct (_ =? 1); done).
Qed.

Lemma claimed_after_submit c e w :
  claimed_in w (pk e) -> claimed_in (submit c e w).2 (pk e).
Proof.
  intros Hc. destruct (submit_state c e w) as [->|(tx & ->)]; [done|].
  intros r. simpl. rewrite lookup_alter, decide_True by done.
  intros (r0 & H & ->)%fmap_Some. simpl. by apply Hc.
Qed.

Lemma keeps_submit_tx c e w : claimed_in w (pk e) -> keeps_outbox (submit c e) w.
Proof.
  intros Hc. unfold submit. keeps_db. inv_db.
  match goal with H : rows _ !! _ = Some _ |- _ => apply Hc in H as Hs end.
  apply submitted_step; [done|repeat split|simpl; lia|]. simpl. by rewrite Hs.
Qed.

(** Whatever the submission raised or returned, the row is still claimed. *)
Lemma claimed_after_try c e w (x : string * receipt_dict + exn) w' :
  claimed_in w (pk e) ->
  try_except (r ← submit c e; mret (inl r)) (fun exc => mret (inr exc)) w = (Ok x, w') ->
  claimed_in w' (pk e) /\
  match x with inl r => submit c e w = (Ok r, w') | inr exc => submit c e w = (Err exc, w') end.
Proof.
  intros Hc H. pose proof (claimed_after_submit c e w Hc) as Hs.
  unfold try_except, mbind, M_bind in H. destruct (submit c e w) as [[r|exc] w1];
    unfold mret, M_ret in H; by simplify_eq.
Qed.

Lemma keeps_process_claimed c e w :
  claimed_in w (pk e) -> keeps_outbox (_process_claimed_event c e) w.
Proof.
  intros Hc. unfold _process_claimed_event, _mark_local, _mark_confirmed, _mark_mismatch, _mark_retry.
  keeps_db; try (by apply keeps_submit_tx; inv_db);
    repeat match goal with
    | H : try_except _ _ _ = (Ok _, _) |- _ =>
      inv_db; apply claimed_after_try in H as [? _]; [|done]
    end; try (apply keeps_mark; intros r0 Hr0); inv_db;
    auto using local_row_step, retry_row_step, confirmed_row_step, mismatch_row_step.
Qed.

Lemma claim_result pk_ w e w' :
  _claim_outbox_event pk_ w = (Ok (Some e), w') -> pk e = pk_ /\
  exists e0, rows (outbox w) !! pk_ = Some e0 /\ is_due (w_now w) e0 = true /\
    val e = claimed_row (w_now w) e0 /\
    w' = w <| outbox ::= update pk_ (claimed_row (w_now w)) |>.
Proof.
  unfold _claim_outbox_event. intros H. inv_db. unfold claim in *.
  destruct (first _ _) as [o|] eqn:E; inv_db. inv_query. to_prop. simpl. subst. eauto 6.
Qed.

Lemma claim_next_result w e w' :
  claim_next_due_outbox_event w = (Ok (Some e), w') ->
  exists e0, rows (outbox w) !! pk e = Some e0 /\ is_due (w_now w) e0 = true /\
    val e = claimed_row (w_now w) e0 /\
    w' = w <| outbox ::= update (pk e) (claimed_row (w_now w)) |> /\
    Some (Obj (pk e) e0) = head (order_by (fun o => o~>ev_created_at)
      (select (fun o => is_due (w_now w) (val o)) (outbox w))).
Proof.
  unfold claim_next_due_outbox_event. intros H. inv_db. unfold claim in *.
  destruct (head _) as [o|] eqn:E; inv_db. pose proof E as E'.
  apply head_Some_elem_of, elem_of_order_by, elem_of_select in E' as [? ?]. simpl.
  exists (val o). repeat split; try done. by destruct o.
Qed.

Lemma claim_claimed pk_ w now :
  claimed_in (w <| outbox ::= update pk_ (claimed_row now) |>) pk_.
Proof.
  intros r. simpl. rewrite lookup_alter, decide_True by done.
  by intros (r0 & _ & ->)%fmap_Some.
Qed.

Lemma keeps_process c k w : keeps_outbox (process_outbox_event c k) w.
Proof.
  unfold process_outbox_event, _mark_mismatch.
  keeps_db; auto using keeps_claim; try (apply keeps_mark; intros r Hr);
    try (match goal with H : _claim_outbox_event _ _ = _ |- _ =>
      apply claim_result in H as (<- & e0 & _ & _ & _ & ->) end;
      apply keeps_process_claimed, claim_claimed).
  inv_db. inv_query. apply mismatch_row_step. right. congruence.
Qed.

Lemma keeps_process_due c limit w : keeps_outbox (process_due_outbox_events c limit) w.
Proof.
  revert w. induction limit as [|limit IH]; intros w; simpl; keeps_db; auto using keeps_claim_next.
  match goal with H : claim_next_due_outbox_event _ = _ |- _ =>
    apply claim_next_result in H as (e0 & _ & _ & _ & -> & _) end.
  apply keeps_process_claimed, claim_claimed.
Qed.

(** A claimed row is not due before its lease expires. *)
Lemma claimed_not_due now r t : t < now + seconds LEASE_SECONDS -> is_due t (claimed_row now r) = false.
Proof. intros H. unfold is_due. simpl. by apply Z.leb_gt. Qed.

Lemma local_not_due now r : is_due now (local_row r) = false.
Proof. done. Qed.

(** One iteration with anchoring disabled: the oldest due row is settled as local. *)
Definition settled_locally now (e : outbox_row) : outbox_row := local_row (claimed_row now e).

Lemma settle_one c w e w1 :
  st_anchoring_disabled (w_settings w) = true ->
  claim_next_due_outbox_event w = (Ok (Some e), w1) ->
  exists e0, rows (outbox w) !! pk e = Some e0 /\ is_due (w_now w) e0 = true /\
    _process_claimed_event c e w1 =
    (Ok (Obj (pk e) (settled_locally (w_now w) e0)),
     w <| outbox ::= update (pk e) (settled_locally (w_now w)) |>).
Proof.
  intros Hst H. apply claim_next_result in H as (e0 & Hr & Hd & Hv & -> & _).
  exists e0. split; [done|]. split; [done|].
  unfold _process_claimed_event, get_settings, gets, mbind, M_bind. simpl. rewrite Hst.
  unfold _mark_local, mark, atomic, get_row, mbind, M_bind, gets, of_option, save, modify.
  change (outbox (w <| outbox ::= update (pk e) (claimed_row (w_now w)) |>))
    with (update (pk e) (claimed_row (w_now w)) (outbox w)).
  assert (Table.find (pk e) (outbox w) = Some (Obj (pk e) e0)) as Hf by by apply find_Some.
  rewrite find_update, Hf. simpl. unfold updated. rewrite decide_True by done. simpl.
  unfold mret, M_ret, set. f_equal. simpl. by rewrite update_update.
Qed.
End Facts.

Section Confirmation.
Context {CR : Crypto} {ETH : EthAccount}.

Lemma mark_Ok k f w e w' :
  mark k f w = (Ok e, w') -> exists r, rows (outbox w) !! k = Some r /\ e = Obj k (f r).
Proof. unfold mark. intros H. inv_db. inv_query. eauto. Qed.

Lemma submit_Ok c e w tx receipt w' :
  submit c e w = (Ok (tx, receipt), w') ->
  rpc_send c (val e) = Ok tx /\ rpc_wait c tx = Ok receipt /\
  py_int (default (PInt 0) (dict_get "status" receipt)) = Ok 1.
Proof.
  unfold submit. intros H. inv_db.
  repeat match goal with H : (_ =? _) = true |- _ => apply Z.eqb_eq in H; subst end. done.
Qed.

(** The evidence on which a claimed row may be confirmed. *)
Definition evidence_for (c : rpc) (e : obj outbox_row) : Prop :=
  (exists rec, find c e = Ok (Some rec) /\ _record_matches_event rec (val e) = true) \/
  (find c e = Ok None /\
   exists tx receipt, rpc_send c (val e) = Ok tx /\ rpc_wait c tx = Ok receipt /\
     py_int (default (PInt 0) (dict_get "status" receipt)) = Ok 1).

Lemma claimed_confirmed c e w e' w' :
  rows (outbox w) !! pk e = Some (val e) ->
  _process_claimed_event c e w = (Ok e', w') -> ev_status (val e') = CONFIRMED ->
  st_anchoring_disabled (w_settings w) = false /\ evidence_for c e.
Proof.
  intros Hrow H He. unfold _process_claimed_event, _mark_local, _mark_mismatch, _mark_retry,
    _mark_confirmed in H. inv_db.
  match goal with H : _ = (Ok e', _) |- _ => rename H into Hrun end.
  destruct (st_anchoring_disabled _); [apply mark_Ok in Hrun as (r & _ & ->); done|].
  split; [done|]. unfold evidence_for.
  destruct (find c e) as [[rec|]|exc] eqn:Hf.
  - left. exists rec. split; [done|]. inv_db. inv_query.
    destruct (_record_matches_event rec (val x)) eqn:Hm; [congruence|].
    match goal with H : mark _ _ _ = _ |- _ => apply mark_Ok in H as (r & _ & ->) end. done.
  - right. split; [done|]. inv_db.
    match goal with H : try_except _ _ _ = _ |- _ => rename H into Ht end.
    unfold try_except, mbind, M_bind in Ht.
    destruct (submit c e _) as [[[tx rc]|exc] w1] eqn:Hs in Ht; unfold mret, M_ret in Ht; simplify_eq.
    + apply submit_Ok in Hs as (? & ? & ?). eauto.
    + inv_db. match goal with H : mark _ _ _ = _ |- _ => apply mark_Ok in H as (r & _ & ->) end. done.
  - inv_db. match goal with H : mark _ _ _ = _ |- _ => apply mark_Ok in H as (r & _ & ->) end. done.
Qed.
Lemma claimed_branch_confirmed c o w e w' :
  (claimed ← _claim_outbox_event (pk o);
   match claimed with
   | None => get_row outbox "BlockchainOutboxEvent" (pk o)
   | Some claimed => _process_claimed_event c claimed
   end) w = (Ok e, w') ->
  ev_status (val e) = CONFIRMED -> rows (outbox w) !! pk o = Some (val o) ->
  ev_status (val o) <> CONFIRMED ->
  st_anchoring_disabled (w_settings w) = false /\
  evidence_for c (Obj (pk o) (claimed_row (w_now w) (val o))).
Proof.
  intros H He Hrow Hne. inv_db.
  match goal with H : _claim_outbox_event _ _ = (Ok ?x, _) |- _ => rename H into Hc; destruct x as [e1|] end.
  - apply claim_result in Hc as (Hpk & e0 & He0 & _ & Hv & ->).
    destruct e1 as [k1 v1]. simpl in Hpk, Hv. subst. rewrite Hrow in He0. injection He0 as <-.
    match goal with H : _process_claimed_event _ _ _ = _ |- _ => apply claimed_confirmed in H end;
      [done| |done].
    simpl. by rewrite lookup_alter, decide_True, Hrow.
  - inv_db. inv_query.
    assert (x0 = w) as -> by (unfold _claim_outbox_event, claim in Hc; inv_db; by destruct (first _ _); inv_db).
    congruence.
Qed.

Definition due_now (w : world) : list (obj outbox_row) :=
  select (fun o => is_due (w_now w) (val o)) (outbox w).

Lemma claim_next_none w w1 :
  claim_next_due_outbox_event w = (Ok None, w1) -> w1 = w /\ due_now w = [].
Proof.
  unfold claim_next_due_outbox_event. intros H. inv_db. unfold claim in *.
  destruct (head _) as [o|] eqn:Hh; inv_db. split; [done|]. unfold due_now.
  destruct (select _ _) as [|o l]; [done|].
  assert (o ∈ order_by (fun o => o~>ev_created_at) (o :: l)) as Hin
    by (apply elem_of_order_by; left).
  destruct (order_by _ _); [by apply not_elem_of_nil in Hin|done].
Qed.

Lemma claim_next_no_raise w exc w1 : claim_next_due_outbox_event w <> (Err exc, w1).
Proof.
  unfold claim_next_due_outbox_event, atomic, query, timezone_now, gets, claim, save, modify, mbind,
    M_bind. by destruct (head _).
Qed.

Lemma due_nil_rows w k :
  due_now w = [] ->
  rows (outbox w) !! k =
  (fun r => if is_due (w_now w) r then settled_locally (w_now w) r else r) <$> rows (outbox w) !! k.
Proof.
  intros Hnil. destruct (rows (outbox w) !! k) as [r|] eqn:Hk; [|done].
  pose proof (proj1 (select_nil _ _) Hnil k r Hk) as Hd. simpl in *. by rewrite Hd.
Qed.

(** Settling one due row leaves one due row less. *)
Lemma due_settled w k r :
  rows (outbox w) !! k = Some r -> is_due (w_now w) r = true ->
  length (due_now w) =
  S (length (due_now (w <| outbox ::= update k (settled_locally (w_now w)) |>))).
Proof.
  intros Hr Hd. apply (Permutation_length (l := due_now w) (l' := Obj k r :: _)).
  exact (select_update_removed (fun o => is_due (w_now w) (val o)) k (settled_locally (w_now w)) _ r
    Hr Hd eq_refl).
Qed.
End Confirmation.

(** ** Properties *)

Section Properties.
Context {CR : Crypto} {ETH : EthAccount}.

(** C8: delivery never touches what was signed.  Whatever the node answers, processing
    one event or a batch keeps every row and its signed columns, never lowers the
    attempt count, moves statuses only along [PENDING <-> SUBMITTED -> CONFIRMED |
    MISMATCH | LOCAL] and [CONFIRMED -> MISMATCH], and leaves [LOCAL], [MISMATCH] and
    [FAILED] rows untouched. *)
Theorem outbox_delivery_only c limit k w :
  on outbox (evolves delivery_step) w (process_outbox_event c k w).2 /\
  on outbox (evolves delivery_step) w (process_due_outbox_events c limit w).2.
Proof. split; [apply keeps_process|apply keeps_process_due]. Qed.

(** A claim is exclusive for the length of its lease.  After a worker claims a row,
    and as long as nobody has changed the row, no attempt to claim it within 180
    seconds succeeds, neither by key nor as the next due event. *)
Theorem claim_exclusive k w e w1 w2 :
  _claim_outbox_event k w = (Ok (Some e), w1) ->
  rows (outbox w2) !! k = rows (outbox w1) !! k -> w_now w2 < w_now w + seconds LEASE_SECONDS ->
  _claim_outbox_event k w2 = (Ok None, w2) /\
  forall e' w3, claim_next_due_outbox_event w2 = (Ok (Some e'), w3) -> pk e' <> k.
Proof.
  intros H Hrow Hnow. apply claim_result in H as (<- & e0 & Hr & Hd & Hv & ->).
  simpl in Hrow. rewrite lookup_alter, decide_True, Hr in Hrow by done. simpl in Hrow. split.
  - unfold _claim_outbox_event, atomic, query_first, timezone_now, gets, mbind, M_bind.
    assert (first (fun o => (pk o ==? pk e) && is_due (w_now w2) (val o)) (outbox w2) = None) as ->;
      [|done].
    apply first_None. intros j r Hj. simpl. destruct (bool_decide (j = pk e)) eqn:E; [|done].
    to_prop. subst. rewrite Hrow in Hj. injection Hj as <-. simpl. by apply claimed_not_due.
  - intros e' w3 H' Heq. apply claim_next_result in H' as (e1 & Hr1 & Hd1 & _).
    rewrite Heq, Hrow in Hr1. injection Hr1 as <-. by rewrite claimed_not_due in Hd1.
Qed.

(** With anchoring disabled a batch settles everything that is due: given a limit
    at least the number of due rows, the batch returns one event per due row, every
    such row ends [LOCAL] with no chain metadata, every other row is as it was, and the
    node is never asked. *)
Theorem disabled_batch_settles c limit w :
  st_anchoring_disabled (w_settings w) = true -> (length (due_now w) <= limit)%nat ->
  exists l w', process_due_outbox_events c limit w = (Ok l, w') /\
    length l = length (due_now w) /\
    forall k, rows (outbox w') !! k =
      (fun r => if is_due (w_now w) r then settled_locally (w_now w) r else r)
        <$> rows (outbox w) !! k.
Proof.
  revert w. induction limit as [|limit IH]; intros w Hst Hlen; simpl.
  - exists [], w. split; [done|]. assert (due_now w = []) as Hnil by (destruct (due_now w); [done|simpl in Hlen; lia]).
    rewrite Hnil. split; [done|]. intros k. by apply due_nil_rows.
  - destruct (claim_next_due_outbox_event w) as [[[e|]|exc] w1] eqn:Hc.
    + destruct (settle_one c w e w1 Hst Hc) as (e0 & Hr & Hd & Hp).
      pose proof (due_settled w (pk e) e0 Hr Hd) as Hless.
      set (w2 := w <| outbox ::= update (pk e) (settled_locally (w_now w)) |>) in *.
      destruct (IH w2 Hst ltac:(lia)) as (l & w' & Hrun & Hl & Hrows).
      unfold mbind, M_bind. rewrite Hc, Hp, Hrun.
      eexists _, w'. split; [done|]. split; [cbn [length]; lia|].
      intros k. rewrite Hrows.
      change (outbox w2) with (update (pk e) (settled_locally (w_now w)) (outbox w)).
      change (w_now w2) with (w_now w). rewrite lookup_update. case_decide as E; [|done].
      subst. rewrite Hr. cbn [fmap option_fmap option_map]. by rewrite Hd.
    + apply claim_next_none in Hc as Hn. destruct Hn as [-> Hnil].
      exists [], w. unfold mbind, M_bind. rewrite Hc, Hnil. split; [done|]. split; [done|].
      intros k. by apply due_nil_rows.
    + by apply claim_next_no_raise in Hc.
Qed.

(** Retries back off and come due again.  The [n]-th retry waits [30 * 2^(n-1)]
    seconds, at least 30 seconds and at most an hour; the row is not due before then and
    is due from then on. *)
Theorem retry_backoff now exc r t :
  0 <= ev_attempts r ->
  let delay := _retry_delay (ev_attempts r + 1) in
  seconds 30 <= delay <= seconds 3600 /\
  (ev_attempts r <= 6 -> delay = seconds (30 * 2 ^ ev_attempts r)) /\
  (7 <= ev_attempts r -> delay = seconds 3600) /\
  is_due t (retry_row now exc r) = (now + delay <=? t).
Proof.
  intros Ha delay. unfold delay, _retry_delay, RETRY_BASE_SECONDS, RETRY_MAX_SECONDS.
  replace (Z.max (ev_attempts r + 1 - 1) 0) with (ev_attempts r) by lia.
  assert (1 <= 2 ^ ev_attempts r) by (apply Z.lt_pred_le, Z.pow_pos_nonneg; lia).
  repeat split.
  - unfold seconds. lia.
  - unfold seconds. lia.
  - intros H6. assert (2 ^ ev_attempts r <= 2 ^ 6) by (apply Z.pow_le_mono_r; lia).
    unfold seconds. lia.
  - intros H7. assert (2 ^ 7 <= 2 ^ ev_attempts r) by (apply Z.pow_le_mono_r; lia).
    unfold seconds. lia.
  - unfold is_due, retry_row, _retry_delay, RETRY_BASE_SECONDS, RETRY_MAX_SECONDS. simpl.
    by replace (Z.max (ev_attempts r + 1 - 1) 0) with (ev_attempts r) by lia.
Qed.

End Properties.

(** ** Concrete runs *)

Definition no_record : chain_record := ChainRecord "" "" 0 "" 0.
(** A node without records that mines the transaction. *)
Definition demo_rpc : rpc := Rpc (fun _ => Ok no_record) (fun _ => Ok "0xtx")
  (fun _ => Ok [("status", PInt 1); ("blockNumber", PInt 42)]) "0xrelayer".
(** A node that rejects the transaction. *)
Definition demo_rpc_reject : rpc := Rpc (fun _ => Ok no_record)
  (fun _ => Err (ClientError "duplicate event")) (fun _ => Err (ClientError "timeout")) "0xrelayer".

Definition demo_row : outbox_row :=
  Outbox (demo_id 171) 1 PNone (hex_digits 64 5) (demo_id 0) "0xsig" "0xDemoSigner" 1 PENDING 0 None
    None None "" None [] "" None None None None 0.
Definition demo_world (st : settings) : world :=
  empty_world st 0 <| outbox ::= insert_row demo_row |>.
Definition demo_disabled : settings := Settings true 1337 "0xregistry" "0xkey" "secret" "secret" true 5.
Definition status_of (k : Z) (w : world) : option outbox_status := ev_status <$> rows (outbox w) !! k.

(** A worker whose lease expired still writes.  Worker A claims the row and stalls; the
    lease passes and worker B confirms the row; then A's submission fails and puts the
    confirmed row back to [PENDING]. *)
Lemma stale_worker_reopens_confirmed :
  let wA := (_claim_outbox_event 1 (demo_world demo_chain)).2 in
  let claimed := Obj 1 (claimed_row 0 demo_row) in
  let wB := (process_outbox_event (ETH := demo_account) demo_rpc 1 (at_time (seconds 181) wA)).2 in
  let wC := (_process_claimed_event (ETH := demo_account) demo_rpc_reject claimed wB).2 in
  (_claim_outbox_event 1 (demo_world demo_chain)).1 = Ok (Some claimed) /\
  status_of 1 wB = Some CONFIRMED /\ status_of 1 wC = Some PENDING.
Proof. vm_compute. repeat split. Qed.

Lemma claim_exclusive_witness :
  let w1 := (_claim_outbox_event 1 (demo_world demo_chain)).2 in
  _claim_outbox_event 1 (at_time (seconds 179) w1) = (Ok None, at_time (seconds 179) w1).
Proof.
  intros w1. refine (proj1 (claim_exclusive 1 (demo_world demo_chain)
    (Obj 1 (claimed_row 0 demo_row)) w1 (at_time (seconds 179) w1) _ _ _)).
  - vm_compute. reflexivity.
  - vm_compute. reflexivity.
  - vm_compute. reflexivity.
Defined.

Lemma disabled_batch_settles_witness :
  exists l w', process_due_outbox_events (ETH := demo_account) demo_rpc 100 (demo_world demo_disabled)
      = (Ok l, w') /\
    length l = length (due_now (demo_world demo_disabled)) /\
    forall k, rows (outbox w') !! k =
      (fun r => if is_due 0 r then settled_locally 0 r else r)
        <$> rows (outbox (demo_world demo_disabled)) !! k.
Proof.
  refine (disabled_batch_settles (ETH := demo_account) demo_rpc 100 (demo_world demo_disabled) _ _).
  - vm_compute. reflexivity.
  - vm_compute. repeat constructor.
Defined.

Lemma retry_backoff_witness :
  is_due (seconds 30) (retry_row 0 AttributeError demo_row) = (0 + _retry_delay 1 <=? seconds 30).
Proof. apply (retry_backoff 0 AttributeError demo_row (seconds 30)). discriminate. Defined.

