(* ===== verification/Notifications.v ===== *)
(** * Notifications: the durable queue, its delivery, and push payloads

    [notifications/services.py] and [notifications/push.py].  Mail and FCM are
    parameters: what they answer may depend on the instant they are called at. *)

From S2P Require Import Prelude Table PyStr Schema Store Accounts.
Open Scope Z_scope.

(** ** Event codes and constants *)

Definition EVENT_REPORT_RECEIPT : string := "report.receipt".
Definition EVENT_TRIAGE_STATUS : string := "triage.status".
Definition EVENT_CASE_STATUS : string := "case.status".
Definition EVENT_DEADLINE_RISK : string := "work.deadline_risk".
Definition EVENT_WORK_COMPLETED : string := "work.completed".
Definition EVENT_SETTLEMENT_RECORDED : string := "settlement.recorded".
Definition EVENT_PUBLICATION : string := "ledger.publication".
Definition EVENT_INTEGRITY_MISMATCH : string := "integrity.mismatch".
Definition EVENT_QUARANTINED_UPLOAD : string := "document.quarantined".
Definition EVENT_ANNOUNCEMENT : string := "building.announcement".
Definition EVENT_BILL_ISSUED : string := "building.bill_issued".

Definition RESIDENT_PUSH_EVENT_CODES : list string :=
  [EVENT_REPORT_RECEIPT; EVENT_TRIAGE_STATUS; EVENT_WORK_COMPLETED; EVENT_PUBLICATION;
   EVENT_ANNOUNCEMENT; EVENT_BILL_ISSUED].
Definition DEFAULT_CHANNELS : list channel := [IN_APP; EMAIL; PUSH].
Definition MAX_EMAIL_ATTEMPTS : Z := 8.
Definition MAX_PUSH_ATTEMPTS : Z := 5.
Definition BASE_BACKOFF_SECONDS : Z := 30.
Definition PUSH_SUPPRESSED_PREFIX : string := "suppressed:".

Definition _event_code_from_key (event_key : string) : string := before_char ":" event_key.
(** [event_code or _event_code_from_key(event_key)] *)
Definition code_or_key (event_code event_key : string) : string :=
  if truthy event_code then event_code else _event_code_from_key event_key.

(** ** Queueing *)

Definition pref_for (user : Z) (event_code : string) (o : obj preference_row) : bool :=
  (o~>pf_user ==? user) && (o~>pf_event_code ==? event_code).
Definition email_enabled_for (user : Z) (event_code : string) : DB bool :=
  pref ← query_first preferences (pref_for user event_code);
  mret match pref with None => true | Some p => p~>pf_email_enabled end.
Definition push_enabled_for (user : Z) (event_code : string) : DB bool :=
  pref ← query_first preferences (pref_for user event_code);
  mret match pref with None => true | Some p => p~>pf_push_enabled end.

Definition active_device (user : Z) (o : obj device_row) : bool :=
  (o~>dv_user ==? user) && o~>dv_active.

(** The conditions under which the loop of [queue_notification] skips a channel. *)
Definition channel_enabled (recipient : Z) (code : string) (ch : channel) : DB bool :=
  match ch with
  | IN_APP => mret true
  | EMAIL => email_enabled_for recipient code
  | PUSH =>
    st ← get_settings;
    if negb (st_push_enabled st) then mret false else
    if negb (str_in code RESIDENT_PUSH_EVENT_CODES) then mret false else
    enabled ← push_enabled_for recipient code;
    if negb enabled then mret false else
    query_exists devices (active_device recipient)
  end.

(** [recipient, event_key, channel], unique by [notification_delivery_once]. *)
Definition same_delivery (recipient : Z) (event_key : string) (ch : channel)
    (o : obj delivery_row) : bool :=
  (o~>dl_recipient ==? recipient) && (o~>dl_event_key ==? event_key) && (o~>dl_channel ==? ch).

Definition new_delivery (now recipient : Z) (building : option Z)
    (event_key event_code subject body : string) (ch : channel) : delivery_row :=
  Delivery recipient building event_key (code_or_key event_code event_key) subject body ch
    DPending 0 None "" [] None now now.

Definition queue_channel (recipient : Z) (event_key subject body event_code : string)
    (building : option Z) (ch : channel) : DB (list (obj delivery_row)) :=
  enabled ← channel_enabled recipient (code_or_key event_code event_key) ch;
  if negb enabled then mret [] else
  existing ← query_first deliveries (same_delivery recipient event_key ch);
  match existing with
  | Some d => mret [d]
  | None =>
    now ← timezone_now;
    d ← create deliveries
      (new_delivery now recipient building event_key event_code subject body ch);
    mret [d]
  end.

Definition queue_notification (recipient : Z) (event_key subject body : string)
    (channels : option (list channel)) (event_code : string) (building : option Z) :
    DB (list (obj delivery_row)) :=
  created ← map_m (queue_channel recipient event_key subject body event_code building)
    (default DEFAULT_CHANNELS channels);
  mret (List.concat created).

Definition queue_notification_after_commit (n : notice) : DB unit :=
  modify (fun w => w <| w_on_commit ::= fun l => l ++ [n] |>).

(** The closure [_enqueue] registered with [transaction.on_commit]. *)
Definition _enqueue (n : notice) : DB unit :=
  user ← query_first users (fun o => pk o ==? no_recipient n);
  match user with
  | None => mret tt
  | Some user =>
    swallow (queue_notification (pk user) (no_event_key n) (no_subject n) (no_body n)
      (no_channels n) (no_event_code n) (no_building n))
  end.

(** What Django does after a successful commit: the callbacks, in order. *)
Definition run_on_commit : DB unit :=
  ns ← gets w_on_commit;
  modify (fun w => w <| w_on_commit := [] |>) ;;
  for_each _enqueue ns.

(** [users] holds [None] for a missing user. *)
Fixpoint notify_loop (seen : list Z) (users : list (option Z)) (n : Z -> notice) : DB unit :=
  match users with
  | [] => mret tt
  | None :: us => notify_loop seen us n
  | Some uid :: us =>
    if decide (uid ∈ seen) then notify_loop seen us n
    else queue_notification_after_commit (n uid) ;; notify_loop (uid :: seen) us n
  end.
Definition notify_users (users : list (option Z)) (event_key subject body event_code : string)
    (building : option Z) : DB unit :=
  notify_loop [] users
    (fun uid => Notice uid event_key subject body None event_code building).

(** ** Claiming *)

Definition delivery_due (now : Z) (o : obj delivery_row) : bool :=
  (o~>dl_status ==? DPending) ||
  ((o~>dl_status ==? DFailed) &&
   match o~>dl_next_retry_at with Some t => t <=? now | None => false end).

Definition claim_pending_deliveries (limit : nat) : DB (list (obj delivery_row)) :=
  now ← timezone_now;
  atomic (
    due ← query deliveries (delivery_due now);
    mret (take limit (order_by (fun o => o~>dl_created_at) due))).

(** ** Push payloads *)

Definition PUSH_COPY : list (string * (string * string)) :=
  [("report.receipt", ("Đã nhận phản ánh", "Phản ánh của bạn đã được ghi nhận."));
   ("triage.status", ("Phản ánh đã được phân loại", "Phản ánh của bạn đã được mở thành yêu cầu xử lý."));
   ("work.completed", ("Công việc đã hoàn thành", "Vui lòng đánh giá công việc đã thực hiện."));
   ("ledger.publication", ("Khoản chi mới được công bố", "Có khoản chi mới trong sổ quỹ tòa nhà."));
   ("building.bill_issued", ("Có hóa đơn mới từ ban quản lý", "Mở ứng dụng để xem chi tiết."))].
Definition _DEFAULT_COPY : string * string := ("Thông báo mới", "Bạn có một thông báo mới.").
Definition _ANNOUNCEMENT_COPY : list (string * (string * string)) :=
  [("published", ("Thông báo mới từ ban quản lý", "Mở ứng dụng để xem nội dung."));
   ("updated", ("Thông báo của ban quản lý đã được cập nhật", "Mở ứng dụng để xem nội dung mới."));
   ("withdrawn", ("Thông báo của ban quản lý đã được thu hồi", "Mở ứng dụng để kiểm tra."))].
Definition DEEP_LINK_TYPES : list (string * string) :=
  [("report", "report"); ("case", "case"); ("entry", "ledger"); ("bill", "bill")].

Fixpoint assoc_str {A} (k : string) (d : list (string * A)) : option A :=
  match d with
  | [] => None
  | (k', v) :: d => if String.eqb k k' then Some v else assoc_str k d
  end.

Definition _parse_reference (event_key : string) : option (string * string) :=
  match split_char ":" event_key with
  | _ :: entity :: entity_id :: _ => Some (entity, entity_id)
  | _ => None
  end.

Definition build_push_payload (d : obj delivery_row) :
    string * string * list (string * string) :=
  let code := code_or_key d~>dl_event_code d~>dl_event_key in
  let '(title, body) :=
    if code ==? EVENT_ANNOUNCEMENT
    then default _DEFAULT_COPY
      (assoc_str (after_last_char ":" d~>dl_event_key) _ANNOUNCEMENT_COPY)
    else default _DEFAULT_COPY (assoc_str code PUSH_COPY) in
  let '(link_type, entity_id) :=
    match _parse_reference d~>dl_event_key with
    | Some (entity, i) => (default "notifications" (assoc_str entity DEEP_LINK_TYPES), i)
    | None => ("notifications", "")
    end in
  (title, body, [("type", link_type); ("id", entity_id); ("delivery_id", zstr (pk d))]).

(** The exceptions of [firebase_admin] that [classify_push_error] tells apart, with
    [str(exc)]. *)
Inductive push_error :=
  | UnregisteredError (msg : string)
  | SenderIdMismatchError (msg : string)
  | InvalidArgumentError (msg : string)
  | OtherPushError (msg : string).
Definition push_error_str (e : push_error) : string :=
  match e with
  | UnregisteredError m | SenderIdMismatchError m | InvalidArgumentError m | OtherPushError m => m
  end.

Inductive push_class := terminal | transient.
#[global] Instance push_class_eq_dec : EqDecision push_class.
Proof. solve_decision. Defined.
Definition classify_push_error (e : push_error) : push_class :=
  match e with
  | UnregisteredError _ | SenderIdMismatchError _ => terminal
  | InvalidArgumentError msg =>
    if existsb (fun needle => contains needle (py_lower msg))
      ["registration token"; "not a valid fcm"; "invalid registration";
       "requested entity was not found"]
    then terminal else transient
  | OtherPushError _ => transient
  end.

(** [messaging.Message] as [send_push] fills it. *)
Record message := Message {
  ms_token : string; ms_title : string; ms_body : string; ms_data : list (string * string);
  ms_collapse_key : option string }.

(** The mail server and FCM: what a call at instant [now] answers.  Mail raises with
    [str(exc)] or succeeds. *)
Record providers := Providers {
  send_mail : Z -> string -> string -> option string -> option string;
  messaging_send : Z -> message -> string + push_error }.

Definition send_push (P : providers) (now : Z) (token title body : string)
    (data : list (string * string)) (collapse_key : option string) : string + push_error :=
  messaging_send P now (Message token title body data collapse_key).

(** ** Delivery *)

Section Delivery.
Context (P : providers).

Definition backoff (attempts : Z) : Z :=
  seconds (BASE_BACKOFF_SECONDS * 2 ^ Z.min (attempts - 1) 6).

Definition save_delivery (d : obj delivery_row) (f : delivery_row -> delivery_row) :
    DB (obj delivery_row) :=
  save deliveries (pk d) f ;; mret (Obj (pk d) (f (val d))).

Definition in_app_row (now : Z) (r : delivery_row) : delivery_row :=
  r <| dl_status := DAvailable |> <| dl_attempts ::= Z.succ |> <| dl_last_error := "" |>
    <| dl_updated_at := now |>.
Definition email_failed_row (now : Z) (err : string) (r : delivery_row) : delivery_row :=
  let attempts := dl_attempts r + 1 in
  let r := r <| dl_attempts := attempts |> <| dl_last_error := py_take 2000 err |>
             <| dl_updated_at := now |> in
  if MAX_EMAIL_ATTEMPTS <=? attempts
  then r <| dl_status := DDead |> <| dl_next_retry_at := None |>
  else r <| dl_status := DFailed |> <| dl_next_retry_at := Some (now + backoff attempts) |>.
Definition email_sent_row (now : Z) (r : delivery_row) : delivery_row :=
  r <| dl_attempts ::= Z.succ |> <| dl_status := DSent |> <| dl_last_error := "" |>
    <| dl_next_retry_at := None |> <| dl_updated_at := now |>.
Definition suppressed_row (now : Z) (why : string) (r : delivery_row) : delivery_row :=
  r <| dl_status := DSent |> <| dl_last_error := PUSH_SUPPRESSED_PREFIX +:+ why |>
    <| dl_updated_at := now |>.

Definition _recipient_can_receive_push (d : obj delivery_row) : DB bool :=
  user ← get_row users "User" d~>dl_recipient;
  if negb user~>u_is_active then mret false else
  match d~>dl_building with
  | None => mret true
  | Some b => gets (fun w =>
      exists_ (fun o => (o~>oc_user ==? pk user) && o~>oc_active &&
        match find o~>oc_unit (units w) with
        | Some u => u~>un_building ==? b
        | None => false
        end) (occupancies w))
  end.

Definition _AGGREGATED_PUSH_CODES : list string := [EVENT_PUBLICATION].

Definition _collapse_key (d : obj delivery_row) : option string :=
  let code := code_or_key d~>dl_event_code d~>dl_event_key in
  match d~>dl_building with
  | Some b => if code ==? EVENT_PUBLICATION then Some ("pub:" +:+ zstr b) else None
  | None => None
  end.

(** The calendar day in [Asia/Ho_Chi_Minh], UTC+7 all year. *)
Definition localdate (t : Z) : Z := (t + hours 7) / days 1.

Definition _daily_push_cap_reached (d : obj delivery_row) : DB bool :=
  let code := code_or_key d~>dl_event_code d~>dl_event_key in
  if negb (str_in code _AGGREGATED_PUSH_CODES) then mret false else
  st ← get_settings;
  now ← timezone_now;
  sent_today ← query deliveries (fun o =>
    (o~>dl_recipient ==? d~>dl_recipient) && (o~>dl_channel ==? PUSH) &&
    (o~>dl_event_code ==? code) && (o~>dl_status ==? DSent) && (o~>dl_last_error ==? "") &&
    (localdate o~>dl_updated_at =? localdate now));
  mret (st_push_daily_cap st <=? Z.of_nat (length sent_today)).

(** The variables of the device loop; [pg_sent] is [already_sent], in the order the
    device keys were added. *)
Record progress := Progress {
  pg_sent : list Z; pg_success : bool; pg_transient : bool; pg_last_error : string }.

Definition push_device (now : Z) (d : obj delivery_row) (dev : obj device_row) (s : progress) :
    DB progress :=
  let '(title, body, data) := build_push_payload d in
  if decide (pk dev ∈ pg_sent s) then mret s else
  match send_push P now dev~>dv_fcm_token title body data (_collapse_key d) with
  | inl _ => mret (Progress (pg_sent s ++ [pk dev]) true (pg_transient s) (pg_last_error s))
  | inr e =>
    match classify_push_error e with
    | terminal =>
      bulk_update devices (fun o => pk o ==? pk dev) (fun r => r <| dv_active := false |>) ;;
      mret s
    | transient =>
      mret (Progress (pg_sent s) (pg_success s) true (py_take 2000 (push_error_str e)))
    end
  end.

Fixpoint push_loop (now : Z) (d : obj delivery_row) (devs : list (obj device_row))
    (s : progress) : DB progress :=
  match devs with
  | [] => mret s
  | dev :: devs => s ← push_device now d dev s; push_loop now d devs s
  end.

Definition pushed_row (now : Z) (s : progress) (r : delivery_row) : delivery_row :=
  let attempts := dl_attempts r + 1 in
  let r := r <| dl_attempts := attempts |> <| dl_push_sent_device_ids := pg_sent s |>
             <| dl_updated_at := now |> in
  if pg_transient s then
    r <| dl_last_error := pg_last_error s |> <| dl_status := DFailed |>
      <| dl_next_retry_at := if MAX_PUSH_ATTEMPTS <=? attempts then None
                             else Some (now + backoff attempts) |>
  else if pg_success s then
    r <| dl_status := DSent |> <| dl_last_error := "" |> <| dl_next_retry_at := None |>
  else
    r <| dl_status := DSent |> <| dl_last_error := PUSH_SUPPRESSED_PREFIX +:+ "all_tokens_terminal" |>
      <| dl_next_retry_at := None |>.

Definition _process_push_delivery (d : obj delivery_row) : DB (obj delivery_row) :=
  now ← timezone_now;
  eligible ← _recipient_can_receive_push d;
  if negb eligible then save_delivery d (suppressed_row now "recipient_ineligible") else
  devs ← query devices (active_device d~>dl_recipient);
  match devs with
  | [] => save_delivery d (suppressed_row now "no_active_devices")
  | _ =>
    capped ← _daily_push_cap_reached d;
    if capped : bool then save_delivery d (suppressed_row now "daily_cap") else
    let sent := d~>dl_push_sent_device_ids in
    s ← push_loop now d devs (Progress sent (negb (sent ==? [])) false "");
    save_delivery d (pushed_row now s)
  end.

Definition settled (s : delivery_status) : bool :=
  match s with DSent | DAvailable | DDead => true | DPending | DFailed => false end.

Definition process_delivery (d : obj delivery_row) : DB (obj delivery_row) :=
  atomic (
    locked ← query_first deliveries (fun o => pk o ==? pk d);
    match locked with
    | None => mret d
    | Some locked =>
      if settled locked~>dl_status then mret locked else
      now ← timezone_now;
      match locked~>dl_channel with
      | IN_APP => save_delivery locked (in_app_row now)
      | PUSH => _process_push_delivery locked
      | EMAIL =>
        user ← query_pk users locked~>dl_recipient;
        match match user with
              | Some u => send_mail P now locked~>dl_subject locked~>dl_body u~>u_email
              | None => Some "User matching query does not exist."
              end with
        | Some err => save_delivery locked (email_failed_row now err)
        | None => save_delivery locked (email_sent_row now)
        end
      end
    end).

Definition process_due_notifications (limit : nat) : DB (list (obj delivery_row)) :=
  claimed ← claim_pending_deliveries limit;
  map_m process_delivery claimed.
End Delivery.

(** ** The resident's feed *)

Definition resident_feed (user building : Z) : DB (list (obj delivery_row)) :=
  l ← query deliveries (fun o => (o~>dl_recipient ==? user) && (o~>dl_channel ==? IN_APP) &&
    (o~>dl_status ==? DAvailable) &&
    match o~>dl_building with Some b => b ==? building | None => true end);
  mret (newest_first (fun o => o~>dl_created_at) l).

Definition mark_notification_read (user delivery_id : Z) : DB Z :=
  now ← timezone_now;
  bulk_update_count deliveries
    (fun o => (pk o ==? delivery_id) && (o~>dl_recipient ==? user) &&
      (o~>dl_channel ==? IN_APP) && (o~>dl_read_at ==? None))
    (fun r => r <| dl_read_at := Some now |>).

(** ** What a delivery row may become *)

Definition same_content (r r' : delivery_row) : Prop :=
  dl_recipient r' = dl_recipient r /\ dl_building r' = dl_building r /\
  dl_event_key r' = dl_event_key r /\ dl_event_code r' = dl_event_code r /\
  dl_subject r' = dl_subject r /\ dl_body r' = dl_body r /\
  dl_channel r' = dl_channel r /\ dl_created_at r' = dl_created_at r.
Definition same_outcome (r r' : delivery_row) : Prop :=
  dl_status r' = dl_status r /\ dl_attempts r' = dl_attempts r /\
  dl_last_error r' = dl_last_error r /\ dl_next_retry_at r' = dl_next_retry_at r /\
  dl_push_sent_device_ids r' = dl_push_sent_device_ids r.

Record delivery_step (r r' : delivery_row) : Prop := {
  ds_content : same_content r r';
  ds_attempts : dl_attempts r <= dl_attempts r';
  ds_sent : dl_push_sent_device_ids r `prefix_of` dl_push_sent_device_ids r';
  ds_settled : settled (dl_status r) = true -> same_outcome r r';
  ds_pending : dl_status r' = DPending -> dl_status r = DPending;
  ds_dead : dl_status r' = DDead ->
    dl_status r = DDead \/ dl_channel r = EMAIL /\ MAX_EMAIL_ATTEMPTS <= dl_attempts r';
  ds_read : is_Some (dl_read_at r) -> dl_read_at r' = dl_read_at r;
}.

#[export] Instance delivery_step_preorder : PreOrder delivery_step.
Proof.
  split.
  - intros r. split; try done; auto; try lia; by repeat split.
  - intros a b c [C1 A1 S1 T1 P1 D1 R1] [C2 A2 S2 T2 P2 D2 R2].
    unfold same_content, same_outcome in *. split.
    + destruct_and?. repeat split; congruence.
    + lia.
    + by etransitivity.
    + intros H. destruct (T1 H) as (E1 & E2 & E3 & E4 & E5). rewrite <- E1 in H.
      destruct (T2 H) as (F1 & F2 & F3 & F4 & F5). repeat split; congruence.
    + auto.
    + intros H. destruct (D2 H) as [H'|[H' Hn]].
      * assert (settled (dl_status b) = true) as Hs by by rewrite H'.
        destruct (T2 Hs) as (_ & -> & _). auto.
      * right. split; [|done]. destruct C1 as (_ & _ & _ & _ & _ & _ & C & _). congruence.
    + intros H. rewrite <- (R1 H). apply R2. by rewrite (R1 H).
Qed.

Section Steps.
Implicit Types (r : delivery_row).

Lemma in_app_step now r : settled (dl_status r) = false -> delivery_step r (in_app_row now r).
Proof.
  intros H. split; simpl; try done; try lia; try (by repeat split). congruence.
Qed.
Lemma email_sent_step now r : settled (dl_status r) = false -> delivery_step r (email_sent_row now r).
Proof.
  intros H. split; simpl; try done; try lia; try (by repeat split). congruence.
Qed.
Lemma email_failed_step now err r :
  settled (dl_status r) = false -> dl_channel r = EMAIL ->
  delivery_step r (email_failed_row now err r).
Proof.
  intros H He. unfold email_failed_row. destruct (Z.leb_spec MAX_EMAIL_ATTEMPTS (dl_attempts r + 1));
    split; simpl; try done; try lia; try (by repeat split); try congruence; auto.
Qed.
Lemma suppressed_step now why r :
  settled (dl_status r) = false -> delivery_step r (suppressed_row now why r).
Proof. intros H. split; simpl; try done; try (by repeat split). congruence. Qed.
Lemma pushed_step now s r :
  settled (dl_status r) = false -> dl_push_sent_device_ids r `prefix_of` pg_sent s ->
  delivery_step r (pushed_row now s r).
Proof.
  intros H Hs. unfold pushed_row. destruct (pg_transient s), (pg_success s);
    split; simpl; try done; try lia; try (by repeat split); congruence.
Qed.
Lemma read_step now r : dl_read_at r = None -> delivery_step r (r <| dl_read_at := Some now |>).
Proof.
  intros H. split; simpl; try done; try lia; try (by repeat split); auto.
  rewrite H. by intros [].
Qed.
End Steps.

(** ** Every operation only takes such steps *)

Inductive notification_op :=
  | Queue (recipient : Z) (key subject body : string) (channels : option (list channel))
      (code : string) (building : option Z)
  | RunOnCommit
  | ProcessDue (P : providers) (limit : nat)
  | ProcessOne (P : providers) (d : obj delivery_row)
  | MarkRead (user delivery : Z).

Definition run_notification (op : notification_op) : DB unit :=
  match op with
  | Queue r k s b chs c bl => _ ← queue_notification r k s b chs c bl; mret tt
  | RunOnCommit => run_on_commit
  | ProcessDue P limit => _ ← process_due_notifications P limit; mret tt
  | ProcessOne P d => _ ← process_delivery P d; mret tt
  | MarkRead u d => _ ← mark_notification_read u d; mret tt
  end.

Section Facts.
Implicit Types (w : world) (d : obj delivery_row).
Notation keeps_deliveries := (keeps (on deliveries (evolves delivery_step))).

Lemma push_device_result P now d dev s w :
  exists s' w', push_device P now d dev s w = (Ok s', w') /\
    w' = w <| devices := devices w' |> /\ pg_sent s `prefix_of` pg_sent s'.
Proof.
  unfold push_device. destruct (build_push_payload d) as [[title body] data].
  case_decide; [exists s, w; split; [done|]; split; [by destruct w|done]|].
  destruct (send_push _ _ _ _ _ _ _) as [|e].
  - eexists _, w. split; [done|]. split; [by destruct w|]. by apply prefix_app_r.
  - destruct (classify_push_error e).
    + eexists s, _. split; [done|]. split; [by destruct w|done].
    + eexists _, w. split; [done|]. split; [by destruct w|done].
Qed.

Lemma push_loop_result P now d devs s w :
  exists s' w', push_loop P now d devs s w = (Ok s', w') /\
    w' = w <| devices := devices w' |> /\ pg_sent s `prefix_of` pg_sent s'.
Proof.
  revert s w. induction devs as [|dev devs IH]; intros s w; cbn [push_loop].
  { exists s, w. split; [done|]. split; [by destruct w|done]. }
  destruct (push_device_result P now d dev s w) as (s1 & w1 & E1 & Hw1 & Hs1).
  destruct (IH s1 w1) as (s2 & w2 & E2 & Hw2 & Hs2). exists s2, w2.
  unfold mbind, M_bind. rewrite E1, E2. split; [done|].
  split; [rewrite Hw2, Hw1; by destruct w|by etransitivity].
Qed.

Lemma keeps_save_delivery d f w :
  rows (deliveries w) !! pk d = Some (val d) -> delivery_step (val d) (f (val d)) ->
  keeps_deliveries (save_delivery d f) w.
Proof. intros Hd Hf. unfold save_delivery. keeps_db. congruence. Qed.

Lemma keeps_process_push P d w :
  rows (deliveries w) !! pk d = Some (val d) -> settled d~>dl_status = false ->
  keeps_deliveries (_process_push_delivery P d) w.
Proof.
  intros Hd Hs. unfold _process_push_delivery, _recipient_can_receive_push, _daily_push_cap_reached.
  repeat (keeps_step || keeps_db_step);
    try (inv_db; repeat case_match; inv_db; apply keeps_save_delivery;
         auto using suppressed_step; fail).
  - match goal with |- keeps _ (push_loop _ ?n _ ?l ?s) ?w1 =>
      destruct (push_loop_result P n d l s w1) as (s1 & w2 & E & Hw & _) end.
    unfold keeps, on. rewrite E. simpl. rewrite Hw. simpl. reflexivity.
  - match goal with H : push_loop _ ?n _ ?l ?s ?w1 = (Ok ?a, ?w2) |- _ =>
      destruct (push_loop_result P n d l s w1) as (s3 & w3 & E & Hw & Hp); rewrite E in H;
      injection H as <- <- end.
    inv_db. apply keeps_save_delivery; [|by apply pushed_step].
    rewrite Hw. simpl. repeat case_match; inv_db; done.
Qed.

Lemma keeps_process_delivery P d w : keeps_deliveries (process_delivery P d) w.
Proof.
  unfold process_delivery. repeat (keeps_step || keeps_db_step); inv_db; inv_query; to_prop; subst;
    first [apply keeps_process_push; done | apply keeps_save_delivery; [congruence|] | idtac];
    auto using in_app_step, email_failed_step, email_sent_step.
Qed.

Lemma keeps_queue r k s b chs c bl w : keeps_deliveries (queue_notification r k s b chs c bl) w.
Proof.
  unfold queue_notification, queue_channel, channel_enabled, email_enabled_for, push_enabled_for.
  keeps_db.
Qed.

Lemma keeps_mark_read u k w : keeps_deliveries (mark_notification_read u k) w.
Proof. unfold mark_notification_read. keeps_db. to_prop. by apply read_step. Qed.

Lemma keeps_notification op w : keeps_deliveries (run_notification op) w.
Proof.
  destruct op; cbn [run_notification]; unfold run_on_commit, _enqueue, process_due_notifications,
    claim_pending_deliveries; keeps_db; auto using keeps_queue, keeps_process_delivery, keeps_mark_read.
Qed.
End Facts.

(** ** Attempts at one e-mail *)

Section Email.
Context (P : providers).
Implicit Types (w : world) (d : obj delivery_row).

Definition attempt_at (d : obj delivery_row) (w : world) (t : Z) : world :=
  (process_delivery P d (at_time t w)).2.

Lemma find_row d w r :
  rows (deliveries w) !! pk d = Some r ->
  first (fun o => pk o ==? pk d) (deliveries w) = Some (Obj (pk d) r).
Proof.
  intros Hr. destruct (first _ _) as [o|] eqn:E; inv_query; to_prop.
  - destruct o as [k v]; simpl in *. subst. congruence.
  - specialize (E _ _ Hr). simpl in E. by rewrite bool_decide_eq_true_2 in E.
Qed.

Lemma attempt_settled d w t r :
  rows (deliveries w) !! pk d = Some r -> settled (dl_status r) = true ->
  deliveries (attempt_at d w t) = deliveries w.
Proof.
  intros Hr Hs. unfold attempt_at, process_delivery, atomic, query_first, gets, mbind, M_bind.
  change (deliveries (at_time t w)) with (deliveries w). rewrite (find_row d w r Hr).
  cbn [val]. by rewrite Hs.
Qed.

Lemma attempt_fails d w t r :
  rows (deliveries w) !! pk d = Some r -> settled (dl_status r) = false -> dl_channel r = EMAIL ->
  (forall now s b e, send_mail P now s b e <> None) ->
  exists err, deliveries (attempt_at d w t) = update (pk d) (email_failed_row t err) (deliveries w).
Proof.
  intros Hr Hs He HP. unfold attempt_at, process_delivery, atomic, query_first, query_pk,
    timezone_now, gets, mbind, M_bind.
  change (deliveries (at_time t w)) with (deliveries w). rewrite (find_row d w r Hr).
  cbn [val pk]. rewrite Hs, He.
  match goal with |- context [match ?m with Some _ => _ | None => _ end] =>
    destruct m as [err|] eqn:E end.
  - exists err. done.
  - exfalso. destruct (find _ _) in E; [by apply HP in E|done].
Qed.

Definition email_after (n : nat) (t : option Z) (r : delivery_row) : Prop :=
  dl_channel r = EMAIL /\ dl_attempts r = Z.min 8 (Z.of_nat n) /\
  dl_status r = (if (n =? 0)%nat then DPending else if (n <? 8)%nat then DFailed else DDead) /\
  dl_next_retry_at r =
    if (n <? 8)%nat then (fun t => t + seconds (30 * 2 ^ Z.min (Z.of_nat n - 1) 6)) <$> t else None.

Lemma email_after_step n t0 t err r :
  email_after n t0 r -> (n < 8)%nat -> email_after (S n) (Some t) (email_failed_row t err r).
Proof.
  intros (Hc & Ha & Hs & Hr) Hn. rewrite Z.min_r in Ha by lia.
  unfold email_failed_row, email_after, MAX_EMAIL_ATTEMPTS, backoff, BASE_BACKOFF_SECONDS.
  rewrite Ha. destruct (Z.leb_spec 8 (Z.of_nat n + 1)); cbn [fmap option_fmap option_map].
  - assert (n = 7)%nat as -> by lia. done.
  - replace (S n <? 8)%nat with true by (symmetry; apply Nat.ltb_lt; lia).
    replace (Z.of_nat (S n) - 1) with (Z.of_nat n + 1 - 1) by lia.
    simpl. repeat split; [done|lia].
Qed.

Lemma email_attempts ts d w :
  rows (deliveries w) !! pk d = Some (val d) -> d~>dl_channel = EMAIL ->
  d~>dl_status = DPending -> d~>dl_attempts = 0 -> d~>dl_next_retry_at = None ->
  (forall now s b e, send_mail P now s b e <> None) ->
  exists r, rows (deliveries (foldl (attempt_at d) w ts)) !! pk d = Some r /\
    email_after (length ts) (last ts) r.
Proof.
  intros Hd Hc Hs Ha Hn HP. induction ts as [|t ts IH] using rev_ind.
  { exists (val d). split; [done|]. by repeat split. }
  destruct IH as (r & Hr & HI). rewrite foldl_app, length_app, last_snoc. cbn [foldl length].
  rewrite Nat.add_1_r.
  destruct (decide (8 <= length ts)%nat) as [Hlen|Hlen].
  - exists r. destruct HI as (Hc' & Ha' & Hs' & Hr').
    rewrite (proj2 (Nat.ltb_ge _ _) Hlen) in Hs', Hr'.
    destruct (Nat.eqb_spec (length ts) 0) as [E|E]; [lia|].
    rewrite (attempt_settled _ _ _ r) by (done || by rewrite Hs'). split; [done|].
    unfold email_after. rewrite (proj2 (Nat.ltb_ge _ _)) by lia.
    repeat split; [done|lia|done|done].
  - destruct (attempt_fails d (foldl (attempt_at d) w ts) t r) as (err & ->); try done.
    + destruct HI as (_ & _ & -> & _). rewrite (proj2 (Nat.ltb_lt _ _)) by lia. by destruct (_ =? 0)%nat.
    + apply HI.
    + rewrite lookup_update, decide_True, Hr by done. eexists. split; [done|].
      eapply email_after_step; [done|lia].
Qed.
End Email.

(** ** A retry of a push skips the devices that already have it *)

Section Push.
Implicit Types (w : world) (d : obj delivery_row).

(** Two providers that answer alike for the tokens of the devices still to be reached. *)
Definition agree_on (P1 P2 : providers) (sent : list Z) (devs : list (obj device_row)) : Prop :=
  forall now m dev, dev ∈ devs -> pk dev ∉ sent -> ms_token m = dev~>dv_fcm_token ->
    messaging_send P1 now m = messaging_send P2 now m.

Lemma push_loop_agree P1 P2 now d devs s w :
  agree_on P1 P2 (pg_sent s) devs ->
  push_loop P1 now d devs s w = push_loop P2 now d devs s w.
Proof.
  revert s w. induction devs as [|dev devs IH]; intros s w HP; [done|]. cbn [push_loop].
  assert (push_device P1 now d dev s w = push_device P2 now d dev s w) as E.
  { unfold push_device, send_push. destruct (build_push_payload d) as [[title body] data].
    case_decide; [done|]. by rewrite (HP _ _ dev) by (done || left). }
  unfold mbind, M_bind. rewrite <- E.
  destruct (push_device_result P1 now d dev s w) as (s1 & w1 & E1 & _ & Hp). rewrite E1.
  apply IH. intros n m dev' Hin Hout Ht. apply (HP n m dev'); [by right| |done].
  intros H. apply Hout. destruct Hp as [l ->]. apply elem_of_app. by left.
Qed.

Lemma process_push_agree P1 P2 d w :
  agree_on P1 P2 d~>dl_push_sent_device_ids (select (active_device d~>dl_recipient) (devices w)) ->
  _process_push_delivery P1 d w = _process_push_delivery P2 d w.
Proof.
  intros HP. unfold _process_push_delivery, timezone_now, query, gets, mbind, M_bind.
  destruct (_recipient_can_receive_push d w) as [[[]|e] w1] eqn:E; try done. cbn [negb].
  assert (w1 = w) as ->.
  { unfold _recipient_can_receive_push in E. inv_db. repeat case_match; inv_db; done. }
  destruct (select _ _) as [|dev devs] eqn:Ed; [done|].
  destruct (_daily_push_cap_reached d w) as [[[]|e] w2] eqn:E2; try done.
  rewrite (push_loop_agree P1 P2); done.
Qed.
End Push.

(** ** Queueing twice is queueing once *)

Section Queueing.
Context (recipient : Z) (key subject body code : string) (building : option Z).
Implicit Types (w : world) (ch : channel) (t : table delivery_row).
Notation with_deliveries w t := (w <| deliveries := t |>).
Notation queue_one := (queue_channel recipient key subject body code building).

Lemma channel_enabled_result r c ch w :
  exists b, forall t, channel_enabled r c ch (with_deliveries w t) = (Ok b, with_deliveries w t).
Proof.
  unfold channel_enabled, email_enabled_for, push_enabled_for, query_first, query_exists,
    get_settings, gets, mbind, M_bind, mret, M_ret.
  destruct ch.
  - by eexists.
  - exists (match first (pref_for r c) (preferences w) with
      | Some p => p~>pf_email_enabled | None => true end). intros t. reflexivity.
  - destruct (st_push_enabled (w_settings w)) eqn:E1;
      [|exists false; intros t; simpl; by rewrite E1].
    destruct (str_in c RESIDENT_PUSH_EVENT_CODES);
      [|exists false; intros t; simpl; by rewrite E1].
    exists (match first (pref_for r c) (preferences w) with
      | Some p => if p~>pf_push_enabled then exists_ (active_device r) (devices w) else false
      | None => exists_ (active_device r) (devices w) end).
    intros t. simpl. rewrite E1. simpl.
    destruct (first _ _) as [p|]; [destruct (pf_push_enabled _)|]; reflexivity.
Qed.

(** The row queued for a channel, if the recipient has it enabled. *)
Definition queued_row w ch : delivery_row :=
  new_delivery (w_now w) recipient building key code subject body ch.

Lemma queue_channel_result ch w :
  table_wf (deliveries w) ->
  exists l t, queue_one ch w = (Ok l, with_deliveries w t) /\ table_wf t /\
    (t = deliveries w \/ t = insert_row (queued_row w ch) (deliveries w)) /\
    queue_one ch (with_deliveries w t) = (Ok l, with_deliveries w t).
Proof.
  intros Hwf. destruct (channel_enabled_result recipient (code_or_key code key) ch w) as [b Hb].
  assert (with_deliveries w (deliveries w) = w) as Hid by by destruct w.
  pose proof (Hb (deliveries w)) as Hb0. rewrite Hid in Hb0.
  unfold queue_channel, query_first, timezone_now, gets, mbind, M_bind. rewrite Hb0.
  destruct b; cbn [negb]; cycle 1.
  { exists [], (deliveries w). rewrite Hid. by rewrite Hb0; auto. }
  destruct (first (same_delivery recipient key ch) (deliveries w)) as [d|] eqn:E.
  { exists [d], (deliveries w). rewrite Hid, Hb0. cbn [negb]. rewrite E. auto. }
  exists [Obj (next (deliveries w)) (queued_row w ch)], (insert_row (queued_row w ch) (deliveries w)).
  split; [done|]. split; [auto with tables|]. split; [auto|]. rewrite Hb. cbn [negb].
  change (deliveries (with_deliveries w ?t)) with t.
  rewrite first_insert_row, E by done. unfold same_delivery at 1. cbn [val].
  by rewrite !bool_decide_eq_true_2 by done.
Qed.

(** What is queued already stays what the next call finds. *)
Lemma queue_channel_stable ch l w r :
  table_wf (deliveries w) -> queue_one ch w = (Ok l, w) ->
  queue_one ch (with_deliveries w (insert_row r (deliveries w))) =
  (Ok l, with_deliveries w (insert_row r (deliveries w))).
Proof.
  intros Hwf. destruct (channel_enabled_result recipient (code_or_key code key) ch w) as [b Hb].
  assert (with_deliveries w (deliveries w) = w) as Hid by by destruct w.
  pose proof (Hb (deliveries w)) as Hb0. rewrite Hid in Hb0.
  unfold queue_channel, query_first, timezone_now, gets, mbind, M_bind. rewrite Hb0, Hb.
  destruct b; cbn [negb]; cycle 1; [by intros [= <-]|].
  change (deliveries (with_deliveries w ?t)) with t. rewrite first_insert_row by done.
  destruct (first (same_delivery recipient key ch) (deliveries w)) as [d|] eqn:E;
    [by intros [= <-]|].
  unfold create, gets, modify, mbind, M_bind, mret, M_ret. intros [= _ H].
  apply (f_equal (fun w => next (deliveries w))) in H. simpl in H. lia.
Qed.

Lemma queue_all_result chs w :
  table_wf (deliveries w) ->
  exists ls t, map_m queue_one chs w = (Ok ls, with_deliveries w t) /\ table_wf t /\
    (forall ch l, queue_one ch w = (Ok l, w) ->
      queue_one ch (with_deliveries w t) = (Ok l, with_deliveries w t)) /\
    map_m queue_one chs (with_deliveries w t) = (Ok ls, with_deliveries w t).
Proof.
  revert w. induction chs as [|ch chs IH]; intros w Hwf; simpl.
  { exists [], (deliveries w). assert (with_deliveries w (deliveries w) = w) as -> by by destruct w.
    auto. }
  destruct (queue_channel_result ch w Hwf) as (l & t & E & Hwft & Ht & Estable).
  specialize (IH (with_deliveries w t)). destruct (IH Hwft) as (ls & t' & E' & Hwf' & Hst & Emap).
  change (with_deliveries (with_deliveries w t) t') with (with_deliveries w t') in *.
  exists (l :: ls), t'. unfold mbind, M_bind. rewrite E, E'.
  split; [done|]. split; [done|]. split.
  - intros ch' l' Hl'. apply Hst. destruct Ht as [->| ->]; [by destruct w|].
    by apply queue_channel_stable.
  - rewrite (Hst _ _ Estable), Emap. done.
Qed.
End Queueing.

(** ** Callbacks after commit *)

Section Isolation.
Implicit Types (w : world).

Lemma queue_channel_total r k s b c bl ch w :
  exists l, queue_channel r k s b c bl ch w =
    (Ok l, w <| deliveries := deliveries (queue_channel r k s b c bl ch w).2 |>).
Proof.
  destruct (channel_enabled_result r (code_or_key c k) ch w) as [en Hen].
  specialize (Hen (deliveries w)).
  assert (w <| deliveries := deliveries w |> = w) as Hid by by destruct w. rewrite Hid in Hen.
  unfold queue_channel, query_first, timezone_now, gets, mbind, M_bind. rewrite Hen.
  destruct en; cbn [negb]; [|exists []; unfold mret, M_ret; simpl; by rewrite Hid].
  destruct (first _ _) as [d|]; [exists [d]; unfold mret, M_ret; simpl; by rewrite Hid|].
  eexists. unfold create, gets, modify, mbind, M_bind, mret, M_ret. reflexivity.
Qed.

Lemma queue_total r k s b chs c bl w :
  exists l, queue_notification r k s b chs c bl w =
    (Ok l, w <| deliveries := deliveries (queue_notification r k s b chs c bl w).2 |>).
Proof.
  unfold queue_notification. generalize (default DEFAULT_CHANNELS chs) as l. intros l.
  assert (forall w, exists ls, map_m (queue_channel r k s b c bl) l w =
    (Ok ls, w <| deliveries := deliveries (map_m (queue_channel r k s b c bl) l w).2 |>)) as H.
  { clear w. induction l as [|ch l IH]; intros w; simpl; [exists []; by destruct w|].
    destruct (queue_channel_total r k s b c bl ch w) as [x E].
    set (w1 := w <| deliveries := _ |>) in E.
    destruct (IH w1) as [ls E']. exists (x :: ls). unfold mbind, M_bind.
    rewrite E, E'. done. }
  destruct (H w) as [ls E]. exists (List.concat ls). unfold mbind, M_bind. rewrite E. done.
Qed.

Lemma enqueue_total n w :
  _enqueue n w = (Ok tt, w <| deliveries := deliveries (_enqueue n w).2 |>).
Proof.
  unfold _enqueue, query_first, gets, mbind, M_bind.
  destruct (first _ _) as [u|]; [|by destruct w].
  unfold swallow, try_except, mbind, M_bind.
  destruct (queue_total (pk u) (no_event_key n) (no_subject n) (no_body n) (no_channels n)
    (no_event_code n) (no_building n) w) as [l E]. rewrite E. done.
Qed.

Lemma enqueue_all_total ns w :
  for_each _enqueue ns w = (Ok tt, w <| deliveries := deliveries (for_each _enqueue ns w).2 |>).
Proof.
  revert w. induction ns as [|n ns IH]; intros w; [by destruct w|]. cbn [for_each].
  unfold mbind, M_bind. rewrite (enqueue_total n w), IH. done.
Qed.
End Isolation.

(** ** In-app copies *)

Section Copies.
Implicit Types (w : world).

(** Queueing writes the deliveries only, and keeps every row there. *)
Definition queued (w w' : world) : Prop :=
  w' = w <| deliveries := deliveries w' |> /\
  evolves delivery_step (deliveries w) (deliveries w').
#[export] Instance queued_preorder : PreOrder queued.
Proof.
  split; [intros w; split; [by destruct w|reflexivity]|].
  intros x y z [Hy Ey] [Hz Ez]. split; [rewrite Hz, Hy; done|by etransitivity].
Qed.

Lemma queue_total_queued r k s b chs c bl w :
  exists l w', queue_notification r k s b chs c bl w = (Ok l, w') /\ queued w w'.
Proof.
  destruct (queue_total r k s b chs c bl w) as [l E]. eexists l, _. split; [exact E|].
  split; [done|]. pose proof (keeps_queue r k s b chs c bl w) as H. exact H.
Qed.

Definition has_copy (user : Z) (k : string) (t : table delivery_row) : Prop :=
  exists j d, rows t !! j = Some d /\ same_delivery user k IN_APP (Obj j d) = true.

Lemma has_copy_evolves u k t t' :
  table_wf t -> evolves delivery_step t t' -> has_copy u k t -> has_copy u k t'.
Proof.
  intros Hwf He (j & d & Hj & Hd). destruct (He Hwf) as [_ H].
  destruct (H j d Hj) as (d' & Hj' & [Hc _ _ _ _ _ _]). exists j, d'. split; [done|].
  unfold same_delivery, same_content in *. cbn [val] in *.
  destruct Hc as (-> & _ & -> & _ & _ & _ & -> & _). done.
Qed.

(** Queueing for the in-app channel leaves the recipient with a copy. *)
Lemma queue_in_app_copy u k s b c bl w :
  exists l w', queue_notification u k s b (Some [IN_APP]) c bl w = (Ok l, w') /\ queued w w' /\
    has_copy u k (deliveries w').
Proof.
  destruct (queue_total_queued u k s b (Some [IN_APP]) c bl w) as (l & w' & E & Hq).
  exists l, w'. split; [exact E|]. split; [exact Hq|]. clear Hq.
  unfold queue_notification in E. cbv [default from_option id map_m] in E.
  unfold queue_channel, channel_enabled, query_first, timezone_now,
    create, gets, modify, mbind, M_bind, mret, M_ret in E. cbn [negb] in E.
  destruct (first _ _) as [d|] eqn:Ef; injection E as _ <-.
  - apply first_Some in Ef as [Hd Hs]. exists (pk d), (val d). by destruct d.
  - eexists (next (deliveries w)), _.
    change (deliveries (set deliveries ?f w)) with (f (deliveries w)).
    rewrite lookup_inserted. split; [done|]. unfold same_delivery. cbn [val].
    by rewrite !bool_decide_eq_true_2.
Qed.
End Copies.

(** ** Properties *)

Section Properties.
Implicit Types (w : world).

(** A delivery row's life.  Whatever is queued, processed or marked read, and whatever
    the providers answer: a row keeps its recipient, key, channel and text; its attempt
    count and the set of devices it reached only grow; a row that is SENT, AVAILABLE or
    DEAD keeps its outcome for good, and DEAD is reached only by an e-mail after eight
    attempts; [PENDING] is never re-entered; a read stamp is set once. *)
Theorem delivery_lifecycle op w :
  on deliveries (evolves delivery_step) w (run_notification op w).2.
Proof. apply keeps_notification. Qed.

(** An e-mail is tried eight times, never a ninth.  If the mail server always fails,
    after the attempts at [ts] the row has counted at most eight; before the eighth it
    is FAILED and comes due exactly [30 * 2^min(n-1, 6)] seconds after the last one; from
    the eighth on it is DEAD and is never due again. *)
Theorem email_dead_letter P ts d w :
  rows (deliveries w) !! pk d = Some (val d) -> d~>dl_channel = EMAIL ->
  d~>dl_status = DPending -> d~>dl_attempts = 0 -> d~>dl_next_retry_at = None ->
  (forall now s b e, send_mail P now s b e <> None) -> ts <> [] ->
  exists r, rows (deliveries (foldl (attempt_at P d) w ts)) !! pk d = Some r /\
    dl_attempts r = Z.min 8 (Z.of_nat (length ts)) /\
    dl_status r = (if (length ts <? 8)%nat then DFailed else DDead) /\
    forall now, delivery_due now (Obj (pk d) r) =
      (length ts <? 8)%nat &&
      match last ts with
      | Some t => t + seconds (30 * 2 ^ Z.min (Z.of_nat (length ts) - 1) 6) <=? now
      | None => false
      end.
Proof.
  intros Hd Hc Hs Ha Hn HP Hts.
  destruct (email_attempts P ts d w) as (r & Hr & _ & Har & Hsr & Hnr); try done.
  exists r. split; [done|]. split; [done|].
  destruct (Nat.eqb_spec (length ts) 0) as [E|E]; [by destruct ts|].
  split; [done|]. intros now. unfold delivery_due. cbn [val]. rewrite Hsr, Hnr.
  destruct (length ts <? 8)%nat; [|done]. by destruct (last ts).
Qed.

(** A push retry does not ask for the devices that already have the message.  Two
    providers that answer alike for the tokens of the recipient's other active devices
    give the same run, rows and answer. *)
Theorem push_retry_skips_delivered P1 P2 (d : obj delivery_row) w :
  rows (deliveries w) !! pk d = Some (val d) -> d~>dl_channel = PUSH ->
  agree_on P1 P2 d~>dl_push_sent_device_ids (select (active_device d~>dl_recipient) (devices w)) ->
  process_delivery P1 d w = process_delivery P2 d w.
Proof.
  intros Hd Hc HP. unfold process_delivery, atomic, query_first, timezone_now, gets, mbind, M_bind.
  rewrite (find_row d w _ Hd). cbn [val]. destruct (settled _); [done|]. rewrite Hc.
  replace (Obj (pk d) (val d)) with d by by destruct d. by rewrite (process_push_agree P1 P2).
Qed.

(** Queueing is idempotent.  Repeating a call returns the same rows and writes
    nothing. *)
Theorem queue_notification_idempotent r k s b chs c bl w l w' :
  table_wf (deliveries w) ->
  queue_notification r k s b chs c bl w = (Ok l, w') ->
  queue_notification r k s b chs c bl w' = (Ok l, w').
Proof.
  intros Hwf. unfold queue_notification.
  destruct (queue_all_result r k s b c bl (default DEFAULT_CHANNELS chs) w Hwf)
    as (ls & t & E & _ & _ & E'). unfold mbind, M_bind, mret, M_ret. rewrite E.
  intros [= <- <-]. by rewrite E'.
Qed.

(** Notifications cannot harm the business state.  Running the callbacks of a committed
    transaction never raises, empties the callback list, and writes no table but the
    deliveries. *)
Theorem notifications_isolated w :
  run_on_commit w =
  (Ok tt, w <| w_on_commit := [] |> <| deliveries := deliveries (run_on_commit w).2 |>).
Proof. exact (enqueue_all_total (w_on_commit w) (w <| w_on_commit := [] |>)). Qed.
End Properties.

(** ** Concrete runs *)

Definition notify_settings : settings := Settings true 1337 "" "" "" "" true 10.
Definition notify_world : world :=
  empty_world notify_settings 0
    <| users ::= insert_row (User (Some "an@lamto.vn") "An" None "pw" true) |>
    <| devices ::= insert_row (Device 1 "phone" "tok1" "IOS" "" true 0) |>
    <| devices ::= insert_row (Device 1 "tablet" "tok2" "IOS" "" true 0) |>.
(** Mail is down; FCM knows every token but [tok2]. *)
Definition mail_down : providers := Providers (fun _ _ _ _ => Some "timeout")
  (fun _ m => if ms_token m ==? "tok2" then inr (OtherPushError "503") else inl "id").
Definition fcm_dead : providers := Providers (fun _ _ _ _ => Some "timeout")
  (fun _ m => inr (if ms_token m ==? "tok2" then OtherPushError "503"
                   else UnregisteredError "gone")).
Definition queued_world : world :=
  (queue_notification 1 "report.receipt:report:7" "s" "b" None "" None notify_world).2.
Definition email_1 : obj delivery_row :=
  Obj 2 (new_delivery 0 1 None "report.receipt:report:7" "" "s" "b" EMAIL).

Lemma email_dead_letter_witness :
  exists r, rows (deliveries (foldl (attempt_at mail_down email_1) queued_world
      (seqZ 1 9))) !! 2 = Some r /\
    dl_attempts r = 8 /\ dl_status r = DDead.
Proof.
  destruct (email_dead_letter mail_down (seqZ 1 9) email_1 queued_world) as (r & Hr & Ha & Hs & _).
  - vm_compute. reflexivity.
  - vm_compute. reflexivity.
  - vm_compute. reflexivity.
  - vm_compute. reflexivity.
  - vm_compute. reflexivity.
  - discriminate.
  - discriminate.
  - exists r. split; [exact Hr|]. split; [exact Ha|exact Hs].
Defined.

(** The push row after a first attempt that reached [tok1] only. *)
Definition after_push : world := (process_delivery mail_down (Obj 3 (val email_1)) queued_world).2.
Definition push_1 : obj delivery_row :=
  got email_1 (get_row deliveries "NotificationDelivery" 3 after_push).

Lemma push_retry_skips_delivered_witness :
  push_1~>dl_push_sent_device_ids = [1] /\ push_1~>dl_status = DFailed /\
  process_delivery mail_down push_1 after_push = process_delivery fcm_dead push_1 after_push.
Proof.
  split; [vm_compute; reflexivity|]. split; [vm_compute; reflexivity|].
  refine (push_retry_skips_delivered mail_down fcm_dead push_1 after_push _ _ _).
  - vm_compute. reflexivity.
  - vm_compute. reflexivity.
  - intros now m dev Hin Hout Ht.
    assert (push_1~>dl_push_sent_device_ids = [1]) as Hs by (vm_compute; reflexivity).
    assert (forallb (fun o => (pk o =? 1) || String.eqb o~>dv_fcm_token "tok2")
      (select (active_device push_1~>dl_recipient) (devices after_push)) = true) as Hall
      by (vm_compute; reflexivity).
    rewrite forallb_forall in Hall. apply list_elem_of_In, Hall, orb_true_iff in Hin.
    rewrite Z.eqb_eq, String.eqb_eq, <- Ht in Hin.
    destruct Hin as [Hin|Hin]; [rewrite Hs, Hin in Hout; destruct Hout; left|].
    cbv [messaging_send mail_down fcm_dead]. rewrite Hin. reflexivity.
Defined.

Lemma queue_notification_idempotent_witness :
  queue_notification 1 "report.receipt:report:7" "s" "b" None "" None queued_world =
  (Ok (objs (deliveries queued_world)), queued_world).
Proof.
  refine (queue_notification_idempotent 1 "report.receipt:report:7" "s" "b" None "" None notify_world
    (objs (deliveries queued_world)) queued_world _ _).
  - apply table_wf_b_true. vm_compute. reflexivity.
  - vm_compute. reflexivity.
Defined.
