(* ===== verification/Devices.v ===== *)
(** * Devices: the push device registry

    [notifications/devices.py] and the constraints of [Device].  A registration takes
    the token away from every other active install before it claims it. *)

From S2P Require Import Prelude Table PyStr Schema Store.
Open Scope Z_scope.

Definition same_install (user : Z) (install_id : string) (o : obj device_row) : bool :=
  (o~>dv_user ==? user) && (o~>dv_install_id ==? install_id).
Definition holds_token (fcm_token : string) (o : obj device_row) : bool :=
  (o~>dv_fcm_token ==? fcm_token) && o~>dv_active.

Definition _deactivate_other_holders (user : Z) (install_id fcm_token : string) : DB unit :=
  bulk_update devices
    (fun o => holds_token fcm_token o && negb (same_install user install_id o))
    (fun r => r <| dv_active := false |>).

(** The write under [device_active_fcm_token_once]: the row written as [k] is active. *)
Definition check_token (k : Z) (fcm_token : string) : DB unit :=
  held ← query_exists devices (fun o => holds_token fcm_token o && negb (pk o ==? k));
  require (negb held) (IntegrityError "device_active_fcm_token_once").

(** [update_or_create(user=user, install_id=install_id, defaults=...)] *)
Definition _upsert (user : Z) (install_id fcm_token platform app_version : string) :
    DB (obj device_row) :=
  now ← timezone_now;
  existing ← query devices (same_install user install_id);
  match existing with
  | [] =>
    k ← gets (fun w => next (devices w));
    check_token k fcm_token ;;
    create devices (Device user install_id fcm_token platform app_version true now)
  | [d] =>
    check_token (pk d) fcm_token ;;
    let row := fun r => r <| dv_fcm_token := fcm_token |> <| dv_platform := platform |>
      <| dv_app_version := app_version |> <| dv_active := true |> <| dv_last_seen_at := now |> in
    save devices (pk d) row ;;
    mret (Obj (pk d) (row (val d)))
  | _ => raise (MultipleObjectsReturned "Device")
  end.

Definition register_device (user : Z) (install_id fcm_token platform app_version : string) :
    DB (obj device_row) :=
  atomic (
    _deactivate_other_holders user install_id fcm_token ;;
    try_except (atomic (_upsert user install_id fcm_token platform app_version))
      (fun e => match e with
        | IntegrityError _ =>
          _deactivate_other_holders user install_id fcm_token ;;
          atomic (_upsert user install_id fcm_token platform app_version)
        | _ => raise e
        end)).

Definition deactivate_device (user : Z) (install_id : string) : DB Z :=
  bulk_update_count devices (fun o => same_install user install_id o && o~>dv_active)
    (fun r => r <| dv_active := false |>).
Definition deactivate_user_devices (user : Z) : DB Z :=
  bulk_update_count devices (fun o => (o~>dv_user ==? user) && o~>dv_active)
    (fun r => r <| dv_active := false |>).
Definition deactivate_stale_devices (n : Z) : DB Z :=
  now ← timezone_now;
  bulk_update_count devices (fun o => o~>dv_active && (o~>dv_last_seen_at <? now - days n))
    (fun r => r <| dv_active := false |>).

(** ** The registry's invariant *)

(** One row per (user, install), and one active row per token. *)
Record registry_wf (t : table device_row) : Prop := {
  rw_keys : table_wf t;
  rw_install : forall j k a b, rows t !! j = Some a -> rows t !! k = Some b ->
    dv_user a = dv_user b -> dv_install_id a = dv_install_id b -> j = k;
  rw_token : forall j k a b, rows t !! j = Some a -> rows t !! k = Some b ->
    dv_active a = true -> dv_active b = true -> dv_fcm_token a = dv_fcm_token b -> j = k;
}.

Inductive device_op :=
  | Register (user : Z) (install_id fcm_token platform app_version : string)
  | Logout (user : Z) (install_id : string)
  | LogoutAll (user : Z)
  | Stale (n : Z).
Definition run_device (op : device_op) : DB unit :=
  match op with
  | Register u i t p v => _ ← register_device u i t p v; mret tt
  | Logout u i => _ ← deactivate_device u i; mret tt
  | LogoutAll u => _ ← deactivate_user_devices u; mret tt
  | Stale n => _ ← deactivate_stale_devices n; mret tt
  end.

Section Facts.
Implicit Types (w : world) (t : table device_row).

(** Deactivating devices keeps the invariant. *)
Lemma deactivate_wf Q t :
  registry_wf t -> registry_wf (update_where Q (fun r => r <| dv_active := false |>) t).
Proof.
  intros [Hk Hi Ht]. split; [auto with tables| |].
  - intros j k a b. rewrite !lookup_update_where.
    intros (a0 & Ha & ->)%fmap_Some (b0 & Hb & ->)%fmap_Some Hu Hn.
    apply (Hi j k a0 b0); try done; destruct (Q _) in Hu, Hn; destruct (Q _) in Hu, Hn; done.
  - intros j k a b. rewrite !lookup_update_where.
    intros (a0 & Ha & ->)%fmap_Some (b0 & Hb & ->)%fmap_Some.
    destruct (Q (Obj j a0)), (Q (Obj k b0)); simpl; try done. by apply Ht.
Qed.

(** The device as the registration leaves it, stored under [k]. *)
Definition registered (user : Z) (install token platform version : string) (now : Z) : device_row :=
  Device user install token platform version true now.

(** After the other holders are gone the upsert succeeds, on the row of that install if
    there is one. *)
Lemma upsert_result u i tok p v w :
  registry_wf (devices w) ->
  (forall k r, rows (devices w) !! k = Some r -> holds_token tok (Obj k r) = true ->
    same_install u i (Obj k r) = true) ->
  exists k t, _upsert u i tok p v w =
    (Ok (Obj k (registered u i tok p v (w_now w))), w <| devices := t |>) /\
    (t = insert_row (registered u i tok p v (w_now w)) (devices w) /\ k = next (devices w) /\
       (forall j r, rows (devices w) !! j = Some r -> same_install u i (Obj j r) = false) \/
     exists r, rows (devices w) !! k = Some r /\ same_install u i (Obj k r) = true /\
       t = update k (fun _ => registered u i tok p v (w_now w)) (devices w)).
Proof.
  intros [Hwf Hi Ht] Hold.
  assert (forall k, (forall j r, rows (devices w) !! j = Some r ->
    same_install u i (Obj j r) = true -> j = k) -> check_token k tok w = (Ok tt, w)) as Hcheck.
  { intros k Hk. unfold check_token, query_exists, gets, require, mbind, M_bind.
    destruct (exists_ _ (devices w)) eqn:E; [|done]. exfalso.
    apply exists_true in E as (j & r & Hj & [Hh Hne]%andb_true_iff). to_prop. cbn [pk] in Hne.
    apply Hne, (Hk j r Hj), Hold; done. }
  unfold _upsert, timezone_now, query, gets, mbind, M_bind.
  destruct (select (same_install u i) (devices w)) as [|d [|d' l]] eqn:E.
  - rewrite select_nil in E. rewrite Hcheck.
    + eexists (next (devices w)), _. split; [done|]. left. auto.
    + intros j r Hj Hs. by rewrite (E j r Hj) in Hs.
  - apply select_singleton in E as Hd. destruct Hd as [Hd Hs]. rewrite Hcheck.
    + exists (pk d), (update (pk d) (fun _ => registered u i tok p v (w_now w)) (devices w)).
      unfold same_install in Hs. to_prop.
      assert (registered u i tok p v (w_now w) = val d <| dv_fcm_token := tok |>
        <| dv_platform := p |> <| dv_app_version := v |> <| dv_active := true |>
        <| dv_last_seen_at := w_now w |>) as Ereg by (destruct (val d); cbn in *; by subst).
      unfold save, modify, mret, M_ret. split.
      * rewrite Ereg. f_equal. unfold set at 1 7. cbn. f_equal. unfold update. f_equal.
        apply map_eq. intros j. rewrite !lookup_alter. case_decide; [subst|done]. by rewrite Hd.
      * right. exists (val d). split; [done|]. split; [|done].
        unfold same_install. cbn [val]. rewrite !bool_decide_eq_true_2; done.
    + intros j r Hj Hs'. unfold same_install in Hs, Hs'. to_prop. cbn [val] in *.
      eapply Hi; [done|done|congruence|congruence].
  - exfalso. pose proof (NoDup_select (same_install u i) (devices w)) as Hnd. rewrite E in Hnd.
    assert (d ∈ select (same_install u i) (devices w)) as Hd by (rewrite E; left).
    assert (d' ∈ select (same_install u i) (devices w)) as Hd' by (rewrite E; right; left).
    apply elem_of_select in Hd as [Hd Hs], Hd' as [Hd' Hs']. unfold same_install in Hs, Hs'. to_prop.
    assert (pk d = pk d') as Epk by (eapply Hi; [done|done|congruence|congruence]).
    apply NoDup_cons in Hnd as [Hnd _]. apply Hnd. destruct d as [k1 r1], d' as [k2 r2]; cbn [pk val] in *. subst.
    rewrite Hd in Hd'. injection Hd' as ->. left.
Qed.

Lemma insert_device_wf r t :
  registry_wf t ->
  (forall j x, rows t !! j = Some x -> dv_user x = dv_user r -> dv_install_id x <> dv_install_id r) ->
  (forall j x, rows t !! j = Some x -> dv_active x = true -> dv_fcm_token x <> dv_fcm_token r) ->
  registry_wf (insert_row r t).
Proof.
  intros [Hk Hi Ht] Hu Hn. split; [auto with tables| |].
  - intros j k a b. rewrite !lookup_insert_row. intros Ha Hb E1 E2.
    repeat case_decide; simplify_eq; eauto; exfalso; eapply Hu; eauto.
  - intros j k a b. rewrite !lookup_insert_row. intros Ha Hb A1 A2 E.
    repeat case_decide; simplify_eq; eauto; exfalso; eapply Hn; eauto.
Qed.

Lemma update_device_wf k r0 r t :
  registry_wf t -> rows t !! k = Some r0 -> dv_user r = dv_user r0 ->
  dv_install_id r = dv_install_id r0 ->
  (forall j x, rows t !! j = Some x -> j <> k -> dv_active x = true ->
    dv_fcm_token x <> dv_fcm_token r) ->
  registry_wf (update k (fun _ => r) t).
Proof.
  intros [Hk Hi Ht] H0 Hu Hn Htok. split; [auto with tables| |].
  - intros i j a b. rewrite !lookup_update. intros Ha Hb E1 E2.
    destruct (decide (k = i)) as [<-|], (decide (k = j)) as [<-|]; rewrite ?H0 in *; simplify_eq/=;
      try done; (eapply Hi; [done|done|congruence|congruence]).
  - intros i j a b. rewrite !lookup_update. intros Ha Hb A1 A2 E.
    destruct (decide (k = i)) as [<-|], (decide (k = j)) as [<-|]; rewrite ?H0 in *; simplify_eq/=;
      try done; [exfalso; eapply (Htok j); eauto|exfalso; eapply (Htok i); eauto|eauto].
Qed.

(** Registration: it never raises, keeps the invariant, and the token's only active
    holder is the caller's install. *)
Lemma register_result u i tok p v w :
  registry_wf (devices w) ->
  exists k w', register_device u i tok p v w =
    (Ok (Obj k (registered u i tok p v (w_now w))), w') /\
    registry_wf (devices w') /\
    rows (devices w') !! k = Some (registered u i tok p v (w_now w)) /\
    forall j r, rows (devices w') !! j = Some r -> holds_token tok (Obj j r) = true -> j = k.
Proof.
  intros Hwf. unfold register_device, atomic, _deactivate_other_holders, bulk_update, modify,
    try_except, mbind, M_bind.
  set (Q := fun o => holds_token tok o && negb (same_install u i o)).
  match goal with |- context [_upsert _ _ _ _ _ ?w1] => set (w1' := w1) end.
  assert (Hwf1 : registry_wf (devices w1')) by exact (deactivate_wf Q _ Hwf).
  assert (Hold : forall k r, rows (devices w1') !! k = Some r -> holds_token tok (Obj k r) = true ->
    same_install u i (Obj k r) = true).
  { intros k r. unfold w1'. change (devices (set devices ?f w)) with (f (devices w)).
    rewrite lookup_update_where. intros (r0 & Hr0 & ->)%fmap_Some.
    destruct (Q (Obj k r0)) eqn:E.
    - unfold holds_token; cbn. by rewrite andb_false_r.
    - intros H. unfold Q in E. rewrite H in E. by apply negb_false_iff in E. }
  destruct (upsert_result u i tok p v w1' Hwf1 Hold) as (k & t & -> & Ht).
  exists k, (w1' <| devices := t |>). split; [done|].
  change (devices (w1' <| devices := t |>)) with t.
  assert (Hone : forall j r, rows t !! j = Some r -> holds_token tok (Obj j r) = true -> j = k).
  { destruct Ht as [(-> & -> & Hno)|(r0 & Hr0 & Hs & ->)]; intros j r.
    - rewrite lookup_insert_row. case_decide; [done|]. intros Hj Hh.
      specialize (Hold j r Hj Hh). specialize (Hno j r Hj). congruence.
    - rewrite lookup_update. case_decide; [done|]. intros Hj Hh.
      specialize (Hold j r Hj Hh). unfold same_install in *. to_prop. cbn [val] in *.
      destruct Hwf1 as [_ Hi _]. eapply Hi; [done|done|congruence|congruence]. }
  assert (Hact : forall j r, rows (devices w1') !! j = Some r -> dv_active r = true ->
    dv_fcm_token r = tok -> same_install u i (Obj j r) = true).
  { intros j r Hj Ha Htok. apply (Hold j r Hj). unfold holds_token. cbn [val].
    by rewrite Htok, Ha, bool_decide_eq_true_2. }
  split; [|split; [|done]].
  - destruct Ht as [(-> & -> & Hno)|(r0 & Hr0 & Hs & ->)].
    + apply insert_device_wf; [done| |].
      * intros j x Hj E1 E2. specialize (Hno j x Hj). unfold same_install in Hno. cbn in *.
        rewrite E1, E2, !bool_decide_eq_true_2 in Hno; done.
      * intros j x Hj Ha E. specialize (Hact j x Hj Ha E).
        specialize (Hno j x Hj). congruence.
    + unfold same_install in Hs. to_prop. cbn [val] in *.
      eapply update_device_wf; [done|done|done|done|].
      intros j x Hj Hne Ha E. apply Hne. specialize (Hact j x Hj Ha E).
      unfold same_install in Hact. to_prop. cbn [val] in *.
      destruct Hwf1 as [_ Hi _]. eapply Hi; [done|done|congruence|congruence].
  - destruct Ht as [(-> & -> & Hno)|(r0 & Hr0 & Hs & ->)].
    + by rewrite lookup_inserted.
    + by rewrite lookup_update, decide_True, Hr0.
Qed.

Lemma run_device_wf op w : registry_wf (devices w) -> registry_wf (devices (run_device op w).2).
Proof.
  intros Hwf. destruct op; cbn [run_device].
  - destruct (register_result user install_id fcm_token platform app_version w Hwf)
      as (k & w' & E & H & _). unfold mbind, M_bind. by rewrite E.
  - exact (deactivate_wf _ _ Hwf).
  - exact (deactivate_wf _ _ Hwf).
  - exact (deactivate_wf _ _ Hwf).
Qed.
End Facts.

(** ** Properties *)

Section Properties.
Implicit Types (w : world).

(** A token belongs to the install that registered it last.  On a registry with one row
    per (user, install) and one active row per token, registration never raises, keeps
    both, stores the token on the caller's row as active, and no other active device holds
    it. *)
Theorem register_device_moves_token u i tok p v w :
  registry_wf (devices w) ->
  exists k w', register_device u i tok p v w =
    (Ok (Obj k (registered u i tok p v (w_now w))), w') /\
    registry_wf (devices w') /\
    rows (devices w') !! k = Some (registered u i tok p v (w_now w)) /\
    forall j r, rows (devices w') !! j = Some r -> holds_token tok (Obj j r) = true -> j = k.
Proof. apply register_result. Qed.

(** The registry invariant, one row per (user, install) and one active row per token,
    is kept by registration, both logouts and the inactivity cleanup. *)
Theorem device_registry_invariant op w :
  registry_wf (devices w) -> registry_wf (devices (run_device op w).2).
Proof. apply run_device_wf. Qed.
End Properties.

Lemma empty_registry_wf : registry_wf empty_table.
Proof. split; [apply empty_table_wf|done|done]. Qed.

Definition demo_devices : world :=
  empty_world (Settings true 0 "" "" "" "" true 10) 5.

Lemma device_registry_invariant_witness :
  registry_wf (devices (run_device (Register 1 "phone" "tok" "IOS" "1.0") demo_devices).2).
Proof. apply device_registry_invariant. exact empty_registry_wf. Defined.

(** The same phone, now signed in by another user. *)
Lemma register_device_moves_token_witness :
  let w := (register_device 1 "phone" "tok" "IOS" "1.0" demo_devices).2 in
  exists k w', register_device 2 "phone" "tok" "IOS" "1.0" w =
    (Ok (Obj k (registered 2 "phone" "tok" "IOS" "1.0" 5)), w') /\
    registry_wf (devices w') /\
    rows (devices w') !! k = Some (registered 2 "phone" "tok" "IOS" "1.0" 5) /\
    forall j r, rows (devices w') !! j = Some r -> holds_token "tok" (Obj j r) = true -> j = k.
Proof.
  intros w. refine (register_device_moves_token 2 "phone" "tok" "IOS" "1.0" w _).
  exact (run_device_wf (Register 1 "phone" "tok" "IOS" "1.0") demo_devices empty_registry_wf).
Defined.
