(* ===== verification/Hooks.v ===== *)
(** * Hooks: who is told about what

    [notifications/hooks.py].  Every hook computes its recipients and registers one
    callback per distinct user; the services call the hooks inside
    [try ... except Exception: pass]. *)

From S2P Require Import Prelude Table PyStr Schema Store Notifications.
Open Scope Z_scope.

Definition _management_users (building_id : Z) : DB (list (option Z)) :=
  ms ← query memberships (fun m => (m~>mb_building ==? building_id) && m~>mb_active);
  mret ((fun m => Some m~>mb_user) <$> ms).

Definition unit_building (unit_id : Z) : DB Z :=
  u ← get_row units "Unit" unit_id; mret u~>un_building.

Definition notify_report_receipt (report : obj report_row) : DB unit :=
  building ← unit_building report~>rp_unit;
  management ← _management_users building;
  notify_users (Some report~>rp_reporter :: management)
    (EVENT_REPORT_RECEIPT +:+ ":report:" +:+ zstr (pk report)) "Report received"
    ("Report #" +:+ zstr (pk report) +:+ " was submitted: " +:+ py_take 200 report~>rp_text)
    EVENT_REPORT_RECEIPT (Some building).

Definition notify_info_requested (info_request : obj info_request_row) : DB unit :=
  report ← get_row reports "IssueReport" info_request~>ir_report;
  building ← unit_building report~>rp_unit;
  notify_users [Some report~>rp_reporter]
    ("info_requested:report:" +:+ zstr (pk report) +:+ ":info:" +:+ zstr (pk info_request))
    "More information requested" info_request~>ir_message "info_requested" (Some building).

Definition notify_report_declined (report : obj report_row) : DB unit :=
  building ← unit_building report~>rp_unit;
  notify_users [Some report~>rp_reporter] ("report_declined:report:" +:+ zstr (pk report))
    "Request declined" report~>rp_declined_reason "report_declined" (Some building).

Definition notify_triage_confirmed (case : obj case_row) (report : obj report_row) : DB unit :=
  management ← _management_users case~>ca_building;
  notify_users (Some report~>rp_reporter :: management)
    (EVENT_TRIAGE_STATUS +:+ ":case:" +:+ zstr (pk case)) "Triage confirmed"
    ("Case #" +:+ zstr (pk case) +:+ " opened for report #" +:+ zstr (pk report) +:+ " ("
      +:+ case~>ca_category +:+ ").")
    EVENT_TRIAGE_STATUS (Some case~>ca_building).

Definition _case_reporters (case_id : Z) : DB (list (option Z)) :=
  links ← query case_reports (fun l => l~>cr_case ==? case_id);
  rs ← map_m (fun l => get_row reports "IssueReport" l~>cr_report) links;
  mret ((fun r => Some r~>rp_reporter) <$> rs).

(** [update.case]: [None.building_id] raises for an update of a standalone proposal,
    after the reporters of the missing case have been looked up. *)
Definition notify_progress_update (update : obj work_update_row) : DB unit :=
  match update~>wu_case with
  | None => raise AttributeError
  | Some case_id =>
    case ← get_row cases "MaintenanceCase" case_id;
    reporters ← _case_reporters case_id;
    notify_users reporters ("case_progress:update:" +:+ zstr (pk update)) "Case progress update"
      (update~>wu_cause +:+ ": " +:+ update~>wu_result) EVENT_CASE_STATUS
      (Some case~>ca_building)
  end.

Definition notify_case_completed (case : obj case_row) : DB unit :=
  reporters ← _case_reporters (pk case);
  notify_users reporters (EVENT_WORK_COMPLETED +:+ ":case:" +:+ zstr (pk case)) "Work completed"
    ("Case #" +:+ zstr (pk case) +:+ " is complete — please rate it.") EVENT_WORK_COMPLETED
    (Some case~>ca_building).

Definition notify_settled (settlement : obj settlement_row) : DB unit :=
  proposal ← get_row proposals "Proposal" settlement~>se_proposal;
  reporters ← match proposal~>pr_case with
    | Some c => _case_reporters c
    | None => mret []
    end;
  management ← _management_users proposal~>pr_building;
  notify_users (reporters ++ management) ("settlement:settled:" +:+ zstr (pk settlement))
    "Settlement recorded"
    ("Proposal #" +:+ zstr (pk proposal) +:+ " settled for " +:+ zstr settlement~>se_amount_vnd
      +:+ " VND.")
    EVENT_SETTLEMENT_RECORDED (Some proposal~>pr_building).

(** [entry.case.building_id]: raises for an entry of a standalone proposal. *)
Definition entry_building (entry : obj ledger_row) : DB Z :=
  match entry~>le_case with
  | None => raise AttributeError
  | Some c => case ← get_row cases "MaintenanceCase" c; mret case~>ca_building
  end.

Definition notify_publication (entry : obj ledger_row) : DB unit :=
  building ← entry_building entry;
  residents ← gets (fun w => select (fun o => o~>oc_active &&
    match find o~>oc_unit (units w) with
    | Some u => u~>un_building ==? building
    | None => false
    end) (occupancies w));
  management ← _management_users building;
  notify_users (((fun o => Some o~>oc_user) <$> residents) ++ management)
    (EVENT_PUBLICATION +:+ ":entry:" +:+ zstr (pk entry)) "Ledger publication"
    ("Spending of " +:+ zstr entry~>le_actual_cost_vnd
      +:+ " VND published to the resident ledger.")
    EVENT_PUBLICATION (Some building).

Definition notify_integrity_mismatch (entry : obj ledger_row) (observation : obj observation_row) :
    DB unit :=
  building ← entry_building entry;
  management ← _management_users building;
  notify_users management
    (EVENT_INTEGRITY_MISMATCH +:+ ":entry:" +:+ zstr (pk entry) +:+ ":obs:" +:+ zstr (pk observation))
    "Integrity mismatch detected"
    ("Published ledger entry #" +:+ zstr (pk entry) +:+ " failed integrity verification.")
    EVENT_INTEGRITY_MISMATCH (Some building).

(** Called with the upload's own building. *)
Definition notify_quarantined_upload (upload : obj quarantined_row) : DB unit :=
  management ← (match upload~>qu_building with
    | Some b => _management_users b
    | None => mret []
    end);
  notify_users (Some upload~>qu_uploader :: management)
    (EVENT_QUARANTINED_UPLOAD +:+ ":upload:" +:+ zstr (pk upload)) "Upload quarantined"
    ("File " +:+ upload~>qu_filename +:+ " was quarantined: " +:+ upload~>qu_reason)
    EVENT_QUARANTINED_UPLOAD upload~>qu_building.

(** ** Hooks only register callbacks *)

(** Two stores that differ at most in the callbacks waiting for the commit. *)
Definition same_but_notices (w w' : world) : Prop := w' = w <| w_on_commit := w_on_commit w' |>.
#[export] Instance same_but_notices_preorder : PreOrder same_but_notices.
Proof.
  unfold same_but_notices. split; [by intros []|]. intros x y z Hy Hz. rewrite Hz, Hy. done.
Qed.

(** What a swallowed hook call does. *)
Definition told (m : DB unit) (w : world) : Prop :=
  exists ns, swallow m w = (Ok tt, w <| w_on_commit := ns |>).

Section Facts.
Implicit Types (w : world).

Lemma notify_loop_result n us seen w :
  exists ns, notify_loop seen us n w = (Ok tt, w <| w_on_commit := ns |>).
Proof.
  revert seen w. induction us as [|[uid|] us IH]; intros seen w; cbn [notify_loop].
  - exists (w_on_commit w). by destruct w.
  - case_decide; [apply IH|]. unfold queue_notification_after_commit, modify, mbind, M_bind.
    destruct (IH (uid :: seen) (w <| w_on_commit ::= fun l => l ++ [n uid] |>)) as [ns E].
    exists ns. rewrite E. done.
  - apply IH.
Qed.

Lemma keeps_notify_users us k s b c bl w : keeps same_but_notices (notify_users us k s b c bl) w.
Proof.
  unfold keeps, notify_users.
  destruct (notify_loop_result (fun uid => Notice uid k s b None c bl) us [] w) as [ns ->].
  done.
Qed.

Lemma keeps_told (m : DB unit) w : keeps same_but_notices m w -> told m w.
Proof.
  unfold keeps, same_but_notices, told, swallow, try_except, mbind, M_bind, mret, M_ret.
  destruct (m w) as [[[]|e] w1]; simpl; intros H; exists (w_on_commit w1); by rewrite H at 1.
Qed.

(** A reader raises or returns, and leaves the store alone. *)
Lemma keeps_case_reporters c w : keeps same_but_notices (_case_reporters c) w.
Proof. unfold _case_reporters. keeps_db. Qed.
End Facts.

(** A hook call leaves every table alone. *)
Ltac solve_told :=
  apply keeps_told; repeat (keeps_db_step || keeps_step ||
    (unfold unit_building, _management_users, entry_building) ||
    (apply keeps_notify_users) || (apply keeps_case_reporters)).

Section Told.
Implicit Types (w : world).
Lemma told_report_receipt r w : told (notify_report_receipt r) w.
Proof. unfold notify_report_receipt. solve_told. Qed.
Lemma told_info_requested i w : told (notify_info_requested i) w.
Proof. unfold notify_info_requested. solve_told. Qed.
Lemma told_report_declined r w : told (notify_report_declined r) w.
Proof. unfold notify_report_declined. solve_told. Qed.
Lemma told_triage_confirmed c r w : told (notify_triage_confirmed c r) w.
Proof. unfold notify_triage_confirmed. solve_told. Qed.
Lemma told_progress_update u w : told (notify_progress_update u) w.
Proof. unfold notify_progress_update. solve_told. Qed.
Lemma told_case_completed c w : told (notify_case_completed c) w.
Proof. unfold notify_case_completed. solve_told. Qed.
Lemma told_settled s w : told (notify_settled s) w.
Proof. unfold notify_settled. solve_told. Qed.
Lemma told_publication e w : told (notify_publication e) w.
Proof. unfold notify_publication. solve_told. Qed.
Lemma told_integrity_mismatch e o w : told (notify_integrity_mismatch e o) w.
Proof. unfold notify_integrity_mismatch. solve_told. Qed.
Lemma told_quarantined_upload u w : told (notify_quarantined_upload u) w.
Proof. unfold notify_quarantined_upload. solve_told. Qed.
End Told.
