(* ===== verification/Announcements.v ===== *)
(** * Announcements: management's messages to the residents of a building

    [notifications/announcements.py].  An edit names the revision it starts from; the
    in-app copies of the residents follow the announcement. *)

From S2P Require Import Prelude Table PyStr Schema Store Accounts Notifications.
Open Scope Z_scope.

Definition in_app_event_key (announcement_id : Z) : string :=
  EVENT_ANNOUNCEMENT +:+ ":announcement:" +:+ zstr announcement_id.
Definition push_event_key (announcement_id revision : Z) (action : string) : string :=
  EVENT_ANNOUNCEMENT +:+ ":announcement:" +:+ zstr announcement_id +:+ ":revision:"
    +:+ zstr revision +:+ ":" +:+ action.

Definition _active_residents (building_id : Z) : DB (list (obj user_row)) := gets (fun w =>
  select (fun u => u~>u_is_active && exists_ (resides w (pk u) building_id) (occupancies w))
    (users w)).

(** [Announcement.full_clean]: no field blank, the declared lengths, rows referred to. *)
Definition full_clean (a : announcement_row) : DB unit := fun w =>
  require (truthy (an_title a) && (py_len (an_title a) <=? 160) &&
      truthy (an_body a) && (py_len (an_body a) <=? 2000) && (0 <=? an_revision a) &&
      bool_decide (is_Some (rows (buildings w) !! an_building a)) &&
      bool_decide (is_Some (rows (users w) !! an_created_by a)) &&
      bool_decide (is_Some (rows (users w) !! an_updated_by a)))
    (ValidationError "announcement") w.

Definition _queue_push (a : obj announcement_row) (recipient : Z) (action : string) : DB unit :=
  queue_notification recipient (push_event_key (pk a) a~>an_revision action) a~>an_title
    a~>an_body (Some [PUSH]) EVENT_ANNOUNCEMENT (Some a~>an_building) ;;
  mret tt.

Definition queue_in_app (a : obj announcement_row) (recipient : Z) : DB unit :=
  queue_notification recipient (in_app_event_key (pk a)) a~>an_title a~>an_body
    (Some [IN_APP]) EVENT_ANNOUNCEMENT (Some a~>an_building) ;;
  mret tt.

(** The in-app copies of an announcement. *)
Definition in_app_copy (a : obj announcement_row) (o : obj delivery_row) : bool :=
  (o~>dl_building ==? Some a~>an_building) && (o~>dl_event_key ==? in_app_event_key (pk a)) &&
  (o~>dl_channel ==? IN_APP).

Definition audit_announcement (actor : Z) (membership : obj membership_row)
    (action : string) (a : obj announcement_row) : DB unit :=
  record_audit actor (Some (pk membership)) action "Announcement" (zstr (pk a)) "accepted"
    [("announcement_id", PInt (pk a)); ("revision", PInt a~>an_revision)] ;;
  mret tt.

Definition publish_announcement (actor building_id : Z) (title body : string) :
    DB (obj announcement_row) :=
  atomic (
    membership ← require_management actor building_id;
    let a := Announcement building_id title body 1 AnPublished actor actor None in
    full_clean a ;;
    a ← create announcements a;
    recipients ← _active_residents building_id;
    for_each (fun u => queue_in_app a (pk u) ;; _queue_push a (pk u) "published") recipients ;;
    bulk_update deliveries (in_app_copy a) (fun r => r <| dl_status := DAvailable |>) ;;
    audit_announcement actor membership "announcement.published" a ;;
    mret a).

Definition is_current (a : announcement_row) (expected_revision : Z) : bool :=
  (an_state a ==? AnPublished) && (an_revision a =? expected_revision).

Definition edited_row (actor : Z) (title body : string) (r : announcement_row) :
    announcement_row :=
  r <| an_title := title |> <| an_body := body |> <| an_revision ::= Z.succ |>
    <| an_updated_by := actor |>.

Definition mirror_row (a : obj announcement_row) (r : delivery_row) : delivery_row :=
  r <| dl_subject := a~>an_title |> <| dl_body := a~>an_body |> <| dl_read_at := None |>
    <| dl_status := DAvailable |>.

Definition edit_announcement (actor announcement_id expected_revision : Z)
    (title body : string) : DB (obj announcement_row) :=
  atomic (
    a ← get_row announcements "Announcement" announcement_id;
    membership ← require_management actor a~>an_building;
    require (is_current (val a) expected_revision) AnnouncementConflict ;;
    let row := edited_row actor title body in
    let a := Obj (pk a) (row (val a)) in
    full_clean (val a) ;;
    save announcements (pk a) row ;;
    recipients ← _active_residents a~>an_building;
    for_each (fun u => queue_in_app a (pk u) ;; _queue_push a (pk u) "updated") recipients ;;
    bulk_update deliveries (in_app_copy a) (mirror_row a) ;;
    audit_announcement actor membership "announcement.updated" a ;;
    mret a).

Definition withdrawn_row (actor now : Z) (r : announcement_row) : announcement_row :=
  r <| an_revision ::= Z.succ |> <| an_state := AnWithdrawn |> <| an_withdrawn_at := Some now |>
    <| an_updated_by := actor |>.

Definition withdraw_announcement (actor announcement_id expected_revision : Z) :
    DB (obj announcement_row) :=
  atomic (
    a ← get_row announcements "Announcement" announcement_id;
    membership ← require_management actor a~>an_building;
    require (is_current (val a) expected_revision) AnnouncementConflict ;;
    now ← timezone_now;
    let row := withdrawn_row actor now in
    let a := Obj (pk a) (row (val a)) in
    save announcements (pk a) row ;;
    bulk_delete deliveries (in_app_copy a) ;;
    recipients ← _active_residents a~>an_building;
    for_each (fun u => _queue_push a (pk u) "withdrawn") recipients ;;
    audit_announcement actor membership "announcement.withdrawn" a ;;
    mret a).

(** ** Facts *)

Section Facts.
Implicit Types (w : world).

Lemma full_clean_Ok a w u w' : full_clean a w = (Ok u, w') -> w' = w.
Proof. unfold full_clean. intros H. by apply require_Ok in H as [_ <-]. Qed.

Lemma queue_in_app_result a u w :
  table_wf (deliveries w) ->
  exists w', queue_in_app a u w = (Ok tt, w') /\ queued w w' /\
    has_copy u (in_app_event_key (pk a)) (deliveries w').
Proof.
  intros Hwf. unfold queue_in_app.
  destruct (queue_in_app_copy u (in_app_event_key (pk a)) a~>an_title a~>an_body
    EVENT_ANNOUNCEMENT (Some a~>an_building) w) as (l & w' & E & Hq & Hc).
  exists w'. unfold mbind, M_bind. by rewrite E.
Qed.

Lemma queue_push_result a u act w :
  exists w', _queue_push a u act w = (Ok tt, w') /\ queued w w'.
Proof.
  unfold _queue_push.
  destruct (queue_total_queued u (push_event_key (pk a) a~>an_revision act) a~>an_title a~>an_body
    (Some [PUSH]) EVENT_ANNOUNCEMENT (Some a~>an_building) w) as (l & w' & E & Hq).
  exists w'. unfold mbind, M_bind. by rewrite E.
Qed.

(** The loop over the residents never raises and leaves each with an in-app copy. *)
Lemma tell_residents a act us w :
  table_wf (deliveries w) ->
  exists w', for_each (fun u => queue_in_app a (pk u) ;; _queue_push a (pk u) act) us w = (Ok tt, w') /\
    queued w w' /\
    forall u : obj user_row, u ∈ us -> has_copy (pk u) (in_app_event_key (pk a)) (deliveries w').
Proof.
  revert w. induction us as [|u us IH]; intros w Hwf; cbn [for_each].
  { exists w. split; [done|]. split; [reflexivity|]. by intros u ?%elem_of_nil. }
  destruct (queue_in_app_result a (pk u) w Hwf) as (w1 & E1 & Q1 & C1).
  destruct (queue_push_result a (pk u) act w1) as (w2 & E2 & Q2).
  destruct Q1 as [Hw1 Ev1], Q2 as [Hw2 Ev2].
  assert (table_wf (deliveries w1)) as Hwf1 by by apply Ev1.
  destruct (IH w2) as (w3 & E3 & [Hw3 Ev3] & C3); [by apply Ev2|].
  exists w3. unfold mbind, M_bind in *. rewrite E1, E2, E3. split; [done|].
  split; [split; [by rewrite Hw3, Hw2, Hw1|by do 2 (etransitivity; [eassumption|])]|].
  intros u' [->|Hin]%elem_of_cons; [|by apply C3].
  eapply has_copy_evolves; [by apply Ev2|exact Ev3|].
  by eapply has_copy_evolves; [|exact Ev2|].
Qed.
End Facts.

(** ** Revisions *)

(** Between two states of the table, a published announcement may have been edited or
    withdrawn, each time under the next revision; a withdrawn one is final. *)
Definition announcement_step (r r' : announcement_row) : Prop :=
  r' = r \/
  an_state r = AnPublished /\ an_revision r < an_revision r' /\
  an_building r' = an_building r /\ an_created_by r' = an_created_by r.
#[export] Instance announcement_step_preorder : PreOrder announcement_step.
Proof.
  split; [by left|]. intros x y z [->|Hxy] [->|Hyz]; unfold announcement_step in *; auto.
  right. destruct_and?. repeat split; try congruence; lia.
Qed.

Inductive announcement_op :=
  | Publish (actor building : Z) (title body : string)
  | Edit (actor announcement expected : Z) (title body : string)
  | Withdraw (actor announcement expected : Z).
Definition run_announcement (op : announcement_op) : DB unit :=
  match op with
  | Publish a b t x => _ ← publish_announcement a b t x; mret tt
  | Edit a k e t x => _ ← edit_announcement a k e t x; mret tt
  | Withdraw a k e => _ ← withdraw_announcement a k e; mret tt
  end.

Section Revisions.
Implicit Types (w : world).
Notation keeps_an := (keeps (on announcements (evolves announcement_step))).

Lemma keeps_queue_an r k s b chs c bl w : keeps_an (queue_notification r k s b chs c bl) w.
Proof.
  unfold queue_notification, queue_channel, channel_enabled, email_enabled_for, push_enabled_for.
  keeps_db.
Qed.
Lemma keeps_clean_an a w : keeps_an (full_clean a) w.
Proof. unfold full_clean, keeps, require. destruct (_ && _); simpl; reflexivity. Qed.

Lemma edited_step actor t b r : an_state r = AnPublished -> announcement_step r (edited_row actor t b r).
Proof. intros H. right. simpl. repeat split; [done|lia]. Qed.
Lemma withdrawn_step actor now r :
  an_state r = AnPublished -> announcement_step r (withdrawn_row actor now r).
Proof. intros H. right. simpl. repeat split; [done|lia]. Qed.

Lemma keeps_announcement op w : keeps_an (run_announcement op) w.
Proof.
  destruct op; cbn [run_announcement]; unfold publish_announcement, edit_announcement,
    withdraw_announcement, audit_announcement, queue_in_app, _queue_push, _active_residents;
    keeps_op; auto using keeps_queue_an, keeps_clean_an;
    inv_op; try match goal with H : full_clean _ _ = _ |- _ => apply full_clean_Ok in H end;
    inv_query; unfold is_current in *; to_prop; simplify_eq;
    [apply edited_step|apply withdrawn_step]; congruence.
Qed.
End Revisions.

(** ** Properties *)

Section Properties.
Implicit Types (w : world).

(** Announcements move forward.  Publishing, editing and withdrawing keep every
    announcement, its building and author; an announcement changes only while it is
    published, each change raises its revision, and a withdrawn one never changes again. *)
Theorem announcement_revisions op w :
  on announcements (evolves announcement_step) w (run_announcement op w).2.
Proof. apply keeps_announcement. Qed.

(** An accepted edit started from the announcement's current revision and is what every
    resident sees.  The stored announcement was published at [expected]; it now holds the
    new text at [expected + 1]; every active resident of the building has an in-app copy,
    and every in-app copy of the announcement is available, unread, and carries the new
    text. *)
Theorem announcement_edit_mirrors actor k expected title body w a w' :
  table_wf (deliveries w) ->
  edit_announcement actor k expected title body w = (Ok a, w') ->
  (exists r, rows (announcements w) !! k = Some r /\ an_state r = AnPublished /\
     an_revision r = expected) /\
  rows (announcements w') !! k = Some (val a) /\
  a~>an_title = title /\ a~>an_body = body /\ a~>an_revision = expected + 1 /\
  (forall j u, rows (users w) !! j = Some u -> u_is_active u = true ->
     exists_ (resides w j a~>an_building) (occupancies w) = true ->
     has_copy j (in_app_event_key k) (deliveries w')) /\
  (forall j d, rows (deliveries w') !! j = Some d -> in_app_copy a (Obj j d) = true ->
     dl_subject d = title /\ dl_body d = body /\ dl_read_at d = None /\ dl_status d = DAvailable).
Proof.
  intros Hwf. unfold edit_announcement, audit_announcement, _active_residents. intros H. inv_op.
  match goal with H : full_clean _ _ = _ |- _ => apply full_clean_Ok in H end. subst.
  match goal with H : for_each _ _ _ = _ |- _ => rename H into Hrun end.
  match type of Hrun with for_each (fun u => queue_in_app ?a _ ;; _) ?rs ?w0 = _ =>
    destruct (tell_residents a "updated" rs w0) as (w2 & E & [Hw2 Hev] & Hcopy); [exact Hwf|] end.
  rewrite E in Hrun. injection Hrun as _ <-. inv_query. unfold is_current in *. to_prop.
  match goal with H : (_ =? _) = true |- _ => apply Z.eqb_eq in H end.
  split; [eexists; split; [eassumption|done]|].
  split; [|split; [done|split; [done|split; [cbn; lia|split]]]].
  - cbn. rewrite Hw2. cbn. rewrite lookup_alter, decide_True by done.
    match goal with H : rows (announcements w) !! _ = _ |- _ => by rewrite H end.
  - intros j u Hu Ha Hr.
    assert (has_copy j (in_app_event_key (pk x)) (deliveries w2)) as (i & d & Hi & Hd).
    { apply (Hcopy (Obj j u)). apply elem_of_select. cbn [pk val]. split; [exact Hu|].
      rewrite Ha. exact Hr. }
    eexists i, _. cbn [deliveries set]. unfold mirror_row. split.
    + cbn. rewrite map_lookup_imap, Hi. reflexivity.
    + cbn [val]. destruct (in_app_copy _ _); exact Hd.
  - intros j d. cbn [deliveries set]. cbn. rewrite map_lookup_imap.
    intros (d0 & Hd0 & [= <-])%bind_Some.
    destruct (in_app_copy _ (Obj j d0)) eqn:Ec; [done|]. intros Hc. exfalso.
    unfold in_app_copy in *. cbn in *. congruence.
Qed.
End Properties.

Definition demo_board : world :=
  empty_world (Settings true 0 "" "" "" "" true 10) 0
    <| buildings ::= insert_row "Tower A" |>
    <| users ::= insert_row (User None "Staff" None "pw" true) |>
    <| users ::= insert_row (User None "An" None "pw" true) |>
    <| memberships ::= insert_row (Membership 1 1 true) |>
    <| units ::= insert_row (Unit_ 1 "A-101") |>
    <| occupancies ::= insert_row (Occupancy 2 1 true) |>.
Definition demo_published : world := (publish_announcement 1 1 "Water" "Off at 9" demo_board).2.
Definition demo_edit : result (obj announcement_row) * world :=
  edit_announcement 1 1 1 "Water" "Off at 10" demo_published.
Definition demo_edited : obj announcement_row :=
  Obj 1 (Announcement 1 "Water" "Off at 10" 2 AnPublished 1 1 None).

Lemma announcement_edit_mirrors_witness :
  has_copy 2 (in_app_event_key 1) (deliveries demo_edit.2).
Proof.
  refine (proj1 (proj2 (proj2 (proj2 (proj2 (proj2 (announcement_edit_mirrors 1 1 1 "Water"
    "Off at 10" demo_published demo_edited demo_edit.2 _ _)))))) 2 (User None "An" None "pw" true)
    _ _ _).
  - apply table_wf_b_true. vm_compute. reflexivity.
  - vm_compute. reflexivity.
  - vm_compute. reflexivity.
  - reflexivity.
  - vm_compute. reflexivity.
Defined.
