(* ===== verification/Cases.v ===== *)
(** * Cases: work on a maintenance case, information requests, ratings

    [maintenance/cases.py] and [maintenance/ratings.py], with the constraints of
    [maintenance/models.py] they rely on.  Model arguments are primary keys. *)

From S2P Require Import Prelude Table PyStr Schema Store Accounts Notifications Hooks.
Open Scope Z_scope.

(** ** The request-outcome services *)

Definition TERMINAL_STATUSES : list report_status := [RDeclined; RCompleted; RClosed].
Definition terminal_status (s : report_status) : bool := existsb (fun t => s ==? t) TERMINAL_STATUSES.
Definition RATING_WINDOW_DAYS : Z := 14.

(** [case_reports__case=case]: the report is linked to the case. *)
Definition linked (w : world) (case_id report_id : Z) : bool :=
  exists_ (fun l => (l~>cr_case ==? case_id) && (l~>cr_report ==? report_id)) (case_reports w).

(** [IssueReport.objects.filter(case_reports__case=case).exclude(status__in=TERMINAL)] *)
Definition open_reports (case_id : Z) : DB (list (obj report_row)) := gets (fun w =>
  select (fun r => linked w case_id (pk r) && negb (terminal_status r~>rp_status)) (reports w)).

Definition set_status (s : report_status) (r : obj report_row) : DB unit :=
  save reports (pk r) (fun r => r <| rp_status := s |>).

Definition _locked_case (case_id : Z) : DB (obj case_row) :=
  case ← query_first cases (fun c => pk c ==? case_id);
  match case with
  | Some c =>
    require (c~>ca_active && (c~>ca_completed_at ==? None))
      (ValidationError "An active, uncompleted case is required.") ;;
    mret c
  | None => raise (ValidationError "An active, uncompleted case is required.")
  end.

Definition _started_case (case_id : Z) : DB (obj case_row) :=
  case ← _locked_case case_id;
  require (bool_decide (is_Some case~>ca_started_at))
    (ValidationError "Work must be started on this case first.") ;;
  mret case.

(** [WorkUpdate.objects.create] under [work_update_case_xor_proposal]. *)
Definition insert_work_update (r : work_update_row) : DB (obj work_update_row) :=
  require (negb (Bool.eqb (bool_decide (is_Some (wu_case r)))
                          (bool_decide (is_Some (wu_proposal r)))))
    (IntegrityError "work_update_case_xor_proposal") ;;
  create work_updates r.

Definition _append_update (case : option Z) (manager : Z) (cause result : string)
    (proposal : option Z) : DB (obj work_update_row) :=
  require (truthy (py_strip cause) && truthy (py_strip result))
    (ValidationError "Progress updates need both a cause and a result.") ;;
  insert_work_update (WorkUpdate case proposal (Some manager) (py_strip cause) (py_strip result)).

Definition proposal_awaiting_decision (case_id : Z) : DB (option (obj proposal_row)) :=
  query_first proposals (fun p => (p~>pr_case ==? Some case_id) && (p~>pr_status ==? PPublished)).

Definition start_case_work (case_id manager : Z) : DB (obj case_row) :=
  atomic (
    case ← _locked_case case_id;
    membership ← require_management manager case~>ca_building;
    awaiting ← proposal_awaiting_decision (pk case);
    require (bool_decide (awaiting = None)) (ValidationError
      "This case's spending proposal needs a Proceed decision before work can start.") ;;
    now ← timezone_now;
    let start := fun c => c <| ca_started_at := Some now |> in
    case ← (if case~>ca_started_at ==? None
            then save cases (pk case) start ;; mret (Obj (pk case) (start (val case)))
            else mret case);
    rs ← open_reports (pk case);
    for_each (set_status RInProgress) rs ;;
    record_audit manager (Some (pk membership)) "case.work_started" "MaintenanceCase"
      (zstr (pk case)) "accepted" [] ;;
    mret case).

Definition opt_int (o : option Z) : pyval := match o with Some z => PInt z | None => PNone end.

(** The standalone proposal a progress report or completion is about. *)
Definition standalone_in_progress (proposal_id : Z) : DB (obj proposal_row) :=
  p ← query_first proposals (fun p => (pk p ==? proposal_id) && (p~>pr_case ==? None));
  match p with
  | Some p =>
    require (p~>pr_status ==? PInProgress)
      (ValidationError "An in-progress standalone proposal is required.") ;;
    mret p
  | None => raise (ValidationError "An in-progress standalone proposal is required.")
  end.

Definition publish_progress (case : option Z) (manager : Z) (cause result : string)
    (proposal : option Z) : DB (obj work_update_row) :=
  atomic (
    require (negb (Bool.eqb (case ==? None) (proposal ==? None)))
      (ValidationError "Progress requires exactly one case or proposal.") ;;
    building ← (match case, proposal with
      | Some c, _ => c ← _started_case c; mret c~>ca_building
      | None, Some p => p ← standalone_in_progress p; mret p~>pr_building
      | None, None => raise (ValidationError "An in-progress standalone proposal is required.")
      end);
    membership ← require_management manager building;
    update ← _append_update case manager cause result proposal;
    record_audit manager (Some (pk membership)) "case.progress_published" "WorkUpdate"
      (zstr (pk update)) "accepted"
      [("case_id", opt_int case); ("proposal_id", opt_int proposal)] ;;
    swallow (notify_progress_update update) ;;
    mret update).

Definition completed_proposal (now : Z) (p : proposal_row) : proposal_row :=
  p <| pr_status := PCompleted |> <| pr_completed_at := Some now |>.

Definition complete_proposal_work (proposal_id manager : Z) (cause result : string) :
    DB (obj proposal_row) :=
  atomic (
    proposal ← standalone_in_progress proposal_id;
    membership ← require_management manager proposal~>pr_building;
    update ← _append_update None manager cause result (Some (pk proposal));
    now ← timezone_now;
    save proposals (pk proposal) (completed_proposal now) ;;
    record_audit manager (Some (pk membership)) "proposal.work_completed" "Proposal"
      (zstr (pk proposal)) "accepted" [("work_update_id", PInt (pk update))] ;;
    mret (Obj (pk proposal) (completed_proposal now (val proposal)))).

Definition complete_case_work (case_id manager : Z) (cause result : string) : DB (obj case_row) :=
  atomic (
    case ← _started_case case_id;
    membership ← require_management manager case~>ca_building;
    update ← _append_update (Some (pk case)) manager cause result None;
    now ← timezone_now;
    let complete := fun c => c <| ca_completed_at := Some now |> in
    save cases (pk case) complete ;;
    let case := Obj (pk case) (complete (val case)) in
    proposal ← query_first proposals
      (fun p => (p~>pr_case ==? Some (pk case)) && (p~>pr_status ==? PInProgress));
    (match proposal with
     | Some p => save proposals (pk p) (completed_proposal now)
     | None => mret tt
     end) ;;
    rs ← open_reports (pk case);
    for_each (set_status RCompleted) rs ;;
    record_audit manager (Some (pk membership)) "case.work_completed" "MaintenanceCase"
      (zstr (pk case)) "accepted" [("work_update_id", PInt (pk update))] ;;
    swallow (notify_case_completed case) ;;
    mret case).

Definition close_row (now : Z) (c : case_row) : case_row :=
  c <| ca_active := false |> <| ca_closed_at := Some now |>.

(** [completed_at__lte=now - timedelta(days=RATING_WINDOW_DAYS)]; [NULL] never matches. *)
Definition window_over (now : Z) (completed_at : option Z) : bool :=
  match completed_at with Some t => t <=? now - days RATING_WINDOW_DAYS | None => false end.

Definition close_case (now : Z) (c : obj case_row) : DB unit :=
  linked_to ← gets (fun w => linked w (pk c));
  bulk_update reports (fun r => linked_to (pk r) && (r~>rp_status ==? RCompleted))
    (fun r => r <| rp_status := RClosed |>) ;;
  save cases (pk c) (close_row now).

Definition close_proposal (now : Z) (p : obj proposal_row) : DB Z :=
  match p~>pr_completed_at with
  | None => raise (TypeError "unsupported operand")
  | Some completed =>
    let close_at := completed + days RATING_WINDOW_DAYS in
    settlement ← query_first settlements (fun s => s~>se_proposal ==? pk p);
    let close_at := match settlement with
      | Some s => if close_at <? s~>se_settled_at then s~>se_settled_at else close_at
      | None => close_at
      end in
    if now <? close_at then mret 0 else
    save proposals (pk p) (fun r => r <| pr_status := PClosed |> <| pr_closed_at := Some now |>) ;;
    mret 1
  end.

Definition close_expired_completed_cases (now : option Z) : DB Z :=
  atomic (
    clock ← timezone_now;
    let now := default clock now in
    due ← query cases (fun c => window_over now c~>ca_completed_at && (c~>ca_closed_at ==? None));
    for_each (close_case now) due ;;
    ps ← query proposals (fun p => (p~>pr_case ==? None) && (p~>pr_status ==? PCompleted) &&
      window_over now p~>pr_completed_at && (p~>pr_closed_at ==? None));
    closed ← map_m (close_proposal now) ps;
    mret (Z.of_nat (length due) + zsum closed)).

Definition _locked_report (report_id : Z) : DB (obj report_row) :=
  report ← query_first reports (fun r => pk r ==? report_id);
  of_option (ValidationError "Report is required.") report.

(** [one_open_info_request_per_report] *)
Definition is_open (r : info_request_row) : bool := ir_resolved_at r ==? None.
Definition insert_info_request : info_request_row -> DB (obj info_request_row) :=
  insert_unless info_requests "one_open_info_request_per_report"
    (fun r o => is_open r && is_open (val o) && (o~>ir_report ==? ir_report r)).

Definition open_request (report_id : Z) (i : obj info_request_row) : bool :=
  (i~>ir_report ==? report_id) && is_open (val i).

Definition request_information (report_id manager : Z) (message : string) :
    DB (obj info_request_row) :=
  atomic (
    report ← _locked_report report_id;
    building ← unit_building report~>rp_unit;
    membership ← require_management manager building;
    require (negb (terminal_status report~>rp_status))
      (ValidationError "Closed or declined requests cannot ask for information.") ;;
    require (truthy (py_strip message))
      (ValidationError "An information request needs a message.") ;;
    already ← query_exists info_requests (open_request (pk report));
    require (negb already)
      (ValidationError "An information request is already open for this report.") ;;
    info ← insert_info_request (InfoRequest (pk report) (py_strip message) manager "" None);
    set_status RNeedsInfo report ;;
    record_audit manager (Some (pk membership)) "request.info_requested" "InfoRequest"
      (zstr (pk info)) "accepted" [("report_id", PInt (pk report))] ;;
    swallow (notify_info_requested info) ;;
    mret info).

(** The resident's first active occupancy in a building. *)
Definition active_occupancy (resident building : Z) : DB (option (obj occupancy_row)) :=
  gets (fun w => first (fun o => (o~>oc_user ==? resident) && o~>oc_active &&
    match find o~>oc_unit (units w) with
    | Some u => u~>un_building ==? building
    | None => false
    end) (occupancies w)).

Definition resolved (now : Z) (reply : string) (i : info_request_row) : info_request_row :=
  i <| ir_reply_text := reply |> <| ir_resolved_at := Some now |>.

Definition reply_information (resident report_id : Z) (text : string) :
    DB (obj info_request_row) :=
  atomic (
    report ← _locked_report report_id;
    require (report~>rp_reporter ==? resident)
      (PermissionDenied "Only the reporter may reply to an information request.") ;;
    info ← query_first info_requests (open_request (pk report));
    match info with
    | None => raise (ValidationError "No open information request for this report.")
    | Some info =>
      require (truthy (py_strip text))
        (ValidationError "A reply needs text (photos may be attached separately).") ;;
      building ← unit_building report~>rp_unit;
      occupancy ← active_occupancy resident building;
      match occupancy with
      | None => raise (PermissionDenied "Active occupancy in the building is required.")
      | Some occupancy =>
        now ← timezone_now;
        save info_requests (pk info) (resolved now (py_strip text)) ;;
        set_status RInReview report ;;
        record_audit resident None "request.info_replied" "InfoRequest" (zstr (pk info))
          "accepted" [("report_id", PInt (pk report)); ("occupancy_id", PInt (pk occupancy))] ;;
        mret (Obj (pk info) (resolved now (py_strip text) (val info)))
      end
    end).

Definition declined_row (manager now : Z) (reason : string) (r : report_row) : report_row :=
  r <| rp_status := RDeclined |> <| rp_declined_reason := reason |>
    <| rp_declined_by := Some manager |> <| rp_declined_at := Some now |>.

(** Another report of the case that is not in a terminal status. *)
Definition has_other_open (w : world) (case_id report_id : Z) : bool :=
  exists_ (fun l => (l~>cr_case ==? case_id) && negb (l~>cr_report ==? report_id) &&
    match find l~>cr_report (reports w) with
    | Some r => negb (terminal_status r~>rp_status)
    | None => false
    end) (case_reports w).

Definition close_if_abandoned (now report_id : Z) (l : obj case_report_row) : DB unit :=
  case ← get_row cases "MaintenanceCase" l~>cr_case;
  others ← gets (fun w => has_other_open w (pk case) report_id);
  if case~>ca_active && negb others then save cases (pk case) (close_row now) else mret tt.

Definition decline_report (report_id manager : Z) (reason : string) : DB (obj report_row) :=
  atomic (
    report ← _locked_report report_id;
    building ← unit_building report~>rp_unit;
    membership ← require_management manager building;
    require (negb (terminal_status report~>rp_status))
      (ValidationError "This request is already closed.") ;;
    require (truthy (py_strip reason))
      (ValidationError "Declining a request requires a reason the resident can read.") ;;
    now ← timezone_now;
    let decline := declined_row manager now (py_strip reason) in
    save reports (pk report) decline ;;
    let report := Obj (pk report) (decline (val report)) in
    links ← query case_reports (fun l => l~>cr_report ==? pk report);
    for_each (close_if_abandoned now (pk report)) links ;;
    record_audit manager (Some (pk membership)) "request.declined" "IssueReport"
      (zstr (pk report)) "accepted" [("reason_length", PInt (py_len report~>rp_declined_reason))] ;;
    swallow (notify_report_declined report) ;;
    mret report).

(** ** Ratings *)

(** [CompletionRating.Meta]: once per resident and case, once per resident and proposal,
    and exactly one of the two. *)
Definition insert_rating (r : rating_row) : DB (obj rating_row) :=
  require (negb (Bool.eqb (bool_decide (is_Some (ra_case r))) (bool_decide (is_Some (ra_proposal r)))))
    (IntegrityError "completion_rating_case_xor_proposal") ;;
  insert_unless ratings "completion_rating_once_per_resident"
    (fun r o => (o~>ra_resident ==? ra_resident r) &&
      ((bool_decide (is_Some (ra_case r)) && (o~>ra_case ==? ra_case r)) ||
       (bool_decide (is_Some (ra_proposal r)) && (o~>ra_proposal ==? ra_proposal r)))) r.

(** [satisfied] and [comment] as the API hands them over. *)
Definition rating_bool (satisfied : pyval) : DB bool :=
  match satisfied with
  | PBool b => mret b
  | _ => raise (ValidationError "Satisfied must be a boolean.")
  end.

Definition rate_completed_case (resident case_id : Z) (satisfied comment : pyval) :
    DB (obj rating_row) :=
  atomic (
    case ← query_first cases (fun c => pk c ==? case_id);
    case ← of_option (ValidationError "Case is required.") case;
    require (bool_decide (is_Some case~>ca_completed_at))
      (ValidationError "Only completed cases can be rated.") ;;
    satisfied ← rating_bool satisfied;
    comment ← (match comment with
      | PNone => mret ""
      | PStr s => mret (py_strip s)
      | _ => raise (ValidationError "Rating comment must be text.")
      end);
    require (py_len comment <=? 500)
      (ValidationError "Rating comment must be at most 500 characters.") ;;
    owns_report ← gets (fun w => exists_ (fun r =>
      linked w (pk case) (pk r) && (r~>rp_reporter ==? resident)) (reports w));
    require owns_report
      (PermissionDenied "Only residents who reported this case may rate the work.") ;;
    occupancy ← active_occupancy resident case~>ca_building;
    occupancy ← of_option
      (PermissionDenied "Active occupancy in the building is required to rate work.") occupancy;
    rated ← query_exists ratings
      (fun r => (r~>ra_resident ==? resident) && (r~>ra_case ==? Some (pk case)));
    require (negb rated)
      (ValidationError "This case has already been rated by this resident.") ;;
    now ← timezone_now;
    rating ← insert_rating (Rating resident (Some (pk case)) None satisfied comment now);
    record_audit resident None "work.rate" "CompletionRating" (zstr (pk rating)) "accepted"
      [("occupancy_id", PInt (pk occupancy)); ("case_id", PInt (pk case))] ;;
    linked_to ← gets (fun w => linked w (pk case));
    bulk_update reports (fun r => linked_to (pk r) && (r~>rp_reporter ==? resident) &&
        (r~>rp_status ==? RCompleted)) (fun r => r <| rp_status := RClosed |>) ;;
    rest ← open_reports (pk case);
    (match rest with
     | [] => save cases (pk case) (close_row now)
     | _ => mret tt
     end) ;;
    mret rating).

Definition rate_completed_proposal (resident proposal_id : Z) (satisfied comment : pyval) :
    DB (obj rating_row) :=
  atomic (
    proposal ← query_first proposals (fun p => (pk p ==? proposal_id) && (p~>pr_case ==? None));
    proposal ← of_option (ValidationError "Standalone proposal is required.") proposal;
    require ((proposal~>pr_status ==? PCompleted) &&
        bool_decide (is_Some proposal~>pr_completed_at))
      (ValidationError "Only completed proposals can be rated.") ;;
    satisfied ← rating_bool satisfied;
    comment ← (match comment with
      | PNone => mret ""
      | PStr s => require (py_len (py_strip s) <=? 500)
          (ValidationError "Rating comment must be text of at most 500 characters.") ;;
          mret (py_strip s)
      | _ => raise (ValidationError "Rating comment must be text of at most 500 characters.")
      end);
    occupancy ← active_occupancy resident proposal~>pr_building;
    occupancy ← of_option
      (PermissionDenied "Active occupancy in the building is required to rate work.") occupancy;
    rated ← query_exists ratings
      (fun r => (r~>ra_resident ==? resident) && (r~>ra_proposal ==? Some (pk proposal)));
    require (negb rated)
      (ValidationError "This proposal has already been rated by this resident.") ;;
    now ← timezone_now;
    rating ← insert_rating (Rating resident None (Some (pk proposal)) satisfied comment now);
    record_audit resident None "work.rate" "CompletionRating" (zstr (pk rating)) "accepted"
      [("occupancy_id", PInt (pk occupancy)); ("proposal_id", PInt (pk proposal))] ;;
    mret rating).

(** ** What a report and a case may become *)

Definition same_report (r r' : report_row) : Prop :=
  rp_reporter r' = rp_reporter r /\ rp_unit r' = rp_unit r /\ rp_building r' = rp_building r /\
  rp_text r' = rp_text r /\ rp_selected_location r' = rp_selected_location r /\
  rp_location_path_snapshot r' = rp_location_path_snapshot r /\
  rp_is_private r' = rp_is_private r /\ rp_client_ref r' = rp_client_ref r.
Definition same_decline (r r' : report_row) : Prop :=
  rp_declined_reason r' = rp_declined_reason r /\ rp_declined_by r' = rp_declined_by r /\
  rp_declined_at r' = rp_declined_at r.

Record report_step (r r' : report_row) : Prop := {
  rs_same : same_report r r';
  rs_terminal : terminal_status (rp_status r) = true ->
    same_decline r r' /\
    (rp_status r' = rp_status r \/ rp_status r = RCompleted /\ rp_status r' = RClosed);
  rs_declined : rp_status r' = RDeclined ->
    rp_status r = RDeclined \/
    truthy (rp_declined_reason r') = true /\ is_Some (rp_declined_by r') /\
    is_Some (rp_declined_at r');
}.

#[export] Instance report_step_preorder : PreOrder report_step.
Proof.
  split.
  - intros r. split; [by repeat split|intros; split; [by repeat split|auto]|auto].
  - intros a b c [S1 T1 D1] [S2 T2 D2]. unfold same_report, same_decline in *. split.
    + destruct_and?. repeat split; congruence.
    + intros H. destruct (T1 H) as [E1 St1].
      assert (terminal_status (rp_status b) = true) as Hb
        by (destruct St1 as [->|[_ ->]]; done).
      destruct (T2 Hb) as [E2 St2]. split; [destruct_and?; repeat split; congruence|].
      destruct St1 as [E|[Ea Eb]], St2 as [E'|[Eb' Ec]]; try (left; congruence);
        right; split; congruence.
    + intros H. destruct (D2 H) as [Hb|?]; [|auto]. destruct (D1 Hb) as [?|Hx]; [auto|].
      right. assert (terminal_status (rp_status b) = true) as Hb' by by rewrite Hb.
      destruct (T2 Hb') as [(-> & -> & ->) _]. done.
Qed.

Record case_step (c c' : case_row) : Prop := {
  cs_same : ca_decision c' = ca_decision c /\ ca_building c' = ca_building c /\
    ca_category c' = ca_category c /\ ca_urgency c' = ca_urgency c /\
    ca_location c' = ca_location c /\ ca_management_queue c' = ca_management_queue c /\
    ca_deadline_at c' = ca_deadline_at c;
  cs_started : is_Some (ca_started_at c) -> ca_started_at c' = ca_started_at c;
  cs_completed : is_Some (ca_completed_at c) -> ca_completed_at c' = ca_completed_at c;
  cs_work : ca_completed_at c = None -> is_Some (ca_completed_at c') -> is_Some (ca_started_at c');
  cs_active : ca_active c = false -> ca_active c' = false;
  cs_closed : ca_active c = true -> ca_active c' = false -> is_Some (ca_closed_at c');
  cs_closed_once : is_Some (ca_closed_at c) -> is_Some (ca_closed_at c');
}.

#[export] Instance case_step_preorder : PreOrder case_step.
Proof.
  split.
  - intros c. split; auto; [by repeat split|by intros -> []|congruence].
  - intros a b c [S1 B1 C1 W1 A1 X1 O1] [S2 B2 C2 W2 A2 X2 O2]. split.
    + destruct_and?. repeat split; congruence.
    + intros H. rewrite <- (B1 H). apply B2. by rewrite (B1 H).
    + intros H. rewrite <- (C1 H). apply C2. by rewrite (C1 H).
    + intros Ha Hc. destruct (ca_completed_at b) eqn:E; [|by apply W2].
      rewrite B2; apply W1; by eauto.
    + auto.
    + intros Ha Hc. destruct (ca_active b) eqn:E; [by apply X2|]. apply O2, X1; done.
    + auto.
Qed.

Inductive case_op :=
  | StartWork (case manager : Z)
  | Progress (case : option Z) (manager : Z) (cause result : string) (proposal : option Z)
  | CompleteProposal (proposal manager : Z) (cause result : string)
  | CompleteCase (case manager : Z) (cause result : string)
  | CloseExpired (now : option Z)
  | RequestInfo (report manager : Z) (message : string)
  | ReplyInfo (resident report : Z) (text : string)
  | Decline (report manager : Z) (reason : string)
  | RateCase (resident case : Z) (satisfied comment : pyval)
  | RateProposal (resident proposal : Z) (satisfied comment : pyval).

Definition run_case (op : case_op) : DB unit :=
  match op with
  | StartWork c m => _ ← start_case_work c m; mret tt
  | Progress c m a b p => _ ← publish_progress c m a b p; mret tt
  | CompleteProposal p m a b => _ ← complete_proposal_work p m a b; mret tt
  | CompleteCase c m a b => _ ← complete_case_work c m a b; mret tt
  | CloseExpired n => _ ← close_expired_completed_cases n; mret tt
  | RequestInfo r m x => _ ← request_information r m x; mret tt
  | ReplyInfo u r x => _ ← reply_information u r x; mret tt
  | Decline r m x => _ ← decline_report r m x; mret tt
  | RateCase u c s x => _ ← rate_completed_case u c s x; mret tt
  | RateProposal u p s x => _ ← rate_completed_proposal u p s x; mret tt
  end.

Section Keeps.
Implicit Types (w : world).

(** A swallowed hook keeps every table. *)
Lemma keeps_swallow_told {R} (T : world -> table R) (E : table R -> table R -> Prop)
    `{!PreOrder E} m w :
  (forall ns, T (w <| w_on_commit := ns |>) = T w) -> told m w -> keeps (on T E) (swallow m) w.
Proof.
  intros HT [ns H]. unfold keeps, on. rewrite H. cbn [snd]. rewrite HT. reflexivity.
Qed.
End Keeps.

Create HintDb told discriminated.
#[export] Hint Resolve told_report_receipt told_info_requested told_report_declined
  told_triage_confirmed told_progress_update told_case_completed told_settled told_publication
  told_integrity_mismatch : told.

Section Facts.
Implicit Types (w : world).

Lemma status_step s r :
  terminal_status (rp_status r) = false -> s <> RDeclined ->
  report_step r (r <| rp_status := s |>).
Proof.
  intros H Hs. split; [by repeat split|congruence|]. simpl. congruence.
Qed.

Lemma closed_step r : rp_status r = RCompleted -> report_step r (r <| rp_status := RClosed |>).
Proof.
  intros H. split; [by repeat split| |done]. intros _. split; [by repeat split|]. auto.
Qed.

Lemma declined_step m now reason r :
  terminal_status (rp_status r) = false -> truthy reason = true ->
  report_step r (declined_row m now reason r).
Proof.
  intros H Hr. split; [by repeat split|congruence|]. intros _. right. cbn. eauto.
Qed.

Lemma close_step now c : case_step c (close_row now c).
Proof. split; cbn; eauto; try done. by intros -> []. Qed.

(** Saving a status over a list of reports read before the loop. *)
Lemma set_status_all s l w :
  exists t, for_each (set_status s) l w = (Ok tt, w <| reports := t |>) /\
    (table_wf (reports w) -> table_wf t) /\
    forall k, rows t !! k =
      (fun r => if decide (k ∈ pk <$> l) then r <| rp_status := s |> else r) <$> rows (reports w) !! k.
Proof.
  revert w. induction l as [|o l IH]; intros w; cbn [for_each].
  { exists (reports w). split; [by destruct w|]. split; [done|]. intros k.
    by destruct (rows _ !! k). }
  destruct (IH (w <| reports ::= update (pk o) (fun r => r <| rp_status := s |>) |>))
    as (t & E & Hwf & Hrows). exists t.
  unfold mbind, M_bind, set_status at 1, save, modify. rewrite E. split; [done|].
  split; [intros H; apply Hwf; cbn; auto with tables|]. intros k. rewrite Hrows. cbn.
  rewrite lookup_alter. destruct (decide (pk o = k)) as [<-|Hne].
  - destruct (rows (reports w) !! pk o); [|done]. cbn. rewrite (decide_True (P := _ ∈ _ :: _)) by left.
    by case_decide.
  - destruct (rows (reports w) !! k); [|done]. cbn. repeat case_decide; try done; exfalso;
      rewrite elem_of_cons in *; naive_solver.
Qed.

Lemma keeps_status_all s l w :
  s <> RDeclined ->
  (forall o, o ∈ l -> rows (reports w) !! pk o = Some (val o) /\
                      terminal_status o~>rp_status = false) ->
  keeps (on reports (evolves report_step)) (for_each (set_status s) l) w.
Proof.
  intros Hs Hl. destruct (set_status_all s l w) as (t & E & Hwf & Hrows).
  unfold keeps, on. rewrite E. cbn. intros Ht. split; [by apply Hwf|]. intros k r Hk.
  rewrite Hrows, Hk. cbn. eexists. split; [done|]. case_decide as Hin; [|reflexivity].
  apply list_elem_of_fmap in Hin as (o & -> & [Ho Hn]%Hl). apply status_step; [congruence|done].
Qed.

Lemma open_reports_spec c w l w' :
  open_reports c w = (Ok l, w') -> w' = w /\ forall o, o ∈ l ->
    rows (reports w) !! pk o = Some (val o) /\ terminal_status o~>rp_status = false.
Proof.
  unfold open_reports. intros [<- <-]%gets_Ok. split; [done|].
  intros o [Ho H]%elem_of_select. to_prop. done.
Qed.

Lemma locked_report_spec k w r w' :
  _locked_report k w = (Ok r, w') -> w' = w /\ pk r = k /\ rows (reports w) !! k = Some (val r).
Proof. unfold _locked_report. intros H. inv_db. inv_query. to_prop. by subst. Qed.

Lemma locked_case_spec k w c w' :
  _locked_case k w = (Ok c, w') ->
  w' = w /\ pk c = k /\ rows (cases w) !! k = Some (val c) /\ c~>ca_active = true /\
  c~>ca_completed_at = None.
Proof. unfold _locked_case. intros H. inv_db. case_match; inv_db. inv_query. to_prop. by subst. Qed.

Lemma started_case_spec k w c w' :
  _started_case k w = (Ok c, w') ->
  w' = w /\ pk c = k /\ rows (cases w) !! k = Some (val c) /\ c~>ca_active = true /\
  c~>ca_completed_at = None /\ is_Some c~>ca_started_at.
Proof.
  unfold _started_case. intros H. inv_db.
  match goal with H : _locked_case _ _ = _ |- _ => apply locked_case_spec in H end.
  to_prop. naive_solver.
Qed.
Lemma unit_building_spec u w b w' :
  unit_building u w = (Ok b, w') ->
  w' = w /\ exists r, rows (units w) !! u = Some r /\ un_building r = b.
Proof. unfold unit_building. intros H. inv_db. inv_query. eauto. Qed.

Lemma insert_info_request_spec r w o w' :
  insert_info_request r w = (Ok o, w') ->
  o = Obj (next (info_requests w)) r /\ w' = set info_requests (insert_row r) w.
Proof. unfold insert_info_request. intros H. inv_db. done. Qed.

Lemma append_update_spec c m a b p w u w' :
  _append_update c m a b p w = (Ok u, w') ->
  truthy (py_strip a) = true /\ truthy (py_strip b) = true /\
  u = Obj (next (work_updates w)) (WorkUpdate c p (Some m) (py_strip a) (py_strip b)) /\
  w' = set work_updates (insert_row (val u)) w.
Proof.
  unfold _append_update, insert_work_update. intros H. inv_db. to_prop.
  repeat split; try done.
Qed.

Lemma insert_rating_spec r w o w' :
  insert_rating r w = (Ok o, w') ->
  o = Obj (next (ratings w)) r /\ w' = set ratings (insert_row r) w.
Proof. unfold insert_rating. intros H. inv_db. done. Qed.

Lemma active_occupancy_spec u b w o w' :
  active_occupancy u b w = (Ok o, w') -> w' = w.
Proof. unfold active_occupancy. intros H. by inv_db. Qed.

Lemma rating_bool_spec v w b w' : rating_bool v w = (Ok b, w') -> v = PBool b /\ w' = w.
Proof. unfold rating_bool. intros H. case_match; inv_db. done. Qed.

Lemma standalone_spec k w p w' :
  standalone_in_progress k w = (Ok p, w') ->
  w' = w /\ pk p = k /\ rows (proposals w) !! k = Some (val p) /\ p~>pr_case = None /\
  p~>pr_status = PInProgress.
Proof.
  unfold standalone_in_progress. intros H. inv_db. case_match; inv_db. inv_query. to_prop.
  by subst.
Qed.
End Facts.

(** [keeps_op] through the hooks as well. *)
Ltac keeps_svc_unfold :=
  match goal with
  | |- keeps _ (set_status _ _) _ => unfold set_status
  | |- keeps _ (_locked_case _) _ => unfold _locked_case
  | |- keeps _ (_started_case _) _ => unfold _started_case
  | |- keeps _ (_append_update _ _ _ _ _) _ => unfold _append_update
  | |- keeps _ (insert_work_update _) _ => unfold insert_work_update
  | |- keeps _ (proposal_awaiting_decision _) _ => unfold proposal_awaiting_decision
  | |- keeps _ (standalone_in_progress _) _ => unfold standalone_in_progress
  | |- keeps _ (open_reports _) _ => unfold open_reports
  | |- keeps _ (active_occupancy _ _) _ => unfold active_occupancy
  | |- keeps _ (unit_building _) _ => unfold unit_building
  | |- keeps _ (_locked_report _) _ => unfold _locked_report
  | |- keeps _ (insert_info_request _) _ => unfold insert_info_request
  | |- keeps _ (insert_rating _) _ => unfold insert_rating
  | |- keeps _ (rating_bool _) _ => unfold rating_bool
  end.
Ltac keeps_svc_step := first [keeps_step | keeps_db_step | keeps_op_step | keeps_svc_unfold].
Ltac keeps_svc :=
  repeat (first
    [ (match goal with |- keeps _ (swallow _) _ =>
         apply keeps_swallow_told; [apply _|reflexivity|auto with told] end)
    | (match goal with |- keeps (on reports _) (for_each (set_status _) _) _ =>
         apply keeps_status_all; [discriminate|] end)
    | keeps_svc_step ]).

Ltac inv_case_step :=
  match goal with
  | H : proposal_awaiting_decision _ _ = (Ok _, _) |- _ =>
    unfold proposal_awaiting_decision in H; apply query_first_Ok in H; destruct H as [? ?]
  | H : unit_building _ _ = (Ok _, _) |- _ => apply unit_building_spec in H; destruct H as (? & ? & ? & ?)
  | H : insert_info_request _ _ = (Ok _, _) |- _ => apply insert_info_request_spec in H; destruct H as [? ?]
  | H : insert_rating _ _ = (Ok _, _) |- _ => apply insert_rating_spec in H; destruct H as [? ?]
  | H : active_occupancy _ _ _ = (Ok _, _) |- _ => apply active_occupancy_spec in H
  | H : rating_bool _ _ = (Ok _, _) |- _ => apply rating_bool_spec in H; destruct H as [? ?]
  | H : _append_update _ _ _ _ _ _ = (Ok _, _) |- _ =>
    apply append_update_spec in H; destruct H as (? & ? & ? & ?)
  | H : standalone_in_progress _ _ = (Ok _, _) |- _ =>
    apply standalone_spec in H; destruct H as (? & ? & ? & ? & ?)
  | H : _locked_report _ _ = (Ok _, _) |- _ => apply locked_report_spec in H; destruct H as (? & ? & ?)
  | H : _started_case _ _ = (Ok _, _) |- _ =>
    apply started_case_spec in H; destruct H as (? & ? & ? & ? & ? & ?)
  | H : _locked_case _ _ = (Ok _, _) |- _ =>
    apply locked_case_spec in H; destruct H as (? & ? & ? & ? & ?)
  | H : open_reports _ _ = (Ok _, _) |- _ => apply open_reports_spec in H; destruct H as [? ?]
  end.
Ltac inv_svc :=
  repeat ((inv_case_step || inv_accounts_step || inv_ok_step || inv_db_step); simplify_eq).

Section Lifecycles.
Implicit Types (w : world).
Notation keeps_reports := (keeps (on reports (evolves report_step))).
Notation keeps_cases := (keeps (on cases (evolves case_step))).

Lemma keeps_close_case_reports now c w : keeps_reports (close_case now c) w.
Proof. unfold close_case. keeps_svc. to_prop. by apply closed_step. Qed.
Lemma keeps_close_case_cases now c w : keeps_cases (close_case now c) w.
Proof. unfold close_case. keeps_svc. apply close_step. Qed.
Lemma keeps_close_proposal {R} (T : world -> table R) E `{!PreOrder E} now p w :
  (forall f, T (w <| proposals ::= f |>) = T w) -> keeps (on T E) (close_proposal now p) w.
Proof.
  intros HT. unfold close_proposal. keeps_svc. unfold on. inv_db. rewrite HT. reflexivity.
Qed.
Lemma keeps_abandoned_reports now r l w : keeps_reports (close_if_abandoned now r l) w.
Proof. unfold close_if_abandoned. keeps_svc. Qed.
Lemma keeps_abandoned_cases now r l w : keeps_cases (close_if_abandoned now r l) w.
Proof. unfold close_if_abandoned. keeps_svc. apply close_step. Qed.

(** The reply is the one operation that does not look at the report's status. *)
Definition reply_regular (op : case_op) w : Prop :=
  match op with
  | ReplyInfo _ k _ => forall r, rows (reports w) !! k = Some r -> terminal_status (rp_status r) = false
  | _ => True
  end.

Lemma keeps_case_reports op w : reply_regular op w -> keeps_reports (run_case op) w.
Proof.
  intros Hreg. destruct op; cbn [run_case reply_regular] in *;
    unfold start_case_work, publish_progress, complete_proposal_work, complete_case_work,
      close_expired_completed_cases, request_information, reply_information, decline_report,
      rate_completed_case, rate_completed_proposal;
    keeps_svc; try (apply keeps_close_proposal; [apply _|reflexivity]);
    auto using keeps_close_case_reports, keeps_abandoned_reports;
    inv_svc; inv_query; to_prop; simplify_eq/=; try done;
    try first [by apply closed_step | by apply declined_step | apply status_step; [|discriminate]];
    eauto.
Qed.

Lemma started_step now c :
  ca_started_at c = None -> case_step c (c <| ca_started_at := Some now |>).
Proof. intros H. split; cbn; eauto; try done; [rewrite H; by intros []|congruence]. Qed.
Lemma completed_step now c :
  ca_completed_at c = None -> is_Some (ca_started_at c) ->
  case_step c (c <| ca_completed_at := Some now |>).
Proof. intros H Hs. split; cbn; eauto; try done; [rewrite H; by intros []|congruence]. Qed.

Lemma keeps_case_cases op w : keeps_cases (run_case op) w.
Proof.
  destruct op; cbn [run_case];
    unfold start_case_work, publish_progress, complete_proposal_work, complete_case_work,
      close_expired_completed_cases, request_information, reply_information, decline_report,
      rate_completed_case, rate_completed_proposal;
    keeps_svc; try (apply keeps_close_proposal; [apply _|reflexivity]);
    auto using keeps_close_case_cases, keeps_abandoned_cases, close_step;
    inv_svc; inv_query; to_prop; simplify_eq/=;
    first [by apply started_step | by apply completed_step].
Qed.
End Lifecycles.

(** ** Completing work, exactly *)

Section Completion.
Implicit Types (w : world).

(** The reports a completed case completes. *)
Definition completes w (case_id : Z) (o : obj report_row) : bool :=
  linked w case_id (pk o) && negb (terminal_status o~>rp_status).

Lemma in_selected {R} (P : obj R -> bool) (t : table R) j r :
  rows t !! j = Some r -> j ∈ pk <$> select P t <-> P (Obj j r) = true.
Proof.
  intros Hj. rewrite list_elem_of_fmap. split.
  - intros ([k v] & -> & [Hk HP]%elem_of_select). cbn in *. congruence.
  - intros HP. exists (Obj j r). split; [done|]. by apply elem_of_select.
Qed.

(** [complete_case_work] undone into its writes. *)
Lemma complete_case_run k m cause result w c w' :
  complete_case_work k m cause result w = (Ok c, w') ->
  exists c0 ms t, rows (cases w) !! k = Some c0 /\ ca_active c0 = true /\
    is_Some (ca_started_at c0) /\ ca_completed_at c0 = None /\
    rows (memberships w) !! pk ms = Some (val ms) /\ manages m (ca_building c0) ms = true /\
    truthy (py_strip cause) = true /\ truthy (py_strip result) = true /\
    cases w' = update k (fun c => c <| ca_completed_at := Some (w_now w) |>) (cases w) /\
    work_updates w' =
      insert_row (WorkUpdate (Some k) None (Some m) (py_strip cause) (py_strip result)) (work_updates w) /\
    proposals w' =
      match first (fun p => (p~>pr_case ==? Some k) && (p~>pr_status ==? PInProgress)) (proposals w) with
      | Some p => update (pk p) (completed_proposal (w_now w)) (proposals w)
      | None => proposals w
      end /\
    reports w' = t /\
    forall j, rows t !! j =
      (fun r => if decide (j ∈ pk <$> select (completes w k) (reports w))
                then r <| rp_status := RCompleted |> else r) <$> rows (reports w) !! j.
Proof.
  unfold complete_case_work. intros H. inv_db.
  repeat match goal with
  | H : _started_case _ _ = _ |- _ => apply started_case_spec in H as (? & ? & ? & ? & ? & ?); subst
  | H : require_management _ _ _ = _ |- _ =>
    apply require_management_Ok in H as [Hm ?]; subst
  | H : _append_update _ _ _ _ _ _ = _ |- _ => apply append_update_spec in H as (? & ? & ? & ?); subst
  | H : record_audit _ _ _ _ _ _ _ _ = _ |- _ => apply record_audit_Ok in H as (_ & ? & ?); subst
  | H : open_reports _ _ = _ |- _ => unfold open_reports in H; apply gets_Ok in H as [<- <-]
  end.
  match goal with H : (match ?e with _ => _ end) _ = (Ok _, ?w1) |- _ =>
    assert (Hp : proposals w1 = match e with
      | Some p => update (pk p) (completed_proposal (w_now w)) (proposals w)
      | None => proposals w end /\ reports w1 = reports w /\ case_reports w1 = case_reports w /\
      work_updates w1 = insert_row (WorkUpdate (Some (pk x)) None (Some m) (py_strip cause)
        (py_strip result)) (work_updates w) /\
      cases w1 = update (pk x) (fun c => c <| ca_completed_at := Some (w_now w) |>) (cases w));
    [destruct e; inv_db; done|]; clear H; rename w1 into wp end.
  destruct Hp as (Hpr & Hr & Hl & Hu & Hc).
  match goal with H : for_each _ ?l ?w1 = _ |- _ =>
    destruct (set_status_all RCompleted l w1) as (t & E & _ & Hrows); rewrite E in H;
    injection H as _ <- end.
  match goal with H : swallow (notify_case_completed ?c) ?w1 = _ |- _ =>
    destruct (told_case_completed c w1) as [ns Ens]; rewrite Ens in H; injection H as _ <- end.
  apply first_Some in Hm as [Hm Hman]. unfold completes, linked in *. rewrite Hr, Hl in Hrows.
  exists (val x), x1, t. repeat (split; [first [assumption|reflexivity]|]). exact Hrows.
Qed.
End Completion.

(** ** Properties *)

Section Properties.
Implicit Types (w : world).


(** A case's life.  The same operations keep every case, its triage and its deadline;
    start and completion are stamped once, completion only after a start; a case that
    stops being active gets a closing date and never becomes active again. *)
Theorem case_lifecycle op w : on cases (evolves case_step) w (run_case op w).2.
Proof. apply keeps_case_cases. Qed.

(** What completing a case does.  An accepted completion was of an active, started,
    uncompleted case, by a manager of its building, with a cause and a result.  It stamps
    the completion and records the work update; the linked reports that were not declined,
    completed or closed become COMPLETED and every other report is as it was; a proposal
    that nobody decided to proceed with is untouched. *)
Theorem complete_case_work_effect k m cause result w c w' :
  complete_case_work k m cause result w = (Ok c, w') ->
  exists c0, rows (cases w) !! k = Some c0 /\ ca_active c0 = true /\
    is_Some (ca_started_at c0) /\ ca_completed_at c0 = None /\
    (exists j r, rows (memberships w) !! j = Some r /\ manages m (ca_building c0) (Obj j r) = true) /\
    rows (cases w') !! k = Some (c0 <| ca_completed_at := Some (w_now w) |>) /\
    rows (work_updates w') !! next (work_updates w) =
      Some (WorkUpdate (Some k) None (Some m) (py_strip cause) (py_strip result)) /\
    (forall j r, rows (reports w) !! j = Some r -> rows (reports w') !! j =
      Some (if linked w k j && negb (terminal_status (rp_status r))
            then r <| rp_status := RCompleted |> else r)) /\
    (forall j p, rows (proposals w) !! j = Some p ->
      pr_case p <> Some k \/ pr_status p <> PInProgress ->
      rows (proposals w') !! j = Some p).
Proof.
  intros (c0 & ms & t & Hc & Ha & Hs & Hn & Hm & Hman & _ & _ & Ec & Eu & Ep & Er & Hrows)
    %complete_case_run.
  exists c0. repeat (split; [assumption|]).
  split; [exists (pk ms), (val ms); by destruct ms|].
  split; [by rewrite Ec, lookup_update, decide_True, Hc by done|].
  split; [by rewrite Eu, lookup_inserted|]. split.
  - intros j r Hj. rewrite Er, Hrows, Hj. cbn [fmap option_fmap option_map]. f_equal.
    pose proof (in_selected (completes w k) (reports w) j r Hj) as Hin. unfold completes in Hin.
    cbn [pk val] in Hin. case_decide as E; destruct (linked w k j && _); try done; naive_solver.
  - intros j p Hj Hne. rewrite Ep. destruct (first _ _) as [q|] eqn:Eq; [|done].
    apply first_Some in Eq as [Hq HP]. rewrite lookup_update. destruct (decide (pk q = j)) as [<-|]; [|done].
    assert (p = val q) as -> by congruence. to_prop. by destruct Hne.
Qed.
End Properties.

(** ** Concrete runs *)

Definition demo_report (s : report_status) : report_row :=
  Report 2 1 1 "Leak" 1 "Tower A / Roof" s false "" None None None.
Definition demo_case : case_row :=
  Case 1 1 "WATER_LEAK" "HIGH" 1 "PLUMBING" (days 1) true (Some 0) None None.
(** One building, a manager (1), a resident (2), and one report under a started case. *)
Definition demo_site : world :=
  empty_world (Settings true 0 "" "" "" "" true 10) 0
    <| buildings ::= insert_row "Tower A" |>
    <| users ::= insert_row (User None "Staff" None "pw" true) |>
    <| users ::= insert_row (User None "An" None "pw" true) |>
    <| memberships ::= insert_row (Membership 1 1 true) |>
    <| units ::= insert_row (Unit_ 1 "A-101") |>
    <| occupancies ::= insert_row (Occupancy 2 1 true) |>
    <| reports ::= insert_row (demo_report RInProgress) |>
    <| cases ::= insert_row demo_case |>
    <| case_reports ::= insert_row (CaseReport 1 1 1) |>.


Lemma complete_case_work_effect_witness :
  exists c0, rows (cases demo_site) !! 1 = Some c0 /\ is_Some (ca_started_at c0).
Proof.
  destruct (complete_case_work_effect 1 1 "Pipe" "Replaced" demo_site
    (Obj 1 (demo_case <| ca_completed_at := Some 0 |>))
    (complete_case_work 1 1 "Pipe" "Replaced" demo_site).2) as (c0 & Hc & _ & Hs & _).
  - vm_compute. reflexivity.
  - exists c0. split; [exact Hc|exact Hs].
Defined.

(** The manager asks for information, then declines the request; the resident's answer to
    the question still open puts the declined request back in review. *)
Definition asked : world := (request_information 1 1 "Which floor?" demo_site).2.
Definition declined : world := (decline_report 1 1 "Not ours" asked).2.
Definition answered : result (obj info_request_row) * world := reply_information 2 1 "Third" declined.
Definition report_status_of (k : Z) (w : world) : option report_status :=
  rp_status <$> rows (reports w) !! k.

(** Answering an information request reopens a declined report.  The request is
    declined, with its only case closed, while a question is open; the resident's reply is
    accepted and moves the declined report back to IN_REVIEW, its case staying closed. *)
Theorem reply_reopens_declined :
  report_status_of 1 declined = Some RDeclined /\
  ca_active <$> rows (cases declined) !! 1 = Some false /\
  (exists i, answered.1 = Ok i) /\
  report_status_of 1 answered.2 = Some RInReview /\
  ca_active <$> rows (cases answered.2) !! 1 = Some false.
Proof. vm_compute. repeat split. by eexists. Qed.
