(* ===== verification/Locations.v ===== *)
(** * Locations: the walk from a building location to its root

    The loop that [_active_location] of [maintenance/triage.py] and [submit_report] of
    [maintenance/reporting.py] share: follow [parent] while every location is active,
    belongs to the building and has not been seen.  [walk] carries fuel; [rooted] is the
    path it looks for, and one more step than there are locations is always enough. *)

From S2P Require Import Prelude Table PyStr Schema Store.
Open Scope Z_scope.

Section Walk.
Context (building_id : Z) (bad invalid : exn) (t : table location_row).

(** The names on the path, from [curr] up to the root.  [bad] is raised on a location that
    was seen, is inactive or is of another building, [invalid] when a parent is missing. *)
Fixpoint walk (fuel : nat) (seen : list Z) (curr : option (obj location_row)) :
    result (list string) :=
  match fuel with
  | O => Err (DatabaseError "fuel")
  | S fuel =>
    match curr with
    | None => Err invalid
    | Some c =>
      if bool_decide (pk c ∈ seen) || negb c~>lo_active || negb (c~>lo_building ==? building_id)
      then Err bad
      else
        match c~>lo_parent with
        | None => Ok [c~>lo_name]
        | Some p =>
          names ← walk fuel (pk c :: seen) (find p t);
          Ok (c~>lo_name :: names)
        end
    end
  end.

Definition walk_fuel : nat := S (size (rows t)).

(** A path of active locations of the building up to a root, with the names on it. *)
Inductive rooted : Z -> list string -> Prop :=
  | rooted_top k r :
      rows t !! k = Some r -> lo_active r = true -> lo_building r = building_id ->
      lo_parent r = None -> rooted k [lo_name r]
  | rooted_up k r p names :
      rows t !! k = Some r -> lo_active r = true -> lo_building r = building_id ->
      lo_parent r = Some p -> rooted p names -> rooted k (lo_name r :: names).

Lemma rooted_inv k names :
  rooted k names -> exists r, rows t !! k = Some r /\ lo_active r = true /\
    lo_building r = building_id /\
    match lo_parent r with
    | None => names = [lo_name r]
    | Some p => exists ns, names = lo_name r :: ns /\ rooted p ns
    end.
Proof. intros []; eexists; repeat (split; [done|]); case_match; simplify_eq; eauto. Qed.

Lemma rooted_functional k n1 n2 : rooted k n1 -> rooted k n2 -> n1 = n2.
Proof.
  intros H. revert n2. induction H as [k r Hk Ha Hb Hp|k r p ns Hk Ha Hb Hp Hr IH];
    intros n2 (r2 & Hk2 & _ & _ & H2)%rooted_inv; simplify_eq; rewrite Hp in H2; [done|].
  destruct H2 as (ns2 & -> & H2). by rewrite (IH _ H2).
Qed.

Lemma walk_sound fuel seen c names :
  (forall r, rows t !! pk c = Some r -> r = val c) -> is_Some (rows t !! pk c) ->
  walk fuel seen (Some c) = Ok names -> rooted (pk c) names.
Proof.
  revert seen c names. induction fuel as [|fuel IH]; intros seen c names Hc [r Hr]; [done|].
  cbn [walk]. assert (r = val c) as -> by auto.
  destruct (bool_decide (pk c ∈ seen) || _ || _) eqn:E; [done|]. to_prop.
  destruct (lo_parent (val c)) as [p|] eqn:Ep.
  - rewrite result_bind_Ok. intros (ns & Hw & [= <-]).
    destruct (find p t) as [c'|] eqn:Ef; [|by destruct fuel].
    apply find_Some in Ef as [<- Hc']. eapply rooted_up; try done.
    apply (IH _ _ _) in Hw; [done| |by eauto]. intros r'. congruence.
  - intros [= <-]. by apply rooted_top.
Qed.

(** The distinct locations already seen leave room for the rest of the walk. *)
Definition room (fuel : nat) (seen : list Z) : Prop :=
  NoDup seen /\ (forall k, k ∈ seen -> is_Some (rows t !! k)) /\
  (size (rows t) < fuel + length seen)%nat.

Lemma room_start : room walk_fuel [].
Proof. split; [constructor|]. split; [by intros k ?%elem_of_nil|]. unfold walk_fuel. cbn. lia. Qed.

Lemma seen_bounded seen :
  NoDup seen -> (forall k, k ∈ seen -> is_Some (rows t !! k)) -> (length seen <= size (rows t))%nat.
Proof.
  intros Hnd Hin. rewrite <- (size_list_to_set (C := gset Z)) by done. rewrite <- size_dom.
  apply subseteq_size. intros k. rewrite elem_of_list_to_set, elem_of_dom. apply Hin.
Qed.

Lemma room_positive fuel seen : room fuel seen -> exists n, fuel = S n.
Proof.
  intros (Hnd & Hin & Hlt). pose proof (seen_bounded seen Hnd Hin). destruct fuel; [cbn in *; lia|eauto].
Qed.

Lemma room_step fuel seen k :
  room (S fuel) seen -> k ∉ seen -> is_Some (rows t !! k) -> room fuel (k :: seen).
Proof.
  intros (Hnd & Hin & Hlt) Hk Hr. split; [by constructor|]. split; [|cbn in *; lia].
  intros j [->|Hj]%elem_of_cons; auto.
Qed.

(** With room, the walk never runs out of fuel ... *)
Lemma walk_no_fuel_error fuel seen curr :
  room fuel seen -> (forall c, curr = Some c -> is_Some (rows t !! pk c)) ->
  bad <> DatabaseError "fuel" -> invalid <> DatabaseError "fuel" ->
  walk fuel seen curr <> Err (DatabaseError "fuel").
Proof.
  intros Hroom Hc Hb Hi. revert seen curr Hroom Hc.
  induction fuel as [|fuel IH]; intros seen curr Hroom Hc.
  { by destruct (room_positive _ _ Hroom). }
  cbn [walk]. destruct curr as [c|]; [|congruence].
  destruct (bool_decide (pk c ∈ seen)) eqn:Es; cbn [orb]; [congruence|]. to_prop.
  destruct (negb _ || negb _); [congruence|]. destruct (lo_parent (val c)) as [p|]; [|done].
  assert (room fuel (pk c :: seen)) as Hr by (apply room_step; auto).
  specialize (IH (pk c :: seen) (find p t) Hr). cbn [mbind result_bind].
  destruct (walk fuel _ _) as [|e]; [done|]. cbn. intros [= ->]. apply IH; [|done].
  intros c' [<- ?]%find_Some. eauto.
Qed.

Lemma not_seen k names (seen : list Z) :
  rooted k names ->
  (forall j, j ∈ seen -> exists ns, rooted j ns /\ (length names < length ns)%nat) -> k ∉ seen.
Proof.
  intros H Hlong Hin. destruct (Hlong k Hin) as (m & Hm & Hlt).
  rewrite (rooted_functional _ _ _ H Hm) in Hlt. lia.
Qed.

(** ... and finds the path if there is one: a location already seen would have a longer
    path than itself. *)
Lemma walk_complete fuel seen k r names :
  rooted k names -> rows t !! k = Some r -> room fuel seen ->
  (forall j, j ∈ seen -> exists ns, rooted j ns /\ (length names < length ns)%nat) ->
  walk fuel seen (Some (Obj k r)) = Ok names.
Proof.
  intros H. revert fuel seen r. induction H as [k r0 Hk Ha Hb Hp|k r0 p ns Hk Ha Hb Hp Hr IH];
    intros fuel seen r Hkr Hroom Hlong; assert (r = r0) as -> by congruence;
    destruct (room_positive _ _ Hroom) as [n ->]; cbn [walk pk val];
    assert (k ∉ seen) as Hns by (eapply not_seen; [|exact Hlong]; eauto using rooted);
    rewrite (bool_decide_eq_false_2 _ Hns), Ha, (bool_decide_eq_true_2 _ Hb), Hp; cbn [negb orb].
  - done.
  - destruct (rooted_inv _ _ Hr) as (rp & Hrp & _). unfold find. rewrite Hrp. cbn [fmap option_fmap option_map].
    rewrite (IH n (k :: seen) rp); [done|done|apply room_step; eauto|].
    intros j [->|Hj]%elem_of_cons.
    + exists (lo_name r0 :: ns). split; [by eapply rooted_up|cbn; lia].
    + destruct (Hlong j Hj) as (m & Hm & Hlt). exists m. split; [done|cbn in *; lia].
Qed.

(** The walk, started with enough fuel, decides [rooted]. *)
Lemma walk_exact k r names :
  rows t !! k = Some r ->
  walk walk_fuel [] (Some (Obj k r)) = Ok names <-> rooted k names.
Proof.
  intros Hr. split.
  - intros H. apply walk_sound in H; [done| |eauto]. cbn. congruence.
  - intros H. eapply walk_complete; [done|done|apply room_start|]. by intros j ?%elem_of_nil.
Qed.

Lemma walk_errors fuel seen curr e :
  walk fuel seen curr = Err e -> e = bad \/ e = invalid \/ e = DatabaseError "fuel".
Proof.
  revert seen curr. induction fuel as [|fuel IH]; intros seen curr; cbn [walk]; [naive_solver|].
  destruct curr as [c|]; [|naive_solver]. destruct (_ || _); [naive_solver|].
  destruct (lo_parent (val c)); [|done]. cbn [mbind result_bind].
  destruct (walk fuel _ _) eqn:E; cbn; [done|]. intros [= <-]. eauto.
Qed.

Lemma walk_total k r :
  rows t !! k = Some r -> bad <> DatabaseError "fuel" -> invalid <> DatabaseError "fuel" ->
  walk walk_fuel [] (Some (Obj k r)) <> Err (DatabaseError "fuel").
Proof.
  intros Hr Hb Hi. apply walk_no_fuel_error; [apply room_start| |done|done].
  intros c [= <-]. eauto.
Qed.
End Walk.
