(* ===== verification/Triage.v ===== *)
(** * Triage: confirming a report into a case, and grouping reports

    [maintenance/triage.py], the normalizers of [maintenance/models.py], and the trigger of
    migration 0005 that keeps a report in at most one active case.  Strings are folded to
    upper case on ASCII letters only. *)

From S2P Require Import Prelude Table PyStr Schema Store.
From S2P Require Import Accounts Notifications Hooks Locations Cases.
Open Scope Z_scope.

(** ** Closed categories *)

Definition CaseCategory_values : list string :=
  ["ELEVATOR"; "WATER_LEAK"; "ELECTRICAL_FAULT"; "HEATING_COOLING"; "LIGHTING"; "DOOR_LOCK";
   "APPLIANCE"; "STRUCTURAL"; "CLEANLINESS"; "NOISE"; "OTHER"].
Definition ManagementQueue_values : list string :=
  ["MAINTENANCE"; "PLUMBING"; "ELECTRICAL"; "ELEVATOR"; "HVAC"; "CLEANING"; "SECURITY";
   "LANDSCAPING"; "PEST_CONTROL"; "GENERAL"].
Definition URGENCIES : list string := ["LOW"; "MEDIUM"; "HIGH"].

Definition is_code_char (c : ascii) : bool := is_upper c || is_digit c.
(** [re.sub(r"[^A-Z0-9]+", "_", s)]: [gap] when the previous character was replaced. *)
Fixpoint squash (gap : bool) (s : string) : string :=
  match s with
  | EmptyString => EmptyString
  | String c s =>
    if is_code_char c then String c (squash false s)
    else if gap then squash true s else String "_" (squash true s)
  end.
Definition is_underscore (c : ascii) : bool := Ascii.eqb c "_".
Definition to_code (value : string) : string :=
  strip_chars is_underscore (squash false (py_upper value)).

Definition normalize_category (value : string) : string :=
  let code := to_code value in if str_in code CaseCategory_values then code else "OTHER".
Definition normalize_management_queue (value : string) : string :=
  let code := to_code value in if str_in code ManagementQueue_values then code else "GENERAL".

(** ** Validation of the operator's decision *)

(** [value in URGENCIES], which raises on an unhashable value. *)
Definition in_urgencies (v : pyval) : result bool :=
  match v with
  | PStr s => Ok (str_in s URGENCIES)
  | PList _ | PDict _ => Err (TypeError "unhashable type")
  | _ => Ok false
  end.

Definition stripped_text (e : exn) (v : pyval) : result string :=
  match v with
  | PStr s => if truthy (py_strip s) then Ok (py_strip s) else Err e
  | _ => Err e
  end.

Definition _decision_values (category urgency management_queue deadline_minutes : pyval) :
    result (string * string * string * Z) :=
  category ← stripped_text (ValidationError "Case category is required.") category;
  let category := normalize_category category in
  known ← in_urgencies urgency;
  urgency ← (match urgency with
    | PStr u => if known : bool then Ok u else Err (ValidationError "Case urgency is invalid.")
    | _ => Err (ValidationError "Case urgency is invalid.")
    end);
  queue ← stripped_text (ValidationError "Management queue is required.") management_queue;
  let queue := normalize_management_queue queue in
  match deadline_minutes with
  | PInt n =>
    if n <=? 0 then Err (ValidationError "Case deadline must be a positive number of minutes.")
    else Ok (category, urgency, queue, n)
  | _ => Err (ValidationError "Case deadline must be a positive number of minutes.")
  end.

Definition bad_location : exn :=
  ValidationError "Case location must be active and belong to the report building.".
Definition invalid_location : exn := ValidationError "Case location hierarchy is invalid.".

Definition _active_location (location building_id : Z) : DB (obj location_row) :=
  target ← query_first locations (fun l => pk l ==? location);
  match target with
  | None => raise bad_location
  | Some target =>
    path ← gets (fun w => walk building_id bad_location invalid_location (locations w)
      (walk_fuel (locations w)) [] (Some target));
    of_result path ;;
    mret target
  end.

(** ** Inserts under constraints *)

(** [TriageDecision.report] and [MaintenanceCase.decision] are one-to-one. *)
Definition insert_decision : decision_row -> DB (obj decision_row) :=
  insert_unless decisions "maintenance_triagedecision_report_id_key"
    (fun r o => o~>de_report ==? de_report r).
Definition insert_case : case_row -> DB (obj case_row) :=
  insert_unless cases "maintenance_maintenancecase_decision_id_key"
    (fun r o => o~>ca_decision ==? ca_decision r).

Definition is_active_case (w : world) (c : Z) : bool :=
  match find c (cases w) with Some c => c~>ca_active | None => false end.

(** [case_report_once] and the trigger [case_report_one_active_case]. *)
Definition insert_case_report (r : case_report_row) : DB (obj case_report_row) :=
  owned ← gets (fun w => exists_ (fun l => (l~>cr_report ==? cr_report r) &&
    is_active_case w l~>cr_case && negb (l~>cr_case ==? cr_case r)) (case_reports w));
  require (negb owned) (IntegrityError "report already belongs to another active case") ;;
  insert_unless case_reports "case_report_once"
    (fun r o => (o~>cr_case ==? cr_case r) && (o~>cr_report ==? cr_report r)) r.

(** ** Confirming and grouping *)

Definition differences_of (suggestion : option (obj suggestion_row))
    (selected : list (string * pyval)) : list (string * (pyval * pyval)) :=
  match suggestion with
  | None => []
  | Some s =>
    let suggested := [("category", PStr s~>sg_category); ("urgency", PStr s~>sg_urgency);
      ("management_queue", PStr s~>sg_management_queue);
      ("deadline_minutes", PInt s~>sg_deadline_minutes)] in
    omap (fun kv => match assoc kv.1 suggested with
      | Some old => if decide (old = kv.2) then None else Some (kv.1, (old, kv.2))
      | None => None
      end) selected
  end.
Definition differences_json (d : list (string * (pyval * pyval))) : pyval :=
  mk_dict ((fun kv => (kv.1, mk_dict [("suggested", kv.2.1); ("chosen", kv.2.2)])) <$> d).

Definition confirm_triage (report_id operator : Z) (category urgency : pyval) (location : Z)
    (management_queue deadline_minutes : pyval) : DB (obj case_row) :=
  atomic (
    report ← query_first reports (fun r => pk r ==? report_id);
    report ← of_option (ValidationError "Report is required.") report;
    building ← unit_building report~>rp_unit;
    membership ← require_management operator building;
    location ← _active_location location building;
    values ← of_result (_decision_values category urgency management_queue deadline_minutes);
    let '(category, urgency, queue, minutes_) := values in
    suggestion ← gets (fun w => first (fun s =>
      match find s~>sg_job (triage_jobs w) with
      | Some j => j~>tj_report ==? pk report
      | None => false
      end) (suggestions w));
    decision ← query_first decisions (fun d => d~>de_report ==? pk report);
    match decision with
    | Some d => get_one cases "MaintenanceCase" (fun c => c~>ca_decision ==? pk d)
    | None =>
      let selected := [("category", PStr category); ("urgency", PStr urgency);
        ("management_queue", PStr queue); ("deadline_minutes", PInt minutes_)] in
      let differences := differences_of suggestion selected in
      decision ← insert_decision (Decision_ (pk report) (pk <$> suggestion) operator category
        urgency (pk location) queue minutes_ differences);
      now ← timezone_now;
      case ← insert_case (Case (pk decision) building category urgency (pk location) queue
        (now + minutes minutes_) true None None None);
      insert_case_report (CaseReport (pk case) (pk report) operator) ;;
      record_audit operator (Some (pk membership)) "triage.confirm" "MaintenanceCase"
        (zstr (pk case)) "accepted"
        [("report_id", PInt (pk report)); ("differences", differences_json differences)] ;;
      swallow (notify_triage_confirmed case report) ;;
      mret case
    end).

Definition group_report (case_id report_id operator : Z) : DB (obj case_report_row) :=
  atomic (
    case ← query_first cases (fun c => pk c ==? case_id);
    report ← query_first reports (fun r => pk r ==? report_id);
    match case, report with
    | Some case, Some report =>
      require case~>ca_active (ValidationError "An active case and report are required.") ;;
      membership ← require_management operator case~>ca_building;
      building ← unit_building report~>rp_unit;
      require (building ==? case~>ca_building)
        (ValidationError "Report must belong to the case building.") ;;
      existing ← gets (fun w => first (fun l =>
        (l~>cr_report ==? pk report) && is_active_case w l~>cr_case) (case_reports w));
      match existing with
      | Some existing =>
        require (existing~>cr_case ==? pk case)
          (ValidationError "Report already belongs to another active case.") ;;
        mret existing
      | None =>
        in_progress ← gets (fun w => exists_ (fun r =>
          linked w (pk case) (pk r) && (r~>rp_status ==? RInProgress)) (reports w));
        proposed ← query_exists proposals (fun p => p~>pr_case ==? Some (pk case));
        let status := if in_progress : bool then RInProgress
          else if proposed : bool then RProposed else RInReview in
        require (negb (report~>rp_is_private && (status ==? RProposed))) (ValidationError
          "Private requests cannot join a case with a community proposal.") ;;
        link ← insert_case_report (CaseReport (pk case) (pk report) operator);
        set_status status report ;;
        record_audit operator (Some (pk membership)) "case.group" "CaseReport" (zstr (pk link))
          "accepted" [("case_id", PInt (pk case)); ("report_id", PInt (pk report))] ;;
        mret link
      end
    | _, _ => raise (ValidationError "An active case and report are required.")
    end).

(** ** At most one active case per report *)

Record links_ok (cs : table case_row) (ls : table case_report_row) : Prop := {
  lk_cases : table_wf cs;
  lk_links : table_wf ls;
  lk_refs : forall j l, rows ls !! j = Some l -> is_Some (rows cs !! cr_case l);
  lk_one : forall i j a b ca cb, rows ls !! i = Some a -> rows ls !! j = Some b ->
    cr_report a = cr_report b -> rows cs !! cr_case a = Some ca -> rows cs !! cr_case b = Some cb ->
    ca_active ca = true -> ca_active cb = true -> cr_case a = cr_case b;
}.
Definition one_active_case (w : world) : Prop := links_ok (cases w) (case_reports w).

(** The relation "[one_active_case] is kept". *)
Definition keeps_one (w w' : world) : Prop := one_active_case w -> one_active_case w'.
#[export] Instance keeps_one_preorder : PreOrder keeps_one.
Proof. unfold keeps_one. split; [by intros w|]. intros x y z; auto. Qed.

Inductive triage_op :=
  | Confirm (report operator : Z) (category urgency : pyval) (location : Z) (queue deadline : pyval)
  | Group (case report operator : Z)
  | Work (op : case_op).
Definition run_triage (op : triage_op) : DB unit :=
  match op with
  | Confirm r o c u l q d => _ ← confirm_triage r o c u l q d; mret tt
  | Group c r o => _ ← group_report c r o; mret tt
  | Work op => run_case op
  end.

Section OneCase.
Implicit Types (w : world).

(** Cases that only evolve cannot give a report a second active case. *)
Lemma links_ok_evolve cs cs' ls :
  evolves case_step cs cs' -> links_ok cs ls -> links_ok cs' ls.
Proof.
  intros He [Hc Hl Hr Ho]. destruct (He Hc) as [Hc' Hstep]. split; [done|done| |].
  - intros j l Hj. destruct (Hr j l Hj) as [c Hcl]. destruct (Hstep _ _ Hcl) as (c' & ? & _). eauto.
  - intros i j a b ca cb Ha Hb Hab Hca Hcb Aa Ab.
    destruct (Hr i a Ha) as [ca0 Hca0], (Hr j b Hb) as [cb0 Hcb0].
    destruct (Hstep _ _ Hca0) as (ca1 & Hca1 & Sa), (Hstep _ _ Hcb0) as (cb1 & Hcb1 & Sb).
    assert (ca1 = ca) as -> by congruence. assert (cb1 = cb) as -> by congruence.
    assert (ca_active ca0 = true) by
      (destruct (ca_active ca0) eqn:E; [done|]; rewrite (cs_active _ _ Sa E) in Aa; done).
    assert (ca_active cb0 = true) by
      (destruct (ca_active cb0) eqn:E; [done|]; rewrite (cs_active _ _ Sb E) in Ab; done).
    eauto.
Qed.

Lemma links_ok_insert cs ls r :
  links_ok cs ls -> is_Some (rows cs !! cr_case r) ->
  (forall j l c, rows ls !! j = Some l -> cr_report l = cr_report r ->
     rows cs !! cr_case l = Some c -> ca_active c = true -> cr_case l = cr_case r) ->
  links_ok cs (insert_row r ls).
Proof.
  intros [Hc Hl Hr Ho] Hs Hone. split; [done|auto with tables| |].
  - intros j l. rewrite lookup_insert_row. case_decide; [by intros [= <-]|]. apply Hr.
  - intros i j a b ca cb. rewrite !lookup_insert_row.
    destruct (decide (next ls = i)), (decide (next ls = j)); intros Ha Hb Hab Hca Hcb Aa Ab;
      simplify_eq; try done.
    + symmetry. by eapply Hone.
    + by eapply Hone.
    + eauto.
Qed.

Lemma keeps_insert_case r w : keeps keeps_one (insert_case r) w.
Proof.
  unfold keeps, keeps_one, one_active_case. destruct (insert_case r w) as [[c|e] w'] eqn:E.
  - apply insert_unless_Ok in E as (_ & _ & ->). cbn [snd]. apply links_ok_evolve.
    apply evolves_insert. apply _.
  - unfold insert_case, insert_unless, query_exists, gets, require, create, modify, mbind, M_bind in E.
    destruct (exists_ _ _); cbn in E; [|done]. injection E as _ <-. done.
Qed.

Lemma insert_case_report_spec r w l w' :
  insert_case_report r w = (Ok l, w') ->
  l = Obj (next (case_reports w)) r /\ w' = set case_reports (insert_row r) w /\
  forall j x c, rows (case_reports w) !! j = Some x -> cr_report x = cr_report r ->
    rows (cases w) !! cr_case x = Some c -> ca_active c = true -> cr_case x = cr_case r.
Proof.
  unfold insert_case_report. intros H. inv_db. to_prop.
  split; [done|]. split; [done|]. intros j x c Hx Er Hc Ha.
  match goal with H : exists_ _ _ = false |- _ =>
    pose proof (proj1 (exists_false _ _) H j x Hx) as Hf end. cbn [val pk] in Hf.
  unfold is_active_case, find in Hf. rewrite Hc, (bool_decide_eq_true_2 _ Er) in Hf.
  cbn in Hf. rewrite Ha in Hf. cbn in Hf. apply negb_false_iff, bool_decide_eq_true in Hf. done.
Qed.

Lemma keeps_insert_case_report r w :
  is_Some (rows (cases w) !! cr_case r) -> keeps keeps_one (insert_case_report r) w.
Proof.
  intros Hs. unfold keeps, keeps_one, one_active_case.
  destruct (insert_case_report r w) as [[l|e] w'] eqn:E.
  - apply insert_case_report_spec in E as (_ & -> & Hone). intros Hok.
    exact (links_ok_insert _ _ _ Hok Hs Hone).
  - unfold insert_case_report, insert_unless, query_exists, gets, require, create, modify, mbind,
      M_bind in E. cbn in E. repeat match type of E with
      | context [if negb ?b then _ else _] => destruct b; cbn in E
      end; try done; by injection E as _ <-.
Qed.

(** A swallowed hook leaves cases and links alone. *)
Lemma keeps_one_told m w : told m w -> keeps keeps_one (swallow m) w.
Proof. intros [ns H]. unfold keeps. rewrite H. by unfold keeps_one. Qed.

Lemma keeps_one_case_op op w : keeps keeps_one (run_case op) w.
Proof.
  assert (keeps (on case_reports eq) (run_case op) w) as Hl.
  { destruct op; cbn [run_case];
      unfold start_case_work, publish_progress, complete_proposal_work, complete_case_work,
        close_expired_completed_cases, request_information, reply_information, decline_report,
        rate_completed_case, rate_completed_proposal, close_case, close_proposal,
        close_if_abandoned; keeps_svc; done. }
  unfold keeps, on in Hl. unfold keeps, keeps_one, one_active_case. rewrite <- Hl.
  apply links_ok_evolve. exact (keeps_case_cases op w).
Qed.
End OneCase.

Section Confirming.
Implicit Types (w : world).

Lemma active_location_spec l b w o w' :
  _active_location l b w = (Ok o, w') <->
  w' = w /\ pk o = l /\ rows (locations w) !! l = Some (val o) /\
  exists names, rooted b (locations w) l names.
Proof.
  unfold _active_location, query_first, gets, of_result, mbind, M_bind. split.
  - destruct (first _ _) as [t|] eqn:E; [|done]. apply first_Some in E as [Ht Hp]. to_prop.
    destruct (walk _ _ _ _ _ _ _) as [names|] eqn:Ew; [|done]. intros [= <- <-]. subst.
    split; [done|]. split; [done|]. split; [done|]. exists names.
    eapply walk_exact; [exact Ht|]. by destruct t.
  - intros (-> & <- & Ho & names & Hr).
    destruct (first _ _) as [t|] eqn:E.
    + apply first_Some in E as [Ht Hp]. to_prop.
      assert (t = o) as -> by (destruct t, o; cbn in *; congruence).
      assert (walk b bad_location invalid_location (locations w) (walk_fuel (locations w)) [] (Some o)
        = Ok names) as ->; [|done].
      destruct o as [k r]. by apply walk_exact.
    + rewrite first_None in E. specialize (E _ _ Ho). cbn in E. by rewrite bool_decide_eq_true_2 in E.
Qed.

Lemma keeps_pure {A} (R : world -> world -> Prop) `{!PreOrder R} (m : DB A) w :
  (m w).2 = w -> keeps R m w.
Proof. unfold keeps. intros ->. reflexivity. Qed.

Lemma active_location_pure l b w : (_active_location l b w).2 = w.
Proof.
  unfold _active_location, query_first, gets, of_result, mbind, M_bind.
  destruct (first _ _); [|done]. by destruct (walk _ _ _ _ _ _ _).
Qed.

Lemma keeps_confirm r o c u l q d w : keeps keeps_one (confirm_triage r o c u l q d) w.
Proof.
  unfold confirm_triage, require_management, unit_building, insert_decision, insert_unless, create,
    record_audit.
  repeat first
    [ (match goal with |- keeps _ (swallow _) _ => apply keeps_one_told; auto with told end)
    | (match goal with |- keeps _ (_active_location _ _) _ =>
         apply keeps_pure; [apply _|apply active_location_pure] end)
    | (match goal with |- keeps _ (insert_case _) _ => apply keeps_insert_case end)
    | keeps_step
    | (match goal with |- keeps _ (insert_case_report _) _ => fail 1 | _ => idtac end; keeps_db_step) ];
    try (by unfold keeps_one).
  apply keeps_insert_case_report. cbn [cr_case].
  match goal with H : insert_case _ _ = (Ok _, _) |- _ =>
    apply insert_unless_Ok in H as (_ & -> & ->) end.
  cbn [pk cases set]. change (cases (set cases ?f ?w)) with (f (cases w)).
  rewrite lookup_inserted. eauto.
Qed.

Lemma keeps_group c r o w : keeps keeps_one (group_report c r o) w.
Proof.
  unfold group_report, require_management, unit_building, record_audit, create, set_status.
  repeat first
    [ keeps_step
    | (match goal with |- keeps _ (insert_case_report _) _ => fail 1 | _ => idtac end; keeps_db_step) ];
    try (by unfold keeps_one).
  apply keeps_insert_case_report. cbn [cr_case]. inv_db. inv_query. eauto.
Qed.

Lemma keeps_triage op w : keeps keeps_one (run_triage op) w.
Proof.
  destruct op; cbn [run_triage]; [| |apply keeps_one_case_op];
    (apply keeps_bind; [apply _|auto using keeps_confirm, keeps_group|intros; apply keeps_ret; apply _]).
Qed.

(** What a confirmation leaves behind: a decision on the report and its only case. *)
Definition decided_case w (report_id : Z) (c : obj case_row) : Prop :=
  exists d, first (fun d => d~>de_report ==? report_id) (decisions w) = Some d /\
    select (fun c => c~>ca_decision ==? pk d) (cases w) = [c].

Lemma decided_by_insert w' dt ct dr cr report :
  decisions w' = insert_row dr dt -> cases w' = insert_row cr ct -> table_wf dt -> table_wf ct ->
  first (fun d => d~>de_report ==? report) dt = None -> de_report dr = report ->
  ca_decision cr = next dt ->
  (forall k c, rows ct !! k = Some c -> (ca_decision c ==? ca_decision cr) = false) ->
  decided_case w' report (Obj (next ct) cr).
Proof.
  intros Ed Ec Hd Hc Hnone Hr Hcd Hfree. exists (Obj (next dt) dr). rewrite Ed, Ec.
  rewrite first_insert_row, Hnone by done. cbn [val pk]. rewrite bool_decide_eq_true_2 by done.
  split; [done|]. rewrite select_insert_row by done. cbn [val pk].
  rewrite bool_decide_eq_true_2 by done.
  replace (select _ ct) with (@nil (obj case_row)); [done|].
  symmetry. apply select_nil. intros k c Hk. cbn [val]. rewrite <- Hcd. by eapply Hfree.
Qed.

Lemma confirm_decides r o ca u l q d w c w' :
  table_wf (decisions w) -> table_wf (cases w) ->
  confirm_triage r o ca u l q d w = (Ok c, w') -> decided_case w' r c.
Proof.
  intros Hd Hc H. unfold confirm_triage in H. inv_db.
  repeat match goal with
  | H : unit_building _ _ = _ |- _ => apply unit_building_spec in H as (-> & _ & _ & _)
  | H : require_management _ _ _ = _ |- _ => apply require_management_spec in H as (-> & _)
  | H : _active_location _ _ _ = _ |- _ => apply active_location_spec in H as (-> & _)
  end.
  match goal with H : (let '_ := ?v in _) _ = _ |- _ =>
    destruct v as [[[cat urg] que] mins]; inv_db end.
  inv_query. to_prop. subst. destruct (first _ (decisions _)) as [dec|] eqn:Ed.
  - inv_db. by exists dec.
  - inv_db. unfold insert_decision, insert_case in *. inv_db.
    match goal with H : insert_case_report _ _ = _ |- _ =>
      apply insert_case_report_spec in H as (_ & -> & _) end.
    match goal with H : record_audit _ _ _ _ _ _ _ _ = _ |- _ => apply record_audit_Ok in H as (_ & _ & ->) end.
    match goal with H : swallow (notify_triage_confirmed ?c ?r) ?w1 = _ |- _ =>
      destruct (told_triage_confirmed c r w1) as [ns Ens]; rewrite Ens in H; injection H as _ <- end.
    eapply decided_by_insert; try reflexivity; try assumption.
Qed.

(** A later confirmation of a decided report can only return the same case. *)
Lemma confirm_again r o ca u l q d w c c' w' :
  decided_case w r c -> confirm_triage r o ca u l q d w = (Ok c', w') -> c' = c /\ w' = w.
Proof.
  intros (dec & Hdec & Hcase) H. unfold confirm_triage in H. inv_db.
  repeat match goal with
  | H : unit_building _ _ = _ |- _ => apply unit_building_spec in H as (-> & _ & _ & _)
  | H : require_management _ _ _ = _ |- _ => apply require_management_spec in H as (-> & _)
  | H : _active_location _ _ _ = _ |- _ => apply active_location_spec in H as (-> & _)
  end.
  match goal with H : (let '_ := ?v in _) _ = _ |- _ =>
    destruct v as [[[cat urg] que] mins]; inv_db end.
  match goal with H : Some _ = first _ (reports _) |- _ =>
    symmetry in H; apply first_Some in H as [_ Hp] end.
  apply bool_decide_eq_true in Hp. rewrite Hp, Hdec in *. inv_db. split; congruence.
Qed.
End Confirming.

(** ** Closed codes *)

Lemma existsb_str s l : str_in s l = true <-> s ∈ l.
Proof.
  unfold str_in. rewrite existsb_exists. setoid_rewrite String.eqb_eq.
  rewrite list_elem_of_In. naive_solver.
Qed.

Definition fixed_code (f : string -> string) (s : string) : bool := String.eqb (f s) s.

(** ** Properties *)

Section Properties.
Implicit Types (w : world).

(** A report is in at most one active case.  Confirming, grouping, and all the work on
    cases keep: every link refers to a stored case, and two links of one report whose
    cases are both active are links to the same case. *)
Theorem one_active_case_per_report op w :
  one_active_case w -> one_active_case (run_triage op w).2.
Proof. exact (keeps_triage op w). Qed.

(** A report is triaged once.  After a confirmation, whatever a manager confirms for the
    same report later, an accepted call returns the case of the first one and writes
    nothing. *)
Theorem confirm_triage_once r o ca u l q d o' ca' u' l' q' d' w c w' c' w'' :
  table_wf (decisions w) -> table_wf (cases w) ->
  confirm_triage r o ca u l q d w = (Ok c, w') ->
  confirm_triage r o' ca' u' l' q' d' w' = (Ok c', w'') ->
  c' = c /\ w'' = w'.
Proof.
  intros Hd Hc H H'. apply confirm_again with (c := c) in H'; [done|].
  by apply confirm_decides in H.
Qed.

(** C35: the location check accepts exactly the rooted paths.  [_active_location] returns a
    location iff there is a finite path of active locations of the building from it to a
    root; it always terminates, whatever cycle the stored hierarchy has, with that
    location or one of its two validation errors, and writes nothing. *)
Theorem active_location_exact l b w :
  (forall o w', _active_location l b w = (Ok o, w') <->
     w' = w /\ pk o = l /\ rows (locations w) !! l = Some (val o) /\
     exists names, rooted b (locations w) l names) /\
  (forall e w', _active_location l b w = (Err e, w') -> e = bad_location \/ e = invalid_location).
Proof.
  split; [intros; apply active_location_spec|]. intros e w'.
  unfold _active_location, query_first, gets, of_result, mbind, M_bind, raise.
  destruct (first _ _) as [t|] eqn:E; [|intros [= <- _]; by left].
  apply first_Some in E as [Ht _].
  pose proof (walk_total b bad_location invalid_location (locations w) (pk t) (val t) Ht) as Hw.
  replace (Obj (pk t) (val t)) with t in Hw by by destruct t.
  destruct (walk _ _ _ _ _ _ _) as [|e'] eqn:Ew; [done|]. intros [= <- _].
  apply walk_errors in Ew as [Ee|[Ee|Ee]]; subst; auto. by destruct Hw.
Qed.

End Properties.

(** ** Concrete runs *)

Definition demo_triage : world :=
  empty_world (Settings true 0 "" "" "" "" true 10) 0
    <| buildings ::= insert_row "Tower A" |>
    <| users ::= insert_row (User None "Staff" None "pw" true) |>
    <| users ::= insert_row (User None "An" None "pw" true) |>
    <| memberships ::= insert_row (Membership 1 1 true) |>
    <| units ::= insert_row (Unit_ 1 "A-101") |>
    <| locations ::= insert_row (Location 1 None "Roof" true) |>
    <| reports ::= insert_row (demo_report RSubmitted) |>.
Definition demo_confirm (category : string) (w : world) : result (obj case_row) * world :=
  confirm_triage 1 1 (PStr category) (PStr "HIGH") 1 (PStr "plumbing") (PInt 240) w.
Definition demo_opened : obj case_row :=
  Obj 1 (Case 1 1 "WATER_LEAK" "HIGH" 1 "PLUMBING" (minutes 240) true None None None).

Lemma one_active_case_per_report_witness :
  one_active_case (run_triage (Confirm 1 1 (PStr "Water leak") (PStr "HIGH") 1 (PStr "plumbing")
    (PInt 240)) demo_triage).2.
Proof.
  apply one_active_case_per_report. split; try (apply table_wf_b_true; vm_compute; reflexivity).
  - intros j l H. vm_compute in H. discriminate.
  - intros i j a b ca cb H. vm_compute in H. discriminate.
Defined.

Lemma confirm_triage_once_witness :
  let w' := (demo_confirm "Water leak" demo_triage).2 in
  (demo_confirm "Noise" w') = (Ok demo_opened, w').
Proof.
  intros w'.
  destruct (confirm_triage_once 1 1 (PStr "Water leak") (PStr "HIGH") 1 (PStr "plumbing") (PInt 240)
    1 (PStr "Noise") (PStr "HIGH") 1 (PStr "plumbing") (PInt 240) demo_triage demo_opened w'
    demo_opened (demo_confirm "Noise" w').2) as [_ E].
  - apply table_wf_b_true. vm_compute. reflexivity.
  - apply table_wf_b_true. vm_compute. reflexivity.
  - vm_compute. reflexivity.
  - vm_compute. reflexivity.
  - unfold demo_confirm in E |- *. rewrite <- E at 2. vm_compute. reflexivity.
Defined.
