(* ===== verification/TriageAi.v ===== *)
(** * TriageAi: the worker that asks a model to triage a report

    [maintenance/ai.py] and [maintenance/candidates.py].  A job is claimed in a transaction
    of its own; what the provider answers is validated before anything is stored, and every
    answer the code foresees ends the job.  The provider and PostgreSQL's trigram similarity
    are parameters. *)

From S2P Require Import Prelude Table PyStr Json AiClient Schema Store.
From S2P Require Import Accounts Notifications Hooks Cases Triage.
Open Scope Z_scope.

Definition MODEL_KEYS : list string :=
  ["category"; "interpreted_location"; "urgency"; "confidence_percent"; "requires_manual_review";
   "duplicate_report_ids"; "management_queue"; "deadline_minutes"; "missing_information"].
Definition MAX_REPORT_CHARS : nat := 4000.
Definition MAX_CANDIDATE_CHARS : nat := 1000.
Definition MODEL_STRING_LIMITS : list (string * Z) :=
  [("category", 128); ("management_queue", 32); ("interpreted_location", 1000)].

(** ** Claiming *)

Definition processing_row (now : Z) (r : triage_job_row) : triage_job_row :=
  r <| tj_status := TProcessing |> <| tj_started_at := Some now |> <| tj_failure_reason := "" |>.

Definition claimable (job_id : option Z) (j : obj triage_job_row) : bool :=
  (j~>tj_status ==? TPending) && match job_id with Some k => pk j ==? k | None => true end.

Definition _claim_triage_job (job_id : option Z) : DB (option (obj triage_job_row)) :=
  atomic (
    job ← query_first triage_jobs (claimable job_id);
    match job with
    | None => mret None
    | Some job =>
      now ← timezone_now;
      let row := processing_row now in
      save triage_jobs (pk job) row ;;
      mret (Some (Obj (pk job) (row (val job))))
    end).

(** ** Duplicate candidates *)

Definition open_for_triage (s : report_status) : bool :=
  match s with RSubmitted | RInReview | RNeedsInfo => true | _ => false end.

Section Provider.
(** [similarity a b]: PostgreSQL's [similarity(a, b)], in millionths; [provider payload]: what
    the endpoint answers to the user message [payload]; [decode_error], [json_error text]:
    the texts of a [UnicodeDecodeError] and of a [JSONDecodeError] on [text]. *)
Context (st : ai_settings) (similarity : string -> string -> Z) (provider : pyval -> answer).
Context (decode_error : string) (json_error : string -> string).

Definition is_candidate (w : world) (report : obj report_row) (building_id : Z)
    (o : obj report_row) : bool :=
  open_for_triage o~>rp_status &&
  match find o~>rp_unit (units w) with Some u => u~>un_building ==? building_id | None => false end &&
  negb (pk o ==? pk report) && negb o~>rp_is_private &&
  (200000 <=? similarity o~>rp_text report~>rp_text).

Definition find_duplicate_candidates (report : obj report_row) (limit : Z) :
    DB (list (obj report_row)) :=
  building ← unit_building report~>rp_unit;
  gets (fun w => take (Z.to_nat (Z.max 0 (Z.min limit 5)))
    (order_by (fun o => - similarity o~>rp_text report~>rp_text)
      (select (is_candidate w report building) (reports w)))).

(** ** The request *)

Definition _endpoint_url : string + string :=
  ebind (check_url st) (fun url =>
  if negb (truthy (ai_triage_token st)) then inl "AI_TRIAGE_TOKEN is required"
  else if negb (truthy (ai_triage_model st)) then inl "AI_TRIAGE_MODEL is required"
  else inr url).

(** The user message of [_chat_body]; the report's text is cut, a candidate's more so. *)
Definition user_payload (report : obj report_row) (candidates : list (obj report_row)) : pyval :=
  mk_dict [("report_id", PInt (pk report));
    ("text", PStr (py_take MAX_REPORT_CHARS report~>rp_text));
    ("location_path_snapshot", PStr report~>rp_location_path_snapshot);
    ("candidates", PList ((fun c => mk_dict [("id", PInt (pk c));
        ("text", PStr (py_take MAX_CANDIDATE_CHARS c~>rp_text));
        ("location_path_snapshot", PStr c~>rp_location_path_snapshot)]) <$> candidates))].

(** ** The response *)

(** [_extract_triage]: the request id and the answer; [IntTooLong] is no [JSONDecodeError]
    and passes every handler. *)
Definition _extract_triage (envelope : pyval) : result (string + (string * pyval)) :=
  match envelope with
  | PDict d =>
    let content := ebind (request_id_of d) (fun request_id =>
      match ebind (first_message d) (member "content") with
      | inl error => inl ("missing choices/message/content: " +:+ error)
      | inr content =>
        match _valid_string content with
        | Some content => inr (request_id, clean_content content)
        | None => inl "provider message content is empty"
        end
      end) in
    match content with
    | inl error => Ok (inl error)
    | inr (request_id, cleaned) =>
      match loads cleaned with
      | Parsed v _ => Ok (inr (request_id, v))
      | IntTooLong => Err (ValueError "Exceeds the limit (4300 digits) for integer string conversion")
      | _ => Ok (inl (json_error cleaned))
      end
    end
  | _ => Ok (inl "provider envelope is not an object")
  end.

Record triage_payload := TriagePayload {
  tp_category : string; tp_interpreted_location : string; tp_urgency : string;
  tp_confidence_percent : Z; tp_requires_manual_review : bool; tp_duplicate_report_ids : list Z;
  tp_management_queue : string; tp_deadline_minutes : Z; tp_missing_information : list string }.

Definition payload_string (d : list (pyval * pyval)) (key : string) : string + string :=
  match item_get key d ≫= _valid_string with
  | Some s => inr s
  | None => inl "response strings must be non-empty strings"
  end.
Fixpoint within_limits (limits : list (string * Z)) (d : list (pyval * pyval)) : string + unit :=
  match limits with
  | [] => inr tt
  | (key, limit) :: limits =>
    ebind (payload_string d key) (fun s =>
    if limit <? py_len s
    then inl ("response " +:+ key +:+ " exceeds " +:+ zstr limit +:+ " characters")
    else within_limits limits d)
  end.
(** [payload["urgency"] not in URGENCIES]: an unhashable value raises [TypeError]. *)
Definition payload_urgency (v : pyval) : string + string :=
  match v with
  | PStr s => if str_in s URGENCIES then inr s else inl "response urgency is invalid"
  | PList _ | PDict _ => inl ("unhashable type: '" +:+ py_type v +:+ "'")
  | _ => inl "response urgency is invalid"
  end.
Definition as_int (v : pyval) : option Z := match v with PInt z => Some z | _ => None end.
Definition as_list {A} (f : pyval -> option A) (v : pyval) : option (list A) :=
  match v with
  | PList l => let xs := omap f l in if bool_decide (length xs = length l) then Some xs else None
  | _ => None
  end.

Definition check {A} (o : option A) (P : A -> bool) (error : string) : string + A :=
  match o with Some a => if P a then inr a else inl error | None => inl error end.

Definition _validate_response (payload : pyval) (candidate_ids : list Z) :
    string + triage_payload :=
  match payload with
  | PDict d =>
    if negb (has_keys MODEL_KEYS d) then inl "response keys do not match the contract" else
    let get key := default PNone (item_get key d) in
    ebind (payload_string d "category") (fun category =>
    ebind (payload_string d "interpreted_location") (fun interpreted_location =>
    ebind (payload_string d "management_queue") (fun management_queue =>
    ebind (within_limits MODEL_STRING_LIMITS d) (fun _ =>
    ebind (payload_urgency (get "urgency")) (fun urgency =>
    ebind (check (as_int (get "confidence_percent")) (fun z => (0 <=? z) && (z <=? 100))
      "response confidence_percent is invalid") (fun confidence_percent =>
    ebind (check (match get "requires_manual_review" with PBool b => Some b | _ => None end)
      (fun _ => true) "response requires_manual_review is invalid") (fun requires_manual_review =>
    ebind (check (as_list as_int (get "duplicate_report_ids")) (fun _ => true)
      "response duplicate_report_ids is invalid") (fun duplicate_ids =>
    ebind (check (Some duplicate_ids) (forallb (fun i => bool_decide (i ∈ candidate_ids)))
      "response duplicate_report_ids were not supplied as candidates") (fun duplicate_ids =>
    ebind (check (as_int (get "deadline_minutes")) (fun z => 0 <? z)
      "response deadline_minutes is invalid") (fun deadline_minutes =>
    ebind (check (as_list _valid_string (get "missing_information")) (fun _ => true)
      "response missing_information is invalid") (fun missing =>
    inr (TriagePayload category interpreted_location urgency confidence_percent
      requires_manual_review duplicate_ids management_queue deadline_minutes missing))))))))))))
  | _ => inl "response keys do not match the contract"
  end.

(** ** Storing the outcome *)

Definition manual_row (now : Z) (reason : string) (r : triage_job_row) : triage_job_row :=
  r <| tj_status := TNeedsManual |> <| tj_failure_reason := py_take 255 reason |>
    <| tj_completed_at := Some now |>.
Definition succeeded_row (now : Z) (r : triage_job_row) : triage_job_row :=
  r <| tj_status := TSucceeded |> <| tj_completed_at := Some now |>.

(** The report, if it is still submitted, goes to the managers. *)
Definition to_review (report : Z) : DB unit :=
  bulk_update reports (fun o => (pk o ==? report) && (o~>rp_status ==? RSubmitted))
    (fun r => r <| rp_status := RInReview |>).

Definition finish_job (job : obj triage_job_row) (row : triage_job_row -> triage_job_row) :
    DB (obj triage_job_row) :=
  save triage_jobs (pk job) row ;;
  to_review job~>tj_report ;;
  mret (Obj (pk job) (row (val job))).

Definition _manual (job : obj triage_job_row) (reason : string) : DB (obj triage_job_row) :=
  now ← timezone_now; finish_job job (manual_row now reason).

(** [TriageSuggestion.job] is one-to-one; [deadline_minutes] is a 32-bit column. *)
Definition insert_suggestion (r : suggestion_row) : DB (obj suggestion_row) :=
  require (storable (sg_raw_response r)) (DatabaseError "unsupported character") ;;
  require (sg_deadline_minutes r <? 2 ^ 31) (DatabaseError "integer out of range") ;;
  insert_unless suggestions "maintenance_triagesuggestion_job_id_key"
    (fun r o => o~>sg_job ==? sg_job r) r.

Definition suggestion_of (job : Z) (request_id : string) (raw : pyval) (p : triage_payload)
    (candidate_ids : list Z) (elapsed_ms : Z) : suggestion_row :=
  Suggestion job (normalize_category (tp_category p)) (tp_interpreted_location p) (tp_urgency p)
    (tp_confidence_percent p) (tp_duplicate_report_ids p)
    (normalize_management_queue (tp_management_queue p)) (tp_deadline_minutes p)
    (tp_missing_information p) raw request_id (merge_sort Z.le candidate_ids) elapsed_ms.

(** [payload["provider_request_id"] = request_id] *)
Definition with_request_id (payload : pyval) (request_id : string) : pyval :=
  match payload with
  | PDict d => PDict (dict_set (PStr "provider_request_id") (PStr request_id) d)
  | v => v
  end.

(** [elapsed_ms] is what the monotonic clock measured. *)
Definition accept (job : obj triage_job_row) (request_id : string) (triage : pyval)
    (candidate_ids : list Z) (elapsed_ms : Z) : DB (obj triage_job_row) :=
  match _validate_response triage candidate_ids with
  | inl error => _manual job ("schema: " +:+ error)
  | inr payload =>
    if tp_requires_manual_review payload then _manual job "provider requested manual review" else
    insert_suggestion (suggestion_of (pk job) request_id (with_request_id triage request_id) payload
      candidate_ids elapsed_ms) ;;
    now ← timezone_now;
    finish_job job (succeeded_row now)
  end.

Definition _process_claimed_job (elapsed_ms : Z) (job : obj triage_job_row) :
    DB (obj triage_job_row) :=
  report ← get_row reports "IssueReport" job~>tj_report;
  candidates ← find_duplicate_candidates report 5;
  match _endpoint_url with
  | inl error => _manual job ("config: " +:+ error)
  | inr _ =>
    match provider (user_payload report candidates) with
    | Breaks e => raise e
    | Fails error => _manual job ("transport: " +:+ error)
    | Responds None => _manual job ("invalid envelope: " +:+ decode_error)
    | Responds (Some raw) =>
      match loads raw with
      | Parsed envelope _ =>
        extracted ← of_result (_extract_triage envelope);
        match extracted with
        | inl error => _manual job ("invalid envelope: " +:+ error)
        | inr (request_id, triage) => accept job request_id triage (pk <$> candidates) elapsed_ms
        end
      | IntTooLong =>
        raise (ValueError "Exceeds the limit (4300 digits) for integer string conversion")
      | _ => _manual job ("invalid envelope: " +:+ json_error raw)
      end
    end
  end.

Definition process_triage_job (elapsed_ms job_id : Z) : DB (obj triage_job_row) :=
  job ← _claim_triage_job (Some job_id);
  match job with
  | None => get_row triage_jobs "TriageJob" job_id
  | Some job => _process_claimed_job elapsed_ms job
  end.

(** [process_triage_batch] of [config/worker.py]: how many jobs were processed, [None] when
    one of them raised. *)
Fixpoint batch_loop (elapsed_ms : Z) (limit : nat) (count : Z) : DB Z :=
  match limit with
  | O => mret count
  | S limit =>
    job ← _claim_triage_job None;
    match job with
    | None => mret count
    | Some job => _process_claimed_job elapsed_ms job ;; batch_loop elapsed_ms limit (count + 1)
    end
  end.
Definition process_triage_batch (elapsed_ms : Z) (limit : nat) : DB (option Z) :=
  try_except (n ← batch_loop elapsed_ms limit 0; mret (Some n)) (fun _ => mret None).
End Provider.

(** ** The managers' inbox

    The reports that [_manual_triage_items] and [_review_queue_items] of
    [web/action_inbox.py] list, before their limits. *)

Definition job_of (w : world) (report : Z) : option (obj triage_job_row) :=
  first (fun j => j~>tj_report ==? report) (triage_jobs w).
Definition decided (w : world) (report : Z) : bool :=
  exists_ (fun d => d~>de_report ==? report) (decisions w).

Definition _manual_triage_items (building_id : Z) : DB (list (obj report_row)) := gets (fun w =>
  select (fun o =>
    match find o~>rp_unit (units w) with Some u => u~>un_building ==? building_id | None => false end &&
    ((o~>rp_status ==? RSubmitted) || (o~>rp_status ==? RInReview)) &&
    match job_of w (pk o) with
    | None => true
    | Some j => (j~>tj_status ==? TNeedsManual) ||
      (j~>tj_status ==? TSucceeded) && negb (decided w (pk o))
    end &&
    negb (exists_ (fun l => (l~>cr_report ==? pk o) && is_active_case w l~>cr_case) (case_reports w)))
  (reports w)).
Definition _review_queue_items (building_id : Z) : DB (list (obj report_row)) := gets (fun w =>
  select (fun o => (o~>rp_building ==? building_id) && (o~>rp_status ==? RInReview) &&
    negb (decided w (pk o))) (reports w)).

(** ** What processing a claimed job does *)

Definition done_status (s : triage_status) : bool :=
  match s with TSucceeded | TNeedsManual => true | _ => false end.

Section Facts.
Context (st : ai_settings) (similarity : string -> string -> Z) (provider : pyval -> answer).
Context (decode_error : string) (json_error : string -> string).
Implicit Types (w : world) (job : obj triage_job_row).
Notation process := (_process_claimed_job st similarity provider decode_error json_error).

(** The world once a job was finished. *)
Definition finished job (row : triage_job_row -> triage_job_row) w : world :=
  w <| triage_jobs ::= update (pk job) row |>
    <| reports ::= update_where (fun o => (pk o ==? job~>tj_report) && (o~>rp_status ==? RSubmitted))
         (fun r => r <| rp_status := RInReview |>) |>.

Lemma finish_job_run job row w :
  finish_job job row w = (Ok (Obj (pk job) (row (val job))), finished job row w).
Proof. done. Qed.
Lemma manual_run job reason w :
  _manual job reason w =
    (Ok (Obj (pk job) (manual_row (w_now w) reason (val job))), finished job (manual_row (w_now w) reason) w).
Proof. done. Qed.

(** A report that may be offered as a duplicate of [report]. *)
Definition duplicate_of w (report : Z) (i : Z) : Prop :=
  i <> report /\ exists r r0 u u0, rows (reports w) !! i = Some r /\ rows (reports w) !! report = Some r0 /\
    rows (units w) !! rp_unit r = Some u /\ rows (units w) !! rp_unit r0 = Some u0 /\
    un_building u = un_building u0 /\ open_for_triage (rp_status r) = true /\ rp_is_private r = false.

Record good_suggestion w job (s : suggestion_row) : Prop := {
  gs_job : sg_job s = pk job;
  gs_category : str_in (sg_category s) CaseCategory_values = true;
  gs_queue : str_in (sg_management_queue s) ManagementQueue_values = true;
  gs_urgency : str_in (sg_urgency s) URGENCIES = true;
  gs_confidence : 0 <= sg_confidence_percent s <= 100;
  gs_deadline : 0 < sg_deadline_minutes s < 2 ^ 31;
  gs_location : truthy (sg_interpreted_location s) = true /\ py_len (sg_interpreted_location s) <= 1000;
  gs_duplicates : forall i, i ∈ sg_duplicate_report_ids s -> duplicate_of w job~>tj_report i;
}.

Lemma candidates_spec (report : obj report_row) limit w l w' :
  rows (reports w) !! pk report = Some (val report) ->
  find_duplicate_candidates similarity report limit w = (Ok l, w') ->
  w' = w /\ forall i, i ∈ pk <$> l -> duplicate_of w (pk report) i.
Proof.
  intros Hr H. unfold find_duplicate_candidates, unit_building in H. inv_db. split; [done|].
  intros i Hi. apply list_elem_of_fmap in Hi as (o & -> & Ho).
  apply elem_of_take in Ho as (n & Ho & _). apply list_elem_of_lookup_2 in Ho.
  apply elem_of_order_by, elem_of_select in Ho as [Ho Hc].
  unfold is_candidate in Hc. destruct (find o~>rp_unit (units _)) as [u|] eqn:Eu; cycle 1.
  { by rewrite andb_false_r in Hc. }
  inv_query. to_prop. split; [done|].
  eexists _, _, _, _. repeat (split; [eassumption|]). done.
Qed.

Lemma check_inr {A} (o : option A) (P : A -> bool) error a :
  check o P error = inr a <-> o = Some a /\ P a = true.
Proof.
  unfold check. destruct o as [x|]; [|naive_solver]. destruct (P x) eqn:E; split; [by intros [= ->]|by intros [[= ->] _]|done|intros [[= ->] H]; congruence].
Qed.
Lemma payload_string_inr d k s :
  payload_string d k = inr s <-> item_get k d ≫= _valid_string = Some s.
Proof. unfold payload_string. destruct (_ ≫= _); naive_solver. Qed.
Lemma valid_string_Some v s : _valid_string v = Some s -> v = PStr s /\ truthy s = true.
Proof. destruct v; cbn; try done. destruct (truthy s0) eqn:E; naive_solver. Qed.
Lemma within_limits_inr limits d u :
  within_limits limits d = inr u -> forall k n, (k, n) ∈ limits ->
    exists s, payload_string d k = inr s /\ py_len s <= n.
Proof.
  induction limits as [|[k0 n0] limits IH]; cbn; [intros _ k n ?%elem_of_nil; done|].
  intros (s & Hs & H)%ebind_inr k n. destruct (n0 <? py_len s) eqn:E; [done|]. to_prop.
  intros [[= -> ->]|Hin]%elem_of_cons; [eauto|by apply IH].
Qed.

(** What an accepted answer is known to hold. *)
Lemma validate_spec payload ids p :
  _validate_response payload ids = inr p ->
  (truthy (tp_interpreted_location p) = true /\ py_len (tp_interpreted_location p) <= 1000) /\
  str_in (tp_urgency p) URGENCIES = true /\ 0 <= tp_confidence_percent p <= 100 /\
  0 < tp_deadline_minutes p /\ (forall i, i ∈ tp_duplicate_report_ids p -> i ∈ ids).
Proof.
  unfold _validate_response. destruct payload as [| | | | |d|]; try done.
  destruct (negb _); [done|]. intros H.
  repeat (apply ebind_inr in H as (? & ? & H)). injection H as <-.
  cbn [tp_interpreted_location tp_urgency tp_confidence_percent tp_deadline_minutes tp_duplicate_report_ids].
  repeat match goal with H : check _ _ _ = inr _ |- _ => apply check_inr in H as [? ?] end.
  match goal with H : within_limits _ _ = _ |- _ => pose proof (within_limits_inr _ _ _ H) as Hlim end.
  match goal with H : payload_urgency ?v = inr _ |- _ => rename H into Hu; destruct v; try done end.
  unfold payload_urgency in Hu. destruct (str_in s URGENCIES) eqn:Es; [injection Hu as <-|done].
  destruct (Hlim "interpreted_location" 1000) as (loc & Hloc & Hlen);
    [apply list_elem_of_In; cbn; auto|].
  assert (loc = x0) as -> by congruence. simplify_eq. to_prop.
  apply payload_string_inr, bind_Some in Hloc as (v & _ & [_ Htr]%valid_string_Some).
  repeat (split; [done|]). intros i Hi.
  match goal with H : forallb _ _ = true |- _ => rewrite forallb_forall in H;
    apply list_elem_of_In, H in Hi end.
  by to_prop.
Qed.

Lemma good_category c : str_in (normalize_category c) CaseCategory_values = true.
Proof. unfold normalize_category. by destruct (str_in (to_code c) CaseCategory_values) eqn:E. Qed.
Lemma good_queue c : str_in (normalize_management_queue c) ManagementQueue_values = true.
Proof. unfold normalize_management_queue. by destruct (str_in (to_code c) ManagementQueue_values) eqn:E. Qed.

(** How processing a job ends: with an exception and nothing written, in manual triage, or
    with a good suggestion. *)
Inductive ends job w : result (obj triage_job_row) * world -> Prop :=
  | ends_raised e : ends job w (Err e, w)
  | ends_manual reason :
    ends job w (Ok (Obj (pk job) (manual_row (w_now w) reason (val job))),
      finished job (manual_row (w_now w) reason) w)
  | ends_succeeded s :
    good_suggestion w job s ->
    ends job w (Ok (Obj (pk job) (succeeded_row (w_now w) (val job))),
      finished job (succeeded_row (w_now w)) (w <| suggestions ::= insert_row s |>)).

Lemma accept_ends job request_id triage ids elapsed w :
  (forall i, i ∈ ids -> duplicate_of w job~>tj_report i) ->
  ends job w (accept job request_id triage ids elapsed w).
Proof.
  intros Hids. unfold accept. destruct (_validate_response triage ids) as [e|p] eqn:Ev; [constructor|].
  apply validate_spec in Ev as ([Hl Hl'] & Hu & Hc & Hd & Hdup).
  destruct (tp_requires_manual_review p); [constructor|].
  match goal with |- ends _ _ ((insert_suggestion ?x ≫= _) _) => set (s := x) end.
  unfold mbind, M_bind. destruct (insert_suggestion s w) as [[o|e] w1] eqn:Ei.
  - unfold insert_suggestion in Ei. inv_db. to_prop.
    match goal with |- ends _ ?w _ => refine (ends_succeeded job w s _) end.
    split; [done|apply good_category|apply good_queue|done|done|done|done|cbn; eauto].
  - assert (w1 = w) as ->; [|constructor].
    unfold insert_suggestion, require, mbind, M_bind in Ei.
    destruct (storable _); [|by injection Ei]. destruct (_ <? _); [|by injection Ei].
    by apply insert_unless_Err in Ei.
Qed.

Lemma candidates_Err (report : obj report_row) limit w e w' :
  find_duplicate_candidates similarity report limit w = (Err e, w') -> w' = w.
Proof.
  unfold find_duplicate_candidates, unit_building. intros H.
  apply bind_Err in H as [H|(? & ? & ? & H)]; [|done].
  apply bind_Err in H as [H|(? & ? & ? & H)]; [by apply get_row_Err in H|done].
Qed.

Lemma process_ends elapsed job w : ends job w (process elapsed job w).
Proof.
  unfold _process_claimed_job.
  destruct (get_row reports "IssueReport" job~>tj_report w) as [[report|e] w1] eqn:Er; cycle 1.
  { pose proof (get_row_Err _ _ _ _ _ _ Er) as ->. unfold mbind, M_bind. rewrite Er. constructor. }
  rewrite (bind_run _ _ _ _ _ Er). apply get_row_Ok in Er as [[Hk Hr]%find_Some ->].
  destruct (find_duplicate_candidates similarity report 5 w) as [[cs|e] w1] eqn:Ec; cycle 1.
  { pose proof (candidates_Err _ _ _ _ _ Ec) as ->. unfold mbind, M_bind. rewrite Ec. constructor. }
  rewrite (bind_run _ _ _ _ _ Ec).
  rewrite <- Hk in Hr. apply (candidates_spec _ _ _ _ _ Hr) in Ec as [-> Hcs]. rewrite Hk in Hcs.
  destruct (_endpoint_url st); [constructor|].
  destruct (provider _) as [[raw|]| |]; try constructor.
  destruct (loads raw) as [envelope rest| | |]; try constructor.
  unfold mbind, M_bind, of_result.
  destruct (_extract_triage json_error envelope) as [[error|[request_id triage]]|]; try constructor.
  by apply accept_ends.
Qed.
End Facts.

(** ** The life of a job *)

(** A job leaves PENDING at most once, keeps its report, and what the worker leaves it at is
    what it stays. *)
Definition job_step (r r' : triage_job_row) : Prop :=
  r' = r \/
  tj_status r = TPending /\ tj_status r' <> TPending /\ tj_report r' = tj_report r /\
  is_Some (tj_started_at r') /\
  (done_status (tj_status r') = true -> is_Some (tj_completed_at r')).
#[export] Instance job_step_preorder : PreOrder job_step.
Proof.
  split; [by left|]. intros x y z [->|Hxy] [->|Hyz]; unfold job_step in *; auto.
  destruct Hxy as (_ & Hn & _), Hyz as (Hp & _). done.
Qed.

(** A run of the worker, with what the provider answers during it. *)
Inductive worker_op :=
  | ProcessJob (provider : pyval -> answer) (elapsed job_id : Z)
  | ProcessBatch (provider : pyval -> answer) (elapsed : Z) (limit : nat).

Section Worker.
Context (st : ai_settings) (similarity : string -> string -> Z).
Context (decode_error : string) (json_error : string -> string).
Implicit Types (w : world) (job : obj triage_job_row) (P : pyval -> answer).

Definition run_worker (op : worker_op) : DB unit :=
  match op with
  | ProcessJob P elapsed k =>
    _ ← process_triage_job st similarity P decode_error json_error elapsed k; mret tt
  | ProcessBatch P elapsed limit =>
    _ ← process_triage_batch st similarity P decode_error json_error elapsed limit; mret tt
  end.
Definition worker_run (ops : list (Z * worker_op)) w : world :=
  foldl (fun w top => (run_worker top.2 (at_time top.1 w)).2) w ops.

(** The world once a job was claimed, and the job as it was read back. *)
Definition claimed_job w (j : obj triage_job_row) : obj triage_job_row :=
  Obj (pk j) (processing_row (w_now w) (val j)).
Definition claimed w (j : obj triage_job_row) : world :=
  w <| triage_jobs ::= update (pk j) (processing_row (w_now w)) |>.

Lemma claim_run job_id w :
  _claim_triage_job job_id w =
  match first (claimable job_id) (triage_jobs w) with
  | None => (Ok None, w)
  | Some j => (Ok (Some (claimed_job w j)), claimed w j)
  end.
Proof.
  unfold _claim_triage_job, atomic, query_first, gets, mbind, M_bind. by destruct (first _ _).
Qed.

Notation process P := (_process_claimed_job st similarity P decode_error json_error).

(** A relation that claiming and processing one pending job keeps is kept by every run. *)
Lemma keeps_worker (R : world -> world -> Prop) `{!PreOrder R} :
  (forall P elapsed w j, rows (triage_jobs w) !! pk j = Some (val j) -> j~>tj_status = TPending ->
     R w (process P elapsed (claimed_job w j) (claimed w j)).2) ->
  forall op w, keeps R (run_worker op) w.
Proof.
  intros Hone. assert (forall P elapsed job_id w, match first (claimable job_id) (triage_jobs w) with
    | Some j => R w (process P elapsed (claimed_job w j) (claimed w j)).2 | None => True end) as Hclaim.
  { intros P elapsed job_id w. destruct (first _ _) as [j|] eqn:E; [|done].
    apply first_Some in E as [Hj Hc]. unfold claimable in Hc. to_prop. auto. }
  intros op w. unfold keeps. destruct op as [P elapsed k|P elapsed limit]; cbn [run_worker].
  - unfold process_triage_job, mbind, M_bind. rewrite claim_run.
    pose proof (Hclaim P elapsed (Some k) w) as H. destruct (first _ _) as [j|].
    + destruct (process _ _ _ _) as [[?|?] ?]; exact H.
    + pose proof (keeps_gets R (fun w => find k (triage_jobs w)) w) as Hg.
      unfold get_row, gets, of_option, mbind, M_bind. destruct (find _ _); exact Hg.
  - unfold process_triage_batch, try_except, mbind, M_bind.
    assert (forall n w, R w (batch_loop st similarity P decode_error json_error elapsed limit n w).2) as H.
    { clear w. induction limit as [|limit IH]; intros n w; cbn [batch_loop]; [reflexivity|].
      unfold mbind, M_bind. rewrite claim_run. pose proof (Hclaim P elapsed None w) as H.
      destruct (first _ _) as [j|]; [|reflexivity].
      destruct (process _ _ _ _) as [[?|?] w1] eqn:E; [|exact H].
      etransitivity; [exact H|apply IH]. }
    specialize (H 0 w). destruct (batch_loop _ _ _ _ _ _ _ _ _) as [[?|?] ?]; exact H.
Qed.

Lemma reports_finished job row w i x :
  i <> job~>tj_report -> rows (reports w) !! i = Some x ->
  rows (reports (finished job row w)) !! i = Some x.
Proof.
  intros Hi Hx. unfold finished. cbn. rewrite map_lookup_imap, Hx. cbn.
  by rewrite bool_decide_eq_false_2.
Qed.

(** What claiming and processing the pending job [j] writes to jobs and reports. *)
Lemma one_job P elapsed w j :
  exists f, (forall r, tj_status r = TPending -> job_step r (f r)) /\
    triage_jobs (process P elapsed (claimed_job w j) (claimed w j)).2 = update (pk j) f (triage_jobs w) /\
    forall i x, i <> j~>tj_report -> rows (reports w) !! i = Some x ->
      rows (reports (process P elapsed (claimed_job w j) (claimed w j)).2) !! i = Some x.
Proof.
  destruct (process_ends st similarity P decode_error json_error elapsed (claimed_job w j) (claimed w j));
    cbn [snd].
  - exists (processing_row (w_now w)). split; [|split; [done|auto]].
    intros r Hr. right. cbn. repeat split; eauto; done.
  - exists (fun r => manual_row (w_now w) reason (processing_row (w_now w) r)).
    split; [intros r Hr; right; cbn; repeat split; eauto; done|]. split; [by cbn; rewrite update_update|].
    intros i x Hi Hx. refine (reports_finished _ _ _ _ _ Hi Hx).
  - exists (fun r => succeeded_row (w_now w) (processing_row (w_now w) r)).
    split; [intros r Hr; right; cbn; repeat split; eauto; done|]. split; [by cbn; rewrite update_update|].
    intros i x Hi Hx. refine (reports_finished _ _ _ _ _ Hi Hx).
Qed.

Lemma keeps_job_steps op w : keeps (on triage_jobs (evolves job_step)) (run_worker op) w.
Proof.
  revert op w. apply keeps_worker; [apply _|]. intros P elapsed w j Hj Hp.
  destruct (one_job P elapsed w j) as (f & Hf & Ht & _). unfold on. rewrite Ht.
  apply evolves_update; [apply _|]. intros r Hr. apply Hf. congruence.
Qed.

(** A job the worker gave up in the middle, on a report of its own still to be triaged. *)
Record stranded (k : Z) (j : triage_job_row) (x : report_row) w : Prop := {
  sr_job : rows (triage_jobs w) !! k = Some j;
  sr_status : tj_status j = TProcessing;
  sr_own : forall i r, rows (triage_jobs w) !! i = Some r -> tj_report r = tj_report j -> i = k;
  sr_report : rows (reports w) !! tj_report j = Some x;
}.
Definition keeps_stranded k j x w w' : Prop := stranded k j x w -> stranded k j x w'.
#[export] Instance keeps_stranded_preorder k j x : PreOrder (keeps_stranded k j x).
Proof. split; [by intros w H|]. intros a b c H1 H2 H. by apply H2, H1. Qed.

Lemma keeps_strand k j x op w : keeps (keeps_stranded k j x) (run_worker op) w.
Proof.
  revert op w. apply keeps_worker; [apply _|]. intros P elapsed w i Hi Hp [Hk Hs Ho Hx].
  destruct (one_job P elapsed w i) as (f & Hf & Ht & Hr).
  assert (pk i <> k) as Hne by (intros <-; congruence).
  split; [rewrite Ht, lookup_update, decide_False by auto; done|done| |].
  - intros n r. rewrite Ht, lookup_update. case_decide as E; [|apply Ho]. subst n.
    rewrite Hi. intros [= <-] Hrep. apply (Ho (pk i) (val i)); [done|].
    destruct (Hf (val i) Hp) as [->|(_ & _ & Hsame & _)] in Hrep; congruence.
  - apply Hr; [|done]. intros E. apply Hne. by eapply Ho.
Qed.

Lemma worker_run_keeps (R : world -> world -> Prop) `{!PreOrder R} ops w :
  (forall t w, R w (at_time t w)) -> (forall op w, keeps R (run_worker op) w) ->
  R w (worker_run ops w).
Proof.
  intros Ht Hop. revert w. induction ops as [|[t op] ops IH]; intros w; cbn; [reflexivity|].
  etransitivity; [apply (Ht t)|]. etransitivity; [apply (Hop op)|apply IH].
Qed.

Lemma raised_strands P elapsed k r x w e w' :
  rows (triage_jobs w) !! k = Some r -> tj_status r = TPending ->
  (forall i r', rows (triage_jobs w) !! i = Some r' -> tj_report r' = tj_report r -> i = k) ->
  rows (reports w) !! tj_report r = Some x ->
  process_triage_job st similarity P decode_error json_error elapsed k w = (Err e, w') ->
  stranded k (processing_row (w_now w) r) x w'.
Proof.
  intros Hr Hp Hown Hx H. unfold process_triage_job, mbind, M_bind in H. rewrite claim_run in H.
  destruct (first _ _) as [o|] eqn:Ef; cycle 1.
  { exfalso. pose proof (proj1 (first_None _ _) Ef k r Hr) as Hf.
    unfold claimable in Hf. cbn in Hf. by rewrite Hp, !bool_decide_eq_true_2 in Hf. }
  apply first_Some in Ef as [Ho Hc]. unfold claimable in Hc. to_prop. subst k.
  assert (val o = r) as Hv by congruence.
  pose proof (process_ends st similarity P decode_error json_error elapsed (claimed_job w o) (claimed w o)) as He.
  rewrite H in He. inversion He; subst. split; [|done| |done].
  - unfold claimed. cbn. by rewrite lookup_alter, decide_True, Hr.
  - intros i r'. unfold claimed. cbn [triage_jobs set]. 
    change (rows (update (pk o) (processing_row (w_now w)) (triage_jobs w)) !! i = Some r' ->
      tj_report r' = tj_report (val o) -> i = pk o).
    rewrite lookup_update. case_decide; [done|]. apply Hown.
Qed.

Lemma stranded_hidden k j x w b :
  stranded k j x w -> rp_status x = RSubmitted ->
  (forall l w', _manual_triage_items b w = (Ok l, w') -> tj_report j ∉ pk <$> l) /\
  (forall l w', _review_queue_items b w = (Ok l, w') -> tj_report j ∉ pk <$> l).
Proof.
  intros [Hk Hs Ho Hx] Hsub. split; intros l w' [= <- _] (o & Hpk & [Hin Hc]%elem_of_select)%list_elem_of_fmap;
    rewrite <- Hpk, Hx in Hin; injection Hin as Hin; rewrite <- Hin, <- Hpk in Hc; to_prop; [|congruence].
  destruct (job_of w (tj_report j)) as [i|] eqn:Ej.
  - unfold job_of in Ej. apply first_Some in Ej as [Hi Hij]. to_prop.
    assert (pk i = k) as Ei by by eapply Ho. rewrite Ei in Hi.
    assert (val i = j) as Ev by congruence. rewrite Ev, Hs in *. done.
  - unfold job_of in Ej. pose proof (proj1 (first_None _ _) Ej k j Hk) as Hf. cbn in Hf.
    by rewrite bool_decide_eq_true_2 in Hf.
Qed.
End Worker.

(** ** Properties *)

Section Properties.
Context (st : ai_settings) (similarity : string -> string -> Z).
Context (decode_error : string) (json_error : string -> string).
Implicit Types (w : world) (P : pyval -> answer).


(** A job leaves PENDING once.  However the worker runs, one job at a time or in
    batches, and whatever the provider answers or breaks with, every job keeps its report,
    changes only while it is pending, is stamped when it is claimed and when it ends, and
    what one run leaves it at is what it stays. *)
Theorem triage_jobs_move_once ops w k r :
  table_wf (triage_jobs w) -> rows (triage_jobs w) !! k = Some r ->
  exists r', rows (triage_jobs (worker_run st similarity decode_error json_error ops w)) !! k = Some r' /\
    job_step r r'.
Proof.
  intros Hwf Hr. pose proof (worker_run_keeps st similarity decode_error json_error
    (on triage_jobs (evolves job_step)) ops w) as H.
  destruct (H (fun _ _ => reflexivity _) (keeps_job_steps _ _ _ _) Hwf) as [_ He]. eauto.
Qed.

(** A job that raises is lost.  When processing a pending job raises, as it does on a
    deadline that does not fit its column, the job stays PROCESSING through every later
    run of the worker, its report stays submitted, and none of the lists of the managers'
    inbox ever shows it. *)
Theorem raised_job_strands P elapsed k r x w e w' ops b :
  rows (triage_jobs w) !! k = Some r -> tj_status r = TPending ->
  (forall i r', rows (triage_jobs w) !! i = Some r' -> tj_report r' = tj_report r -> i = k) ->
  rows (reports w) !! tj_report r = Some x -> rp_status x = RSubmitted ->
  process_triage_job st similarity P decode_error json_error elapsed k w = (Err e, w') ->
  let w2 := worker_run st similarity decode_error json_error ops w' in
  (exists r', rows (triage_jobs w2) !! k = Some r' /\ tj_status r' = TProcessing) /\
  rows (reports w2) !! tj_report r = Some x /\
  (forall l w3, _manual_triage_items b w2 = (Ok l, w3) -> tj_report r ∉ pk <$> l) /\
  (forall l w3, _review_queue_items b w2 = (Ok l, w3) -> tj_report r ∉ pk <$> l).
Proof.
  intros Hr Hp Hown Hx Hsub H w2.
  assert (stranded k (processing_row (w_now w) r) x w2) as Hst.
  { apply (worker_run_keeps st similarity decode_error json_error
      (keeps_stranded k (processing_row (w_now w) r) x) ops w');
      [by intros t w0 []; split|intros; apply keeps_strand|by eapply raised_strands]. }
  pose proof (stranded_hidden _ _ _ _ b Hst Hsub) as [H1 H2].
  destruct Hst as [Hk Hs _ Hx']. eauto 6.
Qed.
End Properties.

(** ** Concrete runs *)

Definition demo_reply (deadline : string) : answer := Responds (Some (quoted_text (
  "{'id': 'r-1', 'choices': [{'message': {'content': '{~category~: ~Elevator~, " +:+
  "~interpreted_location~: ~Lift 2~, ~urgency~: ~HIGH~, ~confidence_percent~: 87, " +:+
  "~requires_manual_review~: false, ~duplicate_report_ids~: [2], " +:+
  "~management_queue~: ~maintenance~, ~deadline_minutes~: " +:+ deadline +:+
  ", ~missing_information~: []}'}}]}"))).
Definition demo_ai : ai_settings := AiSettings "https://ai.example/v1" false "t" "m" "".
Definition demo_similar (a b : string) : Z := 900000.
Definition demo_desk : world :=
  empty_world (Settings true 0 "" "" "" "" true 10) 0
    <| buildings ::= insert_row "Tower A" |>
    <| users ::= insert_row (User None "An" None "pw" true) |>
    <| units ::= insert_row (Unit_ 1 "A-101") |>
    <| locations ::= insert_row (Location 1 None "Lift 2" true) |>
    <| reports ::= insert_row (Report 1 1 1 "The lift is stuck" 1 "Lift 2" RSubmitted false "" None None None) |>
    <| reports ::= insert_row (Report 1 1 1 "Lift stuck" 1 "Lift 2" RInReview false "" None None None) |>
    <| triage_jobs ::= insert_row (TriageJob 1 TPending "" None None) |>.
Definition demo_triage (deadline : string) : result (obj triage_job_row) * world :=
  process_triage_job demo_ai demo_similar (fun _ => demo_reply deadline) "" (fun _ => "") 12 1 demo_desk.


Lemma triage_jobs_move_once_witness :
  exists r', rows (triage_jobs (worker_run demo_ai demo_similar "" (fun _ => "")
    [(5, ProcessBatch (fun _ => demo_reply "240") 12 20)] demo_desk)) !! 1 = Some r' /\
    job_step (TriageJob 1 TPending "" None None) r'.
Proof.
  refine (triage_jobs_move_once demo_ai demo_similar "" (fun _ => "")
    [(5, ProcessBatch (fun _ => demo_reply "240") 12 20)] demo_desk 1 (TriageJob 1 TPending "" None None) _ _).
  - apply table_wf_b_true. vm_compute. reflexivity.
  - vm_compute. reflexivity.
Defined.

Lemma raised_job_strands_witness :
  (demo_triage "2147483648").1 = Err (DatabaseError "integer out of range") /\
  forall l w3, _manual_triage_items 1 (demo_triage "2147483648").2 = (Ok l, w3) -> 1 ∉ pk <$> l.
Proof.
  split; [vm_compute; reflexivity|].
  refine (proj1 (proj2 (proj2 (raised_job_strands demo_ai demo_similar "" (fun _ => "")
    (fun _ => demo_reply "2147483648") 12 1 (TriageJob 1 TPending "" None None)
    (Report 1 1 1 "The lift is stuck" 1 "Lift 2" RSubmitted false "" None None None) demo_desk
    (DatabaseError "integer out of range") (demo_triage "2147483648").2 [] 1 _ _ _ _ _ _)))).
  - vm_compute. reflexivity.
  - reflexivity.
  - intros i r' Hi _.
    assert (triage_jobs demo_desk = insert_row (TriageJob 1 TPending "" None None) empty_table) as E
      by (vm_compute; reflexivity).
    rewrite E in Hi.
    rewrite lookup_insert_row in Hi. by case_decide.
  - vm_compute. reflexivity.
  - reflexivity.
  - vm_compute. reflexivity.
Defined.
