(* ===== verification/Documents.v ===== *)
(** * Documents: the upload gate, append-only versions, and authorized downloads

    [documents/services.py] and [documents/access.py].  The private storage, the image
    decoder and the virus scanner are parameters; a file is the list of its chunks. *)

From S2P Require Import Prelude Table PyStr Schema Store Accounts Notifications Hooks Cases.
Open Scope Z_scope.

(** [django.core.files.uploadedfile.UploadedFile] as the service reads it. *)
Record uploaded_file := UploadedFile {
  uf_name : string; uf_content_type : string; uf_size : Z; uf_chunks : list string }.
Definition uf_bytes (f : uploaded_file) : string := foldr String.append EmptyString (uf_chunks f).

(** [storages["private"]]: an S3 bucket ([bucket_name] and [connection]) or a plain
    storage.  [None] where the client raises. *)
Record storage := Storage {
  has_bucket : bool;
  get_bucket_versioning : option string;
  put_object : string -> string -> string -> pyval;
  save_file : string -> string -> string;
  get_object : string -> string -> option string;
  open_file : string -> option string }.

(** The settings the services read. *)
Record doc_settings := DocSettings {
  ds_max_upload_bytes : Z; ds_quarantine_retention_days : Z }.

Definition PHOTO_KINDS : list doc_kind := [REPORT_PHOTO].
Definition BILL_KINDS : list doc_kind := [RESIDENT_BILL].
Definition kind_in (k : doc_kind) (l : list doc_kind) : bool := existsb (fun x => k ==? x) l.

(** The bytes with which a file of a content type starts. *)
Definition MIME_SIGNATURES : list (string * string) :=
  [("application/pdf", "%PDF-");
   ("image/jpeg", String (chr 255) (String (chr 216) (String (chr 255) EmptyString)));
   ("image/png", String (chr 137) (String "P" (String "N" (String "G"
     (String (chr 13) (String (chr 10) (String (chr 26) (String (chr 10) EmptyString))))))))].

Definition _allowed_content_types (kind : doc_kind) : list string :=
  if kind_in kind PHOTO_KINDS then ["image/jpeg"; "image/png"]
  else if kind_in kind BILL_KINDS then ["application/pdf"; "image/jpeg"; "image/png"]
  else ["application/pdf"].

(** [os.path.basename(name)[:255]] *)
Definition basename (name : string) : string := py_take 255 (after_last_char "/" name).

Record metadata_t := Metadata { md_filename : string; md_content_type : string; md_byte_size : Z }.
Definition _metadata (f : uploaded_file) : metadata_t :=
  Metadata (basename (uf_name f)) (uf_content_type f) (uf_size f).

(** [try: membership = require_management(...) except PermissionDenied: None] *)
Definition membership_or_none (user building : Z) : DB (option (obj membership_row)) :=
  try_except (m ← require_management user building; mret (Some m))
    (fun e => match e with PermissionDenied _ => mret None | _ => raise e end).

Lemma membership_or_none_run u b w :
  membership_or_none u b w = (Ok (first (manages u b) (memberships w)), w).
Proof.
  unfold membership_or_none, try_except, require_management, query_first, gets, of_option,
    mbind, M_bind, mret, M_ret. by destruct (first _ _).
Qed.

Section Upload.
Context {CR : Crypto} (ST : storage) (DS : doc_settings).
(** [PIL.Image.open(...).verify()] and the scanner: [None] when the scanner raises. *)
Context (image_verifies : string -> bool) (scanner : string -> option bool).

Definition _retention_expires_at (now : Z) : Z := now + days (ds_quarantine_retention_days DS).

Definition _audit (uploader : Z) (membership : option Z) (action : string) (target_id : Z)
    (result : string) (meta : metadata) : DB unit :=
  record_audit uploader membership action "DocumentUpload" (zstr target_id) result meta ;; mret tt.

(** The caller's standing: a membership of the building, or else an occupancy. *)
Record standing := Standing {
  sd_membership : option (obj membership_row); sd_occupancy : option (obj occupancy_row) }.

Definition occupancy_building (o : obj occupancy_row) : DB Z :=
  u ← get_row units "Unit" o~>oc_unit; mret u~>un_building.
(** [membership.building], or else [occupancy.unit.building]. *)
Definition standing_building (s : standing) : DB (option Z) :=
  match s with
  | Standing (Some m) _ => mret (Some m~>mb_building)
  | Standing None (Some o) => b ← occupancy_building o; mret (Some b)
  | Standing None None => mret None
  end.

(** The audit both refusals and the success share: residents under [document.upload]. *)
Definition audit_upload (uploader : Z) (s : standing) (action : string) (target_id : Z)
    (result : string) (reason : metadata) : DB unit :=
  match s with
  | Standing None (Some o) =>
    record_audit uploader None "document.upload" "DocumentVersion" (zstr target_id) result
      (reason ++ [("occupancy_id", PInt (pk o))]) ;; mret tt
  | Standing m _ => _audit uploader (pk <$> m) action target_id result reason
  end.

Definition _create_rejection {A} (uploader : Z) (s : standing) (m : metadata_t) (reason : string) : DB A :=
  building ← standing_building s;
  now ← timezone_now;
  rejected ← create Schema.quarantined (Quarantined uploader building (md_filename m) (md_content_type m)
    (md_byte_size m) "" reason None "" (_retention_expires_at now));
  audit_upload uploader s "document.upload_rejected" (pk rejected) "rejected"
    [("reason", PStr reason)] ;;
  raise (DocumentUploadRejected reason).

(** [isinstance(v, str) and v and v.lower() != "null"] *)
Definition immutable_version (v : pyval) : option string :=
  match v with
  | PStr s => if truthy s && negb (py_lower s ==? "null") then Some s else None
  | _ => None
  end.

Definition _store (storage_key bytes content_type : string) : result string :=
  if has_bucket ST then
    match get_bucket_versioning ST with
    | None => Err (DocumentStorageError "Could not verify S3 bucket versioning.")
    | Some status =>
      if negb (status ==? "Enabled")
      then Err (DocumentStorageError "S3 bucket versioning is not enabled.")
      else
        match immutable_version (put_object ST storage_key bytes content_type) with
        | Some v => Ok v
        | None => Err (DocumentStorageError "S3 did not return an immutable VersionId.")
        end
    end
  else Ok (save_file ST storage_key bytes).

(** The chunk loop: the number of bytes read when the limit is first exceeded. *)
Fixpoint over_limit (limit read : Z) (chunks : list string) : option Z :=
  match chunks with
  | [] => None
  | c :: cs =>
    let read := read + slen c in
    if limit <? read then Some read else over_limit limit read cs
  end.

(** [temporary.read(8)] *)
Definition head_bytes (n : nat) (s : string) : string := String.substring 0 n s.

(** [document_version_once] and the unique [storage_key]. *)
Definition insert_version (r : doc_version_row) : DB (obj doc_version_row) :=
  insert_unless doc_versions "document_version_once"
    (fun r o => (o~>dv_document ==? dv_document r) && (o~>dv_version ==? dv_version r) ||
                (o~>dv_storage_key ==? dv_storage_key r)) r.

(** [aggregate(Max("version"))["version__max"] or 0] *)
Definition max_version (document : Z) (w : world) : Z :=
  foldr Z.max 0 ((fun o => o~>dv_version) <$>
    select (fun o => o~>dv_document ==? document) (doc_versions w)).

Definition _occupancy_for (uploader building : Z) : DB (option (obj occupancy_row)) :=
  active_occupancy uploader building.

Definition uploader_standing (document : obj document_row) (uploader : Z)
    (allow_resident_occupancy : bool) : DB standing :=
  membership ← membership_or_none uploader document~>dc_building;
  match membership with
  | Some m => mret (Standing (Some m) None)
  | None =>
    require (allow_resident_occupancy && (document~>dc_kind ==? REPORT_PHOTO))
      (PermissionDenied "Document uploader does not belong to this building.") ;;
    occupancy ← _occupancy_for uploader document~>dc_building;
    o ← of_option (PermissionDenied "Active occupancy is required to upload report photos.")
      occupancy;
    mret (Standing None (Some o))
  end.

(** The scan: [None] when the file is clean, else the reason of the quarantine. *)
Definition scan_verdict (bytes : string) : option string :=
  match scanner bytes with
  | None => Some "scanner unavailable"
  | Some clean => if clean then None else Some "malware detected"
  end.

(** [uuid] is [uuid.uuid4().hex]. *)
Definition create_document_version (document : obj document_row) (f : uploaded_file)
    (uploader : Z) (allow_resident_occupancy : bool) (uuid : string) : DB (obj doc_version_row) :=
  s ← uploader_standing document uploader allow_resident_occupancy;
  let m := _metadata f in
  let max_bytes := ds_max_upload_bytes DS in
  if negb (str_in (md_content_type m) (_allowed_content_types document~>dc_kind))
  then _create_rejection uploader s m "unsupported content type" else
  if max_bytes <? md_byte_size m
  then _create_rejection uploader s m "upload exceeds size limit" else
  match over_limit max_bytes 0 (uf_chunks f) with
  | Some read =>
    _create_rejection uploader s (Metadata (md_filename m) (md_content_type m) read)
      "upload exceeds size limit"
  | None =>
    let bytes := uf_bytes f in
    let m := Metadata (md_filename m) (md_content_type m) (slen bytes) in
    if negb (starts_with (default "" (assoc_str (md_content_type m) MIME_SIGNATURES))
          (head_bytes 8 bytes))
    then _create_rejection uploader s m "file signature does not match content type" else
    if starts_with "image/" (md_content_type m) && negb (image_verifies bytes)
    then _create_rejection uploader s m "image verification failed" else
    match scan_verdict bytes with
    | Some reason =>
      let storage_key := "quarantine/" +:+ uuid in
      provider_version_id ← of_result (_store storage_key bytes (md_content_type m));
      building ← standing_building s;
      now ← timezone_now;
      q ← create Schema.quarantined (Quarantined uploader building (md_filename m)
        (md_content_type m) (md_byte_size m) (sha256 bytes) reason (Some storage_key)
        provider_version_id (_retention_expires_at now));
      audit_upload uploader s "document.upload_quarantined" (pk q) "quarantined"
        [("reason", PStr reason)] ;;
      raise (DocumentUploadQuarantined reason)
    | None =>
      version ← atomic (
        locked ← get_row documents "Document" (pk document);
        latest ← gets (max_version (pk locked));
        let storage_key := "documents/" +:+ zstr (pk locked) +:+ "/" +:+ uuid in
        provider_version_id ← of_result (_store storage_key bytes (md_content_type m));
        insert_version (DocVersion (pk locked) (latest + 1) storage_key provider_version_id
          (md_filename m) (md_content_type m) (md_byte_size m) (sha256 bytes) CLEAN uploader));
      audit_upload uploader s "document.upload" (pk version) "allowed" [] ;;
      mret version
    end
  end.

Definition create_resident_report_photo (resident building : Z) (f : uploaded_file)
    (uuid : string) : DB (obj doc_version_row) :=
  document ← create documents (Document building REPORT_PHOTO);
  create_document_version document f resident true uuid.

Definition quarantine_upload (f : uploaded_file) (uploader : Z) (reason uuid : string) :
    DB (obj quarantined_row) :=
  ms ← query memberships (fun m => (m~>mb_user ==? uploader) && m~>mb_active);
  match ms with
  | [] => raise (PermissionDenied "Quarantine upload cannot be audited.")
  | membership :: _ =>
    require (forallb (fun m => m~>mb_building ==? membership~>mb_building) ms) (PermissionDenied
      "Ambiguous building for quarantine; active membership must be unique to one building.") ;;
    let m := _metadata f in
    let bytes := uf_bytes f in
    let storage_key := "quarantine/" +:+ uuid in
    provider_version_id ← of_result (_store storage_key bytes (md_content_type m));
    now ← timezone_now;
    q ← create Schema.quarantined (Quarantined uploader (Some membership~>mb_building) (md_filename m)
      (md_content_type m) (slen bytes) (sha256 bytes) reason (Some storage_key) provider_version_id
      (_retention_expires_at now));
    _audit uploader (Some (pk membership)) "document.upload_quarantined" (pk q) "quarantined"
      [("reason", PStr reason)] ;;
    swallow (notify_quarantined_upload q) ;;
    mret q
  end.
End Upload.

(** ** Downloads *)

Section Download.
Context {CR : Crypto} (ST : storage).

(** [b"".join(_read_stored_version(version))], [None] when it raises. *)
Definition _read_stored_version (v : doc_version_row) : option string :=
  if has_bucket ST then
    match immutable_version (PStr (dv_provider_version_id v)) with
    | None => None
    | Some id => get_object ST (dv_storage_key v) id
    end
  else open_file ST (dv_storage_key v).

Definition read_version_bytes (v : doc_version_row) : result string :=
  match _read_stored_version v with
  | None => Err (DocumentIntegrityError "Document storage is unavailable.")
  | Some data =>
    if sha256 data ==? dv_sha256 v then Ok data
    else Err (DocumentIntegrityError "Document integrity check failed.")
  end.

Definition _allowed (membership : option (obj membership_row))
    (occupancy : option (obj occupancy_row)) : bool :=
  bool_decide (is_Some membership) || bool_decide (is_Some occupancy).

Definition audit_download (user : Z) (membership : option (obj membership_row))
    (v : obj doc_version_row) (result : string) (meta : metadata) : DB unit :=
  record_audit user (pk <$> membership) "document.download" "DocumentVersion" (zstr (pk v)) result
    meta ;; mret tt.

Definition integrity_item : metadata := [("action_item", PStr "document_integrity_check")].

Definition authorize_download (user : Z) (v : obj doc_version_row) : DB string :=
  document ← get_row documents "Document" v~>dv_document;
  membership ← membership_or_none user document~>dc_building;
  any ← query_first memberships (fun m => (m~>mb_user ==? user) && m~>mb_active);
  let audit_membership := match membership with Some m => Some m | None => any end in
  occupancy ← (match membership with
    | None => active_occupancy user document~>dc_building
    | Some _ => mret None
    end);
  occupancy ← (match audit_membership, occupancy with
    | None, None => query_first occupancies (fun o => (o~>oc_user ==? user) && o~>oc_active)
    | _, _ => mret occupancy
    end);
  let meta := match occupancy with Some o => [("occupancy_id", PInt (pk o))] | None => [] end in
  if negb (_allowed membership occupancy) then
    audit_download user audit_membership v "denied" meta ;;
    raise (PermissionDenied "Document access denied.")
  else
    match _read_stored_version (val v) with
    | None =>
      audit_download user audit_membership v "unavailable" (integrity_item ++ meta) ;;
      raise (DocumentIntegrityError "Document storage is unavailable.")
    | Some data =>
      if negb (sha256 data ==? v~>dv_sha256) then
        audit_download user audit_membership v "integrity_mismatch" (integrity_item ++ meta) ;;
        raise (DocumentIntegrityError "Document integrity check failed.")
      else
        audit_download user audit_membership v "allowed" meta ;;
        mret data
    end.
End Download.

(** ** Facts *)

Section Facts.
Context {CR : Crypto} (ST : storage) (DS : doc_settings).
Context (image_verifies : string -> bool) (scanner : string -> option bool).
Implicit Types (w : world).

Lemma slen_app a b : slen (a +:+ b) = slen a + slen b.
Proof. unfold slen. rewrite string_length_app. lia. Qed.

Lemma over_limit_None limit read cs :
  over_limit limit read cs = None -> read <= limit ->
  read + slen (foldr String.append EmptyString cs) <= limit.
Proof.
  revert read. induction cs as [|c cs IH]; intros read; cbn [over_limit foldr].
  - unfold slen. cbn. lia.
  - destruct (Z.ltb_spec limit (read + slen c)); [done|]. intros H1 H2.
    specialize (IH _ H1 ltac:(lia)). change (String.append c ?s) with (c +:+ s).
    rewrite slen_app. lia.
Qed.

Lemma create_rejection_raises {A} u s m reason w (a : A) w' :
  _create_rejection DS u s m reason w = (Ok a, w') -> False.
Proof. unfold _create_rejection. intros H. inv_db. Qed.

(** The standing an accepted uploader has. *)
Definition may_upload w (document : obj document_row) (user : Z) (allow : bool) : Prop :=
  (exists j m, rows (memberships w) !! j = Some m /\
     manages user document~>dc_building (Obj j m) = true) \/
  (allow = true /\ document~>dc_kind = REPORT_PHOTO /\
   exists o, active_occupancy user document~>dc_building w = (Ok (Some o), w)).

Lemma standing_spec document u allow w s w' :
  uploader_standing document u allow w = (Ok s, w') ->
  w' = w /\ may_upload w document u allow /\
  (sd_membership s = None -> is_Some (sd_occupancy s)).
Proof.
  unfold uploader_standing, _occupancy_for, may_upload. intros H.
  rewrite (bind_run _ _ w _ w (membership_or_none_run _ _ w)) in H.
  destruct (first _ _) as [m|] eqn:E.
  - inv_db. apply first_Some in E as [Hr Hman]. split; [done|]. split; [|done].
    left. exists (pk m), (val m). by destruct m.
  - inv_db. to_prop.
    match goal with H : active_occupancy _ _ _ = _ |- _ =>
      pose proof (active_occupancy_spec _ _ _ _ _ H) as ->; rename H into Ho end.
    subst. split; [done|]. split; [|by eexists]. right. eauto.
Qed.

(** What an accepted upload established, and the version it stored. *)
Record accepted w (document : obj document_row) (f : uploaded_file) (u : Z) (allow : bool)
    (uuid : string) (v : obj doc_version_row) : Prop := {
  ac_standing : may_upload w document u allow;
  ac_type : str_in (uf_content_type f) (_allowed_content_types document~>dc_kind) = true;
  ac_size : 0 <= ds_max_upload_bytes DS -> slen (uf_bytes f) <= ds_max_upload_bytes DS;
  ac_signature : starts_with (default "" (assoc_str (uf_content_type f) MIME_SIGNATURES))
    (head_bytes 8 (uf_bytes f)) = true;
  ac_image : starts_with "image/" (uf_content_type f) = true -> image_verifies (uf_bytes f) = true;
  ac_scan : scanner (uf_bytes f) = Some true;
  ac_store : _store ST v~>dv_storage_key (uf_bytes f) (uf_content_type f)
    = Ok v~>dv_provider_version_id;
  ac_row : val v = DocVersion (pk document) (max_version (pk document) w + 1)
    ("documents/" +:+ zstr (pk document) +:+ "/" +:+ uuid) v~>dv_provider_version_id
    (basename (uf_name f)) (uf_content_type f) (slen (uf_bytes f)) (sha256 (uf_bytes f)) CLEAN u;
}.

Lemma audit_upload_run u s act k res meta w x w' :
  audit_upload u s act k res meta w = (Ok x, w') -> w' = w <| audits := audits w' |>.
Proof.
  unfold audit_upload, _audit. intros H.
  destruct s as [[m|] [o|]]; inv_db;
    match goal with H : record_audit _ _ _ _ _ _ _ _ = _ |- _ =>
      apply record_audit_Ok in H as (_ & _ & ->) end; done.
Qed.

Lemma create_version_accepted document f u allow uuid w v w' :
  create_document_version ST DS image_verifies scanner document f u allow uuid w = (Ok v, w') ->
  accepted w document f u allow uuid v /\ pk v = next (doc_versions w) /\
  w' = w <| doc_versions ::= insert_row (val v) |> <| audits := audits w' |>.
Proof.
  unfold create_document_version. intros H. apply bind_Ok in H as (s & w1 & Hs & H).
  apply standing_spec in Hs as (-> & Hst & _). cbv zeta in H.
  cbn [md_content_type md_byte_size md_filename _metadata] in H.
  destruct (str_in _ _) eqn:Etype in H; cbn [negb] in H; [|by apply create_rejection_raises in H].
  destruct (_ <? _) in H; [by apply create_rejection_raises in H|].
  destruct (over_limit _ _ _) eqn:Eover in H; [by apply create_rejection_raises in H|].
  destruct (starts_with _ (head_bytes _ _)) eqn:Esig in H; cbn [negb] in H;
    [|by apply create_rejection_raises in H].
  destruct (starts_with "image/" _ && _) eqn:Eimg in H; [by apply create_rejection_raises in H|].
  destruct (scan_verdict _ _) eqn:Escan in H; [inv_db|].
  inv_db. unfold insert_version in *. inv_db. inv_query.
  split; [|split; [done|match goal with H : audit_upload _ _ _ _ _ _ _ = _ |- _ =>
    by apply audit_upload_run in H end]].
  split; try done; cbn [val dv_storage_key dv_provider_version_id].
  - intros Hmax. pose proof (over_limit_None _ _ _ Eover Hmax). unfold uf_bytes. lia.
  - intros Hi. rewrite Hi in Eimg. by apply negb_false_iff in Eimg.
  - unfold scan_verdict in Escan. destruct (scanner _) as [[]|]; done.
  - match goal with H : pk _ = pk document |- _ => by rewrite H end.
Qed.

Lemma immutable_version_idem v s :
  immutable_version v = Some s -> immutable_version (PStr s) = Some s.
Proof.
  destruct v; cbn; try done. destruct (truthy s0 && _) eqn:E; [|done].
  intros [= ->]. by rewrite E.
Qed.

Lemma store_id key bytes ct id :
  has_bucket ST = true -> _store ST key bytes ct = Ok id -> immutable_version (PStr id) = Some id.
Proof.
  unfold _store. intros ->. destruct (get_bucket_versioning ST) as [st|]; [|done].
  destruct (negb _); [done|]. destruct (immutable_version _) eqn:E; [|done].
  intros [= <-]. by eapply immutable_version_idem.
Qed.

(** The storage gives back the object stored under [key] as version [id]. *)
Definition gives_back (key id bytes : string) : Prop :=
  if has_bucket ST then get_object ST key id = Some bytes else open_file ST key = Some bytes.

Lemma read_back (v : doc_version_row) bytes ct :
  _store ST (dv_storage_key v) bytes ct = Ok (dv_provider_version_id v) ->
  gives_back (dv_storage_key v) (dv_provider_version_id v) bytes ->
  _read_stored_version ST v = Some bytes.
Proof.
  unfold gives_back, _read_stored_version. intros Hs. destruct (has_bucket ST) eqn:E; [|done].
  by rewrite (store_id _ _ _ _ E Hs).
Qed.

(** A manager of the document's building who may be audited reads intact bytes. *)
Lemma download_by_manager u v w d m data :
  find v~>dv_document (documents w) = Some d ->
  first (manages u d~>dc_building) (memberships w) = Some m ->
  _read_stored_version ST (val v) = Some data -> sha256 data = v~>dv_sha256 ->
  (authorize_download ST u v w).1 = Ok data.
Proof.
  intros Hd Hm Hr Hsha. pose proof Hm as [Hrow Hman]%first_Some.
  unfold manages in Hman. to_prop. subst. unfold authorize_download.
  rewrite (bind_run _ _ w d w) by by apply get_row_Ok.
  rewrite (bind_run _ _ w _ w (membership_or_none_run _ _ w)), Hm.
  do 3 (erewrite bind_run by reflexivity). cbv zeta.
  unfold _allowed. rewrite (bool_decide_eq_true_2 (is_Some (Some m))) by eauto. cbn [orb negb].
  rewrite Hr, (bool_decide_eq_true_2 _ Hsha). cbn [negb]. unfold audit_download.
  erewrite bind_run; [reflexivity|].
  erewrite bind_run; [reflexivity|]. apply record_audit_Ok. split; [|done].
  by apply attribution_membership.
Qed.

(** What the function asks of the caller: a membership of the building, an occupancy in
    it, or -- without any membership -- an occupancy anywhere. *)
Definition may_download w (user building : Z) : Prop :=
  (exists m, first (manages user building) (memberships w) = Some m) \/
  (exists o, active_occupancy user building w = (Ok (Some o), w)) \/
  (has_active_membership w user = false /\
   exists j o, rows (occupancies w) !! j = Some o /\ oc_user o = user /\ oc_active o = true).

Lemma download_checked u v w data w' :
  authorize_download ST u v w = (Ok data, w') ->
  sha256 data = v~>dv_sha256 /\ _read_stored_version ST (val v) = Some data /\
  exists d, rows (documents w) !! v~>dv_document = Some d /\ may_download w u (dc_building d).
Proof.
  unfold authorize_download. intros H. apply bind_Ok in H as (d & w1 & Hd & H).
  apply get_row_Ok in Hd as [Hd ->]. apply find_Some in Hd as [Hpk Hd].
  rewrite (bind_run _ _ w _ w (membership_or_none_run _ _ w)) in H.
  apply bind_Ok in H as (any & w1 & [-> ->]%query_first_Ok & H). cbv zeta in H.
  apply bind_Ok in H as (o1 & w1 & Ho1 & H). apply bind_Ok in H as (o2 & w2 & Ho2 & H).
  assert (w1 = w) as ->.
  { destruct (first (manages _ _) _); [by inv_db|]. by apply active_occupancy_spec in Ho1. }
  assert (w2 = w) as -> by (repeat case_match; by inv_db).
  assert (_allowed (first (manages u d~>dc_building) (memberships w)) o2 = true /\
    _read_stored_version ST (val v) = Some data /\ sha256 data = v~>dv_sha256) as (Hall & Hr & Hsha).
  { destruct (_allowed _ _) in H |- *; cbn [negb] in H; [|inv_db].
    destruct (_read_stored_version _ _) as [x|] in H |- *; [|inv_db].
    destruct (negb (sha256 x ==? _)) eqn:E in H; [inv_db|]. inv_db. to_prop. done. }
  split; [done|]. split; [done|]. exists (val d). split; [done|].
  unfold may_download. unfold _allowed in Hall.
  destruct (first (manages _ _) _) as [m|] eqn:Em; [eauto|].
  cbn in Hall. apply bool_decide_eq_true in Hall as [o ->].
  destruct o1 as [o1|]; [right; left; eauto|].
  clear H. match type of Ho2 with (match ?e with _ => _ end) _ = _ =>
    destruct e as [a|] eqn:Ea; [by inv_db|] end.
  apply query_first_Ok in Ho2 as [Ho2 _]. right; right. split.
  - unfold has_active_membership. apply exists_false. rewrite first_None in Ea. exact Ea.
  - inv_query. to_prop. eauto.
Qed.
End Facts.

(** ** Properties *)

Section Properties.
Context {CR : Crypto} (ST : storage) (DS : doc_settings).
Context (image_verifies : string -> bool) (scanner : string -> option bool).
Implicit Types (w : world).

(** C33: the upload gate.  A version is created only for a manager of the document's building
    (or, for a report photo, a resident with an active occupancy there), of a content type
    the kind allows, within the size limit, with the type's signature, a decodable image and
    a clean scan; it is the next version of its document and records the file's real size
    and digest under a storage key of its own. *)
Theorem upload_gate document f u allow uuid w v w' :
  create_document_version ST DS image_verifies scanner document f u allow uuid w = (Ok v, w') ->
  accepted ST DS image_verifies scanner w document f u allow uuid v.
Proof. by intros [H _]%create_version_accepted. Qed.

(** What was uploaded is what is downloaded.  If the storage gives back the object it
    stored for an accepted upload, then at any later time a manager of the document's
    building downloads exactly the uploaded bytes. *)
Theorem upload_download_roundtrip document f u allow uuid w v w' user w2 d m :
  create_document_version ST DS image_verifies scanner document f u allow uuid w = (Ok v, w') ->
  gives_back ST v~>dv_storage_key v~>dv_provider_version_id (uf_bytes f) ->
  find (pk document) (documents w2) = Some d ->
  first (manages user d~>dc_building) (memberships w2) = Some m ->
  (authorize_download ST user v w2).1 = Ok (uf_bytes f).
Proof.
  intros [H _]%create_version_accepted Hgive Hd Hm. destruct H as [_ _ _ _ _ _ Hst Hrow].
  apply (download_by_manager ST user v w2 d m); [by rewrite Hrow|done| |by rewrite Hrow].
  by apply (read_back ST (val v) (uf_bytes f) (uf_content_type f)).
Qed.

(** A download hands out checked bytes, to whom.  Bytes are returned only if their
    digest is the recorded one, and only to a manager of the document's building, to a
    resident of it, or to a user without any active membership who has an active occupancy
    in some building. *)
Theorem download_authorized u v w data w' :
  authorize_download ST u v w = (Ok data, w') ->
  sha256 data = v~>dv_sha256 /\ _read_stored_version ST (val v) = Some data /\
  exists d, rows (documents w) !! v~>dv_document = Some d /\ may_download w u (dc_building d).
Proof. apply download_checked. Qed.
End Properties.

(** ** Concrete runs *)

(** A versioned bucket in which the version id is the object itself. *)
Definition demo_bucket : storage := Storage true (Some "Enabled")
  (fun _ bytes _ => PStr bytes) (fun key _ => key) (fun _ id => Some id) (fun _ => None).
Definition demo_limits : doc_settings := DocSettings 100 30.
Definition demo_file : uploaded_file := UploadedFile "dir/quote.pdf" "application/pdf" 9 ["%PDF-"; "1.4!"].
(** Two buildings; user 2 lives in building 2 and manages nothing; user 3 manages building 1. *)
Definition demo_archive : world :=
  empty_world (Settings true 0 "" "" "" "" true 10) 0
    <| buildings ::= insert_row "Tower A" |> <| buildings ::= insert_row "Tower B" |>
    <| units ::= insert_row (Unit_ 1 "A-101") |> <| units ::= insert_row (Unit_ 2 "B-101") |>
    <| occupancies ::= insert_row (Occupancy 2 2 true) |>
    <| memberships ::= insert_row (Membership 3 1 true) |>
    <| documents ::= insert_row (Document 1 QUOTATION) |>.
Definition demo_document : obj document_row := Obj 1 (Document 1 QUOTATION).
Definition demo_upload : result (obj doc_version_row) * world :=
  create_document_version (CR := demo_crypto) demo_bucket demo_limits (fun _ => true)
    (fun _ => Some true) demo_document demo_file 3 false "u1" demo_archive.
Definition demo_version : obj doc_version_row :=
  Obj 1 (DocVersion 1 1 "documents/1/u1" "%PDF-1.4!" "quote.pdf" "application/pdf" 9
    (sha256 (Crypto := demo_crypto) "%PDF-1.4!") CLEAN 3).

Lemma upload_gate_witness :
  accepted (CR := demo_crypto) demo_bucket demo_limits (fun _ => true) (fun _ => Some true)
    demo_archive demo_document demo_file 3 false "u1" demo_version.
Proof.
  refine (upload_gate (CR := demo_crypto) demo_bucket demo_limits (fun _ => true)
    (fun _ => Some true) demo_document demo_file 3 false "u1" demo_archive demo_version
    demo_upload.2 _).
  vm_compute. reflexivity.
Defined.

Lemma upload_download_roundtrip_witness :
  (authorize_download (CR := demo_crypto) demo_bucket 3 demo_version demo_upload.2).1
    = Ok "%PDF-1.4!".
Proof.
  refine (upload_download_roundtrip (CR := demo_crypto) demo_bucket demo_limits (fun _ => true)
    (fun _ => Some true) demo_document demo_file 3 false "u1" demo_archive demo_version
    demo_upload.2 3 demo_upload.2 demo_document (Obj 1 (Membership 3 1 true)) _ _ _ _).
  - vm_compute. reflexivity.
  - vm_compute. reflexivity.
  - vm_compute. reflexivity.
  - vm_compute. reflexivity.
Defined.

Lemma download_authorized_witness :
  sha256 (Crypto := demo_crypto) "%PDF-1.4!" = demo_version~>dv_sha256.
Proof.
  refine (proj1 (download_authorized (CR := demo_crypto) demo_bucket 3 demo_version demo_upload.2
    "%PDF-1.4!" (authorize_download (CR := demo_crypto) demo_bucket 3 demo_version demo_upload.2).2 _)).
  vm_compute. reflexivity.
Defined.

(** The occupancy looked up for the audit opens documents of other buildings.  User 2 has
    no membership and lives in building 2 only, yet downloads a document of building 1. *)
Theorem download_crosses_buildings :
  (first (manages 2 1) (memberships demo_upload.2) = None) /\
  (active_occupancy 2 1 demo_upload.2).1 = Ok None /\
  (authorize_download (CR := demo_crypto) demo_bucket 2 demo_version demo_upload.2).1
    = Ok "%PDF-1.4!".
Proof. vm_compute. repeat split. Qed.
