(* ===== verification/Reporting.v ===== *)
(** * Reporting: residents' reports and their photos

    [maintenance/reporting.py].  A client reference makes the submission idempotent, the
    content digest makes a photo upload idempotent. *)

From S2P Require Import Prelude Table PyStr Schema Store Accounts.
From S2P Require Import Notifications Hooks Locations Cases Documents.
Open Scope Z_scope.

(** [IssueReport] under [report_client_ref_once]; [save] stamps the unit's building. *)
Definition insert_report : report_row -> DB (obj report_row) :=
  insert_unless reports "report_client_ref_once"
    (fun r o => (o~>rp_reporter ==? rp_reporter r) && bool_decide (is_Some (rp_client_ref r)) &&
                (o~>rp_client_ref ==? rp_client_ref r)).
(** [ReportPhoto.Meta] *)
Definition insert_photo : report_photo_row -> DB (obj report_photo_row) :=
  insert_unless report_photos "report_photo_once"
    (fun r o => (o~>ph_report ==? ph_report r) &&
      ((o~>ph_version ==? ph_version r) || (o~>ph_content_sha ==? ph_content_sha r))).
(** [TriageJob.report] is one-to-one. *)
Definition insert_triage_job : triage_job_row -> DB (obj triage_job_row) :=
  insert_unless triage_jobs "maintenance_triagejob_report_id_key"
    (fun r o => o~>tj_report ==? tj_report r).

Definition hierarchy_error : exn := ValidationError
  "Report location hierarchy must be active and belong to the unit building.".
Definition hierarchy_invalid : exn := ValidationError "Report location hierarchy is invalid.".

(** Photos the resident may attach: owned, clean, of the building, originals. *)
Definition attachable (w : world) (resident building : Z) (v : obj doc_version_row) : bool :=
  (v~>dv_uploader ==? resident) && (v~>dv_scan_status ==? CLEAN) &&
  match find v~>dv_document (documents w) with
  | Some d => (d~>dc_building ==? building) && (d~>dc_kind ==? REPORT_PHOTO)
  | None => false
  end.

Definition submit_report (resident unit_id : Z) (text : pyval) (location : Z)
    (photo_ids : list Z) (client_ref : option string) (is_private : bool) : DB (obj report_row) :=
  atomic (
    unit_ ← query_first units (fun u => pk u ==? unit_id);
    unit_ ← of_option (ValidationError "Report unit is required.") unit_;
    occupancy ← query_first occupancies (fun o =>
      (o~>oc_user ==? resident) && (o~>oc_unit ==? pk unit_) && o~>oc_active);
    occupancy ← of_option
      (PermissionDenied "Active occupancy is required to submit a report.") occupancy;
    text ← (match text with
      | PStr s => if truthy (py_strip s) then mret (py_strip s)
                  else raise (ValidationError "Report text is required.")
      | _ => raise (ValidationError "Report text is required.")
      end);
    loc ← query_first locations (fun l => pk l ==? location);
    loc ← of_option (ValidationError "Report location is required.") loc;
    path ← gets (fun w => walk unit_~>un_building hierarchy_error hierarchy_invalid (locations w)
      (walk_fuel (locations w)) [] (Some loc));
    path_names ← of_result path;
    building ← get_row buildings "Building" loc~>lo_building;
    let snapshot := join " / " (val building :: rev path_names) in
    require (bool_decide (NoDup photo_ids))
      (ValidationError "A photo version can only be attached once.") ;;
    photos ← gets (fun w => select (fun v => bool_decide (pk v ∈ photo_ids) &&
      attachable w resident unit_~>un_building v) (doc_versions w));
    require (Nat.eqb (length photos) (length photo_ids)) (ValidationError
      "Report photos must be owned, clean original photos in the unit building.") ;;
    report ← insert_report (Report resident (pk unit_) unit_~>un_building text (pk loc) snapshot
      RSubmitted is_private "" None None client_ref);
    for_each (fun v => insert_photo (ReportPhoto (pk report) (pk v) v~>dv_sha256) ;; mret tt)
      photos ;;
    insert_triage_job (TriageJob (pk report) TPending "" None None) ;;
    record_audit resident None "report.submit" "IssueReport" (zstr (pk report)) "accepted"
      [("occupancy_id", PInt (pk occupancy))] ;;
    swallow (notify_report_receipt report) ;;
    mret report).

(** [(text or "").strip()]: anything but a string or a falsy value has no [strip]. *)
Definition text_or_empty (text : pyval) : result string :=
  match text with
  | PStr s => Ok (py_strip s)
  | PNone | PBool false | PInt 0 | PList [] | PDict [] => Ok ""
  | _ => Err AttributeError
  end.

Definition _content_matches (existing : report_row) (text : pyval) (unit_id location : Z)
    (is_private : bool) : result bool :=
  t ← text_or_empty text;
  Ok ((rp_text existing ==? t) && (rp_unit existing ==? unit_id) &&
      (rp_selected_location existing ==? location) && Bool.eqb (rp_is_private existing) is_private).

Definition by_client_ref (resident : Z) (client_ref : string) (r : obj report_row) : bool :=
  (r~>rp_reporter ==? resident) && (r~>rp_client_ref ==? Some client_ref).

(** Answer with the stored report, if it has the same content. *)
Definition replayed (existing : obj report_row) (text : pyval) (unit_id location : Z)
    (is_private : bool) : DB (obj report_row * bool) :=
  same ← of_result (_content_matches (val existing) text unit_id location is_private);
  require same ReportClientRefConflict ;;
  mret (existing, false).

Definition submit_report_idempotent (resident unit_id : Z) (text : pyval) (location : Z)
    (photo_ids : list Z) (client_ref : string) (is_private : bool) : DB (obj report_row * bool) :=
  existing ← query_first reports (by_client_ref resident client_ref);
  match existing with
  | Some existing => replayed existing text unit_id location is_private
  | None =>
    try_except
      (report ← submit_report resident unit_id text location photo_ids (Some client_ref) is_private;
       mret (report, true))
      (fun e => match e with
        | IntegrityError _ =>
          existing ← query_first reports (by_client_ref resident client_ref);
          match existing with
          | None => raise e
          | Some existing => replayed existing text unit_id location is_private
          end
        | _ => raise e
        end)
  end.

Section Photos.
Context {CR : Crypto} (ST : storage) (DS : doc_settings).
Context (image_verifies : string -> bool) (scanner : string -> option bool).

Definition _upload_sha256 (f : uploaded_file) : string := sha256 (uf_bytes f).

Definition same_photo (report : Z) (content_sha : string) (p : obj report_photo_row) : bool :=
  (p~>ph_report ==? report) && (p~>ph_content_sha ==? content_sha).

(** [existing.version, False] when the same bytes are attached already. *)
Definition attached_version (report : Z) (content_sha : string) : DB (option (obj doc_version_row)) :=
  existing ← query_first report_photos (same_photo report content_sha);
  match existing with
  | None => mret None
  | Some p => v ← get_row doc_versions "DocumentVersion" p~>ph_version; mret (Some v)
  end.

Definition attach_report_photo (resident : Z) (report : obj report_row) (f : uploaded_file)
    (uuid : string) : DB (obj doc_version_row * bool) :=
  occupancy ← active_occupancy resident report~>rp_building;
  require (bool_decide (is_Some occupancy))
    (PermissionDenied "Active occupancy in the report building is required.") ;;
  let content_sha := _upload_sha256 f in
  existing ← attached_version (pk report) content_sha;
  match existing with
  | Some v => mret (v, false)
  | None =>
    atomic (
      get_row reports "IssueReport" (pk report) ;;
      existing ← attached_version (pk report) content_sha;
      match existing with
      | Some v => mret (v, false)
      | None =>
        try_except
          (atomic (
             version ← create_resident_report_photo ST DS image_verifies scanner resident
               report~>rp_building f uuid;
             insert_photo (ReportPhoto (pk report) (pk version) content_sha) ;;
             mret (version, true)))
          (fun e => match e with
            | IntegrityError _ =>
              existing ← attached_version (pk report) content_sha;
              match existing with Some v => mret (v, false) | None => raise e end
            | _ => raise e
            end)
      end)
  end.
End Photos.

(** ** Facts *)

Section Facts.
Implicit Types (w : world).

Lemma insert_photos_run report l w w' :
  for_each (fun v : obj doc_version_row =>
    insert_photo (ReportPhoto report (pk v) v~>dv_sha256) ;; mret tt) l w = (Ok tt, w') ->
  w' = w <| report_photos := report_photos w' |>.
Proof.
  revert w. induction l as [|v l IH]; intros w; cbn [for_each]; intros H; inv_db.
  - by destruct w'.
  - unfold insert_photo in *. inv_db.
    match goal with H : for_each _ _ _ = (Ok ?u, _) |- _ => destruct u; apply IH in H as -> end.
    done.
Qed.

(** The row an accepted submission stored, and all it did to the reports. *)
Lemma submit_report_run resident u text loc photos cref priv w r w' :
  submit_report resident u text loc photos cref priv w = (Ok r, w') ->
  exists t, text_or_empty text = Ok t /\ r~>rp_reporter = resident /\ r~>rp_unit = u /\
    r~>rp_text = t /\ truthy t = true /\ r~>rp_selected_location = loc /\
    r~>rp_is_private = priv /\ r~>rp_client_ref = cref /\ r~>rp_status = RSubmitted /\
    r = Obj (next (reports w)) (val r) /\
    reports w' = insert_row (val r) (reports w) /\
    (exists names un, rows (units w) !! u = Some un /\ r~>rp_building = un_building un /\
       rooted (un_building un) (locations w) loc names).
Proof.
  unfold submit_report. intros H. inv_db.
  match goal with H : (match text with _ => _ end) _ = (Ok ?t, _) |- _ =>
    assert (exists s, text = PStr s /\ t = py_strip s /\ truthy t = true) as (s & -> & -> & Ht);
    [destruct text; inv_db; destruct (truthy (py_strip _)) eqn:E; inv_db; by eauto|];
    destruct (truthy (py_strip s)) in H; inv_db end.
  unfold insert_report, insert_triage_job in *. inv_db.
  match goal with H : for_each _ _ _ = (Ok ?u, _) |- _ =>
    destruct u; apply insert_photos_run in H end.
  match goal with H : record_audit _ _ _ _ _ _ _ _ = _ |- _ => apply record_audit_Ok in H as (_ & _ & ->) end.
  match goal with H : swallow (notify_report_receipt ?r) ?w1 = _ |- _ =>
    destruct (told_report_receipt r w1) as [ns Ens]; rewrite Ens in H; injection H as _ <- end.
  inv_query. to_prop. subst.
  eexists. split; [reflexivity|]. cbn [val rp_reporter rp_unit rp_text rp_selected_location
    rp_is_private rp_client_ref rp_status rp_building]. repeat (split; [done|]). split.
  - match goal with H : ?w2 = _ |- reports _ = _ => cbn [reports set]; rewrite H end. reflexivity.
  - eexists _, _. split; [eassumption|]. split; [done|]. eapply walk_exact; [eassumption|].
    match goal with H : walk _ _ _ _ _ _ _ = Ok _ |- _ => rewrite <- H end. 
    match goal with |- walk _ _ _ _ _ _ (Some (Obj (pk ?o) (val ?o))) = _ => by destruct o end.
Qed.

Lemma submit_idempotent_created resident u text loc photos cref priv w r w' :
  table_wf (reports w) ->
  submit_report_idempotent resident u text loc photos cref priv w = (Ok (r, true), w') ->
  first (by_client_ref resident cref) (reports w') = Some r /\
  _content_matches (val r) text u loc priv = Ok true.
Proof.
  intros Hwf. unfold submit_report_idempotent, try_except, replayed. intros H. inv_db.
  destruct (first _ (reports _)) as [x|] eqn:E; [inv_db|].
  match goal with H : (match ?m with _ => _ end) = _ |- _ => destruct m as [[[r0 b]|e] w1] eqn:Es end.
  - match goal with H : (Ok _, _) = (Ok _, _) |- _ => injection H as -> -> -> end. inv_db.
    match goal with H : submit_report _ _ _ _ _ _ _ _ = _ |- _ => apply submit_report_run in H as
      (t & Ht & Hrep & Hu & Etext & _ & Hloc & Hpriv & Hcref & _ & Hr & Hrows & _) end.
    rewrite Hrows, first_insert_row, E by done. rewrite <- Hr.
    unfold by_client_ref. rewrite Hrep, Hcref, !bool_decide_eq_true_2 by done. split; [done|].
    unfold _content_matches. rewrite Ht. cbn [mbind result_bind].
    rewrite Etext, Hu, Hloc, Hpriv, !bool_decide_eq_true_2 by done. by rewrite Bool.eqb_reflx.
  - destruct e; try discriminate. inv_db. destruct (first _ (reports w1)); inv_db.
Qed.

(** Submitting again is answered from the stored report alone. *)
Lemma submit_again resident u text loc photos cref priv w r :
  first (by_client_ref resident cref) (reports w) = Some r ->
  submit_report_idempotent resident u text loc photos cref priv w =
  (match _content_matches (val r) text u loc priv with
   | Ok true => Ok (r, false)
   | Ok false => Err ReportClientRefConflict
   | Err e => Err e
   end, w).
Proof.
  intros E. unfold submit_report_idempotent.
  erewrite bind_run by (unfold query_first, gets; by rewrite E).
  unfold replayed, of_result, require, mbind, M_bind, mret, M_ret.
  by destruct (_content_matches _ _ _ _ _) as [[]|].
Qed.
End Facts.

Section PhotoFacts.
Context {CR : Crypto} (ST : storage) (DS : doc_settings).
Context (image_verifies : string -> bool) (scanner : string -> option bool).
Implicit Types (w : world).

Lemma attached_version_run report sha w :
  exists x, attached_version report sha w = (x, w) /\
    forall v, x = Ok (Some v) -> exists p, first (same_photo report sha) (report_photos w) = Some p /\
      find p~>ph_version (doc_versions w) = Some v.
Proof.
  unfold attached_version, query_first, get_row, gets, of_option, mbind, M_bind, mret, M_ret.
  destruct (first _ _) as [p|]; [|by eexists]. destruct (find _ _) as [v|] eqn:E; eexists; split; try done.
  intros v' [= ->]. eauto.
Qed.

Lemma attached_none report sha w w' :
  attached_version report sha w = (Ok None, w') ->
  w' = w /\ first (same_photo report sha) (report_photos w) = None.
Proof. unfold attached_version. intros H. inv_db. destruct (first _ _) eqn:?; by inv_db. Qed.

Lemma attached_found report sha w p v :
  first (same_photo report sha) (report_photos w) = Some p ->
  find p~>ph_version (doc_versions w) = Some v -> attached_version report sha w = (Ok (Some v), w).
Proof.
  intros Hp Hv. unfold attached_version, query_first, get_row, gets, of_option, mbind, M_bind.
  by rewrite Hp, Hv.
Qed.

(** What storing a photo writes. *)
Lemma create_photo_frame resident b f uuid w v w' :
  create_resident_report_photo ST DS image_verifies scanner resident b f uuid w = (Ok v, w') ->
  pk v = next (doc_versions w) /\
  w' = w <| documents := documents w' |> <| doc_versions ::= insert_row (val v) |>
         <| audits := audits w' |>.
Proof.
  unfold create_resident_report_photo. intros H. inv_db.
  match goal with H : create_document_version _ _ _ _ _ _ _ _ _ _ = _ |- _ =>
    apply create_version_accepted in H as (_ & Hpk & Hw) end.
  split; [done|]. rewrite Hw. by rewrite Hw.
Qed.

(** A new photo is stored with its link, and nothing the occupancy check reads changes. *)
Lemma attach_stored resident (report : obj report_row) f uuid w v w' :
  (version ← create_resident_report_photo ST DS image_verifies scanner resident
     report~>rp_building f uuid;
   insert_photo (ReportPhoto (pk report) (pk version) (_upload_sha256 f)) ;;
   mret (version, true)) w = (Ok (v, true), w') ->
  find (pk v) (doc_versions w') = Some v /\
  report_photos w' =
    insert_row (ReportPhoto (pk report) (pk v) (_upload_sha256 f)) (report_photos w) /\
  occupancies w' = occupancies w /\ units w' = units w.
Proof.
  intros H. apply bind_Ok in H as (v1 & w1 & Hc & H). unfold insert_photo in H. inv_db.
  apply create_photo_frame in Hc as [Hpk Hw]. rewrite Hw. cbn [report_photos doc_versions set
    occupancies units]. split; [|done].
  unfold find, insert_row. cbn [rows]. rewrite <- Hpk, lookup_insert_eq. by destruct v.
Qed.

(** A first upload leaves the photo findable by its digest. *)
Lemma attach_created resident report f uuid w v w' :
  table_wf (report_photos w) ->
  attach_report_photo ST DS image_verifies scanner resident report f uuid w = (Ok (v, true), w') ->
  attached_version (pk report) (_upload_sha256 f) w' = (Ok (Some v), w') /\
  exists o, active_occupancy resident report~>rp_building w' = (Ok (Some o), w').
Proof.
  intros Hwf. unfold attach_report_photo. intros H.
  apply bind_Ok in H as (occ & w1 & Hocc & H).
  pose proof (active_occupancy_spec _ _ _ _ _ Hocc) as ->. inv_db. to_prop.
  destruct x1; [by inv_db|]. apply attached_none in H0 as [-> Hnone]. inv_db.
  match goal with H : (match ?x with _ => _ end) _ = (Ok _, _) |- _ => destruct x; [by inv_db|] end.
  match goal with H : attached_version _ _ _ = _ |- _ => apply attached_none in H as [-> _] end.
  unfold try_except in *.
  match goal with H : (match atomic ?m ?w with _ => _ end) = _ |- _ =>
    destruct (atomic m w) as [[[v' b]|e] w1] eqn:Ea end.
  - simplify_eq. apply (proj1 (atomic_Ok _ _ _ _)), attach_stored in Ea as (Hv & Hp & Ho & Hu).
    split.
    + apply (attached_found _ _ _ (Obj (next (report_photos x0)) (ReportPhoto (pk report) (pk v)
        (_upload_sha256 f)))); [|exact Hv]. rewrite Hp, first_insert_row, Hnone by done.
      unfold same_photo. by rewrite !bool_decide_eq_true_2.
    + unfold active_occupancy, gets in *. rewrite Ho, Hu. destruct H as [o ->].
      injection Hocc as Hocc. rewrite Hocc. eauto.
  - destruct e; try discriminate. inv_db. by case_match; inv_db.
Qed.
End PhotoFacts.

(** ** Properties *)

Section Properties.
Context {CR : Crypto} (ST : storage) (DS : doc_settings).
Context (image_verifies : string -> bool) (scanner : string -> option bool).

(** A client reference submits once.  After an accepted submission, every further call
    with the same reference is answered from the stored report and writes nothing: with the
    report if text, unit, location and privacy are the same, with the conflict error
    otherwise, whatever photos it names. *)
Theorem report_submission_idempotent resident u text loc photos cref priv w r w' :
  table_wf (reports w) ->
  submit_report_idempotent resident u text loc photos cref priv w = (Ok (r, true), w') ->
  _content_matches (val r) text u loc priv = Ok true /\
  forall u' text' loc' photos' priv',
    submit_report_idempotent resident u' text' loc' photos' cref priv' w' =
    (match _content_matches (val r) text' u' loc' priv' with
     | Ok true => Ok (r, false)
     | Ok false => Err ReportClientRefConflict
     | Err e => Err e
     end, w').
Proof.
  intros Hwf [Hfirst Hc]%submit_idempotent_created; [|done]. split; [done|]. intros *.
  by apply submit_again.
Qed.

(** A report is stored under an active, rooted location.  An accepted submission stores
    one new report, in the building of the named unit, waiting for triage, with non-blank
    text, and its location is joined to the building's root by active locations of the
    building without a cycle. *)
Theorem report_location_rooted resident u text loc photos cref priv w r w' :
  submit_report resident u text loc photos cref priv w = (Ok r, w') ->
  reports w' = insert_row (val r) (reports w) /\ r~>rp_status = RSubmitted /\
  r~>rp_reporter = resident /\ r~>rp_text <> "" /\
  exists un names, rows (units w) !! u = Some un /\ r~>rp_building = un_building un /\
    rooted (un_building un) (locations w) loc names.
Proof.
  intros (t & _ & Hrep & _ & -> & Ht & _ & _ & _ & Hs & _ & Hrows & names & un & ? & ? & ?)%submit_report_run.
  repeat (split; [done|]). split; [by intros ->|eauto 6].
Qed.

(** The same photo is attached once.  After a first upload, uploading any file with the
    same digest to the report returns the stored version and writes nothing. *)
Theorem attach_photo_idempotent resident report f uuid w v w' g uuid' :
  table_wf (report_photos w) ->
  attach_report_photo ST DS image_verifies scanner resident report f uuid w = (Ok (v, true), w') ->
  sha256 (uf_bytes g) = sha256 (uf_bytes f) ->
  attach_report_photo ST DS image_verifies scanner resident report g uuid' w' = (Ok (v, false), w').
Proof.
  intros Hwf [Hfound [o Ho]]%attach_created Hsha; [|done].
  unfold attach_report_photo. rewrite (bind_run _ _ _ _ _ Ho), (bind_run _ _ _ tt w') by done.
  unfold _upload_sha256 in *. rewrite Hsha. by rewrite (bind_run _ _ _ _ _ Hfound).
Qed.

(** A refused photo leaves no record.  Attaching a photo stores inside a transaction, so
    when the upload is rejected or quarantined, the row and the audit that
    [create_document_version] wrote about it are rolled back with it. *)
Theorem refused_photo_unrecorded resident report f uuid w e w' :
  attach_report_photo ST DS image_verifies scanner resident report f uuid w = (Err e, w') ->
  w' = w.
Proof.
  unfold attach_report_photo. intros [H|(o & w1 & Ho & H)]%bind_Err; [by unfold active_occupancy in H|].
  apply active_occupancy_spec in Ho as ->. unfold require at 1, mbind at 1, M_bind at 1 in H.
  destruct (bool_decide _); [|by injection H].
  destruct (attached_version_run (pk report) (_upload_sha256 f) w) as (x & Hx & _).
  unfold mbind at 1, M_bind at 1 in H. rewrite Hx in H. destruct x as [[v|]|]; [done| |by injection H].
  by apply atomic_Err in H.
Qed.
End Properties.

(** ** Concrete runs *)

(** User 2 lives in unit 2, of building 2, whose root is location 1. *)
Definition demo_home : world :=
  demo_archive <| locations ::= insert_row (Location 2 None "Building" true) |>.
Definition demo_submission : result (obj report_row * bool) * world :=
  submit_report_idempotent 2 2 (PStr " leak ") 1 [] "ref-1" false demo_home.
Definition demo_stored : obj report_row :=
  Obj 1 (Report 2 2 2 "leak" 1 "Tower B / Building" RSubmitted false "" None None (Some "ref-1")).
Definition demo_image : uploaded_file := UploadedFile "leak.png" "image/png" 10
  [default "" (assoc_str "image/png" MIME_SIGNATURES); "ok"].
Definition demo_attach (scanner : string -> option bool) :
    result (obj doc_version_row * bool) * world :=
  attach_report_photo (CR := demo_crypto) demo_bucket demo_limits (fun _ => true) scanner 2
    demo_stored demo_image "u1" demo_submission.2.
Definition demo_photo : obj doc_version_row :=
  Obj 1 (DocVersion 2 1 "documents/2/u1" (uf_bytes demo_image) "leak.png" "image/png" 10
    (sha256 (Crypto := demo_crypto) (uf_bytes demo_image)) CLEAN 2).

Lemma report_submission_idempotent_witness :
  submit_report_idempotent 2 2 (PStr "leak") 1 [7] "ref-1" false demo_submission.2
    = (Ok (demo_stored, false), demo_submission.2) /\
  submit_report_idempotent 2 2 (PStr "flood") 1 [] "ref-1" false demo_submission.2
    = (Err ReportClientRefConflict, demo_submission.2).
Proof.
  pose proof (proj2 (report_submission_idempotent 2 2 (PStr " leak ") 1 [] "ref-1" false demo_home
    demo_stored demo_submission.2 (table_wf_b_true (reports demo_home) eq_refl) ltac:(vm_compute; reflexivity))) as H.
  split; rewrite H; reflexivity.
Defined.

Lemma report_location_rooted_witness :
  exists un names, rows (units demo_home) !! 2 = Some un /\ demo_stored~>rp_building = un_building un /\
    rooted (un_building un) (locations demo_home) 1 names.
Proof.
  refine (proj2 (proj2 (proj2 (proj2 (report_location_rooted 2 2 (PStr " leak ") 1 []
    (Some "ref-1") false demo_home demo_stored demo_submission.2 _))))).
  vm_compute. reflexivity.
Defined.

Lemma attach_photo_idempotent_witness :
  attach_report_photo (CR := demo_crypto) demo_bucket demo_limits (fun _ => true)
    (fun _ => Some true) 2 demo_stored demo_image "u2" (demo_attach (fun _ => Some true)).2
  = (Ok (demo_photo, false), (demo_attach (fun _ => Some true)).2).
Proof.
  refine (attach_photo_idempotent (CR := demo_crypto) demo_bucket demo_limits (fun _ => true)
    (fun _ => Some true) 2 demo_stored demo_image "u1" demo_submission.2 demo_photo
    (demo_attach (fun _ => Some true)).2 demo_image "u2" _ _ _).
  - by apply table_wf_b_true.
  - vm_compute. reflexivity.
  - reflexivity.
Defined.

(** Infected: the upload alone would have recorded a quarantine row. *)
Lemma refused_photo_unrecorded_witness :
  (demo_attach (fun _ => Some false)).2 = demo_submission.2 /\
  size (rows (quarantined (create_resident_report_photo (CR := demo_crypto) demo_bucket demo_limits
    (fun _ => true) (fun _ => Some false) 2 2 demo_image "u1" demo_submission.2).2)) = 1%nat.
Proof.
  split; [|vm_compute; reflexivity].
  refine (refused_photo_unrecorded (CR := demo_crypto) demo_bucket demo_limits (fun _ => true)
    (fun _ => Some false) 2 demo_stored demo_image "u1" demo_submission.2
    (DocumentUploadQuarantined "malware detected") _ _).
  vm_compute. reflexivity.
Defined.
