(* ===== verification/Proposals.v ===== *)
(** * Proposals: spending proposals and their append-only versions

    [finance/proposals.py] with the constraints of [finance/models/proposals.py].  Every
    published version stores a snapshot, queues a signed evidence event that commits to it,
    and points at the event of the version before it. *)

From S2P Require Import OutboxWorker Prelude Table PyStr Schema Store Accounts Canonical Signatures.
From S2P Require Import Timestamps Dates Evidence Notifications Hooks Cases Documents.
Open Scope Z_scope.

Definition ZERO_HASH : string := "0x" +:+ foldr String.append EmptyString (repeat "00" 32).

(** ** Schedule and dates *)

(** What a caller may pass for a date: nothing, a text, or a [datetime.date]. *)
Inductive date_arg :=
  | DNone
  | DText (s : string)
  | DDate (d : date).

(** One date: blank non-empty text is kept as it is. *)
Definition resolve_date (a : date_arg) : result date_arg :=
  match a with
  | DNone => Ok DNone
  | DText s =>
    if truthy (py_strip s) then
      match fromisoformat (py_strip s) with
      | Some d => Ok (DDate d)
      | None => Err (ValueError "Invalid isoformat string")
      end
    else Ok (if truthy s then DText s else DNone)
  | DDate d => Ok (DDate d)
  end.
Definition given (a : date_arg) : bool := match a with DNone => false | _ => true end.

(** The dates, when both are real ones, and the text shown for the schedule. *)
Definition _resolve_schedule_and_dates (expected_start expected_end : date_arg)
    (expected_schedule : string) : result (option date * option date * string) :=
  expected_start ← resolve_date expected_start;
  expected_end ← resolve_date expected_end;
  if negb (Bool.eqb (given expected_start) (given expected_end))
  then Err (ValidationError "Expected start and end dates must be provided together.") else
  match expected_start, expected_end with
  | DDate s, DDate e =>
    if date_lt e s
    then Err (ValidationError "Expected end date cannot precede expected start date.")
    else Ok (Some s, Some e, strftime_dmy s +:+ " – " +:+ strftime_dmy e)
  | DText s, DText e =>
    if sle s e then Err AttributeError
    else Err (ValidationError "Expected end date cannot precede expected start date.")
  | DDate _, DText _ | DText _, DDate _ => Err (TypeError "'<' not supported")
  | _, _ =>
    Ok (None, None, if truthy (py_strip expected_schedule) then py_strip expected_schedule
                    else "To be scheduled")
  end.

(** ** Quotations *)

Definition quotation_ok (w : world) (building_id : Z) (v : obj doc_version_row) : bool :=
  match find v~>dv_document (documents w) with
  | Some d => (d~>dc_kind ==? QUOTATION) && (d~>dc_building ==? building_id) &&
              (v~>dv_scan_status ==? CLEAN)
  | None => false
  end.

(** [quotation_versions] are the keys of the objects passed, [None] for one without. *)
Definition _quotation_versions (building_id : Z) (quotation_versions : list (option Z)) :
    DB (list (obj doc_version_row)) :=
  let ids := omap id quotation_versions in
  require (negb (Nat.eqb (length quotation_versions) 0)
      && Nat.eqb (length ids) (length quotation_versions) && bool_decide (NoDup ids))
    (ValidationError "At least one distinct quotation is required.") ;;
  found ← gets (fun w => omap (fun k => find k (doc_versions w)) ids);
  require (Nat.eqb (length found) (length ids))
    (ValidationError "Every quotation version must still exist.") ;;
  ok ← gets (fun w => forallb (quotation_ok w building_id) found);
  require ok (ValidationError "Quotations must be clean, safe, and in the work-order building.") ;;
  mret found.

(** ** Snapshots *)

Definition opt_date (d : option date) : pyval :=
  match d with Some d => PStr (isoformat d) | None => PNone end.

Section Snapshot.
Context {CR : Crypto}.

Definition proposal_snapshot (proposal : obj proposal_row) (amount_vnd : Z)
    (contractor_name purpose proposed_action expected_schedule : string)
    (versions : list (obj doc_version_row)) (number : Z) (expected_start expected_end : option date) :
    pyval :=
  mk_dict [
    ("proposal_id", PInt (pk proposal));
    ("proposal_version", PInt number);
    ("case_id", opt_int proposal~>pr_case);
    ("building_id", PInt proposal~>pr_building);
    ("amount_vnd", PInt amount_vnd);
    ("contractor_name", PStr contractor_name);
    ("purpose", PStr purpose);
    ("proposed_action", PStr proposed_action);
    ("expected_start", opt_date expected_start);
    ("expected_end", opt_date expected_end);
    ("expected_schedule", PStr expected_schedule);
    ("quotation_versions", PList ((fun v => mk_dict
      [("version_id", PInt (pk v)); ("sha256", PStr v~>dv_sha256)]) <$> versions))].

Definition case_snapshot (case : obj case_row) : pyval :=
  mk_dict [("case_id", PInt (pk case)); ("category", PStr case~>ca_category);
    ("management_queue", PStr case~>ca_management_queue); ("location_id", PInt case~>ca_location)].

(** [proposal.case], if any. *)
Definition proposal_case (proposal : proposal_row) : DB (option (obj case_row)) :=
  match pr_case proposal with
  | None => mret None
  | Some c => case ← get_row cases "MaintenanceCase" c; mret (Some case)
  end.

Definition evidence_payload_of (proposal : obj proposal_row) (case : option (obj case_row))
    (amount_vnd number : Z) (snapshot : pyval) (versions : list (obj doc_version_row)) :
    result pyval :=
  snapshot_hash ← payload_hash snapshot;
  quotation_hash ← payload_hash (PList ((fun v => PStr v~>dv_sha256) <$> versions));
  let payload := [
    ("proposal_id", PInt (pk proposal));
    ("proposal_version", PInt number);
    ("record_id", PInt (pk proposal));
    ("building_id", PInt proposal~>pr_building);
    ("amount_vnd", PInt amount_vnd);
    ("proposal_snapshot_hash", PStr snapshot_hash);
    ("quotation_hash", PStr quotation_hash)] in
  match case with
  | None => Ok (mk_dict payload)
  | Some case =>
    case_hash ← payload_hash (case_snapshot case);
    Ok (mk_dict (payload ++ [("case_id", PInt (pk case)); ("case_snapshot_hash", PStr case_hash)]))
  end.

Definition _submission_snapshot (proposal : obj proposal_row) (amount_vnd : Z)
    (contractor_name purpose proposed_action expected_schedule : string)
    (versions : list (obj doc_version_row)) (number : Z) (expected_start expected_end : option date) :
    DB (pyval * pyval) :=
  case ← proposal_case (val proposal);
  let snapshot := proposal_snapshot proposal amount_vnd contractor_name purpose proposed_action
    expected_schedule versions number expected_start expected_end in
  payload ← of_result (evidence_payload_of proposal case amount_vnd number snapshot versions);
  mret (snapshot, payload).
End Snapshot.

(** ** Inserts under constraints *)

Definition BIGINT_MAX : Z := 2 ^ 63 - 1.
Definition fits_bigint (n : Z) : bool := (- 2 ^ 63 <=? n) && (n <=? BIGINT_MAX).
Definition max_length (n : Z) (s : string) : bool := py_len s <=? n.

(** [Proposal.case] is one-to-one. *)
Definition insert_proposal : proposal_row -> DB (obj proposal_row) :=
  insert_unless proposals "finance_proposal_case_id_key"
    (fun r o => bool_decide (is_Some (pr_case r)) && (o~>pr_case ==? pr_case r)).

(** The columns of [ProposalVersion] that PostgreSQL bounds. *)
Definition version_fits (r : version_row) : bool :=
  fits_bigint (ve_amount_vnd r) && max_length 255 (ve_contractor_name r) &&
  max_length 200 (ve_expected_schedule r).
(** [ProposalVersion.Meta], and the one-to-one [outbox_event]. *)
Definition insert_proposal_version (r : version_row) : DB (obj version_row) :=
  require (version_fits r) (DatabaseError "value out of range") ;;
  require (0 <? ve_amount_vnd r) (IntegrityError "proposal_amount_positive") ;;
  insert_unless versions "proposal_version_once"
    (fun r o => (o~>ve_proposal ==? ve_proposal r) && (o~>ve_number ==? ve_number r) ||
                (o~>ve_outbox_event ==? ve_outbox_event r)) r.
(** [proposal_document_once] *)
Definition insert_prop_doc : prop_doc_row -> DB (obj prop_doc_row) :=
  insert_unless prop_docs "proposal_document_once"
    (fun r o => (o~>pd_version ==? pd_version r) && (o~>pd_document_version ==? pd_document_version r)).

(** ** Creating and deciding *)

(** The reports of a case, through its links. *)
Definition case_report_rows (case_id : Z) : DB (list (obj report_row)) := gets (fun w =>
  omap (fun l => find l~>cr_report (reports w))
    (select (fun l => l~>cr_case ==? case_id) (case_reports w))).

Definition create_proposal (case_id : Z) (creator : obj membership_row) : DB (obj proposal_row) :=
  atomic (
    case ← query_first cases (fun c => pk c ==? case_id);
    case ← of_option (ValidationError "An active uncompleted case is required.") case;
    require (case~>ca_active && (case~>ca_completed_at ==? None))
      (ValidationError "An active uncompleted case is required.") ;;
    membership ← require_management creator~>mb_user case~>ca_building;
    rs ← case_report_rows (pk case);
    require (negb (existsb (fun r => r~>rp_is_private) rs))
      (ValidationError "Private requests cannot become community proposals.") ;;
    require (negb (existsb (fun r => r~>rp_status ==? RInProgress) rs))
      (ValidationError "Cases already proceeding without spending cannot add a proposal.") ;;
    proposal ← try_except
      (insert_proposal (Proposal (Some (pk case)) case~>ca_building (pk membership) PDraft None None
        None "" None None None))
      (fun e => match e with
        | IntegrityError _ => raise (ValidationError "A proposal already exists for this case.")
        | _ => raise e
        end);
    linked_to ← gets (fun w => linked w (pk case));
    bulk_update reports (fun r => linked_to (pk r) && negb (terminal_status r~>rp_status))
      (fun r => r <| rp_status := RProposed |>) ;;
    record_audit membership~>mb_user (Some (pk membership)) "proposal.create" "Proposal"
      (zstr (pk proposal)) "accepted" [("case_id", PInt (pk case))] ;;
    mret proposal).

Definition create_standalone_proposal (building : Z) (creator : obj membership_row) :
    DB (obj proposal_row) :=
  atomic (
    membership ← require_management creator~>mb_user building;
    proposal ← insert_proposal (Proposal None building (pk membership) PDraft None None None "" None
      None None);
    record_audit membership~>mb_user (Some (pk membership)) "proposal.create" "Proposal"
      (zstr (pk proposal)) "accepted" [("case_id", PNone)] ;;
    mret proposal).

Definition decided_row (proceed : bool) (membership now : Z) (note : string) (p : proposal_row) :
    proposal_row :=
  p <| pr_status := if proceed then PInProgress else PNotProceeding |>
    <| pr_decided_by := Some membership |> <| pr_decided_at := Some now |>
    <| pr_decision_note := py_strip note |>
    <| pr_closed_at := if proceed then None else Some now |>.

Definition decide_proposal (proposal_id manager : Z) (proceed : pyval) (note : string) :
    DB (obj proposal_row) :=
  atomic (
    locked ← get_row proposals "Proposal" proposal_id;
    membership ← require_management manager locked~>pr_building;
    require (locked~>pr_status ==? PPublished)
      (ValidationError "Only published proposals can be decided.") ;;
    proceed ← (match proceed with
      | PBool b => mret b
      | _ => raise (ValidationError "Proceed must be a boolean.")
      end);
    now ← timezone_now;
    save proposals (pk locked) (decided_row proceed (pk membership) now note) ;;
    record_audit manager (Some (pk membership)) "proposal.decided" "Proposal" (zstr (pk locked))
      "accepted" [("proceed", PBool proceed)] ;;
    mret (Obj (pk locked) (decided_row proceed (pk membership) now note (val locked)))).

(** ** Publishing a version *)

(** [type(amount_vnd) is not int or amount_vnd <= 0] *)
Definition positive_amount (amount_vnd : pyval) : option Z :=
  match amount_vnd with PInt n => if 0 <? n then Some n else None | _ => None end.
(** [isinstance(value, str) and value.strip()], stripped. *)
Definition nonblank (value : pyval) : option string :=
  match value with
  | PStr s => if truthy (py_strip s) then Some (py_strip s) else None
  | _ => None
  end.

Definition newest_version (proposal_id : Z) (w : world) : option (obj version_row) :=
  head (order_by (fun v => - v~>ve_number)
    (select (fun v => v~>ve_proposal ==? proposal_id) (versions w))).

Definition may_publish (s : proposal_status) : bool :=
  existsb (fun x => s ==? x) [PDraft; PPublished; PInProgress].

(** ["0x" + previous.outbox_event.payload_hash], or the zero hash. *)
Definition previous_hash_of (previous : option (obj version_row)) : DB string :=
  match previous with
  | None => mret ZERO_HASH
  | Some v =>
    event ← get_row outbox "BlockchainOutboxEvent" v~>ve_outbox_event;
    mret ("0x" +:+ event~>ev_payload_hash)
  end.

Definition matching_prediction (proposal : obj proposal_row) (amount_vnd : Z) (p : prediction_row) :
    bool :=
  (pp_building p ==? proposal~>pr_building) && (pp_case p ==? proposal~>pr_case) &&
  (pp_amount_vnd p ==? amount_vnd) && (pp_proposal_version p ==? None).
(** Bind the price prediction to the version, when it is about the same spending. *)
Definition bind_prediction (price_prediction_id : option Z) (proposal : obj proposal_row)
    (amount_vnd version : Z) : DB unit :=
  match price_prediction_id with
  | None => mret tt
  | Some k =>
    prediction ← query_first predictions (fun p => pk p ==? k);
    match prediction with
    | Some p =>
      if matching_prediction proposal amount_vnd (val p)
      then save predictions (pk p) (fun p => p <| pp_proposal_version := Some version |>)
      else mret tt
    | None => mret tt
    end
  end.

Definition published_row (version : Z) (token : option string) (p : proposal_row) : proposal_row :=
  p <| pr_current_version := Some version |> <| pr_status := PPublished |>
    <| pr_public_token := token |>.

(** The unique [public_token]. *)
Definition save_published (k version : Z) (token : option string) : DB unit :=
  dup ← query_exists proposals (fun o => negb (pk o ==? k) && bool_decide (is_Some token) &&
    (o~>pr_public_token ==? token));
  require (negb dup) (IntegrityError "finance_proposal_public_token_key") ;;
  save proposals k (published_row version token).

Record version_request := VersionRequest {
  vq_amount_vnd : pyval; vq_contractor_name : pyval; vq_purpose : pyval; vq_proposed_action : pyval;
  vq_expected_start : date_arg; vq_expected_end : date_arg; vq_expected_schedule : string;
  vq_quotations : list (option Z); vq_event_id : string; vq_price_prediction : option Z }.

Section Publish.
Context {CR : Crypto} {ETH : EthAccount}.

(** [token] is what [new_public_token()] returns. *)
Definition publish_proposal_version (proposal_id : Z) (creator : obj membership_row)
    (q : version_request) (token : string) : DB (obj version_row) :=
  atomic (
    locked ← get_row proposals "Proposal" proposal_id;
    membership ← require_management creator~>mb_user locked~>pr_building;
    amount_vnd ← of_option (ValidationError "Proposal amount must be a positive integer.")
      (positive_amount (vq_amount_vnd q));
    contractor_name ← of_option (ValidationError "Contractor name is required.")
      (nonblank (vq_contractor_name q));
    require (may_publish locked~>pr_status)
      (ValidationError "This proposal cannot receive another version.") ;;
    purpose ← of_option (ValidationError "Problem or need is required.") (nonblank (vq_purpose q));
    proposed_action ← of_option (ValidationError "Proposed action is required.")
      (nonblank (vq_proposed_action q));
    schedule ← of_result (_resolve_schedule_and_dates (vq_expected_start q) (vq_expected_end q)
      (vq_expected_schedule q));
    let '(expected_start, expected_end, resolved_schedule) := schedule in
    quotations ← _quotation_versions locked~>pr_building (vq_quotations q);
    previous ← gets (newest_version (pk locked));
    let number := (match previous with Some v => v~>ve_number | None => 0 end) + 1 in
    let public_token := match previous with Some _ => locked~>pr_public_token | None => Some token end in
    documents_ ← _submission_snapshot locked amount_vnd contractor_name purpose proposed_action
      resolved_schedule quotations number expected_start expected_end;
    let '(snapshot, evidence_payload) := documents_ in
    previous_hash ← previous_hash_of previous;
    event ← queue_platform_event (vq_event_id q) PROPOSAL_CREATED evidence_payload previous_hash
      locked~>pr_building;
    snapshot_hash ← of_result (payload_hash snapshot);
    version ← insert_proposal_version (Version (pk locked) number amount_vnd contractor_name purpose
      proposed_action expected_start expected_end resolved_schedule snapshot snapshot_hash
      (pk membership) (pk event));
    for_each (fun d => insert_prop_doc (PropDoc (pk version) (pk d)) ;; mret tt) quotations ;;
    bind_prediction (vq_price_prediction q) locked amount_vnd (pk version) ;;
    save_published (pk locked) (pk version) public_token ;;
    record_audit membership~>mb_user (Some (pk membership)) "proposal.version.publish"
      "ProposalVersion" (zstr (pk version)) "accepted"
      [("proposal_id", PInt (pk locked)); ("number", PInt number);
       ("event_id", PStr event~>ev_event_id)] ;;
    mret version).
End Publish.

(** ** Selecting and previewing *)

(** A report of the case with the property. *)
Definition has_report (w : world) (case_id : Z) (P : report_row -> bool) : bool :=
  exists_ (fun r => linked w case_id (pk r) && P (val r)) (reports w).
Definition spending_proposal_cases : DB (list (obj case_row)) := gets (fun w =>
  select (fun c => c~>ca_active && (c~>ca_completed_at ==? None) &&
    negb (has_report w (pk c) rp_is_private) &&
    negb (has_report w (pk c) (fun r => rp_status r ==? RInProgress))) (cases w)).

Section Preview.
Context {CR : Crypto}.
(** [get_category_display()]: the label of a category in the active language. *)
Context (category_label : string -> string).

Definition default_purpose (proposal : proposal_row) (purpose : option string) : DB string :=
  match purpose, pr_case proposal with
  | None, Some c => case ← get_row cases "MaintenanceCase" c; mret (category_label case~>ca_category)
  | _, _ => mret (default "" purpose)
  end.

Definition build_proposal_evidence_payload (proposal : obj proposal_row)
    (amount_vnd contractor_name : pyval) (quotation_versions : list (option Z))
    (purpose : option string) (proposed_action : string) (expected_start expected_end : date_arg)
    (expected_schedule : string) : DB pyval :=
  amount_vnd ← of_option (ValidationError "Proposal amount must be a positive integer.")
    (positive_amount amount_vnd);
  contractor_name ← of_option (ValidationError "Contractor name is required.")
    (nonblank contractor_name);
  purpose ← default_purpose (val proposal) purpose;
  schedule ← of_result (_resolve_schedule_and_dates expected_start expected_end expected_schedule);
  let '(expected_start, expected_end, resolved_schedule) := schedule in
  quotations ← _quotation_versions proposal~>pr_building quotation_versions;
  number ← gets (fun w => foldr Z.max 0 ((fun v => v~>ve_number) <$>
    select (fun v => v~>ve_proposal ==? pk proposal) (versions w)) + 1);
  documents_ ← _submission_snapshot proposal amount_vnd contractor_name purpose proposed_action
    resolved_schedule quotations number expected_start expected_end;
  mret documents_.2.
End Preview.

(** ** Facts *)

Section Facts.
Implicit Types (w : world).

Lemma positive_amount_Some v n : positive_amount v = Some n <-> v = PInt n /\ 0 < n.
Proof.
  unfold positive_amount. destruct v; try (split; [done|by intros [? _]]).
  destruct (Z.ltb_spec 0 z); naive_solver lia.
Qed.

Lemma nonblank_Some v s :
  nonblank v = Some s <-> exists t, v = PStr t /\ s = py_strip t /\ truthy s = true.
Proof.
  unfold nonblank. destruct v; try (split; [done|by intros (? & ? & _)]).
  destruct (truthy (py_strip s0)) eqn:E; split; [intros [= <-]|intros (t & [= ->] & -> & _)|done|
    intros (t & [= ->] & -> & ?)]; naive_solver congruence.
Qed.

Lemma omap_id_full (l : list (option Z)) :
  length (omap id l) = length l -> l = Some <$> omap id l.
Proof.
  intros H%omap_full. induction H as [|a b ? ? Ha _ IH]; [done|]. unfold id in Ha. cbn.
  by rewrite <- IH, Ha.
Qed.

(** Accepted quotations are the ones asked for: distinct, stored, clean, of the building. *)
Lemma quotation_versions_Ok b ids w l w' :
  _quotation_versions b ids w = (Ok l, w') ->
  w' = w /\ ids = (fun v => Some (pk v)) <$> l /\ l <> [] /\ NoDup (pk <$> l) /\
  Forall (fun v => rows (doc_versions w) !! pk v = Some (val v) /\ quotation_ok w b v = true) l.
Proof.
  unfold _quotation_versions. intros H. inv_db. to_prop.
  repeat match goal with H : Nat.eqb _ _ = _ |- _ => apply Nat.eqb_eq in H || apply Nat.eqb_neq in H end.
  set (l := omap (fun k => find k (doc_versions w')) (omap id ids)) in *.
  assert (ids = Some <$> omap id ids) as Hids by (by apply omap_id_full).
  assert (Forall2 (fun k v => find k (doc_versions w') = Some v) (omap id ids) l) as Hl
    by (by apply omap_full).
  assert (omap id ids = pk <$> l) as Hpk.
  { clear -Hl. induction Hl as [|k v ? ? Hk _ IH]; [done|]. cbn. apply find_Some in Hk as [<- _].
    by rewrite IH. }
  split; [done|]. split; [by rewrite Hids at 1; rewrite Hpk, <- list_fmap_compose|].
  split; [intros El; rewrite El in Hpk; rewrite Hids, Hpk in H; done|]. split; [by rewrite <- Hpk|].
  apply Forall_and. split.
  - apply (Forall2_Forall_r _ _ _ _ Hl), Forall_forall. intros k _ v Hk. by apply find_Some in Hk as [-> ?].
  - apply Forall_forall. intros v Hv. rewrite forallb_forall in H2. by apply H2, list_elem_of_In.
Qed.

Lemma insert_docs_run version l w w' :
  for_each (fun d : obj doc_version_row => insert_prop_doc (PropDoc version (pk d)) ;; mret tt) l w
    = (Ok tt, w') -> w' = w <| prop_docs := prop_docs w' |>.
Proof.
  revert w. induction l as [|d l IH]; intros w; cbn [for_each]; intros H.
  - inv_db. by destruct w'.
  - unfold insert_prop_doc in *. inv_db.
    match goal with H : for_each _ _ _ = (Ok ?u, _) |- _ => destruct u; by apply IH in H as -> end.
Qed.

Lemma bind_prediction_run k p a v w u w' :
  bind_prediction k p a v w = (Ok u, w') -> w' = w <| predictions := predictions w' |>.
Proof.
  unfold bind_prediction. destruct k; intros H; [|inv_db; by destruct w'].
  inv_db. repeat case_match; inv_db; try done; by destruct w'.
Qed.

Lemma previous_hash_run previous w ph w' :
  previous_hash_of previous w = (Ok ph, w') ->
  w' = w /\ match previous with
    | None => ph = ZERO_HASH
    | Some v => exists e, rows (outbox w) !! v~>ve_outbox_event = Some e /\
                          ph = "0x" +:+ ev_payload_hash e
    end.
Proof. unfold previous_hash_of. destruct previous; intros H; inv_db; inv_query; eauto. Qed.

Lemma save_published_run k version tok w u w' :
  save_published k version tok w = (Ok u, w') ->
  w' = w <| proposals ::= update k (published_row version tok) |>.
Proof. unfold save_published. intros H. by inv_db. Qed.

Lemma insert_proposal_version_run r w v w' :
  insert_proposal_version r w = (Ok v, w') ->
  v = Obj (next (versions w)) r /\ w' = w <| versions ::= insert_row r |> /\
  version_fits r = true /\ 0 < ve_amount_vnd r /\
  forall k u, rows (versions w) !! k = Some u ->
    (ve_proposal u = ve_proposal r -> ve_number u <> ve_number r) /\
    ve_outbox_event u <> ve_outbox_event r.
Proof.
  unfold insert_proposal_version. intros H. inv_db. to_prop. repeat (split; [done|]).
  intros k u Hu. match goal with H : forall k r', _ |- _ => specialize (H k u Hu) end. to_prop.
  split; [|done]. intros He. match goal with H : _ && _ = false |- _ =>
    apply andb_false_iff in H; destruct H as [Hn|Hn]; by apply bool_decide_eq_false in Hn end.
Qed.

Lemma proposal_case_run p w c w' : proposal_case p w = (Ok c, w') -> w' = w.
Proof. unfold proposal_case. destruct (pr_case p); intros H; by inv_db. Qed.
End Facts.

(** ** A publication, undone into its writes *)

Section Publication.
Context {CR : Crypto} {ETH : EthAccount}.
Implicit Types (w : world).

(** What an accepted publication of version [v] of proposal [p] did. *)
Record published w (p : Z) (q : version_request) (tok : string) (v : obj version_row) w' : Prop := Published {
  pb_row : proposal_row;
  pb_member : obj membership_row;
  pb_quotations : list (obj doc_version_row);
  pb_event : obj outbox_row;
  pb_payload : pyval;
  pb_previous : string;
  pb_queued : world;
  pb_found : rows (proposals w) !! p = Some pb_row;
  pb_status : may_publish (pr_status pb_row) = true;
  pb_amount : vq_amount_vnd q = PInt v~>ve_amount_vnd;
  pb_quotes : _quotation_versions (pr_building pb_row) (vq_quotations q) w = (Ok pb_quotations, w);
  pb_version : v~>ve_proposal = p /\
    v~>ve_number = (match newest_version p w with Some u => u~>ve_number | None => 0 end) + 1 /\
    v~>ve_creator_membership = pk pb_member /\ v~>ve_outbox_event = pk pb_event;
  pb_snapshot : v~>ve_snapshot = proposal_snapshot (Obj p pb_row) v~>ve_amount_vnd
    v~>ve_contractor_name v~>ve_purpose v~>ve_proposed_action v~>ve_expected_schedule pb_quotations
    v~>ve_number v~>ve_expected_start v~>ve_expected_end;
  pb_hash : payload_hash v~>ve_snapshot = Ok v~>ve_snapshot_hash;
  pb_link : match newest_version p w with
    | None => pb_previous = ZERO_HASH
    | Some u => exists e, rows (outbox w) !! u~>ve_outbox_event = Some e /\
                          pb_previous = "0x" +:+ ev_payload_hash e
    end;
  pb_evidence : exists case, evidence_payload_of (Obj p pb_row) case v~>ve_amount_vnd v~>ve_number
    v~>ve_snapshot pb_quotations = Ok pb_payload;
  pb_queue : queue_platform_event (vq_event_id q) PROPOSAL_CREATED pb_payload pb_previous
    (pr_building pb_row) w = (Ok pb_event, pb_queued);
  pb_inserted : insert_proposal_version (val v) pb_queued =
    (Ok v, pb_queued <| versions ::= insert_row (val v) |>);
  pb_world : w' = pb_queued <| versions ::= insert_row (val v) |> <| prop_docs := prop_docs w' |>
    <| predictions := predictions w' |>
    <| proposals ::= update p (published_row (pk v) (match newest_version p w with
         | Some _ => pr_public_token pb_row | None => Some tok end)) |>
    <| audits := audits w' |>;
}.

Lemma publish_run p creator q tok w v w' :
  publish_proposal_version p creator q tok w = (Ok v, w') -> published w p q tok v w'.
Proof.
  unfold publish_proposal_version. intros H. inv_db.
  match goal with H : require_management _ _ _ = _ |- _ => apply require_management_Ok in H as [_ ->] end.
  repeat match goal with x : _ * _ |- _ => destruct x end. inv_db.
  match goal with H : _submission_snapshot _ _ _ _ _ _ _ _ _ _ _ = _ |- _ => unfold _submission_snapshot in H end.
  inv_db. apply find_Some in H as [<- Hrow]. destruct x as [p p0]. cbn [pk val] in *.
  pose proof (quotation_versions_Ok _ _ _ _ _ H0) as [-> _].
  apply proposal_case_run in H7 as ->. apply previous_hash_run in H9 as [-> Hlink].
  pose proof (insert_proposal_version_run _ _ _ _ H12) as (Hv & -> & _).
  destruct x20, x22, x24. apply insert_docs_run in H13. apply bind_prediction_run in H14.
  apply save_published_run in H15. apply record_audit_Ok in H16 as (_ & _ & H16).
  destruct v as [kv rv]. cbn [pk val] in *. injection Hv as -> ->.
  apply positive_amount_Some in H1 as [H1 _].
  eapply (Published _ _ _ _ _ _ p0 x1 x0 x14 x12 x8 x17); cbn [val pk ve_proposal ve_number
    ve_amount_vnd ve_contractor_name ve_purpose ve_proposed_action ve_expected_start ve_expected_end
    ve_expected_schedule ve_snapshot ve_snapshot_hash ve_creator_membership ve_outbox_event];
    try eassumption; eauto.
  rewrite H16, H15, H14, H13. reflexivity.
Qed.
End Publication.

(** ** What a proposal may become *)

Inductive proposal_edge : proposal_status -> proposal_status -> Prop :=
  | edge_publish : proposal_edge PDraft PPublished
  | edge_proceed : proposal_edge PPublished PInProgress
  | edge_refuse : proposal_edge PPublished PNotProceeding
  | edge_republish : proposal_edge PInProgress PPublished
  | edge_complete : proposal_edge PInProgress PCompleted
  | edge_close : proposal_edge PCompleted PClosed.
#[export] Hint Constructors proposal_edge : core.

Definition worked (s : proposal_status) : bool := (s ==? PCompleted) || (s ==? PClosed).

Lemma refused_final s : rtc proposal_edge PNotProceeding s -> s = PNotProceeding.
Proof. by intros [<-|(s' & H & _)]%rtc_inv; [|inversion H]. Qed.
Lemma worked_stays s s' : rtc proposal_edge s s' -> worked s = true -> worked s' = true.
Proof. induction 1 as [|x y z H _ IH]; [done|]. intros Hw. apply IH. by destruct H. Qed.

Record proposal_step (p p' : proposal_row) : Prop := {
  ps_same : pr_case p' = pr_case p /\ pr_building p' = pr_building p /\
    pr_creator_membership p' = pr_creator_membership p;
  ps_status : rtc proposal_edge (pr_status p) (pr_status p');
  ps_refused : pr_status p = PNotProceeding -> p' = p;
  ps_worked : worked (pr_status p) = true ->
    pr_current_version p' = pr_current_version p /\ pr_decided_by p' = pr_decided_by p /\
    pr_decided_at p' = pr_decided_at p /\ pr_decision_note p' = pr_decision_note p /\
    pr_public_token p' = pr_public_token p /\ pr_completed_at p' = pr_completed_at p;
  ps_decider : is_Some (pr_decided_by p) -> is_Some (pr_decided_by p');
  ps_decided : pr_status p' = PInProgress \/ pr_status p' = PNotProceeding ->
    pr_status p' = pr_status p \/ is_Some (pr_decided_by p');
  ps_version : is_Some (pr_current_version p) -> is_Some (pr_current_version p');
  ps_first : pr_status p = PDraft -> pr_status p' <> PDraft -> is_Some (pr_current_version p');
}.

#[export] Instance proposal_step_preorder : PreOrder proposal_step.
Proof.
  split.
  - intros p. split; try done; auto.
  - intros a b c [S1 T1 R1 W1 K1 D1 V1 F1] [S2 T2 R2 W2 K2 D2 V2 F2]. split.
    + destruct_and?. repeat split; congruence.
    + by transitivity (pr_status b).
    + intros H. pose proof (R1 H) as ->. auto.
    + intros H. pose proof (worked_stays _ _ T1 H) as Hb. destruct (W1 H), (W2 Hb); destruct_and?.
      repeat split; congruence.
    + auto.
    + intros H. destruct (D2 H) as [E|?]; [|auto]. rewrite E in H. destruct (D1 H) as [E'|?]; [|auto].
      left. congruence.
    + auto.
    + intros H Hn. destruct (decide (pr_status b = PDraft)); auto.
Qed.

Inductive proposal_op :=
  | CreateProposal (case : Z) (creator : obj membership_row)
  | CreateStandalone (building : Z) (creator : obj membership_row)
  | Decide (proposal manager : Z) (proceed : pyval) (note : string)
  | Publish (proposal : Z) (creator : obj membership_row) (q : version_request) (token : string)
  | CaseWork (op : case_op).

Section Lifecycle.
Context {CR : Crypto} {ETH : EthAccount}.
Implicit Types (w : world).
Notation keeps_proposals := (keeps (on proposals (evolves proposal_step))).

Definition run_proposal (op : proposal_op) : DB unit :=
  match op with
  | CreateProposal c m => _ ← create_proposal c m; mret tt
  | CreateStandalone b m => _ ← create_standalone_proposal b m; mret tt
  | Decide p m b n => _ ← decide_proposal p m b n; mret tt
  | Publish p m q t => _ ← publish_proposal_version p m q t; mret tt
  | CaseWork op => run_case op
  end.

Lemma completed_proposal_step now p :
  pr_status p = PInProgress -> proposal_step p (completed_proposal now p).
Proof.
  intros H. split; cbn; try done; try (rewrite H; by intros); try by intros [].
  rewrite H. by apply rtc_once.
Qed.
Lemma closed_proposal_step now p :
  pr_status p = PCompleted ->
  proposal_step p (p <| pr_status := PClosed |> <| pr_closed_at := Some now |>).
Proof.
  intros H. split; cbn; try done; try (rewrite H; by intros); try by intros [].
  rewrite H. by apply rtc_once.
Qed.
Lemma decided_step b m now note p :
  pr_status p = PPublished -> proposal_step p (decided_row b m now note p).
Proof.
  intros H. split; cbn; try done; try (rewrite H; by intros); eauto.
  rewrite H. destruct b; by apply rtc_once.
Qed.
Lemma published_step v tok p :
  may_publish (pr_status p) = true -> proposal_step p (published_row v tok p).
Proof.
  intros H. split; cbn; eauto; try done.
  - destruct (pr_status p); try done; by apply rtc_once.
  - intros E. by rewrite E in H.
  - intros Hw. by destruct (pr_status p).
  - by intros [].
Qed.

Lemma close_proposal_run now o w :
  (close_proposal now o w).2 = w \/
  (close_proposal now o w).2 = w <| proposals ::= update (pk o)
    (fun r => r <| pr_status := PClosed |> <| pr_closed_at := Some now |>) |>.
Proof.
  unfold close_proposal. destruct (pr_completed_at (val o)); [|by left].
  unfold query_first, gets, mbind, M_bind. case_match; [by left|]. by right.
Qed.

Lemma keeps_close_proposals now l w :
  NoDup (pk <$> l) ->
  (forall o, o ∈ l -> rows (proposals w) !! pk o = Some (val o) /\ o~>pr_status = PCompleted) ->
  keeps_proposals (map_m (close_proposal now) l) w.
Proof.
  revert w. induction l as [|o l IH]; intros w Hnd Hl; cbn [map_m]; [keeps_svc|].
  cbn in Hnd. apply NoDup_cons in Hnd as [Hno Hnd].
  destruct (Hl o (list_elem_of_here _ _)) as [Ho Hc].
  apply (keeps_bind (on proposals (evolves proposal_step))).
  - unfold keeps. destruct (close_proposal_run now o w) as [->| ->]; [reflexivity|].
    unfold on. cbn. apply evolves_update; [apply _|]. intros r Hr.
    apply closed_proposal_step. congruence.
  - intros n w' E. apply (keeps_bind (on proposals (evolves proposal_step))).
    + apply IH; [done|]. intros o' Ho'. destruct (Hl o' (list_elem_of_further _ _ _ Ho')) as [Hr Hs].
      split; [|done]. destruct (close_proposal_run now o w) as [H|H]; rewrite E in H; cbn in H; subst w'.
      * done.
      * cbn. rewrite lookup_alter_ne; [done|]. intros Eq. apply Hno. rewrite Eq.
        apply list_elem_of_fmap. eauto.
    + intros. apply keeps_ret. apply _.
Qed.

Lemma keeps_close_expired now w : keeps_proposals (close_expired_completed_cases now) w.
Proof.
  unfold close_expired_completed_cases, close_case.
  repeat first [match goal with |- keeps _ (map_m (close_proposal _) _) _ => apply keeps_close_proposals end
    | keeps_step | keeps_db_step]; inv_svc; [apply NoDup_pk_select|].
  intros o [Ho H]%elem_of_select. by to_prop.
Qed.

Lemma keeps_case_proposals op w : keeps_proposals (run_case op) w.
Proof.
  destruct op; cbn [run_case]; try (apply (keeps_bind (on proposals (evolves proposal_step)));
      [apply keeps_close_expired|intros; apply keeps_ret; apply _]);
    unfold start_case_work, publish_progress, complete_proposal_work, complete_case_work,
      request_information, reply_information, decline_report, close_if_abandoned,
      rate_completed_case, rate_completed_proposal;
    keeps_svc; inv_svc; inv_query; to_prop; simplify_eq/=; try by apply completed_proposal_step.
Qed.

Lemma keeps_publish p creator q tok w : keeps_proposals (publish_proposal_version p creator q tok) w.
Proof.
  unfold keeps. destruct (publish_proposal_version p creator q tok w) as [[v|e] w'] eqn:E; cbn [snd].
  - apply publish_run in E as [p0 ? ? ? ? ? w1 Hp Hs _ _ _ _ _ _ _ Hq _ ->]. unfold on. cbn.
    apply queue_run in Hq as (i & _ & _ & [[-> _]|(_ & _ & ->)]); cbn;
      (apply evolves_update; [apply _|]; intros r Hr; apply published_step; congruence).
  - unfold publish_proposal_version in E. apply atomic_Err in E as ->. unfold on. reflexivity.
Qed.

Lemma keeps_proposal_ops op w : keeps_proposals (run_proposal op) w.
Proof.
  destruct op; cbn [run_proposal].
  - unfold create_proposal, insert_proposal, case_report_rows. keeps_svc.
  - unfold create_standalone_proposal, insert_proposal. keeps_svc.
  - unfold decide_proposal. keeps_svc. inv_svc. inv_query. to_prop. simplify_eq/=.
    destruct proceed; inv_db. simplify_eq. by apply decided_step.
  - apply (keeps_bind (on proposals (evolves proposal_step))); [apply keeps_publish|].
    intros. apply keeps_ret. apply _.
  - apply keeps_case_proposals.
Qed.
End Lifecycle.

(** ** The chain of versions *)

(** The version is the first of its proposal, or its event names the hash of the event of
    the version before it. *)
Definition links_back (vs : table version_row) (es : table outbox_row) (v : version_row)
    (e : outbox_row) : Prop :=
  (ve_number v = 1 /\ ev_previous_hash e = ZERO_HASH) \/
  exists j u eu, rows vs !! j = Some u /\ ve_proposal u = ve_proposal v /\
    ve_number u = ve_number v - 1 /\ rows es !! ve_outbox_event u = Some eu /\
    ev_previous_hash e = "0x" +:+ ev_payload_hash eu.

Record chain_ok (vs : table version_row) (es : table outbox_row) : Prop := {
  ch_versions : table_wf vs;
  ch_events : table_wf es;
  ch_event : forall k v, rows vs !! k = Some v -> exists e,
    rows es !! ve_outbox_event v = Some e /\ ev_event_type e = PROPOSAL_CREATED /\
    py_lower (ev_payload_hash e) = ev_payload_hash e /\ links_back vs es v e;
  ch_positive : forall k v, rows vs !! k = Some v -> 1 <= ve_number v;
  ch_once : forall j k u v, rows vs !! j = Some u -> rows vs !! k = Some v ->
    ve_proposal u = ve_proposal v -> ve_number u = ve_number v -> j = k;
}.

Section Chain.
Context {CR : Crypto} {ETH : EthAccount}.
Implicit Types (w : world) (vs : table version_row) (es : table outbox_row).

Lemma lower_hex s : sforall is_hex s = true -> py_lower s = s.
Proof.
  unfold py_lower. induction s as [|c s IH]; [done|]. cbn. rewrite andb_true_iff. intros [Hc Hs].
  rewrite IH by done. unfold lower_char, is_upper, is_hex, is_digit, between in *.
  destruct (_ && _) eqn:E in |- *; [|done]. exfalso. rewrite orb_true_iff, !andb_true_iff, !Z.leb_le in *. lia.
Qed.
Lemma lower_prefixed s : py_lower ("0x" +:+ s) = "0x" +:+ py_lower s.
Proof. done. Qed.

(** Delivering events keeps the chain: nothing it reads is ever rewritten. *)
Lemma chain_ok_deliver vs es es' :
  evolves OutboxWorker.delivery_step es es' -> chain_ok vs es -> chain_ok vs es'.
Proof.
  intros He [Hv Hes Hev Hpos Honce]. destruct (He Hes) as [Hes' Hstep]. split; try done.
  intros k v Hk. destruct (Hev k v Hk) as (e & Hrow & Ht & Hl & Hlink).
  destruct (Hstep _ _ Hrow) as (e' & Hrow' & (_ & Et & _ & Eh & Ep & _) & _).
  exists e'. split; [done|]. split; [congruence|]. split; [congruence|].
  destruct Hlink as [[Hn Hz]|(j & u & eu & Hj & Hp & Hn & Heu & Hh)]; [left; split; congruence|right].
  destruct (Hstep _ _ Heu) as (eu' & Heu' & (_ & _ & _ & Eh' & _) & _).
  exists j, u, eu'. repeat (split; [done|]). congruence.
Qed.

Lemma newest_version_Some p w u :
  newest_version p w = Some u -> rows (versions w) !! pk u = Some (val u) /\ u~>ve_proposal = p.
Proof.
  unfold newest_version. intros H. assert (u ∈ select (fun v => v~>ve_proposal ==? p) (versions w)) as Hu.
  { rewrite <- (elem_of_order_by (fun v => - v~>ve_number)). destruct (order_by _ _); [done|].
    injection H as ->. left. }
  apply elem_of_select in Hu as [? ?]. by to_prop.
Qed.

(** A publication extends it by one link. *)
Lemma chain_ok_publish p q tok v w w' :
  published w p q tok v w' -> chain_ok (versions w) (outbox w) ->
  chain_ok (versions w') (outbox w').
Proof.
  intros [p0 m ds e pl prev w1 Hp Hs Ha Hq (Hvp & Hvn & _ & Hve) _ _ Hlink _ Hqueue Hins ->] Hok.
  cbn [versions outbox set].
  apply queue_run in Hqueue as (i & Hi & Hm & Hw1).
  assert (versions w1 = versions w /\ evolves OutboxWorker.delivery_step (outbox w) (outbox w1) /\
    rows (outbox w1) !! pk e = Some (val e)) as (Hvs & Hev & Hrow).
  { destruct Hw1 as [[-> Hf]|(_ & -> & ->)].
    - split; [done|]. split; [reflexivity|]. by apply first_Some in Hf as [? _].
    - split; [done|]. split; [apply evolves_insert; apply _|]. cbn. by rewrite lookup_insert_eq. }
  pose proof (chain_ok_deliver _ _ _ Hev Hok) as Hok1. destruct Hok as [Hwv Hwe _ _ _].
  destruct Hok1 as [_ Hwe1 Hev1 Hpos1 Honce1].
  apply insert_proposal_version_run in Hins as (Hv & _ & _ & _ & Hnew).
  apply sign_event_Ok in Hi as (_ & _ & Hpre & _ & _ & _ & _ & _ & Hd & _).
  apply matches_signed_Ok in Hm as (Ht & _ & Hh & Hph & _).
  rewrite Hvs in *. destruct v as [k r]. cbn [pk val] in *. injection Hv as ->.
  assert (links_back (insert_row r (versions w)) (outbox w1) r (val e)) as Hback.
  { destruct (newest_version p w) as [u|] eqn:Hu.
    - right. apply newest_version_Some in Hu as [Hu Hup]. destruct Hlink as (eu & Heu & ->).
      destruct (Hev1 _ _ Hu) as (eu' & Heu' & _ & Hlow & _).
      assert (ev_payload_hash eu' = ev_payload_hash eu) as Eh.
      { destruct (Hev Hwe) as [_ Hst]. destruct (Hst _ _ Heu) as (eu2 & Heu2 & (_ & _ & _ & Eh & _) & _).
        congruence. }
      exists (pk u), (val u), eu'. rewrite lookup_insert_row.
      rewrite decide_False by (intros E; rewrite <- E, table_wf_fresh in Hu; done).
      split; [done|]. split; [congruence|]. split; [lia|]. split; [done|].
      rewrite Hph, Hpre, lower_prefixed, <- Eh. by rewrite Hlow.
    - left. split; [lia|]. rewrite Hph, Hpre, Hlink. reflexivity. }
  split.
  - auto with tables.
  - done.
  - intros k v. rewrite lookup_insert_row. case_decide as E; [intros [= <-]|intros Hk].
    + exists (val e). rewrite Hve. split; [done|]. split; [done|]. split; [|done].
      rewrite Hh, Hd. apply lower_hex, sha256_hex.
    + destruct (Hev1 k v Hk) as (e' & ? & ? & ? & Hl). exists e'. repeat (split; [done|]).
      destruct Hl as [?|(j & u & eu & Hj & ?)]; [by left|right]. exists j, u, eu. split; [|done].
      rewrite lookup_insert_row, decide_False; [done|]. intros <-. by rewrite table_wf_fresh in Hj.
  - intros k v. rewrite lookup_insert_row. case_decide as E; [intros [= <-]|apply Hpos1].
    destruct (newest_version p w) as [u|] eqn:Hu; [|lia].
    apply newest_version_Some in Hu as [Hu _]. specialize (Hpos1 _ _ Hu). lia.
  - intros j k u v. rewrite !lookup_insert_row. repeat case_decide; intros Hj Hk Ep En; simplify_eq; try done.
    + exfalso. by apply (proj1 (Hnew _ _ Hk)).
    + exfalso. by apply (proj1 (Hnew _ _ Hj)).
    + by eapply Honce1.
Qed.
End Chain.

Section Creation.
Implicit Types (w : world).

Lemma case_report_rows_spec c w l w' :
  case_report_rows c w = (Ok l, w') ->
  w' = w /\ forall k r, rows (reports w) !! k = Some r -> linked w c k = true -> Obj k r ∈ l.
Proof.
  unfold case_report_rows. intros [<- <-]%gets_Ok. split; [done|]. intros k r Hk Hl.
  unfold linked in Hl. apply exists_true in Hl as (j & x & Hj & Hx). cbn in Hx. to_prop.
  apply list_elem_of_omap. exists (Obj j x). split; [by apply elem_of_select; cbn; rewrite bool_decide_eq_true|].
  cbn. unfold find. subst. by rewrite Hk.
Qed.

Lemma no_report c w l P :
  case_report_rows c w = (Ok l, w) -> existsb (fun r => P (val r)) l = false ->
  has_report w c P = false.
Proof.
  intros [_ Hl]%case_report_rows_spec Hn. apply exists_false. intros k r Hk. cbn.
  destruct (linked w c k) eqn:E; [|done]. cbn. specialize (Hl k r Hk E).
  destruct (P r) eqn:Ep; [|done]. exfalso. rewrite <- not_true_iff_false in Hn. apply Hn.
  apply existsb_exists. exists (Obj k r). by rewrite <- list_elem_of_In.
Qed.

Lemma insert_proposal_try_run r e w p w' :
  try_except (insert_proposal r) (fun x => match x with IntegrityError _ => raise e | _ => raise x end) w
    = (Ok p, w') ->
  p = Obj (next (proposals w)) r /\ w' = w <| proposals ::= insert_row r |> /\
  forall k o c, rows (proposals w) !! k = Some o -> pr_case r = Some c -> pr_case o <> Some c.
Proof.
  unfold try_except. destruct (insert_proposal r w) as [[a|x] w1] eqn:E; [|by destruct x].
  intros [= <- <-]. unfold insert_proposal in E. inv_db. repeat (split; [done|]).
  intros k o c Hk Hc Ho. match goal with H : forall k r', _ |- _ => specialize (H k o Hk) end.
  cbn in *. rewrite Hc, Ho, !bool_decide_eq_true_2 in * by eauto. done.
Qed.

(** What an accepted creation required and wrote. *)
Lemma create_proposal_run c m w p w' :
  create_proposal c m w = (Ok p, w') ->
  exists case l mb, rows (cases w) !! c = Some case /\ ca_active case = true /\
    ca_completed_at case = None /\ case_report_rows c w = (Ok l, w) /\
    existsb (fun r => r~>rp_is_private) l = false /\
    existsb (fun r => r~>rp_status ==? RInProgress) l = false /\
    first (manages m~>mb_user (ca_building case)) (memberships w) = Some mb /\
    p = Obj (next (proposals w)) (Proposal (Some c) (ca_building case) (pk mb) PDraft None None None
      "" None None None) /\
    (forall k o, rows (proposals w) !! k = Some o -> pr_case o <> Some c) /\
    w' = w <| proposals ::= insert_row (val p) |>
      <| reports ::= update_where (fun r => linked w c (pk r) && negb (terminal_status r~>rp_status))
           (fun r => r <| rp_status := RProposed |>) |>
      <| audits := audits w' |>.
Proof.
  unfold create_proposal. intros H. inv_db. inv_query. to_prop. subst.
  match goal with H : require_management _ _ _ = _ |- _ => apply require_management_Ok in H as [? ->] end.
  match goal with H : case_report_rows _ ?w1 = (Ok ?l, ?w2) |- _ =>
    pose proof (proj1 (case_report_rows_spec _ _ _ _ H)); subst w2; rename H into Hl end.
  match goal with H : try_except _ _ _ = (Ok _, _) |- _ => apply insert_proposal_try_run in H as (-> & -> & Hno) end.
  match goal with H : record_audit _ _ _ _ _ _ _ _ = _ |- _ => apply record_audit_Ok in H as (_ & _ & ->) end.
  exists (val x1), x7, x5. repeat (split; [done|]). split; [|done]. intros k o Hk. by apply (Hno k o).
Qed.
End Creation.

(** ** Properties *)

Section Properties.
Context {CR : Crypto} {ETH : EthAccount}.
Implicit Types (w : world).

(** A proposal's life.  Creating, deciding, publishing and all work on cases keep every
    proposal, its case, building and creator; it moves only along the edges above, leaves
    the draft only with a version, is in progress or refused only by a decision on record,
    and after a refusal, or once its work is completed, its decision and version stay. *)
Theorem proposal_lifecycle op w :
  on proposals (evolves proposal_step) w (run_proposal op w).2.
Proof. apply keeps_proposal_ops. Qed.

(** C7: what publishing a version does.  It appends one version, numbered after the newest
    one of the proposal, with a positive amount; the version's event is in the outbox,
    follows the event of the version before it, and hashes a payload that commits to the
    amount and to the hash of the stored snapshot; the proposal is published at that
    version, and every other proposal is as it was. *)
Theorem publish_version_commits p creator q tok w v w' :
  publish_proposal_version p creator q tok w = (Ok v, w') ->
  versions w' = insert_row (val v) (versions w) /\ v~>ve_proposal = p /\ 0 < v~>ve_amount_vnd /\
  v~>ve_number = (match newest_version p w with Some u => u~>ve_number | None => 0 end) + 1 /\
  payload_hash v~>ve_snapshot = Ok v~>ve_snapshot_hash /\
  (exists e prev d bytes, rows (outbox w') !! v~>ve_outbox_event = Some e /\
    ev_event_type e = PROPOSAL_CREATED /\ ev_previous_hash e = py_lower prev /\
    (previous_hash_of (newest_version p w) w).1 = Ok prev /\
    canonical_bytes (mk_dict d) = Ok bytes /\ ev_payload_hash e = sha256 bytes /\
    assoc "amount_vnd" d = Some (PInt v~>ve_amount_vnd) /\
    assoc "proposal_snapshot_hash" d = Some (PStr v~>ve_snapshot_hash)) /\
  (exists p0, rows (proposals w') !! p = Some p0 /\ pr_current_version p0 = Some (pk v) /\
    pr_status p0 = PPublished) /\
  forall j, j <> p -> rows (proposals w') !! j = rows (proposals w) !! j.
Proof.
  intros [p0 m ds e pl prev w1 Hp Hs Ha Hq (Hvp & Hvn & _ & Hve) _ Hh Hlink [case Hpl] Hqueue Hins ->]
    %publish_run. cbn [versions outbox proposals set].
  apply queue_run in Hqueue as (i & Hi & Hm & Hw1).
  apply sign_event_Ok in Hi as (_ & _ & Hpre & _ & _ & Hc & _ & _ & Hd & _).
  apply matches_signed_Ok in Hm as (Ht & _ & Hph & Hprev & _).
  pose proof (insert_proposal_version_run _ _ _ _ Hins) as (Hv & _ & _ & Hpos & _).
  assert (versions w1 = versions w /\ proposals w1 = proposals w /\
    rows (outbox w1) !! pk e = Some (val e)) as (-> & -> & Hrow).
  { destruct Hw1 as [[-> Hf]|(_ & -> & ->)]; [by apply first_Some in Hf as [? _]|].
    cbn. by rewrite lookup_insert_eq. }
  repeat (split; [done|]). split; [|split].
  - unfold evidence_payload_of in Hpl. rewrite Hh in Hpl. cbn [mbind result_bind] in Hpl.
    apply result_bind_Ok in Hpl as (qh & _ & Hpl).
    assert (exists d, pl = mk_dict d /\ assoc "amount_vnd" d = Some (PInt v~>ve_amount_vnd) /\
      assoc "proposal_snapshot_hash" d = Some (PStr v~>ve_snapshot_hash)) as (d & -> & ? & ?).
    { destruct case as [case|]; [apply result_bind_Ok in Hpl as (ch & _ & [= <-])|injection Hpl as <-];
        by eexists. }
    exists (val e), prev, d, (si_canonical i). rewrite Hve, <- Hd. repeat (split; [first [done|congruence]|]).
    split; [|done]. unfold previous_hash_of. destruct (newest_version p w) as [u|]; [|by rewrite Hlink].
    destruct Hlink as (eu & Heu & ->). unfold get_row, gets, of_option, mbind, M_bind, find. by rewrite Heu.
  - exists (published_row (pk v) (match newest_version p w with
      | Some _ => pr_public_token p0 | None => Some tok end) p0).
    cbn. rewrite lookup_alter_eq, Hp. done.
  - intros j Hj. cbn. by rewrite lookup_alter_ne.
Qed.

(** Which cases may get a proposal.  Creation succeeds only for a case that
    [spending_proposal_cases] offers and that has no proposal; it stores a draft in the
    case's building, and marks the case's open reports PROPOSED, no other report. *)
Theorem create_proposal_effect c m w p w' :
  create_proposal c m w = (Ok p, w') ->
  (exists case l, spending_proposal_cases w = (Ok l, w) /\ case ∈ l /\ pk case = c /\
    p~>pr_building = case~>ca_building) /\
  (forall k o, rows (proposals w) !! k = Some o -> pr_case o <> Some c) /\
  proposals w' = insert_row (val p) (proposals w) /\ p~>pr_case = Some c /\ p~>pr_status = PDraft /\
  forall k r, rows (reports w) !! k = Some r -> rows (reports w') !! k =
    Some (if linked w c k && negb (terminal_status (rp_status r)) then r <| rp_status := RProposed |> else r).
Proof.
  intros (case & l & mb & Hc & Ha & Hn & Hl & Hpriv & Hprog & _ & -> & Hno & ->)%create_proposal_run.
  split; [|split; [done|]].
  - exists (Obj c case). eexists. split; [reflexivity|]. split; [|done].
    apply elem_of_select. cbn [pk val]. rewrite Ha, Hn, (bool_decide_eq_true_2 _ eq_refl).
    rewrite (no_report _ _ _ rp_is_private Hl Hpriv), (no_report _ _ _ (fun r => rp_status r ==? RInProgress) Hl Hprog).
    done.
  - repeat (split; [done|]). intros k r Hk. cbn [reports set]. rewrite lookup_update_where, Hk. done.
Qed.
End Properties.

(** ** Concrete runs *)

Definition demo_manager : obj membership_row := Obj 1 (Membership 1 1 true).
Definition demo_quotation : doc_version_row :=
  DocVersion 1 1 "documents/1/q" "1" "quote.pdf" "application/pdf" 9
    (sha256 (Crypto := demo_crypto) "quote") CLEAN 1.
(** Building 1, its manager, an active case with one open report, and a clean quotation. *)
Definition demo_spending : world :=
  empty_world demo_chain (days 20000)
    <| buildings ::= insert_row "Tower A" |>
    <| users ::= insert_row (User None "Staff" None "pw" true) |>
    <| users ::= insert_row (User None "An" None "pw" true) |>
    <| memberships ::= insert_row (val demo_manager) |>
    <| units ::= insert_row (Unit_ 1 "A-101") |>
    <| reports ::= insert_row (demo_report RInReview) |>
    <| cases ::= insert_row (demo_case <| ca_started_at := None |>) |>
    <| case_reports ::= insert_row (CaseReport 1 1 1) |>
    <| documents ::= insert_row (Document 1 QUOTATION) |>
    <| doc_versions ::= insert_row demo_quotation |>.

Definition demo_request (amount : Z) (event_id : string) : version_request :=
  VersionRequest (PInt amount) (PStr " Fix & Co ") (PStr "Leak") (PStr "Replace the pipe")
    (DText "2024-10-01") (DDate (Date 2024 10 5)) "" [Some 1] event_id None.
Definition demo_draft : world := (create_proposal 1 demo_manager demo_spending).2.
Definition demo_publish (amount : Z) (event_id : string) (w : world) :
    result (obj version_row) * world :=
  publish_proposal_version (CR := demo_crypto) (ETH := demo_account) 1 demo_manager
    (demo_request amount event_id) "token" w.
Definition event_1 : string := ZERO_HASH.
Definition event_2 : string := "0x" +:+ foldr String.append EmptyString (repeat "01" 32).
Definition demo_version_1 : obj version_row :=
  got (Obj 0 (Version 0 0 0 "" "" "" None None "" PNone "" 0 0)) (demo_publish 5000000 event_1 demo_draft).

Lemma publish_version_commits_witness :
  rows (proposals (demo_publish 5000000 event_1 demo_draft).2) !! 1 =
    Some (published_row 1 (Some "token") (Proposal (Some 1) 1 1 PDraft None None None "" None None None)) /\
  exists e prev d bytes,
    rows (outbox (demo_publish 5000000 event_1 demo_draft).2) !! demo_version_1~>ve_outbox_event = Some e /\
    ev_event_type e = PROPOSAL_CREATED /\ ev_previous_hash e = py_lower prev /\
    (previous_hash_of (newest_version 1 demo_draft) demo_draft).1 = Ok prev /\
    canonical_bytes (CR := demo_crypto) (mk_dict d) = Ok bytes /\
    ev_payload_hash e = sha256 (Crypto := demo_crypto) bytes /\
    assoc "amount_vnd" d = Some (PInt demo_version_1~>ve_amount_vnd) /\
    assoc "proposal_snapshot_hash" d = Some (PStr demo_version_1~>ve_snapshot_hash).
Proof.
  split; [vm_compute; reflexivity|].
  refine (proj1 (proj2 (proj2 (proj2 (proj2 (proj2 (publish_version_commits (CR := demo_crypto)
    (ETH := demo_account) 1 demo_manager (demo_request 5000000 event_1) "token" demo_draft
    demo_version_1 (demo_publish 5000000 event_1 demo_draft).2 _))))))).
  vm_compute. reflexivity.
Defined.

Lemma create_proposal_effect_witness :
  rows (reports demo_draft) !! 1 = Some (demo_report RProposed) /\
  forall k o, rows (proposals demo_spending) !! k = Some o -> pr_case o <> Some 1.
Proof.
  pose proof (create_proposal_effect 1 demo_manager demo_spending
    (Obj 1 (Proposal (Some 1) 1 1 PDraft None None None "" None None None)) demo_draft
    ltac:(vm_compute; reflexivity)) as (_ & Hno & _ & _ & _ & Hr).
  split; [|exact Hno]. rewrite (Hr 1 (demo_report RInReview) eq_refl). reflexivity.
Defined.

(** Published, decided, started; published again; then completed. *)
Definition demo_started : world :=
  (start_case_work 1 1 (decide_proposal 1 1 (PBool true) "" (demo_publish 5000000 event_1 demo_draft).2).2).2.
Definition demo_republished : world := (demo_publish 6000000 event_2 demo_started).2.
Definition demo_finished : world := (complete_case_work 1 1 "Pipe" "Replaced" demo_republished).2.
Definition demo_decided_again : world := (decide_proposal 1 1 (PBool true) "" demo_finished).2.

Definition proposal_status_of (k : Z) (w : world) : option proposal_status :=
  pr_status <$> rows (proposals w) !! k.

(** A new version of a proposal in progress can strand it.  The proposal is in progress
    and its case's work has started when a second version is published: it goes back to
    PUBLISHED although the work is under way.  Completing the case is then accepted and
    leaves the proposal PUBLISHED.  A second decision makes it IN_PROGRESS again, but now
    neither completion accepts it, so it never becomes COMPLETED and cannot be settled. *)
Theorem republished_never_completed :
  proposal_status_of 1 demo_started = Some PInProgress /\
  proposal_status_of 1 demo_republished = Some PPublished /\
  (ca_completed_at <$> rows (cases demo_finished) !! 1) = Some (Some (days 20000)) /\
  proposal_status_of 1 demo_finished = Some PPublished /\
  proposal_status_of 1 demo_decided_again = Some PInProgress /\
  forall manager cause result,
    complete_case_work 1 manager cause result demo_decided_again =
      (Err (ValidationError "An active, uncompleted case is required."), demo_decided_again) /\
    complete_proposal_work 1 manager cause result demo_decided_again =
      (Err (ValidationError "An in-progress standalone proposal is required."), demo_decided_again).
Proof.
  do 5 (split; [vm_compute; reflexivity|]). intros m a b.
  assert (exists c, first (fun c => pk c ==? 1) (cases demo_decided_again) = Some c /\
    c~>ca_active && (c~>ca_completed_at ==? None) = false) as (c & Hc & Hf)
    by (eexists; split; vm_compute; reflexivity).
  assert (first (fun p => (pk p ==? 1) && (p~>pr_case ==? None)) (proposals demo_decided_again) = None)
    as Hp by (vm_compute; reflexivity).
  split.
  - unfold complete_case_work, _started_case, _locked_case, atomic, query_first, gets, require, mbind, M_bind.
    by rewrite Hc, Hf.
  - unfold complete_proposal_work, standalone_in_progress, atomic, query_first, gets, mbind, M_bind.
    by rewrite Hp.
Qed.
