(* ===== verification/Prices.v ===== *)
(** * Prices: reference prices, predicted price bands, and comparisons

    [finance/reference_prices.py], [finance/ai.py] and [finance/predictions.py].  A manager
    compares the amount of a proposal with a price band, which the provider predicts or, on
    any failure, the reference prices supply; the comparison is recorded and a later version
    of the proposal is bound to it. *)

From S2P Require Import Prelude Table PyStr Json AiClient Doubles Schema Store.
From S2P Require Import Accounts Notifications Hooks Cases Triage Proposals.
Open Scope Z_scope.

(** ** Reference prices *)

Record PriceBand := Band {
  pb_category : string; pb_minimum_vnd : Z; pb_central_vnd : Z; pb_maximum_vnd : Z }.
Record ReferencePrice := Reference {
  re_category : string; re_average : Z; re_minimum : Z; re_maximum : Z; re_sample_count : Z }.
Definition to_band (r : ReferencePrice) : PriceBand :=
  Band (re_category r) (re_minimum r) (re_average r) (re_maximum r).

(** The fixture the loader reads. *)
Definition load_reference_prices : list ReferencePrice :=
  [Reference "ELEVATOR" 450000000 380000000 520000000 12].
Definition get_reference_price (category : string) : option ReferencePrice :=
  let code := normalize_category category in
  List.find (fun r => String.eqb (re_category r) code) load_reference_prices.

(** ** Comparing an amount with a band *)

Inductive ComparisonPosition := WITHIN_RANGE | ABOVE_RANGE | BELOW_RANGE.
Inductive comparison_direction := Above | Below | Equal.
Record PriceComparison := Comparison {
  pc_position : ComparisonPosition; pc_percentage : Z; pc_direction : comparison_direction;
  pc_reference_price : PriceBand }.

(** [round(abs(diff) / central * 100)]: the sign is that of [central]. *)
Definition rounded_percentage (diff central : Z) : result Z :=
  if central =? 0 then Err (ArithmeticError "division by zero") else
  match percentage (Z.abs diff) (Z.abs central) with
  | Some pct => Ok (Z.sgn central * pct)
  | None => Err (ArithmeticError "float overflow")
  end.

Definition compare_price_against_band (band : PriceBand) (amount_vnd : Z) :
    result PriceComparison :=
  if amount_vnd <=? 0 then Err (ValueError "Amount must be a positive integer.") else
  let diff := amount_vnd - pb_central_vnd band in
  pct ← rounded_percentage diff (pb_central_vnd band);
  let direction := if 0 <? diff then Above else if diff <? 0 then Below else Equal in
  let position :=
    if (pb_minimum_vnd band <=? amount_vnd) && (amount_vnd <=? pb_maximum_vnd band)
    then WITHIN_RANGE
    else if pb_maximum_vnd band <? amount_vnd then ABOVE_RANGE else BELOW_RANGE in
  Ok (Comparison position pct direction band).

(** [compare_price] by category. *)
Definition compare_price (category : string) (amount_vnd : Z) : result (option PriceComparison) :=
  match get_reference_price category with
  | None => Ok None
  | Some ref => c ← compare_price_against_band (to_band ref) amount_vnd; Ok (Some c)
  end.

(** The sentence shown, before it is translated. *)
Inductive comparison_text :=
  | EqualToReference
  | AboveReference (pct : Z) (range : string)
  | BelowReference (pct : Z) (range : string).
Record formatted := Formatted {
  fo_direction : comparison_direction; fo_percentage : Z; fo_position : ComparisonPosition;
  fo_arrow : string; fo_arrow_class : string; fo_comparison_text : comparison_text;
  fo_range_text : string; fo_reasoning : string }.

Definition MAX_SCOPE_CHARS : nat := 4000.
Definition RESPONSE_KEYS : list string :=
  ["minimum_vnd"; "central_vnd"; "maximum_vnd"; "reasoning"].
Definition FALLBACK_REASONING : string :=
  "Dự đoán AI không khả dụng — dùng giá tham chiếu mẫu.".

Section Prices.
(** [provider] answers the user message; [intcomma] is the one of [django.contrib.humanize],
    [display] the translated label of a category, [json_error] the text of a
    [JSONDecodeError]. *)
Context (st : ai_settings) (provider : pyval -> answer).
Context (intcomma : Z -> string) (display : string -> string) (json_error : string -> string).

Definition format_price_comparison (band : PriceBand) (amount_vnd : Z) (reasoning : string) :
    result formatted :=
  comparison ← compare_price_against_band band amount_vnd;
  let range_text := intcomma (pb_minimum_vnd band) +:+ " – " +:+ intcomma (pb_maximum_vnd band)
    +:+ " VND" in
  let pct := pc_percentage comparison in
  let '(arrow, arrow_class, text) := match pc_direction comparison with
    | Equal => ("", "", EqualToReference)
    | Above => ("↑", "price-comparison-arrow-above", AboveReference pct range_text)
    | Below => ("↓", "price-comparison-arrow-below", BelowReference pct range_text)
    end in
  Ok (Formatted (pc_direction comparison) pct (pc_position comparison) arrow arrow_class text
    range_text reasoning).

(** ** Asking the provider *)

Definition _endpoint_url : string + string :=
  if negb (truthy (ai_triage_url st)) then inl "AI_TRIAGE_URL is required" else
  ebind (check_url st) (fun url =>
  if negb (truthy (ai_triage_token st)) then inl "AI_TRIAGE_TOKEN is required"
  else if negb (truthy (ai_price_model st) || truthy (ai_triage_model st))
  then inl "AI model is required"
  else inr url).

(** The texts of the case's reports, else of the report it was decided on. *)
Definition _case_scope_text (case : obj case_row) : DB string :=
  location ← get_row locations "BuildingLocation" case~>ca_location;
  linked ← gets (fun w => select (fun r =>
    exists_ (fun l => (l~>cr_case ==? pk case) && (l~>cr_report ==? pk r)) (case_reports w)) (reports w));
  described ← (match linked with
    | [] =>
      decision ← get_row decisions "TriageDecision" case~>ca_decision;
      report ← get_row reports "IssueReport" decision~>de_report;
      mret [report]
    | _ => mret linked
    end);
  let texts := omap (fun r => if truthy r~>rp_text then Some (py_strip r~>rp_text) else None) described in
  mret (py_take MAX_SCOPE_CHARS (join newline (("Vị trí: " +:+ location~>lo_name) :: texts))).

(** The user message of [_chat_body]. *)
Definition user_payload (case : obj case_row) (scope : string) (ref_price : ReferencePrice) : pyval :=
  mk_dict [("category", PStr (display case~>ca_category)); ("scope", PStr scope);
    ("reference_price", mk_dict [("minimum_vnd", PInt (re_minimum ref_price));
      ("average_vnd", PInt (re_average ref_price)); ("maximum_vnd", PInt (re_maximum ref_price));
      ("sample_count", PInt (re_sample_count ref_price))])].

(** Every exception of these steps ends in the fallback: [inl] carries its text. *)
Definition _extract_prediction (envelope : pyval) : string + (string * pyval) :=
  match envelope with
  | PDict d =>
    ebind (request_id_of d) (fun request_id =>
    match first_message d with
    | inl error => inl ("missing choices/message: " +:+ error)
    | inr (PDict choice) =>
      if py_bool (default PNone (item_get "refusal" choice)) then inl "model refused" else
      match item_get "content" choice with
      | Some (PStr content) =>
        if blank content then inl "provider message content is empty" else
        let cleaned := clean_content content in
        match loads cleaned with
        | Parsed v _ => inr (request_id, v)
        | IntTooLong => inl "Exceeds the limit (4300 digits) for integer string conversion"
        | _ => inl ("invalid JSON in content: " +:+ json_error cleaned)
        end
      | _ => inl "provider message content is empty"
      end
    | inr choice => inl ("'" +:+ py_type choice +:+ "' object has no attribute 'get'")
    end)
  | _ => inl "provider envelope is not an object"
  end.

Definition positive_figure (d : list (pyval * pyval)) (key : string) : string + Z :=
  match item_get key d with
  | Some (PInt z) =>
    if z <=? 0 then inl ("response " +:+ key +:+ " must be a positive integer") else inr z
  | _ => inl ("response " +:+ key +:+ " must be a positive integer")
  end.

(** The three figures and the reasoning of a payload that keeps the contract. *)
Definition _validate_response (payload : pyval) : string + (Z * Z * Z * string) :=
  match payload with
  | PDict d =>
    if negb (has_keys RESPONSE_KEYS d) then inl "response keys do not match the contract" else
    ebind (positive_figure d "minimum_vnd") (fun minimum =>
    ebind (positive_figure d "central_vnd") (fun central =>
    ebind (positive_figure d "maximum_vnd") (fun maximum =>
    if negb ((minimum <=? central) && (central <=? maximum))
    then inl "response band figures are out of order" else
    match item_get "reasoning" d with
    | Some (PStr reasoning) =>
      if blank reasoning then inl "response reasoning must be a non-empty string"
      else if 1000 <? py_len reasoning then inl "response reasoning exceeds 1000 characters"
      else inr (minimum, central, maximum, reasoning)
    | _ => inl "response reasoning must be a non-empty string"
    end)))
  | _ => inl "response keys do not match the contract"
  end.

Definition of_step {A} (x : string + A) : DB A :=
  match x with inl error => raise (ValueError error) | inr a => mret a end.

(** The body of the [try] of [get_price_band_for_case]. *)
Definition predict (case : obj case_row) (ref : ReferencePrice) : DB (PriceBand * string) :=
  of_step _endpoint_url ;;
  scope ← _case_scope_text case;
  match provider (user_payload case scope ref) with
  | Breaks e => raise e
  | Fails error => raise (ValueError error)
  | Responds None => raise (ValueError "not UTF-8")
  | Responds (Some raw) =>
    match loads raw with
    | Parsed envelope _ =>
      extracted ← of_step (_extract_prediction envelope);
      validated ← of_step (_validate_response extracted.2);
      let '(minimum, central, maximum, reasoning) := validated in
      mret (Band case~>ca_category minimum central maximum, py_strip reasoning)
    | _ => raise (ValueError (json_error raw))
    end
  end.

Definition get_price_band_for_case (case : obj case_row) :
    DB (option (PriceBand * string * prediction_source)) :=
  match get_reference_price case~>ca_category with
  | None => mret None
  | Some ref =>
    try_except
      (br ← predict case ref; mret (Some (br.1, br.2, Predicted)))
      (fun _ => mret (Some (to_band ref, FALLBACK_REASONING, Fallback)))
  end.

(** ** Recording the comparison *)

Definition all_bigint (zs : list Z) : bool := forallb fits_bigint zs.
(** The columns of [PricePrediction] and its constraints. *)
Definition insert_prediction (r : prediction_row) : DB (obj prediction_row) :=
  require (storable_str (pp_reasoning r)) (DatabaseError "unsupported character") ;;
  require (py_len (pp_category r) <=? 64) (DatabaseError "value too long") ;;
  require (all_bigint [pp_amount_vnd r; pp_minimum_vnd r; pp_central_vnd r; pp_maximum_vnd r])
    (DatabaseError "bigint out of range") ;;
  require (0 <? pp_amount_vnd r) (IntegrityError "price_prediction_amount_positive") ;;
  require ((0 <? pp_minimum_vnd r) && (0 <? pp_central_vnd r) && (0 <? pp_maximum_vnd r))
    (IntegrityError "price_prediction_band_positive") ;;
  create predictions r.

(** The category is not supported, or the row recorded and what is shown of it. *)
Inductive evaluation :=
  | Unsupported (category_label : string)
  | Evaluated (prediction : obj prediction_row) (shown : formatted).

Definition evaluate_and_record_price_comparison (case : obj case_row)
    (membership : obj membership_row) (amount_vnd : Z) : DB evaluation :=
  require (negb (amount_vnd <=? 0)) (ValueError "Amount must be a positive integer.") ;;
  match get_reference_price case~>ca_category with
  | None => mret (Unsupported (display case~>ca_category))
  | Some _ =>
    answer ← get_price_band_for_case case;
    match answer with
    | None => mret (Unsupported (display case~>ca_category))
    | Some (band, reasoning, source) =>
      shown ← of_result (format_price_comparison band amount_vnd reasoning);
      prediction ← insert_prediction (Prediction case~>ca_building (Some (pk case))
        case~>ca_category amount_vnd (pb_minimum_vnd band) (pb_central_vnd band)
        (pb_maximum_vnd band) reasoning source (pk membership) None);
      mret (Evaluated prediction shown)
    end
  end.
End Prices.

(** ** Facts *)

Definition ordered (b : PriceBand) : Prop :=
  0 < pb_minimum_vnd b <= pb_central_vnd b /\ pb_central_vnd b <= pb_maximum_vnd b.

Lemma reference_ordered c r : get_reference_price c = Some r -> ordered (to_band r).
Proof.
  unfold get_reference_price. intros [Hin _]%find_some. cbn in Hin. destruct Hin as [<-|[]]. done.
Qed.

Lemma positive_figure_inr d k z : positive_figure d k = inr z -> 0 < z.
Proof.
  unfold positive_figure. destruct (item_get k d) as [[]|]; try done.
  destruct (Z.leb_spec z0 0); [done|]. by intros [= ->].
Qed.
Lemma validate_response_inr payload minimum central maximum reasoning :
  _validate_response payload = inr (minimum, central, maximum, reasoning) ->
  0 < minimum <= central /\ central <= maximum /\ blank reasoning = false.
Proof.
  unfold _validate_response. destruct payload; try done. destruct (negb _); [done|].
  intros (a & Ha & (b & Hb & (c & Hc & H)%ebind_inr)%ebind_inr)%ebind_inr.
  destruct ((a <=? b) && (b <=? c)) eqn:E; [|done]. cbn [negb] in H.
  destruct (item_get _ _) as [[]|]; try done. destruct (blank _) eqn:Eb; [done|].
  destruct (_ <? _); [done|]. injection H as -> -> -> ->.
  apply positive_figure_inr in Ha. to_prop. done.
Qed.

Lemma rounded_Ok band amount :
  ordered band -> pb_central_vnd band < 2 ^ 63 ->
  Z.abs (amount - pb_central_vnd band) <= 2 ^ 40 * pb_central_vnd band ->
  exists p, rounded_percentage (amount - pb_central_vnd band) (pb_central_vnd band) = Ok p /\
    Z.abs (p * pb_central_vnd band - 100 * Z.abs (amount - pb_central_vnd band)) <= pb_central_vnd band.
Proof.
  intros [[Hm Hmc] Hcx] Hc Hd. set (c := pb_central_vnd band) in *.
  destruct (percentage_close (Z.abs (amount - c)) c ltac:(lia) ltac:(lia)) as (p & Hp & Hpc).
  exists p. split; [|done]. unfold rounded_percentage. destruct (Z.eqb_spec c 0); [lia|].
  rewrite (Z.abs_eq c), Hp by lia. by rewrite (Z.sgn_pos c), Z.mul_1_l by lia.
Qed.

Lemma format_Ok intcomma band amount why p :
  0 < amount -> rounded_percentage (amount - pb_central_vnd band) (pb_central_vnd band) = Ok p ->
  exists shown, format_price_comparison intcomma band amount why = Ok shown.
Proof.
  intros Ha Hp. unfold format_price_comparison, compare_price_against_band.
  destruct (Z.leb_spec amount 0); [lia|]. rewrite Hp. cbn [mbind result_bind pc_direction].
  by repeat case_match; eexists.
Qed.

Section Facts.
Context (st : ai_settings) (provider : pyval -> answer).
Context (intcomma : Z -> string) (display : string -> string) (json_error : string -> string).
Implicit Types (w : world) (case : obj case_row).

Lemma predict_reads case ref w : (predict st provider display json_error case ref w).2 = w.
Proof.
  assert (keeps eq (predict st provider display json_error case ref) w) as H; [|by rewrite <- H].
  unfold predict, _case_scope_text, of_step. keeps_op; done.
Qed.

Notation band_for := (get_price_band_for_case st provider display json_error).
Notation evaluate := (evaluate_and_record_price_comparison st provider intcomma display json_error).

Lemma predict_Ok case ref w band why w' :
  predict st provider display json_error case ref w = (Ok (band, why), w') ->
  ordered band /\ pb_category band = case~>ca_category /\ truthy why = true.
Proof.
  unfold predict. intros H. inv_ok.
  destruct (provider _) as [[raw|]|?|?]; inv_ok. destruct (loads raw) as [envelope rest| | |]; inv_ok.
  match goal with H : of_step (_validate_response ?p) _ = _ |- _ =>
    destruct (_validate_response p) as [?|[[[minimum central] maximum] reasoning]] eqn:Ev;
    cbn [of_step] in H; inv_ok end.
  apply validate_response_inr in Ev as (Hm & Hc & Hb). unfold ordered, blank in *. to_prop. done.
Qed.

(** A band for a case: none without a reference price, the predicted one when every step of
    the prediction succeeded, else the reference; never an exception, never a write. *)
Definition band_spec case (r : option (PriceBand * string * prediction_source)) : Prop :=
  match get_reference_price case~>ca_category with
  | None => r = None
  | Some ref => exists band why source, r = Some (band, why, source) /\ ordered band /\
    match source with
    | Fallback => band = to_band ref /\ why = FALLBACK_REASONING
    | Predicted => pb_category band = case~>ca_category /\ truthy why = true
    end
  end.

Lemma band_run case w : exists r, band_for case w = (Ok r, w) /\ band_spec case r.
Proof.
  unfold get_price_band_for_case, band_spec.
  destruct (get_reference_price case~>ca_category) as [ref|] eqn:Er; [|by exists None].
  unfold try_except, mbind, M_bind. pose proof (predict_reads case ref w) as Hw.
  destruct (predict st provider display json_error case ref w) as [[[band why]|e] w1] eqn:Ep;
    cbn in Hw; subst w1; cbn.
  - apply predict_Ok in Ep as (Ho & Hc & Ht). eexists. split; [done|]. by eexists _, _, _.
  - eexists. split; [done|]. eexists _, _, _. split; [done|].
    split; [by eapply reference_ordered|done].
Qed.

Lemma insert_prediction_Ok r w o w' :
  insert_prediction r w = (Ok o, w') ->
  fits_bigint (pp_maximum_vnd r) = true /\ o = Obj (next (predictions w)) r /\
  w' = w <| predictions ::= insert_row r |>.
Proof.
  unfold insert_prediction. intros H. inv_db. unfold all_bigint in *. cbn [forallb] in *. to_prop. done.
Qed.

Lemma evaluate_Ok case m amount w p shown w' :
  evaluate case m amount w = (Ok (Evaluated p shown), w') ->
  exists band why source, ordered band /\ pb_maximum_vnd band < 2 ^ 63 /\ 0 < amount /\
    band_spec case (Some (band, why, source)) /\
    format_price_comparison intcomma band amount why = Ok shown /\
    p = Obj (next (predictions w)) (Prediction case~>ca_building (Some (pk case)) case~>ca_category amount
      (pb_minimum_vnd band) (pb_central_vnd band) (pb_maximum_vnd band) why source (pk m) None) /\
    w' = w <| predictions ::= insert_row (val p) |>.
Proof.
  unfold evaluate_and_record_price_comparison. intros H.
  apply bind_Ok in H as (u & w1 & [Ha <-]%require_Ok & H). to_prop.
  destruct (get_reference_price case~>ca_category) as [ref|] eqn:Er; [|inv_ok; done].
  destruct (band_run case w) as (r & Hr & Hspec). unfold mbind, M_bind in H. rewrite Hr in H.
  destruct r as [[[band why] source]|]; [|by injection H].
  unfold of_result in H. destruct (format_price_comparison intcomma band amount why) as [sh|] eqn:Ef; [|done].
  destruct (insert_prediction _ w) as [[o|] w2] eqn:Ei; [|done]. injection H as <- <- <-.
  apply insert_prediction_Ok in Ei as (Hfit & -> & ->).
  assert (ordered band) as Ho.
  { pose proof Hspec as Hs. unfold band_spec in Hs. rewrite Er in Hs. destruct Hs as (? & ? & ? & [= <- <- <-] & ? & _). done. }
  cbn in Hfit. unfold fits_bigint, BIGINT_MAX in Hfit. to_prop.
  exists band, why, source. repeat (split; [done || lia|]). done.
Qed.
End Facts.

(** ** Properties *)

Section Properties.
Context (st : ai_settings) (provider : pyval -> answer).
Context (intcomma : Z -> string) (display : string -> string) (json_error : string -> string).
Implicit Types (w : world) (case : obj case_row).

(** C30: the comparison shown is right.  For a positive amount and an ordered band whose
    figures fit their columns, the comparison says on which side of the band and of the
    central figure the amount lies, and the percentage it computes in floating point is the
    exact one to within one percent. *)
Theorem comparison_exact band amount :
  0 < amount -> ordered band -> pb_central_vnd band < 2 ^ 63 ->
  Z.abs (amount - pb_central_vnd band) <= 2 ^ 40 * pb_central_vnd band ->
  exists c, compare_price_against_band band amount = Ok c /\
    Z.abs (pc_percentage c * pb_central_vnd band - 100 * Z.abs (amount - pb_central_vnd band)) <=
      pb_central_vnd band /\
    (pc_position c = WITHIN_RANGE <-> pb_minimum_vnd band <= amount <= pb_maximum_vnd band) /\
    (pc_position c = ABOVE_RANGE <-> pb_maximum_vnd band < amount) /\
    (pc_position c = BELOW_RANGE <-> amount < pb_minimum_vnd band) /\
    (pc_direction c = Above <-> pb_central_vnd band < amount) /\
    (pc_direction c = Below <-> amount < pb_central_vnd band).
Proof.
  intros Ha Ho Hc Hd. destruct (rounded_Ok _ _ Ho Hc Hd) as (p & Hp & Hpc).
  destruct Ho as [[Hm Hmc] Hcx]. set (m := pb_minimum_vnd band) in *.
  set (c := pb_central_vnd band) in *. set (x := pb_maximum_vnd band) in *.
  unfold compare_price_against_band. fold m c x. destruct (Z.leb_spec amount 0); [lia|].
  rewrite Hp. cbn [mbind result_bind].
  eexists. split; [done|]. cbn [pc_percentage pc_position pc_direction]. split; [done|].
  destruct (Z.leb_spec m amount), (Z.leb_spec amount x), (Z.ltb_spec x amount),
    (Z.ltb_spec 0 (amount - c)), (Z.ltb_spec (amount - c) 0); cbn [andb];
    repeat split; intros; try lia; try done.
Qed.

(** Asking for a band always answers.  A case of a category with a reference price gets
    an ordered band, predicted or the reference itself, whatever the provider answers and
    whatever step fails; the database is only read. *)
Theorem price_band_total case w :
  exists r, get_price_band_for_case st provider display json_error case w = (Ok r, w) /\
    band_spec case r.
Proof. apply band_run. Qed.

(** A comparison is recorded once, and the version it was made for gets it.  An
    evaluation that answers stores one row of the case, with the figures of an ordered band
    that fit their columns and the figures shown, and nothing else; publishing a version of
    a proposal of that case for that amount binds the row to the version. *)
Theorem comparison_recorded case m amount w p shown w' :
  table_wf (predictions w) ->
  evaluate_and_record_price_comparison st provider intcomma display json_error case m amount w =
    (Ok (Evaluated p shown), w') ->
  (w' = w <| predictions ::= insert_row (val p) |> /\ pk p = next (predictions w)) /\
  p~>pp_case = Some (pk case) /\ p~>pp_amount_vnd = amount /\ 0 < amount /\
  0 < p~>pp_minimum_vnd <= p~>pp_central_vnd /\ p~>pp_central_vnd <= p~>pp_maximum_vnd < 2 ^ 63 /\
  (exists c, compare_price_against_band (Band (pb_category (pc_reference_price c)) p~>pp_minimum_vnd
      p~>pp_central_vnd p~>pp_maximum_vnd) amount = Ok c /\
    fo_percentage shown = pc_percentage c /\ fo_position shown = pc_position c /\
    fo_direction shown = pc_direction c) /\
  (forall proposal version, proposal~>pr_building = case~>ca_building -> proposal~>pr_case = Some (pk case) ->
    bind_prediction (Some (pk p)) proposal amount version w' =
      (Ok tt, w' <| predictions ::= update (pk p) (fun r => r <| pp_proposal_version := Some version |>) |>)).
Proof.
  intros Hwf H. apply evaluate_Ok in H as (band & why & source & [Hm Hc] & Hx & Ha & _ & Hf & -> & ->).
  cbn [pk val pp_case pp_amount_vnd pp_minimum_vnd pp_central_vnd pp_maximum_vnd].
  repeat (split; [done || lia|]). split.
  - unfold format_price_comparison in Hf. apply result_bind_Ok in Hf as (c & Hcmp & Hf).
    assert (pc_reference_price c = band) as Hb.
    { unfold compare_price_against_band in Hcmp. destruct (_ <=? _); [done|].
      apply result_bind_Ok in Hcmp as (? & _ & [= <-]). done. }
    exists c. rewrite Hb. destruct band as [cat mi ce ma]. cbn in *. split; [done|].
    destruct (pc_direction c); injection Hf as <-; done.
  - intros proposal version Hpb Hpc. unfold bind_prediction, query_first, gets, mbind, M_bind.
    change (predictions (set predictions ?f w)) with (f (predictions w)).
    rewrite first_insert_row by done.
    destruct (first (fun p => pk p ==? next (predictions w)) (predictions w)) as [o|] eqn:Ef.
    { apply first_Some in Ef as [Ho Hk]. to_prop. rewrite Hk, table_wf_fresh in Ho; done. }
    cbn [pk]. rewrite bool_decide_eq_true_2 by done. unfold matching_prediction. cbn.
    by rewrite Hpb, Hpc, !bool_decide_eq_true_2 by done.
Qed.

(** A predicted figure that does not fit its column breaks the comparison.  The band
    comes back as predicted, not as the fallback, and recording it raises: the manager gets
    an error where the fallback was meant. *)
Theorem oversized_band_raises case m amount w band why :
  get_price_band_for_case st provider display json_error case w = (Ok (Some (band, why, Predicted)), w) ->
  2 ^ 63 <= pb_maximum_vnd band -> storable_str why = true -> py_len case~>ca_category <= 64 ->
  0 < amount -> Z.abs (amount - pb_central_vnd band) <= 2 ^ 40 * pb_central_vnd band ->
  pb_central_vnd band < 2 ^ 63 ->
  evaluate_and_record_price_comparison st provider intcomma display json_error case m amount w =
    (Err (DatabaseError "bigint out of range"), w).
Proof.
  intros Hband Hmax Hwhy Hcat Ha Hd Hc.
  destruct (band_run st provider display json_error case w) as (r & Hr & Hspec).
  rewrite Hband in Hr. injection Hr as <-. unfold band_spec in Hspec.
  unfold evaluate_and_record_price_comparison, require, raise, mbind, M_bind, mret, M_ret.
  destruct (Z.leb_spec amount 0); [lia|]. cbn [negb].
  destruct (get_reference_price case~>ca_category) as [ref|]; [|done].
  destruct Hspec as (? & ? & ? & [= <- <- <-] & Ho & _).
  destruct (rounded_Ok _ _ Ho Hc Hd) as (p & Hp & _). rewrite Hband.
  unfold of_result. destruct (format_Ok intcomma band amount why _ Ha Hp) as (shown & ->).
  unfold insert_prediction, require, raise, mbind, M_bind, mret, M_ret.
  cbn [pp_reasoning pp_category pp_amount_vnd pp_minimum_vnd pp_central_vnd pp_maximum_vnd].
  rewrite Hwhy. destruct (Z.leb_spec (py_len case~>ca_category) 64); [|lia].
  replace (all_bigint _) with false; [done|]. symmetry. unfold all_bigint. cbn [forallb].
  assert (fits_bigint (pb_maximum_vnd band) = false) as ->
    by (unfold fits_bigint, BIGINT_MAX; destruct (Z.leb_spec (pb_maximum_vnd band) (2 ^ 63 - 1)); [lia|by rewrite andb_false_r]).
  by rewrite !andb_false_r.
Qed.
End Properties.

(** ** Concrete runs *)

Definition demo_prices_ai : ai_settings := AiSettings "https://ai.example/v1" false "t" "m" "".
Definition demo_band (maximum : string) : answer := Responds (Some (quoted_text (
  "{'id': 'r-1', 'choices': [{'message': {'content': '{~minimum_vnd~: 100000000, " +:+
  "~central_vnd~: 120000000, ~maximum_vnd~: " +:+ maximum +:+ ", ~reasoning~: ~Motor and cable~}'}}]}"))).
Definition demo_lift : case_row :=
  Case 1 1 "ELEVATOR" "HIGH" 1 "MAINTENANCE" (days 1) true (Some 0) None None.
(** One building with a lift case, and a report about it. *)
Definition demo_lift_site : world :=
  empty_world (Settings true 0 "" "" "" "" true 10) 0
    <| buildings ::= insert_row "Tower A" |>
    <| locations ::= insert_row (Location 1 None "Lift 2" true) |>
    <| reports ::= insert_row (Report 1 1 1 "The lift is stuck" 1 "Lift 2" RInProgress false "" None None None) |>
    <| cases ::= insert_row demo_lift |>
    <| case_reports ::= insert_row (CaseReport 1 1 1) |>.
Definition demo_comparison (maximum : string) (amount : Z) : result evaluation * world :=
  evaluate_and_record_price_comparison demo_prices_ai (fun _ => demo_band maximum) (fun _ => "")
    (fun c => c) (fun _ => "") (Obj 1 demo_lift) (Obj 1 (Membership 1 1 true)) amount demo_lift_site.

Lemma comparison_exact_witness :
  exists c, compare_price_against_band (Band "ELEVATOR" 380000000 450000000 520000000) 600000000 = Ok c /\
    pc_position c = ABOVE_RANGE /\ pc_percentage c = 33.
Proof.
  destruct (comparison_exact (Band "ELEVATOR" 380000000 450000000 520000000) 600000000)
    as (c & Hc & Hp & _ & (_ & Ha) & _); cbn in *; [lia|by unfold ordered|lia|lia|].
  exists c. split; [exact Hc|]. split; [by apply Ha|].
  vm_compute in Hc. injection Hc as <-. reflexivity.
Defined.

(** The provider answers a band, and the row is bound to version 7 of proposal 3. *)
Lemma comparison_recorded_witness :
  exists p shown, (demo_comparison "150000000" 130000000).1 = Ok (Evaluated p shown) /\
    fo_percentage shown = 8 /\ pp_source (val p) = Predicted /\
    bind_prediction (Some 1) (Obj 3 (Proposal (Some 1) 1 1 PDraft None None None "" None None None)) 130000000 7
      (demo_comparison "150000000" 130000000).2 =
      (Ok tt, (demo_comparison "150000000" 130000000).2
        <| predictions ::= update 1 (fun r => r <| pp_proposal_version := Some 7 |>) |>).
Proof.
  destruct (demo_comparison "150000000" 130000000) as [[[label|p shown]|e] w'] eqn:E;
    [vm_compute in E; discriminate E| |vm_compute in E; discriminate E].
  pose proof (comparison_recorded demo_prices_ai (fun _ => demo_band "150000000") (fun _ => "")
    (fun c => c) (fun _ => "") (Obj 1 demo_lift) (Obj 1 (Membership 1 1 true)) 130000000 demo_lift_site
    p shown w' ltac:(apply table_wf_b_true; vm_compute; reflexivity) E)
    as ((_ & Hk) & _ & _ & _ & _ & _ & _ & H).
  exists p, shown. split; [reflexivity|]. cbn [snd].
  assert (fo_percentage shown = 8 /\ pp_source (val p) = Predicted) as [? ?]
    by (vm_compute in E; injection E as <- <- _; split; reflexivity).
  split; [done|]. split; [done|]. change (pk p = 1) in Hk. rewrite Hk in H. by apply H.
Defined.

Lemma oversized_band_raises_witness :
  (demo_comparison "9223372036854775808" 130000000).1 = Err (DatabaseError "bigint out of range").
Proof.
  unfold demo_comparison.
  refine (f_equal fst (oversized_band_raises demo_prices_ai (fun _ => demo_band "9223372036854775808")
    (fun _ => "") (fun c => c) (fun _ => "") (Obj 1 demo_lift) (Obj 1 (Membership 1 1 true)) 130000000
    demo_lift_site (Band "ELEVATOR" 100000000 120000000 (2 ^ 63)) "Motor and cable" _ _ _ _ _ _ _));
    [vm_compute; reflexivity|cbn; lia|vm_compute; reflexivity|vm_compute; discriminate|lia|cbn; lia|cbn; lia].
Defined.
