(* ===== verification/Fund.v ===== *)
(** * Fund: the maintenance fund's append-only entries and its balance

    [finance/fund.py] with the constraints of [finance/models/ledger.py].  A source entry
    counts towards the verified balance once it is verified; an outflow once its proposal
    is in the published ledger. *)

From S2P Require Import Prelude Table PyStr Schema Store Accounts Documents Proposals.
Open Scope Z_scope.

Definition SOURCE_ENTRY_TYPES : list entry_type := [OPENING_BALANCE; INFLOW].
Definition FINALIZED_ENTRY_TYPES : list entry_type := [OUTFLOW; REVERSAL; REPLACEMENT].
Definition is_source (t : entry_type) : bool := existsb (fun x => t ==? x) SOURCE_ENTRY_TYPES.
Definition is_finalized (t : entry_type) : bool := existsb (fun x => t ==? x) FINALIZED_ENTRY_TYPES.

Definition entry_type_str (t : entry_type) : string :=
  match t with
  | OPENING_BALANCE => "OPENING_BALANCE"
  | INFLOW => "INFLOW"
  | OUTFLOW => "OUTFLOW"
  | REVERSAL => "REVERSAL"
  | REPLACEMENT => "REPLACEMENT"
  end.

(** ** Constraints *)

(** [MaintenanceFund.building] is one-to-one. *)
Definition insert_fund : fund_row -> DB (obj fund_row) :=
  insert_unless funds "finance_maintenancefund_building_id_key"
    (fun r o => o~>fu_building ==? fu_building r).

(** [fund_entry_amount_sign] *)
Definition amount_sign_ok (r : fund_entry_row) : bool :=
  match fe_entry_type r with
  | OPENING_BALANCE | INFLOW => 0 <? fe_amount_vnd r
  | OUTFLOW => fe_amount_vnd r <? 0
  | REVERSAL | REPLACEMENT => negb (fe_amount_vnd r =? 0)
  end.

(** [MaintenanceFundEntry.save]: not future-dated, then the column bounds and constraints. *)
Definition check_entry (r : fund_entry_row) : DB unit :=
  now ← timezone_now;
  require (fe_recorded_at r <=? now) (ValidationError "Fund entries cannot be future-dated.") ;;
  require (fits_bigint (fe_amount_vnd r) && max_length 128 (fe_source_key r))
    (DatabaseError "value out of range") ;;
  require (amount_sign_ok r) (IntegrityError "fund_entry_amount_sign") ;;
  dup ← query_exists fund_entries (fun o => o~>fe_source_key ==? fe_source_key r);
  require (negb dup) (IntegrityError "finance_maintenancefundentry_source_key_key").

(** [entry.save(force_insert=True)] under the given key. *)
Definition insert_entry_at (k : Z) (r : fund_entry_row) : DB (obj fund_entry_row) :=
  check_entry r ;;
  dup ← query_exists fund_entries (fun o => pk o ==? k);
  require (negb dup) (IntegrityError "finance_maintenancefundentry_pkey") ;;
  modify (fun w => w <| fund_entries ::= fun t => Table (<[k := r]> (rows t)) (next t) |>) ;;
  mret (Obj k r).

(** The next value of the table's sequence, which a rollback does not give back; here it
    is part of the table. *)
Definition allocate_fund_entry_id : DB Z :=
  k ← gets (fun w => next (fund_entries w));
  modify (fun w => w <| fund_entries ::= fun t => Table (rows t) (next t + 1) |>) ;;
  mret k.

(** [FundEntryVerification.entry] is one-to-one. *)
Definition insert_verification : fund_verification_row -> DB (obj fund_verification_row) :=
  insert_unless fund_verifications "finance_fundentryverification_entry_id_key"
    (fun r o => o~>fv_entry ==? fv_entry r).

(** ** Operations *)

Definition get_or_create_fund (building : Z) : DB (obj fund_row) :=
  fund ← query_first funds (fun f => f~>fu_building ==? building);
  match fund with
  | Some f => mret f
  | None => insert_fund (Fund building)
  end.

(** [evidence] is the key of the object passed, [None] when it has none. *)
Definition _require_evidence (evidence : option Z) (building_id : Z) : DB (obj doc_version_row) :=
  evidence_id ← of_option (ValidationError "Fund source evidence document is required.") evidence;
  version ← query_first doc_versions (fun v => pk v ==? evidence_id);
  version ← of_option (ValidationError "Fund source evidence versions must still exist.") version;
  document ← get_row documents "Document" version~>dv_document;
  require ((document~>dc_building ==? building_id) && (version~>dv_scan_status ==? CLEAN))
    (ValidationError "Fund evidence must be clean, safe, and in the fund building.") ;;
  mret version.

Definition _validate_source_amount (entry_type : entry_type) (amount_vnd : pyval) : result Z :=
  if negb (is_source entry_type)
  then Err (ValidationError "Only opening balance and inflow sources may be recorded.")
  else match positive_amount amount_vnd with
    | Some n => Ok n
    | None => Err (ValidationError "Fund source amount must be a positive integer VND amount.")
    end.

Definition _source_key (entry_type : entry_type) (fund_id : Z) (original_hash : string) : string :=
  entry_type_str entry_type +:+ ":" +:+ zstr fund_id +:+ ":" +:+ original_hash.

Definition _locked_fund (fund : Z) : DB (obj fund_row) :=
  locked ← query_first funds (fun f => pk f ==? fund);
  of_option (ValidationError "Maintenance fund does not exist.") locked.
Definition _locked_entry (entry : Z) : DB (obj fund_entry_row) :=
  locked ← query_first fund_entries (fun e => pk e ==? entry);
  of_option (ValidationError "Fund entry does not exist.") locked.

(** [fund_entry_id or ...], [source_key or ...]; a [timestamp] is given as whether it is a
    timezone-aware [datetime]: the code validates it and stores the current time. *)
Definition record_fund_source (fund : Z) (entry_type : entry_type) (amount_vnd : pyval)
    (evidence : option Z) (recorder : obj membership_row) (fund_entry_id : option Z)
    (timestamp : option bool) (source_key : option string) : DB (obj fund_entry_row) :=
  atomic (
    fund ← _locked_fund fund;
    actor ← require_management recorder~>mb_user fund~>fu_building;
    amount_vnd ← of_result (_validate_source_amount entry_type amount_vnd);
    evidence ← _require_evidence evidence fund~>fu_building;
    fund_entry_id ← (match fund_entry_id with
      | None => allocate_fund_entry_id
      | Some k => mret k
      end);
    require (0 <? fund_entry_id) (ValidationError "Fund entry id must be a positive integer.") ;;
    used ← query_exists fund_entries (fun o => pk o ==? fund_entry_id);
    require (negb used) (ValidationError "Fund entry id is already used.") ;;
    require (default true timestamp) (ValidationError "Fund entry timestamp must be timezone-aware.") ;;
    let key := match source_key with
      | Some k => if truthy k then k else _source_key entry_type (pk fund) evidence~>dv_sha256
      | None => _source_key entry_type (pk fund) evidence~>dv_sha256
      end in
    taken ← query_exists fund_entries (fun o => o~>fe_source_key ==? key);
    require (negb taken) (ValidationError "Fund source key already exists.") ;;
    now ← timezone_now;
    entry ← insert_entry_at fund_entry_id (FundEntry (pk fund) entry_type amount_vnd
      (Some (pk evidence)) evidence~>dv_sha256 (Some (pk actor)) None key now);
    record_audit actor~>mb_user (Some (pk actor)) "fund.record" "MaintenanceFundEntry"
      (zstr (pk entry)) "accepted"
      [("entry_type", PStr (entry_type_str entry_type)); ("amount_vnd", PInt amount_vnd)] ;;
    mret entry).

Definition verify_fund_source (entry : Z) (verifier : obj membership_row) :
    DB (obj fund_verification_row) :=
  atomic (
    entry ← _locked_entry entry;
    fund ← get_row funds "MaintenanceFund" entry~>fe_fund;
    actor ← require_management verifier~>mb_user fund~>fu_building;
    require (is_source entry~>fe_entry_type)
      (ValidationError "Only opening balance and inflow sources may be verified.") ;;
    require (bool_decide (is_Some entry~>fe_recorder)) (ValidationError "Fund source has no recorder.") ;;
    verified ← query_exists fund_verifications (fun v => v~>fv_entry ==? pk entry);
    require (negb verified) (ValidationError "Fund source has already been verified.") ;;
    now ← timezone_now;
    verification ← insert_verification (FundVerification (pk entry) (pk actor) now);
    record_audit actor~>mb_user (Some (pk actor)) "fund.verify" "FundEntryVerification"
      (zstr (pk verification)) "accepted" [("entry_id", PInt (pk entry))] ;;
    mret verification).

Definition _source_verified_q (w : world) (e : obj fund_entry_row) : bool :=
  is_source e~>fe_entry_type && exists_ (fun v => v~>fv_entry ==? pk e) (fund_verifications w).
(** The proposal has a published ledger entry. *)
Definition proposal_published (w : world) (p : Z) : bool :=
  exists_ (fun l => l~>le_proposal ==? p) (ledger w).
Definition _finalized_posting_q (w : world) (e : obj fund_entry_row) : bool :=
  is_finalized e~>fe_entry_type &&
  match e~>fe_proposal with Some p => proposal_published w p | None => false end.

(** The entries a balance counts. *)
Definition counted (verified_only : bool) (w : world) (e : obj fund_entry_row) : bool :=
  (if verified_only then _source_verified_q w e else is_source e~>fe_entry_type)
  || _finalized_posting_q w e.

Definition entries_total (P : obj fund_entry_row -> bool) (w : world) : Z :=
  zsum ((fun e => e~>fe_amount_vnd) <$> select P (fund_entries w)).

Definition fund_balance (building_id : Z) (verified_only : bool) : DB Z :=
  require (0 <? building_id) (ValidationError "Building is required.") ;;
  known ← query_exists buildings (fun b => pk b ==? building_id);
  require known (ValidationError "Building does not exist.") ;;
  fund ← query_first funds (fun f => f~>fu_building ==? building_id);
  match fund with
  | None => mret 0
  | Some f => gets (fun w => entries_total (fun e =>
      (e~>fe_fund ==? pk f) && counted verified_only w e) w)
  end.

Definition settlement_source_key (proposal : Z) : string := "OUTFLOW:proposal:" +:+ zstr proposal.

Definition create_settlement_outflow (settlement : obj settlement_row) : DB (obj fund_entry_row) :=
  proposal ← get_row proposals "Proposal" settlement~>se_proposal;
  fund ← get_or_create_fund proposal~>pr_building;
  existing ← query_first fund_entries
    (fun e => e~>fe_source_key ==? settlement_source_key settlement~>se_proposal);
  match existing with
  | Some e => mret e
  | None =>
    k ← allocate_fund_entry_id;
    insert_entry_at k (FundEntry (pk fund) OUTFLOW (- settlement~>se_amount_vnd) None "" None
      (Some (pk proposal)) (settlement_source_key settlement~>se_proposal) settlement~>se_settled_at)
  end.

(** ** Facts *)

Section Facts.
Implicit Types (w : world).

Lemma check_entry_run r w u w' :
  check_entry r w = (Ok u, w') ->
  w' = w /\ fe_recorded_at r <= w_now w /\ amount_sign_ok r = true /\
  fits_bigint (fe_amount_vnd r) = true /\
  forall k e, rows (fund_entries w) !! k = Some e -> fe_source_key e <> fe_source_key r.
Proof.
  unfold check_entry. intros H. inv_db. to_prop. repeat (split; [done|]).
  intros k e Hk. match goal with H : exists_ _ _ = false |- _ =>
    rewrite exists_false in H; specialize (H k e Hk) end. by to_prop.
Qed.

(** Allocating a key and inserting under it is an ordinary insert. *)
Lemma allocate_insert_run r w k w1 o w' :
  allocate_fund_entry_id w = (Ok k, w1) -> insert_entry_at k r w1 = (Ok o, w') ->
  o = Obj (next (fund_entries w)) r /\ w' = w <| fund_entries ::= insert_row r |> /\
  fe_recorded_at r <= w_now w /\ amount_sign_ok r = true /\
  forall k e, rows (fund_entries w) !! k = Some e -> fe_source_key e <> fe_source_key r.
Proof.
  unfold allocate_fund_entry_id, insert_entry_at. intros H1 H2. inv_db.
  match goal with H : check_entry _ _ = _ |- _ => apply check_entry_run in H as (-> & ? & ? & ? & ?) end.
  cbn in *. done.
Qed.

Lemma require_evidence_run e b w v w' :
  _require_evidence e b w = (Ok v, w') -> w' = w /\ rows (doc_versions w) !! pk v = Some (val v).
Proof. unfold _require_evidence. intros H. inv_db. inv_query. done. Qed.

(** What recording a source writes. *)
Lemma record_source_run f t a e m ts sk w o w' :
  record_fund_source f t a e m None ts sk w = (Ok o, w') ->
  o = Obj (next (fund_entries w)) (val o) /\ o~>fe_fund = f /\ o~>fe_entry_type = t /\
  a = PInt o~>fe_amount_vnd /\ 0 < o~>fe_amount_vnd /\ is_source t = true /\
  o~>fe_proposal = None /\ is_Some (rows (funds w) !! f) /\
  (sk = None -> exists h, o~>fe_source_key = _source_key t f h) /\
  w' = w <| fund_entries ::= insert_row (val o) |> <| audits := audits w' |>.
Proof.
  unfold record_fund_source. intros H. inv_db.
  match goal with H : _locked_fund _ _ = _ |- _ => unfold _locked_fund in H end. inv_db. inv_query. to_prop.
  repeat match goal with
  | H : require_management _ _ _ = _ |- _ => apply require_management_Ok in H as [_ ->]
  | H : _require_evidence _ _ _ = _ |- _ => apply require_evidence_run in H as [-> _]
  | H : record_audit _ _ _ _ _ _ _ _ = _ |- _ => apply record_audit_Ok in H as (_ & _ & ->)
  end.
  match goal with H : _validate_source_amount _ _ = Ok _ |- _ => unfold _validate_source_amount in H;
    destruct (is_source t) eqn:Ht in H; [cbn in H|done]; destruct (positive_amount a) as [n|] eqn:Ha; [|done];
    injection H as <-; apply positive_amount_Some in Ha as [-> Hpos] end.
  match goal with H : allocate_fund_entry_id _ = _, H' : insert_entry_at _ _ _ = _ |- _ =>
    destruct (allocate_insert_run _ _ _ _ _ _ H H') as (-> & -> & _) end.
  subst. do 7 (split; [done|]). split; [by eexists|]. split; [|done]. intros ->. eexists; cbn; reflexivity.
Qed.

Lemma verify_source_run k m w v w' :
  verify_fund_source k m w = (Ok v, w') ->
  exists e, rows (fund_entries w) !! k = Some e /\ is_source (fe_entry_type e) = true /\
    exists_ (fun v => v~>fv_entry ==? k) (fund_verifications w) = false /\
    v~>fv_entry = k /\
    w' = w <| fund_verifications ::= insert_row (val v) |> <| audits := audits w' |>.
Proof.
  unfold verify_fund_source, insert_verification. intros H. inv_db.
  match goal with H : _locked_entry _ _ = _ |- _ => unfold _locked_entry in H end. inv_db.
  match goal with H : require_management _ _ _ = _ |- _ => apply require_management_Ok in H as [_ ->] end.
  match goal with H : record_audit _ _ _ _ _ _ _ _ = _ |- _ => apply record_audit_Ok in H as (_ & _ & ->) end.
  inv_query. to_prop. subst.
  match goal with H : rows (fund_entries _) !! pk ?x = Some (val ?x) |- _ => exists (val x) end.
  done.
Qed.

(** ** Balances *)

(** The fund of a building, and its entries. *)
Definition fund_of (b : Z) w : option (obj fund_row) := first (fun f => f~>fu_building ==? b) (funds w).
Definition in_fund (b : Z) w (e : obj fund_entry_row) : bool :=
  match fund_of b w with Some f => e~>fe_fund ==? pk f | None => false end.
Definition balance (b : Z) (verified_only : bool) w : Z :=
  entries_total (fun e => in_fund b w e && counted verified_only w e) w.
Definition known_building (b : Z) w : bool :=
  (0 <? b) && exists_ (fun o => pk o ==? b) (buildings w).

Lemma fund_balance_Ok b v w n w' :
  fund_balance b v w = (Ok n, w') <-> w' = w /\ known_building b w = true /\ n = balance b v w.
Proof.
  unfold fund_balance, known_building, query_exists, query_first, gets, require, mbind, M_bind.
  destruct (0 <? b); [|split; [done|by intros (_ & ? & _)]].
  destruct (exists_ _ (buildings w)); [|split; [done|by intros (_ & ? & _)]]. cbn [andb].
  unfold balance, in_fund. change (first (fun f => f~>fu_building ==? b) (funds w)) with (fund_of b w).
  destruct (fund_of b w) as [f|]; split.
  - by intros [= <- <-].
  - by intros (-> & _ & ->).
  - intros [= <- <-]. split; [done|]. split; [done|]. unfold entries_total.
    by rewrite (proj2 (select_nil _ _)).
  - intros (-> & _ & ->). unfold entries_total. by rewrite (proj2 (select_nil _ _)).
Qed.

Lemma entries_total_ext P Q w :
  (forall k e, rows (fund_entries w) !! k = Some e -> P (Obj k e) = Q (Obj k e)) ->
  entries_total P w = entries_total Q w.
Proof. intros H. unfold entries_total. by rewrite (select_ext P Q). Qed.

Lemma entries_total_insert P w w' e :
  table_wf (fund_entries w) -> fund_entries w' = insert_row e (fund_entries w) ->
  entries_total P w' =
    entries_total P w + (if P (Obj (next (fund_entries w)) e) then fe_amount_vnd e else 0).
Proof.
  intros Hwf Hw. unfold entries_total. rewrite Hw, select_insert_row, fmap_app, zsum_app by done.
  destruct (P _); cbn; lia.
Qed.

Lemma entries_total_gains P Q k e w :
  rows (fund_entries w) !! k = Some e -> P (Obj k e) = false -> Q (Obj k e) = true ->
  (forall j x, j <> k -> rows (fund_entries w) !! j = Some x -> P (Obj j x) = Q (Obj j x)) ->
  entries_total Q w = entries_total P w + fe_amount_vnd e.
Proof.
  intros Hk HP HQ Hrest. unfold entries_total.
  rewrite (select_gains P Q k e) by done. cbn. lia.
Qed.

(** The serial keys are apart, and verifications are of stored entries. *)
Record fund_ok w : Prop := {
  fo_entries : table_wf (fund_entries w);
  fo_verifications : table_wf (fund_verifications w);
  fo_stored : forall k v, rows (fund_verifications w) !! k = Some v ->
    is_Some (rows (fund_entries w) !! fv_entry v);
}.

Lemma fund_ok_insert w w' e :
  fund_entries w' = insert_row e (fund_entries w) -> fund_verifications w' = fund_verifications w ->
  fund_ok w -> fund_ok w'.
Proof.
  intros He Hv [F1 F2 F3]. split; rewrite ?He, ?Hv; [by apply insert_row_wf|done|].
  intros k v Hk. eapply is_Some_inserted, F3, Hk.
Qed.

Lemma in_fund_building b w e :
  in_fund b w e = true -> exists f, rows (funds w) !! e~>fe_fund = Some f /\ fu_building f = b.
Proof.
  unfold in_fund, fund_of. destruct (first _ _) as [f|] eqn:E; [|done]. apply first_Some in E as [Hf Hb].
  intros Hp. to_prop. rewrite Hp. eauto.
Qed.

Lemma not_verified_next w :
  fund_ok w -> exists_ (fun v => v~>fv_entry ==? next (fund_entries w)) (fund_verifications w) = false.
Proof.
  intros [Hwf _ Hv]. apply exists_false. intros k v Hk. apply bool_decide_eq_false. cbn. intros E.
  destruct (Hv _ _ Hk) as [e He]. rewrite E, table_wf_fresh in He; done.
Qed.

Lemma record_source_balance f t a e m ts sk w o w' b :
  record_fund_source f t a e m None ts sk w = (Ok o, w') -> fund_ok w ->
  balance b true w' = balance b true w /\
  balance b false w' = balance b false w + (if in_fund b w o then o~>fe_amount_vnd else 0).
Proof.
  intros (Ho & _ & Ht & _ & _ & Hs & Hp & _ & _ & Hw)%record_source_run Hok.
  assert (forall v, balance b v w' = balance b v w +
    (if in_fund b w o && counted v w o then o~>fe_amount_vnd else 0)) as Hb.
  { intros v. transitivity (entries_total (fun e => in_fund b w e && counted v w e) w').
    - apply entries_total_ext. intros k x _. by rewrite Hw.
    - rewrite (entries_total_insert _ w w' (val o)) by (apply Hok || by rewrite Hw). by rewrite <- Ho. }
  rewrite !Hb. split.
  - replace (counted true w o) with false; [rewrite andb_false_r; lia|]. symmetry.
    unfold counted, _source_verified_q, _finalized_posting_q. rewrite Hp, andb_false_r, orb_false_r.
    replace (pk o) with (next (fund_entries w)) by by rewrite Ho.
    by rewrite not_verified_next, andb_false_r.
  - unfold counted. by rewrite Ht, Hs, andb_true_r.
Qed.

Lemma verify_source_balance k m w v w' b :
  verify_fund_source k m w = (Ok v, w') -> fund_ok w ->
  exists e, rows (fund_entries w) !! k = Some e /\
    balance b true w' = balance b true w + (if in_fund b w (Obj k e) then fe_amount_vnd e else 0) /\
    balance b false w' = balance b false w.
Proof.
  intros (e & He & Hs & Hn & Hv & Hw)%verify_source_run Hok. exists e. split; [done|].
  assert (forall x, exists_ (fun y => y~>fv_entry ==? x) (fund_verifications w') =
    (k ==? x) || exists_ (fun y => y~>fv_entry ==? x) (fund_verifications w)) as Hex.
  { intros x. rewrite Hw. cbn. rewrite exists_insert_row by apply Hok. cbn. by rewrite Hv. }
  assert (fund_entries w' = fund_entries w) as Hes by by rewrite Hw.
  assert (forall v' x, rows (fund_entries w) !! pk x = Some (val x) ->
    in_fund b w' x && counted v' w' x =
    (in_fund b w x && (counted v' w x || v' && (k ==? pk x)))) as Hc.
  { intros v' x Hx. replace (in_fund b w' x) with (in_fund b w x) by by rewrite Hw. f_equal.
    unfold counted, _source_verified_q. rewrite Hex.
    replace (_finalized_posting_q w' x) with (_finalized_posting_q w x) by by rewrite Hw.
    destruct v'; cbn [andb]; [|by rewrite !orb_false_r]. destruct (decide (k = pk x)) as [Ek|Hne].
    - rewrite (bool_decide_eq_true_2 (k = pk x)) by done. cbn [orb]. assert (val x = e) as -> by congruence. rewrite Hs.
      by rewrite ?orb_true_r.
    - rewrite (bool_decide_eq_false_2 (k = pk x)) by done. cbn [orb]. by rewrite !orb_false_r. }
  assert (forall v', entries_total (fun x => in_fund b w' x && counted v' w' x) w' =
    entries_total (fun x => in_fund b w x && (counted v' w x || v' && (k ==? pk x))) w) as Ht.
  { intros v'. unfold entries_total at 1. rewrite Hes. apply entries_total_ext. intros j x Hj. by apply Hc. }
  unfold balance. rewrite !Ht. cbn [andb]. split.
  - destruct (in_fund b w (Obj k e)) eqn:Hin.
    + apply entries_total_gains with (k := k); [done| | |].
      * rewrite Hin. cbn. unfold counted, _source_verified_q, _finalized_posting_q. cbn. rewrite Hn.
        rewrite andb_false_r. cbn. by destruct (fe_entry_type e).
      * rewrite Hin. cbn. by rewrite bool_decide_eq_true_2, orb_true_r.
      * intros j x Hne _. cbn. by rewrite (bool_decide_eq_false_2 (k = j)), orb_false_r.
    + rewrite Z.add_0_r. apply entries_total_ext. intros j x Hj. destruct (decide (k = j)) as [<-|Hne].
      * assert (x = e) as -> by congruence. by rewrite Hin.
      * cbn. by rewrite (bool_decide_eq_false_2 (k = j)), orb_false_r.
  - apply entries_total_ext. intros j x Hj. by rewrite orb_false_r.
Qed.

(** ** Verified sources and postings *)

Definition verified_sources (b : Z) w : Z :=
  entries_total (fun e => in_fund b w e && _source_verified_q w e) w.
Definition postings (b : Z) w : Z :=
  entries_total (fun e => in_fund b w e && _finalized_posting_q w e) w.

Lemma entries_total_split P Q w :
  (forall e, P e && Q e = false) ->
  entries_total (fun e => P e || Q e) w = entries_total P w + entries_total Q w.
Proof.
  intros H. unfold entries_total, select. induction (objs (fund_entries w)) as [|e l IH]; [done|].
  cbn [List.filter]. specialize (H e). destruct (P e), (Q e); cbn in *; try done; lia.
Qed.

Lemma source_not_posting w e : _source_verified_q w e && _finalized_posting_q w e = false.
Proof.
  unfold _source_verified_q, _finalized_posting_q. destruct e as [k r]. cbn.
  destruct (fe_entry_type r); cbn; by rewrite ?andb_false_r.
Qed.

Lemma balance_split b w : balance b true w = verified_sources b w + postings b w.
Proof.
  unfold verified_sources, postings. rewrite <- entries_total_split.
  - apply entries_total_ext. intros k e _. unfold counted. by destruct (in_fund _ _ _).
  - intros e. pose proof (source_not_posting w e) as H.
    by destruct (in_fund _ _ _), (_source_verified_q _ _), (_finalized_posting_q _ _).
Qed.

Lemma record_source_postings f t a e m ts sk w o w' b :
  record_fund_source f t a e m None ts sk w = (Ok o, w') -> fund_ok w ->
  postings b w' = postings b w.
Proof.
  intros (Ho & _ & Ht & _ & _ & Hs & Hp & _ & _ & Hw)%record_source_run Hok.
  transitivity (entries_total (fun e => in_fund b w e && _finalized_posting_q w e) w').
  - apply entries_total_ext. intros k x _. by rewrite Hw.
  - rewrite (entries_total_insert _ w w' (val o)) by (apply Hok || by rewrite Hw). rewrite <- Ho.
    unfold _finalized_posting_q at 2. rewrite Hp, !andb_false_r. unfold postings. lia.
Qed.

Lemma verify_source_postings k m w v w' b :
  verify_fund_source k m w = (Ok v, w') -> postings b w' = postings b w.
Proof.
  intros (e & _ & _ & _ & _ & Hw)%verify_source_run. unfold postings, entries_total, in_fund, fund_of,
    _finalized_posting_q, proposal_published. by rewrite Hw.
Qed.

(** ** A fund for a building *)

Lemma get_or_create_fund_run b w f w' :
  get_or_create_fund b w = (Ok f, w') ->
  f~>fu_building = b /\
  ((w' = w /\ fund_of b w = Some f) \/
   (w' = w <| funds ::= insert_row (Fund b) |> /\ f = Obj (next (funds w)) (Fund b) /\ fund_of b w = None)).
Proof.
  unfold get_or_create_fund, insert_fund, fund_of. intros H. inv_db.
  match goal with H : match ?x with _ => _ end _ = _ |- _ => destruct x as [f0|] eqn:Hf end; inv_db.
  - apply first_Some in Hf as Hx. destruct Hx as [_ Hx]. to_prop. split; [done|]. by left.
  - split; [done|]. by right.
Qed.

Lemma get_or_create_Err b w e w' : get_or_create_fund b w = (Err e, w') -> w' = w.
Proof.
  unfold get_or_create_fund, insert_fund, insert_unless, query_first, query_exists, gets, require, mbind, M_bind.
  case_match; [done|]. destruct (exists_ _ _); by intros [= _ <-].
Qed.

Lemma fund_of_building b w f : fund_of b w = Some f -> f~>fu_building = b.
Proof. unfold fund_of. intros [_ H]%first_Some. by to_prop. Qed.

(** The fund it gives is the building's, and no other building's changes. *)
Lemma get_or_create_fund_of b w f w' b' :
  get_or_create_fund b w = (Ok f, w') -> table_wf (funds w) ->
  fund_of b' w' = if b' ==? b then Some f else fund_of b' w.
Proof.
  intros [Hb [[-> Hf]|(-> & -> & Hn)]]%get_or_create_fund_run Hwf.
  - case_bool_decide as E; [by subst b'|done].
  - unfold fund_of in *. cbn [funds set]. rewrite first_insert_row by done.
    cbn [val fu_building]. destruct (decide (b' = b)) as [E|E].
    + by rewrite E, Hn, !bool_decide_eq_true_2.
    + rewrite !bool_decide_eq_false_2 by congruence. by case_match.
Qed.

Lemma get_or_create_fund_stored b w f w' :
  get_or_create_fund b w = (Ok f, w') -> table_wf (funds w) ->
  table_wf (funds w') /\ rows (funds w') !! pk f = Some (val f) /\
  forall k, is_Some (rows (funds w) !! k) -> is_Some (rows (funds w') !! k).
Proof.
  intros [_ [[-> Hf]|(-> & -> & _)]]%get_or_create_fund_run Hwf.
  - split; [done|]. split; [|done]. by apply first_Some in Hf as [? _].
  - split; [by apply insert_row_wf|]. split; [by apply lookup_inserted|].
    intros k. apply is_Some_inserted.
Qed.

(** Which fund an entry is in, before and after. *)
Lemma in_fund_created b0 w f w' b :
  get_or_create_fund b0 w = (Ok f, w') -> table_wf (funds w) ->
  (forall e, is_Some (rows (funds w) !! e~>fe_fund) -> in_fund b w' e = in_fund b w e) /\
  (forall e, e~>fe_fund = pk f -> in_fund b w' e = (b0 ==? b)).
Proof.
  intros H Hwf. pose proof (get_or_create_fund_of _ _ _ _ b H Hwf) as Hof.
  apply get_or_create_fund_run in H as [Hb Hc]. unfold in_fund. rewrite Hof.
  destruct (decide (b = b0)) as [->|Hne].
  - rewrite !(bool_decide_eq_true_2 (b0 = b0)) by done. split; [|by intros e ->; apply bool_decide_eq_true].
    intros e [x Hx]. destruct Hc as [[_ ->]|(_ & -> & ->)]; [done|]. apply bool_decide_eq_false. cbn.
    intros E. by rewrite E, table_wf_fresh in Hx.
  - rewrite (bool_decide_eq_false_2 (b = b0)), (bool_decide_eq_false_2 (b0 = b)) by congruence.
    split; [done|]. intros e He. rewrite He. destruct (fund_of b w) as [f'|] eqn:Hf'; [|done].
    pose proof (fund_of_building _ _ _ Hf') as Hb'. apply first_Some in Hf' as [Hf' _].
    apply bool_decide_eq_false. intros E. rewrite <- E in Hf'.
    destruct Hc as [[_ [Hf _]%first_Some]|(_ & Ef & _)]; [congruence|].
    rewrite Ef in Hf'. cbn in Hf'. by rewrite table_wf_fresh in Hf'.
Qed.

(** Posting an outflow: the entry that has the settlement's key, or a new one. *)
Lemma settlement_outflow_run s w e w' :
  create_settlement_outflow s w = (Ok e, w') ->
  exists p f w1, rows (proposals w) !! s~>se_proposal = Some p /\
    get_or_create_fund (pr_building p) w = (Ok f, w1) /\
    ((w' = w1 /\ rows (fund_entries w) !! pk e = Some (val e) /\
      e~>fe_source_key = settlement_source_key s~>se_proposal) \/
     (e = Obj (next (fund_entries w)) (FundEntry (pk f) OUTFLOW (- s~>se_amount_vnd) None "" None
        (Some s~>se_proposal) (settlement_source_key s~>se_proposal) s~>se_settled_at) /\
      w' = w1 <| fund_entries ::= insert_row (val e) |>)).
Proof.
  unfold create_settlement_outflow. intros H. inv_db. inv_query.
  match goal with H : get_or_create_fund _ _ = (Ok ?f, ?w1) |- _ => rename H into Hf;
    destruct (get_or_create_fund_run _ _ _ _ Hf) as [_ Hc] end.
  match type of Hf with _ = (_, ?w1) => assert (fund_entries w1 = fund_entries w) as Hes end;
    [by (destruct Hc as [[-> _]|(-> & _)]; done)|].
  match goal with H : match ?x with _ => _ end _ = _ |- _ => destruct x as [e0|] eqn:He end; inv_db.
  - apply first_Some in He as [He Hk]. to_prop. rewrite Hes in He. do 3 eexists. split; [done|].
    split; [done|]. by left.
  - match goal with H : allocate_fund_entry_id _ = _, H' : insert_entry_at _ _ _ = _ |- _ =>
      destruct (allocate_insert_run _ _ _ _ _ _ H H') as (-> & -> & _) end.
    do 3 eexists. split; [done|]. split; [done|]. right. rewrite <- Hes.
    match goal with H : pk _ = _ |- _ => by rewrite H end.
Qed.
End Facts.

(** ** Properties *)

(** A recorded source waits for its verification.  An accepted source is new, of a
    source type with a positive amount and a new key; it leaves the verified balance of
    every building alone and raises the unverified balance of its fund's building by
    exactly its amount. *)
Theorem record_source_pending f t a e m ts sk w o w' :
  record_fund_source f t a e m None ts sk w = (Ok o, w') -> fund_ok w ->
  a = PInt o~>fe_amount_vnd /\ 0 < o~>fe_amount_vnd /\ is_source o~>fe_entry_type = true /\
  rows (fund_entries w) !! pk o = None /\ rows (fund_entries w') !! pk o = Some (val o) /\
  forall b n w2, fund_balance b true w = (Ok n, w2) ->
    fund_balance b true w' = (Ok n, w') /\
    forall n0 w3, fund_balance b false w = (Ok n0, w3) ->
      fund_balance b false w' = (Ok (n0 + if in_fund b w o then o~>fe_amount_vnd else 0), w').
Proof.
  intros H Hok. pose proof (fun b => record_source_balance _ _ _ _ _ _ _ _ _ _ b H Hok) as Hb.
  apply record_source_run in H as (Ho & _ & Ht & Ha & Hpos & Hs & _ & _ & _ & Hw).
  split; [done|]. split; [done|]. split; [congruence|].
  split; [rewrite Ho; by apply table_wf_fresh, Hok|]. split; [rewrite Hw, Ho; apply lookup_inserted|].
  intros b n w2 (_ & Hk & ->)%fund_balance_Ok.
  assert (known_building b w' = true) as Hk' by by rewrite Hw. destruct (Hb b) as [Ht' Hf]. split.
  - apply fund_balance_Ok. by rewrite Ht'.
  - intros n0 w3 (_ & _ & ->)%fund_balance_Ok. apply fund_balance_Ok. by rewrite Hf.
Qed.

(** Verifying credits the fund once.  A verification is of a stored, unverified source;
    it raises the verified balance of the fund's building by exactly the amount recorded,
    leaves every other balance, and the source cannot be verified again. *)
Theorem verify_source_credits k m w v w' :
  verify_fund_source k m w = (Ok v, w') -> fund_ok w ->
  exists e, rows (fund_entries w) !! k = Some e /\ is_source (fe_entry_type e) = true /\
    (forall b n w2, fund_balance b true w = (Ok n, w2) ->
      fund_balance b true w' = (Ok (n + if in_fund b w (Obj k e) then fe_amount_vnd e else 0), w') /\
      forall n0 w3, fund_balance b false w = (Ok n0, w3) -> fund_balance b false w' = (Ok n0, w')) /\
    forall m2 v2 w2, verify_fund_source k m2 w' <> (Ok v2, w2).
Proof.
  intros H Hok. pose proof (fun b => verify_source_balance _ _ _ _ _ b H Hok) as Hb.
  apply verify_source_run in H as (e & He & Hs & _ & Hv & Hw). exists e. do 2 (split; [done|]). split.
  - intros b n w2 (_ & Hk & ->)%fund_balance_Ok. destruct (Hb b) as (e' & He' & Ht & Hf).
    assert (e' = e) as -> by congruence. assert (known_building b w' = true) as Hk' by by rewrite Hw. split.
    + apply fund_balance_Ok. by rewrite Ht.
    + intros n0 w3 (_ & _ & ->)%fund_balance_Ok. apply fund_balance_Ok. by rewrite Hf.
  - intros m2 v2 w2 (e2 & _ & _ & Hn & _)%verify_source_run. rewrite Hw in Hn. cbn in Hn.
    rewrite exists_insert_row in Hn by apply Hok. cbn in Hn. by rewrite Hv, bool_decide_eq_true_2 in Hn.
Qed.

(** ** Concrete runs *)

(** Building 1 with its fund, its manager and a clean invoice. *)
Definition demo_funded : world :=
  demo_spending <| funds ::= insert_row (Fund 1) |>
    <| documents ::= insert_row (Document 1 INVOICE) |>
    <| doc_versions ::= insert_row (DocVersion 2 1 "documents/1/i" "1" "invoice.pdf" "application/pdf" 9
         "bbbbbbbbbbbbbbbbbbbbbbbbbbbbbbbbbbbbbbbbbbbbbbbbbbbbbbbbbbbbbbbb" CLEAN 1) |>.
Definition demo_record : result (obj fund_entry_row) * world :=
  record_fund_source 1 OPENING_BALANCE (PInt 9000000) (Some 2) demo_manager None None None demo_funded.
Definition demo_entry : obj fund_entry_row :=
  got (Obj 0 (FundEntry 0 INFLOW 0 None "" None None "" 0)) demo_record.
Definition demo_recorded : world := demo_record.2.
Definition demo_verify : result (obj fund_verification_row) * world :=
  verify_fund_source 1 demo_manager demo_recorded.
Definition demo_verification : obj fund_verification_row := got (Obj 0 (FundVerification 0 0 0)) demo_verify.

Lemma demo_funded_ok : fund_ok demo_funded.
Proof. split; [apply table_wf_b_true; reflexivity..|]. intros k v Hk. by vm_compute in Hk. Qed.
Lemma demo_recorded_ok : fund_ok demo_recorded.
Proof. split; [apply table_wf_b_true; vm_compute; reflexivity..|]. intros k v Hk. by vm_compute in Hk. Qed.

Lemma record_source_pending_witness :
  fund_balance 1 true demo_recorded = (Ok 0, demo_recorded) /\
  fund_balance 1 false demo_recorded = (Ok (0 + 9000000), demo_recorded).
Proof.
  refine (match record_source_pending 1 OPENING_BALANCE (PInt 9000000) (Some 2) demo_manager None None
    demo_funded demo_entry demo_recorded _ demo_funded_ok with
    | conj _ (conj _ (conj _ (conj _ (conj _ H)))) =>
      match H 1 0 demo_funded _ with conj H1 H2 => conj H1 (H2 0 demo_funded _) end
    end); vm_compute; reflexivity.
Defined.

Lemma verify_source_credits_witness :
  exists e, rows (fund_entries demo_recorded) !! 1 = Some e /\
    fund_balance 1 true demo_verify.2 =
      (Ok (0 + if in_fund 1 demo_recorded (Obj 1 e) then fe_amount_vnd e else 0), demo_verify.2).
Proof.
  refine (match verify_source_credits 1 demo_manager demo_recorded demo_verification demo_verify.2 _
    demo_recorded_ok with
    | ex_intro _ e (conj He (conj _ (conj H _))) =>
      ex_intro _ e (conj He (proj1 (H 1 0 demo_recorded _)))
    end); vm_compute; reflexivity.
Defined.
