(* ===== verification/Settlements.v ===== *)
(** * Settlements: paying a completed proposal and publishing what was paid

    [finance/settlements.py] and [finance/publication.py] with the constraints of
    [finance/models/execution.py] and [finance/models/ledger.py].  Settling posts the
    amount frozen in the proposal's current version to the fund and to the published
    ledger, in one transaction. *)

From S2P Require Import OutboxWorker Prelude Table PyStr Json Schema Store Accounts Canonical Signatures.
From S2P Require Import Timestamps Evidence Notifications Hooks Cases Documents Proposals Fund.
Open Scope Z_scope.

(** ** Reading the stored snapshot *)

(** [item[k]] *)
Definition subscript (k : string) (item : pyval) : result pyval :=
  match item with
  | PDict d => match item_get k d with Some v => Ok v | None => Err (KeyError k) end
  | _ => Err (TypeError "indices must be integers")
  end.
(** The items of [for item in v]; those of a text or of a dictionary are texts, on which
    the subscripts below raise. *)
Definition py_iter (v : pyval) : result (list pyval) :=
  match v with
  | PList l => Ok l
  | PStr EmptyString | PDict [] => Ok []
  | PStr s => Ok [PStr s]
  | PDict (kv :: _) => Ok [kv.1]
  | _ => Err (TypeError "object is not iterable")
  end.
Definition quotation_items (snapshot : pyval) : result (list pyval) :=
  match snapshot with
  | PDict d => py_iter (default (PList []) (item_get "quotation_versions" d))
  | _ => Err AttributeError
  end.

(** ** Inserts under constraints *)

(** [settlement_amount_positive]; [proposal] is one-to-one. *)
Definition insert_settlement (r : settlement_row) : DB (obj settlement_row) :=
  require (0 <? se_amount_vnd r) (IntegrityError "settlement_amount_positive") ;;
  insert_unless settlements "finance_settlement_proposal_id_key"
    (fun r o => o~>se_proposal ==? se_proposal r) r.
(** [settlement.save(update_fields=["outbox_event"])]; [outbox_event] is one-to-one. *)
Definition save_settlement_event (k event : Z) : DB unit :=
  dup ← query_exists settlements (fun o => negb (pk o ==? k) && (o~>se_outbox_event ==? Some event));
  require (negb dup) (IntegrityError "finance_settlement_outbox_event_id_key") ;;
  save settlements k (fun r => r <| se_outbox_event := Some event |>).
(** [published_ledger_actual_cost_positive]; [proposal] and [settlement] are one-to-one. *)
Definition insert_ledger (r : ledger_row) : DB (obj ledger_row) :=
  require (0 <? le_actual_cost_vnd r) (IntegrityError "published_ledger_actual_cost_positive") ;;
  insert_unless ledger "finance_publishedledgerentry_key"
    (fun r o => (o~>le_proposal ==? le_proposal r) || (o~>le_settlement ==? le_settlement r)) r.

(** ** Publishing *)

(** [proposal.settlement], settled. *)
Definition _load_execution_chain (proposal : Z) : DB (obj settlement_row) :=
  settlement ← query_first settlements (fun s => s~>se_proposal ==? proposal);
  settlement ← of_option (ValidationError "Settlement is required before publication.") settlement;
  require (bool_decide (is_Some settlement~>se_outbox_event))
    (ValidationError "Settlement must be completed before publication.") ;;
  mret settlement.

Definition _resident_payload (proposal : obj proposal_row) (version : obj version_row)
    (settlement : obj settlement_row) (document_hashes : list string) : DB pyval :=
  case ← proposal_case (val proposal);
  report_id ← (match case with
    | Some c => decision ← get_row decisions "TriageDecision" c~>ca_decision; mret (PInt decision~>de_report)
    | None => mret PNone
    end);
  event ← of_option AttributeError settlement~>se_outbox_event;
  event ← get_row outbox "BlockchainOutboxEvent" event;
  mret (mk_dict [
    ("report_id", report_id);
    ("case_id", opt_int (pk <$> case));
    ("proposal_id", PInt (pk proposal));
    ("proposal_version", PInt version~>ve_number);
    ("proposed_amount_vnd", PInt version~>ve_amount_vnd);
    ("actual_cost_vnd", PInt settlement~>se_amount_vnd);
    ("contractor_name", PStr version~>ve_contractor_name);
    ("document_hashes", PList (PStr <$> document_hashes));
    ("settlement", mk_dict [
      ("settlement_id", PInt (pk settlement));
      ("settlement_event_hash", PStr event~>ev_payload_hash)])]).

(** A document, the hash expected of it, and what it is for. *)
Record document_check := DocumentCheck {
  dk_version : obj doc_version_row; dk_expected : pyval; dk_gate : string }.

Definition quotation_check (item : pyval) : DB document_check :=
  version_id ← of_result (subscript "version_id" item);
  version_id ← (match version_id with
    | PNone => raise (DoesNotExist "DocumentVersion")
    | v => of_result (py_int v)
    end);
  quotation ← get_row doc_versions "DocumentVersion" version_id;
  expected ← of_result (subscript "sha256" item);
  mret (DocumentCheck quotation expected "QUOTATION").

Definition _collect_document_checks (version : version_row) (settlement : settlement_row) :
    DB (list document_check) :=
  items ← of_result (quotation_items (ve_snapshot version));
  checks ← map_m quotation_check items;
  transfer ← get_row doc_versions "DocumentVersion" (se_transfer settlement);
  mret (checks ++ [DocumentCheck transfer (PStr transfer~>dv_sha256) "SETTLEMENT_TRANSFER"]).

(** [sorted({...})] *)
#[export] Instance sle_decision : RelDecision (fun a b => sle a b = true) :=
  fun a b => decide (sle a b = true).
Definition sorted_set (l : list string) : list string :=
  merge_sort (fun a b => sle a b = true) (remove_dups l).

(** [proposal.current_version] *)
Definition current_version_of (proposal : obj proposal_row) : DB (obj version_row) :=
  version_id ← of_option (ValidationError "A current proposal version is required.")
    proposal~>pr_current_version;
  get_row versions "ProposalVersion" version_id.

Section Publication.
Context {CR : Crypto} {ETH : EthAccount}.

Definition publish_settlement_entry (settlement : Z) : DB (obj ledger_row) :=
  atomic (
    settlement ← get_row settlements "Settlement" settlement;
    existing ← query_first ledger (fun l => l~>le_settlement ==? pk settlement);
    match existing with
    | Some entry => mret entry
    | None =>
      require (bool_decide (is_Some settlement~>se_outbox_event))
        (ValidationError "Settlement must be completed before publication.") ;;
      proposal ← get_row proposals "Proposal" settlement~>se_proposal;
      version ← current_version_of proposal;
      checks ← _collect_document_checks (val version) (val settlement);
      let hashes := sorted_set ((fun c => (dk_version c)~>dv_sha256) <$> checks) in
      payload ← _resident_payload proposal version settlement hashes;
      now ← timezone_now;
      entry ← insert_ledger (Ledger payload proposal~>pr_case (pk proposal) (pk settlement)
        settlement~>se_amount_vnd version~>ve_contractor_name now);
      settled_by ← get_row memberships "ManagementMembership" settlement~>se_settled_by;
      record_audit settled_by~>mb_user (Some (pk settled_by)) "ledger.published" "PublishedLedgerEntry"
        (zstr (pk entry)) "accepted" [] ;;
      mret entry
    end).

(** ** Settling *)

(** [proof] is the key of the document version passed, if it has one. *)
Definition _require_proof (proof : option Z) (building_id : Z) : DB (obj doc_version_row) :=
  let refused := ValidationError
    "Settlement evidence requires a clean payment proof in the proposal building." in
  proof ← of_option refused proof;
  version ← query_first doc_versions (fun v => pk v ==? proof);
  version ← of_option refused version;
  document ← get_row documents "Document" version~>dv_document;
  require ((document~>dc_kind ==? PAYMENT_PROOF) && (document~>dc_building ==? building_id) &&
           (version~>dv_scan_status ==? CLEAN)) refused ;;
  mret version.

Definition settlement_payload (settlement : obj settlement_row) (number : Z) (sha : string) : pyval :=
  mk_dict [
    ("schema", PStr "settlement.v2");
    ("settlement_id", PInt (pk settlement));
    ("proposal_id", PInt settlement~>se_proposal);
    ("proposal_version", PInt number);
    ("amount_vnd", PInt settlement~>se_amount_vnd);
    ("transfer_sha256", PStr sha);
    ("settled_at", PStr (utc_rfc3339 settlement~>se_settled_at))].
Definition build_settlement_evidence_payload (settlement : obj settlement_row) : DB pyval :=
  proposal ← get_row proposals "Proposal" settlement~>se_proposal;
  version_id ← of_option AttributeError proposal~>pr_current_version;
  version ← get_row versions "ProposalVersion" version_id;
  transfer ← get_row doc_versions "DocumentVersion" settlement~>se_transfer;
  mret (settlement_payload settlement version~>ve_number transfer~>dv_sha256).

(** What [record_settlement] does before its transaction commits. *)
Definition settle (proposal : Z) (membership : obj membership_row) (transfer : option Z)
    (event_id : string) : DB (obj settlement_row) :=
  atomic (
    proposal ← get_row proposals "Proposal" proposal;
    actor ← require_management membership~>mb_user proposal~>pr_building;
    require (proposal~>pr_status ==? PCompleted)
      (ValidationError "Only completed proposals can be settled.") ;;
    settled ← query_exists settlements (fun s => s~>se_proposal ==? pk proposal);
    require (negb settled) (ValidationError "Settlement already exists for this proposal.") ;;
    version ← current_version_of proposal;
    original ← _require_proof transfer proposal~>pr_building;
    now ← timezone_now;
    settlement ← insert_settlement (Settlement (pk proposal) version~>ve_amount_vnd (pk original)
      (pk actor) now None);
    payload ← build_settlement_evidence_payload settlement;
    version_event ← get_row outbox "BlockchainOutboxEvent" version~>ve_outbox_event;
    event ← queue_platform_event event_id SETTLEMENT payload ("0x" +:+ version_event~>ev_payload_hash)
      proposal~>pr_building;
    save_settlement_event (pk settlement) (pk event) ;;
    let settlement := updated (pk settlement) (fun r => r <| se_outbox_event := Some (pk event) |>) settlement in
    create_settlement_outflow settlement ;;
    publish_settlement_entry (pk settlement) ;;
    record_audit actor~>mb_user (Some (pk actor)) "settlement.settled" "Settlement"
      (zstr (pk settlement)) "accepted" [("event_id", PStr event~>ev_event_id)] ;;
    mret settlement).

(** [on_commit(lambda: notify_settled(settlement))] runs, unguarded, once the outermost
    transaction has committed; here that is the one of [settle]. *)
Definition record_settlement (proposal : Z) (membership : obj membership_row) (transfer : option Z)
    (event_id : string) : DB (obj settlement_row) :=
  settlement ← settle proposal membership transfer event_id;
  notify_settled settlement ;;
  mret settlement.
End Publication.

(** ** A settlement, undone into its writes *)

Section Facts.
Context {CR : Crypto} {ETH : EthAccount}.
Implicit Types (w : world).

Lemma map_m_reads {A B} (f : A -> DB B) l w ys w' :
  (forall x w1 y w2, f x w1 = (Ok y, w2) -> w2 = w1) -> map_m f l w = (Ok ys, w') -> w' = w.
Proof.
  intros Hf. revert w ys. induction l as [|x l IH]; intros w ys H; cbn [map_m] in H; inv_ok; [done|].
  match goal with H : f _ _ = _ |- _ => apply Hf in H as -> end. by eapply IH.
Qed.

Lemma quotation_check_reads i w c w' : quotation_check i w = (Ok c, w') -> w' = w.
Proof. unfold quotation_check. intros H. inv_db. by case_match; inv_db. Qed.

Lemma collect_checks_reads v s w l w' : _collect_document_checks v s w = (Ok l, w') -> w' = w.
Proof.
  unfold _collect_document_checks. intros H. inv_db.
  match goal with H : map_m _ _ _ = _ |- _ => apply map_m_reads in H as ->; [done|] end.
  intros ????. apply quotation_check_reads.
Qed.

Lemma resident_payload_reads p v s hs w x w' : _resident_payload p v s hs w = (Ok x, w') -> w' = w.
Proof.
  unfold _resident_payload. intros H. inv_db.
  match goal with H : proposal_case _ _ = _ |- _ => apply proposal_case_run in H as -> end.
  by case_match; inv_db.
Qed.

Lemma current_version_run p w v w' :
  current_version_of p w = (Ok v, w') ->
  w' = w /\ p~>pr_current_version = Some (pk v) /\ rows (versions w) !! pk v = Some (val v).
Proof. unfold current_version_of. intros H. inv_db. inv_query. by subst. Qed.

Lemma require_proof_run k b w v w' :
  _require_proof k b w = (Ok v, w') ->
  w' = w /\ k = Some (pk v) /\ rows (doc_versions w) !! pk v = Some (val v) /\
  exists d, rows (documents w) !! v~>dv_document = Some d /\ dc_kind d = PAYMENT_PROOF /\
    dc_building d = b /\ v~>dv_scan_status = CLEAN.
Proof. unfold _require_proof. intros H. inv_db. inv_query. to_prop. subst. eauto 10. Qed.

(** What publishing a settlement writes, when it has no entry yet. *)
Lemma publish_entry_run k w l w' :
  publish_settlement_entry k w = (Ok l, w') ->
  first (fun l => l~>le_settlement ==? k) (ledger w) = None ->
  exists s p v, rows (settlements w) !! k = Some s /\ rows (proposals w) !! se_proposal s = Some p /\
    pr_current_version p = Some (pk v) /\ rows (versions w) !! pk v = Some (val v) /\
    is_Some (se_outbox_event s) /\
    l = Obj (next (ledger w)) (val l) /\ l~>le_proposal = se_proposal s /\ l~>le_settlement = k /\
    l~>le_actual_cost_vnd = se_amount_vnd s /\ l~>le_contractor_name = v~>ve_contractor_name /\
    l~>le_case = pr_case p /\ 0 < se_amount_vnd s /\
    w' = w <| ledger ::= insert_row (val l) |> <| audits := audits w' |>.
Proof.
  unfold publish_settlement_entry, insert_ledger. intros H. inv_db. inv_query. subst. intros Hnone.
  rewrite Hnone in *. inv_db. inv_query. to_prop.
  match goal with H : current_version_of _ _ = _ |- _ => apply current_version_run in H as (-> & ? & ?) end.
  match goal with H : _collect_document_checks _ _ _ = _ |- _ => apply collect_checks_reads in H as -> end.
  match goal with H : _resident_payload _ _ _ _ _ = _ |- _ => apply resident_payload_reads in H as -> end.
  match goal with H : record_audit _ _ _ _ _ _ _ _ = _ |- _ => apply record_audit_Ok in H as (_ & _ & ->) end.
  do 3 eexists. split; [done|]. split; [done|]. split; [done|]. split; [done|]. cbn.
  repeat (split; [done|]). done.
Qed.

Record settling w (p : Z) (m : obj membership_row) (transfer : option Z) (event_id : string) (s : obj settlement_row) w' : Prop :=
  Settling {
  sg_row : proposal_row;
  sg_version : obj version_row;
  sg_actor : obj membership_row;
  sg_proof : obj doc_version_row;
  sg_previous : outbox_row;
  sg_event : obj outbox_row;
  sg_queued : world;
  sg_fund : obj fund_row;
  sg_funded : world;
  sg_entry : obj fund_entry_row;
  sg_ledger : obj ledger_row;
  sg_found : rows (proposals w) !! p = Some sg_row;
  sg_completed : pr_status sg_row = PCompleted;
  sg_manager : first (manages m~>mb_user (pr_building sg_row)) (memberships w) = Some sg_actor;
  sg_current : pr_current_version sg_row = Some (pk sg_version) /\
    rows (versions w) !! pk sg_version = Some (val sg_version);
  sg_proven : _require_proof transfer (pr_building sg_row) w = (Ok sg_proof, w);
  sg_settlement : s = Obj (next (settlements w)) (Settlement p sg_version~>ve_amount_vnd (pk sg_proof)
    (pk sg_actor) (w_now w) (Some (pk sg_event)));
  sg_positive : 0 < sg_version~>ve_amount_vnd;
  sg_linked : rows (outbox w) !! sg_version~>ve_outbox_event = Some sg_previous;
  sg_queue : queue_platform_event event_id SETTLEMENT
    (settlement_payload s sg_version~>ve_number sg_proof~>dv_sha256)
    ("0x" +:+ ev_payload_hash sg_previous) (pr_building sg_row)
    (w <| settlements ::= insert_row (val s <| se_outbox_event := None |>) |>) = (Ok sg_event, sg_queued);
  sg_once : forall k x, rows (settlements w) !! k = Some x -> k <> pk s -> se_outbox_event x <> Some (pk sg_event);
  sg_account : get_or_create_fund (pr_building sg_row)
    (sg_queued <| settlements := insert_row (val s) (settlements w) |>) = (Ok sg_fund, sg_funded);
  sg_outflow : sg_entry = Obj (next (fund_entries w)) (FundEntry (pk sg_fund) OUTFLOW
    (- s~>se_amount_vnd) None "" None (Some p) (settlement_source_key p) s~>se_settled_at);
  sg_published : sg_ledger = Obj (next (ledger w)) (val sg_ledger) /\
    sg_ledger~>le_proposal = p /\ sg_ledger~>le_settlement = pk s /\
    sg_ledger~>le_actual_cost_vnd = s~>se_amount_vnd /\
    sg_ledger~>le_contractor_name = sg_version~>ve_contractor_name;
  sg_world : w' = sg_funded <| fund_entries ::= insert_row (val sg_entry) |>
    <| ledger ::= insert_row (val sg_ledger) |> <| audits := audits w' |>;
}.

(** Queueing touches the outbox alone. *)
Lemma queue_frame event_id t p prev b w o w' :
  queue_platform_event event_id t p prev b w = (Ok o, w') -> w' = w <| outbox := outbox w' |>.
Proof. intros (i & _ & _ & [[-> _]|(_ & _ & ->)])%queue_run; [by destruct w|done]. Qed.

Lemma fund_frame b w f w' :
  get_or_create_fund b w = (Ok f, w') -> w' = w <| funds := funds w' |>.
Proof. intros [_ [[-> _]|(-> & _)]]%get_or_create_fund_run; [by destruct w|done]. Qed.

Lemma settlement_payload_run s w pl w' :
  build_settlement_evidence_payload s w = (Ok pl, w') ->
  w' = w /\ exists p kv v d, rows (proposals w) !! s~>se_proposal = Some p /\
    pr_current_version p = Some kv /\ rows (versions w) !! kv = Some v /\
    rows (doc_versions w) !! s~>se_transfer = Some d /\
    pl = settlement_payload s (ve_number v) (dv_sha256 d).
Proof. unfold build_settlement_evidence_payload. intros H. inv_db. inv_query. eauto 10. Qed.

Lemma settle_run p m tr ev w s w' :
  settle p m tr ev w = (Ok s, w') ->
  (exists_ (fun s => s~>se_proposal ==? p) (settlements w) = false ->
   forall k e, rows (fund_entries w) !! k = Some e -> fe_source_key e <> settlement_source_key p) ->
  first (fun l => l~>le_settlement ==? next (settlements w)) (ledger w) = None ->
  settling w p m tr ev s w' /\ exists_ (fun s => s~>se_proposal ==? p) (settlements w) = false.
Proof.
  unfold settle, insert_settlement, save_settlement_event. intros H Hkey Hnone. inv_db.
  apply find_Some in H as [<- Hrow].
  apply require_management_Ok in H0 as [Hmgr ->]. apply current_version_run in H4 as (-> & Hcur & Hver).
  pose proof (require_proof_run _ _ _ _ _ H5) as (-> & _ & Hproof & _).
  set (s0 := Settlement _ _ _ _ _ None) in *. set (s1 := s0 <| se_outbox_event := Some (pk x21) |>).
  assert (updated (next (settlements w)) (fun r => r <| se_outbox_event := Some (pk x21) |>)
    (Obj (next (settlements w)) s0) = Obj (next (settlements w)) s1) as Hs by by rewrite updated_same.
  cbn [pk] in *. rewrite Hs in *.
  assert (x18 = w <| settlements ::= insert_row s0 |> /\
    x17 = settlement_payload (Obj (next (settlements w)) s1) x9~>ve_number x11~>dv_sha256) as [-> ->].
  { apply settlement_payload_run in H8 as (-> & p0 & kv & v & d & Hp0 & Hkv & Hv & Hd & ->).
    cbn in *. split; [done|]. by simplify_map_eq. }
  pose proof (queue_frame _ _ _ _ _ _ _ _ H10) as Hq. clear H8 H16.
  apply negb_true_iff in H15. rewrite exists_false in H15.
  apply find_Some in H9 as [_ Hprev]. cbn [outbox set] in Hprev.
  assert (x22 <| settlements ::= update (next (settlements w)) (fun r => r <| se_outbox_event := Some (pk x21) |>) |>
    = x22 <| settlements := insert_row s1 (settlements w) |>) as Hup.
  { rewrite Hq. unfold set. cbn. by rewrite update_inserted. }
  rewrite Hup in H12. clear Hup.
  destruct (settlement_outflow_run _ _ _ _ H12) as (p0 & f & w1 & Hp0 & Hf & Hout).
  pose proof (fund_frame _ _ _ _ Hf) as Hfw. rewrite Hq in Hp0, Hout, Hfw. cbn in Hp0, Hout, Hfw.
  assert (p0 = val x) as -> by congruence. destruct Hout as [(_ & He & Hk)|[Hx25 Hx26]];
    [to_prop; by apply Hkey in He|].
  apply record_audit_Ok in H14 as (_ & _ & H14).
  apply publish_entry_run in H13 as (s & p0 & v & Hse & Hpr & Hcv & Hvv & _ & Hl & Hlp & Hls & Hlc & Hln & _ & Hpos & Hw28);
    [|rewrite Hx26, Hfw; exact Hnone].
  rewrite Hx26, Hfw in Hse, Hpr, Hvv, Hl. cbn in Hse, Hpr, Hvv, Hl. rewrite lookup_insert_eq in Hse.
  assert (s = s1) as -> by congruence. assert (p0 = val x) as -> by (cbn in Hpr; congruence).
  assert (pk v = pk x9) as Hkv by congruence. rewrite Hkv in Hvv.
  assert (val v = val x9) as Hvx by congruence. rewrite Hvx in Hln.
  to_prop. split; [|done].
  apply (Settling _ _ _ _ _ _ _ (val x) x9 x1 x11 (val x19) x21 x22 f w1 x25 x27);
    try done; try by (to_prop; eauto).
  { intros k y Hy Hne. specialize (H15 k y). rewrite Hq in H15. cbn in H15.
    rewrite lookup_insert_ne in H15 by (cbn in Hne; congruence). specialize (H15 Hy).
    rewrite (bool_decide_eq_false_2 (k = next (settlements w)) Hne) in H15. apply bool_decide_eq_false in H15. exact H15. }
  rewrite H14, Hw28, Hx26. reflexivity.
Qed.

(** The tables a settlement changes. *)
Lemma settling_writes w p m tr ev s w' :
  settling w p m tr ev s w' ->
  exists prow v f e l, rows (proposals w) !! p = Some prow /\ pr_status prow = PCompleted /\
    pr_current_version prow = Some (pk v) /\
    rows (versions w) !! pk v = Some (val v) /\ 0 < s~>se_amount_vnd /\
    s~>se_proposal = p /\ s~>se_amount_vnd = v~>ve_amount_vnd /\ pk s = next (settlements w) /\
    e = FundEntry (pk f) OUTFLOW (- s~>se_amount_vnd) None "" None (Some p) (settlement_source_key p)
      s~>se_settled_at /\
    le_proposal l = p /\ le_settlement l = pk s /\ le_actual_cost_vnd l = s~>se_amount_vnd /\
    le_contractor_name l = v~>ve_contractor_name /\
    (exists w1 w2, get_or_create_fund (pr_building prow) w1 = (Ok f, w2) /\ funds w1 = funds w /\
      funds w2 = funds w') /\
    w' = w <| settlements ::= insert_row (val s) |> <| outbox := outbox w' |> <| funds := funds w' |>
      <| fund_entries ::= insert_row e |> <| ledger ::= insert_row l |> <| audits := audits w' |>.
Proof.
  intros [prow v a d pe ev0 wq f wf e l Hp Hst _ [Hcv Hv] _ Hs Hpos _ Hq _ Hf He (_ & Hlp & Hls & Hlc & Hln) Hw].
  pose proof (queue_frame _ _ _ _ _ _ _ _ Hq) as Hqw. pose proof (fund_frame _ _ _ _ Hf) as Hfw.
  subst s. subst e. exists prow, v, f. eexists _, (val l).
  do 13 (split; [done|]). split.
  - eexists _, wf. split; [exact Hf|]. split; [by rewrite Hqw|by rewrite Hw].
  - rewrite Hw at 1. rewrite Hfw, Hqw. rewrite Hw, Hfw. reflexivity.
Qed.
End Facts.
