(* ===== verification/FundSeries.v ===== *)
(** * FundSeries: what the fund pages show

    The fund selectors of [finance/selectors.py]: the verified entries of a building, the
    flows of a period, the chart of a range and the calendar of the month, the sources that
    await verification and the settled proposals that await publication. *)

From S2P Require Import Prelude Table PyStr Schema Canonical Timestamps Dates Calendar.
From S2P Require Import Store Accounts Documents Evidence Proposals Fund.
Open Scope Z_scope.

(** ** Entries *)

Definition entry_building (b : Z) (w : world) (e : obj fund_entry_row) : bool :=
  exists_ (fun f => (pk f ==? e~>fe_fund) && (f~>fu_building ==? b)) (funds w).
Definition verified_fund_entries (building_id : Z) : DB (list (obj fund_entry_row)) :=
  gets (fun w => select (fun e => entry_building building_id w e &&
    (_source_verified_q w e || _finalized_posting_q w e)) (fund_entries w)).

(** Those recorded in the last [days] days: money in, and money out. *)
Definition fund_period_flows (building_id days_ : Z) : DB (Z * Z) :=
  now ← timezone_now;
  let since := now - days days_ in
  entries ← verified_fund_entries building_id;
  let recent := List.filter (fun e => since <=? e~>fe_recorded_at) entries in
  let total P := zsum ((fun e => e~>fe_amount_vnd) <$> List.filter P recent) in
  mret (total (fun e => is_source e~>fe_entry_type), total (fun e => is_finalized e~>fe_entry_type)).

(** ** The chart *)

Definition FUND_SERIES_RANGE_KEYS : list string := ["30d"; "6m"; "12m"].

(** The first days of [n] months, from that of [year]-[month] backwards. *)
Fixpoint month_starts (n : nat) (year month : Z) : list date :=
  match n with
  | O => []
  | S n => Date year month 1 ::
    (if month - 1 =? 0 then month_starts n (year - 1) 12 else month_starts n year (month - 1))
  end.
Definition series_starts (range_key : string) (today : date) : list date :=
  if String.eqb range_key "30d"
  then (fun offset => add_days today (- offset)) <$> rev (seqZ 0 30)
  else rev (month_starts (if String.eqb range_key "6m" then 6 else 12) (d_year today) (d_month today)).
Definition bucket_of (range_key : string) (day : date) : date :=
  if String.eqb range_key "30d" then day else first_of day.

(** [flows]: the money in and out of every bucket; a positive amount is money in. *)
Definition add_to (slot : Z * Z) (amount : Z) : Z * Z :=
  if 0 <? amount then (slot.1 + amount, slot.2) else (slot.1, slot.2 + amount).
Definition add_flow (bucket : date) (amount : Z) (flows : list (date * (Z * Z))) : list (date * (Z * Z)) :=
  (fun p => if p.1 ==? bucket then (p.1, add_to p.2 amount) else p) <$> flows.
Definition series_step (range_key : string) (window_start : date)
    (acc : Z * list (date * (Z * Z))) (entry : Z * Z) : Z * list (date * (Z * Z)) :=
  let '(balance, flows) := acc in
  let '(recorded_at, amount_vnd) := entry in
  let day := local_date recorded_at in
  if date_lt day window_start then (balance + amount_vnd, flows)
  else (balance, add_flow (bucket_of range_key day) amount_vnd flows).

Record point := Point {
  period_start : date; inflows_vnd : Z; outflows_vnd : Z; balance_vnd : Z }.
Fixpoint running (balance : Z) (flows : list (date * (Z * Z))) : list point :=
  match flows with
  | [] => []
  | (start, (inflows, outflows)) :: rest =>
    let balance := balance + (inflows + outflows) in
    Point start inflows outflows balance :: running balance rest
  end.

(** [entries]: instants and amounts. *)
Definition fund_series_from_entries (entries : list (Z * Z)) (range_key : string) (today : date) :
    result (list point) :=
  if negb (existsb (String.eqb range_key) FUND_SERIES_RANGE_KEYS)
  then Err (ValueError "range_key must be one of ('30d', '6m', '12m')") else
  let starts := series_starts range_key today in
  let window_start := default today (head starts) in
  let '(balance, flows) :=
    foldl (series_step range_key window_start) (0, (fun s => (s, (0, 0))) <$> starts) entries in
  Ok (running balance flows).

Definition row_of (e : obj fund_entry_row) : Z * Z := (e~>fe_recorded_at, e~>fe_amount_vnd).
Definition fund_series (building_id : Z) (range_key : string) : DB (list point) :=
  rows ← verified_fund_entries building_id;
  now ← timezone_now;
  of_result (fund_series_from_entries (row_of <$> rows) range_key (local_date now)).

(** ** The month *)

Record cell := Cell {
  c_date : date; c_inflows : Z; c_outflows : Z; c_level : Z; c_is_today : bool; c_is_future : bool }.
Record month_page := MonthPage {
  mo_month : date; mo_top_days : list cell; mo_weeks : list (list (option cell));
  mo_inflows : Z; mo_outflows : Z }.

Fixpoint day_slot (day : date) (flows : list (date * (Z * Z))) : option (Z * Z) :=
  match flows with
  | [] => None
  | (d, slot) :: rest => if d ==? day then Some slot else day_slot day rest
  end.
(** [flows.setdefault(day, [0, 0])], then the amount is added. *)
Definition set_flow (day : date) (amount : Z) (flows : list (date * (Z * Z))) : list (date * (Z * Z)) :=
  match day_slot day flows with
  | Some _ => add_flow day amount flows
  | None => flows ++ [(day, add_to (0, 0) amount)]
  end.
Definition month_step (first after : date) (flows : list (date * (Z * Z))) (entry : Z * Z) :
    list (date * (Z * Z)) :=
  let day := local_date entry.1 in
  if negb (date_lt day first) && date_lt day after then set_flow day entry.2 flows else flows.

(** [max(..., default=0)] *)
Definition max_default (l : list Z) : Z := match l with [] => 0 | x :: r => foldr Z.max x r end.
(** [0 if not spent else max(1, -(-4 * spent // peak))] *)
Definition level_of (spent peak : Z) : result Z :=
  if spent =? 0 then Ok 0
  else if peak =? 0 then Err (ArithmeticError "integer division or modulo by zero")
  else Ok (Z.max 1 (- ((-4 * spent) / peak))).

(** The cells of the days from [day] on; a month has at most 31. *)
Fixpoint day_cells (fuel : nat) (flows : list (date * (Z * Z))) (peak : Z) (today after day : date) :
    result (list cell) :=
  match fuel with
  | O => Ok []
  | S fuel =>
    if date_lt day after then
      let '(inflows, outflows) := default (0, 0) (day_slot day flows) in
      level ← level_of (- outflows) peak;
      rest ← day_cells fuel flows peak today after (add_days day 1);
      Ok (Cell day inflows outflows level (day ==? today) (date_lt today day) :: rest)
    else Ok []
  end.

(** [cells[i : i + 7]] for every multiple [i] of 7. *)
Fixpoint chunks (n : nat) (cells : list (option cell)) : list (list (option cell)) :=
  match n with
  | O => []
  | S n => take 7 cells :: chunks n (drop 7 cells)
  end.

(** The sort key of the days with spending. *)
Definition cell_le (a b : cell) : bool :=
  (c_outflows a <? c_outflows b) ||
  ((c_outflows a =? c_outflows b) && negb (date_lt (c_date b) (c_date a))).

Definition fund_month_calendar_from_entries (entries : list (Z * Z)) (today : date) : result month_page :=
  let first := first_of today in
  let after := first_of (add_days first 32) in
  let flows := foldl (month_step first after) [] entries in
  let peak := max_default ((fun p => - p.2.2) <$> flows) in
  days_ ← day_cells 31 flows peak today after first;
  let cells := replicate (Z.to_nat (weekday first)) None ++ (Some <$> days_) in
  let cells := cells ++ replicate (Z.to_nat ((- Z.of_nat (length cells)) mod 7)) None in
  let spent_days := merge_sort (fun a b => Is_true (cell_le a b))
    (List.filter (fun c => negb (c_outflows c =? 0)) days_) in
  Ok (MonthPage first (take 3 spent_days) (chunks (length cells / 7) cells)
    (zsum ((fun p => p.2.1) <$> flows)) (zsum ((fun p => p.2.2) <$> flows))).

Definition fund_month_calendar (building_id : Z) : DB month_page :=
  rows ← verified_fund_entries building_id;
  now ← timezone_now;
  of_result (fund_month_calendar_from_entries (row_of <$> rows) (local_date now)).

(** ** Work lists *)

(** Newest first. *)
Definition pending_fund_verification_entries (building_id : Z) : DB (list (obj fund_entry_row)) :=
  gets (fun w => newest_first (fun e => e~>fe_recorded_at) (select (fun e =>
    entry_building building_id w e && is_source e~>fe_entry_type &&
    negb (exists_ (fun v => v~>fv_entry ==? pk e) (fund_verifications w))) (fund_entries w))).

Definition event_settled (w : world) (event : Z) : bool :=
  exists_ (fun e => (pk e ==? event) && is_settled e~>ev_status) (outbox w).
(** The event of the proposal's current version is settled. *)
Definition version_settled (w : world) (p : obj proposal_row) : bool :=
  match p~>pr_current_version with
  | Some v => exists_ (fun o => (pk o ==? v) && event_settled w o~>ve_outbox_event) (versions w)
  | None => false
  end.
Definition settlement_settled (w : world) (s : obj settlement_row) : bool :=
  match s~>se_outbox_event with Some e => event_settled w e | None => false end.

Definition published_ledger_entries (building_id : Z) : DB (list (obj ledger_row)) :=
  gets (fun w => newest_first (fun l => l~>le_published_at) (select (fun l =>
    exists_ (fun p => (pk p ==? l~>le_proposal) && (p~>pr_building ==? building_id) && version_settled w p)
      (proposals w) &&
    exists_ (fun s => (pk s ==? l~>le_settlement) && settlement_settled w s) (settlements w)) (ledger w))).

(** Proposals are created in the order of their keys. *)
Definition pending_reconciliation_proposals (building_id : Z) : DB (list (obj proposal_row)) :=
  gets (fun w => rev (select (fun p =>
    (p~>pr_building ==? building_id) && version_settled w p &&
    exists_ (fun s => (s~>se_proposal ==? pk p) && settlement_settled w s) (settlements w) &&
    negb (proposal_published w (pk p))) (proposals w))).

(** Who decided to proceed, and when. *)
Definition proceed_decision (proposal : option (obj proposal_row)) : DB (option (string * option Z)) :=
  match proposal with
  | None => mret None
  | Some p =>
    match p~>pr_decided_by with
    | None => mret None
    | Some k =>
      if p~>pr_status ==? PNotProceeding then mret None else
      membership ← get_row memberships "ManagementMembership" k;
      user ← get_row users "User" membership~>mb_user;
      mret (Some (user~>u_display_name, p~>pr_decided_at))
    end
  end.

(** ** Sums *)

Definition total_if (P : Z * Z -> bool) (entries : list (Z * Z)) : Z :=
  zsum ((fun e => if P e then e.2 else 0) <$> entries).

Lemma total_if_cons P e l : total_if P (e :: l) = (if P e then e.2 else 0) + total_if P l.
Proof. done. Qed.
Lemma total_if_ext P Q l : (forall e, e ∈ l -> P e = Q e) -> total_if P l = total_if Q l.
Proof.
  induction l as [|e l IH]; [done|]. intros H. rewrite !total_if_cons, (H e) by left.
  rewrite IH; [done|]. intros x Hx. apply H. by right.
Qed.
Lemma total_if_filter P (l : list (Z * Z)) : zsum (snd <$> List.filter P l) = total_if P l.
Proof. induction l as [|e l IH]; [done|]. rewrite total_if_cons. cbn. destruct (P e); cbn; lia. Qed.

(** Money in and money out of the entries [P] selects. *)
Definition flow_in (P : Z * Z -> bool) := total_if (fun e => P e && (0 <? e.2)).
Definition flow_out (P : Z * Z -> bool) := total_if (fun e => P e && negb (0 <? e.2)).

Lemma flows_split P Q R l :
  (forall e, e ∈ l -> R e = P e || Q e /\ P e && Q e = false) ->
  total_if R l = total_if P l + (flow_in Q l + flow_out Q l).
Proof.
  unfold flow_in, flow_out. induction l as [|e l IH]; [done|]. intros H. rewrite !total_if_cons.
  rewrite IH by (intros x Hx; apply H; by right).
  destruct (H e ltac:(left)) as [-> HPQ]. destruct (P e), (Q e), (0 <? e.2); cbn in *; done || lia.
Qed.
Lemma flow_out_nonpositive P l : flow_out P l <= 0.
Proof.
  unfold flow_out. induction l as [|e l IH]; [done|]. rewrite total_if_cons.
  destruct (Z.ltb_spec 0 e.2), (P e); cbn in *; lia.
Qed.

Lemma add_to_eq slot amount : add_to slot amount =
  (slot.1 + (if 0 <? amount then amount else 0), slot.2 + (if negb (0 <? amount) then amount else 0)).
Proof. unfold add_to. destruct slot, (0 <? amount); cbn; f_equal; lia. Qed.

(** ** The chart *)

(** The bucket of a day as a number, and its first day. *)
Definition period (range_key : string) (d : date) : Z :=
  if String.eqb range_key "30d" then ymd2ord d else month_index d.
Definition period_first (range_key : string) (k : Z) : date :=
  if String.eqb range_key "30d" then ord2ymd k else Date (k / 12) (k mod 12 + 1) 1.
Definition periods (range_key : string) : Z :=
  if String.eqb range_key "30d" then 30 else if String.eqb range_key "6m" then 6 else 12.
Definition entry_period (range_key : string) (e : Z * Z) : Z := period range_key (local_date e.1).
Definition dated (entries : list (Z * Z)) : Prop :=
  forall e, e ∈ entries -> on_calendar (local_ordinal e.1).

Lemma month_starts_eq n y m : 1 <= m <= 12 ->
  month_starts n y m = (fun i => period_first "6m" (12 * y + (m - 1) - i)) <$> seqZ 0 (Z.of_nat n).
Proof.
  revert y m. induction n as [|n IH]; intros y m Hm; [done|]. cbn [month_starts].
  rewrite seqZ_cons by lia. cbn [fmap list_fmap]. f_equal.
  { unfold period_first. cbn. f_equal; [|]; (apply Z.div_unique with (m - 1) || idtac); try lia.
    rewrite <- (Z.mod_unique (12 * y + (m - 1) - 0) 12 y (m - 1)) by lia. lia. }
  replace (Z.pred (Z.of_nat (S n))) with (Z.of_nat n) by lia.
  change (Z.succ 0) with (1 + 0). rewrite <- fmap_add_seqZ, <- list_fmap_compose. destruct (Z.eqb_spec (m - 1) 0).
  - rewrite IH by lia. apply list_fmap_ext. intros i x _. cbn [compose]. f_equal. lia.
  - rewrite IH by lia. apply list_fmap_ext. intros i x _. cbn [compose]. f_equal. lia.
Qed.

Lemma rev_seqZ {A} (f : Z -> A) k n : 0 <= n ->
  (fun i => f (k - i)) <$> rev (seqZ 0 n) = f <$> seqZ (k - n + 1) n.
Proof.
  intros Hn. rewrite <- (Z2Nat.id n) by done. clear Hn. induction (Z.to_nat n) as [|m IH]; [done|].
  rewrite Nat2Z.inj_succ, <- Z.add_1_r at 1. rewrite seqZ_app by lia. rewrite rev_app_distr.
  change (seqZ (0 + Z.of_nat m) 1) with [0 + Z.of_nat m]. cbn [rev app fmap list_fmap]. rewrite IH.
  rewrite (seqZ_cons (k - Z.of_nat (S m) + 1)) by lia. cbn [fmap list_fmap].
  f_equal; [f_equal; lia|]. f_equal. f_equal; lia.
Qed.

(** The buckets of a chart are consecutive, today's is the last. *)
Lemma series_starts_eq rk today :
  existsb (String.eqb rk) FUND_SERIES_RANGE_KEYS = true -> valid_date today = true ->
  series_starts rk today =
    period_first rk <$> seqZ (period rk today - periods rk + 1) (periods rk).
Proof.
  intros Hk Hv. cbn [existsb FUND_SERIES_RANGE_KEYS] in Hk. unfold series_starts, periods.
  assert (forall n, n = 6%nat \/ n = 12%nat ->
    rev (month_starts n (d_year today) (d_month today)) =
    period_first "6m" <$> seqZ (month_index today - Z.of_nat n + 1) (Z.of_nat n)) as Hm.
  { intros n Hn. rewrite month_starts_eq by (apply valid_date_inv in Hv; lia).
    rewrite <- map_rev. by rewrite <- rev_seqZ by lia. }
  destruct (String.eqb rk "30d") eqn:E1.
  - unfold period, period_first, add_days. rewrite E1, <- rev_seqZ by lia. done.
  - unfold period, period_first. rewrite E1. change (if String.eqb "6m" "30d" then ymd2ord else month_index) with month_index in *.
    unfold period_first in Hm. cbn [String.eqb] in Hm.
    destruct (String.eqb rk "6m") eqn:E2; apply (Hm 6%nat) || apply (Hm 12%nat); auto.
Qed.

Definition falls_in rk (ws s : date) (e : Z * Z) : bool :=
  negb (date_lt (local_date e.1) ws) && (s ==? bucket_of rk (local_date e.1)).

Lemma fold_steps rk ws starts entries : forall b (g : date -> Z * Z),
  foldl (series_step rk ws) (b, (fun s => (s, g s)) <$> starts) entries =
  (b + total_if (fun e => date_lt (local_date e.1) ws) entries,
   (fun s => (s, ((g s).1 + flow_in (falls_in rk ws s) entries,
                  (g s).2 + flow_out (falls_in rk ws s) entries))) <$> starts).
Proof.
  induction entries as [|[t a] l IH]; intros b g.
  - cbn. f_equal; [lia|]. apply list_fmap_ext. intros i s _. cbn. destruct (g s). cbn. by rewrite !Z.add_0_r.
  - cbn [foldl]. unfold series_step at 2. unfold flow_in, flow_out. setoid_rewrite total_if_cons.
    destruct (date_lt (local_date t) ws) eqn:E.
    + rewrite IH. unfold flow_in, flow_out, falls_in. cbn [fst snd]. rewrite E. cbn [negb andb].
      apply f_equal2; [lia|done].
    + unfold add_flow. rewrite <- list_fmap_compose.
      set (g' s := if s ==? bucket_of rk (local_date t) then add_to (g s) a else g s).
      replace ((_ ∘ _) <$> starts) with ((fun s => (s, g' s)) <$> starts).
      2: { apply list_fmap_ext. intros i s _. cbn. unfold g'. by case_match. }
      rewrite IH. unfold flow_in, flow_out, falls_in. cbn [fst snd]. rewrite E. cbn [negb andb].
      apply f_equal2; [lia|]. apply list_fmap_ext. intros i s _. unfold g'.
      destruct (s ==? bucket_of rk (local_date t)); rewrite ?add_to_eq; cbn [fst snd andb];
        do 2 f_equal; lia.
Qed.

Lemma running_eq (start : Z -> date) (g : Z -> Z * Z) (B : Z -> Z) n : 0 <= n ->
  (forall k, B (k + 1) = B k + ((g k).1 + (g k).2)) -> forall lo,
  running (B lo) ((fun k => (start k, g k)) <$> seqZ lo n) =
  (fun k => Point (start k) (g k).1 (g k).2 (B (k + 1))) <$> seqZ lo n.
Proof.
  intros Hn HB. rewrite <- (Z2Nat.id n) by done. clear Hn. induction (Z.to_nat n) as [|m IH]; intros lo; [done|].
  rewrite seqZ_cons by lia. cbn [fmap list_fmap running]. destruct (g lo) as [i o] eqn:E.
  cbn [running]. pose proof (HB lo) as H. rewrite E in H. cbn in H. rewrite <- H. f_equal.
  replace (Z.pred (Z.of_nat (S m))) with (Z.of_nat m) by lia. rewrite <- Z.add_1_r. apply IH.
Qed.

(** Where a day falls, by its period. *)
Lemma period_first_month k : month_index (period_first "6m" k) = k.
Proof.
  unfold month_index, period_first. cbn - [Z.div Z.modulo Z.mul Z.add].
  pose proof (Z.div_mod k 12). lia.
Qed.

Lemma before_window rk k e :
  existsb (String.eqb rk) FUND_SERIES_RANGE_KEYS = true ->
  on_calendar (local_ordinal e.1) -> (String.eqb rk "30d" = true -> on_calendar k) ->
  date_lt (local_date e.1) (period_first rk k) = (entry_period rk e <? k) /\
  (period_first rk k ==? bucket_of rk (local_date e.1)) = (entry_period rk e =? k).
Proof.
  intros Hk Hc Hv. pose proof (ord2ymd_valid _ Hc) as Hd. fold (local_date e.1) in Hd.
  unfold entry_period, period, bucket_of. unfold period_first in *.
  destruct (String.eqb rk "30d").
  - specialize (Hv eq_refl). pose proof (ord2ymd_valid _ Hv) as Hvk.
    rewrite date_lt_ord, ymd2ord_ord2ymd by done. unfold local_date. rewrite ymd2ord_ord2ymd by done.
    split; [done|]. case_bool_decide as E; symmetry; [apply Z.eqb_eq|apply Z.eqb_neq].
    + apply (f_equal ymd2ord) in E. by rewrite !ymd2ord_ord2ymd in E by done.
    + by intros <-.
  - clear Hv. apply valid_date_inv in Hd as (_ & M & D). destruct (local_date e.1) as [y m d]. 
    unfold first_of, month_index, date_lt. cbn [d_year d_month d_day] in *. 
    assert (k = 12 * (k / 12) + k mod 12) as Hk' by (apply Z.div_mod; lia). 
    pose proof (Z.mod_pos_bound k 12 ltac:(lia)). split; [lia|].
    case_bool_decide as E; symmetry; [apply Z.eqb_eq|apply Z.eqb_neq].
    + injection E as <- E. lia.
    + intros <-. destruct E. f_equal; lia.
Qed.

Lemma date_window rk today k :
  existsb (String.eqb rk) FUND_SERIES_RANGE_KEYS = true -> valid_date today = true -> 2 <= d_year today ->
  k ∈ seqZ (period rk today - periods rk + 1) (periods rk) -> String.eqb rk "30d" = true -> on_calendar k.
Proof.
  intros _ Hv Hy Hin H30. unfold period, periods in Hin. rewrite H30 in Hin. apply elem_of_seqZ in Hin.
  pose proof (valid_on_calendar _ Hv). unfold on_calendar in *. split; [|lia].
  pose proof (years_grow 1 (d_year today) ltac:(lia)) as Hg.
  apply valid_date_inv in Hv as (_ & M & D). pose proof (months_grow (is_leap (d_year today)) _ _ M M) as (_ & S & _).
  rewrite ymd2ord_eq in Hin. change (days_before_year 1 + 365 + (if is_leap 1 then 1 else 0)) with 365 in Hg. lia.
Qed.

(** The chart by definition: for every period its flows, and what all entries up to its end
    sum to. *)
Definition reference_series rk today (entries : list (Z * Z)) : list point :=
  (fun k => Point (period_first rk k)
    (flow_in (fun e => entry_period rk e =? k) entries) (flow_out (fun e => entry_period rk e =? k) entries)
    (total_if (fun e => entry_period rk e <=? k) entries))
  <$> seqZ (period rk today - periods rk + 1) (periods rk).

Lemma series_reference rk today entries :
  existsb (String.eqb rk) FUND_SERIES_RANGE_KEYS = true -> valid_date today = true -> 2 <= d_year today ->
  dated entries ->
  fund_series_from_entries entries rk today = Ok (reference_series rk today entries).
Proof.
  intros Hk Hv Hy Hd. unfold fund_series_from_entries, reference_series. rewrite Hk. cbn [negb].
  rewrite series_starts_eq by done. set (n := periods rk). set (lo := period rk today - n + 1).
  assert (0 < n) as Hn by (unfold n, periods; repeat case_match; lia).
  pose proof (fun k => date_window rk today k Hk Hv Hy) as Hwin. fold n lo in Hwin.
  assert (default today (head (period_first rk <$> seqZ lo n)) = period_first rk lo) as ->
    by (rewrite seqZ_cons by lia; done).
  assert (String.eqb rk "30d" = true -> on_calendar lo) as Hlo
    by (apply Hwin, elem_of_seqZ; lia).
  rewrite fold_steps. cbn [fst snd]. rewrite <- list_fmap_compose. f_equal.
  set (B k := total_if (fun e => entry_period rk e <? k) entries).
  set (g k := (flow_in (fun e => entry_period rk e =? k) entries, flow_out (fun e => entry_period rk e =? k) entries)).
  assert (total_if (fun e => date_lt (local_date e.1) (period_first rk lo)) entries = B lo) as ->
    by (apply total_if_ext; intros e He; by apply before_window; [..|apply Hd|]).
  rewrite Z.add_0_l.
  replace (_ <$> seqZ lo n) with ((fun k => (period_first rk k, g k)) <$> seqZ lo n).
  - rewrite running_eq; [|lia|].
    + apply list_fmap_ext. intros i k _. cbn. f_equal. apply total_if_ext. intros e _. lia.
    + intros k. apply flows_split. intros e _. lia.
  - apply list_fmap_ext. intros i k Hi%list_elem_of_lookup_2. cbn. f_equal.
    assert (lo <= k) as Hle by (apply elem_of_seqZ in Hi; lia). unfold g. rewrite !Z.add_0_l.
    assert (forall e, e ∈ entries -> (entry_period rk e =? k) = falls_in rk (period_first rk lo) (period_first rk k) e) as Hf.
    { intros e He. unfold falls_in. destruct (before_window rk lo e Hk (Hd e He) Hlo) as [-> _].
      destruct (before_window rk k e Hk (Hd e He) (Hwin k Hi)) as [_ ->]. lia. }
    f_equal; unfold flow_in, flow_out; apply total_if_ext; intros e He; by rewrite Hf.
Qed.

(** ** The month *)

Lemma total_if_app P l1 l2 : total_if P (l1 ++ l2) = total_if P l1 + total_if P l2.
Proof. unfold total_if. by rewrite fmap_app, zsum_app. Qed.

Definition slot_of (d : date) flows : Z * Z := default (0, 0) (day_slot d flows).

Lemma day_slot_add d day a flows :
  day_slot d (add_flow day a flows) =
  (fun slot => if d ==? day then add_to slot a else slot) <$> day_slot d flows.
Proof.
  induction flows as [|[k slot] l IH]; [done|]. cbn. fold (add_flow day a l).
  destruct (decide (k = d)) as [->|Hd].
  - rewrite (bool_decide_eq_true_2 (d = d)) by done. destruct (d ==? day); cbn; by rewrite bool_decide_eq_true_2.
  - rewrite (bool_decide_eq_false_2 (k = d)) by done. destruct (k ==? day); cbn;
      by rewrite (bool_decide_eq_false_2 (k = d)).
Qed.
Lemma day_slot_app d flows p :
  day_slot d (flows ++ [p]) = match day_slot d flows with
    | Some slot => Some slot | None => if p.1 ==? d then Some p.2 else None end.
Proof. induction flows as [|[k slot] l IH]; destruct p; [done|]. cbn. by destruct (k ==? d). Qed.
Lemma day_slot_In d slot flows : day_slot d flows = Some slot -> (d, slot) ∈ flows.
Proof.
  induction flows as [|[k s] l IH]; [done|]. cbn. case_bool_decide; [|intros; right; auto].
  intros [= ->]. subst. left.
Qed.
Lemma day_slot_None d flows : day_slot d flows = None <-> d ∉ flows.*1.
Proof.
  induction flows as [|[k s] l IH]; [split; [intros _ H; inversion H|done]|]. cbn.
  rewrite not_elem_of_cons, <- IH. case_bool_decide; naive_solver.
Qed.

Lemma day_slot_elem d slot flows : NoDup flows.*1 -> (d, slot) ∈ flows -> day_slot d flows = Some slot.
Proof.
  induction flows as [|[k s] l IH]; [intros _ H; inversion H|]. intros [Hk Hnd]%NoDup_cons Hin. cbn.
  apply elem_of_cons in Hin as [[= -> ->]|Hin]; [by rewrite bool_decide_eq_true_2|].
  rewrite bool_decide_eq_false_2; [by apply IH|]. intros ->. apply Hk. by apply (list_elem_of_fmap_2 fst) in Hin.
Qed.

(** What the entries of the month leave in [flows]. *)
Record month_flows (first after : date) (entries : list (Z * Z)) flows : Prop := {
  mf_keys : NoDup flows.*1;
  mf_days : forall p, p ∈ flows -> (exists e, e ∈ entries /\ p.1 = local_date e.1) /\
    date_lt p.1 first = false /\ date_lt p.1 after = true;
  mf_slot : forall d, slot_of d flows =
    let P e := (local_date e.1 ==? d) && (negb (date_lt d first) && date_lt d after) in
    (flow_in P entries, flow_out P entries);
  mf_out : forall p, p ∈ flows -> p.2.2 <= 0;
  mf_totals : let P e := negb (date_lt (local_date e.1) first) && date_lt (local_date e.1) after in
    zsum ((fun p => p.2.1) <$> flows) = flow_in P entries /\
    zsum ((fun p => p.2.2) <$> flows) = flow_out P entries;
}.

Lemma add_flow_keys day a flows : (add_flow day a flows).*1 = flows.*1.
Proof.
  unfold add_flow. rewrite <- list_fmap_compose. apply list_fmap_ext. intros i p _. cbn. by case_match.
Qed.

(** A day's amounts change by one entry. *)
Lemma slot_of_set d day a flows :
  slot_of d (set_flow day a flows) = if d ==? day then add_to (slot_of d flows) a else slot_of d flows.
Proof.
  unfold set_flow, slot_of. destruct (day_slot day flows) as [slot|] eqn:E.
  - rewrite day_slot_add. destruct (decide (d = day)) as [->|Hd].
    + by rewrite E, bool_decide_eq_true_2.
    + rewrite bool_decide_eq_false_2 by done. by destruct (day_slot d flows).
  - rewrite day_slot_app. cbn [fst snd]. destruct (decide (d = day)) as [->|Hd].
    + by rewrite E, bool_decide_eq_true_2.
    + rewrite (bool_decide_eq_false_2 (d = day)), (bool_decide_eq_false_2 (day = d)) by done.
      by destruct (day_slot d flows).
Qed.

Lemma add_flow_totals day a flows : NoDup flows.*1 -> day ∈ flows.*1 ->
  zsum ((fun p => p.2.1) <$> add_flow day a flows) =
    zsum ((fun p => p.2.1) <$> flows) + (if 0 <? a then a else 0) /\
  zsum ((fun p => p.2.2) <$> add_flow day a flows) =
    zsum ((fun p => p.2.2) <$> flows) + (if negb (0 <? a) then a else 0).
Proof.
  induction flows as [|[k slot] l IH]; cbn; [intros _ H; inversion H|].
  intros [Hk Hnd]%NoDup_cons Hin. destruct (decide (k = day)) as [->|Hne].
  - rewrite bool_decide_eq_true_2 by done. assert (add_flow day a l = l) as Hl.
    { unfold add_flow. rewrite <- (list_fmap_id l) at 2. apply list_fmap_ext. intros i p Hp. cbn.
      rewrite bool_decide_eq_false_2; [done|]. intros <-. apply Hk. apply list_elem_of_fmap_2.
      by eapply list_elem_of_lookup_2. }
    fold (add_flow day a l). rewrite Hl, add_to_eq. cbn. lia.
  - rewrite bool_decide_eq_false_2 by done. apply elem_of_cons in Hin as [|Hin]; [done|].
    destruct (IH Hnd Hin) as [H1 H2]. unfold add_flow in *. cbn. rewrite H1, H2. unfold zsum. lia.
Qed.

Lemma month_flows_fold first after entries :
  month_flows first after entries (foldl (month_step first after) [] entries).
Proof.
  induction entries as [|[t a] l [K D S O T]] using rev_ind.
  { split; try done; [constructor|intros p H; inversion H|intros p H; inversion H]. }
  rewrite foldl_app. cbn [foldl]. set (flows := foldl _ [] l) in *. unfold month_step. cbn [fst snd].
  unfold flow_in, flow_out in *. destruct (negb _ && _) eqn:E.
  2: { split; try done.
    - intros p Hp. destruct (D p Hp) as ((e & He & ->) & ?). split; [|done]. exists e. rewrite elem_of_app. eauto.
    - intros d. rewrite S. cbv zeta. unfold flow_in, flow_out. rewrite !total_if_app, !total_if_cons. cbn [fst snd].
      destruct (decide (local_date t = d)) as [<-|Hd]; [rewrite E|rewrite bool_decide_eq_false_2 by done];
        rewrite ?andb_false_r; cbn; f_equal; lia.
    - cbv zeta in *. unfold flow_in, flow_out. rewrite !total_if_app, !total_if_cons. cbn [fst snd]. rewrite E. cbn. lia. }
  set (day := local_date t) in *. split.
  - unfold set_flow. destruct (day_slot day flows) eqn:Es; [by rewrite add_flow_keys|].
    rewrite fmap_app. apply NoDup_app. split; [done|]. apply day_slot_None in Es. split; [|apply NoDup_singleton].
    intros x Hx ->%list_elem_of_singleton. by apply Es.
  - intros p Hp. assert (p.1 ∈ flows.*1 \/ p.1 = day) as [Hin| ->].
    { unfold set_flow in Hp. destruct (day_slot day flows).
      - left. rewrite <- (add_flow_keys day a). by apply list_elem_of_fmap_2.
      - apply elem_of_app in Hp as [Hp| ->%list_elem_of_singleton]; [left; by apply list_elem_of_fmap_2|by right]. }
    + apply list_elem_of_fmap in Hin as (q & -> & Hq). destruct (D q Hq) as ((e & He & ->) & ?).
      split; [|done]. exists e. rewrite elem_of_app. eauto.
    + split; [|lia]. exists (t, a). rewrite elem_of_app, list_elem_of_singleton. eauto.
  - intros d. rewrite slot_of_set, S. cbv zeta. unfold flow_in, flow_out. rewrite !total_if_app, !total_if_cons.
    cbn [fst snd]. fold day. destruct (decide (d = day)) as [->|Hd].
    + rewrite !bool_decide_eq_true_2, E, add_to_eq by done. cbn. f_equal; lia.
    + rewrite (bool_decide_eq_false_2 (d = day)), (bool_decide_eq_false_2 (day = d)) by done. cbn. f_equal; lia.
  - intros p Hp. unfold set_flow in Hp. destruct (day_slot day flows).
    + unfold add_flow in Hp. apply list_elem_of_fmap in Hp as (q & -> & Hq). specialize (O q Hq).
      case_match; [|done]. rewrite add_to_eq. cbn. destruct (Z.ltb_spec 0 a); cbn; lia.
    + apply elem_of_app in Hp as [Hp| ->%list_elem_of_singleton]; [by apply O|]. rewrite add_to_eq. cbn.
      destruct (Z.ltb_spec 0 a); cbn; lia.
  - cbv zeta in *. unfold flow_in, flow_out. rewrite !total_if_app, !total_if_cons. cbn [fst snd]. fold day. rewrite E. cbn [andb].
    unfold set_flow. destruct (day_slot day flows) eqn:Es.
    + destruct (add_flow_totals day a flows K) as [-> ->]; [|cbn; lia].
      apply day_slot_In in Es. by apply (list_elem_of_fmap_2 fst) in Es.
    + rewrite !fmap_app, !zsum_app, add_to_eq. cbn. lia.
Qed.

Lemma max_default_ge l x : x ∈ l -> x <= max_default l.
Proof.
  destruct l as [|y l]; [intros H; inversion H|]. cbn.
  assert (y <= foldr Z.max y l /\ forall x, x ∈ l -> x <= foldr Z.max y l) as [Hy Hl].
  { induction l as [|z l [IH1 IH2]]; cbn; [split; [lia|intros ? H; inversion H]|].
    split; [lia|]. intros v [->|Hv]%elem_of_cons; [lia|]. specialize (IH2 v Hv). lia. }
  intros [->|Hx]%elem_of_cons; auto.
Qed.
Lemma max_default_in l : l <> [] -> max_default l ∈ l.
Proof.
  destruct l as [|y l]; [done|]. intros _. cbn. induction l as [|z l IH]; cbn; [left|].
  destruct (Z.max_spec z (foldr Z.max y l)) as [[_ ->]|[_ ->]]; [|right; left].
  apply elem_of_cons in IH as [->|IH]; [left|right; by right].
Qed.

Lemma level_of_Ok spent peak : 0 <= spent <= peak ->
  exists n, level_of spent peak = Ok n /\ 0 <= n <= 4 /\ (n = 0 <-> spent = 0) /\
    (0 < spent -> n = - ((-4 * spent) / peak)).
Proof.
  intros H. unfold level_of. destruct (Z.eqb_spec spent 0) as [->|Hs].
  - exists 0. split; [done|]. lia.
  - destruct (Z.eqb_spec peak 0); [lia|]. eexists. split; [done|].
    assert (-4 <= (-4 * spent) / peak) by (apply Z.div_le_lower_bound; lia).
    assert ((-4 * spent) / peak < 0) by (apply Z.div_lt_upper_bound; lia). lia.
Qed.

(** The most spent on a day of the month. *)
Definition month_peak (first : date) (length_ : Z) (entries : list (Z * Z)) : Z :=
  max_default ((fun n => - flow_out (fun e => local_ordinal e.1 =? n) entries) <$> seqZ (ymd2ord first) length_).
Definition level (spent peak : Z) : Z := if spent =? 0 then 0 else - ((-4 * spent) / peak).

(** The cell of a day by definition. *)
Definition reference_cell (today : date) (peak : Z) (entries : list (Z * Z)) (n : Z) : cell :=
  let inflows := flow_in (fun e => local_ordinal e.1 =? n) entries in
  let outflows := flow_out (fun e => local_ordinal e.1 =? n) entries in
  Cell (ord2ymd n) inflows outflows (level (- outflows) peak)
    (n =? ymd2ord today) (ymd2ord today <? n).

Lemma day_cells_eq flows peak today after (c : Z -> cell) fuel : forall n,
  ymd2ord after - n = Z.of_nat fuel \/ (0 <= ymd2ord after - n <= Z.of_nat fuel) ->
  on_calendar n -> on_calendar (ymd2ord after) -> valid_date after = true ->
  (forall k, n <= k < ymd2ord after ->
    let '(i, o) := slot_of (ord2ymd k) flows in
    exists l, level_of (- o) peak = Ok l /\
      c k = Cell (ord2ymd k) i o l (ord2ymd k ==? today) (date_lt today (ord2ymd k))) ->
  day_cells fuel flows peak today after (ord2ymd n) = Ok (c <$> seqZ n (ymd2ord after - n)).
Proof.
  induction fuel as [|fuel IH]; intros n Hf Hn Ha Hv Hc.
  - replace (ymd2ord after - n) with 0 by lia. done.
  - cbn [day_cells]. pose proof (ord2ymd_valid n Hn) as Hvn. rewrite date_lt_ord, ymd2ord_ord2ymd by done.
    destruct (Z.ltb_spec n (ymd2ord after)) as [Hlt|Hge].
    + specialize (Hc n ltac:(lia)) as Hcn. fold (slot_of (ord2ymd n) flows).
      destruct (slot_of (ord2ymd n) flows) as [i o]. destruct Hcn as (l & -> & Hcell).
      cbn [mbind result_bind]. unfold add_days. rewrite ymd2ord_ord2ymd by done.
      unfold on_calendar in *. rewrite IH by (done || lia || (intros k ?; apply Hc; lia)).
      rewrite (seqZ_cons n) by lia. cbn [fmap list_fmap mbind result_bind]. rewrite Hcell.
      do 3 f_equal. f_equal; lia.
    + by replace (ymd2ord after - n) with 0 by lia.
Qed.

Lemma chunks_spec n : forall cells, length cells = (7 * n)%nat ->
  List.concat (chunks n cells) = cells /\ Forall (fun week => length week = 7%nat) (chunks n cells).
Proof.
  induction n as [|n IH]; intros cells H; cbn [chunks List.concat].
  - destruct cells; [done|]. cbn in H. lia.
  - destruct (IH (drop 7 cells)) as [H1 H2]; [rewrite length_drop; lia|]. rewrite H1, take_drop.
    split; [done|]. constructor; [rewrite length_take; lia|done].
Qed.

(** The page of the month by definition. *)
Definition month_days (today : date) (entries : list (Z * Z)) : list cell :=
  let first := first_of today in
  reference_cell today (month_peak first (month_length today) entries) entries
    <$> seqZ (ymd2ord first) (month_length today).
Definition in_month (today : date) (e : Z * Z) : bool :=
  negb (local_ordinal e.1 <? ymd2ord (first_of today)) &&
  (local_ordinal e.1 <? ymd2ord (first_of today) + month_length today).
Record month_spec (today : date) (entries : list (Z * Z)) (page : month_page) : Prop := {
  ms_month : mo_month page = first_of today;
  ms_weeks : Forall (fun week => length week = 7%nat) (mo_weeks page);
  ms_days : exists k, (k < 7)%nat /\ List.concat (mo_weeks page) =
    replicate (Z.to_nat (weekday (first_of today))) None ++ (Some <$> month_days today entries) ++ replicate k None;
  ms_flows : mo_inflows page = flow_in (in_month today) entries /\
    mo_outflows page = flow_out (in_month today) entries;
  ms_top : exists rest,
    mo_top_days page ++ rest ≡ₚ List.filter (fun c => negb (c_outflows c =? 0)) (month_days today entries) /\
    (length (mo_top_days page) = 3%nat \/ rest = []) /\
    forall a b, a ∈ mo_top_days page -> b ∈ rest -> c_outflows a <= c_outflows b;
}.

Section Month.
Context (today : date) (entries : list (Z * Z)).
Hypotheses (Hv : valid_date today = true) (Hy : d_year today <= 9998) (Hd : dated entries).
Notation first := (first_of today).
Notation lo := (ymd2ord (first_of today)).
Notation len := (month_length today).

Lemma month_bounds :
  28 <= len <= 31 /\ on_calendar lo /\ valid_date (next_month today) = true /\
  ymd2ord (next_month today) = lo + len /\ on_calendar (lo + len).
Proof.
  pose proof Hv as (Y & M & D)%valid_date_inv.
  pose proof (months_grow (is_leap (d_year today)) _ _ M M) as (_ & _ & _ & _ & _ & L).
  assert (valid_date (next_month today) = true) as Hn.
  { unfold valid_date, next_month. destruct (Z.eqb_spec (d_month today) 12); cbn [d_year d_month d_day].
    - change (days_in_month _ 1) with 31. lia.
    - pose proof (months_grow (is_leap (d_year today)) (d_month today + 1) _ ltac:(lia) M) as (_ & _ & _ & _ & _ & L').
      lia. }
  pose proof (next_month_ordinal today M) as Ho.
  repeat split; try done; try apply L; rewrite <- ?Ho; apply valid_on_calendar; try done; by apply valid_first_of.
Qed.

Lemma in_month_date e : e ∈ entries ->
  negb (date_lt (local_date e.1) first) && date_lt (local_date e.1) (next_month today) = in_month today e.
Proof.
  intros He. pose proof month_bounds as (_ & _ & Hn & Ho & _). pose proof (Hd e He) as Hc.
  pose proof (ord2ymd_valid _ Hc). unfold local_date, in_month.
  rewrite !date_lt_ord, ymd2ord_ord2ymd, Ho by (done || by apply valid_first_of). done.
Qed.

Lemma on_day k e : lo <= k < lo + len -> e ∈ entries ->
  (local_date e.1 ==? ord2ymd k) &&
    (negb (date_lt (ord2ymd k) first) && date_lt (ord2ymd k) (next_month today)) = (local_ordinal e.1 =? k).
Proof.
  intros Hk He. pose proof month_bounds as (_ & Hlo & Hn & Ho & Hhi). pose proof (Hd e He) as Hc.
  assert (on_calendar k) as Hck by (unfold on_calendar in *; lia). pose proof (ord2ymd_valid _ Hck).
  rewrite !date_lt_ord, ymd2ord_ord2ymd, Ho by (done || by apply valid_first_of).
  assert ((local_date e.1 ==? ord2ymd k) = (local_ordinal e.1 =? k)) as ->; [|lia].
  unfold local_date. case_bool_decide as E; symmetry; [apply Z.eqb_eq|apply Z.eqb_neq].
  - apply (f_equal ymd2ord) in E. by rewrite !ymd2ord_ord2ymd in E.
  - by intros <-.
Qed.

Lemma slot_of_day flows k : month_flows first (next_month today) entries flows -> lo <= k < lo + len ->
  slot_of (ord2ymd k) flows =
    (flow_in (fun e => local_ordinal e.1 =? k) entries, flow_out (fun e => local_ordinal e.1 =? k) entries).
Proof.
  intros [_ _ S _ _] Hk. rewrite S. cbv zeta. unfold flow_in, flow_out.
  f_equal; apply total_if_ext; intros e He; by rewrite on_day.
Qed.

Lemma peak_eq flows : month_flows first (next_month today) entries flows ->
  max_default ((fun p => - p.2.2) <$> flows) = month_peak first len entries.
Proof.
  intros Hf. pose proof month_bounds as (Hl & Hlo & Hn & Ho & Hhi). pose proof Hf as [K D S O T]. unfold month_peak.
  set (spent n := - flow_out (fun e => local_ordinal e.1 =? n) entries).
  apply Z.le_antisymm.
  - destruct flows as [|p0 flows0] eqn:Ef.
    + cbn. transitivity (spent lo); [unfold spent; pose proof (flow_out_nonpositive (fun e => local_ordinal e.1 =? lo) entries); lia|].
      apply max_default_ge, list_elem_of_fmap_2, elem_of_seqZ. lia.
    + rewrite <- Ef in *. pose proof (max_default_in ((fun p => - p.2.2) <$> flows) ltac:(by rewrite Ef)) as Hin.
      apply list_elem_of_fmap in Hin as ([d slot] & -> & Hp). destruct (D _ Hp) as ((e & He & Hde) & D1 & D2).
      cbn [fst snd] in *. subst d. pose proof (in_month_date e He) as Hm. rewrite D1, D2 in Hm.
      symmetry in Hm. unfold in_month in Hm. apply andb_true_iff in Hm as [Hm1%negb_true_iff Hm2].
      assert (slot = slot_of (local_date e.1) flows) as -> by (unfold slot_of; by rewrite (day_slot_elem _ slot)).
      unfold local_date. rewrite slot_of_day by (done || lia). cbn [snd].
      apply max_default_ge. apply (list_elem_of_fmap_2 spent). apply elem_of_seqZ. lia.
  - pose proof (max_default_in (spent <$> seqZ lo len)) as Hin. rewrite seqZ_cons in Hin at 1 by lia.
    specialize (Hin ltac:(done)). apply list_elem_of_fmap in Hin as (k & -> & Hk%elem_of_seqZ).
    pose proof (slot_of_day flows k Hf ltac:(lia)) as Hs. unfold slot_of in Hs. unfold spent.
    destruct (day_slot (ord2ymd k) flows) as [slot|] eqn:Es; cbn in Hs.
    + apply max_default_ge, list_elem_of_fmap. exists (ord2ymd k, slot). subst slot. split; [done|by apply day_slot_In].
    + injection Hs as _ <-. destruct flows as [|p rest]; [done|]. specialize (O p ltac:(left)).
      transitivity (- p.2.2); [lia|]. apply max_default_ge. left.
Qed.

Lemma spent_peak k : lo <= k < lo + len ->
  0 <= - flow_out (fun e => local_ordinal e.1 =? k) entries <= month_peak first len entries.
Proof.
  clear Hv Hy Hd. intros Hk. split; [pose proof (flow_out_nonpositive (fun e => local_ordinal e.1 =? k) entries); lia|].
  unfold month_peak. apply max_default_ge.
  apply (list_elem_of_fmap_2 (fun n => - flow_out (fun e => local_ordinal e.1 =? n) entries)).
  apply elem_of_seqZ. lia.
Qed.

Lemma level_of_eq spent peak : 0 <= spent <= peak -> level_of spent peak = Ok (level spent peak).
Proof.
  clear Hv Hy Hd. intros H. destruct (level_of_Ok spent peak H) as (n & -> & _ & Hz & Hn). unfold level.
  destruct (Z.eqb_spec spent 0); f_equal; [tauto|apply Hn; lia].
Qed.

Lemma day_cells_month flows : month_flows first (next_month today) entries flows ->
  day_cells 31 flows (max_default ((fun p => - p.2.2) <$> flows)) today (next_month today) first =
  Ok (month_days today entries).
Proof.
  intros Hf. rewrite peak_eq by done. pose proof month_bounds as (Hl & Hlo & Hn & Ho & Hhi).
  rewrite <- (ord2ymd_ymd2ord first) at 2 by (by apply valid_first_of).
  rewrite (day_cells_eq _ _ _ _ (reference_cell today (month_peak first len entries) entries)); try done.
  - rewrite Ho. unfold month_days. do 3 f_equal. lia.
  - right. lia.
  - by rewrite Ho.
  - rewrite Ho. intros k Hk. rewrite slot_of_day by done. eexists.
    split; [by apply level_of_eq, spent_peak|]. unfold reference_cell.
    assert (on_calendar k) as Hck by (unfold on_calendar in *; lia).
    rewrite date_lt_ord, ymd2ord_ord2ymd by (done || by apply ord2ymd_valid). f_equal.
    case_bool_decide as E; [apply Z.eqb_eq|apply Z.eqb_neq].
    + by rewrite <- E, ymd2ord_ord2ymd.
    + intros ->. destruct E. by apply ord2ymd_ymd2ord.
Qed.

Lemma cell_le_total a b : cell_le a b = true \/ cell_le b a = true.
Proof.
  unfold cell_le. destruct (date_lt (c_date b) (c_date a)) eqn:E1, (date_lt (c_date a) (c_date b)) eqn:E2; try lia.
  unfold date_lt in *. lia.
Qed.
Lemma cell_le_trans a b c : cell_le a b = true -> cell_le b c = true -> cell_le a c = true.
Proof. unfold cell_le, date_lt. lia. Qed.

Lemma top_days_spec (l : list cell) :
  let sorted := merge_sort (fun a b => Is_true (cell_le a b)) l in
  exists rest, take 3 sorted ++ rest ≡ₚ l /\ (length (take 3 sorted) = 3%nat \/ rest = []) /\
    forall a b, a ∈ take 3 sorted -> b ∈ rest -> c_outflows a <= c_outflows b.
Proof.
  intros sorted. exists (drop 3 sorted). rewrite take_drop. split; [apply merge_sort_Permutation|]. split.
  - rewrite length_take. destruct (decide (3 <= length sorted)%nat); [left; lia|right].
    apply drop_ge. lia.
  - intros a b Ha Hb.
    assert (StronglySorted (fun a b => Is_true (cell_le a b)) sorted) as Hs.
    { apply StronglySorted_merge_sort.
      - intros x y z. rewrite !Is_true_true. apply cell_le_trans.
      - intros x y. rewrite !Is_true_true. apply cell_le_total. }
    rewrite <- (take_drop 3 sorted) in Hs.
    assert (cell_le a b = true) as H; [|unfold cell_le in H; lia]. apply Is_true_true.
    revert Hs Ha Hb. generalize (take 3 sorted) (drop 3 sorted). clear. intros l r. induction l as [|x l IH]; cbn.
    + intros _ H. inversion H.
    + intros [Hs Hx]%StronglySorted_inv [->|Ha]%elem_of_cons Hb; [|by apply IH].
      rewrite Forall_forall in Hx. apply Hx, elem_of_app. by right.
Qed.

Lemma calendar_reference :
  exists page, fund_month_calendar_from_entries entries today = Ok page /\ month_spec today entries page.
Proof.
  pose proof month_bounds as (Hl & Hlo & Hn & Ho & Hhi).
  unfold fund_month_calendar_from_entries. rewrite month_after by done.
  pose proof (month_flows_fold first (next_month today) entries) as Hf.
  set (flows := foldl _ [] entries) in *. rewrite day_cells_month by done. cbn [mbind result_bind].
  eexists. split; [done|].
  set (cells := _ ++ (Some <$> month_days today entries)).
  set (k := Z.to_nat ((- Z.of_nat (length cells)) mod 7)).
  assert (k < 7)%nat as Hk by (pose proof (Z.mod_pos_bound (- Z.of_nat (length cells)) 7); lia).
  assert (exists q, length (cells ++ replicate k None) = (7 * q)%nat) as [q Hq].
  { rewrite length_app, length_replicate. exists (Z.to_nat (- ((- Z.of_nat (length cells)) / 7))).
    pose proof (Z.div_mod (- Z.of_nat (length cells)) 7 ltac:(lia)).
    assert ((- Z.of_nat (length cells)) / 7 <= 0) by (apply Z.div_le_upper_bound; lia).
    unfold k. pose proof (Z.mod_pos_bound (- Z.of_nat (length cells)) 7). lia. }
  assert (length (cells ++ replicate k None) / 7 = q)%nat as Hdiv by (rewrite Hq, Nat.mul_comm; apply Nat.div_mul; lia).
  destruct (chunks_spec q _ Hq) as [Hc1 Hc2].
  split; cbn [mo_month mo_weeks mo_inflows mo_outflows mo_top_days].
  - done.
  - by rewrite Hdiv.
  - exists k. split; [done|]. rewrite Hdiv, Hc1. unfold cells. by rewrite <- app_assoc.
  - destruct Hf as [_ _ _ _ T]. cbv zeta in T. destruct T as [-> ->]. unfold flow_in, flow_out.
    split; apply total_if_ext; intros e He; by rewrite in_month_date.
  - apply top_days_spec.
Qed.
End Month.

Lemma concat_lookup {A} (weeks : list (list A)) week j i :
  Forall (fun week => length week = 7%nat) weeks -> weeks !! j = Some week -> (i < 7)%nat ->
  List.concat weeks !! (7 * j + i)%nat = week !! i.
Proof.
  intros Hw. revert j. induction Hw as [|x l Hx _ IH]; intros j Hj Hi; [done|]. cbn [List.concat].
  destruct j as [|j]; cbn in Hj.
  - injection Hj as ->. rewrite lookup_app_l by lia. done.
  - rewrite lookup_app_r by lia. rewrite Hx, <- (IH j) by done. f_equal; lia.
Qed.

(** Days stand under their weekday. *)
Lemma month_weekdays today entries page :
  valid_date today = true -> d_year today <= 9998 -> month_spec today entries page ->
  forall week i c, week ∈ mo_weeks page -> week !! i = Some (Some c) -> weekday (c_date c) = Z.of_nat i.
Proof.
  intros Hv Hy [_ Hw (k & _ & Hc) _ _] week i c (j & Hj)%list_elem_of_lookup_1 Hi.
  pose proof (month_bounds today Hv Hy) as (Hl & Hlo & _ & _ & Hhi).
  assert (i < 7)%nat as Hi7.
  { rewrite Forall_forall in Hw. rewrite <- (Hw week) by (by eapply list_elem_of_lookup_2). by eapply lookup_lt_Some. }
  pose proof (concat_lookup _ _ _ _ Hw Hj Hi7) as Hcl. rewrite Hi, Hc in Hcl.
  set (wd := weekday (first_of today)) in *. assert (0 <= wd < 7) as Hwd by (apply Z.mod_pos_bound; lia).
  apply lookup_app_Some in Hcl as [Hcl|[Hge Hcl]]; [by apply lookup_replicate in Hcl as [? _]|].
  apply lookup_app_Some in Hcl as [Hcl|[_ Hcl]]; [|by apply lookup_replicate in Hcl as [? _]].
  rewrite length_replicate in *. apply list_lookup_fmap_Some in Hcl as (c' & [= <-] & Hcl).
  unfold month_days in Hcl. apply list_lookup_fmap_Some in Hcl as (n & -> & Hn).
  apply lookup_seqZ in Hn as [-> Hn]. unfold reference_cell. cbn [c_date]. unfold weekday.
  rewrite ymd2ord_ord2ymd by (unfold on_calendar in *; lia).
  pose proof (Z.div_mod (ymd2ord (first_of today) + 6) 7 ltac:(lia)) as Hdm. change (_ mod 7) with wd in Hdm.
  symmetry. apply Z.mod_unique with ((ymd2ord (first_of today) + 6) / 7 + Z.of_nat j); [left; lia|]. lia.
Qed.

Lemma month_levels today entries c :
  valid_date today = true -> d_year today <= 9998 -> c ∈ month_days today entries ->
  0 <= c_level c <= 4 /\ (c_level c = 0 <-> c_outflows c = 0) /\
  (c_outflows c <> 0 -> (forall d, d ∈ month_days today entries -> c_outflows c <= c_outflows d) -> c_level c = 4).
Proof.
  intros Hv Hy (k & -> & Hk)%list_elem_of_fmap. apply elem_of_seqZ in Hk.
  pose proof (spent_peak today entries k Hk) as Hs. unfold reference_cell. cbn [c_level c_outflows].
  set (spent := - flow_out (fun e => local_ordinal e.1 =? k) entries) in *.
  set (peak := month_peak _ _ _) in *.
  destruct (level_of_Ok spent peak Hs) as (n & Hn & Hr & Hz & Hq). rewrite level_of_eq in Hn by done. injection Hn as <-.
  split; [done|]. split; [unfold spent in *; lia|]. intros Hne Hmax. rewrite Hq by (unfold spent in *; lia).
  assert (peak <= spent) as Hp.
  { pose proof (max_default_in ((fun n => - flow_out (fun e => local_ordinal e.1 =? n) entries) <$>
      seqZ (ymd2ord (first_of today)) (month_length today))) as Hin. fold (month_peak (first_of today) (month_length today) entries) in Hin.
    fold peak in Hin. rewrite seqZ_cons in Hin at 1 by lia.
    specialize (Hin ltac:(done)). apply list_elem_of_fmap in Hin as (j & Hj & Hin).
    specialize (Hmax (reference_cell today peak entries j)). unfold reference_cell in Hmax. cbn [c_outflows] in Hmax.
    unfold spent. rewrite Hj. enough (flow_out (fun e => local_ordinal e.1 =? k) entries <= flow_out (fun e => local_ordinal e.1 =? j) entries) by lia.
    apply Hmax. by apply (list_elem_of_fmap_2 (reference_cell today peak entries)). }
  assert (spent = peak) as E by lia. rewrite E, Z.div_mul by (unfold spent in *; lia). lia.
Qed.

(** ** The store *)

(** An instant since 1970, far before the end of the calendar. *)
Definition in_range (t : Z) : Prop := 0 <= t < days 2920000.

Lemma in_range_date t : in_range t ->
  on_calendar (local_ordinal t) /\ valid_date (local_date t) = true /\ 2 <= d_year (local_date t) <= 9998.
Proof.
  unfold in_range, local_date. intros Ht.
  assert (719163 <= local_ordinal t <= 3639163) as Ho.
  { unfold local_ordinal, EPOCH_ORDINAL, DAY. change (days 2920000) with (86400000000 * 2920000) in Ht.
    change (days 1) with 86400000000. change (hours 7) with 25200000000.
    assert (0 <= (t + 25200000000) / 86400000000) by (apply Z.div_pos; lia).
    assert ((t + 25200000000) / 86400000000 < 2920001) by (apply Z.div_lt_upper_bound; lia). lia. }
  assert (on_calendar (local_ordinal t)) as Hc by (unfold on_calendar; lia).
  pose proof (ord2ymd_valid _ Hc) as Hv. split; [done|]. split; [done|].
  pose proof (ymd2ord_ord2ymd _ Hc) as Heq. pose proof (valid_date_inv _ Hv) as (Y & M & D).
  pose proof (months_grow (is_leap (d_year (ord2ymd (local_ordinal t)))) _ _ M M) as (E & S & _).
  rewrite ymd2ord_eq in Heq. set (d := ord2ymd (local_ordinal t)) in *. split.
  - destruct (Z_lt_le_dec (d_year d) 2); [|done]. assert (d_year d = 1) as H1 by lia.
    rewrite H1 in *. change (days_before_year 1) with 0 in Heq. change (is_leap 1) with false in *.
    change (if false then 1 else 0) with 0 in E. lia.
  - destruct (Z_lt_le_dec 9998 (d_year d)); [|done]. assert (d_year d = 9999) as H1 by lia.
    rewrite H1 in *. change (days_before_year 9999) with 3651694 in Heq.
    change (is_leap 9999) with false in *. lia.
Qed.

Lemma local_ordinal_mono t t' : t <= t' -> local_ordinal t <= local_ordinal t'.
Proof.
  intros H. unfold local_ordinal. assert ((t + hours 7) / DAY <= (t' + hours 7) / DAY); [|lia].
  apply Z.div_le_mono; [done|lia].
Qed.

(** Later days are in later periods. *)
Lemma period_mono rk t t' : in_range t -> in_range t' -> t <= t' ->
  period rk (local_date t) <= period rk (local_date t').
Proof.
  intros (H1 & V1 & _)%in_range_date (H2 & V2 & _)%in_range_date Hle%local_ordinal_mono.
  unfold period. destruct (String.eqb rk "30d").
  - unfold local_date. by rewrite !ymd2ord_ord2ymd.
  - pose proof (date_lt_ord _ _ V2 V1) as Hlt. unfold local_date in *. rewrite !ymd2ord_ord2ymd in Hlt by done.
    unfold date_lt, month_index in *. apply valid_date_inv in V1, V2. lia.
Qed.

(** One fund per building, and entries of the past: what the constraints of the ledger keep. *)
Record fund_dated (w : world) : Prop := {
  fd_one : forall j k f g, rows (funds w) !! j = Some f -> rows (funds w) !! k = Some g ->
    fu_building f = fu_building g -> j = k;
  fd_past : forall k e, rows (fund_entries w) !! k = Some e -> 0 <= fe_recorded_at e <= w_now w;
  fd_now : in_range (w_now w);
}.

Section Store.
Implicit Types (w : world) (b : Z).

Lemma entry_building_eq b w e : fund_dated w -> entry_building b w e = in_fund b w e.
Proof.
  intros [H1 _ _]. unfold entry_building, in_fund. destruct (fund_of b w) as [f|] eqn:Ef.
  - pose proof Ef as Hb. unfold fund_of in Ef. apply first_Some in Ef as [Hf Hb']. to_prop.
    apply eq_true_iff_eq. rewrite exists_true. split.
    + intros (j & g & Hj & Hq). cbn [pk val] in Hq. to_prop.
      assert (j = pk f) by (eapply H1; eauto; congruence). apply bool_decide_eq_true_2. congruence.
    + intros Hq. to_prop. exists (pk f), (val f). split; [done|]. cbn [pk val].
      by rewrite !bool_decide_eq_true_2 by congruence.
  - apply exists_false. intros k f Hk. unfold fund_of in Ef. rewrite first_None in Ef.
    specialize (Ef k f Hk). cbn in *. rewrite Ef. apply andb_false_r.
Qed.

Definition verified_rows b w : list (obj fund_entry_row) :=
  select (fun e => in_fund b w e && counted true w e) (fund_entries w).

Lemma verified_run b w : fund_dated w -> verified_fund_entries b w = (Ok (verified_rows b w), w).
Proof.
  intros H. unfold verified_fund_entries, gets, verified_rows. do 2 f_equal.
  apply select_ext. intros k e _. by rewrite entry_building_eq.
Qed.

Lemma verified_in_range b w e : fund_dated w -> e ∈ row_of <$> verified_rows b w ->
  in_range e.1 /\ e.1 <= w_now w.
Proof.
  intros [_ H2 H3] (o & -> & Ho)%list_elem_of_fmap. apply elem_of_select in Ho as [Ho _].
  specialize (H2 _ _ Ho). unfold in_range, row_of in *. cbn. lia.
Qed.
Lemma verified_dated b w : fund_dated w -> dated (row_of <$> verified_rows b w).
Proof. intros H e [He _]%verified_in_range; [|done]. by apply in_range_date. Qed.

Lemma total_rows (l : list (obj fund_entry_row)) :
  total_if (fun _ => true) (row_of <$> l) = zsum ((fun e => e~>fe_amount_vnd) <$> l).
Proof. unfold total_if. by rewrite <- list_fmap_compose. Qed.
End Store.

Lemma zsum_newest_first {R} (f key : obj R -> Z) l : zsum (f <$> newest_first key l) = zsum (f <$> l).
Proof. unfold newest_first, order_by. by rewrite merge_sort_Permutation, <- Permutation_rev. Qed.
Lemma zsum_split {R} (f : obj R -> Z) (P Q S : obj R -> bool) l :
  (forall o, o ∈ l -> S o = P o || Q o /\ P o && Q o = false) ->
  zsum (f <$> List.filter S l) = zsum (f <$> List.filter P l) + zsum (f <$> List.filter Q l).
Proof.
  induction l as [|o l IH]; [done|]. intros H. cbn. destruct (H o ltac:(left)) as [-> HPQ].
  specialize (IH ltac:(intros x Hx; apply H; by right)). destruct (P o), (Q o); cbn in *; done || lia.
Qed.

(** ** Properties *)

Section Properties.
Implicit Types (w : world) (b : Z).

(** C12: the chart of the fund is right.  For each of the three ranges the page shows exactly
    the last 30 days, 6 or 12 months, every one with the money in and out of the verified
    entries recorded in it (local time) and the balance of all verified entries up to its
    end; the last balance is the verified balance of the fund. *)
Theorem fund_series_exact b rk w :
  fund_dated w -> In rk FUND_SERIES_RANGE_KEYS -> known_building b w = true ->
  let series := reference_series rk (local_date (w_now w)) (row_of <$> verified_rows b w) in
  fund_series b rk w = (Ok series, w) /\
  exists p, last series = Some p /\ fund_balance b true w = (Ok (balance_vnd p), w).
Proof.
  intros Hf Hk Hb series. pose proof Hf as [_ _ Hnow]. destruct (in_range_date _ Hnow) as (Hc & Hv & Hy).
  assert (existsb (String.eqb rk) FUND_SERIES_RANGE_KEYS = true) as Hk'
    by (apply existsb_exists; exists rk; by rewrite String.eqb_refl).
  split.
  - unfold fund_series, mbind, M_bind. rewrite verified_run by done. unfold timezone_now, gets, of_result.
    by rewrite series_reference by (done || lia || by apply verified_dated).
  - set (n := periods rk). set (lo := period rk (local_date (w_now w)) - n + 1).
    assert (0 < n) as Hn by (unfold n, periods; repeat case_match; lia).
    assert (seqZ lo n = seqZ lo (n - 1) ++ [period rk (local_date (w_now w))]) as Hsplit.
    { replace n with (n - 1 + 1) at 1 by lia. rewrite seqZ_app by lia. f_equal.
      change (seqZ (lo + (n - 1)) 1) with [lo + (n - 1)]. apply f_equal2; [unfold lo; lia|done]. }
    unfold series, reference_series. fold n lo. rewrite Hsplit, fmap_app, last_app. cbn [fmap list_fmap last].
    eexists. split; [done|]. apply fund_balance_Ok. split; [done|]. split; [done|]. cbn [balance_vnd].
    unfold balance, entries_total. fold (verified_rows b w). rewrite <- total_rows.
    apply total_if_ext. intros e He. apply verified_in_range in He as [He1 He2]; [|done].
    apply Z.leb_le. by apply period_mono.
Qed.

(** The calendar of the month is right.  The page has one cell for every day of the
    current month, in weeks of seven that start on Monday; each shows what went in and out
    on its day, shaded from 0 (exactly the days without spending) to 4 (the days that spent
    most), and the three days that spent most are on top. *)
Theorem fund_calendar_exact b w :
  fund_dated w ->
  let today := local_date (w_now w) in
  let entries := row_of <$> verified_rows b w in
  exists page, fund_month_calendar b w = (Ok page, w) /\ month_spec today entries page /\
    (forall week i c, week ∈ mo_weeks page -> week !! i = Some (Some c) -> weekday (c_date c) = Z.of_nat i) /\
    forall c, c ∈ month_days today entries ->
      0 <= c_level c <= 4 /\ (c_level c = 0 <-> c_outflows c = 0) /\
      (c_outflows c <> 0 -> (forall d, d ∈ month_days today entries -> c_outflows c <= c_outflows d) -> c_level c = 4).
Proof.
  intros Hf today entries. pose proof Hf as [_ _ Hnow]. destruct (in_range_date _ Hnow) as (Hc & Hv & Hy).
  fold today in Hv, Hy. pose proof (verified_dated b w Hf) as Hd. fold entries in Hd.
  destruct (calendar_reference today entries Hv ltac:(lia) Hd) as (page & Hpage & Hspec).
  exists page. split; [|split; [done|split]].
  - unfold fund_month_calendar, mbind, M_bind. rewrite verified_run by done. unfold timezone_now, gets, of_result.
    fold today entries. by rewrite Hpage.
  - apply (month_weekdays today entries); done || lia.
  - intros c. apply (month_levels today entries); done || lia.
Qed.

(** What awaits verification is exactly what the two balances differ by: the balance
    with unverified sources exceeds the verified one by the amounts of the listed entries. *)
Theorem pending_is_difference b w :
  fund_dated w -> known_building b w = true ->
  exists pending all verified, pending_fund_verification_entries b w = (Ok pending, w) /\
    fund_balance b false w = (Ok all, w) /\ fund_balance b true w = (Ok verified, w) /\
    all = verified + zsum ((fun e => e~>fe_amount_vnd) <$> pending).
Proof.
  intros Hf Hb. do 3 eexists. split; [done|]. rewrite !fund_balance_Ok.
  split; [done|]. split; [done|]. rewrite zsum_newest_first. unfold balance, entries_total, select.
  apply zsum_split. intros e _. rewrite entry_building_eq by done. unfold counted, _finalized_posting_q, _source_verified_q.
  assert (is_source e~>fe_entry_type && is_finalized e~>fe_entry_type = false) as Hx
    by (by destruct (fe_entry_type (val e))).
  revert Hx. destruct (in_fund b w e), (exists_ _ (fund_verifications w)), (is_source _), (is_finalized _),
    (fe_proposal (val e)) as [p|]; try done; by destruct (proposal_published w p).
Qed.
End Properties.

(** ** Concrete runs *)

(** Two verified sources and one that awaits verification, seen on 2026-07-21. *)
Definition demo_today : Z := days 20655 + hours 3.
Definition demo_sources : world :=
  empty_world (Settings true 0 "" "" "" "" true 10) demo_today
    <| buildings ::= insert_row "Tower A" |>
    <| funds ::= insert_row (Fund 1) |>
    <| fund_entries ::= insert_row (FundEntry 1 OPENING_BALANCE 500 None "h1" (Some 1) None "a" (demo_today - days 90)) |>
    <| fund_entries ::= insert_row (FundEntry 1 INFLOW 70 None "h2" (Some 1) None "b" (demo_today - days 2)) |>
    <| fund_entries ::= insert_row (FundEntry 1 INFLOW 9 None "h3" (Some 1) None "c" (demo_today - days 1)) |>
    <| fund_verifications ::= insert_row (FundVerification 1 1 demo_today) |>
    <| fund_verifications ::= insert_row (FundVerification 2 1 demo_today) |>.

Lemma demo_sources_dated : fund_dated demo_sources.
Proof.
  split.
  - intros j k f g Hj Hk _. cbn in Hj, Hk. apply lookup_insert_Some in Hj as [[<- _]|[_ Hj]]; [|done].
    apply lookup_insert_Some in Hk as [[<- _]|[_ Hk]]; done.
  - intros k e H. cbn in H. rewrite !lookup_insert_Some in H.
    repeat destruct H as [[_ <-]|[_ H]]; try done; vm_compute; done.
  - by vm_compute.
Qed.

Lemma fund_series_exact_witness :
  exists series p, fund_series 1 "6m" demo_sources = (Ok series, demo_sources) /\
    last series = Some p /\ p = Point (Date 2026 7 1) 70 0 570 /\
    fund_balance 1 true demo_sources = (Ok 570, demo_sources).
Proof.
  destruct (fund_series_exact 1 "6m" demo_sources demo_sources_dated) as [H (p & Hp & Hb)];
    [by right; left|by vm_compute|].
  eexists _, p. split; [exact H|]. split; [exact Hp|].
  assert (p = Point (Date 2026 7 1) 70 0 570) as -> by (vm_compute in Hp; by injection Hp as <-).
  by split.
Defined.

Lemma fund_calendar_exact_witness :
  exists page, fund_month_calendar 1 demo_sources = (Ok page, demo_sources) /\
    mo_inflows page = 70 /\ length (mo_weeks page) = 5%nat.
Proof.
  destruct (fund_calendar_exact 1 demo_sources demo_sources_dated) as (page & H & _).
  exists page. split; [exact H|]. vm_compute in H. injection H as <-. by split.
Defined.

Lemma pending_is_difference_witness :
  exists pending all verified, pending_fund_verification_entries 1 demo_sources = (Ok pending, demo_sources) /\
    fund_balance 1 false demo_sources = (Ok all, demo_sources) /\
    fund_balance 1 true demo_sources = (Ok verified, demo_sources) /\
    all = verified + zsum ((fun e => e~>fe_amount_vnd) <$> pending).
Proof. refine (pending_is_difference 1 demo_sources demo_sources_dated _). by vm_compute. Defined.
