(* ===== verification/Books.v ===== *)
(** * Books: what the fund, the settlements and the published ledger say together

    The components of [finance/] write five tables: funds, fund entries, verifications,
    settlements and published entries.  Whatever operations run, and in whatever order, a
    building's verified balance is what was verified less what was settled, and the
    evidence events of a proposal's versions stay chained. *)

From S2P Require Import OutboxWorker Prelude Table PyStr Schema Store Accounts Canonical Signatures.
From S2P Require Import Timestamps Evidence Notifications Hooks Cases Documents Proposals Fund Settlements FundSeries.
Open Scope Z_scope.

(** ** The operations *)

Section Machine.
Context {CR : Crypto} {ETH : EthAccount}.

(** As the web views call them: [record_fund_source] without an id and without a key. *)
Inductive books_op :=
  | OpenFund (building : Z)
  | RecordSource (fund : Z) (t : entry_type) (amount : pyval) (evidence : option Z)
      (recorder : obj membership_row)
  | VerifySource (entry : Z) (verifier : obj membership_row)
  | Settle (proposal : Z) (membership : obj membership_row) (transfer : option Z) (event_id : string)
  | Deliver (c : rpc) (limit : nat)
  | Manage (op : proposal_op).

Definition run_books (op : books_op) : DB unit :=
  match op with
  | OpenFund b => _ ← get_or_create_fund b; mret tt
  | RecordSource f t a e m => _ ← record_fund_source f t a e m None None None; mret tt
  | VerifySource k m => _ ← verify_fund_source k m; mret tt
  | Settle p m tr ev => _ ← record_settlement p m tr ev; mret tt
  | Deliver c limit => _ ← process_due_outbox_events c limit; mret tt
  | Manage op => run_proposal op
  end.

(** Every store some sequence of operations leads to. *)
Inductive books_run (w : world) : world -> Prop :=
  | books_start : books_run w w
  | books_next op w1 : books_run w w1 -> books_run w (run_books op w1).2.
End Machine.

(** ** The invariant *)

Section Books.
Implicit Types (w : world).

Definition settled (p : Z) w : bool := exists_ (fun s => s~>se_proposal ==? p) (settlements w).
(** The settlement is of a proposal of the building. *)
Definition settles_for (b : Z) w (s : obj settlement_row) : bool :=
  match rows (proposals w) !! s~>se_proposal with Some p => pr_building p ==? b | None => false end.
Definition settled_total (b : Z) w : Z :=
  zsum ((fun s => s~>se_amount_vnd) <$> select (settles_for b w) (settlements w)).

Record books_ok w : Prop := {
  bo_fund : fund_ok w;
  bo_funds : table_wf (funds w);
  bo_settlements : table_wf (settlements w);
  bo_ledger : table_wf (ledger w);
  bo_proposals : table_wf (proposals w);
  (** foreign keys *)
  bo_entry_fund : forall k e, rows (fund_entries w) !! k = Some e -> is_Some (rows (funds w) !! fe_fund e);
  bo_published : forall k l, rows (ledger w) !! k = Some l ->
    exists s, rows (settlements w) !! le_settlement l = Some s /\ se_proposal s = le_proposal l;
  bo_settled : forall k s, rows (settlements w) !! k = Some s -> is_Some (rows (proposals w) !! se_proposal s);
  (** nothing is posted for a proposal before it is settled *)
  bo_posted : forall k e p, rows (fund_entries w) !! k = Some e ->
    fe_proposal e = Some p \/ fe_source_key e = settlement_source_key p -> settled p w = true;
  bo_signs : forall k e, rows (fund_entries w) !! k = Some e -> amount_sign_ok e = true;
  (** what is posted is what was settled *)
  bo_balance : forall b, postings b w = - settled_total b w;
}.

(** The part of the store the invariant reads, proposals apart. *)
Definition books w := (funds w, fund_entries w, fund_verifications w, settlements w, ledger w).

Lemma books_inv w w' :
  books w' = books w -> funds w' = funds w /\ fund_entries w' = fund_entries w /\
  fund_verifications w' = fund_verifications w /\ settlements w' = settlements w /\ ledger w' = ledger w.
Proof. unfold books. by intros [= -> -> -> -> ->]. Qed.

Lemma books_ok_frame w w' :
  books w' = books w -> evolves proposal_step (proposals w) (proposals w') -> books_ok w -> books_ok w'.
Proof.
  intros (Hf & He & Hv & Hs & Hl)%books_inv Hp [[F1 F2 F3] T1 T2 T3 T4 E1 E2 E3 E4 E6 E5].
  destruct (Hp T4) as [T4' Hstep].
  assert (forall b s, is_Some (rows (proposals w) !! s~>se_proposal) ->
    settles_for b w' s = settles_for b w s) as Hsf.
  { intros b s [p Hrow]. unfold settles_for. destruct (Hstep _ _ Hrow) as (p' & -> & [[_ [Hb _]] _ _ _ _ _ _ _]).
    by rewrite Hrow, Hb. }
  split.
  - split; rewrite ?He, ?Hv; done.
  - by rewrite Hf.
  - by rewrite Hs.
  - by rewrite Hl.
  - done.
  - rewrite He, Hf. done.
  - rewrite Hl, Hs. done.
  - rewrite Hs. intros k s [p Hrow]%E3. destruct (Hstep _ _ Hrow) as (p' & Hrow' & _). eauto.
  - unfold settled. rewrite He, Hs. done.
  - by rewrite He.
  - intros b. transitivity (postings b w).
    + unfold postings, entries_total, in_fund, fund_of, _finalized_posting_q, proposal_published.
      by rewrite Hf, He, Hl.
    + rewrite E5. unfold settled_total. rewrite Hs. do 3 f_equal. apply select_ext. intros k s Hk.
      symmetry. by eapply Hsf, E3.
Qed.

(** ** What leaves the books alone *)

Definition same {A} (part : world -> A) w w' : Prop := part w' = part w.
#[export] Instance same_preorder {A} (part : world -> A) : PreOrder (same part).
Proof. split; [done|]. unfold same. intros ???. congruence. Qed.

Lemma keeps_swallow_same {A} (part : world -> A) (m : DB unit) w :
  (forall ns, part (w <| w_on_commit := ns |>) = part w) -> told m w -> keeps (same part) (swallow m) w.
Proof. intros Hp [ns H]. unfold keeps, same. rewrite H. apply Hp. Qed.
End Books.

Ltac keeps_same :=
  repeat first
    [ (match goal with |- keeps _ (swallow _) _ =>
         apply keeps_swallow_same; [reflexivity|auto with told] end)
    | keeps_svc_step
    | (match goal with |- same _ _ _ => reflexivity end) ].

Section Frames.
Context {CR : Crypto} {ETH : EthAccount}.
Implicit Types (w : world).

(** Work on cases writes no book and no evidence. *)
Definition records w := (books w, versions w, outbox w).
Lemma case_keeps_records op w : keeps (same records) (run_case op) w.
Proof.
  destruct op; cbn [run_case];
    unfold start_case_work, publish_progress, complete_proposal_work, complete_case_work,
      request_information, reply_information, decline_report, close_if_abandoned,
      rate_completed_case, rate_completed_proposal, close_expired_completed_cases, close_case, close_proposal;
    keeps_same.
Qed.

Definition publishes (op : proposal_op) : bool := match op with Publish _ _ _ _ => true | _ => false end.
Lemma proposals_keep_records op w : publishes op = false -> keeps (same records) (run_proposal op) w.
Proof.
  destruct op; cbn [run_proposal]; [| | |done|intros _; apply case_keeps_records]; intros _;
    (apply (keeps_bind (same records)); [|intros; apply keeps_ret; apply _]).
  - unfold create_proposal, insert_proposal, case_report_rows. keeps_same.
  - unfold create_standalone_proposal, insert_proposal. keeps_same.
  - unfold decide_proposal. keeps_same.
Qed.

(** Publishing queues one event and appends one version. *)
Lemma publish_keeps_books p m q tok w : keeps (same books) (publish_proposal_version p m q tok) w.
Proof.
  unfold keeps. destruct (publish_proposal_version p m q tok w) as [[v|e] w'] eqn:E; cbn [snd].
  - apply publish_run in E as [? ? ? ? ? ? w1 _ _ _ _ _ _ _ _ _ Hq _ ->].
    apply queue_frame in Hq. unfold same. by rewrite Hq.
  - unfold publish_proposal_version in E. by apply atomic_Err in E as ->.
Qed.

Lemma proposals_keep_books op w : keeps (same books) (run_proposal op) w.
Proof.
  destruct (publishes op) eqn:E.
  - destruct op; try done. apply (keeps_bind (same books)); [apply publish_keeps_books|].
    intros. apply keeps_ret. apply _.
  - apply (keeps_impl (same records)); [|by apply proposals_keep_records].
    intros x y H. exact (f_equal (fun r => r.1.1) H).
Qed.

(** Delivery writes the outbox alone. *)
Lemma deliver_keeps c limit w : keeps (same (fun w => (books w, proposals w, versions w)))
  (process_due_outbox_events c limit) w.
Proof.
  revert w. induction limit as [|n IH]; intros w; cbn [process_due_outbox_events]; [apply keeps_ret; apply _|].
  unfold claim_next_due_outbox_event, claim, _process_claimed_event, submit, _mark_confirmed, _mark_local,
    _mark_retry, _mark_mismatch, mark.
  keeps_same. apply IH.
Qed.
End Frames.

(** ** Every operation keeps the invariant *)

Section Invariant.
Context {CR : Crypto} {ETH : EthAccount}.
Implicit Types (w : world).

Lemma settlement_key_inj p q : settlement_source_key p = settlement_source_key q -> p = q.
Proof. unfold settlement_source_key. intros H. apply zstr_inj. by injection H. Qed.
Lemma source_key_apart t f h p : is_source t = true -> _source_key t f h <> settlement_source_key p.
Proof. by destruct t. Qed.

(** Opening a fund moves no total. *)
Lemma open_total b0 w f w' (Q : world -> obj fund_entry_row -> bool) b :
  get_or_create_fund b0 w = (Ok f, w') -> books_ok w -> (forall e, Q w' e = Q w e) ->
  entries_total (fun e => in_fund b w' e && Q w' e) w' = entries_total (fun e => in_fund b w e && Q w e) w.
Proof.
  intros H Hok HQ. destruct (in_fund_created _ _ _ _ b H (bo_funds _ Hok)) as [Hin _]. apply fund_frame in H.
  transitivity (entries_total (fun e => in_fund b w' e && Q w' e) w).
  - unfold entries_total. by rewrite (f_equal fund_entries H).
  - apply entries_total_ext. intros k e Hk. rewrite HQ. f_equal. apply Hin, (bo_entry_fund _ Hok k e Hk).
Qed.

Lemma open_keeps_ok b w f w' : get_or_create_fund b w = (Ok f, w') -> books_ok w -> books_ok w'.
Proof.
  intros H Hok. pose proof Hok as [F T1 T2 T3 T4 E1 E2 E3 E4 E6 E5].
  destruct (get_or_create_fund_stored _ _ _ _ H T1) as (Hwf & _ & Hkeep).
  assert (forall b', postings b' w' = postings b' w) as Hp.
  { intros b'. apply (open_total _ _ _ _ _finalized_posting_q b' H Hok).
    intros e. by rewrite (fund_frame _ _ _ _ H). }
  apply fund_frame in H. rewrite H in Hp |- *. split; try done.
  - by destruct F.
  - cbn. eauto.
  - intros b'. rewrite Hp. apply E5.
Qed.

Lemma record_keeps_ok f t a e m ts w o w' :
  record_fund_source f t a e m None ts None w = (Ok o, w') -> books_ok w -> books_ok w'.
Proof.
  intros H [F T1 T2 T3 T4 E1 E2 E3 E4 E6 E5].
  pose proof (fun b => record_source_postings _ _ _ _ _ _ _ _ _ _ b H F) as Hp.
  apply record_source_run in H as (Ho & Hf & Ht & _ & Hpos & Hs & Hpr & Hfund & Hk & Hw).
  assert (amount_sign_ok (val o) = true) as Hsign.
  { rewrite <- Ht in Hs. unfold amount_sign_ok. destruct (fe_entry_type (val o)); try done; by apply Z.ltb_lt. }
  destruct (Hk eq_refl) as [h Hkey].
  rewrite Hw in Hp |- *. split; try done.
  - by eapply fund_ok_insert.
  - apply all_inserted; [done|]. by rewrite Hf.
  - intros k x p. cbn. revert k x.
    apply (all_inserted (fun _ x => _ x = Some p \/ _ x = _ -> settled p w = true)); [intros k x; apply E4|].
    rewrite Hpr, Hkey. intros [?|Hq]; [done|]. by apply source_key_apart in Hq.
  - apply all_inserted; [done|]. apply Hsign.
  - intros b. rewrite Hp. apply E5.
Qed.

Lemma verify_keeps_ok k m w v w' :
  verify_fund_source k m w = (Ok v, w') -> books_ok w -> books_ok w'.
Proof.
  intros H [[F1 F2 F3] T1 T2 T3 T4 E1 E2 E3 E4 E6 E5].
  pose proof (fun b => verify_source_postings _ _ _ _ _ b H) as Hp.
  apply verify_source_run in H as (e & He & _ & _ & Hv & Hw).
  rewrite Hw in Hp |- *. split; try done.
  split; [done|by apply insert_row_wf|]. cbn. apply all_inserted; [done|]. rewrite Hv. eauto.
Qed.

Lemma settle_keys w p :
  books_ok w ->
  (settled p w = false -> forall k e, rows (fund_entries w) !! k = Some e -> fe_source_key e <> settlement_source_key p) /\
  first (fun l => l~>le_settlement ==? next (settlements w)) (ledger w) = None.
Proof.
  intros [_ _ T2 _ _ _ E2 _ E4 _ _]. split.
  - intros Hun k e He Hk. by rewrite (E4 k e p He (or_intror Hk)) in Hun.
  - apply first_None. intros k l Hl. apply bool_decide_eq_false. cbn. intros E.
    destruct (E2 _ _ Hl) as (s0 & Hs0 & _). rewrite E, table_wf_fresh in Hs0; done.
Qed.

Lemma keeps_queue_event {R : world -> world -> Prop} `{!PreOrder R} ev t p prev b w :
  (forall r, R w (w <| outbox ::= insert_row r |>)) -> keeps R (queue_platform_event ev t p prev b) w.
Proof.
  intros HR. unfold keeps. destruct (queue_platform_event ev t p prev b w) as [[e|x] w'] eqn:E; cbn [snd].
  - apply queue_run in E as (i & _ & _ & [[-> _]|(_ & _ & ->)]); [reflexivity|apply HR].
  - apply queue_Err in E as ->. reflexivity.
Qed.

Lemma settle_keeps (R : world -> world -> Prop) `{!PreOrder R} p m tr ev w :
  (forall w r, R w (w <| outbox ::= insert_row r |>)) ->
  (forall w g, R w (w <| settlements ::= g |>)) -> (forall w g, R w (w <| funds ::= g |>)) ->
  (forall w g, R w (w <| fund_entries ::= g |>)) -> (forall w g, R w (w <| ledger ::= g |>)) ->
  (forall w g, R w (w <| audits ::= g |>)) -> keeps R (settle p m tr ev) w.
Proof.
  intros. unfold settle, publish_settlement_entry, create_settlement_outflow, _resident_payload,
    _collect_document_checks, build_settlement_evidence_payload, insert_entry_at, check_entry,
    current_version_of, _require_proof, insert_settlement, save_settlement_event, get_or_create_fund,
    insert_fund, allocate_fund_entry_id, quotation_check, proposal_case, insert_ledger.
  repeat first [apply keeps_queue_event; auto | keeps_svc_step | solve [auto]].
Qed.

Lemma settled_total_insert s w w' prow b :
  table_wf (settlements w) -> settlements w' = insert_row s (settlements w) ->
  proposals w' = proposals w -> rows (proposals w) !! se_proposal s = Some prow ->
  settled_total b w' = settled_total b w + (if pr_building prow ==? b then se_amount_vnd s else 0).
Proof.
  intros Hwf Hs Hp Hrow. unfold settled_total. rewrite Hs, select_insert_row by done.
  assert (forall x, settles_for b w' x = settles_for b w x) as Hx by (intros; unfold settles_for; by rewrite Hp).
  rewrite (select_ext (settles_for b w') (settles_for b w)) by done. rewrite Hx, fmap_app, zsum_app.
  unfold settles_for at 2. cbn. rewrite Hrow. case_bool_decide; cbn; lia.
Qed.

(** An outflow posted and published for a proposal that had none. *)
Lemma postings_settle w w' wa wb p prow f e l b :
  books_ok w -> settled p w = false -> get_or_create_fund (pr_building prow) wa = (Ok f, wb) ->
  funds wa = funds w -> funds wb = funds w' ->
  fund_entries w' = insert_row e (fund_entries w) -> ledger w' = insert_row l (ledger w) ->
  fe_fund e = pk f -> fe_entry_type e = OUTFLOW -> fe_proposal e = Some p -> le_proposal l = p ->
  postings b w' = postings b w + (if pr_building prow ==? b then fe_amount_vnd e else 0).
Proof.
  intros [[F1 _ _] T1 T2 T3 _ E1 _ _ E4 _ _] Hun Hf Hf1 Hf2 He Hl Hef Het Hep Hlp.
  rewrite <- Hf1 in T1. destruct (in_fund_created _ _ _ _ b Hf T1) as [Hold Hnew].
  unfold in_fund, fund_of in Hold, Hnew. rewrite Hf1, Hf2 in Hold. rewrite Hf2 in Hnew.
  assert (forall q, proposal_published w' q = (p ==? q) || proposal_published w q) as Hpub.
  { intros q. unfold proposal_published. rewrite Hl, exists_insert_row by done. cbn. by rewrite Hlp. }
  unfold postings at 1. rewrite (entries_total_insert _ w w' e) by done.
  assert (in_fund b w' (Obj (next (fund_entries w)) e) = (pr_building prow ==? b)) as ->
    by (by apply (Hnew (Obj (next (fund_entries w)) e))).
  assert (_finalized_posting_q w' (Obj (next (fund_entries w)) e) = true) as ->.
  { unfold _finalized_posting_q. cbn [val]. rewrite Het, Hep, Hpub, (bool_decide_eq_true_2 (p = p)); done. }
  rewrite andb_true_r. f_equal. apply entries_total_ext. intros k x Hk. f_equal.
  - apply (Hold (Obj k x)). eauto.
  - unfold _finalized_posting_q. cbn. destruct (fe_proposal x) as [q|] eqn:Hq; [|done].
    rewrite Hpub, (bool_decide_eq_false_2 (p = q)); [done|]. intros <-.
    by rewrite (E4 k x p Hk (or_introl Hq)) in Hun.
Qed.

(** It is no source. *)
Lemma verified_settle w w' wa wb b0 f e b :
  books_ok w -> get_or_create_fund b0 wa = (Ok f, wb) -> funds wa = funds w -> funds wb = funds w' ->
  fund_entries w' = insert_row e (fund_entries w) -> fund_verifications w' = fund_verifications w ->
  fe_entry_type e = OUTFLOW -> verified_sources b w' = verified_sources b w.
Proof.
  intros [[F1 _ _] T1 _ _ _ E1 _ _ _ _ _] Hf Hf1 Hf2 He Hv Het.
  rewrite <- Hf1 in T1. destruct (in_fund_created _ _ _ _ b Hf T1) as [Hold _].
  unfold in_fund, fund_of in Hold. rewrite Hf1, Hf2 in Hold.
  unfold verified_sources at 1. rewrite (entries_total_insert _ w w' e) by done.
  unfold _source_verified_q at 2. cbn [val]. rewrite Het, andb_false_r, Z.add_0_r.
  apply entries_total_ext. intros k x Hk. unfold _source_verified_q. rewrite Hv. f_equal.
  apply (Hold (Obj k x)). eauto.
Qed.

Lemma settle_keeps_ok p m tr ev w s w' :
  settle p m tr ev w = (Ok s, w') -> books_ok w -> books_ok w'.
Proof.
  intros H [F T1 T2 T3 T4 E1 E2 E3 E4 E6 E5]. apply settle_run in H as [H Hun].
  2, 3: by apply settle_keys.
  apply settling_writes in H as (prow & v & f & e & l & Hp & _ & _ & _ & Hpos & Hsp & Ha & Hk & He & Hlp & Hls &
    _ & _ & (w1 & w2 & Hf & Hf1 & Hf2) & Hw).
  change (settled p w = false) in Hun.
  assert (settlements w' = insert_row (val s) (settlements w) /\ fund_entries w' = insert_row e (fund_entries w) /\
    ledger w' = insert_row l (ledger w) /\ proposals w' = proposals w /\
    fund_verifications w' = fund_verifications w) as (Ws & We & Wl & Wp & Wv) by (by rewrite Hw).
  assert (forall q, settled q w' = (p ==? q) || settled q w) as Hmono.
  { intros q. unfold settled. rewrite Ws, exists_insert_row by done. cbn. by rewrite Hsp. }
  pose proof (get_or_create_fund_stored _ _ _ _ Hf ltac:(by rewrite Hf1)) as (Hwf & Hst & Hkeep).
  rewrite Hf1 in Hkeep. rewrite Hf2 in Hwf, Hst, Hkeep.
  split.
  - by eapply (fund_ok_insert w).
  - done.
  - rewrite Ws. by apply insert_row_wf.
  - rewrite Wl. by apply insert_row_wf.
  - by rewrite Wp.
  - rewrite We. apply all_inserted; [eauto|]. rewrite He. eauto.
  - rewrite Wl, Ws. apply all_inserted.
    + intros k x (s0 & Hs0 & ?)%E2. exists s0. split; [|done]. cbn. rewrite lookup_insert_ne; [done|].
      intros E. by rewrite <- E, table_wf_fresh in Hs0.
    + rewrite Hls, Hk, Hlp. exists (val s). by rewrite lookup_inserted.
  - rewrite Ws, Wp. apply all_inserted; [done|]. rewrite Hsp. eauto.
  - intros k x q Hx Hq. rewrite Hmono. apply orb_true_iff. rewrite We, lookup_insert_row in Hx.
    case_decide; [|by eauto]. left. injection Hx as <-. apply bool_decide_eq_true. rewrite He in Hq.
    destruct Hq as [[= Hq]|Hq%settlement_key_inj]; done.
  - rewrite We. apply all_inserted; [done|]. rewrite He. cbn. apply Z.ltb_lt. lia.
  - intros b. rewrite (settled_total_insert (val s) w w' prow) by (done || by rewrite Hsp).
    erewrite (postings_settle w w' w1 w2 p prow f e l) by (done || by rewrite He).
    rewrite E5, He. cbn. case_bool_decide; lia.
Qed.

(** What an accepted settlement posts. *)
Lemma settle_effect p m tr ev w s w1 :
  settle p m tr ev w = (Ok s, w1) -> books_ok w ->
  exists prow v l, rows (proposals w) !! p = Some prow /\ pr_status prow = PCompleted /\
    pr_current_version prow = Some (pk v) /\ rows (versions w) !! pk v = Some (val v) /\
    0 < s~>se_amount_vnd /\ s~>se_proposal = p /\ s~>se_amount_vnd = v~>ve_amount_vnd /\
    settlements w1 = insert_row (val s) (settlements w) /\
    ledger w1 = insert_row l (ledger w) /\ le_proposal l = p /\ le_actual_cost_vnd l = v~>ve_amount_vnd /\
    le_contractor_name l = v~>ve_contractor_name /\ settled p w = false /\
    forall b, balance b true w1 =
      balance b true w - (if pr_building prow ==? b then s~>se_amount_vnd else 0).
Proof.
  intros Hs Hok. destruct (settle_keys _ p Hok) as [Hk1 Hk2]. apply settle_run in Hs as [Hs Hun]; [|done|done].
  apply settling_writes in Hs as (prow & v & f & e & l & Hp & Hst & Hcv & Hv & Hpos & Hsp & Ha & _ & He & Hlp & _ &
    Hlc & Hln & (wa & wb & Hf & Hf1 & Hf2) & Hw).
  exists prow, v, l. rewrite <- Ha. do 7 (split; [done|]). split; [by rewrite Hw|]. split; [by rewrite Hw|].
  do 4 (split; [done|]). intros b. rewrite !balance_split.
  rewrite (verified_settle w w1 wa wb (pr_building prow) f e) by first [done | by rewrite He | by rewrite Hw].
  rewrite (postings_settle w w1 wa wb p prow f e l) by first [done | by rewrite He | by rewrite Hw].
  rewrite He. cbn. case_bool_decide; lia.
Qed.

Lemma same_books_ok w w' :
  same (fun w => (books w, proposals w)) w w' -> books_ok w -> books_ok w'.
Proof.
  intros H Hok. eapply books_ok_frame; [exact (f_equal fst H)| |done].
  rewrite (f_equal snd H : proposals w' = proposals w). reflexivity.
Qed.

(** After the commit only notices are left to register. *)
Lemma record_settlement_run p m tr ev w :
  (exists e, record_settlement p m tr ev w = (Err e, w)) \/
  exists s w1 ns, settle p m tr ev w = (Ok s, w1) /\
    (record_settlement p m tr ev w).2 = w1 <| w_on_commit := ns |>.
Proof.
  unfold record_settlement. destruct (settle p m tr ev w) as [[s|e] w1] eqn:E; [right|left].
  - exists s, w1. destruct (told_settled s w1) as [ns Hn]. exists ns. split; [done|].
    unfold swallow, try_except, mbind, M_bind, mret, M_ret in *. rewrite E.
    destruct (notify_settled s w1) as [[[]|e] w2]; cbn in *; congruence.
  - exists e. unfold mbind, M_bind. rewrite E. unfold settle in E. by apply atomic_Err in E as ->.
Qed.

Lemma record_settlement_Ok p m tr ev w s w' :
  record_settlement p m tr ev w = (Ok s, w') ->
  exists w1 ns, settle p m tr ev w = (Ok s, w1) /\ w' = (w1 <| w_on_commit := ns |>).
Proof.
  intros H. destruct (record_settlement_run p m tr ev w) as [[e He]|(s0 & w1 & ns & He & Hw)].
  - by rewrite H in He.
  - rewrite H in Hw. cbn in Hw. unfold record_settlement in H. inv_ok. rewrite He in H. simplify_eq. eauto.
Qed.

Lemma run_books_ok op w : books_ok w -> books_ok (run_books op w).2.
Proof.
  intros Hok. destruct op as [b|f t a e m|k m|p m tr ev|c n|op]; cbn [run_books];
    try (match goal with |- books_ok ((?m ≫= _) w).2 =>
      assert (((m ≫= (fun _ => mret tt)) w).2 = (m w).2) as -> by
        (unfold mbind, M_bind; by destruct (m w) as [[?|?] ?]) end).
  - destruct (get_or_create_fund b w) as [[f|x] w'] eqn:E; [by eapply open_keeps_ok|].
    pose proof (get_or_create_Err _ _ _ _ E) as ->. done.
  - destruct (record_fund_source _ _ _ _ _ _ _ _ w) as [[o|x] w'] eqn:E; [by eapply record_keeps_ok|].
    unfold record_fund_source in E. by apply atomic_Err in E as ->.
  - destruct (verify_fund_source _ _ w) as [[o|x] w'] eqn:E; [by eapply verify_keeps_ok|].
    unfold verify_fund_source in E. by apply atomic_Err in E as ->.
  - destruct (record_settlement_run p m tr ev w) as [[e ->]|(s & w1 & ns & E & ->)]; [done|].
    apply (same_books_ok w1); [reflexivity|]. by eapply settle_keeps_ok.
  - eapply same_books_ok; [|done]. exact (f_equal fst (deliver_keeps c n w)).
  - eapply books_ok_frame; [apply proposals_keep_books| |done]. apply keeps_proposal_ops.
Qed.

Lemma books_run_ok w w' : books_run w w' -> books_ok w -> books_ok w'.
Proof. induction 1; [done|]. intros. apply run_books_ok. auto. Qed.

(** Publications extend the chain of versions; nothing else rewrites what it reads. *)
Lemma run_books_chain op w :
  chain_ok (versions w) (outbox w) ->
  chain_ok (versions (run_books op w).2) (outbox (run_books op w).2).
Proof.
  intros Hok. destruct op as [b|f t a e m|k m|p m tr ev|c n|op]; cbn [run_books];
    try (match goal with |- context [((?m ≫= _) w).2] =>
      assert (((m ≫= (fun _ => mret tt)) w).2 = (m w).2) as -> by
        (unfold mbind, M_bind; by destruct (m w) as [[?|?] ?]) end).
  - destruct (get_or_create_fund b w) as [[f|x] w'] eqn:E; cbn [snd].
    + apply fund_frame in E. by rewrite E.
    + by pose proof (get_or_create_Err _ _ _ _ E) as ->.
  - destruct (record_fund_source _ _ _ _ _ _ _ _ w) as [[o|x] w'] eqn:E; cbn [snd].
    + apply record_source_run in E as (_ & _ & _ & _ & _ & _ & _ & _ & _ & Hw). by rewrite Hw.
    + unfold record_fund_source in E. by apply atomic_Err in E as ->.
  - destruct (verify_fund_source _ _ w) as [[o|x] w'] eqn:E; cbn [snd].
    + apply verify_source_run in E as (_ & _ & _ & _ & _ & Hw). by rewrite Hw.
    + unfold verify_fund_source in E. by apply atomic_Err in E as ->.
  - assert (same versions w (record_settlement p m tr ev w).2 /\
      on outbox (evolves OutboxWorker.delivery_step) w (record_settlement p m tr ev w).2) as [-> Ho].
    { destruct (record_settlement_run p m tr ev w) as [[e ->]|(s & w1 & ns & E & ->)]; [by split|].
      split.
      - pose proof (settle_keeps (same versions) p m tr ev w) as H. unfold keeps, same in H. rewrite E in H. by apply H.
      - pose proof (settle_keeps (on outbox (evolves OutboxWorker.delivery_step)) p m tr ev w) as H.
        unfold keeps in H. rewrite E in H. apply H; intros; unfold on; try reflexivity.
        apply evolves_insert. apply _. }
    eapply chain_ok_deliver; [|done]. exact Ho.
  - pose proof (f_equal snd (deliver_keeps c n w) : versions _ = versions w) as ->.
    eapply chain_ok_deliver; [|done]. apply keeps_process_due.
  - destruct (publishes op) eqn:Ep.
    + destruct op as [| | |p m q tok|]; try done. cbn [run_proposal].
      unfold mbind, M_bind. destruct (publish_proposal_version p m q tok w) as [[v|x] w'] eqn:E; cbn [snd].
      * eapply chain_ok_publish; [|done]. by eapply publish_run.
      * unfold publish_proposal_version in E. by apply atomic_Err in E as ->.
    + pose proof (proposals_keep_records op w Ep) as H.
      rewrite (f_equal (fun r => r.1.2) H : versions _ = versions w).
      by rewrite (f_equal snd H : outbox _ = outbox w).
Qed.

Lemma books_run_chain w w' :
  books_run w w' -> chain_ok (versions w) (outbox w) -> chain_ok (versions w') (outbox w').
Proof. induction 1; [done|]. intros. apply run_books_chain. auto. Qed.
(** Every settlement is in the published ledger. *)
Definition ledgered w : Prop :=
  forall k s, rows (settlements w) !! k = Some s -> proposal_published w (se_proposal s) = true.

Lemma ledgered_same w w' :
  same (fun w => (settlements w, ledger w)) w w' -> ledgered w -> ledgered w'.
Proof.
  unfold ledgered, proposal_published. intros H.
  by rewrite (f_equal fst H : settlements w' = _), (f_equal snd H : ledger w' = _).
Qed.

Lemma run_books_ledgered op w : books_ok w -> ledgered w -> ledgered (run_books op w).2.
Proof.
  intros Hok Hl. destruct op as [b|f t a e m|k m|p m tr ev|c n|op]; cbn [run_books];
    try (match goal with |- ledgered ((?m ≫= _) w).2 =>
      assert (((m ≫= (fun _ => mret tt)) w).2 = (m w).2) as -> by
        (unfold mbind, M_bind; by destruct (m w) as [[?|?] ?]) end).
  - apply (ledgered_same w); [|done]. destruct (get_or_create_fund b w) as [[f|x] w'] eqn:E; cbn [snd].
    + apply fund_frame in E. by rewrite E.
    + by pose proof (get_or_create_Err _ _ _ _ E) as ->.
  - apply (ledgered_same w); [|done]. destruct (record_fund_source _ _ _ _ _ _ _ _ w) as [[o|x] w'] eqn:E; cbn [snd].
    + apply record_source_run in E as (_ & _ & _ & _ & _ & _ & _ & _ & _ & Hw). by rewrite Hw.
    + unfold record_fund_source in E. by apply atomic_Err in E as ->.
  - apply (ledgered_same w); [|done]. destruct (verify_fund_source _ _ w) as [[o|x] w'] eqn:E; cbn [snd].
    + apply verify_source_run in E as (_ & _ & _ & _ & _ & Hw). by rewrite Hw.
    + unfold verify_fund_source in E. by apply atomic_Err in E as ->.
  - destruct (record_settlement_run p m tr ev w) as [[e ->]|(s & w1 & ns & E & ->)]; [done|].
    apply (ledgered_same w1); [reflexivity|].
    apply settle_effect in E as (prow & v & l & _ & _ & _ & _ & _ & Hsp & _ & Hs & Hlg & Hlp & _); [|done].
    unfold ledgered, proposal_published. rewrite Hs, Hlg. apply all_inserted.
    + intros k x Hx. rewrite exists_insert_row by apply Hok. apply orb_true_iff. right. by eapply Hl.
    + rewrite exists_insert_row by apply Hok. apply orb_true_iff. left. cbn. apply bool_decide_eq_true. congruence.
  - apply (ledgered_same w); [|done].
    pose proof (f_equal (fun r => r.1.1) (deliver_keeps c n w)) as H. unfold same. apply books_inv in H as (_ & _ & _ & -> & ->). done.
  - apply (ledgered_same w); [|done].
    pose proof (proposals_keep_books op w) as H. unfold same. apply books_inv in H as (_ & _ & _ & -> & ->). done.
Qed.
End Invariant.

(** ** Properties *)

Section Properties.
Context {CR : Crypto} {ETH : EthAccount}.
Implicit Types (w : world).

(** A database before any fund, settlement or publication. *)
Definition fresh_books w : Prop :=
  books w = books (empty_world (w_settings w) 0) /\ table_wf (proposals w).

Lemma fresh_books_ok w : fresh_books w -> books_ok w.
Proof.
  intros [(Hf & He & Hv & Hs & Hl)%books_inv Hp]. cbn in Hf, He, Hv, Hs, Hl. split.
  - split; rewrite ?He, ?Hv; (apply empty_table_wf || done).
  - rewrite Hf. apply empty_table_wf.
  - rewrite Hs. apply empty_table_wf.
  - rewrite Hl. apply empty_table_wf.
  - done.
  - by rewrite He.
  - by rewrite Hl.
  - by rewrite Hs.
  - by rewrite He.
  - by rewrite He.
  - intros b. unfold postings, settled_total, entries_total. by rewrite He, Hs.
Qed.

(** C1: the fund balances.  From a database without funds, after any sequence of recording
    and verifying sources, settling proposals, publishing, deciding and working on them and
    delivering evidence, the balance reported for a building is the sum of its verified
    sources less the sum of the settlements of its proposals. *)
Theorem books_balance w0 w b :
  fresh_books w0 -> books_run w0 w -> known_building b w = true ->
  fund_balance b true w = (Ok (verified_sources b w - settled_total b w), w).
Proof.
  intros Hf Hr Hb. apply fund_balance_Ok. split; [done|]. split; [done|].
  pose proof (books_run_ok _ _ Hr (fresh_books_ok _ Hf)) as Hok.
  rewrite balance_split, (bo_balance _ Hok). lia.
Qed.

(** C5: the versions of a proposal stay chained through their evidence events.  The event
    of a first version follows the zero hash, and the event of every other one names the
    payload hash of the event of the version numbered one less; no operation, delivery to
    the chain included, breaks a link, and no two versions share a number. *)
Theorem version_chain_kept w0 w :
  chain_ok (versions w0) (outbox w0) -> books_run w0 w -> chain_ok (versions w) (outbox w).
Proof. intros H Hr. by eapply books_run_chain. Qed.

(** C2: what settling posts.  Only a completed proposal without a settlement is settled; the
    amount is the one frozen in its current version, the ledger entry publishes that amount
    for that contractor, the building's verified balance falls by exactly that amount, every
    other building's balance stays, and the proposal is never settled again. *)
Theorem settle_posts p m tr ev w s w' :
  record_settlement p m tr ev w = (Ok s, w') -> books_ok w ->
  (exists prow v, rows (proposals w) !! p = Some prow /\ pr_status prow = PCompleted /\
    pr_current_version prow = Some (pk v) /\ rows (versions w) !! pk v = Some (val v) /\
    s~>se_proposal = p /\ s~>se_amount_vnd = v~>ve_amount_vnd /\
    (exists l, ledger w' = insert_row l (ledger w) /\ le_proposal l = p /\
      le_actual_cost_vnd l = v~>ve_amount_vnd /\ le_contractor_name l = v~>ve_contractor_name) /\
    forall b, balance b true w' =
      balance b true w - (if pr_building prow ==? b then v~>ve_amount_vnd else 0)) /\
  settled p w = false /\
  forall m2 tr2 ev2 s2 w2, record_settlement p m2 tr2 ev2 w' <> (Ok s2, w2).
Proof.
  intros (w1 & ns & Hs & ->)%record_settlement_Ok Hok.
  pose proof (settle_keeps_ok _ _ _ _ _ _ _ Hs Hok) as Hok1.
  apply settle_effect in Hs as (prow & v & l & Hp & Hst & Hcv & Hv & _ & Hsp & Ha & Hse & Hl & Hlp & Hlc & Hln & Hun & Hb);
    [|done].
  split; [|split; [done|]].
  - exists prow, v. do 6 (split; [done|]). split; [by exists l|]. rewrite <- Ha. exact Hb.
  - intros m2 tr2 ev2 s2 w2 (w3 & ns2 & Hs2 & _)%record_settlement_Ok.
    apply settle_effect in Hs2 as (_ & _ & _ & _ & _ & _ & _ & _ & _ & _ & _ & _ & _ & _ & _ & Hun2 & _);
      [|by apply (same_books_ok w1)].
    change (settled p w1 = false) in Hun2. unfold settled in Hun2. rewrite Hse in Hun2.
    rewrite exists_insert_row in Hun2 by apply Hok. cbn in Hun2. by rewrite Hsp, bool_decide_eq_true_2 in Hun2.
Qed.

(** The evidence of a settlement.  An active manager of the building settles, with a
    clean payment proof stored for that building; the event queued with the settlement
    follows the event of the proposal's current version and hashes a payload that names the
    settlement, its amount, the version's number and the digest of the proof. *)
Theorem settlement_evidence p m tr ev w s w' :
  record_settlement p m tr ev w = (Ok s, w') -> books_ok w ->
  exists prow v d a pe e bytes, rows (proposals w) !! p = Some prow /\
    pr_current_version prow = Some (pk v) /\ rows (versions w) !! pk v = Some (val v) /\
    first (manages m~>mb_user (pr_building prow)) (memberships w) = Some a /\ s~>se_settled_by = pk a /\
    tr = Some (pk d) /\ s~>se_transfer = pk d /\
    (exists doc, rows (documents w) !! d~>dv_document = Some doc /\ dc_kind doc = PAYMENT_PROOF /\
      dc_building doc = pr_building prow /\ d~>dv_scan_status = CLEAN) /\
    rows (outbox w) !! v~>ve_outbox_event = Some pe /\
    s~>se_outbox_event = Some (pk e) /\ rows (outbox w') !! pk e = Some (val e) /\
    e~>ev_event_type = SETTLEMENT /\ e~>ev_previous_hash = py_lower ("0x" +:+ ev_payload_hash pe) /\
    canonical_bytes (settlement_payload s v~>ve_number d~>dv_sha256) = Ok bytes /\
    e~>ev_payload_hash = sha256 bytes.
Proof.
  intros (w1 & ns & Hs & ->)%record_settlement_Ok Hok. destruct (settle_keys _ p Hok) as [Hk1 Hk2].
  apply settle_run in Hs as [[prow v a d pe e wq f wf fe l Hp _ Hm [Hcv Hv] Hpr Hs _ Hpe Hq _ Hf _ _ Hw] _]; [|done|done].
  destruct (require_proof_run _ _ _ _ _ Hpr) as (_ & Htr & _ & Hd).
  pose proof (fund_frame _ _ _ _ Hf) as Hfw. apply queue_run in Hq as (i & Hi & Hmt & Hwq).
  apply sign_event_Ok in Hi as (_ & _ & Hpre & _ & _ & Hc & _ & _ & Hd' & _).
  apply matches_signed_Ok in Hmt as (Ht & _ & Hph & Hprev & _).
  exists prow, v, d, a, pe, e, (si_canonical i). subst s. cbn [val se_settled_by se_transfer se_outbox_event].
  repeat (split; [done|]). split.
  - cbn. rewrite Hw, Hfw. cbn. destruct Hwq as [[-> Hfe]|(_ & -> & ->)]; [by apply first_Some in Hfe as [? _]|].
    apply lookup_inserted.
  - split; [done|]. split; [congruence|]. split; [done|congruence].
Qed.

(** The abstract account book: a number per building, moved by credits and debits. *)
Inductive account_step (acc acc' : Z -> Z) : Prop :=
  | account_idle : (forall b, acc' b = acc b) -> account_step acc acc'
  | account_credit b0 n : 0 < n -> (forall b, acc' b = acc b + if b0 ==? b then n else 0) -> account_step acc acc'
  | account_debit b0 n : 0 < n -> (forall b, acc' b = acc b - if b0 ==? b then n else 0) -> account_step acc acc'.
Definition accounts w : Z -> Z := fun b => balance b true w.

Lemma accounts_frame w w' :
  books w' = books w -> account_step (accounts w) (accounts w').
Proof.
  intros (Hf & He & Hv & _ & Hl)%books_inv. apply account_idle. intros b. unfold accounts, balance, entries_total,
    in_fund, fund_of, counted, _source_verified_q, _finalized_posting_q, proposal_published.
  by rewrite Hf, He, Hv, Hl.
Qed.

Lemma verify_accounts k m w v w' :
  verify_fund_source k m w = (Ok v, w') -> books_ok w -> account_step (accounts w) (accounts w').
Proof.
  intros H Hok. pose proof (fun b => verify_source_balance _ _ _ _ _ b H (bo_fund _ Hok)) as Hb.
  apply verify_source_run in H as (e & He & Hs & _).
  assert (0 < fe_amount_vnd e) as Hpos.
  { pose proof (bo_signs _ Hok _ _ He) as Hsg. unfold amount_sign_ok in Hsg.
    destruct (fe_entry_type e); try done; by apply Z.ltb_lt. }
  assert (forall b, accounts w' b = accounts w b + if in_fund b w (Obj k e) then fe_amount_vnd e else 0) as Ha.
  { intros b. destruct (Hb b) as (e' & He' & Ht & _). assert (e' = e) as -> by congruence. done. }
  destruct (bo_entry_fund _ Hok _ _ He) as [f Hf].
  assert (forall b, in_fund b w (Obj k e) = true -> b = fu_building f) as Hin.
  { intros b (f' & Hf' & <-)%in_fund_building. cbn in Hf'. congruence. }
  destruct (in_fund (fu_building f) w (Obj k e)) eqn:E.
  - apply (account_credit _ _ (fu_building f) (fe_amount_vnd e)); [done|]. intros b. rewrite Ha.
    case_bool_decide as Eb; [by rewrite <- Eb, E|]. destruct (in_fund b w (Obj k e)) eqn:E'; [|done].
    by rewrite (Hin b E') in Eb.
  - apply account_idle. intros b. rewrite Ha. destruct (in_fund b w (Obj k e)) eqn:E'; [|lia].
    rewrite (Hin b E') in E'. congruence.
Qed.


(** Nothing settled waits for publication.  Whatever operations ran since the books were
    empty, a settled proposal is in the published ledger, so the reconciliation list of
    every building is empty. *)
Theorem reconciliation_empty w0 w b :
  fresh_books w0 -> books_run w0 w -> pending_reconciliation_proposals b w = (Ok [], w).
Proof.
  intros Hf Hr. assert (books_ok w /\ ledgered w) as [_ Hl].
  { induction Hr as [|op w1 Hr [IH1 IH2]].
    - split; [by apply fresh_books_ok|]. destruct Hf as [Hf%books_inv _]. destruct Hf as (_ & _ & _ & Hs & _).
      intros k s. by rewrite Hs.
    - split; [by apply run_books_ok|by apply run_books_ledgered]. }
  unfold pending_reconciliation_proposals, gets. do 2 f_equal.
  rewrite (proj2 (select_nil _ _)); [done|]. intros k p Hp.
  destruct (proposal_published w k) eqn:E; cbn [pk]; rewrite E; [by rewrite andb_false_r|].
  assert (exists_ (fun s => (s~>se_proposal ==? k) && settlement_settled w s) (settlements w) = false) as ->;
    [|by rewrite andb_false_r].
  apply exists_false. intros j s Hs. cbn. apply andb_false_iff. left. apply bool_decide_eq_false_2. intros Hsk.
  specialize (Hl j s Hs). congruence.
Qed.
End Properties.

(** ** Concrete runs *)

Definition demo_step (op : books_op) (w : world) : world :=
  (run_books (CR := demo_crypto) (ETH := demo_account) op w).2.
Definition event_3 : string := "0x" +:+ foldr String.append EmptyString (repeat "03" 32).
(** The proposal's work is done, and building 1 holds a payment proof and an invoice. *)
Definition demo_worked : world :=
  (complete_case_work 1 1 "Pipe" "Replaced" demo_started).2
    <| decisions ::= insert_row (Decision_ 1 None 1 "plumbing" "normal" 1 "maintenance" 60 []) |>
    <| documents ::= insert_row (Document 1 PAYMENT_PROOF) |>
    <| doc_versions ::= insert_row (DocVersion 2 1 "documents/1/t" "1" "transfer.pdf" "application/pdf" 9
         (sha256 (Crypto := demo_crypto) "transfer") CLEAN 1) |>
    <| documents ::= insert_row (Document 1 INVOICE) |>
    <| doc_versions ::= insert_row (DocVersion 3 1 "documents/1/i" "1" "invoice.pdf" "application/pdf" 9
         "bbbbbbbbbbbbbbbbbbbbbbbbbbbbbbbbbbbbbbbbbbbbbbbbbbbbbbbbbbbbbbbb" CLEAN 1) |>.
Definition demo_verified : world :=
  demo_step (VerifySource 1 demo_manager) (demo_step
    (RecordSource 1 OPENING_BALANCE (PInt 9000000) (Some 3) demo_manager) (demo_step (OpenFund 1) demo_worked)).
Definition demo_settle : result (obj settlement_row) * world :=
  record_settlement (CR := demo_crypto) (ETH := demo_account) 1 demo_manager (Some 2) event_3 demo_verified.
Definition demo_settled : world := demo_step (Settle 1 demo_manager (Some 2) event_3) demo_verified.
Definition demo_settlement : obj settlement_row := got (Obj 0 (Settlement 0 0 0 0 0 None)) demo_settle.

Lemma demo_run : books_run (CR := demo_crypto) (ETH := demo_account) demo_worked demo_settled.
Proof. do 4 eapply books_next. apply books_start. Qed.
Lemma demo_fresh : fresh_books demo_worked.
Proof. split; [vm_compute; reflexivity|apply table_wf_b_true; vm_compute; reflexivity]. Qed.
Lemma demo_verified_ok : books_ok demo_verified.
Proof.
  apply (books_run_ok (CR := demo_crypto) (ETH := demo_account) demo_worked).
  - do 3 eapply books_next. apply books_start.
  - apply fresh_books_ok, demo_fresh.
Qed.

Lemma books_balance_witness :
  verified_sources 1 demo_settled = 9000000 /\ settled_total 1 demo_settled = 5000000 /\
  fund_balance 1 true demo_settled =
    (Ok (verified_sources 1 demo_settled - settled_total 1 demo_settled), demo_settled).
Proof.
  do 2 (split; [vm_compute; reflexivity|]).
  refine (books_balance (CR := demo_crypto) (ETH := demo_account) demo_worked demo_settled 1 demo_fresh demo_run _).
  vm_compute. reflexivity.
Defined.

Lemma reconciliation_empty_witness :
  pending_reconciliation_proposals 1 demo_settled = (Ok [], demo_settled).
Proof.
  refine (reconciliation_empty (CR := demo_crypto) (ETH := demo_account) demo_worked demo_settled 1 demo_fresh demo_run).
Defined.


Lemma settle_posts_witness :
  settled 1 demo_verified = false /\
  forall m2 tr2 ev2 s2 w2,
    record_settlement (CR := demo_crypto) (ETH := demo_account) 1 m2 tr2 ev2 demo_settle.2 <> (Ok s2, w2).
Proof.
  refine (proj2 (settle_posts (CR := demo_crypto) (ETH := demo_account) 1 demo_manager (Some 2) event_3
    demo_verified demo_settlement demo_settle.2 _ demo_verified_ok)).
  vm_compute. reflexivity.
Defined.

Lemma settlement_evidence_witness :
  exists e, rows (outbox demo_settle.2) !! 2 = Some e /\ ev_event_type e = SETTLEMENT.
Proof.
  assert (demo_settlement~>se_outbox_event = Some 2) as He by (vm_compute; reflexivity).
  destruct (settlement_evidence (CR := demo_crypto) (ETH := demo_account) 1 demo_manager (Some 2) event_3
    demo_verified demo_settlement demo_settle.2 ltac:(vm_compute; reflexivity) demo_verified_ok)
    as (? & ? & ? & ? & ? & e & ? & _ & _ & _ & _ & _ & _ & _ & _ & _ & Hk & Hr & Ht & _).
  exists (val e). split; [|exact Ht]. rewrite He in Hk. injection Hk as Hk. rewrite Hk. exact Hr.
Defined.

(** Two published versions of one proposal. *)
Definition demo_publish_op (amount : Z) (event_id : string) : books_op :=
  Manage (Publish 1 demo_manager (demo_request amount event_id) "token").
Definition demo_twice : world :=
  demo_step (demo_publish_op 6000000 event_2) (demo_step (demo_publish_op 5000000 event_1) demo_draft).

Lemma demo_draft_chain : chain_ok (versions demo_draft) (outbox demo_draft).
Proof.
  split; try (apply table_wf_b_true; vm_compute; reflexivity).
  - intros k v Hk. by vm_compute in Hk.
  - intros k v Hk. by vm_compute in Hk.
  - intros j k u v Hj. by vm_compute in Hj.
Qed.
Lemma demo_worked_chain : chain_ok (versions demo_worked) (outbox demo_worked).
Proof.
  set (w := demo_step (demo_publish_op 5000000 event_1) demo_draft).
  assert (versions demo_worked = versions w /\ outbox demo_worked = outbox w) as [-> ->]
    by (split; vm_compute; reflexivity).
  apply (run_books_chain (CR := demo_crypto) (ETH := demo_account)), demo_draft_chain.
Qed.

Lemma version_chain_kept_witness :
  length (objs (versions demo_twice)) = 2%nat /\ chain_ok (versions demo_twice) (outbox demo_twice).
Proof.
  split; [vm_compute; reflexivity|].
  refine (version_chain_kept (CR := demo_crypto) (ETH := demo_account) demo_draft demo_twice demo_draft_chain _).
  do 2 eapply books_next. apply books_start.
Defined.
