(* ===== verification/Integrity.v ===== *)
(** * Integrity: checking a published entry against its evidence

    [finance/integrity.py].  The check re-hashes the stored documents, the stored evidence
    payloads and the rows the residents are shown, asks the chain when there is one, and
    appends an observation.  The node's answers during the check are an [rpc]; [client] is
    what constructing the client gives, [read_error] the message of a failed download. *)

From S2P Require Import OutboxWorker Prelude Table PyStr Json Schema Store Accounts Canonical Signatures.
From S2P Require Import Timestamps Evidence Notifications Hooks Cases Documents Proposals Fund Settlements Books.
Open Scope Z_scope.

Definition _CASE_PAYLOAD_FIELDS : list string :=
  ["case_id"; "case_snapshot_hash"; "report_id"; "report_snapshot_hash"; "estimated_amount_vnd";
   "photo_hash"; "photo_hashes"].
Definition is_case_field (kv : pyval * pyval) : bool :=
  existsb (fun f => kv.1 ==? PStr f) _CASE_PAYLOAD_FIELDS.

Definition outbox_status_str (s : outbox_status) : string :=
  match s with
  | PENDING => "PENDING"
  | SUBMITTED => "SUBMITTED"
  | CONFIRMED => "CONFIRMED"
  | LOCAL => "LOCAL"
  | FAILED => "FAILED"
  | MISMATCH => "MISMATCH"
  end.
Definition verdict_str (v : verdict) : string :=
  match v with
  | VVerified => "VERIFIED"
  | VMismatch => "MISMATCH"
  | VUnavailable => "UNAVAILABLE"
  end.

Definition opt_str (o : option string) : pyval := match o with Some s => PStr s | None => PNone end.

Section Integrity.
Context {CR : Crypto} {ETH : EthAccount} (ST : storage) (read_error : doc_version_row -> string).

(** ** Local evidence *)

Definition _stream_sha256 (v : doc_version_row) : option string := sha256 <$> _read_stored_version ST v.

Definition _proposal_version_payload (version : obj version_row) (stored : list (pyval * pyval)) :
    DB pyval :=
  links ← query prop_docs (fun l => l~>pd_version ==? pk version);
  quotations ← map_m (fun l => get_row doc_versions "DocumentVersion" l~>pd_document_version) links;
  proposal ← get_row proposals "Proposal" version~>ve_proposal;
  documents_ ← _submission_snapshot proposal version~>ve_amount_vnd version~>ve_contractor_name
    version~>ve_purpose version~>ve_proposed_action version~>ve_expected_schedule quotations
    version~>ve_number version~>ve_expected_start version~>ve_expected_end;
  rebuilt ← (match documents_.2 with PDict d => mret d | _ => raise AttributeError end);
  mret (PDict (List.filter (fun kv => negb (is_case_field kv)) rebuilt ++ List.filter is_case_field stored)).

(** The evidence payload of the rows an event stands for, when it stands for any. *)
Definition published_payload (event : obj outbox_row) : DB (option pyval) :=
  let stored := match event~>ev_payload with PDict d => d | _ => [] end in
  version ← query_first versions (fun v => v~>ve_outbox_event ==? pk event);
  match version with
  | Some v => payload ← _proposal_version_payload v stored; mret (Some payload)
  | None =>
    settlement ← query_first settlements (fun s => s~>se_outbox_event ==? Some (pk event));
    match settlement with
    | Some s => payload ← build_settlement_evidence_payload s; mret (Some payload)
    | None => mret None
    end
  end.

Record local_check := LocalCheck {
  lc_event_id : string; lc_local_hash : string; lc_stored_rehash : option string;
  lc_error : option string; lc_rows_rehash : option string; lc_verified : bool }.

Definition check_local_evidence (event : obj outbox_row) : DB local_check :=
  let stored_hash := py_lower (removeprefix "0x" event~>ev_payload_hash) in
  stored ← (match payload_hash event~>ev_payload with
    | Ok h => mret (Some h, None)
    | Err (TypeError m) => mret (None, Some m)
    | Err (ValueError m) => mret (None, Some m)
    | Err e => raise e
    end);
  rebuilt ← published_payload event;
  published ← (match rebuilt with
    | Some p => h ← of_result (payload_hash p); mret (Some h)
    | None => mret None
    end);
  mret (LocalCheck event~>ev_event_id stored_hash stored.1 stored.2 published
    ((stored.1 ==? Some stored_hash) &&
     match published with None => true | Some h => h ==? stored_hash end)).

Definition local_check_json (c : local_check) : pyval :=
  mk_dict ([("event_id", PStr (lc_event_id c)); ("local_payload_hash", PStr (lc_local_hash c));
            ("stored_payload_rehash", opt_str (lc_stored_rehash c))]
    ++ match lc_error c with Some m => [("error", PStr m)] | None => [] end
    ++ [("published_rows_rehash", opt_str (lc_rows_rehash c));
        ("result", PStr (if lc_verified c then "VERIFIED" else "MISMATCH"))]).

Definition _check_local_records (events : list (obj outbox_row)) : DB (bool * pyval) :=
  checks ← map_m check_local_evidence events;
  mret (forallb lc_verified checks, PList (local_check_json <$> checks)).

Definition _related_outbox_events (entry : obj ledger_row) : DB (list (obj outbox_row)) :=
  settlement ← _load_execution_chain entry~>le_proposal;
  vs ← gets (fun w => order_by (fun v => v~>ve_number)
    (select (fun v => v~>ve_proposal ==? entry~>le_proposal) (versions w)));
  events ← map_m (fun v => get_row outbox "BlockchainOutboxEvent" v~>ve_outbox_event) vs;
  last ← of_option AttributeError settlement~>se_outbox_event;
  last ← get_row outbox "BlockchainOutboxEvent" last;
  mret (events ++ [last]).

(** ** The chain *)

Definition chain_head (event : obj outbox_row) : metadata :=
  [("event_id", PStr event~>ev_event_id); ("local_payload_hash", PStr event~>ev_payload_hash);
   ("local_status", PStr (outbox_status_str event~>ev_status))].
Definition skipped (result : string) (event : obj outbox_row) : metadata :=
  [("event_id", PStr event~>ev_event_id); ("local_status", PStr (outbox_status_str event~>ev_status));
   ("result", PStr result)].

(** The verdict on one event, and what is written about it. *)
Definition check_chain_record (c : rpc) (event : obj outbox_row) : verdict * metadata :=
  match OutboxWorker.find c event with
  | Err exc => (VUnavailable, chain_head event ++ [("result", PStr "UNAVAILABLE"); ("error", PStr (exn_str exc))])
  | Ok None =>
    (VUnavailable, chain_head event ++ ("result", PStr "UNAVAILABLE") ::
       match event~>ev_status with CONFIRMED => [("error", PStr "chain record missing")] | _ => [] end)
  | Ok (Some record) =>
    let on_chain := removeprefix "0x" (cr_payload_hash record) in
    let local := removeprefix "0x" event~>ev_payload_hash in
    let result := if on_chain ==? local then VVerified else VMismatch in
    (result, chain_head event ++
       [("chain_payload_hash", PStr on_chain); ("result", PStr (verdict_str result))])
  end.

(** [(chain_ok, chain_unavailable, details)]; the details are the checks, and what comes
    before and after them in the dictionary. *)
Record chain_details := ChainDetails {
  cd_before : metadata; cd_checks : list metadata; cd_after : metadata }.
Definition chain_details_json (d : chain_details) : metadata :=
  cd_before d ++ ("chain_checks", PList (mk_dict <$> cd_checks d)) :: cd_after d.

Definition _check_chain_records (client : result rpc) (st : settings) (events : list (obj outbox_row)) :
    option bool * bool * chain_details :=
  if st_anchoring_disabled st
  then (None, true, ChainDetails [("anchoring_backend", PStr "disabled")]
         (skipped "SKIPPED_ANCHORING_DISABLED" <$> events) [])
  else
    let is_local e := e~>ev_status ==? LOCAL in
    let skipped_checks := skipped "SKIPPED_LOCAL" <$> List.filter is_local events in
    let chain_events := List.filter (fun e => negb (is_local e)) events in
    match chain_events with
    | [] => (None, true, ChainDetails [] skipped_checks [])
    | _ =>
      match client with
      | Err exc => (None, true, ChainDetails [] skipped_checks [("chain_error", PStr (exn_str exc))])
      | Ok c =>
        let checks := check_chain_record c <$> chain_events in
        let details := ChainDetails [] (skipped_checks ++ checks.*2) [] in
        if existsb (fun r => r.1 ==? VMismatch) checks then (Some false, false, details)
        else if existsb (fun r => r.1 ==? VUnavailable) checks then (None, true, details)
        else (Some true, false, details)
      end
    end.

(** ** Documents *)

(** One document: its result, the digest read, and what is written about it. *)
Definition check_document (check : document_check) : verdict * option string * metadata :=
  let version := dk_version check in
  let expected := if py_bool (dk_expected check) then dk_expected check else PStr version~>dv_sha256 in
  let item := [("document_version_id", PInt (pk version)); ("gate", PStr (dk_gate check));
               ("expected_hash", expected); ("stored_sha256", PStr version~>dv_sha256)] in
  match _stream_sha256 (val version) with
  | None => (VUnavailable, None,
      item ++ [("result", PStr "UNAVAILABLE"); ("error", PStr (read_error (val version)))])
  | Some actual =>
    let result := if negb (actual ==? version~>dv_sha256) || negb (PStr actual ==? expected)
                  then VMismatch else VVerified in
    (result, Some actual, item ++ [("actual_hash", PStr actual); ("result", PStr (verdict_str result))])
  end.

(** [doc_result] after the loop: the last document that did not verify decides. *)
Definition next_doc_result (doc_result : verdict) (check : verdict) : verdict :=
  match check with VVerified => doc_result | other => other end.
Definition doc_result_of (checks : list verdict) : verdict := foldl next_doc_result VVerified checks.

(** ** The verdict *)

Definition conclude (doc_result : verdict) (local_ok : bool) (chain_ok : option bool)
    (chain_unavailable : bool) (events : list (obj outbox_row)) : verdict :=
  match doc_result with
  | VMismatch => VMismatch
  | VUnavailable => VUnavailable
  | VVerified =>
    if negb local_ok || (chain_ok ==? Some false) then VMismatch
    else if chain_unavailable then
      if forallb (fun e => is_settled e~>ev_status) events then VVerified else VUnavailable
    else VVerified
  end.

(** The chain answered for every event. *)
Definition consulted (checks : list metadata) : bool :=
  negb (Nat.eqb (length checks) 0) &&
  forallb (fun c => match assoc "result" c with
    | Some (PStr r) => (r ==? "VERIFIED") || (r ==? "MISMATCH")
    | _ => false
    end) checks.

Definition verify_published_entry (client : result rpc) (entry_id : Z) : DB (obj observation_row) :=
  atomic (
    entry ← query_first ledger (fun l => pk l ==? entry_id);
    entry ← of_option (ValidationError "Published ledger entry does not exist.") entry;
    proposal ← get_row proposals "Proposal" entry~>le_proposal;
    settlement ← _load_execution_chain (pk proposal);
    version_id ← of_option AttributeError proposal~>pr_current_version;
    version ← get_row versions "ProposalVersion" version_id;
    document_checks ← _collect_document_checks (val version) (val settlement);
    let documents_ := check_document <$> document_checks in
    let checked_hashes := omap (fun d => d.1.2) documents_ in
    let doc_result := doc_result_of ((fun d => d.1.1) <$> documents_) in
    events ← _related_outbox_events entry;
    local ← _check_local_records events;
    st ← get_settings;
    let '(chain_ok, chain_unavailable, chain) := _check_chain_records client st events in
    let result := conclude doc_result local.1 chain_ok chain_unavailable events in
    let details := mk_dict ([("documents", PList ((fun d => mk_dict d.2) <$> documents_));
        ("local_checks", local.2)] ++ chain_details_json chain
        ++ [("document_result", PStr (verdict_str doc_result))]) in
    now ← timezone_now;
    observation ← create observations (Observation (pk entry) result checked_hashes
      ((fun e => e~>ev_event_id) <$> events) (consulted (cd_checks chain)) details now);
    (match result with
     | VMismatch =>
       published ← get_row settlements "Settlement" entry~>le_settlement;
       publisher ← get_row memberships "ManagementMembership" published~>se_settled_by;
       record_audit publisher~>mb_user (Some (pk publisher)) "integrity.mismatch" "PublishedLedgerEntry"
         (zstr (pk entry)) "mismatch"
         [("observation_id", PInt (pk observation)); ("action_item", PStr "integrity_mismatch");
          ("details", details)] ;;
       swallow (notify_integrity_mismatch entry observation)
     | _ => mret tt
     end) ;;
    mret observation).
End Integrity.

(** ** Facts *)

Section Facts.
Context {CR : Crypto} {ETH : EthAccount} (ST : storage) (read_error : doc_version_row -> string).
Implicit Types (w : world).

Lemma foldl_doc_result l v : foldl next_doc_result v l = VVerified -> v = VVerified /\ Forall (eq VVerified) l.
Proof.
  revert v. induction l as [|x l IH]; intros v H; [done|]. cbn in H. apply IH in H as [H Hl].
  destruct x; cbn in H; [|done..]. split; [done|]. by constructor.
Qed.

(** The loop's result is the last one that is not VERIFIED. *)
Lemma doc_result_last l x : x <> VVerified -> doc_result_of (l ++ [x]) = x.
Proof. unfold doc_result_of. rewrite foldl_app. cbn. by destruct x. Qed.

Lemma check_document_verified check :
  (check_document ST read_error check).1.1 = VVerified ->
  _stream_sha256 ST (val (dk_version check)) = Some (dk_version check)~>dv_sha256 /\
  (py_bool (dk_expected check) = true -> dk_expected check = PStr (dk_version check)~>dv_sha256).
Proof.
  unfold check_document. destruct (_stream_sha256 _ _) as [a|]; [|done]. cbn.
  destruct (negb (a ==? _) || _) eqn:E; [done|]. intros _. to_prop. split; [by subst|].
  intros Hb. rewrite Hb in *. congruence.
Qed.

Lemma conclude_verified d l c u es :
  conclude d l c u es = VVerified ->
  d = VVerified /\ l = true /\ c <> Some false /\
  (u = true -> forallb (fun e => is_settled e~>ev_status) es = true).
Proof.
  unfold conclude. destruct d; try done. destruct l; cbn; [|done].
  destruct (c ==? Some false) eqn:E; [done|]. to_prop. destruct u; [|done].
  destruct (forallb _ es) eqn:E'; [|done]. done.
Qed.

(** What the readers leave alone. *)
Lemma published_payload_reads e w o w' : published_payload e w = (Ok o, w') -> w' = w.
Proof.
  unfold published_payload, _proposal_version_payload, build_settlement_evidence_payload. intros H. inv_db.
  repeat (case_match; inv_db); try done;
  repeat match goal with
  | H : map_m _ _ _ = _ |- _ => apply map_m_reads in H; [subst|intros ????; intros; by inv_db]
  | H : _submission_snapshot _ _ _ _ _ _ _ _ _ _ _ = _ |- _ => unfold _submission_snapshot in H; inv_db
  | H : proposal_case _ _ = _ |- _ => apply proposal_case_run in H; subst
  end; try done.
Qed.

(** What one re-hash establishes. *)
Definition intact w (e : obj outbox_row) : Prop :=
  payload_hash e~>ev_payload = Ok (py_lower (removeprefix "0x" e~>ev_payload_hash)) /\
  (forall p, published_payload e w = (Ok (Some p), w) ->
    payload_hash p = Ok (py_lower (removeprefix "0x" e~>ev_payload_hash))).

Lemma check_local_run e w c w' :
  check_local_evidence e w = (Ok c, w') -> w' = w /\ (lc_verified c = true -> intact w e).
Proof.
  unfold check_local_evidence, intact. intros H. inv_ok_step. inv_ok_step.
  match goal with H : match payload_hash ?p with _ => _ end _ = (Ok ?st, ?w1) |- _ =>
    assert (w1 = w /\ (forall h, st.1 = Some h -> payload_hash p = Ok h)) as [-> Hst]
      by (destruct (payload_hash p) as [?|[]]; inv_ok; simplify_eq; split; try done; by intros ? [= ->]) end.
  clear H. inv_ok_step.
  match goal with H : published_payload _ _ = (Ok ?o, ?w1) |- _ =>
    pose proof (published_payload_reads _ _ _ _ H) as ->; destruct o as [p|] eqn:Eo end; inv_ok; simplify_eq;
    (split; [done|]); cbn; intros Hv; to_prop.
  - split; [by apply Hst|]. intros q Hq. congruence.
  - split; [by apply Hst|]. intros q Hq. congruence.
Qed.

Lemma map_m_run {A B} (f : A -> DB B) (P : A -> B -> Prop) l w ys w' :
  (forall x y w2, f x w = (Ok y, w2) -> w2 = w /\ P x y) ->
  map_m f l w = (Ok ys, w') -> w' = w /\ Forall2 P l ys.
Proof.
  intros Hf. revert ys. induction l as [|x l IH]; intros ys H; cbn [map_m] in H; inv_ok; [by split|].
  match goal with H : f _ _ = _ |- _ => apply Hf in H as [-> ?] end.
  match goal with H : map_m _ _ _ = _ |- _ => apply IH in H as [-> ?] end. split; [done|]. by constructor.
Qed.
Lemma map_m_quiet {A B} (f : A -> DB B) l w : (forall x, x ∈ l -> exists y, f x w = (Ok y, w)) ->
  exists ys, map_m f l w = (Ok ys, w).
Proof.
  induction l as [|x l IH]; intros H; [by exists []|]. destruct (H x ltac:(left)) as [y Ey]. destruct IH as [ys Eys].
  { intros z Hz. apply H. by right. }
  exists (y :: ys). cbn [map_m]. rewrite (bind_run _ _ _ _ _ Ey), (bind_run _ _ _ _ _ Eys). done.
Qed.

Lemma check_records_run es w r w' :
  _check_local_records es w = (Ok r, w') -> w' = w /\ (r.1 = true -> Forall (intact w) es).
Proof.
  unfold _check_local_records. intros H. inv_ok.
  apply (map_m_run _ (fun e c => lc_verified c = true -> intact w e)) in H as [-> Hl];
    [|intros ? ? ?; apply check_local_run].
  split; [done|]. cbn. intros Hv. induction Hl as [|e c ? ? He _ IH]; [constructor|].
  cbn in Hv. apply andb_true_iff in Hv as [Hc Hv]. constructor; auto.
Qed.

Lemma load_chain_run p w s w' :
  _load_execution_chain p w = (Ok s, w') ->
  w' = w /\ rows (settlements w) !! pk s = Some (val s) /\ s~>se_proposal = p /\ is_Some s~>se_outbox_event.
Proof. unfold _load_execution_chain. intros H. inv_db. inv_query. to_prop. done. Qed.

Lemma related_events_run l w es w' :
  _related_outbox_events l w = (Ok es, w') ->
  w' = w /\ Forall (fun e => rows (outbox w) !! pk e = Some (val e)) es /\
  (forall k v, rows (versions w) !! k = Some v -> ve_proposal v = l~>le_proposal ->
    exists e, e ∈ es /\ pk e = ve_outbox_event v) /\
  exists s e, _load_execution_chain l~>le_proposal w = (Ok s, w) /\
    s~>se_outbox_event = Some (pk e) /\ e ∈ es.
Proof.
  unfold _related_outbox_events. intros H. inv_db.
  match goal with H : _load_execution_chain _ _ = _ |- _ =>
    pose proof (load_chain_run _ _ _ _ H) as (-> & _); rename H into Hs end.
  match goal with H : map_m _ _ _ = _ |- _ => rename H into Hm end.
  apply (map_m_run _ (fun v e => pk e = v~>ve_outbox_event /\ rows (outbox w) !! pk e = Some (val e))) in Hm
    as [-> Hl]; [|intros v e w2 Hg; inv_db; inv_query; split; [done|]; rewrite H; done].
  inv_query. split; [done|]. split; [|split].
  - apply Forall_app. split; [|by constructor].
    apply (Forall2_Forall_r _ _ _ _ Hl), Forall_forall. by intros v _ e [_ ?].
  - intros k v Hk Hp.
    assert (Obj k v ∈ order_by (fun v => v~>ve_number)
      (select (fun v => v~>ve_proposal ==? l~>le_proposal) (versions w))) as Hin.
    { apply elem_of_order_by, elem_of_select. split; [done|]. by apply bool_decide_eq_true. }
    apply list_elem_of_lookup in Hin as [i Hi].
    destruct (Forall2_lookup_l _ _ _ _ _ Hl Hi) as (e & He & Hpk & _).
    exists e. split; [|done]. apply elem_of_app. left. by eapply list_elem_of_lookup_2.
  - eexists _, _. split; [exact Hs|]. split; [eassumption|].
    apply elem_of_app. right. by left.
Qed.

(** What a verification read, and the observation it appended. *)
Lemma verify_run client k w o w' :
  verify_published_entry ST read_error client k w = (Ok o, w') ->
  exists entry proposal settlement version checks events local,
    rows (ledger w) !! k = Some entry /\ rows (proposals w) !! le_proposal entry = Some proposal /\
    _load_execution_chain (le_proposal entry) w = (Ok settlement, w) /\
    pr_current_version proposal = Some (pk version) /\ rows (versions w) !! pk version = Some (val version) /\
    _collect_document_checks (val version) (val settlement) w = (Ok checks, w) /\
    _related_outbox_events (Obj k entry) w = (Ok events, w) /\
    _check_local_records events w = (Ok local, w) /\
    (let '(chain_ok, unavailable, chain) := _check_chain_records client (w_settings w) events in
     o~>ob_result = conclude (doc_result_of ((fun c => (check_document ST read_error c).1.1) <$> checks))
       local.1 chain_ok unavailable events /\
     o~>ob_chain_consulted = consulted (cd_checks chain)) /\
    o~>ob_published_entry = k /\
    o = Obj (next (observations w)) (val o) /\
    (o~>ob_result <> VMismatch -> w' = w <| observations ::= insert_row (val o) |>) /\
    (o~>ob_result = VMismatch -> exists a, au_action a = "integrity.mismatch" /\
       au_target_id a = zstr k /\ au_result a = "mismatch" /\
       swallow (notify_integrity_mismatch (Obj k entry) o)
         (w <| observations ::= insert_row (val o) |> <| audits ::= insert_row a |>) = (Ok tt, w')).
Proof.
  unfold verify_published_entry. intros H. inv_db. inv_query. subst.
  destruct x1 as [k' entry]. cbn [pk val] in *. to_prop. subst k'.
  match goal with H : _load_execution_chain _ _ = _ |- _ => rewrite H1 in H;
    pose proof (load_chain_run _ _ _ _ H) as (-> & _) end.
  pose proof (collect_checks_reads _ _ _ _ _ H5) as ->.
  pose proof (related_events_run _ _ _ _ H6) as [-> _]. pose proof (check_records_run _ _ _ _ H7) as [-> _].
  exists entry, (val x3), x5, x9, x11, x13, x15. do 8 (split; [done|]).
  rewrite <- list_fmap_compose in H9. unfold compose in H9.
  destruct (_check_chain_records client (w_settings w) x13) as [[chain_ok unavailable] chain].
  inv_db. set (r := conclude _ _ _ _ _) in *.
  destruct (decide (r = VMismatch)) as [Hr|Hr].
  - clearbody r. subst r. inv_db.
    match goal with H : record_audit _ _ _ _ _ _ _ _ = _ |- _ => apply record_audit_Ok in H as (_ & -> & ->) end.
    match goal with H : swallow (notify_integrity_mismatch ?e ?ob) ?w1 = _ |- _ =>
      rename H into Hn end.
    do 3 (split; [done|]). split; [done|]. intros _. eexists.
    split_and!; [..|destruct x4; exact Hn]; done.
  - match goal with H : match r with _ => _ end ?w1 = (Ok ?u, ?w2) |- _ =>
      assert (w2 = w1) as -> by (destruct r; [by injection H|done|by injection H]) end.
    do 3 (split; [done|]). split; [done|]. intros E. by destruct Hr.
Qed.

(** The chain holds the event's hash. *)
Definition on_chain (c : rpc) (e : obj outbox_row) : Prop :=
  exists r, OutboxWorker.find c e = Ok (Some r) /\
    removeprefix "0x" (cr_payload_hash r) = removeprefix "0x" e~>ev_payload_hash.

Lemma check_chain_record_verified c e : (check_chain_record c e).1 = VVerified -> on_chain c e.
Proof.
  unfold check_chain_record, on_chain. destruct (OutboxWorker.find c e) as [[r|]|]; try done. cbn.
  case_bool_decide; [eauto|done].
Qed.

Lemma chain_records_ok client st es d :
  _check_chain_records client st es = (Some true, false, d) ->
  st_anchoring_disabled st = false /\
  exists c, client = Ok c /\ forall e, e ∈ es -> e~>ev_status <> LOCAL -> on_chain c e.
Proof.
  unfold _check_chain_records. destruct (st_anchoring_disabled st); [done|].
  destruct (List.filter _ es) as [|e0 es0] eqn:Hf; [done|]. destruct client as [c|]; [|done].
  rewrite <- Hf. clear Hf. destruct (existsb (fun r => r.1 ==? VMismatch) _) eqn:E1; [done|].
  destruct (existsb (fun r => r.1 ==? VUnavailable) _) eqn:E2; [done|]. intros _. split; [done|].
  exists c. split; [done|]. intros e He Hs. apply check_chain_record_verified.
  assert (check_chain_record c e ∈ check_chain_record c <$>
    List.filter (fun e => negb (e~>ev_status ==? LOCAL)) es) as Hin.
  { apply list_elem_of_fmap. exists e. split; [done|]. apply list_elem_of_In, filter_In.
    split; [by apply list_elem_of_In|]. by apply negb_true_iff, bool_decide_eq_false. }
  assert (forall v, existsb (fun r => r.1 ==? v) (check_chain_record c <$>
    List.filter (fun e => negb (e~>ev_status ==? LOCAL)) es) = false -> (check_chain_record c e).1 <> v) as Hno.
  { intros v Hv Hc. rewrite <- not_true_iff_false in Hv. apply Hv, existsb_exists. exists (check_chain_record c e).
    split; [by apply list_elem_of_In|]. by apply bool_decide_eq_true. }
  pose proof (Hno _ E1). pose proof (Hno _ E2). by destruct (check_chain_record c e).1.
Qed.

Lemma chain_records_cases client st es :
  exists d, _check_chain_records client st es = (None, true, d) \/
    _check_chain_records client st es = (Some false, false, d) \/
    _check_chain_records client st es = (Some true, false, d).
Proof.
  unfold _check_chain_records. destruct (st_anchoring_disabled st); [eauto|].
  destruct (List.filter _ es); [eauto|]. destruct client; [|eauto].
  destruct (existsb _ _); [eauto|]. destruct (existsb _ _); eauto.
Qed.

Lemma removeprefix_hex s : sforall is_hex s = true -> removeprefix "0x" s = s.
Proof.
  destruct s as [|c [|c2 s]]; [done| |]; unfold removeprefix; cbn [drop_prefix].
  - by destruct (Ascii.eqb _ c).
  - intros H. destruct (Ascii.eqb "0" c); [|done]. destruct (Ascii.eqb_spec "x" c2) as [<-|]; [|done].
    cbn [sforall] in H. rewrite !andb_true_iff in H. by destruct H as (_ & H & _).
Qed.

(** An event whose payload and rows hash to its digest is verified. *)
Lemma check_local_verified (e : obj outbox_row) pl w :
  published_payload e w = (Ok (Some pl), w) -> payload_hash e~>ev_payload = Ok e~>ev_payload_hash ->
  payload_hash pl = Ok e~>ev_payload_hash -> sforall is_hex e~>ev_payload_hash = true ->
  exists c, check_local_evidence e w = (Ok c, w) /\ lc_verified c = true /\
    lc_rows_rehash c = Some e~>ev_payload_hash.
Proof.
  intros Hpub Hst Hpl Hhex. unfold check_local_evidence. rewrite Hst, removeprefix_hex, lower_hex by done.
  erewrite bind_run by reflexivity. rewrite (bind_run _ _ _ _ _ Hpub). rewrite Hpl.
  eexists. split; [reflexivity|]. cbn. by rewrite !bool_decide_eq_true_2.
Qed.

(** The rows an event of a settlement stands for. *)
Lemma published_settlement w (s : obj settlement_row) kv v d prow (e : obj outbox_row) :
  first (fun v => v~>ve_outbox_event ==? pk e) (versions w) = None ->
  first (fun s => s~>se_outbox_event ==? Some (pk e)) (settlements w) = Some s ->
  rows (proposals w) !! s~>se_proposal = Some prow -> pr_current_version prow = Some kv ->
  rows (versions w) !! kv = Some v -> rows (doc_versions w) !! s~>se_transfer = Some d ->
  published_payload e w = (Ok (Some (settlement_payload s (ve_number v) (dv_sha256 d))), w).
Proof.
  intros Hv Hs Hp Hcv Hkv Hd. unfold published_payload, build_settlement_evidence_payload, get_row, find,
    query_first, gets, of_option, mbind, M_bind, mret, M_ret.
  rewrite Hv, Hs, Hp. cbn. rewrite Hcv, Hkv. cbn. by rewrite Hd.
Qed.
End Facts.

(** ** Properties *)

Section Properties.
Context {CR : Crypto} {ETH : EthAccount} (ST : storage) (read_error : doc_version_row -> string).
Implicit Types (w : world).

(** C3: VERIFIED means intact.  When the check of a published entry concludes VERIFIED, every
    document of the entry was read back and hashes to its stored digest and to the digest the
    proposal's snapshot names; every event of the entry, one per version of the proposal and
    the settlement's, has a payload that hashes to the anchored digest; the version and
    settlement rows shown to residents hash to it as well; and either every event is settled
    or the chain holds the digest of every event that is not local. *)
Theorem verified_intact client k w o w' :
  verify_published_entry ST read_error client k w = (Ok o, w') -> o~>ob_result = VVerified ->
  exists entry settlement version checks events,
    rows (ledger w) !! k = Some entry /\
    rows (settlements w) !! pk settlement = Some (val settlement) /\
    settlement~>se_proposal = le_proposal entry /\
    rows (versions w) !! pk version = Some (val version) /\
    _collect_document_checks (val version) (val settlement) w = (Ok checks, w) /\
    Forall (fun c => _stream_sha256 ST (val (dk_version c)) = Some (dk_version c)~>dv_sha256 /\
      (py_bool (dk_expected c) = true -> dk_expected c = PStr (dk_version c)~>dv_sha256)) checks /\
    (forall j v, rows (versions w) !! j = Some v -> ve_proposal v = le_proposal entry ->
       exists e, e ∈ events /\ pk e = ve_outbox_event v) /\
    (exists e, e ∈ events /\ settlement~>se_outbox_event = Some (pk e)) /\
    Forall (intact w) events /\
    (forallb (fun e => is_settled e~>ev_status) events = true \/
     exists c, client = Ok c /\ forall e, e ∈ events -> e~>ev_status <> LOCAL -> on_chain c e).
Proof.
  intros (entry & proposal & settlement & version & checks & events & local & Hl & Hp & Hs & Hcv & Hv & Hc &
    He & Hloc & Hres & _)%verify_run Hver.
  pose proof (related_events_run _ _ _ _ He) as (_ & _ & Hall & s' & e & Hs' & Hse & Hin).
  pose proof (check_records_run _ _ _ _ Hloc) as [_ Hint].
  pose proof (load_chain_run _ _ _ _ Hs) as (_ & Hrow & Hsp & _).
  assert (s' = settlement) as -> by (cbn in Hs'; congruence).
  exists entry, settlement, version, checks, events. do 5 (split; [done|]).
  destruct (chain_records_cases client (w_settings w) events) as [d Hd].
  destruct (_check_chain_records client (w_settings w) events) as [[ok u] d'] eqn:Ech.
  destruct Hres as [Hres _]. rewrite Hver in Hres. symmetry in Hres.
  apply conclude_verified in Hres as (Hdoc & Hl1 & Hok & Hu).
  split; [|split; [done|split; [eauto|split; [auto|]]]].
  - apply foldl_doc_result in Hdoc as [_ Hdoc]. rewrite Forall_fmap in Hdoc.
    eapply Forall_impl; [exact Hdoc|]. intros c Hv1. by apply (check_document_verified ST read_error).
  - destruct Hd as [Hd|[Hd|Hd]]; simplify_eq; [by left; auto|].
    right. by apply chain_records_ok in Ech as (_ & c & ? & ?); eauto.
Qed.

(** A check only adds to the record.  It appends one observation of the entry and writes
    nothing else unless the verdict is MISMATCH, when it also appends one audit event that
    names the entry, and may queue notices. *)
Theorem verify_appends_only client k w o w' :
  verify_published_entry ST read_error client k w = (Ok o, w') ->
  o = Obj (next (observations w)) (val o) /\ o~>ob_published_entry = k /\
  (o~>ob_result <> VMismatch -> w' = w <| observations ::= insert_row (val o) |>) /\
  (o~>ob_result = VMismatch -> exists a ns, au_action a = "integrity.mismatch" /\ au_target_id a = zstr k /\
    w' = w <| observations ::= insert_row (val o) |> <| audits ::= insert_row a |> <| w_on_commit := ns |>).
Proof.
  intros (entry & proposal & settlement & version & checks & events & local & _ & _ & _ & _ & _ & _ & _ & _ & _ &
    Hk & Ho & Hno & Hm)%verify_run.
  do 3 (split; [done|]). intros H. destruct (Hm H) as (a & ? & ? & _ & Hn).
  match type of Hn with swallow (notify_integrity_mismatch ?e _) ?w1 = _ =>
    destruct (told_integrity_mismatch e o w1) as [ns Hns] end.
  rewrite Hns in Hn. injection Hn as <-. eauto.
Qed.

(** C31: a settlement verifies.  Right after it is recorded, the event queued for a settlement
    re-hashes to its stored digest from its payload and from the rows shown to residents. *)
Theorem settlement_event_verifies p m tr ev w s w' :
  record_settlement p m tr ev w = (Ok s, w') -> books_ok w -> chain_ok (versions w) (outbox w) ->
  exists e c, s~>se_outbox_event = Some (pk e) /\ rows (outbox w') !! pk e = Some (val e) /\
    check_local_evidence e w' = (Ok c, w') /\ lc_verified c = true /\
    lc_rows_rehash c = Some e~>ev_payload_hash.
Proof.
  intros (w1 & ns & Hs & ->)%record_settlement_Ok Hok Hch. destruct (settle_keys _ p Hok) as [Hk1 Hk2].
  apply settle_run in Hs as [[prow v a d pe e wq f wf fe l Hp _ _ [Hcv Hv] Hpr Hs _ _ Hq Honce Hf _ _ Hw] _]; [|done|done].
  destruct (require_proof_run _ _ _ _ _ Hpr) as (_ & _ & Hd & _).
  pose proof (fund_frame _ _ _ _ Hf) as Hfw. pose proof (queue_frame _ _ _ _ _ _ _ _ Hq) as Hqw.
  apply queue_run in Hq as (i & Hi & Hmt & Hwq).
  apply sign_event_Ok in Hi as (_ & _ & _ & _ & _ & Hc & _ & Hc2 & Hd' & _).
  apply matches_signed_Ok in Hmt as (Ht & Hpl & Hph & _).
  assert (rows (outbox wq) !! pk e = Some (val e)) as Hrow.
  { destruct Hwq as [[-> Hfe]|(_ & -> & ->)]; [by apply first_Some in Hfe as [? _]|]. apply lookup_inserted. }
  set (W := w1 <| w_on_commit := ns |>).
  assert (versions W = versions w /\ settlements W = insert_row (val s) (settlements w) /\
    proposals W = proposals w /\ doc_versions W = doc_versions w /\ outbox W = outbox wq) as (Wv & Ws & Wp & Wd & Wo)
    by (unfold W; rewrite Hw, Hfw, Hqw; done).
  pose proof (published_settlement W s (pk v) (val v) (val d) prow e) as Hpub.
  assert (payload_hash e~>ev_payload = Ok e~>ev_payload_hash) as Hst by (unfold payload_hash; rewrite Hpl, Hph, Hc2, Hd'; done).
  assert (payload_hash (settlement_payload s v~>ve_number d~>dv_sha256) = Ok e~>ev_payload_hash) as Hrows
    by (unfold payload_hash; rewrite Hph, Hc, Hd'; done).
  destruct (check_local_verified e (settlement_payload s v~>ve_number d~>dv_sha256) W) as (c & Hcheck & ? & ?).
  - apply Hpub; [| |by rewrite Wp, Hs|done|by rewrite Wv|by rewrite Wd, Hs].
    + rewrite Wv. apply first_None. intros k x Hk. apply bool_decide_eq_false. cbn. intros Ex.
      destruct (ch_event _ _ Hch _ _ Hk) as (e0 & He0 & Ht0 & _). rewrite Ex in He0.
      destruct Hwq as [[-> _]|(_ & He & _)].
      * cbn in Hrow. rewrite Hrow in He0. injection He0 as <-. by rewrite Ht in Ht0.
      * rewrite He in He0. cbn in He0. rewrite table_wf_fresh in He0 by apply Hch. done.
    + rewrite Ws, first_insert_row by apply Hok.
      rewrite (proj2 (first_None _ (settlements w))).
      * rewrite Hs. cbn. by rewrite bool_decide_eq_true_2.
      * intros k x Hk. apply bool_decide_eq_false. cbn. eapply Honce; [done|]. rewrite Hs. cbn. intros ->.
        by rewrite table_wf_fresh in Hk by apply Hok.
  - done.
  - done.
  - rewrite Hph, Hd'. apply sha256_hex.
  - exists e, c. split; [by rewrite Hs|]. split; [by rewrite Wo|]. done.
Qed.

(** Nobody is told about a mismatch of standalone spending.  For an entry without a case
    the hook raises, the caller swallows the exception, and no notice is queued whatever
    the verdict. *)
Theorem standalone_mismatch_silent client k w o w' entry :
  verify_published_entry ST read_error client k w = (Ok o, w') ->
  rows (ledger w) !! k = Some entry -> le_case entry = None -> w_on_commit w' = w_on_commit w.
Proof.
  intros (entry' & proposal & settlement & version & checks & events & local & He & _ & _ & _ & _ & _ & _ & _ & _ &
    _ & _ & Hno & Hm)%verify_run He' Hc.
  assert (entry' = entry) as -> by congruence.
  destruct (decide (o~>ob_result = VMismatch)) as [Hr|Hr]; [|by rewrite (Hno Hr)].
  destruct (Hm Hr) as (a & _ & _ & _ & Hn). unfold swallow, notify_integrity_mismatch, entry_building in Hn.
  cbn [val] in Hn. rewrite Hc in Hn. by injection Hn as <-.
Qed.
End Properties.

(** ** Concrete runs *)

(** A file store with the quotation and the payment proof. *)
Definition demo_files (quote transfer : option string) : storage :=
  Storage false None (fun _ _ _ => PNone) (fun key _ => key) (fun _ _ => None)
    (fun key => if key ==? "documents/1/q" then quote else if key ==? "documents/1/t" then transfer else None).
Definition demo_delivered : world :=
  demo_step (Deliver demo_rpc 5) (demo_settled <| w_settings := demo_disabled |>).
Definition demo_check (quote transfer : option string) : result (obj observation_row) * world :=
  verify_published_entry (CR := demo_crypto) (ETH := demo_account) (demo_files quote transfer)
    (fun _ => "not found") (Ok demo_rpc) 1 demo_delivered.
Definition demo_observation (quote transfer : option string) : obj observation_row :=
  got (Obj 0 (Observation 0 VUnavailable [] [] false PNone 0)) (demo_check quote transfer).

Lemma verified_intact_witness :
  (demo_observation (Some "quote") (Some "transfer"))~>ob_result = VVerified /\
  exists e s, rows (ledger demo_delivered) !! 1 = Some e /\ rows (settlements demo_delivered) !! pk s = Some (val s) /\
    s~>se_proposal = le_proposal e.
Proof.
  split; [vm_compute; reflexivity|].
  destruct (verified_intact (CR := demo_crypto) (ETH := demo_account) (demo_files (Some "quote") (Some "transfer"))
    (fun _ => "not found") (Ok demo_rpc) 1 demo_delivered (demo_observation (Some "quote") (Some "transfer"))
    (demo_check (Some "quote") (Some "transfer")).2 ltac:(vm_compute; reflexivity) ltac:(vm_compute; reflexivity))
    as (e & s & ? & ? & ? & He & Hs & Hp & _).
  exists e, s. repeat (split; [assumption|]). assumption.
Defined.

Lemma verify_appends_only_witness :
  (demo_observation (Some "quote") (Some "forged"))~>ob_result = VMismatch /\
  exists a ns, au_action a = "integrity.mismatch" /\ au_target_id a = zstr 1 /\
    (demo_check (Some "quote") (Some "forged")).2 = demo_delivered <|
      observations ::= insert_row (val (demo_observation (Some "quote") (Some "forged"))) |> <|
      audits ::= insert_row a |> <| w_on_commit := ns |>.
Proof.
  assert ((demo_observation (Some "quote") (Some "forged"))~>ob_result = VMismatch) as Hm by (vm_compute; reflexivity).
  split; [exact Hm|].
  refine (proj2 (proj2 (proj2 (verify_appends_only (CR := demo_crypto) (ETH := demo_account)
    (demo_files (Some "quote") (Some "forged")) (fun _ => "not found") (Ok demo_rpc) 1 demo_delivered
    (demo_observation (Some "quote") (Some "forged")) (demo_check (Some "quote") (Some "forged")).2 _))) Hm).
  vm_compute. reflexivity.
Defined.

(** A mismatch can be masked.  The quotation on file was replaced, so its digest no
    longer matches.  The check says so as long as the other document can be read; when the
    payment proof is also missing, the later document decides: the verdict is UNAVAILABLE
    and neither an audit event nor a notice reports the forged quotation. *)
Theorem missing_document_masks_mismatch :
  (demo_observation (Some "forged") (Some "transfer"))~>ob_result = VMismatch /\
  (demo_observation (Some "forged") None)~>ob_result = VUnavailable /\
  (demo_check (Some "forged") None).2 = demo_delivered <| observations ::=
    insert_row (val (demo_observation (Some "forged") None)) |>.
Proof. do 2 (split; [vm_compute; reflexivity|]). vm_compute. reflexivity. Qed.

Lemma settlement_event_verifies_witness :
  exists e c, demo_settlement~>se_outbox_event = Some (pk e) /\
    rows (outbox demo_settle.2) !! pk e = Some (val e) /\
    check_local_evidence (CR := demo_crypto) e demo_settle.2 = (Ok c, demo_settle.2) /\ lc_verified c = true /\
    lc_rows_rehash c = Some e~>ev_payload_hash.
Proof.
  refine (settlement_event_verifies (CR := demo_crypto) (ETH := demo_account) 1 demo_manager (Some 2) event_3
    demo_verified demo_settlement demo_settle.2 _ demo_verified_ok _).
  - vm_compute. reflexivity.
  - apply (books_run_chain (CR := demo_crypto) (ETH := demo_account) demo_worked); [|exact demo_worked_chain].
    do 3 eapply books_next. apply books_start.
Defined.

(** Standalone spending, from its creation to its settlement. *)
Definition demo_standalone : world :=
  let run op w := demo_step (Manage op) w in
  demo_step (Settle 1 demo_manager (Some 2) event_3)
    (run (CaseWork (CompleteProposal 1 1 "Pipe" "Replaced"))
      (run (Decide 1 1 (PBool true) "")
        (run (Publish 1 demo_manager (demo_request 5000000 event_1) "token")
          (run (CreateStandalone 1 demo_manager)
            (demo_spending
              <| documents ::= insert_row (Document 1 PAYMENT_PROOF) |>
              <| doc_versions ::= insert_row (DocVersion 2 1 "documents/1/t" "1" "transfer.pdf" "application/pdf" 9
                   (sha256 (Crypto := demo_crypto) "transfer") CLEAN 1) |>))))).
Definition demo_standalone_check : result (obj observation_row) * world :=
  verify_published_entry (CR := demo_crypto) (ETH := demo_account) (demo_files (Some "forged") (Some "transfer"))
    (fun _ => "not found") (Ok demo_rpc) 1 demo_standalone.
Definition demo_standalone_observation : obj observation_row :=
  got (Obj 0 (Observation 0 VUnavailable [] [] false PNone 0)) demo_standalone_check.
Definition demo_standalone_entry : ledger_row :=
  default (Ledger PNone (Some 0) 0 0 0 "" 0) (rows (ledger demo_standalone) !! 1).

Lemma standalone_mismatch_silent_witness :
  demo_standalone_observation~>ob_result = VMismatch /\
  w_on_commit demo_standalone_check.2 = w_on_commit demo_standalone.
Proof.
  split; [vm_compute; reflexivity|].
  refine (standalone_mismatch_silent (CR := demo_crypto) (ETH := demo_account)
    (demo_files (Some "forged") (Some "transfer")) (fun _ => "not found") (Ok demo_rpc) 1 demo_standalone
    demo_standalone_observation demo_standalone_check.2 demo_standalone_entry _ _ _); vm_compute; reflexivity.
Defined.
