(* ===== verification/Tenancy.v ===== *)
(** * Tenancy: whom a request speaks for

    [accounts/tenancy.py] and [api/occupancy.py].  A resident's request is pinned to one of
    the caller's own active occupancies, and its building is derived from that occupancy and
    from nothing the client sends. *)

From S2P Require Import Prelude Table PyStr Json Schema Store Accounts.
Open Scope Z_scope.

(** ** [int(candidate)] *)

(** Decimal digits, with single underscores between them; [digit]: the last character was one. *)
Fixpoint int_digits (digit : bool) (acc : Z) (s : string) : option Z :=
  match s with
  | EmptyString => if digit then Some acc else None
  | String c r =>
    if is_digit c then int_digits true (10 * acc + (code c - 48)) r
    else if Ascii.eqb c "_" && digit then int_digits false acc r
    else None
  end.
Definition int_text (s : string) : option Z :=
  let s := py_strip s in
  let '(sign, digits) :=
    match s with
    | String "-" r => (-1, r)
    | String "+" r => (1, r)
    | _ => (1, s)
    end in
  if MAX_INT_DIGITS <? slen (sfilter is_digit digits) then None
  else Z.mul sign <$> int_digits false 0 digits.
(** [None] when [int] raises [TypeError] or [ValueError]; no header, form field or session
    holds a float. *)
Definition int_of (v : pyval) : option Z :=
  match v with
  | PInt z => Some z
  | PBool b => Some (if b then 1 else 0)
  | PStr s => int_text s
  | _ => None
  end.

(** ** The context *)

Record TenantContext := Tenant {
  tc_building_id : Z; tc_actor : string; tc_occupancy_id : option Z; tc_membership_id : option Z }.

Definition from_occupancy (occupancy : obj occupancy_row) : DB TenantContext :=
  unit_ ← get_row units "Unit" occupancy~>oc_unit;
  mret (Tenant unit_~>un_building "resident" (Some (pk occupancy)) None).
Definition from_membership (membership : obj membership_row) : TenantContext :=
  Tenant membership~>mb_building "staff" None (Some (pk membership)).

Definition active_occupancies (user : Z) : DB (list (obj occupancy_row)) :=
  query occupancies (fun o => (o~>oc_user ==? user) && o~>oc_active).

Definition find_pk (occupancies : list (obj occupancy_row)) (wanted : Z) : option (obj occupancy_row) :=
  List.find (fun o => pk o ==? wanted) occupancies.
Definition _find (occupancies : list (obj occupancy_row)) (candidate : pyval) : option (obj occupancy_row) :=
  int_of candidate ≫= find_pk occupancies.

(** [v == k] *)
Definition is_int (v : pyval) (k : Z) : bool :=
  match v with
  | PInt z => z ==? k
  | PBool b => (if b then 1 else 0) ==? k
  | _ => false
  end.

(** [session]: the value kept under [SESSION_OCCUPANCY_KEY], before and after. *)
Definition resolve_resident_occupancy (user : Z) (session occupancy_id : option pyval) :
    DB (obj occupancy_row * list (obj occupancy_row) * option pyval) :=
  occupancies ← active_occupancies user;
  match occupancies with
  | [] => raise (PermissionDenied "Active resident occupancy is required.")
  | sole :: _ =>
    explicit ← (match occupancy_id with
      | None => mret None
      | Some candidate =>
        match _find occupancies candidate with
        | None => raise Http404
        | Some o => mret (Some o)
        end
      end);
    let selected :=
      match explicit with
      | Some o => o
      | None => default sole (session ≫= _find occupancies)
      end in
    let session := if is_int (default PNone session) (pk selected) then session else Some (PInt (pk selected)) in
    mret (selected, occupancies, session)
  end.

(** [raw]: the header [X-LamTo-Occupancy]. *)
Definition resolve_api_occupancy (user : Z) (raw : option string) : DB (obj occupancy_row * TenantContext) :=
  occupancies ← active_occupancies user;
  match occupancies with
  | [] => raise (PermissionDenied "An active resident occupancy is required.")
  | sole :: others =>
    selected ← (match raw with
      | None =>
        require (bool_decide (others = [])) OccupancySelectionRequired ;;
        mret sole
      | Some raw => of_option (NotFound "Occupancy not found.") (_find occupancies (PStr raw))
      end);
    tenant ← from_occupancy selected;
    mret (selected, tenant)
  end.

(** ** Facts *)

Implicit Types (w : world).

(** An active occupancy of the user, as stored. *)
Definition resident_of w (user : Z) (o : obj occupancy_row) : Prop :=
  rows (occupancies w) !! pk o = Some (val o) /\ oc_user (val o) = user /\ oc_active (val o) = true.

Lemma active_occupancies_run user w l w' : active_occupancies user w = (Ok l, w') ->
  w' = w /\ forall o, o ∈ l <-> resident_of w user o.
Proof.
  unfold active_occupancies. intros H. inv_db. split; [done|]. intros o. rewrite elem_of_select.
  unfold resident_of. split; intros [H1 H2]; to_prop; [done|]. destruct H2 as [-> ->]. split; [done|]. by rewrite bool_decide_eq_true_2.
Qed.

Lemma find_pk_Some l k o : find_pk l k = Some o -> o ∈ l /\ pk o = k.
Proof.
  unfold find_pk. intros H. apply find_some in H as [Hin Hk]. rewrite <-list_elem_of_In in Hin. by to_prop.
Qed.
Lemma find_Some_in l v o : _find l v = Some o -> o ∈ l /\ int_of v = Some (pk o).
Proof.
  unfold _find. destruct (int_of v) as [k|]; [|done]. cbn. intros H. apply find_pk_Some in H as [? ->]. done.
Qed.
Lemma find_None_in l v k o : _find l v = None -> int_of v = Some k -> o ∈ l -> pk o <> k.
Proof.
  unfold _find. intros H E Hin. rewrite E in H. cbn in H. intros Hk.
  apply list_elem_of_In in Hin. pose proof (find_none _ _ H _ Hin) as Hn. cbn in Hn. by rewrite bool_decide_eq_true_2 in Hn.
Qed.

Lemma from_occupancy_cases o w :
  (exists u, rows (units w) !! oc_unit (val o) = Some u /\
    from_occupancy o w = (Ok (Tenant (un_building u) "resident" (Some (pk o)) None), w)) \/
  (rows (units w) !! oc_unit (val o) = None /\ from_occupancy o w = (Err (DoesNotExist "Unit"), w)).
Proof.
  unfold from_occupancy, get_row, find, mbind, M_bind, gets, of_option.
  destruct (rows (units w) !! oc_unit (val o)) as [u|]; cbn; [left; by exists u|by right].
Qed.

Lemma active_occupancies_list user w : exists l, active_occupancies user w = (Ok l, w) /\ NoDup l /\
  forall o, o ∈ l <-> resident_of w user o.
Proof.
  destruct (active_occupancies user w) as [[l|e] w'] eqn:E; [|done]. exists l.
  apply active_occupancies_run in E as E'. destruct E' as [-> Hl]. split; [done|]. split; [|done].
  unfold active_occupancies in E. inv_db. apply NoDup_select.
Qed.

Lemma resident_of_inj w user o o' : resident_of w user o -> resident_of w user o' -> pk o = pk o' -> o = o'.
Proof. destruct o, o'. unfold resident_of. cbn. intros (? & _) (? & _) ->. congruence. Qed.

(** ** Properties *)

(** Whom a request of the resident API speaks for.  An answer is one of the caller's own
    active occupancies, the sole one or the one the header names, with the building of its
    unit; a header that names none of them is refused like an unknown one, an absent header
    is refused when there are several, and nothing is written. *)
Theorem api_occupancy_exact user raw w :
  (resolve_api_occupancy user raw w).2 = w /\
  match (resolve_api_occupancy user raw w).1 with
  | Ok (o, t) =>
    resident_of w user o /\
    match raw with
    | None => forall o', resident_of w user o' -> o' = o
    | Some s => int_text s = Some (pk o)
    end /\
    exists u, rows (units w) !! oc_unit (val o) = Some u /\
      t = Tenant (un_building u) "resident" (Some (pk o)) None
  | Err (PermissionDenied _) => forall o, ~ resident_of w user o
  | Err OccupancySelectionRequired =>
    raw = None /\ exists o o', resident_of w user o /\ resident_of w user o' /\ pk o <> pk o'
  | Err (NotFound _) => exists s, raw = Some s /\ forall o, resident_of w user o -> int_text s <> Some (pk o)
  | Err e => e = DoesNotExist "Unit" /\ exists o, resident_of w user o /\ rows (units w) !! oc_unit (val o) = None
  end.
Proof.
  unfold resolve_api_occupancy. destruct (active_occupancies_list user w) as (l & E & Hnd & Hl).
  rewrite (bind_run _ _ _ _ _ E). destruct l as [|o1 l].
  { split; [done|]. cbn. intros o Ho%Hl. inversion Ho. }
  assert (resident_of w user o1) as H1 by (apply Hl; left).
  assert (forall o, resident_of w user o -> exists r, (tenant ← from_occupancy o; mret (o, tenant)) w = (r, w) /\
    match r with
    | Ok (o', t) => o' = o /\ exists u, rows (units w) !! oc_unit (val o) = Some u /\
        t = Tenant (un_building u) "resident" (Some (pk o)) None
    | Err e => e = DoesNotExist "Unit" /\ rows (units w) !! oc_unit (val o) = None
    end) as Hsel.
  { intros o _. unfold mbind, M_bind. destruct (from_occupancy_cases o w) as [(u & Hu & ->)|[Hu ->]];
      (eexists; split; [reflexivity|]); cbn; eauto. }
  destruct raw as [s|].
  - destruct (_find (o1 :: l) (PStr s)) as [o|] eqn:Ef.
    + apply find_Some_in in Ef as Hf. destruct Hf as [Ho%Hl Hs]. rewrite (bind_run _ _ w o w) by done.
      destruct (Hsel o Ho) as ([[o' t]|e] & -> & Hr); (split; [done|]); cbn.
      * destruct Hr as [-> Hr]. done.
      * destruct Hr as [-> Hr]. eauto.
    + split; [done|]. cbn. exists s. split; [done|].
      intros o Ho Hs. apply Hl in Ho. by eapply find_None_in.
  - destruct l as [|o2 l].
    + rewrite (bind_run _ _ w o1 w) by done. destruct (Hsel o1 H1) as ([[o' t]|e] & -> & Hr); (split; [done|]); cbn.
      * destruct Hr as [-> Hr]. split; [done|]. split; [|done]. intros o Ho%Hl. by apply list_elem_of_singleton in Ho.
      * destruct Hr as [-> Hr]. eauto.
    + split; [done|]. cbn. split; [done|]. exists o1, o2.
      assert (resident_of w user o2) as H2 by (apply Hl; right; left). split; [done|]. split; [done|].
      intros Hpk. pose proof (resident_of_inj _ _ _ _ H1 H2 Hpk) as ->. apply NoDup_cons in Hnd as [Hn _]. apply Hn. left.
Qed.

Lemma is_int_int_of v k : is_int v k = true -> int_of v = Some k.
Proof. destruct v; cbn; intros H; to_prop; congruence. Qed.

(** What the session resolves to is pinned: the same session resolves to it again. *)
Lemma resident_occupancy_pinned user session explicit w o l session' w' :
  resolve_resident_occupancy user session explicit w = (Ok (o, l, session'), w') ->
  w' = w /\ resident_of w user o /\ (forall x, x ∈ l <-> resident_of w user x) /\
  (forall c, explicit = Some c -> int_of c = Some (pk o)) /\
  resolve_resident_occupancy user session' None w = (Ok (o, l, session'), w).
Proof.
  unfold resolve_resident_occupancy. destruct (active_occupancies_list user w) as (l0 & E & _ & Hl).
  rewrite !(bind_run _ _ _ _ _ E). destruct l0 as [|sole l0]; [done|]. intros H.
  assert (exists o0, o0 ∈ (sole :: l0) /\ (forall c, explicit = Some c -> int_of c = Some (pk o0)) /\
    (o0, (sole :: l0), if is_int (default PNone session) (pk o0) then session else Some (PInt (pk o0))) = (o, l, session') /\ w' = w)
    as (o0 & Ho0 & Hc & [= -> <- <-] & ->).
  { destruct explicit as [c|].
    - destruct (_find (sole :: l0) c) as [x|] eqn:Ef; [|done]. apply find_Some_in in Ef as [Hin Hx]. inv_db.
      exists x. split; [done|]. split; [by intros ? [= <-]|done].
    - inv_db. eexists. split; [|split; [done|done]].
      destruct (session ≫= _find (sole :: l0)) as [x|] eqn:Ef; [|left]. cbn.
      apply bind_Some in Ef as (v & _ & Ef). by apply find_Some_in in Ef as [? _]. }
  split; [done|]. split; [by apply Hl|]. split; [exact Hl|]. split; [exact Hc|].
  set (session' := if is_int _ _ then _ else _).
  assert (is_int (default PNone session') (pk o) = true) as Hi.
  { subst session'. destruct (is_int (default PNone session) (pk o)) eqn:Ei; [done|]. cbn. by rewrite bool_decide_eq_true_2. }
  assert (session' ≫= _find (sole :: l0) = Some o) as ->.
  { destruct session' as [v|]; [|done]. cbn in *. unfold _find.
    rewrite (is_int_int_of v (pk o) Hi). cbn - [find_pk].
    destruct (find_pk (sole :: l0) (pk o)) as [x|] eqn:Ef.
    - apply find_pk_Some in Ef as [Hx Hpk]. f_equal. apply (resident_of_inj w user); [by apply Hl..|done].
    - exfalso. apply list_elem_of_In in Ho0. pose proof (find_none _ _ Ef _ Ho0) as Hn. cbn in Hn. by rewrite bool_decide_eq_true_2 in Hn. }
  rewrite (bind_run _ _ w None w) by done. change (default sole (Some o)) with o. by rewrite Hi.
Qed.

(** ** Concrete runs *)

(** The user 1 lives in two buildings, the user 2 in one of them. *)
Definition demo_streets : world :=
  empty_world (Settings true 0 "" "" "" "" true 10) 0
    <| units ::= insert_row (Unit_ 1 "A-101") |> <| units ::= insert_row (Unit_ 2 "B-1") |>
    <| occupancies ::= insert_row (Occupancy 1 1 true) |> <| occupancies ::= insert_row (Occupancy 1 2 true) |>
    <| occupancies ::= insert_row (Occupancy 2 1 true) |>.
Example api_occupancies :
  ((fun raw => '(o, t) ← (resolve_api_occupancy 1 raw demo_streets).1; Ok (pk o, tc_building_id t)) <$>
    [None; Some " 2 "; Some "3"; Some "1_0"; Some "x"]) =
  [Err OccupancySelectionRequired; Ok (2, 2); Err (NotFound "Occupancy not found.");
   Err (NotFound "Occupancy not found."); Err (NotFound "Occupancy not found.")] /\
  ('(o, t) ← (resolve_api_occupancy 2 None demo_streets).1; Ok (pk o, tc_building_id t)) = Ok (3, 1).
Proof. vm_compute. done. Qed.
