(* ===== verification/Tokens.v ===== *)
(** * Tokens: the resident API's sessions

    [api/services.py], [api/authentication.py], [api/signals.py] and [LoginView] of
    [api/views.py].  A token is issued to an active user with an active occupancy, and is
    revoked when either is lost: by the services that deactivate, by the [post_save]
    signals, and at the latest by the request that presents it. *)

From S2P Require Import Prelude Table PyStr Schema Store Accounts Tenancy.
Open Scope Z_scope.

Definition TOKEN_CAP_PER_USER : nat := 5.

(** The address the throttle counts by: the front door writes the header. *)
Definition client_ip (forwarded remote_addr : option string) : string :=
  match forwarded with
  | Some (String _ _ as f) => py_strip (before_char "," f)
  | _ => py_strip (default "" remote_addr)
  end.

Section Tokens.
Context {CR : Crypto} (check_password : string -> string -> bool).

(** [normalize_email] lowers the domain; the whole is lowered after it. *)
Definition canonicalize_login_identifier (raw : string) : string :=
  let value := py_strip raw in
  match normalize_phone value with
  | Some phone => phone
  | None => py_lower value
  end.

(** ** Revocation *)

Definition owned_by (user : Z) (t : obj token_row) : bool := t~>tk_user ==? user.
Definition revoke_user_tokens (user : Z) : DB Z :=
  mine ← query tokens (owned_by user);
  bulk_delete tokens (owned_by user) ;;
  mret (Z.of_nat (length mine)).
Definition revoke_tokens_if_no_active_occupancy (user : Z) : DB Z :=
  occupancies ← active_occupancies user;
  if bool_decide (occupancies = []) then revoke_user_tokens user else mret 0.

(** The [post_save] receivers, after the row of the instance was written. *)
Definition revoke_tokens_for_inactive_user (instance : obj user_row) : DB unit :=
  if instance~>u_is_active then mret tt else bulk_delete tokens (owned_by (pk instance)).
Definition revoke_tokens_without_active_occupancy (instance : obj occupancy_row) : DB unit :=
  if instance~>oc_active then mret tt
  else revoke_tokens_if_no_active_occupancy instance~>oc_user ;; mret tt.

(** ** Deactivation *)

Definition inactive (r : occupancy_row) : occupancy_row := r <| oc_active := false |>.
Definition inactive_user (r : user_row) : user_row := r <| u_is_active := false |>.

Definition deactivate_occupancy (occupancy : obj occupancy_row) : DB unit :=
  (if occupancy~>oc_active then
    save_fields occupancies (fun _ => mret tt) (pk occupancy) inactive ;;
    revoke_tokens_without_active_occupancy (Obj (pk occupancy) (inactive (val occupancy)))
   else mret tt) ;;
  revoke_tokens_if_no_active_occupancy occupancy~>oc_user ;;
  mret tt.

(** [queryset]: the rows it selects. *)
Definition deactivate_occupancies (queryset : obj occupancy_row -> bool) : DB Z :=
  let active o := queryset o && o~>oc_active in
  rows_ ← query occupancies active;
  let user_ids := (fun o => o~>oc_user) <$> rows_ in
  updated ← bulk_update_count occupancies active inactive;
  users_ ← query users (fun u => bool_decide (pk u ∈ user_ids));
  for_each (fun u => revoke_tokens_if_no_active_occupancy (pk u) ;; mret tt) users_ ;;
  mret updated.

Definition deactivate_user (user : obj user_row) : DB unit :=
  (if user~>u_is_active then
    save_fields users (fun _ => mret tt) (pk user) inactive_user ;;
    revoke_tokens_for_inactive_user (Obj (pk user) (inactive_user (val user)))
   else mret tt) ;;
  revoke_user_tokens (pk user) ;;
  mret tt.

(** ** Login *)

(** [list(AuthToken.objects.filter(user=user).order_by("-created"))[4:]] *)
Definition stale_tokens (user : Z) (w : world) : list (obj token_row) :=
  drop (TOKEN_CAP_PER_USER - 1) (newest_first (fun t => t~>tk_created) (select (owned_by user) (tokens w))).

(** [LoginView.post], on validated data; [digest] and [expiry] are what [knox] stores for the
    token it hands out. *)
Definition login (raw_identifier password : string) (ip : option string) (digest : string)
    (expiry : option Z) : DB (obj token_row) :=
  let identifier := canonicalize_login_identifier raw_identifier in
  try_except (assert_not_throttled identifier ip)
    (fun e => match e with PermissionDenied _ => raise Throttled | _ => raise e end) ;;
  user ← authenticate check_password (Some identifier) (Some password);
  match user with
  | None =>
    record_auth_failure identifier ip ;;
    raise AuthenticationFailed
  | Some user =>
    occupancies ← active_occupancies (pk user);
    if bool_decide (occupancies = []) then
      record_auth_failure identifier ip ;;
      revoke_tokens_if_no_active_occupancy (pk user) ;;
      raise AuthenticationFailed
    else
      reset_auth_throttle identifier ip ;;
      stale ← gets (stale_tokens (pk user));
      for_each (fun t => bulk_delete tokens (fun o => pk o ==? pk t)) stale ;;
      now ← timezone_now;
      create tokens (AuthToken (pk user) digest now expiry)
  end.

(** ** Authentication *)

(** [knox.auth.TokenAuthentication.authenticate]: the user of a token, [None] without one. *)
Context (knox : string -> DB (option (obj user_row * Z))).

(** [ResidentTokenAuthentication.authenticate] *)
Definition authenticate_token (header : string) : DB (option (obj user_row * Z)) :=
  result ← knox header;
  match result with
  | None => mret None
  | Some (user, token) =>
    occupancies ← active_occupancies (pk user);
    if bool_decide (occupancies = []) then
      revoke_tokens_if_no_active_occupancy (pk user) ;;
      raise AuthenticationFailed
    else mret (Some (user, token))
  end.
End Tokens.

#[local] Instance token_row_eq_dec : EqDecision token_row.
Proof. solve_decision. Defined.
#[local] Instance token_obj_eq_dec : EqDecision (obj token_row).
Proof. solve_decision. Defined.

(** ** The invariant *)

Implicit Types (w : world).

Definition active_user w (user : Z) : Prop := exists u, rows (users w) !! user = Some u /\ u_is_active u = true.
(** Every token is that of an active user with an active occupancy, those of [P] aside. *)
Record tokens_but (P : Z -> Prop) w : Prop := {
  tb_wf : table_wf (tokens w);
  tb_active : forall k t, rows (tokens w) !! k = Some t -> active_user w (tk_user t);
  tb_lives : forall k t, rows (tokens w) !! k = Some t -> P (tk_user t) \/ exists o, resident_of w (tk_user t) o;
}.
Definition tokens_ok : world -> Prop := tokens_but (fun _ => False).

Lemma tokens_but_impl (P Q : Z -> Prop) w : (forall u, P u -> Q u) -> tokens_but P w -> tokens_but Q w.
Proof. intros HPQ [Wf A L]. split; [done|done|]. intros k t Hk. destruct (L k t Hk); eauto. Qed.

Lemma tokens_but_frame P w w' :
  tokens w' = tokens w -> users w' = users w -> occupancies w' = occupancies w ->
  tokens_but P w -> tokens_but P w'.
Proof.
  intros ET EU EO [Wf A L]. split; [by rewrite ET|intros k t; rewrite ET; intros Hk..].
  - destruct (A k t Hk) as (u & Hu & Ha). exists u. by rewrite EU.
  - destruct (L k t Hk) as [Hp|(o & Ho)]; [by left|right]. exists o. unfold resident_of in *. by rewrite EO.
Qed.

(** Deleting tokens keeps it; those that stay are not those of [D]. *)
Lemma tokens_but_delete P (D : obj token_row -> bool) (Q : Z -> Prop) w :
  (forall k t, rows (tokens w) !! k = Some t -> D (Obj k t) = false -> P (tk_user t) -> Q (tk_user t)) ->
  tokens_but P w -> tokens_but Q (w <| tokens ::= delete_where D |>).
Proof.
  intros HQ [Wf A L].
  assert (forall k t, rows (delete_where D (tokens w)) !! k = Some t -> rows (tokens w) !! k = Some t /\ D (Obj k t) = false)
    as Hk.
  { intros k t. rewrite lookup_delete_where. destruct (rows (tokens w) !! k) as [r|]; [|done]. cbn.
    destruct (D (Obj k r)) eqn:E; [done|]. by intros [= <-]. }
  split; cbn - [delete_where]; [by apply delete_where_wf|..].
  - intros k t [H1 _]%Hk. exact (A k t H1).
  - intros k t [H1 H2]%Hk. destruct (L k t H1) as [?|?]; [left; by eapply HQ|by right].
Qed.

Lemma revoke_user_run user w :
  exists n, revoke_user_tokens user w = (Ok n, w <| tokens ::= delete_where (owned_by user) |>).
Proof. by eexists. Qed.

(** Revoking the tokens of a user who lives nowhere settles that user. *)
Lemma revoke_if_run P user w : tokens_but P w ->
  exists n w', revoke_tokens_if_no_active_occupancy user w = (Ok n, w') /\ tokens_but (fun v => P v /\ v <> user) w' /\
    users w' = users w /\ occupancies w' = occupancies w /\
    w' = w <| tokens := tokens w' |> /\
    ((forall o, ~ resident_of w user o) -> forall k t, rows (tokens w') !! k = Some t -> tk_user t <> user).
Proof.
  intros Hok. unfold revoke_tokens_if_no_active_occupancy.
  destruct (active_occupancies_list user w) as (l & E & _ & Hl). rewrite (bind_run _ _ _ _ _ E).
  destruct l as [|o l].
  - rewrite bool_decide_eq_true_2 by done. destruct (revoke_user_run user w) as [n ->]. eexists n, _. split; [done|].
    split; [|split; [done|split; [done|split; [by destruct w|]]]].
    + eapply tokens_but_delete; [|exact Hok]. intros k t _ Hn Hp. unfold owned_by in Hn. cbn in Hn. to_prop. done.
    + intros _ k t. cbn - [delete_where]. rewrite lookup_delete_where. destruct (rows (tokens w) !! k) as [r|]; [|done]. cbn.
      unfold owned_by. cbn. case_bool_decide; [done|]. by intros [= <-].
  - rewrite bool_decide_eq_false_2 by done. exists 0, w. split; [done|]. split; [|split; [done|split; [done|split; [by destruct w|]]]].
    + destruct Hok as [Wf A L]. split; [done|done|]. intros k t Hk. destruct (L k t Hk) as [Hp|?]; [|by right].
      destruct (decide (tk_user t = user)) as [->|Hne]; [|by left].
      right. exists o. apply Hl. left.
    + intros Hno. destruct (Hno o). apply Hl. left.
Qed.

Lemma tokens_but_occupancies (P Q : Z -> Prop) w occ :
  (forall j r, rows (occupancies w) !! j = Some r -> oc_active r = true -> rows occ !! j = Some r \/ Q (oc_user r)) ->
  tokens_but P w -> tokens_but (fun v => P v \/ Q v) (w <| occupancies := occ |>).
Proof.
  intros Hocc [Wf A L]. split; [done|exact A|]. intros k t Hk.
  destruct (L k t Hk) as [Hp|(o & Ho & Hu & Ha)]; [by left; left|]. destruct (Hocc _ _ Ho Ha) as [H|H].
  - right. exists o. by split_and!.
  - left. right. by rewrite <-Hu.
Qed.

Lemma deactivate_occupancy_ok o w :
  (forall r, rows (occupancies w) !! pk o = Some r -> oc_user r = oc_user (val o)) ->
  tokens_ok w -> tokens_ok (deactivate_occupancy o w).2.
Proof.
  intros Hown Hok. unfold deactivate_occupancy.
  assert (forall P w, (forall v, P v -> v = oc_user (val o)) -> tokens_but P w ->
    tokens_ok ((revoke_tokens_if_no_active_occupancy (oc_user (val o)) ;; mret tt) w).2) as Hrev.
  { intros P v HP Hv. destruct (revoke_if_run P (oc_user (val o)) v Hv) as (n & v' & E & Hv' & _).
    rewrite (bind_run _ _ _ _ _ E). eapply tokens_but_impl; [|exact Hv']. naive_solver. }
  destruct (oc_active (val o)) eqn:Ea.
  2: { rewrite (bind_run _ _ w tt w) by done. eapply Hrev; [|exact Hok]. done. }
  unfold save_fields at 1. destruct (rows (occupancies w) !! pk o) as [r|] eqn:Er.
  2: { unfold query_pk, find, gets, mbind, M_bind. rewrite Er. exact Hok. }
  set (w1 := w <| occupancies := update (pk o) inactive (occupancies w) |>).
  assert (tokens_but (fun v => False \/ v = oc_user (val o)) w1) as H1.
  { apply tokens_but_occupancies; [|exact Hok]. intros j x Hj _. rewrite lookup_update.
    case_decide; [right|by left]. subst. rewrite Er in Hj. injection Hj as <-. by apply Hown. }
  destruct (revoke_if_run _ (oc_user (val o)) w1 H1) as (n & w2 & E & H2 & _).
  rewrite (bind_run _ _ w tt w2).
  - eapply Hrev; [|exact H2]. naive_solver.
  - unfold query_pk, find, gets, mbind, M_bind. rewrite Er. cbn - [inactive revoke_tokens_if_no_active_occupancy].
    change (w <| occupancies ::= update (pk o) inactive |>) with w1. unfold revoke_tokens_without_active_occupancy.
    cbn - [revoke_tokens_if_no_active_occupancy]. by rewrite (bind_run _ _ _ _ _ E).
Qed.

Lemma revoke_all_run us : forall P w, tokens_but P w ->
  exists w', for_each (fun u : obj user_row => revoke_tokens_if_no_active_occupancy (pk u) ;; mret tt) us w = (Ok tt, w') /\
    tokens_but (fun v => P v /\ v ∉ (pk <$> us)) w' /\ users w' = users w.
Proof.
  induction us as [|u us IH]; intros P w Hok; cbn [for_each].
  { exists w. split; [done|]. split; [|done]. eapply tokens_but_impl; [|exact Hok]. intros v Hv. split; [done|]. intros Hin. inversion Hin. }
  destruct (revoke_if_run P (pk u) w Hok) as (n & w1 & E & H1 & HU & _).
  destruct (IH _ w1 H1) as (w2 & E2 & H2 & HU2). exists w2. split.
  - rewrite (bind_run _ _ w tt w1); [done|]. by rewrite (bind_run _ _ _ _ _ E).
  - split; [|congruence]. eapply tokens_but_impl; [|exact H2]. cbn. intros v [[Hp Hne] Hn]. split; [done|].
    rewrite elem_of_cons. naive_solver.
Qed.

Lemma deactivate_occupancies_ok queryset w : tokens_ok w -> tokens_ok (deactivate_occupancies queryset w).2.
Proof.
  intros Hok. unfold deactivate_occupancies. cbv zeta. rewrite (bind_run _ _ w _ w) by done.
  set (active := fun o : obj occupancy_row => queryset o && oc_active (val o)).
  set (ids := (fun o => oc_user (val o)) <$> select active (occupancies w)).
  set (w1 := w <| occupancies := update_where active inactive (occupancies w) |>).
  rewrite (bind_run _ _ w _ w1) by done. rewrite (bind_run _ _ w1 _ w1) by done.
  assert (tokens_but (fun v => False \/ v ∈ ids) w1) as H1.
  { apply tokens_but_occupancies; [|exact Hok]. intros j x Hj Ha. rewrite lookup_update_where, Hj. cbn.
    destruct (active (Obj j x)) eqn:E; [right|by left]. apply list_elem_of_fmap. exists (Obj j x). split; [done|].
    by apply elem_of_select. }
  destruct (revoke_all_run (select (fun u => bool_decide (pk u ∈ ids)) (users w1)) _ w1 H1) as (w2 & E2 & [Wf A L] & HU).
  rewrite (bind_run _ _ w1 tt w2 E2). split; [done|exact A|]. intros k t Hk.
  destruct (L k t Hk) as [[[[]|Hin] Hn]|?]; [|by right]. destruct (A k t Hk) as (u & Hu & _). rewrite HU in Hu.
  destruct Hn. apply list_elem_of_fmap. exists (Obj (tk_user t) u). split; [done|]. apply elem_of_select.
  split; [exact Hu|]. by apply bool_decide_eq_true.
Qed.

Lemma deactivate_user_ok user w : tokens_ok w -> tokens_ok (deactivate_user user w).2.
Proof.
  intros Hok. unfold deactivate_user.
  assert (forall D w, tokens_ok w -> tokens_ok (w <| tokens ::= delete_where D |>)) as Hdel.
  { intros D v Hv. by eapply tokens_but_delete; [|exact Hv]. }
  destruct (u_is_active (val user)) eqn:Ea.
  2: { rewrite (bind_run _ _ w tt w) by done. destruct (revoke_user_run (pk user) w) as [n E].
       rewrite (bind_run _ _ _ _ _ E). by apply Hdel. }
  unfold save_fields at 1. destruct (rows (users w) !! pk user) as [r|] eqn:Er.
  2: { unfold query_pk, find, gets, mbind, M_bind. rewrite Er. exact Hok. }
  set (w1 := w <| users ::= update (pk user) inactive_user |> <| tokens ::= delete_where (owned_by (pk user)) |>).
  assert (tokens_ok w1) as H1.
  { destruct Hok as [Wf A L]. split; cbn - [delete_where update].
    - by apply delete_where_wf.
    - intros k t. rewrite lookup_delete_where. destruct (rows (tokens w) !! k) as [x|] eqn:Ek; [|done]. cbn.
      unfold owned_by. cbn. case_bool_decide as Hx; [done|]. intros [= <-].
      destruct (A k x Ek) as (u & Hu & Hua). exists u. split; [|done]. cbn - [update]. rewrite lookup_update.
      by rewrite decide_False by congruence.
    - intros k t. rewrite lookup_delete_where. destruct (rows (tokens w) !! k) as [x|] eqn:Ek; [|done]. cbn.
      unfold owned_by. cbn. case_bool_decide as Hx; [done|]. intros [= <-]. exact (L k x Ek). }
  rewrite (bind_run _ _ w tt w1).
  - destruct (revoke_user_run (pk user) w1) as [n E]. rewrite (bind_run _ _ _ _ _ E). by apply Hdel.
  - unfold query_pk, find, gets, mbind, M_bind. by rewrite Er.
Qed.

(** ** Logging in *)

(** The login throttle aside, nothing changed. *)
Definition throttled_only w w' : Prop := w' = w <| throttles := throttles w' |>.
#[local] Instance throttled_only_preorder : PreOrder throttled_only.
Proof. unfold throttled_only. split; [by intros []|]. intros x y z -> ->. done. Qed.

Lemma throttled_set f w : throttled_only w (w <| throttles ::= f |>).
Proof. done. Qed.

Section Login.
Context {CR : Crypto} (check_password : string -> string -> bool).

Lemma assert_throttled account ip w : keeps throttled_only (assert_not_throttled account ip) w.
Proof. unfold assert_not_throttled. keeps_db; try apply throttled_set; apply _. Qed.
Lemma record_throttled account ip w : keeps throttled_only (record_auth_failure account ip) w.
Proof. unfold record_auth_failure, get_or_create_bucket. keeps_db; try apply throttled_set; apply _. Qed.
Lemma reset_throttled account ip w : keeps throttled_only (reset_auth_throttle account ip) w.
Proof. unfold reset_auth_throttle. keeps_db; try apply throttled_set; apply _. Qed.

Lemma authenticate_run username password w o w' :
  authenticate check_password username password w = (Ok o, w') ->
  w' = w /\ forall u, o = Some u -> rows (users w) !! pk u = Some (val u) /\ u_is_active (val u) = true.
Proof.
  unfold authenticate, try_except. intros H. destruct username as [username|]; [|by inv_db].
  destruct password as [password|]; [|by inv_db]. apply bind_Ok in H as (found & w1 & Hf & H).
  assert (w1 = w /\ forall u, found = Some u -> rows (users w) !! pk u = Some (val u)) as [-> Hu].
  { destruct (normalize_phone username); unfold get_one, query, gets, mbind, M_bind in Hf;
      destruct (select _ _) as [|u [|? ?]] eqn:E; cbn in Hf; try done; injection Hf as <- <-; (split; [done|]);
      try done; intros ? [= ->]; eapply elem_of_select; rewrite E; left. }
  destruct found as [u|]; inv_db; [|done]. split; [done|]. intros v Hv. case_match; [|done].
  injection Hv as ->. to_prop. split; [by apply Hu|]. by destruct (u_is_active (val v)).
Qed.

Lemma delete_each_run l : forall w, exists T,
  for_each (fun t : obj token_row => bulk_delete tokens (fun o => pk o ==? pk t)) l w = (Ok tt, w <| tokens := T |>) /\
  next T = next (tokens w) /\ (table_wf (tokens w) -> table_wf T) /\
  forall k, rows T !! k = if decide (k ∈ pk <$> l) then None else rows (tokens w) !! k.
Proof.
  induction l as [|t l IH]; intros w; cbn [for_each].
  { exists (tokens w). split; [by destruct w|]. split; [done|]. split; [done|]. intros k. rewrite decide_False; [done|]. intros H. inversion H. }
  destruct (IH (w <| tokens ::= delete_where (fun o => pk o ==? pk t) |>)) as (T & E & HN & HW & HT).
  exists T. rewrite (bind_run _ _ w tt (w <| tokens ::= delete_where (fun o => pk o ==? pk t) |>)) by done.
  rewrite E. split; [done|]. split; [done|]. split; [intros Hwf; by apply HW, delete_where_wf|].
  intros k. rewrite HT. cbn - [delete_where]. rewrite lookup_delete_where.
  destruct (decide (k ∈ pk <$> l)) as [Hin|Hin]; [by rewrite decide_True by (right; done)|].
  destruct (decide (k = pk t)) as [->|Hne].
  - rewrite decide_True by (left; done). destruct (rows (tokens w) !! pk t); [|done]. cbn. by rewrite bool_decide_eq_true_2.
  - rewrite decide_False by (rewrite elem_of_cons; naive_solver).
    destruct (rows (tokens w) !! k); [|done]. cbn. by rewrite bool_decide_eq_false_2.
Qed.

Lemma not_throttled_run identifier ip w r w1 :
  try_except (assert_not_throttled identifier ip)
    (fun e => match e with PermissionDenied _ => raise Throttled | _ => raise e end) w = (r, w1) ->
  w1 = w /\ (r = Ok tt -> assert_not_throttled identifier ip w = (Ok tt, w)).
Proof.
  unfold try_except. assert (keeps eq (assert_not_throttled identifier ip) w) as Hk.
  { unfold assert_not_throttled. keeps_db; apply _. }
  unfold keeps in Hk. destruct (assert_not_throttled identifier ip w) as [[[]|e] w2]; cbn in Hk; subst w2.
  - by intros [= <- <-].
  - destruct e; intros [= <- <-]; done.
Qed.

Lemma login_run raw password ip digest expiry w t w' :
  login check_password raw password ip digest expiry w = (Ok t, w') ->
  let identifier := canonicalize_login_identifier raw in
  exists u, authenticate check_password (Some identifier) (Some password) w = (Ok (Some u), w) /\
    assert_not_throttled identifier ip w = (Ok tt, w) /\
    (rows (users w) !! pk u = Some (val u) /\ u_is_active (val u) = true) /\
    (exists o, resident_of w (pk u) o) /\
    t = Obj (next (tokens w)) (AuthToken (pk u) digest (w_now w) expiry) /\
    (forall k, rows (tokens w') !! k = if decide (k = pk t) then Some (val t)
      else if decide (k ∈ pk <$> stale_tokens (pk u) w) then None else rows (tokens w) !! k) /\
    (table_wf (tokens w) -> table_wf (tokens w')) /\
    w' = w <| throttles := throttles w' |> <| tokens := tokens w' |>.
Proof.
  intros H identifier. unfold login in H. fold identifier in H. apply bind_Ok in H as ([] & w1 & Ht & H).
  apply not_throttled_run in Ht as [-> Ha]. specialize (Ha eq_refl).
  apply bind_Ok in H as ([u|] & w2 & Hu & H); [|by inv_db].
  apply authenticate_run in Hu as Hu'. destruct Hu' as [-> Hact].
  destruct (active_occupancies_list (pk u) w) as (os & Eo & _ & Hos). rewrite (bind_run _ _ _ _ _ Eo) in H.
  destruct os as [|o os]; [rewrite bool_decide_eq_true_2 in H by done; by inv_db|].
  rewrite bool_decide_eq_false_2 in H by done.
  apply bind_Ok in H as ([] & w3 & Hr & H). pose proof (reset_throttled identifier ip w) as Hth. unfold keeps in Hth.
  rewrite Hr in Hth. unfold throttled_only in Hth. cbn in Hth.
  rewrite (bind_run _ _ w3 _ w3) in H by done.
  destruct (delete_each_run (stale_tokens (pk u) w3) w3) as (T & ED & HN & HW & HT).
  rewrite (bind_run _ _ _ _ _ ED) in H. inv_db.
  exists u. split; [done|]. split; [done|]. split; [by apply Hact|]. split; [exists o; apply Hos; left|].
  rewrite Hth in *. cbn - [insert_row stale_tokens] in *. rewrite HN.
  assert (forall th, stale_tokens (pk u) (w <| throttles := th |>) = stale_tokens (pk u) w) as Hst by done.
  split; [done|]. split.
  - intros k. rewrite lookup_insert_row, HN. destruct (decide (k = next (tokens w))) as [->|Hne]; [by rewrite decide_True|].
    rewrite decide_False by congruence. by rewrite HT, Hst.
  - split; [intros Hwf; by apply insert_row_wf, HW|done].
Qed.

Lemma login_keeps raw password ip digest expiry w :
  tokens_ok w -> tokens_ok (login check_password raw password ip digest expiry w).2.
Proof.
  intros Hok. destruct (login check_password raw password ip digest expiry w) as [[t|e] w'] eqn:E; cbn.
  - apply login_run in E as (u & _ & _ & Hact & (o & Ho) & -> & HT & HW & Hw'). cbn in HT. rewrite Hw' in *.
    destruct Hok as [Wf A L].
    assert (forall k t, rows (tokens w') !! k = Some t ->
      t = AuthToken (pk u) digest (w_now w) expiry \/ rows (tokens w) !! k = Some t) as Hin.
    { intros k t. specialize (HT k). cbn in HT. rewrite HT. repeat case_decide; [|done|]; intros Hk; [left; congruence|by right]. }
    split; cbn; [by apply HW|intros k t Hk%Hin; destruct Hk as [->|Hk]..].
    + by exists (val u).
    + exact (A k t Hk).
    + right. by exists o.
    + exact (L k t Hk).
  - assert (forall v v', throttled_only v v' -> tokens_ok v -> tokens_ok v') as Hfr.
    { intros v v' -> Hv. by eapply tokens_but_frame; [..|exact Hv]. }
    unfold login in E. set (identifier := canonicalize_login_identifier raw) in *.
    apply bind_Err in E as [E|([] & w1 & Ht & E)]; [by apply not_throttled_run in E as [-> _]|].
    apply not_throttled_run in Ht as [-> _]. pose proof (record_throttled identifier ip w) as Hrec. unfold keeps in Hrec.
    apply bind_Err in E as [E|(o & w1 & Hu & E)].
    { assert (keeps eq (authenticate check_password (Some identifier) (Some password)) w) as Hk.
      { unfold authenticate. keeps_db; apply _. }
      unfold keeps in Hk. rewrite E in Hk. by cbn in Hk; subst. }
    apply authenticate_run in Hu as [-> Hact].
    assert (forall r v, record_auth_failure identifier ip w = (r, v) -> tokens_ok v) as Hrec'.
    { intros r v Hv. rewrite Hv in Hrec. by eapply Hfr. }
    destruct o as [u|].
    2: { apply bind_Err in E as [E|(x & w1 & E1 & E)]; [by eapply Hrec'|]. injection E as _ <-. by eapply Hrec'. }
    destruct (active_occupancies_list (pk u) w) as (os & Eo & _ & Hos). rewrite (bind_run _ _ _ _ _ Eo) in E.
    destruct os as [|o os].
    + rewrite bool_decide_eq_true_2 in E by done. apply bind_Err in E as [E|(x & w1 & E1 & E)]; [by eapply Hrec'|].
      apply Hrec' in E1. destruct (revoke_if_run _ (pk u) w1 E1) as (n & w2 & E2 & H2 & _).
      rewrite (bind_run _ _ _ _ _ E2) in E. injection E as _ <-. eapply tokens_but_impl; [|exact H2]. naive_solver.
    + rewrite bool_decide_eq_false_2 in E by done. pose proof (reset_throttled identifier ip w) as Hth. unfold keeps in Hth.
      apply bind_Err in E as [E|([] & w1 & E1 & E)]; [rewrite E in Hth; by eapply Hfr|].
      rewrite (bind_run _ _ w1 _ w1) in E by done.
      destruct (delete_each_run (stale_tokens (pk u) w1) w1) as (T & ED & _). by rewrite (bind_run _ _ _ _ _ ED) in E.
Qed.

(** ** Authenticating *)

(** What [knox] documents: the token it accepts is stored and its user, who is active, owns
    it; on the way it only deletes tokens, or moves their expiry. *)
Definition knox_law (knox : string -> DB (option (obj user_row * Z))) : Prop :=
  forall header w r w', knox header w = (r, w') ->
  w' = w <| tokens := tokens w' |> /\ (table_wf (tokens w) -> table_wf (tokens w')) /\
  (forall k t', rows (tokens w') !! k = Some t' -> exists t, rows (tokens w) !! k = Some t /\ tk_user t' = tk_user t) /\
  forall u k, r = Ok (Some (u, k)) ->
    rows (users w) !! pk u = Some (val u) /\ u_is_active (val u) = true /\
    exists t, rows (tokens w') !! k = Some t /\ tk_user t = pk u.

Lemma authenticate_token_keeps knox header w : knox_law knox ->
  tokens_ok w -> tokens_ok (authenticate_token knox header w).2.
Proof.
  intros Hlaw Hok. unfold authenticate_token. destruct (knox header w) as [r w1] eqn:E.
  destruct (Hlaw _ _ _ _ E) as (Hw1 & Hwf & Hsub & _).
  assert (tokens_ok w1) as H1.
  { rewrite Hw1. destruct Hok as [Wf A L]. split; cbn; [auto|intros k t' Hk; destruct (Hsub k t' Hk) as (t & Ht & ->)..].
    - exact (A k t Ht).
    - exact (L k t Ht). }
  unfold mbind at 1, M_bind at 1. rewrite E. destruct r as [[[u k]|]|e]; [|exact H1|exact H1].
  destruct (active_occupancies_list (pk u) w1) as (os & Eo & _ & _). rewrite (bind_run _ _ _ _ _ Eo).
  case_bool_decide; [|exact H1]. destruct (revoke_if_run _ (pk u) w1 H1) as (n & w2 & E2 & H2 & _).
  rewrite (bind_run _ _ _ _ _ E2). eapply tokens_but_impl; [|exact H2]. naive_solver.
Qed.
End Login.

(** ** Properties *)

Section Capped.
Context {CR : Crypto} (check_password : string -> string -> bool).

Lemma newest_tokens user w : exists L,
  newest_first (fun x => x~>tk_created) (select (owned_by user) (tokens w)) = L /\ NoDup L /\
  forall o, o ∈ L <-> rows (tokens w) !! pk o = Some (val o) /\ tk_user (val o) = user.
Proof.
  eexists. split; [reflexivity|]. assert (newest_first (fun x => x~>tk_created) (select (owned_by user) (tokens w)) ≡ₚ
    select (owned_by user) (tokens w)) as HP.
  { unfold newest_first, order_by. rewrite merge_sort_Permutation. symmetry. apply Permutation_rev. }
  split; [rewrite HP; apply NoDup_select|]. intros o. rewrite HP, elem_of_select. unfold owned_by.
  by rewrite bool_decide_eq_true.
Qed.

(** A token the login deletes is none of the four newest. *)
Lemma stale_tokens_spec user w o : rows (tokens w) !! pk o = Some (val o) -> tk_user (val o) = user ->
  (pk o ∈ pk <$> stale_tokens user w) <->
  o ∉ take 4 (newest_first (fun x => x~>tk_created) (select (owned_by user) (tokens w))).
Proof.
  intros Ho Hu. unfold stale_tokens. cbn [TOKEN_CAP_PER_USER Nat.sub].
  destruct (newest_tokens user w) as (L & -> & Hnd & HL). assert (o ∈ L) as Hin by by apply HL.
  rewrite <-(take_drop 4 L) in Hin, Hnd. apply NoDup_app in Hnd as (_ & Hdis & _). rewrite list_elem_of_fmap. split.
  - intros (o' & Hpk & Ho'). assert (o' = o) as ->; [|by intros H; apply (Hdis o H)].
    assert (o' ∈ L) as [Hr _]%HL by (rewrite <-(take_drop 4 L); set_solver).
    destruct o, o'. cbn in *. congruence.
  - intros Hn. exists o. split; [done|]. apply elem_of_app in Hin as [?|?]; done.
Qed.

(** Logging in.  Whoever gets a token authenticated with an address that is not locked
    out, is active and lives somewhere; afterwards the user holds at most five tokens, the
    new one and the newest of the others, and nobody else's tokens changed. *)
Theorem login_caps_tokens raw password ip digest expiry w t w' :
  table_wf (tokens w) ->
  login check_password raw password ip digest expiry w = (Ok t, w') ->
  let user := t~>tk_user in
  (exists u o, rows (users w) !! user = Some u /\ u_is_active u = true /\ resident_of w user o /\
    authenticate check_password (Some (canonicalize_login_identifier raw)) (Some password) w = (Ok (Some (Obj user u)), w)) /\
  assert_not_throttled (canonicalize_login_identifier raw) ip w = (Ok tt, w) /\
  rows (tokens w') !! pk t = Some (val t) /\ rows (tokens w) !! pk t = None /\
  (length (select (owned_by user) (tokens w')) <= TOKEN_CAP_PER_USER)%nat /\
  (forall o, tk_user (val o) <> user -> rows (tokens w') !! pk o = Some (val o) <-> rows (tokens w) !! pk o = Some (val o)) /\
  (forall o, o <> t -> o ∈ select (owned_by user) (tokens w') <->
    o ∈ take 4 (newest_first (fun x => x~>tk_created) (select (owned_by user) (tokens w)))).
Proof.
  intros Hwf H user. apply login_run in H as (u & Hau & Hnt & [Hu Ha] & (o & Ho) & -> & HT & _ & _). subst user.
  cbn [val tk_user pk] in *. assert (rows (tokens w) !! next (tokens w) = None) as Hfresh by by apply table_wf_fresh.
  assert (forall x, x <> Obj (next (tokens w)) (AuthToken (pk u) digest (w_now w) expiry) ->
    x ∈ select (owned_by (pk u)) (tokens w') <->
    x ∈ take 4 (newest_first (fun x => x~>tk_created) (select (owned_by (pk u)) (tokens w)))) as Hkept.
  { intros x Hx. rewrite elem_of_select. unfold owned_by at 1. rewrite bool_decide_eq_true, HT.
    assert (x ∈ take 4 (newest_first (fun x => x~>tk_created) (select (owned_by (pk u)) (tokens w))) ->
      rows (tokens w) !! pk x = Some (val x) /\ tk_user (val x) = pk u) as Hin.
    { destruct (newest_tokens (pk u) w) as (L & -> & _ & HL). intros Hin. apply HL.
      rewrite <-(take_drop 4 L). set_solver. }
    case_decide as Hk.
    - split; [intros [[= E] _]|intros [Hr _]%Hin; rewrite Hk in Hr; congruence].
      destruct x as [k r]. cbn in *. congruence.
    - split.
      + intros [Hr Hown]. destruct (decide (pk x ∈ pk <$> stale_tokens (pk u) w)) as [?|Hn]; [done|].
        rewrite stale_tokens_spec in Hn by done.
        destruct (decide (x ∈ take 4 (newest_first (fun x => x~>tk_created) (select (owned_by (pk u)) (tokens w))))); tauto.
      + intros Hx4. destruct (Hin Hx4) as [Hr Hown]. split; [|done]. rewrite decide_False; [done|].
        rewrite stale_tokens_spec by done. tauto. }
  split; [exists (val u), o; split_and!; try done; [apply Ho..|by destruct u]|]. split; [done|].
  split; [by rewrite HT, decide_True|]. split; [done|]. split; [|split; [|exact Hkept]].
  - transitivity (length (Obj (next (tokens w)) (AuthToken (pk u) digest (w_now w) expiry) ::
      take 4 (newest_first (fun x => x~>tk_created) (select (owned_by (pk u)) (tokens w))))).
    + apply submseteq_length, NoDup_submseteq; [apply NoDup_select|]. intros x Hx. rewrite elem_of_cons.
      destruct (decide (x = Obj (next (tokens w)) (AuthToken (pk u) digest (w_now w) expiry))) as [?|Hne]; [by left|right].
      by apply Hkept.
    + cbn [length]. rewrite length_take. unfold TOKEN_CAP_PER_USER. lia.
  - intros x Hx. rewrite HT. case_decide as Hk.
    { rewrite Hk, Hfresh. split; [|done]. intros [= E]. by rewrite <-E in Hx. }
    case_decide as Hin; [|done]. split; [done|]. intros Hr. destruct Hx.
    apply list_elem_of_fmap in Hin as (y & Hpk & Hy).
    unfold stale_tokens in Hy. destruct (newest_tokens (pk u) w) as (L & EL & _ & HL). rewrite EL in Hy.
    assert (y ∈ L) as [Hry Hown]%HL by (rewrite <-(take_drop 4 L); cbn in Hy; set_solver).
    rewrite Hpk in Hr. rewrite Hr in Hry. injection Hry as ->. done.
Qed.
End Capped.

Section Properties.
Context {CR : Crypto} (check_password : string -> string -> bool).
Context (knox : string -> DB (option (obj user_row * Z))).

(** What may happen to the sessions: a login, a request with a token, a deactivation, a
    sweep, and time.  The copy of an occupancy that is deactivated names its owner. *)
Inductive session_step : world -> world -> Prop :=
  | step_login raw password ip digest expiry w :
      session_step w (login check_password raw password ip digest expiry w).2
  | step_request header w : session_step w (authenticate_token knox header w).2
  | step_occupancy o w :
      (forall r, rows (occupancies w) !! pk o = Some r -> oc_user r = oc_user (val o)) ->
      session_step w (deactivate_occupancy o w).2
  | step_occupancies queryset w : session_step w (deactivate_occupancies queryset w).2
  | step_user user w : session_step w (deactivate_user user w).2
  | step_sweep user w : session_step w (revoke_tokens_if_no_active_occupancy user w).2
  | step_clock t w : session_step w (at_time t w).

Lemma session_step_keeps w w' : knox_law knox -> session_step w w' -> tokens_ok w -> tokens_ok w'.
Proof.
  intros Hlaw [] Hok.
  - by apply login_keeps.
  - by apply authenticate_token_keeps.
  - by apply deactivate_occupancy_ok.
  - by apply deactivate_occupancies_ok.
  - by apply deactivate_user_ok.
  - destruct (revoke_if_run _ user w0 Hok) as (n & w2 & -> & H2 & _). eapply tokens_but_impl; [|exact H2]. naive_solver.
  - by eapply tokens_but_frame; [..|exact Hok].
Qed.

(** C20: no token outlives its owner's rights.  Whatever logins, requests and deactivations
    happened, in bulk or one by one, every token of the resident API is that of an active
    user with an active occupancy. *)
Theorem tokens_owned w w' :
  knox_law knox -> tokens_ok w -> rtc session_step w w' ->
  forall k t, rows (tokens w') !! k = Some t ->
    (exists u, rows (users w') !! tk_user t = Some u /\ u_is_active u = true) /\
    exists o, rows (occupancies w') !! pk o = Some (val o) /\ oc_user (val o) = tk_user t /\ oc_active (val o) = true.
Proof.
  intros Hlaw Hok Hrtc. assert (tokens_ok w') as [Wf A L].
  { induction Hrtc as [|x y z Hs _ IH]; [done|]. apply IH. by eapply session_step_keeps. }
  intros k t Hk. split; [exact (A k t Hk)|]. by destruct (L k t Hk) as [[]|?].
Qed.
End Properties.

(** ** Concrete runs *)

(** The token is the digest; knox finds it, and refuses an inactive user. *)
Definition demo_knox (header : string) : DB (option (obj user_row * Z)) :=
  found ← query_first tokens (fun t => t~>tk_digest ==? header);
  match found with
  | None => mret None
  | Some t =>
    user ← query_pk users t~>tk_user;
    match user with
    | Some u => if u~>u_is_active then mret (Some (u, pk t)) else raise AuthenticationFailed
    | None => raise AuthenticationFailed
    end
  end.
Lemma demo_knox_law : knox_law demo_knox.
Proof.
  intros header w r w' H. assert (keeps eq (demo_knox header) w) as Hk by (unfold demo_knox; keeps_db; apply _).
  unfold keeps in Hk. rewrite H in Hk. cbn in Hk. subst w'. split; [by destruct w|]. split; [done|]. split; [by eauto|].
  intros u k ->. unfold demo_knox in H. inv_db.
  match goal with H : match ?o with _ => _ end _ = _ |- _ => destruct o as [t|] eqn:Et; inv_db end. inv_query.
  match goal with H : match ?o with _ => _ end _ = _ |- _ => destruct o as [v|] eqn:Ev; inv_db end. inv_query.
  destruct (u_is_active (val v)) eqn:Ea; inv_db. split_and!; [congruence|done|]. eexists. split; [done|congruence].
Qed.

Definition demo_tenant : world :=
  demo_streets <| users ::= insert_row (User (Some "an@b.c") "An" None "pw" true) |>.
Definition demo_login (digest : string) : DB (obj token_row) :=
  login (CR := demo_crypto) String.eqb " An@B.c" "pw" (Some "10.0.0.1") digest None.
Definition demo_logins : world := foldl (fun w d => (demo_login d w).2) demo_tenant ["a"; "b"; "c"; "d"; "e"].

Lemma login_caps_tokens_witness :
  exists t w', demo_login "f" demo_logins = (Ok t, w') /\
    length (select (owned_by 1) (tokens demo_logins)) = 5%nat /\
    (length (select (owned_by 1) (tokens w')) <= TOKEN_CAP_PER_USER)%nat.
Proof.
  eexists _, _. split; [vm_compute; reflexivity|]. split; [vm_compute; reflexivity|].
  edestruct (login_caps_tokens (CR := demo_crypto) String.eqb " An@B.c" "pw" (Some "10.0.0.1") "f" None demo_logins)
    as (_ & _ & _ & _ & H & _); [apply table_wf_b_true; vm_compute; reflexivity|vm_compute; reflexivity|exact H].
Defined.

Definition demo_moved_out : world := (deactivate_occupancies (fun o => o~>oc_user ==? 1) demo_logins).2.
Lemma tokens_owned_witness :
  rtc (session_step (CR := demo_crypto) String.eqb demo_knox) demo_tenant demo_moved_out /\
  rows (tokens demo_moved_out) = ∅ /\
  forall k t, rows (tokens demo_logins) !! k = Some t -> exists u, rows (users demo_logins) !! tk_user t = Some u.
Proof.
  assert (rtc (session_step (CR := demo_crypto) String.eqb demo_knox) demo_tenant demo_logins) as Hrtc.
  { unfold demo_logins. cbn [foldl]. do 5 (eapply rtc_l; [apply (step_login (CR := demo_crypto) String.eqb demo_knox)|]).
    apply rtc_refl. }
  split; [etransitivity; [exact Hrtc|]; apply rtc_once, step_occupancies|]. split; [vm_compute; reflexivity|].
  intros k t Hk. destruct (tokens_owned (CR := demo_crypto) String.eqb demo_knox demo_tenant demo_logins
    demo_knox_law) with (3 := Hk) as [(u & Hu & _) _]; [|exact Hrtc|by exists u].
  split; [apply table_wf_b_true; vm_compute; reflexivity|intros j x Hj; vm_compute in Hj; by destruct j..].
Defined.
