(* ===== verification/Downloads.v ===== *)
(** * Downloads: what a resident may fetch, and under which name

    [api/downloads.py] and [DocumentDownloadView] of [api/views.py].  A signed token binds a
    document version to one user for five minutes; redeeming it checks the user and runs
    [resident_can_download] again.  File names are made safe for the response header. *)

From S2P Require Import Prelude Table PyStr Schema Store Accounts Tenancy.
From S2P Require Import Documents Evidence Proposals Fund FundSeries.
Open Scope Z_scope.

Definition DOWNLOAD_SALT : string := "lamto.api.download".
Definition DOWNLOAD_MAX_AGE : Z := 300.
Definition RESIDENT_DOWNLOADABLE_KINDS : list doc_kind := [REPORT_PHOTO; QUOTATION; PAYMENT_PROOF; RESIDENT_BILL].

(** ** File names *)

Definition backslash : ascii := chr 92.
Definition dquote : ascii := chr 34.
Definition is_break (c : ascii) : bool := (code c ==? 13) || (code c ==? 10).
Definition posix_separators : string -> string := smap (fun c => if Ascii.eqb c backslash then "/"%char else c).
Definition or_download (name : string) : string := if truthy name then name else "download".

Definition sanitize_download_filename (filename : option string) : string :=
  match filename with
  | None | Some EmptyString => "download"
  | Some filename =>
    let name := after_last_char "/" (posix_separators filename) in
    or_download (py_strip (sfilter (fun c => negb (is_break c || Ascii.eqb c dquote)) name))
  end.

Definition is_ascii (c : ascii) : bool := code c <? 128.
Definition _ascii_fallback_filename (name : string) : string :=
  let ascii_name := sfilter is_ascii name in
  or_download (py_strip (sfilter (fun c => negb (Ascii.eqb c backslash || Ascii.eqb c ";")) ascii_name)).

(** [urllib.parse.quote(name, safe="")] *)
Definition is_unreserved (c : ascii) : bool :=
  is_upper c || is_lower c || is_digit c || existsb (Ascii.eqb c) ["_"; "."; "-"; "~"]%char.
Definition upper_hex (n : Z) : ascii := if n <? 10 then chr (48 + n) else chr (55 + n).
Fixpoint quote (s : string) : string :=
  match s with
  | EmptyString => EmptyString
  | String c s =>
    if is_unreserved c then String c (quote s)
    else String "%" (String (upper_hex (code c / 16)) (String (upper_hex (code c mod 16)) (quote s)))
  end.

Definition content_disposition_inline (filename : option string) : string :=
  let name := sanitize_download_filename filename in
  "inline; filename=" +:+ String dquote (_ascii_fallback_filename name +:+
    String dquote ("; filename*=UTF-8''" +:+ quote name)).

(** ** Who may download *)

Definition SHOWN_STATUSES : list proposal_status := [PPublished; PNotProceeding; PInProgress; PCompleted; PClosed].

(** The version is a quotation of a published proposal of one of the buildings. *)
Definition quoted_in (buildings_ : list Z) (version : Z) (w : world) : bool :=
  exists_ (fun d => (d~>pd_document_version ==? version) &&
    exists_ (fun v => (pk v ==? d~>pd_version) &&
      exists_ (fun p => (pk p ==? v~>ve_proposal) && existsb (Z.eqb p~>pr_building) buildings_ &&
        existsb (fun s => p~>pr_status ==? s) SHOWN_STATUSES) (proposals w)) (versions w)) (prop_docs w).
(** The version is the transfer of a published entry of one of the buildings, and the
    evidence of the entry is settled. *)
Definition transfer_in (buildings_ : list Z) (version : Z) (w : world) : bool :=
  exists_ (fun l =>
    exists_ (fun p => (pk p ==? l~>le_proposal) && existsb (Z.eqb p~>pr_building) buildings_ && version_settled w p)
      (proposals w) &&
    exists_ (fun s => (pk s ==? l~>le_settlement) && settlement_settled w s && (s~>se_transfer ==? version))
      (settlements w)) (ledger w).
Definition own_bill (user version : Z) (b : obj bill_row) : bool :=
  (b~>bi_document ==? version) && (b~>bi_resident ==? user) && negb (b~>bi_status ==? BVoid).
Definition own_photo (user version : Z) (w : world) : bool :=
  exists_ (fun p => (p~>ph_version ==? version) &&
    exists_ (fun r => (pk r ==? p~>ph_report) && (r~>rp_reporter ==? user)) (reports w)) (report_photos w).
Definition occupied_buildings (occupancies_ : list (obj occupancy_row)) (w : world) : list Z :=
  omap (fun o => un_building <$> rows (units w) !! o~>oc_unit) occupancies_.

Definition resident_can_download (user : Z) (version : obj doc_version_row) : DB bool :=
  document ← get_row documents "Document" version~>dv_document;
  let kind := document~>dc_kind in
  if negb (kind_in kind RESIDENT_DOWNLOADABLE_KINDS) then mret false
  else if kind ==? RESIDENT_BILL then query_exists bills (own_bill user (pk version))
  else if kind ==? REPORT_PHOTO then gets (own_photo user (pk version))
  else
    occupancies ← active_occupancies user;
    building_ids ← gets (occupied_buildings occupancies);
    if bool_decide (building_ids = []) then mret false
    else
      quoted ← gets (quoted_in building_ids (pk version));
      if (kind ==? QUOTATION) && quoted then mret true
      else gets (transfer_in building_ids (pk version)).

(** ** Tokens *)

Definition token_payload (user version : Z) : pyval := mk_dict [("v", PInt version); ("u", PInt user)].

(** [django.core.signing]: [dumps] stamps the payload with the second it was signed in;
    [loads] gives it back while it is no older than [max_age] seconds, and [None] stands for
    [BadSignature]. *)
Class Signing := {
  signing_dumps : string -> Z -> pyval -> string;
  signing_loads : string -> Z -> Z -> string -> option pyval;
  signing_roundtrip salt max_age signed now user version :
    signed <= now ->
    signing_loads salt max_age now (signing_dumps salt signed (token_payload user version)) =
    if seconds max_age <? now - signed / seconds 1 * seconds 1 then None else Some (token_payload user version) }.

Section View.
Context {CR : Crypto} {SG : Signing} (ST : storage).

Definition issue_download_token (user_id version_id : Z) : DB string :=
  now ← timezone_now;
  mret (signing_dumps DOWNLOAD_SALT now (token_payload user_id version_id)).

Definition dict_field (k : string) (d : list (pyval * pyval)) : pyval :=
  match List.find (fun kv => pyval_eqb kv.1 (PStr k)) d with Some kv => kv.2 | None => PNone end.

Record download := Download_ { do_content_type : string; do_disposition : string; do_bytes : string }.

(** [DocumentVersion.objects.filter(pk=v).first()] *)
Definition named_version (v : pyval) : DB (option (obj doc_version_row)) :=
  match v with
  | PNone => mret None
  | v =>
    k ← of_option (ValueError "pk") (int_of v);
    query_pk doc_versions k
  end.

(** [DocumentDownloadView.get] *)
Definition download_view (user : Z) (token : string) : DB download :=
  now ← timezone_now;
  payload ← of_option (NotFound "Document not found.") (signing_loads DOWNLOAD_SALT DOWNLOAD_MAX_AGE now token);
  fields ← (match payload with PDict d => mret d | _ => raise AttributeError end);
  require (is_int (dict_field "u" fields) user) (NotFound "Document not found.") ;;
  found ← named_version (dict_field "v" fields);
  version ← of_option (NotFound "Document not found.") found;
  allowed ← resident_can_download user version;
  require allowed (NotFound "Document not found.") ;;
  data ← (match read_version_bytes ST (val version) with
    | Ok data => mret data
    | Err _ => raise (NotFound "Document not found.")
    end);
  mret (Download_ version~>dv_content_type (content_disposition_inline (Some version~>dv_filename)) data).
End View.

(** ** Facts *)

Implicit Types (w : world).

Lemma sforall_lstrip P p s : sforall P s = true -> sforall P (lstrip p s) = true.
Proof. induction s as [|c s IH]; [done|]. cbn. intros H. destruct (p c); [|done]. apply IH. by apply andb_true_iff in H as [_ ?]. Qed.
Lemma sforall_rstrip P p s : sforall P s = true -> sforall P (rstrip p s) = true.
Proof.
  induction s as [|c s IH]; [done|]. cbn. intros [Hc Hs]%andb_true_iff. specialize (IH Hs).
  destruct (rstrip p s) as [|d r]; [destruct (p c); cbn; [done|by rewrite Hc]|]. cbn in *. by rewrite Hc.
Qed.
Lemma sforall_strip P s : sforall P s = true -> sforall P (py_strip s) = true.
Proof. intros H. by apply sforall_rstrip, sforall_lstrip. Qed.
Lemma sforall_kept P Q s : sforall P s = true -> sforall P (sfilter Q s) = true.
Proof.
  induction s as [|c s IH]; [done|]. cbn. intros [Hc Hs]%andb_true_iff. destruct (Q c); cbn; [|by apply IH].
  rewrite Hc. by apply IH.
Qed.
Lemma sforall_both P Q s : sforall P s = true -> sforall Q s = true -> sforall (fun c => P c && Q c) s = true.
Proof. induction s as [|c s IH]; [done|]. cbn. intros [-> ?]%andb_true_iff [-> ?]%andb_true_iff. by apply IH. Qed.

Lemma split_char_free sep s : Forall (fun x => sforall (fun c => negb (Ascii.eqb c sep)) x = true) (split_char sep s).
Proof.
  induction s as [|c s IH]; cbn; [by repeat constructor|]. destruct (Ascii.eqb c sep) eqn:E; [by constructor|].
  destruct (split_char sep s) as [|x l]; [constructor; [cbn; by rewrite E|done]|].
  inversion IH; subst. constructor; [cbn; rewrite E; done|done].
Qed.
Lemma split_char_forall P sep s : sforall P s = true -> Forall (fun x => sforall P x = true) (split_char sep s).
Proof.
  induction s as [|c s IH]; cbn; [by repeat constructor|]. intros [Hc Hs]%andb_true_iff. specialize (IH Hs).
  destruct (Ascii.eqb c sep); [by constructor|].
  destruct (split_char sep s) as [|x l]; [constructor; [cbn; by rewrite Hc|done]|].
  inversion IH; subst. constructor; [cbn; rewrite Hc; done|done].
Qed.
Lemma after_last_free sep s : sforall (fun c => negb (Ascii.eqb c sep)) (after_last_char sep s) = true.
Proof.
  unfold after_last_char. destruct (last (split_char sep s)) as [x|] eqn:E; [|done]. cbn.
  apply last_Some_elem_of in E. pose proof (split_char_free sep s) as H. rewrite Forall_forall in H. by apply H.
Qed.
Lemma after_last_forall P sep s : sforall P s = true -> sforall P (after_last_char sep s) = true.
Proof.
  intros Hs. unfold after_last_char. destruct (last (split_char sep s)) as [x|] eqn:E; [|done]. cbn.
  apply last_Some_elem_of in E. pose proof (split_char_forall P sep s Hs) as H. rewrite Forall_forall in H. by apply H.
Qed.

(** A name a header can carry: no path, no line break, no quote. *)
Definition header_char (c : ascii) : bool :=
  negb (is_break c || Ascii.eqb c dquote) && negb (Ascii.eqb c "/") && negb (Ascii.eqb c backslash).

Lemma or_download_ok P s : sforall P s = true -> sforall P "download" = true ->
  sforall P (or_download s) = true /\ truthy (or_download s) = true.
Proof. unfold or_download. by destruct s. Qed.

Lemma sanitize_ok filename :
  sforall header_char (sanitize_download_filename filename) = true /\
  truthy (sanitize_download_filename filename) = true.
Proof.
  destruct filename as [[|c s]|]; [done| |done]. unfold sanitize_download_filename.
  apply or_download_ok; [|done]. apply sforall_strip. unfold header_char.
  apply sforall_both; [apply sforall_both; [apply sforall_sfilter|]|]; apply sforall_kept.
  - apply after_last_free.
  - apply after_last_forall. unfold posix_separators. generalize (String c s) as t. intros t.
    induction t as [|d t IH]; [done|]. cbn. rewrite IH, andb_true_r. by destruct (Ascii.eqb d backslash) eqn:E; rewrite ?E.
Qed.

(** The fallback, besides, is printable by the oldest clients. *)
Definition fallback_char (c : ascii) : bool :=
  is_ascii c && negb (is_break c) && negb (Ascii.eqb c dquote) && negb (Ascii.eqb c backslash) && negb (Ascii.eqb c ";").
Lemma fallback_ok name : sforall header_char name = true ->
  sforall fallback_char (_ascii_fallback_filename name) = true /\ truthy (_ascii_fallback_filename name) = true.
Proof.
  intros Hn. apply or_download_ok; [|done]. apply sforall_strip.
  set (s := sfilter _ (sfilter is_ascii name)).
  assert (sforall is_ascii s = true) as H1 by apply sforall_kept, sforall_sfilter.
  assert (sforall header_char s = true) as H2 by by apply sforall_kept, sforall_kept.
  assert (sforall (fun c => negb (Ascii.eqb c backslash || Ascii.eqb c ";")) s = true) as H3 by apply sforall_sfilter.
  clear -H1 H2 H3. induction s as [|c s IH]; [done|]. cbn in *. apply andb_true_iff in H1 as [A1 H1].
  apply andb_true_iff in H2 as [A2 H2]. apply andb_true_iff in H3 as [A3 H3]. rewrite IH, andb_true_r by done.
  unfold header_char, fallback_char in *. destruct (is_ascii c), (is_break c), (Ascii.eqb c dquote), (Ascii.eqb c backslash), (Ascii.eqb c ";"); done.
Qed.

(** [urllib.parse.unquote] *)
Definition hex_value_up (c : ascii) : Z := if is_digit c then code c - 48 else code c - 55.
Fixpoint unquote (s : string) : string :=
  match s with
  | EmptyString => EmptyString
  | String c s' =>
    match s' with
    | String x (String y r) =>
      if Ascii.eqb c "%" then String (chr (16 * hex_value_up x + hex_value_up y)) (unquote r) else String c (unquote s')
    | _ => String c (unquote s')
    end
  end.

Lemma hex_pair c : chr (16 * hex_value_up (upper_hex (code c / 16)) + hex_value_up (upper_hex (code c mod 16))) = c.
Proof.
  apply Ascii.eqb_eq. revert c. apply (ascii_forall (fun c => Ascii.eqb (chr (16 * hex_value_up (upper_hex (code c / 16)) +
    hex_value_up (upper_hex (code c mod 16)))) c)). vm_compute. reflexivity.
Qed.
Lemma unreserved_plain c : is_unreserved c = true -> Ascii.eqb c "%" = false.
Proof.
  intros H. apply negb_true_iff. revert c H. apply (ascii_forall_impl is_unreserved (fun c => negb (Ascii.eqb c "%"))).
  vm_compute. reflexivity.
Qed.
Lemma unquote_quote s : unquote (quote s) = s.
Proof.
  induction s as [|c s IH]; [done|]. cbn [quote]. destruct (is_unreserved c) eqn:E.
  - cbn. rewrite (unreserved_plain c E), IH. by repeat case_match.
  - cbn. by rewrite hex_pair, IH.
Qed.
Definition quoted_char (c : ascii) : bool := is_unreserved c || Ascii.eqb c "%".
Lemma hex_unreserved c : is_unreserved (upper_hex (code c / 16)) && is_unreserved (upper_hex (code c mod 16)) = true.
Proof.
  revert c. apply (ascii_forall (fun c => is_unreserved (upper_hex (code c / 16)) && is_unreserved (upper_hex (code c mod 16)))).
  vm_compute. reflexivity.
Qed.
Lemma quote_safe s : sforall quoted_char (quote s) = true.
Proof.
  induction s as [|c s IH]; [done|]. cbn [quote]. destruct (is_unreserved c) eqn:E; cbn [sforall]; rewrite IH.
  - unfold quoted_char. by rewrite E.
  - pose proof (hex_unreserved c) as [H1 H2]%andb_true_iff. unfold quoted_char. by rewrite H1, H2.
Qed.

(** ** Who may download *)

(** An active occupancy of the user in the building. *)
Definition lives_at w (user building : Z) : Prop :=
  exists o u, resident_of w user o /\ rows (units w) !! oc_unit (val o) = Some u /\ un_building u = building.

Definition quoted_for w (user version : Z) : Prop :=
  exists d pd v p, rows (prop_docs w) !! d = Some pd /\ pd_document_version pd = version /\
    rows (versions w) !! pd_version pd = Some v /\ rows (proposals w) !! ve_proposal v = Some p /\
    lives_at w user (pr_building p) /\ pr_status p <> PDraft.
Definition settled_event w (event : Z) : Prop :=
  exists e, rows (outbox w) !! event = Some e /\ is_settled (ev_status e) = true.
Definition transfer_for w (user version : Z) : Prop :=
  exists l le p s, rows (ledger w) !! l = Some le /\ rows (proposals w) !! le_proposal le = Some p /\
    rows (settlements w) !! le_settlement le = Some s /\ lives_at w user (pr_building p) /\ se_transfer s = version /\
    (exists k v, pr_current_version p = Some k /\ rows (versions w) !! k = Some v /\ settled_event w (ve_outbox_event v)) /\
    exists e, se_outbox_event s = Some e /\ settled_event w e.
(** What entitles a resident to a document, by its kind. *)
Definition entitled w (user : Z) (kind : doc_kind) (version : Z) : Prop :=
  match kind with
  | RESIDENT_BILL => exists k b, rows (bills w) !! k = Some b /\ bi_document b = version /\ bi_resident b = user /\ bi_status b <> BVoid
  | REPORT_PHOTO => exists k p r, rows (report_photos w) !! k = Some p /\ ph_version p = version /\
      rows (reports w) !! ph_report p = Some r /\ rp_reporter r = user
  | QUOTATION => quoted_for w user version \/ transfer_for w user version
  | PAYMENT_PROOF => transfer_for w user version
  | INVOICE | ACCEPTANCE_REPORT | CONTRACT => False
  end.

Lemma event_settled_spec w e : event_settled w e = true <-> settled_event w e.
Proof.
  unfold event_settled, settled_event. rewrite exists_true. split.
  - intros (k & r & Hk & H). to_prop. cbn in *. subst. eauto.
  - intros (r & Hk & H). exists e, r. cbn. by rewrite bool_decide_eq_true_2, H.
Qed.

Lemma occupied_spec w user l b : (forall o, o ∈ l <-> resident_of w user o) ->
  existsb (Z.eqb b) (occupied_buildings l w) = true <-> lives_at w user b.
Proof.
  intros Hl. rewrite existsb_In. unfold occupied_buildings, lives_at. setoid_rewrite list_elem_of_omap. split.
  - intros (x & (o & Ho & Hx) & E). apply Z.eqb_eq in E as <-. apply fmap_Some in Hx as (u & Hu & ->).
    exists o, u. split_and!; [by apply Hl|done..].
  - intros (o & u & Ho & Hu & <-). exists (un_building u). split; [|apply Z.eqb_refl]. exists o. split; [by apply Hl|]. by rewrite Hu.
Qed.

Lemma quoted_in_spec w user l version : (forall o, o ∈ l <-> resident_of w user o) ->
  quoted_in (occupied_buildings l w) version w = true <-> quoted_for w user version.
Proof.
  intros Hl. unfold quoted_in, quoted_for. rewrite exists_true. split.
  - intros (d & pd & Hd & [Hv H]%andb_true_iff). apply exists_true in H as (k & v & Hk & [Hpk H]%andb_true_iff).
    apply exists_true in H as (j & p & Hj & [[Hpj Hb]%andb_true_iff Hs]%andb_true_iff). to_prop. cbn in *. subst.
    exists d, pd, v, p. split_and!; [done..| |]; [by eapply occupied_spec|]. intros E. by rewrite E in Hs.
  - intros (d & pd & v & p & Hd & <- & Hv & Hp & Hb & Hs). exists d, pd. split; [done|]. cbn.
    rewrite bool_decide_eq_true_2 by done. apply exists_true. exists (pd_version pd), v. split; [done|]. cbn.
    rewrite bool_decide_eq_true_2 by done. apply exists_true. exists (ve_proposal v), p. split; [done|]. cbn - [SHOWN_STATUSES].
    rewrite bool_decide_eq_true_2 by done. apply (occupied_spec _ _ _ _ Hl) in Hb as ->. by destruct (pr_status p).
Qed.

Lemma version_settled_spec w (p : obj proposal_row) : version_settled w p = true <->
  exists k v, pr_current_version (val p) = Some k /\ rows (versions w) !! k = Some v /\ settled_event w (ve_outbox_event v).
Proof.
  unfold version_settled. destruct (pr_current_version (val p)) as [k|]; [|split; [done|by intros (? & ? & ? & _)]].
  rewrite exists_true. split.
  - intros (j & v & Hj & [Hpk He]%andb_true_iff). to_prop. cbn in *. subst. apply event_settled_spec in He. eauto.
  - intros (j & v & [= <-] & Hv & He). exists k, v. split; [done|]. cbn. rewrite bool_decide_eq_true_2 by done.
    by apply event_settled_spec.
Qed.
Lemma settlement_settled_spec w (s : obj settlement_row) : settlement_settled w s = true <->
  exists e, se_outbox_event (val s) = Some e /\ settled_event w e.
Proof.
  unfold settlement_settled. destruct (se_outbox_event (val s)) as [e|].
  - rewrite event_settled_spec. split; [eauto|by intros (? & [= <-] & ?)].
  - split; [done|by intros (? & ? & _)].
Qed.

Lemma transfer_in_spec w user l version : (forall o, o ∈ l <-> resident_of w user o) ->
  transfer_in (occupied_buildings l w) version w = true <-> transfer_for w user version.
Proof.
  intros Hl. unfold transfer_in, transfer_for. rewrite exists_true. split.
  - intros (k & le & Hk & [Hp Hs]%andb_true_iff). apply exists_true in Hp as (j & p & Hj & [[Hpj Hb]%andb_true_iff Hv]%andb_true_iff).
    apply exists_true in Hs as (i & s & Hi & [[Hsi Hse]%andb_true_iff Ht]%andb_true_iff). to_prop. cbn in *. subst.
    exists k, le, p, s. split_and!; try done; [by eapply occupied_spec|by apply version_settled_spec in Hv|by apply settlement_settled_spec in Hse].
  - intros (k & le & p & s & Hk & Hp & Hs & Hb & <- & Hv & He). exists k, le. split; [done|]. apply andb_true_iff. split.
    + apply exists_true. exists (le_proposal le), p. split; [done|]. cbn. rewrite bool_decide_eq_true_2 by done.
      apply (occupied_spec _ _ _ _ Hl) in Hb as ->. by apply version_settled_spec.
    + apply exists_true. exists (le_settlement le), s. split; [done|]. cbn. rewrite !bool_decide_eq_true_2 by done.
      apply andb_true_iff. split; [by apply settlement_settled_spec|done].
Qed.

Lemma can_download_exact user version w b w' : resident_can_download user version w = (Ok b, w') ->
  w' = w /\ exists d, rows (documents w) !! dv_document (val version) = Some d /\
    (b = true <-> entitled w user (dc_kind d) (pk version)).
Proof.
  unfold resident_can_download. intros H. apply bind_Ok in H as (doc & w1 & Hd & H). apply get_row_Ok in Hd as [Hd ->].
  apply find_Some in Hd as [_ Hd]. cbv zeta in H.
  assert (forall P : Prop, w' = w /\ (b = true <-> P) -> (entitled w user (dc_kind (val doc)) (pk version) <-> P) ->
    w' = w /\ exists d, rows (documents w) !! dv_document (val version) = Some d /\
      (b = true <-> entitled w user (dc_kind d) (pk version))) as Hgoal.
  { intros P [-> HP] HE. split; [done|]. exists (val doc). split; [done|]. by rewrite HE. }
  assert (forall q, (dc_kind (val doc) = QUOTATION /\ q = true) \/ (dc_kind (val doc) = PAYMENT_PROOF /\ q = false) ->
    (occupancies ← active_occupancies user;
     building_ids ← gets (occupied_buildings occupancies);
     if building_ids ==? [] then mret false
     else quoted ← gets (quoted_in building_ids (pk version));
       if q && quoted then mret true else gets (transfer_in building_ids (pk version))) w = (Ok b, w') ->
    w' = w /\ (b = true <-> (q = true /\ quoted_for w user (pk version)) \/ transfer_for w user (pk version))) as Hown.
  { intros q Hq E. destruct (active_occupancies_list user w) as (l & El & _ & Hl). rewrite (bind_run _ _ _ _ _ El) in E.
    rewrite (bind_run _ _ w _ w) in E by done. rewrite <-(quoted_in_spec w user l), <-(transfer_in_spec w user l) by done.
    destruct (occupied_buildings l w ==? []) eqn:Eb.
    - inv_db. split; [done|]. split; [done|]. to_prop. rewrite Eb. intros [[_ H1]|H1].
      + unfold quoted_in in H1. apply exists_true in H1 as (? & ? & _ & [_ H1]%andb_true_iff).
        apply exists_true in H1 as (? & ? & _ & [_ H1]%andb_true_iff). apply exists_true in H1 as (? & ? & _ & H1).
        cbn in H1. by rewrite andb_false_r in H1.
      + unfold transfer_in in H1. apply exists_true in H1 as (? & ? & _ & [H1 _]%andb_true_iff).
        apply exists_true in H1 as (? & ? & _ & H1). cbn in H1. by rewrite andb_false_r in H1.
    - rewrite (bind_run _ _ w _ w) in E by done. destruct q, (quoted_in (occupied_buildings l w) (pk version) w) eqn:E1;
        cbn in E; injection E as <- <-; (split; [done|]); naive_solver. }
  destruct (dc_kind (val doc)) eqn:Ek; cbn in H; try (injection H as <- <-; split; [done|]; exists (val doc); rewrite Ek; done).
  - injection H as <- <-. eapply Hgoal; [|reflexivity]. split; [done|]. unfold own_photo. rewrite exists_true. cbn. split.
    + intros (k & p & Hk & [Hv H]%andb_true_iff). apply exists_true in H as (j & r & Hj & [Hpk Hr]%andb_true_iff). to_prop. cbn in *. subst. eauto 8.
    + intros (k & p & r & Hk & <- & Hr & <-). exists k, p. split; [done|]. rewrite bool_decide_eq_true_2 by done.
      apply exists_true. exists (ph_report p), r. split; [done|]. cbn. by rewrite !bool_decide_eq_true_2.
  - apply (Hown true) in H; [|by left]. eapply Hgoal; [exact H|]. cbn. naive_solver.
  - apply (Hown false) in H; [|by right]. eapply Hgoal; [exact H|]. cbn. naive_solver.
  - injection H as <- <-. eapply Hgoal; [|reflexivity]. split; [done|]. rewrite exists_true. cbn. unfold own_bill. split.
    + intros (k & b & Hk & H). to_prop. cbn in *. eauto 8.
    + intros (k & b & Hk & <- & <- & Hs). exists k, b. split; [done|]. cbn. rewrite !bool_decide_eq_true_2 by done. by rewrite bool_decide_eq_false_2.
Qed.

(** ** Properties *)

(** No file name breaks out of the header.  Whatever a document was called, its
    [Content-Disposition] is two parameters: a quoted ASCII name without quote, backslash,
    semicolon or line break, and a percent-encoded name that decodes to the stored name
    without its path, its quotes and its line breaks; neither is empty. *)
Theorem disposition_safe filename :
  exists plain starred,
    content_disposition_inline filename =
      "inline; filename=" +:+ String dquote (plain +:+ String dquote ("; filename*=UTF-8''" +:+ starred)) /\
    truthy plain = true /\
    sforall (fun c => is_ascii c && negb (is_break c) && negb (Ascii.eqb c dquote) && negb (Ascii.eqb c backslash) &&
      negb (Ascii.eqb c ";")) plain = true /\
    sforall (fun c => is_unreserved c || Ascii.eqb c "%") starred = true /\
    unquote starred = sanitize_download_filename filename /\ truthy (unquote starred) = true /\
    sforall (fun c => negb (is_break c || Ascii.eqb c dquote) && negb (Ascii.eqb c "/") && negb (Ascii.eqb c backslash))
      (unquote starred) = true.
Proof.
  destruct (sanitize_ok filename) as [Hc Ht]. destruct (fallback_ok _ Hc) as [Hf Htf].
  exists (_ascii_fallback_filename (sanitize_download_filename filename)), (quote (sanitize_download_filename filename)).
  split; [done|]. split; [done|]. split; [done|]. split; [apply quote_safe|]. by rewrite unquote_quote.
Qed.

Section View.
Context {CR : Crypto} {SG : Signing} (ST : storage).

Lemma named_version_Ok v w o w' : named_version v w = (Ok (Some o), w') ->
  w' = w /\ int_of v = Some (pk o) /\ rows (doc_versions w) !! pk o = Some (val o).
Proof.
  unfold named_version. intros H.
  assert ((k ← of_option (ValueError "pk") (int_of v); query_pk doc_versions k) w = (Ok (Some o), w')) as E
    by (destruct v; try exact H; by inv_db).
  clear H. inv_db. inv_query. split; [done|]. split; congruence.
Qed.

(** C19: a download is never more than its resident may see.  Whatever token is presented, a
    response carries bytes with the recorded digest of a version that the token names for
    this very user, and that the user is entitled to now: a bill of the user's own that is
    not void, a photo of a report of the user's own, or, in a building where the user lives
    now, a quotation of a published proposal or the transfer of a published entry whose
    evidence is settled. *)
Theorem download_scope user token w d w' :
  download_view ST user token w = (Ok d, w') ->
  w' = w /\ exists fields version document,
    signing_loads DOWNLOAD_SALT DOWNLOAD_MAX_AGE (w_now w) token = Some (PDict fields) /\
    is_int (dict_field "u" fields) user = true /\ int_of (dict_field "v" fields) = Some (pk version) /\
    rows (doc_versions w) !! pk version = Some (val version) /\
    rows (documents w) !! dv_document (val version) = Some document /\
    entitled w user (dc_kind document) (pk version) /\
    sha256 (do_bytes d) = dv_sha256 (val version) /\
    do_content_type d = dv_content_type (val version) /\
    do_disposition d = content_disposition_inline (Some (dv_filename (val version))).
Proof.
  unfold download_view. intros H. inv_db.
  match goal with H : match ?x with _ => _ end _ = (Ok ?f, _) |- _ => destruct x as [| | | | |fields|]; inv_db end.
  match goal with H : named_version _ _ = _ |- _ => apply named_version_Ok in H as (-> & Hv & Hr) end.
  match goal with H : resident_can_download _ _ _ = _ |- _ =>
    apply can_download_exact in H as (-> & document & Hd & He) end.
  match goal with H : match read_version_bytes _ _ with _ => _ end _ = _ |- _ =>
    unfold read_version_bytes in H; repeat case_match; inv_db end.
  split; [done|]. eexists _, _, document. split_and!; try done; [by apply He|]. by to_prop.
Qed.

(** A link works for its owner and for five minutes.  A token redeemed by the user it
    was issued to serves the file, if it is intact and the user still may see it, until the
    clock is more than 300 seconds past the second it was signed in; afterwards, and for
    anybody else, it is an unknown document. *)
Theorem token_redeems user version w1 token w2 data :
  issue_download_token user (pk version) w1 = (Ok token, w1) -> w_now w1 <= w_now w2 ->
  rows (doc_versions w2) !! pk version = Some (val version) ->
  resident_can_download user version w2 = (Ok true, w2) ->
  read_version_bytes ST (val version) = Ok data ->
  (download_view ST user token w2).1 =
    (if seconds 300 <? w_now w2 - w_now w1 / seconds 1 * seconds 1 then Err (NotFound "Document not found.")
     else Ok (Download_ (dv_content_type (val version)) (content_disposition_inline (Some (dv_filename (val version)))) data)) /\
  forall other, other <> user -> (download_view ST other token w2).1 = Err (NotFound "Document not found.").
Proof.
  unfold issue_download_token. intros H Hle Hv Hcan Hdata. inv_db.
  assert (forall u, download_view ST u (signing_dumps DOWNLOAD_SALT (w_now w1) (token_payload user (pk version))) w2 =
    if seconds 300 <? w_now w2 - w_now w1 / seconds 1 * seconds 1 then (Err (NotFound "Document not found."), w2)
    else if is_int (PInt user) u then
      (Ok (Download_ (dv_content_type (val version)) (content_disposition_inline (Some (dv_filename (val version)))) data), w2)
    else (Err (NotFound "Document not found."), w2)) as E.
  { intros u. unfold download_view. rewrite (bind_run _ _ w2 (w_now w2) w2) by done.
    pose proof (signing_roundtrip DOWNLOAD_SALT DOWNLOAD_MAX_AGE (w_now w1) (w_now w2) user (pk version) Hle) as Hrt.
    unfold DOWNLOAD_MAX_AGE in Hrt at 2. destruct (seconds 300 <? _).
    { unfold mbind, M_bind, of_option. by rewrite Hrt. }
    rewrite (bind_run _ _ w2 (token_payload user (pk version)) w2) by (unfold of_option; by rewrite Hrt).
    rewrite (bind_run _ _ w2 [(PStr "v", PInt (pk version)); (PStr "u", PInt user)] w2) by done.
    change (dict_field "u" [(PStr "v", PInt (pk version)); (PStr "u", PInt user)]) with (PInt user).
    change (dict_field "v" [(PStr "v", PInt (pk version)); (PStr "u", PInt user)]) with (PInt (pk version)).
    destruct (is_int (PInt user) u) eqn:Eu; [|done]. apply bool_decide_eq_true in Eu as <-.
    rewrite (bind_run _ _ w2 tt w2) by done. rewrite (bind_run _ _ w2 (Some version) w2).
    2: { unfold named_version, query_pk, find, gets, mbind, M_bind, of_option. cbn. rewrite Hv. by destruct version. }
    rewrite (bind_run _ _ w2 version w2) by done. rewrite (bind_run _ _ w2 true w2 Hcan).
    rewrite (bind_run _ _ w2 tt w2) by done. rewrite (bind_run _ _ w2 data w2) by by rewrite Hdata. done. }
  split.
  - rewrite E. case_match; [done|]. cbn. by rewrite bool_decide_eq_true_2.
  - intros other Hne. rewrite E. case_match; [done|]. cbn. by rewrite bool_decide_eq_false_2.
Qed.
End View.

(** ** Concrete runs *)

(** The token is its own payload: the salt, the instant, the version and the user. *)
Definition demo_dumps (salt : string) (signed : Z) (payload : pyval) : string :=
  match payload with
  | PDict [(_, PInt version); (_, PInt user)] =>
    salt +:+ join "/" [zstr signed; zstr version; zstr user]
  | _ => ""
  end.
Definition demo_loads (salt : string) (max_age now : Z) (token : string) : option pyval :=
  match split_char "/" <$> drop_prefix salt token with
  | Some [signed; version; user] =>
    match parse_int signed, parse_int version, parse_int user with
    | Some signed, Some version, Some user =>
      if seconds max_age <? now - signed / seconds 1 * seconds 1 then None else Some (token_payload user version)
    | _, _, _ => None
    end
  | _ => None
  end.
Lemma split_char_app sep a b : sforall (fun c => negb (Ascii.eqb c sep)) a = true ->
  split_char sep (a +:+ String sep b) = a :: split_char sep b.
Proof.
  induction a as [|c a IH]; [rewrite app_nil_l; cbn [split_char]; by rewrite Ascii.eqb_refl|]. rewrite app_cons. cbn [sforall split_char].
  intros [Hc Ha]%andb_true_iff. rewrite IH by done. by destruct (Ascii.eqb c sep).
Qed.
Lemma split_char_one sep a : sforall (fun c => negb (Ascii.eqb c sep)) a = true -> split_char sep a = [a].
Proof.
  induction a as [|c a IH]; [done|]. cbn. intros [Hc Ha]%andb_true_iff. rewrite IH by done. by destruct (Ascii.eqb c sep).
Qed.
Lemma zstr_no_slash n : sforall (fun c => negb (Ascii.eqb c "/")) (zstr n) = true.
Proof.
  eapply sforall_impl; [|apply zstr_chars]. apply (ascii_forall_impl is_number_char (fun c => negb (Ascii.eqb c "/"))).
  vm_compute. reflexivity.
Qed.
#[local] Program Instance demo_signing : Signing :=
  {| signing_dumps := demo_dumps; signing_loads := demo_loads |}.
Next Obligation.
  intros salt max_age signed now user version _. unfold demo_loads, demo_dumps, token_payload, mk_dict. cbn [fmap list_fmap fst snd].
  rewrite drop_prefix_app. cbn [join fmap option_fmap option_map].
  change (zstr signed +:+ "/" +:+ zstr version +:+ "/" +:+ zstr user)
    with (zstr signed +:+ String "/" (zstr version +:+ String "/" (zstr user))).
  rewrite !split_char_app by apply zstr_no_slash.
  rewrite split_char_one by apply zstr_no_slash. by rewrite !parse_zstr.
Qed.

(** The user 5 lives in the building whose published proposal quotes the document. *)
Definition demo_shared : world :=
  demo_upload.2 <| occupancies ::= insert_row (Occupancy 5 1 true) |>
    <| proposals ::= insert_row (Proposal None 1 1 PPublished (Some 1) None None "" (Some "tok") None None) |>
    <| versions ::= insert_row (Version 1 1 900 "Co" "fix" "mend" None None "" PNone "" 1 1) |>
    <| prop_docs ::= insert_row (PropDoc 1 1) |>.
Definition demo_link : string := got "" (issue_download_token (SG := demo_signing) 5 1 demo_shared).
Definition demo_redeem (user : Z) (later : Z) : result download :=
  (download_view (CR := demo_crypto) (SG := demo_signing) demo_bucket user demo_link (at_time later demo_shared)).1.

Lemma download_scope_witness :
  demo_redeem 5 (seconds 100) = Ok (Download_ "application/pdf"
    (content_disposition_inline (Some "quote.pdf")) "%PDF-1.4!") /\
  exists version : obj doc_version_row, rows (doc_versions demo_shared) !! pk version = Some (val version) /\
    sha256 (Crypto := demo_crypto) "%PDF-1.4!" = version~>dv_sha256.
Proof.
  assert (demo_redeem 5 (seconds 100) = Ok (Download_ "application/pdf"
    (content_disposition_inline (Some "quote.pdf")) "%PDF-1.4!")) as E by (vm_compute; reflexivity).
  split; [exact E|]. unfold demo_redeem in E.
  destruct (download_view (CR := demo_crypto) (SG := demo_signing) demo_bucket 5 demo_link (at_time (seconds 100) demo_shared))
    as [r w'] eqn:Hrun. cbn in E. subst r.
  destruct (download_scope (CR := demo_crypto) (SG := demo_signing) demo_bucket 5 demo_link _ _ w' Hrun)
    as (_ & _ & version & _ & _ & _ & _ & Hv & _ & _ & Hs & _). exists version. split; [exact Hv|exact Hs].
Defined.

Lemma token_redeems_witness :
  demo_redeem 5 (seconds 300) = Ok (Download_ "application/pdf"
    (content_disposition_inline (Some "quote.pdf")) "%PDF-1.4!") /\
  demo_redeem 5 (seconds 301) = Err (NotFound "Document not found.") /\
  demo_redeem 2 (seconds 1) = Err (NotFound "Document not found.").
Proof.
  assert (forall later, 0 <= later -> resident_can_download 5 demo_version (at_time later demo_shared) =
    (Ok true, at_time later demo_shared)) as Hcan by (intros later _; vm_compute; reflexivity).
  assert (forall later, 0 <= later -> forall user, demo_redeem user later = if bool_decide (user = 5) then
    (if seconds 300 <? later - 0 then Err (NotFound "Document not found.") else
      Ok (Download_ "application/pdf" (content_disposition_inline (Some "quote.pdf")) "%PDF-1.4!"))
    else Err (NotFound "Document not found.")) as H.
  { intros later Hl user.
    destruct (token_redeems (CR := demo_crypto) (SG := demo_signing) demo_bucket 5 demo_version demo_shared demo_link
      (at_time later demo_shared) "%PDF-1.4!") as [H1 H2]; [vm_compute; reflexivity|exact Hl|vm_compute; reflexivity|by apply Hcan|vm_compute; reflexivity|].
    case_bool_decide as Hu; [subst; exact H1|by apply H2]. }
  split; [|split]; rewrite H by done; vm_compute; reflexivity.
Defined.
