(* ===== verification/Explorer.v ===== *)
(** * Explorer: the public page of a proposal

    [explorer/views.py] and [ledger_story_fields] of [finance/selectors.py].  Anybody who
    holds the public token of a proposal sees its versions and its settlement, each read
    against the chain as the page loads, and downloads the documents they name by their
    digests. *)

From S2P Require Import OutboxWorker.
From S2P Require Import Prelude Table PyStr Schema Timestamps Store Accounts Documents Evidence.
From S2P Require Import Signatures Proposals Settlements FundSeries Books Integrity Downloads.
Open Scope Z_scope.

(** [a or b] on strings *)
Definition or_else (a b : string) : string := if truthy a then a else b.
Definition stripped (s : option string) : string := py_strip (default "" s).

(** ** The story of an entry *)

(** Work updates are created in the order of their keys. *)
Definition newest_update (P : obj work_update_row -> bool) : DB (option (obj work_update_row)) :=
  updates ← query work_updates P;
  mret (last updates).
Definition newest_work (case_ : option (obj case_row)) (proposal : Z) : DB (option (obj work_update_row)) :=
  match case_ with
  | Some c => newest_update (fun u => u~>wu_case ==? Some (pk c))
  | None => newest_update (fun u => u~>wu_proposal ==? Some proposal)
  end.
Definition case_of (case_ : option Z) : DB (option (obj case_row)) :=
  match case_ with
  | None => mret None
  | Some k => c ← get_row cases "MaintenanceCase" k; mret (Some c)
  end.
Definition reported_text (case_ : option (obj case_row)) : DB (option string) :=
  match case_ with
  | None => mret None
  | Some c =>
    decision ← get_row decisions "TriageDecision" c~>ca_decision;
    report ← get_row reports "IssueReport" decision~>de_report;
    mret (Some report~>rp_text)
  end.
Definition current_version_of (proposal : obj proposal_row) : DB (option (obj version_row)) :=
  match proposal~>pr_current_version with
  | None => mret None
  | Some k => v ← get_row versions "ProposalVersion" k; mret (Some v)
  end.

(** [what_was_fixed] and [why]. *)
Definition ledger_story_fields (entry : obj ledger_row) : DB (string * string) :=
  case_ ← case_of entry~>le_case;
  work ← newest_work case_ entry~>le_proposal;
  text ← reported_text case_;
  proposal ← get_row proposals "Proposal" entry~>le_proposal;
  version ← current_version_of proposal;
  let result := stripped ((fun u => u~>wu_result) <$> work) in
  let cause := stripped ((fun u => u~>wu_cause) <$> work) in
  let category := stripped ((fun c => c~>ca_category) <$> case_) in
  let purpose := stripped ((fun v => v~>ve_purpose) <$> version) in
  mret (or_else result (or_else (stripped text) (or_else category purpose)), or_else cause (or_else category purpose)).

(** ** Evidence *)

Definition EVIDENCE_LEVEL_TONES (level : evidence_level_t) : string :=
  match level with
  | CHAIN_CONFIRMED => "verified" | LOCAL_SIGNED => "info" | LevelPending => "warning" | LevelMismatch => "mismatch"
  end.

Record chain_step := ChainStep {
  cs_level : evidence_level_t; cs_payload_hash : string; cs_transaction_hash : string;
  cs_transaction_url : string; cs_confirmation_time : option Z }.
Definition _make_chain_step : chain_step := ChainStep LevelPending "" "" "" None.

Section Explorer.
Context {CR : Crypto} {ETH : EthAccount} (ST : storage).
(** [CHAIN_EXPLORER_URL], and the client, whose construction may raise. *)
Context (explorer_url : string) (client : result rpc).

Definition _chain_explorer_tx_url (tx_hash : string) : string :=
  let base_url := rstrip (fun c => Ascii.eqb c "/") explorer_url in
  if negb (truthy base_url) || negb (truthy tx_hash) then "" else base_url +:+ "/tx/" +:+ tx_hash.

(** [datetime.fromtimestamp(n, tz=utc)] *)
Definition fromtimestamp (n : Z) : result Z :=
  if (1 <=? seconds n / DAY + EPOCH_ORDINAL) && (seconds n / DAY + EPOCH_ORDINAL <=? 3652059)
  then Ok (seconds n) else Err (ValueError "year is out of range").

(** One event as the page shows it, and whether the chain could not be asked. *)
Definition _read_chain_step (event : option (obj outbox_row)) : DB (chain_step * bool) :=
  match event with
  | None => mret (_make_chain_step, false)
  | Some event =>
    let tx_hash := event~>ev_transaction_hash in
    let conf_time := match event~>ev_chain_block_timestamp with Some t => Some t | None => event~>ev_confirmed_at end in
    let step level time := ChainStep level event~>ev_payload_hash tx_hash (_chain_explorer_tx_url tx_hash) time in
    local ← check_local_evidence event;
    if negb (lc_verified local) then mret (step LevelMismatch conf_time, false)
    else
      st ← get_settings;
      if st_anchoring_disabled st || (event~>ev_status ==? LOCAL) then mret (step LOCAL_SIGNED conf_time, false)
      else if event~>ev_status ==? MISMATCH then mret (step LevelMismatch conf_time, false)
      else
        match c ← client; OutboxWorker.find c event with
        | Err _ => mret (step (evidence_level event~>ev_status) conf_time, true)
        | Ok None => mret (step (evidence_level event~>ev_status) conf_time, false)
        | Ok (Some record) =>
          let on_chain_hash := py_lower (removeprefix "0x" (cr_payload_hash record)) in
          let local_hash := py_lower (removeprefix "0x" event~>ev_payload_hash) in
          let level := if on_chain_hash ==? local_hash then CHAIN_CONFIRMED else LevelMismatch in
          time ← (if 0 <? cr_recorded_at record
                  then t ← of_result (fromtimestamp (cr_recorded_at record)); mret (Some t)
                  else mret conf_time);
          mret (step level time, false)
        end
  end.

(** ** The page *)

Record version_step := VersionStep {
  vs_number : Z; vs_amount_vnd : Z; vs_contractor_name : string; vs_purpose : string;
  vs_proposed_action : string; vs_expected_schedule : string; vs_creator_name : string;
  vs_quotations : list (string * string * Z); vs_chain : chain_step }.
Record settlement_step := SettlementStep {
  ss_amount_vnd : Z; ss_contractor_name : string; ss_settled_by : string; ss_settled_at : Z;
  ss_transfer : option (string * string * Z); ss_chain : chain_step }.
Record page := Page {
  pg_versions : list version_step; pg_settlement : option settlement_step;
  pg_what_was_fixed : string; pg_why : string; pg_published_at : option Z;
  pg_decision : option (string * option Z); pg_observation : option (verdict * bool * Z);
  pg_unreachable : bool }.

Definition NO_WORK_UPDATE_YET : string := "Chưa có cập nhật công việc".
Definition membership_name (membership : Z) : DB string :=
  m ← get_row memberships "ManagementMembership" membership;
  u ← get_row users "User" m~>mb_user;
  mret u~>u_display_name.
Definition described (v : obj doc_version_row) : string * string * Z :=
  (v~>dv_filename, v~>dv_sha256, v~>dv_byte_size).

Definition show_version (version : obj version_row) : DB (version_step * bool) :=
  event ← get_row outbox "BlockchainOutboxEvent" version~>ve_outbox_event;
  chain ← _read_chain_step (Some event);
  creator ← membership_name version~>ve_creator_membership;
  links ← query prop_docs (fun l => l~>pd_version ==? pk version);
  quotations ← map_m (fun l => get_row doc_versions "DocumentVersion" l~>pd_document_version) links;
  mret (VersionStep version~>ve_number version~>ve_amount_vnd version~>ve_contractor_name version~>ve_purpose
    version~>ve_proposed_action version~>ve_expected_schedule creator (described <$> quotations) chain.1, chain.2).

Definition event_of (event : option Z) : DB (option (obj outbox_row)) :=
  match event with
  | None => mret None
  | Some k => e ← get_row outbox "BlockchainOutboxEvent" k; mret (Some e)
  end.
Definition settlement_of (proposal : Z) : DB (option (obj settlement_row)) :=
  query_first settlements (fun s => s~>se_proposal ==? proposal).

Definition show_settlement (proposal : obj proposal_row) (settlement : obj settlement_row) :
    DB (settlement_step * bool) :=
  event ← event_of settlement~>se_outbox_event;
  chain ← _read_chain_step event;
  version ← current_version_of proposal;
  settled_by ← membership_name settlement~>se_settled_by;
  e ← of_option AttributeError event;
  transfer ← (if is_settled e~>ev_status
    then t ← get_row doc_versions "DocumentVersion" settlement~>se_transfer; mret (Some (described t))
    else mret None);
  mret (SettlementStep settlement~>se_amount_vnd (default "" ((fun v => v~>ve_contractor_name) <$> version)) settled_by
    settlement~>se_settled_at transfer chain.1, chain.2).

(** [proposal.published_ledger_entry], else [proposal.settlement.ledger_entry]. *)
Definition published_entry_of (proposal : Z) (settlement : option (obj settlement_row)) : DB (option (obj ledger_row)) :=
  own ← query_first ledger (fun l => l~>le_proposal ==? proposal);
  match own, settlement with
  | None, Some s => query_first ledger (fun l => l~>le_settlement ==? pk s)
  | _, _ => mret own
  end.
Definition latest_verification_observation (entry : Z) : DB (option (obj observation_row)) :=
  all ← query observations (fun o => o~>ob_published_entry ==? entry);
  mret (head (newest_first (fun o => o~>ob_observed_at) all)).

Definition explorer_page (public_token : string) : DB page :=
  found ← query_first proposals (fun p => p~>pr_public_token ==? Some public_token);
  proposal ← of_option Http404 found;
  all ← query versions (fun v => v~>ve_proposal ==? pk proposal);
  steps ← map_m show_version (order_by (fun v => v~>ve_number) all);
  settlement ← settlement_of (pk proposal);
  settled ← (match settlement with
    | None => mret None
    | Some s => p ← show_settlement proposal s; mret (Some p)
    end);
  entry ← published_entry_of (pk proposal) settlement;
  case_ ← case_of proposal~>pr_case;
  work ← newest_work case_ (pk proposal);
  version ← current_version_of proposal;
  why ← (match entry with
    | Some e => story ← ledger_story_fields e; mret story.2
    | None => mret (or_else (stripped ((fun u => u~>wu_cause) <$> work))
        (or_else (stripped ((fun c => c~>ca_category) <$> case_)) (stripped ((fun v => v~>ve_purpose) <$> version))))
    end);
  decision ← proceed_decision (Some proposal);
  observation ← (match entry with
    | None => mret None
    | Some e => latest_verification_observation (pk e)
    end);
  mret (Page (fst <$> steps) (fst <$> settled)
    (or_else (stripped ((fun u => u~>wu_result) <$> work)) NO_WORK_UPDATE_YET) why
    ((fun e => e~>le_published_at) <$> entry) decision
    ((fun o => (o~>ob_result, o~>ob_chain_consulted, o~>ob_observed_at)) <$> observation)
    (existsb snd steps || match settled with Some p => p.2 | None => false end)).

(** ** Documents *)

Definition shown_in (proposal : Z) (sha256_ : string) (w : world) (v : obj doc_version_row) : bool :=
  (v~>dv_sha256 ==? sha256_) &&
  exists_ (fun l => (l~>pd_document_version ==? pk v) &&
    exists_ (fun x => (pk x ==? l~>pd_version) && (x~>ve_proposal ==? proposal)) (versions w)) (prop_docs w).
Definition _explorer_document (proposal : obj proposal_row) (sha256_ : string) : DB (option (obj doc_version_row)) :=
  settlement ← settlement_of (pk proposal);
  transfer ← (match settlement with
    | None => mret None
    | Some s =>
      event ← event_of s~>se_outbox_event;
      e ← of_option AttributeError event;
      if is_settled e~>ev_status then
        t ← get_row doc_versions "DocumentVersion" s~>se_transfer;
        mret (if t~>dv_sha256 ==? sha256_ then Some t else None)
      else mret None
    end);
  match transfer with
  | Some t => mret (Some t)
  | None => gets (fun w => first (shown_in (pk proposal) sha256_ w) (doc_versions w))
  end.

Inductive response := Served (d : download) | Conflict (detail : string).

Definition document_download (public_token sha256_ : string) : DB response :=
  found ← query_first proposals (fun p => p~>pr_public_token ==? Some public_token);
  proposal ← of_option Http404 found;
  version ← _explorer_document proposal sha256_;
  version ← of_option Http404 version;
  match read_version_bytes ST (val version) with
  | Err (DocumentIntegrityError detail) => mret (Conflict detail)
  | Err e => raise e
  | Ok data =>
    mret (Served (Download_ (or_else version~>dv_content_type "application/octet-stream")
      (content_disposition_inline (Some version~>dv_filename)) data))
  end.
End Explorer.

(** ** Properties *)

Section Properties.
Context {CR : Crypto} {ETH : EthAccount} (ST : storage) (explorer_url : string) (client : result rpc).

(** What the chain answers about an event, when it can be asked. *)
Definition chain_answer (e : obj outbox_row) : result (option chain_record) := c ← client; OutboxWorker.find c e.
Definition same_hash (r : chain_record) (e : obj outbox_row) : Prop :=
  py_lower (removeprefix "0x" (cr_payload_hash r)) = py_lower (removeprefix "0x" e~>ev_payload_hash).

(** What a level on the page rests on. *)
Definition justified w (e : obj outbox_row) (level : evidence_level_t) : Prop :=
  match level with
  | CHAIN_CONFIRMED =>
    intact w e /\ st_anchoring_disabled (w_settings w) = false /\ e~>ev_status <> LOCAL /\ e~>ev_status <> MISMATCH /\
    match chain_answer e with
    | Ok (Some r) => same_hash r e
    | Ok None | Err _ => e~>ev_status = CONFIRMED
    end
  | LOCAL_SIGNED => intact w e /\ (st_anchoring_disabled (w_settings w) = true \/ e~>ev_status = LOCAL)
  | LevelPending => intact w e /\ e~>ev_status <> CONFIRMED /\ forall r, chain_answer e <> Ok (Some r)
  | LevelMismatch =>
    (exists c, check_local_evidence e w = (Ok c, w) /\ lc_verified c = false) \/ e~>ev_status = MISMATCH \/
    exists r, chain_answer e = Ok (Some r) /\ ~ same_hash r e
  end.

Lemma stored_level_justified w e : e~>ev_status <> LOCAL -> e~>ev_status <> MISMATCH -> intact w e ->
  st_anchoring_disabled (w_settings w) = false -> (forall r, chain_answer e <> Ok (Some r)) ->
  justified w e (evidence_level e~>ev_status).
Proof.
  intros Hl Hm Hi Hd Hc. unfold justified. destruct (e~>ev_status) eqn:E; cbn; try done. split_and!; try done.
  destruct (chain_answer e) as [[r|]|]; try done. by destruct (Hc r).
Qed.

Lemma read_step_run event w s u w' :
  _read_chain_step explorer_url client event w = (Ok (s, u), w') -> w' = w /\
  match event with
  | None => cs_level s = LevelPending /\ u = false
  | Some e => justified w e (cs_level s) /\ (u = true -> exists x, chain_answer e = Err x) /\
      cs_payload_hash s = e~>ev_payload_hash /\ cs_transaction_hash s = e~>ev_transaction_hash
  end.
Proof.
  unfold _read_chain_step. destruct event as [e|]; intros H; [|by inv_db]. inv_ok_step.
  match goal with H : check_local_evidence _ _ = (Ok ?x, _) |- _ =>
    pose proof H as Hc; apply check_local_run in H as [-> Hi]; destruct (lc_verified x) eqn:Ev end; cbn [negb] in *.
  2: { inv_db. split_and!; try done. left. eauto. }
  specialize (Hi eq_refl). inv_ok_step. match goal with H : get_settings _ = _ |- _ => apply gets_Ok in H as [<- <-] end.
  destruct (_ || _) eqn:Ed.
  { inv_db. split_and!; try done. split; [done|]. apply orb_true_iff in Ed as [?|?]; to_prop; auto. }
  to_prop. destruct (_ ==? MISMATCH) eqn:Em; to_prop.
  { inv_db. split_and!; try done. right. by left. }
  change (c ← client; OutboxWorker.find c e) with (chain_answer e) in *.
  destruct (chain_answer e) as [[r|]|er] eqn:Ea.
  - inv_ok_step. match goal with H : (if _ then _ else _) _ = (Ok _, ?w1) |- _ => assert (w1 = w) as -> by (destruct (0 <? _); inv_db; done) end.
    inv_ok. split_and!; try done. unfold justified, same_hash. cbn. rewrite Ea. case_bool_decide; [by split_and!|]. right. right. eauto.
  - inv_db. split_and!; try done. apply stored_level_justified; try done. by rewrite Ea.
  - inv_db. split_and!; try done; [|by eauto]. apply stored_level_justified; try done. by rewrite Ea.
Qed.

(** A step shows the row of its event. *)
Definition shows_event w (k : option Z) (s : chain_step) : Prop :=
  exists e, k = Some (pk e) /\ rows (outbox w) !! pk e = Some (val e) /\ justified w e (cs_level s) /\
    cs_payload_hash s = e~>ev_payload_hash /\ cs_transaction_hash s = e~>ev_transaction_hash.
Definition unasked w (u : bool) : Prop :=
  u = true -> exists e x, rows (outbox w) !! pk e = Some (val e) /\ chain_answer e = Err x.
Definition shows_version w (v : obj version_row) (s : version_step) : Prop :=
  shows_event w (Some v~>ve_outbox_event) (vs_chain s) /\
  vs_number s = v~>ve_number /\ vs_amount_vnd s = v~>ve_amount_vnd /\ vs_contractor_name s = v~>ve_contractor_name /\
  vs_purpose s = v~>ve_purpose /\ vs_proposed_action s = v~>ve_proposed_action /\
  vs_expected_schedule s = v~>ve_expected_schedule.
Definition shows_settlement w (r : settlement_row) (s : settlement_step) : Prop :=
  shows_event w (se_outbox_event r) (ss_chain s) /\ ss_amount_vnd s = se_amount_vnd r /\ ss_settled_at s = se_settled_at r /\
  (ss_transfer s <> None <-> exists e, se_outbox_event r = Some e /\ settled_event w e).

Lemma shows_chain w (e : obj outbox_row) s u w' : rows (outbox w) !! pk e = Some (val e) ->
  _read_chain_step explorer_url client (Some e) w = (Ok (s, u), w') -> w' = w /\ shows_event w (Some (pk e)) s /\ unasked w u.
Proof.
  intros He [-> (Hj & Hu & Hp & Ht)]%read_step_run. split; [done|]. split; [by exists e|]. intros [x Hx]%Hu. by exists e, x.
Qed.
Lemma membership_name_reads k w n w' : membership_name k w = (Ok n, w') -> w' = w.
Proof. unfold membership_name. intros H. by inv_db. Qed.
Lemma event_of_run k w e w' : event_of k w = (Ok e, w') ->
  w' = w /\ match e with None => k = None | Some e => k = Some (pk e) /\ rows (outbox w) !! pk e = Some (val e) end.
Proof.
  unfold event_of. intros H. destruct k as [k|]; inv_db; [|done].
  match goal with H : find _ _ = _ |- _ => apply find_Some in H as [<- ?] end. done.
Qed.
Lemma current_version_reads p w v w' : current_version_of p w = (Ok v, w') -> w' = w.
Proof. unfold current_version_of. intros H. destruct p~>pr_current_version; by inv_db. Qed.

Lemma show_version_run v w s u w' : show_version explorer_url client v w = (Ok (s, u), w') ->
  w' = w /\ shows_version w v s /\ unasked w u.
Proof.
  unfold show_version. intros H. inv_ok_step. inv_db_step. inv_ok_step.
  match goal with H : find _ _ = _ |- _ => apply find_Some in H as [Hk Hr]; rewrite <-Hk in Hr end. subst.
  match goal with H : _read_chain_step _ _ _ _ = (Ok ?x, _) |- _ => destruct x; eapply shows_chain in H as (-> & Hs & Hu); [|done] end.
  inv_ok_step. match goal with H : membership_name _ _ = _ |- _ => apply membership_name_reads in H as -> end.
  inv_db. match goal with H : map_m _ _ _ = _ |- _ => apply map_m_reads in H as ->; [|by intros; inv_db] end.
  split_and!; try done. unfold shows_version. by rewrite <-Hk.
Qed.

Lemma show_settlement_run p (r : obj settlement_row) w s u w' :
  show_settlement explorer_url client p r w = (Ok (s, u), w') -> w' = w /\ shows_settlement w (val r) s /\ unasked w u.
Proof.
  unfold show_settlement. intros H. inv_ok_step.
  match goal with H : event_of _ _ = (Ok ?x, _) |- _ => apply event_of_run in H as [-> He]; destruct x as [e|] end;
    [|exfalso; clear - H0; inv_ok; inv_db].
  destruct He as [Hk He]. inv_ok_step.
  match goal with H : _read_chain_step _ _ _ _ = (Ok ?x, _) |- _ => destruct x; eapply shows_chain in H as (-> & Hs & Hu); [|done] end.
  inv_ok_step. match goal with H : current_version_of _ _ = _ |- _ => apply current_version_reads in H as -> end.
  inv_ok_step. match goal with H : membership_name _ _ = _ |- _ => apply membership_name_reads in H as -> end.
  inv_ok_step. inv_ok_step. inv_ok_step. subst. simplify_eq.
  match goal with H : (if is_settled (ev_status (val ?x)) then _ else _) _ = _ |- _ =>
    destruct (is_settled (ev_status (val x))) eqn:Es end; inv_db.
  all: split; [done|]; split; [|done]; split; [by rewrite Hk|]; do 2 (split; [done|]); rewrite Hk; unfold settled_event; cbn.
  - split; [|done]. intros _. eauto.
  - split; [done|]. intros (? & [= <-] & ? & He' & ?). rewrite He in He'. injection He' as <-. by rewrite Es in *.
Qed.

(** What the page reads besides the steps. *)
Lemma story_reads w : 
  (forall k, keeps eq (case_of k) w) /\ (forall c p, keeps eq (newest_work c p) w) /\
  (forall p, keeps eq (current_version_of p) w) /\ (forall p s, keeps eq (published_entry_of p s) w) /\
  (forall e, keeps eq (latest_verification_observation e) w) /\ (forall p, keeps eq (proceed_decision p) w).
Proof.
  split_and!; intros; unfold case_of, newest_work, newest_update, current_version_of, published_entry_of,
    latest_verification_observation, proceed_decision; keeps_db.
Qed.
Lemma reported_reads c w : keeps eq (reported_text c) w.
Proof. unfold reported_text. keeps_db. Qed.
Lemma ledger_story_reads e w : keeps eq (ledger_story_fields e) w.
Proof.
  unfold ledger_story_fields. repeat first
    [apply story_reads | apply reported_reads | keeps_step | keeps_db_step].
Qed.
Lemma keeps_eq {A} (m : DB A) w a w' : keeps eq m w -> m w = (Ok a, w') -> w' = w.
Proof. unfold keeps. intros H E. by rewrite E in H. Qed.

Lemma unasked_or w us u : Forall (unasked w) us -> unasked w u -> unasked w (existsb id us || u).
Proof.
  intros Hf Hu. destruct u; [intros _; by apply Hu|]. rewrite orb_false_r. induction Hf as [|x us Hx _ IH]; [done|].
  cbn. destruct x; [exact Hx|exact IH].
Qed.

Lemma show_settled p w r o w' :
  match r with None => mret None | Some s => q ← show_settlement explorer_url client p s; mret (Some q) end w = (Ok o, w') ->
  w' = w /\ unasked w (match o with Some q => q.2 | None => false end) /\
  match o with
  | Some q => exists s, r = Some s /\ shows_settlement w (val s) q.1
  | None => r = None
  end.
Proof.
  intros H. destruct r as [s|]; inv_ok; [|done].
  match goal with H : show_settlement _ _ _ _ _ = (Ok ?q, _) |- _ => destruct q; apply show_settlement_run in H as (-> & ? & ?) end.
  split_and!; eauto.
Qed.


(** The page confirms what the chain denies.  The row says CONFIRMED and the records
    re-hash, but the registry has no record of the event: asked, it answers so.  The page
    shows the step as confirmed on the chain, with no warning that the chain was not
    reached, while the integrity check of the same event reports it unavailable. *)
Theorem explorer_confirms_unrecorded e lc c w :
  check_local_evidence e w = (Ok lc, w) -> lc_verified lc = true ->
  st_anchoring_disabled (w_settings w) = false -> e~>ev_status = CONFIRMED ->
  client = Ok c -> OutboxWorker.find c e = Ok None ->
  (exists s, _read_chain_step explorer_url client (Some e) w = (Ok (s, false), w) /\ cs_level s = CHAIN_CONFIRMED) /\
  (check_chain_record c e).1 = VUnavailable.
Proof.
  intros Hc Hv Hd He -> Hf. split; [|unfold check_chain_record; by rewrite Hf].
  unfold _read_chain_step. rewrite (bind_run _ _ _ _ _ Hc), Hv. cbn [negb].
  rewrite (bind_run _ _ w (w_settings w) w) by done. rewrite Hd, He. cbn.
  unfold mbind, result_bind. rewrite Hf. eauto.
Qed.

(** A document the public page names. *)
Definition published_with w (p : obj proposal_row) (version : Z) : Prop :=
  (exists d pd v, rows (prop_docs w) !! d = Some pd /\ pd_document_version pd = version /\
    rows (versions w) !! pd_version pd = Some v /\ ve_proposal v = pk p) \/
  (exists k s e, rows (settlements w) !! k = Some s /\ se_proposal s = pk p /\ se_transfer s = version /\
    se_outbox_event s = Some e /\ settled_event w e).

Lemma explorer_document_run p sha w o w' : _explorer_document p sha w = (Ok o, w') ->
  w' = w /\ forall v, o = Some v ->
    rows (doc_versions w) !! pk v = Some (val v) /\ v~>dv_sha256 = sha /\ published_with w p (pk v).
Proof.
  unfold _explorer_document. intros H. inv_ok_step.
  match goal with H : settlement_of _ _ = _ |- _ => apply query_first_Ok in H as [Hset ->] end. inv_ok_step.
  match goal with H : match x with Some s => _ | None => _ end _ = (Ok ?t, ?w1) |- _ =>
    assert (w1 = w /\ forall v, t = Some v -> rows (doc_versions w) !! pk v = Some (val v) /\ v~>dv_sha256 = sha /\
      published_with w p (pk v)) as [-> Ht]; [clear - H Hset; rename H into Hm|clear H] end.
  - symmetry in Hset. destruct x as [s|]; [apply first_Some in Hset as [Hr Hp]; to_prop|by inv_ok].
    inv_ok_step. match goal with H : event_of _ _ = _ |- _ => apply event_of_run in H as [-> He] end. inv_ok. destruct He as [Hk He].
    match goal with H : (if ?b then _ else _) _ = _ |- _ => destruct b eqn:Es; inv_db; [|done] end.
    match goal with H : find _ _ = _ |- _ => apply find_Some in H as [Ht Hv] end. split; [done|]. intros v.
    case_bool_decide; intros [= <-]. split_and!; [by rewrite Ht|done|]. right. eexists _, _, _. split_and!; [exact Hr|done|done|exact Hk|].
    by eexists.
  - destruct x0; inv_db; [by split|]. split; [done|]. intros v [Hv Hs]%first_Some. unfold shown_in in Hs. to_prop.
    match goal with H : exists_ _ _ = true |- _ => apply exists_true in H as (d & pd & Hd & H); to_prop;
      match goal with H : exists_ _ _ = true |- _ => apply exists_true in H as (k & r & Hk & H); to_prop end end.
    cbn in *. subst. split_and!; try done. left. by exists d, pd, r.
Qed.

Lemma read_version_Ok v data : read_version_bytes ST v = Ok data -> sha256 data = dv_sha256 v.
Proof. unfold read_version_bytes. intros H. repeat case_match; by simplify_eq; to_prop. Qed.

(** C15: the public route serves what the page names and nothing else.  Whatever digest the
    address carries, the bytes served hash to it, and they are those of a quotation of a
    version of this very proposal, or of the payment proof of its settlement once its event
    is settled; a stored file that no longer hashes to its digest is refused.  A document of
    another proposal is not found here. *)
Theorem explorer_document_only token sha w r w' :
  document_download ST token sha w = (Ok r, w') -> w' = w /\
  exists (p : obj proposal_row) (v : obj doc_version_row),
    rows (proposals w) !! pk p = Some (val p) /\ p~>pr_public_token = Some token /\
    rows (doc_versions w) !! pk v = Some (val v) /\ v~>dv_sha256 = sha /\ published_with w p (pk v) /\
    match r with
    | Served d => sha256 (do_bytes d) = sha /\ do_disposition d = content_disposition_inline (Some v~>dv_filename)
    | Conflict _ => exists detail, read_version_bytes ST (val v) = Err (DocumentIntegrityError detail)
    end.
Proof.
  unfold document_download. intros H. inv_ok_step. inv_db_step. inv_ok_step. inv_ok_step.
  match goal with H : _explorer_document _ _ _ = _ |- _ => apply explorer_document_run in H as [-> Hv] end.
  inv_ok. match goal with H : first _ (proposals _) = _ |- _ => apply first_Some in H as [Hp Ht] end. to_prop.
  destruct (Hv _ eq_refl) as (Hd & Hs & Hw). match goal with H : match ?m with Ok _ => _ | Err _ => _ end _ = _ |- _ =>
    destruct m as [data|er] eqn:Er end.
  - inv_ok. split; [done|]. eexists _, _. split_and!; try done. exact (read_version_Ok _ _ Er).
  - destruct er; inv_ok. split; [done|]. eexists _, _. split_and!; try done. by eexists.
Qed.
End Properties.

(** ** Concrete runs *)

Definition demo_page : result page * world :=
  explorer_page (CR := demo_crypto) (ETH := demo_account) "https://explorer.example/" (Ok demo_rpc) "token" demo_delivered.
Definition demo_shown : page := got (Page [] None "" "" None None None false) demo_page.


(** A version whose event was confirmed; the node has since lost the record. *)
Definition demo_confirmed : world :=
  demo_settled <| outbox ::= update 1 (fun e => e <| ev_status := CONFIRMED |>) |>.
Definition demo_event : obj outbox_row := Obj 1 (default demo_row (rows (outbox demo_confirmed) !! 1)).
Definition demo_local : local_check :=
  got (LocalCheck "" "" None None None false) (check_local_evidence (CR := demo_crypto) demo_event demo_confirmed).

Lemma explorer_confirms_unrecorded_witness :
  st_anchoring_disabled (w_settings demo_confirmed) = false /\
  exists s, _read_chain_step (CR := demo_crypto) (ETH := demo_account) "" (Ok demo_rpc) (Some demo_event) demo_confirmed =
    (Ok (s, false), demo_confirmed) /\ cs_level s = CHAIN_CONFIRMED.
Proof.
  split; [vm_compute; reflexivity|].
  refine (proj1 (explorer_confirms_unrecorded (CR := demo_crypto) (ETH := demo_account) "" (Ok demo_rpc) demo_event demo_local demo_rpc
    demo_confirmed _ _ _ _ _ _)); vm_compute; reflexivity.
Defined.

Definition demo_quote_sha : string := sha256 (Crypto := demo_crypto) "quote".
Definition demo_get (quote : option string) : result response * world :=
  document_download (CR := demo_crypto) (demo_files quote (Some "transfer")) "token" demo_quote_sha demo_delivered.
Definition demo_served (quote : option string) : response := got (Conflict "") (demo_get quote).

Lemma explorer_document_only_witness :
  (exists detail, demo_served (Some "forged") = Conflict detail) /\
  exists d, demo_served (Some "quote") = Served d /\ sha256 (Crypto := demo_crypto) (do_bytes d) = demo_quote_sha.
Proof.
  split; [vm_compute; by eexists|].
  destruct (explorer_document_only (CR := demo_crypto) (demo_files (Some "quote") (Some "transfer")) "token" demo_quote_sha
    demo_delivered (demo_served (Some "quote")) (demo_get (Some "quote")).2 ltac:(vm_compute; reflexivity))
    as (_ & p & v & _ & _ & _ & _ & _ & H).
  destruct (demo_served (Some "quote")) as [d|detail] eqn:E; [|vm_compute in E; discriminate].
  exists d. split; [reflexivity|]. exact (proj1 H).
Defined.
