(* ===== verification/Worker.v ===== *)
(** * Worker: one cycle of the background processors

    [config/worker.py] and [notify_deadline_risk] of [notifications/hooks.py].  The worker
    runs its processors one after the other, each in its own transactions, and a processor
    that raises is reported and does not stop the others.  A call made outside a
    transaction runs its callbacks at once ([committed]). *)

From S2P Require Import OutboxWorker.
From S2P Require Import Prelude Table PyStr Schema Timestamps Store Accounts Documents Evidence Signatures Dates.
From S2P Require Import Json AiClient Notifications Devices Hooks Registration TriageAi Proposals Settlements Books Integrity.
Open Scope Z_scope.

Record processor_result := ProcessorResult { pr_name : string; pr_ok : bool; pr_detail : string; pr_count : Z }.
Definition all_ok (processors : list processor_result) : bool := forallb pr_ok processors.

(** [try: ... except Exception as exc: ...] around the body of a processor, which counts
    what it did. *)
Definition processor_body (name label : string) (m : DB Z) : DB processor_result :=
  try_except (count ← m; mret (ProcessorResult name true (label +:+ "=" +:+ zstr count) count))
    (fun exc => mret (ProcessorResult name false (exn_str exc) 0)).

(** A transaction and the callbacks it leaves. *)
Definition committed {A} (m : DB A) : DB A := a ← m; run_on_commit ;; mret a.

(** [try: f(x); count += 1; except Exception: log] *)
Fixpoint count_ok {A B} (f : A -> DB B) (l : list A) (count : Z) : DB Z :=
  match l with
  | [] => mret count
  | x :: l =>
    n ← try_except (f x ;; mret (count + 1)) (fun _ => mret count);
    count_ok f l n
  end.

(** ** Near deadlines *)

(** [datetime.isoformat(sep)] of an instant in UTC, and [str] of it *)
Definition datetime_text (sep : string) (t : Z) : string :=
  let us := t mod DAY in
  isoformat (ord2ymd (t / DAY + EPOCH_ORDINAL)) +:+ sep +:+ zpad 2 (us / hours 1) +:+ ":" +:+
  zpad 2 (us / minutes 1 mod 60) +:+ ":" +:+ zpad 2 (us / seconds 1 mod 60) +:+
  (if us mod seconds 1 =? 0 then "" else "." +:+ zpad 6 (us mod seconds 1)) +:+ "+00:00".
Definition datetime_str : Z -> string := datetime_text " ".

Definition notify_deadline_risk (case : obj case_row) : DB unit :=
  management ← _management_users case~>ca_building;
  let day := isoformat (ord2ymd (case~>ca_deadline_at / DAY + EPOCH_ORDINAL)) in
  notify_users management (EVENT_DEADLINE_RISK +:+ ":case:" +:+ zstr (pk case) +:+ ":day:" +:+ day) "Deadline risk"
    ("Case #" +:+ zstr (pk case) +:+ " approaches deadline " +:+ datetime_str case~>ca_deadline_at +:+ ".")
    EVENT_DEADLINE_RISK (Some case~>ca_building).

Definition at_risk (now : Z) (c : obj case_row) : bool :=
  (c~>ca_deadline_at <=? now + hours 24) && (now - hours 24 <=? c~>ca_deadline_at) && c~>ca_active &&
  (c~>ca_completed_at ==? None).
Definition process_deadline_risk_batch (limit : nat) : DB processor_result :=
  processor_body "deadline_risk" "queued" (
    now ← timezone_now;
    due ← query cases (at_risk now);
    count_ok (fun c => committed (notify_deadline_risk c)) (take limit (order_by (fun c => c~>ca_deadline_at) due)) 0).

(** ** Integrity *)

Section Integrity.
Context {CR : Crypto} {ETH : EthAccount} (ST : storage) (read_error : doc_version_row -> string) (client : result rpc).

Definition observed (w : world) (entry : Z) : bool := exists_ (fun o => o~>ob_published_entry ==? entry) (observations w).
Definition unobserved (w : world) : list (obj ledger_row) :=
  order_by (fun l => l~>le_published_at) (select (fun l => negb (observed w (pk l))) (ledger w)).
Definition process_integrity_batch (limit : nat) : DB processor_result :=
  processor_body "integrity" "checked" (
    pending ← gets unobserved;
    count_ok (fun e => committed (verify_published_entry ST read_error client (pk e))) (take limit pending) 0).
End Integrity.

(** ** The others *)

Section Cycle.
Context {CR : Crypto} {ETH : EthAccount} (ST : storage) (read_error : doc_version_row -> string) (client : result rpc).
Context (node : rpc) (providers_ : providers).
Context (ai : ai_settings) (similarity : string -> string -> Z) (provider : pyval -> answer).
Context (decode_error : string) (json_error : string -> string) (elapsed_ms : Z).

Definition triage_batch (limit : nat) : DB processor_result :=
  processor_body "triage" "processed" (batch_loop ai similarity provider decode_error json_error elapsed_ms limit 0).
Definition process_blockchain_outbox_batch (limit : nat) : DB processor_result :=
  processor_body "blockchain_outbox" "processed"
    (results ← process_due_outbox_events node limit; mret (Z.of_nat (length results))).
Definition process_notifications_batch (limit : nat) : DB processor_result :=
  processor_body "notifications" "processed"
    (results ← process_due_notifications providers_ limit; mret (Z.of_nat (length results))).
Definition process_stale_devices_batch (days_ : nat) : DB processor_result :=
  processor_body "stale_devices" "deactivated" (deactivate_stale_devices (Z.of_nat days_)).
Definition process_registration_expiry_batch (limit : nat) : DB processor_result :=
  processor_body "registration_expiry" "expired" (expire_registration_requests limit).

(** ** The cycle *)

(** A processor: its [__name__], the default of its only argument, its body. *)
Record processor := Processor { p_name : string; p_default : nat; p_run : nat -> DB processor_result }.
Definition PROCESSORS : list processor := [
  Processor "process_triage_batch" 20 triage_batch;
  Processor "process_blockchain_outbox_batch" 50 process_blockchain_outbox_batch;
  Processor "process_integrity_batch" 20 (process_integrity_batch ST read_error client);
  Processor "process_deadline_risk_batch" 50 process_deadline_risk_batch;
  Processor "process_notifications_batch" 50 process_notifications_batch;
  Processor "process_stale_devices_batch" 180 process_stale_devices_batch;
  Processor "process_registration_expiry_batch" 100 process_registration_expiry_batch].

(** The argument a processor is given: [days] for the devices, [limit] for the others. *)
Definition _kwargs_for (name : string) (kwargs : list (string * nat)) : option nat :=
  if name ==? "process_stale_devices_batch" then assoc "days" kwargs
  else match assoc (name +:+ "_limit") kwargs with Some n => Some n | None => assoc "limit" kwargs end.

Definition run_worker_cycle (kwargs : list (string * nat)) : DB (list processor_result) :=
  map_m (fun p => try_except (p_run p (default (p_default p) (_kwargs_for (p_name p) kwargs)))
    (fun exc => mret (ProcessorResult (p_name p) false (exn_str exc) 0))) PROCESSORS.

(** The loop of [manage.py run_worker] for [max_cycles] cycles: whether [stop_event] is set
    before each one, and how long the worker sleeps after it. *)
Fixpoint run_worker_loop (cycles : list (bool * Z)) : DB unit :=
  match cycles with
  | [] => mret tt
  | (stopped, slept) :: cycles =>
    if stopped then mret tt else
    run_worker_cycle [] ;;
    match cycles with
    | [] => mret tt
    | _ => modify (fun w => w <| w_now ::= fun t => t + slept |>) ;; run_worker_loop cycles
    end
  end.
End Cycle.

(** ** Facts *)

(** Two stores that differ at most in what a verification writes. *)
Definition checks_only (w w' : world) : Prop :=
  w' = w <| observations := observations w' |> <| audits := audits w' |> <| deliveries := deliveries w' |>
         <| w_on_commit := w_on_commit w' |>.
#[export] Instance checks_only_preorder : PreOrder checks_only.
Proof.
  unfold checks_only. split; [by intros []|]. intros x y z Hy Hz. rewrite Hz, Hy. done.
Qed.

Section Facts.
Context {CR : Crypto} {ETH : EthAccount} (ST : storage) (read_error : doc_version_row -> string) (client : result rpc).
Implicit Types (w : world) (e : obj ledger_row).
Notation verify := (verify_published_entry ST read_error client).

Lemma run_on_commit_total w :
  run_on_commit w = (Ok tt, w <| w_on_commit := [] |> <| deliveries := deliveries (run_on_commit w).2 |>).
Proof. exact (enqueue_all_total (w_on_commit w) (w <| w_on_commit := [] |>)). Qed.
Lemma committed_Ok {A} (m : DB A) w a w1 : m w = (Ok a, w1) ->
  committed m w = (Ok a, w1 <| w_on_commit := [] |> <| deliveries := deliveries (run_on_commit w1).2 |>).
Proof. intros H. unfold committed. rewrite (bind_run _ _ _ _ _ H), (bind_run _ _ _ _ _ (run_on_commit_total w1)). done. Qed.
Lemma committed_Err {A} (m : DB A) w x w1 : m w = (Err x, w1) -> committed m w = (Err x, w1).
Proof. intros H. unfold committed, mbind, M_bind. by rewrite H. Qed.

(** One verification: an observation of that entry is appended, or nothing changes. *)
Inductive checked e w : result (obj observation_row) * world -> Prop :=
  | CheckedOk o w' : observations w' = insert_row (val o) (observations w) -> o~>ob_published_entry = pk e ->
      checks_only w w' -> checked e w (Ok o, w')
  | CheckedErr x : verify (pk e) w = (Err x, w) -> checked e w (Err x, w).

Lemma verify_checked e w : checked e w (committed (verify (pk e)) w).
Proof.
  destruct (verify (pk e) w) as [[o|x] w1] eqn:E.
  - rewrite (committed_Ok _ _ _ _ E). apply verify_appends_only in E as (_ & Hk & Hno & Hm).
    destruct (decide (o~>ob_result = VMismatch)) as [Hr|Hr].
    + destruct (Hm Hr) as (a & ns & _ & _ & ->). by constructor.
    + rewrite (Hno Hr). by constructor.
  - assert (w1 = w) as -> by (eapply atomic_Err; exact E). rewrite (committed_Err _ _ _ _ E). by constructor.
Qed.

Lemma observed_insert w w' o k : table_wf (observations w) -> observations w' = insert_row (val o) (observations w) ->
  observed w' k = observed w k || (o~>ob_published_entry ==? k).
Proof. intros Hwf E. unfold observed. rewrite E, exists_insert_row, orb_comm by done. done. Qed.

(** What is pending, in any order. *)
Definition pending w : list (obj ledger_row) := select (fun l => negb (observed w (pk l))) (ledger w).
Lemma unobserved_pending w : unobserved w ≡ₚ pending w.
Proof. apply order_by_perm. Qed.

Lemma pending_checked e w o w' : table_wf (observations w) ->
  observations w' = insert_row (val o) (observations w) -> o~>ob_published_entry = pk e -> ledger w' = ledger w ->
  pending w' = List.filter (fun l => negb (pk e ==? pk l)) (pending w).
Proof.
  intros Hwf Ho Hk Hl. unfold pending, select. rewrite Hl, filter_and. apply List.filter_ext. intros l.
  rewrite (observed_insert w w' o), negb_orb by done. by rewrite Hk.
Qed.

(** What a batch leaves: [failed] were tried in vain, the others of [tried] were observed. *)
Record batch_result (tried later : list (obj ledger_row)) w (count : Z) w' (failed : list (obj ledger_row)) : Prop := {
  br_pending : pending w' ≡ₚ failed ++ later;
  br_failed : sublist failed tried;
  br_count : count + Z.of_nat (length failed) = Z.of_nat (length tried);
  br_raised : forall e, e ∈ failed -> exists w1 x, checks_only w w1 /\ verify (pk e) w1 = (Err x, w1);
  br_only : checks_only w w';
  br_wf : table_wf (observations w');
  br_kept : forall k r, rows (observations w) !! k = Some r -> rows (observations w') !! k = Some r;
  br_new : forall k r, rows (observations w') !! k = Some r ->
    rows (observations w) !! k = Some r \/ exists e, e ∈ tried /\ ob_published_entry r = pk e }.

Lemma filter_all {A} (f : A -> bool) l : (forall x, x ∈ l -> f x = true) -> List.filter f l = l.
Proof.
  induction l as [|x l IH]; intros H; [done|]. cbn. rewrite (H x) by left. rewrite IH; [done|]. intros y Hy. apply H. by right.
Qed.

#[local] Instance list_filter_perm {A} (f : A -> bool) : Proper ((≡ₚ) ==> (≡ₚ)) (List.filter f).
Proof.
  intros l l' H. induction H as [|x l l' _ IH|x y l|l l' l'' _ IH1 _ IH2]; cbn; [done| | |by rewrite IH1].
  - destruct (f x); [by apply perm_skip|done].
  - destruct (f x), (f y); try done. apply perm_swap.
Qed.

Lemma count_ok_batch tried : forall later w n,
  table_wf (observations w) -> pending w ≡ₚ tried ++ later -> NoDup (pk <$> tried ++ later) ->
  exists m w' failed, count_ok (fun e => committed (verify (pk e))) tried n w = (Ok (n + m), w') /\
    batch_result tried later w m w' failed.
Proof.
  induction tried as [|e tried IH]; intros later w n Hwf Hp Hd.
  { exists 0, w, []. rewrite Z.add_0_r. split; [done|]. split; try done; [intros ? []%not_elem_of_nil|by left]. }
  cbn [count_ok]. pose proof (verify_checked e w) as Hv. destruct (committed (verify (pk e)) w) as [r w2] eqn:Ev.
  cbn [app] in Hd. rewrite fmap_cons in Hd. apply NoDup_cons in Hd as [He Hd].
  inversion Hv as [o w2' Ho Hk Hc|x Hx]; subst r; subst w2.
  - rewrite (bind_run _ _ w (n + 1) w2') by (unfold try_except, mbind, M_bind; by rewrite Ev).
    assert (table_wf (observations w2')) as Hwf2 by (rewrite Ho; by apply insert_row_wf).
    assert (ledger w2' = ledger w) as Hl by by rewrite Hc.
    assert (pending w2' ≡ₚ tried ++ later) as Hp2.
    { rewrite (pending_checked e w o w2'), Hp by done. cbn. rewrite (bool_decide_eq_true_2 (pk e = pk e)) by done. cbn.
      rewrite filter_all; [done|]. intros l Hin. apply negb_true_iff, bool_decide_eq_false. intros E. apply He.
      rewrite E. by apply list_elem_of_fmap_2. }
    destruct (IH later w2' (n + 1) Hwf2 Hp2 Hd) as (m & w' & failed & E & [Hb1 Hb2 Hb3 Hb4 Hb5 Hb6 Hb7 Hb8]).
    exists (m + 1), w', failed. split; [rewrite E; do 2 f_equal; lia|]. split; try done.
    + by constructor.
    + cbn. lia.
    + intros f Hf. destruct (Hb4 f Hf) as (w1 & x & H1 & H2). exists w1, x. split; [by etrans|done].
    + by etrans.
    + intros k r Hr. apply Hb7. rewrite Ho, lookup_insert_row. rewrite decide_False; [done|]. intros E'. pose proof (table_wf_fresh _ Hwf). congruence.
    + intros k r Hr. destruct (Hb8 k r Hr) as [H1|(f & Hf & H1)]; [|right; exists f; split; [by right|done]].
      rewrite Ho, lookup_insert_row in H1. case_decide; [|by left]. simplify_eq. right. exists e. split; [by left|done].
  - rewrite (bind_run _ _ w n w) by (unfold try_except, mbind, M_bind; by rewrite Ev).
    destruct (IH (e :: later) w n Hwf) as (m & w' & failed & E & [Hb1 Hb2 Hb3 Hb4 Hb5 Hb6 Hb7 Hb8]).
    { rewrite Hp. cbn. by rewrite Permutation_middle. }
    { rewrite <-Permutation_middle. cbn. by apply NoDup_cons. }
    exists m, w', (e :: failed). split; [done|]. split; try done.
    + rewrite Hb1. by rewrite <-Permutation_middle.
    + by constructor.
    + cbn. lia.
    + intros f [->|Hf]%elem_of_cons; [|by apply Hb4]. exists w, x. split; [done|exact Hx].
    + intros k r Hr. destruct (Hb8 k r Hr) as [H1|(f & Hf & H1)]; [by left|right]. exists f. split; [by right|done].
Qed.

Lemma integrity_batch_run limit w : table_wf (observations w) ->
  exists m w' failed, process_integrity_batch ST read_error client limit w =
      (Ok (ProcessorResult "integrity" true ("checked=" +:+ zstr m) m), w') /\
    batch_result (take limit (unobserved w)) (drop limit (unobserved w)) w m w' failed.
Proof.
  intros Hwf. destruct (count_ok_batch (take limit (unobserved w)) (drop limit (unobserved w)) w 0) as (m & w' & failed & E & H).
  - done.
  - by rewrite take_drop, unobserved_pending.
  - rewrite take_drop, unobserved_pending. apply NoDup_pk_select.
  - exists m, w', failed. split; [|done]. unfold process_integrity_batch, processor_body, try_except.
    rewrite (bind_run _ _ w m w'); [done|]. by rewrite (bind_run _ _ w (unobserved w) w).
Qed.
End Facts.

(** [n] batches, one per cycle. *)
Definition integrity_batches {CR : Crypto} {ETH : EthAccount} (ST : storage) (read_error : doc_version_row -> string)
    (client : result rpc) (limit n : nat) : world -> world :=
  Nat.iter n (fun w => (process_integrity_batch ST read_error client limit w).2).

Section Batches.
Context {CR : Crypto} {ETH : EthAccount} (ST : storage) (read_error : doc_version_row -> string) (client : result rpc).
Implicit Types (w : world).

(** What any number of batches keeps. *)
Record batches_kept w w' : Prop := {
  bk_wf : table_wf (observations w');
  bk_only : checks_only w w';
  bk_kept : forall k r, rows (observations w) !! k = Some r -> rows (observations w') !! k = Some r;
  bk_new : forall k r, rows (observations w') !! k = Some r -> rows (observations w) !! k = Some r \/ observed w (ob_published_entry r) = false }.

Lemma observed_mono w w' k : (forall k r, rows (observations w) !! k = Some r -> rows (observations w') !! k = Some r) ->
  observed w k = true -> observed w' k = true.
Proof. unfold observed. rewrite !exists_true. intros H (j & r & Hj & Hr). eauto. Qed.
Lemma elem_of_unobserved w e : e ∈ unobserved w <-> rows (ledger w) !! pk e = Some (val e) /\ observed w (pk e) = false.
Proof. unfold unobserved. rewrite elem_of_order_by, elem_of_select. by rewrite negb_true_iff. Qed.

Lemma batches_S limit n w : integrity_batches ST read_error client limit (S n) w =
  (process_integrity_batch ST read_error client limit (integrity_batches ST read_error client limit n w)).2.
Proof. done. Qed.
Lemma batches_run limit n w : table_wf (observations w) -> batches_kept w (integrity_batches ST read_error client limit n w).
Proof.
  intros Hwf. induction n as [|n [IH1 IH2 IH3 IH4]]; [split; try done; by left|]. rewrite batches_S.
  destruct (integrity_batch_run ST read_error client limit _ IH1) as (m & w' & failed & E & [_ _ _ _ H5 H6 H7 H8]).
  rewrite E. split; [done|by etrans|by auto|]. intros k r Hr. destruct (H8 k r Hr) as [?|(e & He & ->)]; [by apply IH4|]. right.
  apply not_true_is_false. intros Ho. apply (observed_mono _ _ _ IH3) in Ho.
  assert (e ∈ unobserved (integrity_batches ST read_error client limit n w)) as [_ Hn]%elem_of_unobserved
    by (eapply elem_of_sublist; [exact He|apply sublist_take]). congruence.
Qed.

(** C28: every entry gets its check.  If no verification raises, [n] cycles with
    [n * limit] at least the number of entries that were never checked leave an observation
    of every published entry. *)
Theorem integrity_drains limit n w :
  table_wf (observations w) -> (length (unobserved w) <= n * limit)%nat ->
  (forall e w1 x, e ∈ unobserved w -> checks_only w w1 ->
    verify_published_entry ST read_error client (pk e) w1 <> (Err x, w1)) ->
  let w' := integrity_batches ST read_error client limit n w in
  ledger w' = ledger w /\ forall k r, rows (ledger w') !! k = Some r -> observed w' k = true.
Proof.
  intros Hwf Hn Hok w'. assert (batches_kept w w' /\ (length (unobserved w') <= length (unobserved w) - n * limit)%nat) as [Hk Hl].
  { subst w'. clear Hn. induction n as [|n [IH1 IH2]]; [split; [by apply (batches_run limit 0)|cbn; lia]|].
    split; [by apply (batches_run limit (S n))|]. rewrite batches_S.
    set (w1 := integrity_batches ST read_error client limit n w) in *.
    destruct (integrity_batch_run ST read_error client limit w1 (bk_wf _ _ IH1)) as (m & w' & failed & E & H). rewrite E. cbn.
    rewrite unobserved_pending, (br_pending _ _ _ _ _ _ _ _ _ H).
    destruct failed as [|e failed]; [cbn; rewrite length_drop; lia|]. exfalso.
    destruct (br_raised _ _ _ _ _ _ _ _ _ H e ltac:(left)) as (w2 & x & H1 & H2). apply (Hok e w2 x); [| |exact H2].
    - assert (e ∈ unobserved w1) as [He1 He2]%elem_of_unobserved.
      { eapply elem_of_sublist; [|apply (sublist_take _ limit)]. eapply elem_of_sublist; [|apply (br_failed _ _ _ _ _ _ _ _ _ H)]. by left. }
      apply elem_of_unobserved. rewrite (bk_only _ _ IH1) in He1. split; [done|]. apply not_true_is_false. intros Ho.
      apply (observed_mono _ _ _ (bk_kept _ _ IH1)) in Ho. congruence.
    - etrans; [apply (bk_only _ _ IH1)|done]. }
  split; [by rewrite (bk_only _ _ Hk)|]. intros k r Hr. apply not_false_iff_true. intros Hf.
  assert (Obj k r ∈ unobserved w') as He by by apply elem_of_unobserved.
  destruct (unobserved w'); [by apply not_elem_of_nil in He|cbn in *; lia].
Qed.

(** C39: nothing is checked twice.  The batch is meant to take entries without an observation
    first "then older ones"; however many cycles run, an entry that has one observation,
    whatever its verdict, never gets another. *)
Theorem integrity_never_rechecked limit n w entry k r :
  table_wf (observations w) -> observed w entry = true ->
  rows (observations (integrity_batches ST read_error client limit n w)) !! k = Some r -> ob_published_entry r = entry ->
  rows (observations w) !! k = Some r.
Proof.
  intros Hwf Ho Hr <-. destruct (bk_new _ _ (batches_run limit n w Hwf) k r Hr) as [?|Hf]; [done|congruence].
Qed.
End Batches.

(** ** Nobody is told twice *)

Section Deadlines.
Implicit Types (w : world) (n : notice) (t : table delivery_row).
Notation with_deliveries w t := (w <| deliveries := t |>).

(** Rows were appended. *)
Inductive grows t : table delivery_row -> Prop :=
  | GrowsRefl : grows t t
  | GrowsInsert t' r : grows t t' -> grows t (insert_row r t').
Lemma grows_trans a b c : grows a b -> grows b c -> grows a c.
Proof. intros Ha Hb. induction Hb; [done|by constructor]. Qed.
Lemma grows_wf t t' : grows t t' -> table_wf t -> table_wf t'.
Proof. intros Hg Hwf. induction Hg; [done|]. by apply insert_row_wf. Qed.
Lemma with_same w : with_deliveries w (deliveries w) = w.
Proof. by destruct w. Qed.

Notation one n := (queue_channel (no_recipient n) (no_event_key n) (no_subject n) (no_body n) (no_event_code n) (no_building n)).
(** Enqueuing the notice again adds nothing. *)
Definition quiet n w : Prop := forall u, first (fun o => pk o ==? no_recipient n) (users w) = Some u ->
  forall ch, ch ∈ default DEFAULT_CHANNELS (no_channels n) -> exists l, one n ch w = (Ok l, w).

Lemma quiet_grows n w t : table_wf (deliveries w) -> quiet n w -> grows (deliveries w) t -> quiet n (with_deliveries w t).
Proof.
  intros Hwf Hq Hg. induction Hg as [|t r Hg IH]; [by rewrite with_same|]. intros u Hu ch Hch.
  destruct (IH u Hu ch Hch) as [l El]. exists l.
  exact (queue_channel_stable _ _ _ _ _ _ ch l (with_deliveries w t) r (grows_wf _ _ Hg Hwf) El).
Qed.

Lemma enqueue_quietly n w : quiet n w -> _enqueue n w = (Ok tt, w).
Proof.
  intros Hq. unfold _enqueue. rewrite (bind_run _ _ w (first (fun o => pk o ==? no_recipient n) (users w)) w) by done.
  destruct (first _ (users w)) as [u|] eqn:Eu; [|done]. assert (pk u = no_recipient n) as -> by (inv_query; by to_prop).
  unfold swallow, try_except, queue_notification. destruct (map_m_quiet _ _ _ (Hq u Eu)) as [ls E].
  rewrite (bind_run _ _ w (List.concat ls) w); [done|]. by rewrite (bind_run _ _ _ _ _ E).
Qed.

Lemma channels_queued n chs w : table_wf (deliveries w) ->
  exists ls t, map_m (one n) chs w = (Ok ls, with_deliveries w t) /\ grows (deliveries w) t /\
    forall ch, ch ∈ chs -> exists l, one n ch (with_deliveries w t) = (Ok l, with_deliveries w t).
Proof.
  revert w. induction chs as [|ch chs IH]; intros w Hwf.
  { exists [], (deliveries w). rewrite with_same. split; [done|]. split; [constructor|]. by intros ? []%not_elem_of_nil. }
  destruct (queue_channel_result (no_recipient n) (no_event_key n) (no_subject n) (no_body n) (no_event_code n)
    (no_building n) ch w Hwf) as (l & t & E & Hwft & Ht & Estable).
  specialize (IH (with_deliveries w t)). destruct (IH Hwft) as (ls & t' & E' & Hg & Hq).
  change (with_deliveries (with_deliveries w t) t') with (with_deliveries w t') in *.
  exists (l :: ls), t'. cbn [map_m]. rewrite (bind_run _ _ _ _ _ E), (bind_run _ _ _ _ _ E'). split; [done|]. split.
  - apply (grows_trans _ t); [|exact Hg]. destruct Ht as [->| ->]; [constructor|]. constructor. constructor.
  - intros c [->|Hc]%elem_of_cons; [|by apply Hq]. exists l. clear - Hwft Hg Estable. cbn in Hg.
    induction Hg as [|t'' r Hg IH]; [done|].
    exact (queue_channel_stable _ _ _ _ _ _ ch l (with_deliveries w t'') r (grows_wf _ _ Hg Hwft) IH).
Qed.

Lemma enqueue_once n w : table_wf (deliveries w) ->
  exists t, _enqueue n w = (Ok tt, with_deliveries w t) /\ grows (deliveries w) t /\ quiet n (with_deliveries w t).
Proof.
  intros Hwf. unfold _enqueue. rewrite (bind_run _ _ w (first (fun o => pk o ==? no_recipient n) (users w)) w) by done.
  destruct (first _ (users w)) as [u|] eqn:Eu.
  - assert (pk u = no_recipient n) as -> by (inv_query; by to_prop).
    destruct (channels_queued n (default DEFAULT_CHANNELS (no_channels n)) w Hwf) as (ls & t & E & Hg & Hq).
    exists t. split; [|split; [done|by intros ? _]]. unfold swallow, try_except, queue_notification.
    rewrite (bind_run _ _ w (List.concat ls) (with_deliveries w t)); [done|]. by rewrite (bind_run _ _ _ _ _ E).
  - exists (deliveries w). rewrite with_same. split; [done|]. split; [constructor|]. intros u' Hu'. congruence.
Qed.

Lemma enqueue_all_once ns w : table_wf (deliveries w) ->
  exists t, for_each _enqueue ns w = (Ok tt, with_deliveries w t) /\ grows (deliveries w) t /\
    forall n, n ∈ ns -> quiet n (with_deliveries w t).
Proof.
  revert w. induction ns as [|n ns IH]; intros w Hwf.
  { exists (deliveries w). rewrite with_same. split; [done|]. split; [constructor|]. by intros ? []%not_elem_of_nil. }
  destruct (enqueue_once n w Hwf) as (t & E & Hg & Hq).
  pose proof (grows_wf _ _ Hg Hwf) as Hwft. specialize (IH (with_deliveries w t)). destruct (IH Hwft) as (t' & E' & Hg' & Hq').
  change (with_deliveries (with_deliveries w t) t') with (with_deliveries w t') in *.
  exists t'. cbn [for_each]. rewrite (bind_run _ _ _ _ _ E), E'. split; [done|]. split; [by eapply grows_trans|].
  intros m [->|Hm]%elem_of_cons; [|by apply Hq'].
  pose proof (quiet_grows n (with_deliveries w t) t') as H. specialize (H Hwft Hq Hg'). exact H.
Qed.
Lemma enqueue_all_quietly ns w : (forall n, n ∈ ns -> quiet n w) -> for_each _enqueue ns w = (Ok tt, w).
Proof.
  induction ns as [|n ns IH]; intros H; [done|]. cbn [for_each]. rewrite (bind_run _ _ w tt w) by (apply enqueue_quietly, H; left).
  apply IH. intros m Hm. apply H. by right.
Qed.

(** The notices of a case do not depend on the deliveries. *)
Lemma notify_loop_notices f us seen : exists ns, forall w,
  notify_loop seen us f w = (Ok tt, w <| w_on_commit ::= fun l => l ++ ns |>).
Proof.
  revert seen. induction us as [|[uid|] us IH]; intros seen; cbn [notify_loop].
  - exists []. intros w. unfold mret, M_ret. do 2 f_equal. destruct w. unfold set. cbn. by rewrite app_nil_r.
  - destruct (decide (uid ∈ seen)); [apply IH|]. destruct (IH (uid :: seen)) as [ns E]. exists (f uid :: ns). intros w.
    unfold queue_notification_after_commit. rewrite (bind_run _ _ w tt (w <| w_on_commit ::= fun l => l ++ [f uid] |>)) by done.
    rewrite E. f_equal. destruct w. unfold set. cbn. by rewrite <-app_assoc.
  - apply IH.
Qed.

Notation tell c := (committed (notify_deadline_risk c)).
Lemma tell_notices c w : w_on_commit w = [] -> exists ns, forall t, tell c (with_deliveries w t) = for_each _enqueue ns (with_deliveries w t).
Proof.
  intros Hw. unfold notify_deadline_risk, notify_users.
  set (us := (fun m => Some m~>mb_user) <$> select (fun m => (m~>mb_building ==? c~>ca_building) && m~>mb_active) (memberships w)).
  match goal with |- context [notify_loop [] _ ?n] => destruct (notify_loop_notices n us []) as [ns E] end.
  exists ns. intros t. unfold committed.
  rewrite (bind_run _ _ (with_deliveries w t) tt (with_deliveries w t <| w_on_commit ::= fun l => l ++ ns |>)).
  - assert (run_on_commit (with_deliveries w t <| w_on_commit ::= fun l => l ++ ns |>) = for_each _enqueue ns (with_deliveries w t)) as Er.
    { unfold run_on_commit, gets, modify, mbind, M_bind. cbn. rewrite Hw. cbn. destruct w. cbn in *. by subst. }
    rewrite enqueue_all_total in Er |- *. by rewrite (bind_run _ _ _ _ _ Er).
  - rewrite (bind_run _ _ _ us (with_deliveries w t)) by done. apply E.
Qed.

(** Everybody concerned has heard of the case. *)
Definition heard c w : Prop := exists ns,
  (forall t, tell c (with_deliveries w t) = for_each _enqueue ns (with_deliveries w t)) /\ forall n, n ∈ ns -> quiet n w.

Lemma heard_grows c w t : table_wf (deliveries w) -> heard c w -> grows (deliveries w) t -> heard c (with_deliveries w t).
Proof. intros Hwf (ns & E & Hq) Hg. exists ns. split; [exact E|]. intros n Hn. apply quiet_grows; auto. Qed.
Lemma heard_quietly c w : heard c w -> tell c w = (Ok tt, w).
Proof. intros (ns & E & Hq). specialize (E (deliveries w)). rewrite with_same in E. rewrite E. by apply enqueue_all_quietly. Qed.
Lemma tell_heard c w : table_wf (deliveries w) -> w_on_commit w = [] ->
  exists t, tell c w = (Ok tt, with_deliveries w t) /\ grows (deliveries w) t /\ heard c (with_deliveries w t).
Proof.
  intros Hwf Hw. destruct (tell_notices c w Hw) as [ns E]. destruct (enqueue_all_once ns w Hwf) as (t & Et & Hg & Hq).
  exists t. split; [|split; [done|]].
  - specialize (E (deliveries w)). rewrite with_same in E. by rewrite E.
  - exists ns. split; [exact E|exact Hq].
Qed.

Lemma tell_all cs w k : table_wf (deliveries w) -> w_on_commit w = [] ->
  exists t, count_ok (fun c => tell c) cs k w = (Ok (k + Z.of_nat (length cs)), with_deliveries w t) /\ grows (deliveries w) t /\
    forall c, c ∈ cs -> heard c (with_deliveries w t).
Proof.
  revert w k. induction cs as [|c cs IH]; intros w k Hwf Hw.
  { exists (deliveries w). rewrite with_same, Z.add_0_r. split; [done|]. split; [constructor|]. by intros ? []%not_elem_of_nil. }
  destruct (tell_heard c w Hwf Hw) as (t & E & Hg & Hh). pose proof (grows_wf _ _ Hg Hwf) as Hwft.
  specialize (IH (with_deliveries w t) (k + 1)). destruct (IH Hwft Hw) as (t' & E' & Hg' & Hh').
  change (with_deliveries (with_deliveries w t) t') with (with_deliveries w t') in *.
  exists t'. cbn [count_ok]. rewrite (bind_run _ _ w (k + 1) (with_deliveries w t)).
  - rewrite E'. split; [do 2 f_equal; cbn [length]; lia|]. split; [by eapply grows_trans|].
    intros x [->|Hx]%elem_of_cons; [|by apply Hh']. pose proof (heard_grows c (with_deliveries w t) t') as H.
    specialize (H Hwft Hh Hg'). exact H.
  - unfold try_except. by rewrite (bind_run _ _ _ _ _ E).
Qed.
Lemma tell_all_quietly cs w k : (forall c, c ∈ cs -> heard c w) ->
  count_ok (fun c => tell c) cs k w = (Ok (k + Z.of_nat (length cs)), w).
Proof.
  revert k. induction cs as [|c cs IH]; intros k H; [by rewrite Z.add_0_r|]. cbn [count_ok].
  rewrite (bind_run _ _ w (k + 1) w).
  - rewrite IH by (intros x Hx; apply H; by right). do 2 f_equal. cbn [length]. lia.
  - unfold try_except. rewrite (bind_run _ _ w tt w); [done|]. apply heard_quietly, H. left.
Qed.

(** A deadline is announced once.  The batch always succeeds, counts the cases whose
    deadline is within a day either way, the earliest first, and writes no table but the
    deliveries; run again, it finds the same cases and queues nothing. *)
Theorem deadline_told_once limit w :
  table_wf (deliveries w) -> w_on_commit w = [] ->
  let due := select (at_risk (w_now w)) (cases w) in
  let r := ProcessorResult "deadline_risk" true ("queued=" +:+ zstr (Z.of_nat (Nat.min limit (length due))))
    (Z.of_nat (Nat.min limit (length due))) in
  exists t, process_deadline_risk_batch limit w = (Ok r, w <| deliveries := t |>) /\ table_wf t /\
    process_deadline_risk_batch limit (w <| deliveries := t |>) = (Ok r, w <| deliveries := t |>).
Proof.
  intros Hwf Hw due r. subst r. set (told := take limit (order_by (fun c => c~>ca_deadline_at) due)).
  assert (length told = Nat.min limit (length due)) as Hl.
  { subst told. rewrite length_take. f_equal. unfold order_by. by rewrite merge_sort_Permutation. }
  destruct (tell_all told w 0 Hwf Hw) as (t & E & Hg & Hh). exists t. rewrite Hl in E.
  assert (forall w1 m w2, cases w1 = cases w -> w_now w1 = w_now w -> count_ok (fun c => tell c) told 0 w1 = (Ok m, w2) ->
    process_deadline_risk_batch limit w1 = (Ok (ProcessorResult "deadline_risk" true ("queued=" +:+ zstr m) m), w2)) as Hrun.
  { intros w1 m w2 Hc Hn Em. unfold process_deadline_risk_batch, processor_body, try_except.
    rewrite (bind_run _ _ w1 m w2); [done|]. rewrite (bind_run _ _ w1 (w_now w1) w1) by done.
    rewrite (bind_run _ _ w1 due w1); [exact Em|]. unfold query, gets. by rewrite Hc, Hn. }
  split; [by apply (Hrun w _ _ eq_refl eq_refl E)|]. split; [by eapply grows_wf|].
  apply (Hrun (with_deliveries w t) (Z.of_nat (Nat.min limit (length due))) (with_deliveries w t)); [reflexivity|reflexivity|]. rewrite (tell_all_quietly told _ 0 Hh). by rewrite Hl.
Qed.
End Deadlines.

(** ** A cycle *)

Section Cycles.
Context {CR : Crypto} {ETH : EthAccount} (ST : storage) (read_error : doc_version_row -> string) (client : result rpc).
Context (node : rpc) (providers_ : providers).
Context (ai : ai_settings) (similarity : string -> string -> Z) (provider : pyval -> answer).
Context (decode_error : string) (json_error : string -> string) (elapsed_ms : Z).
Implicit Types (w : world).

Lemma processor_body_named name label m w : exists r w', processor_body name label m w = (Ok r, w') /\ pr_name r = name.
Proof.
  unfold processor_body, try_except. destruct (m w) as [[n|e] w1] eqn:E.
  - rewrite (bind_run _ _ _ _ _ E). by eexists _, _.
  - unfold mbind at 1, M_bind at 1. rewrite E. by eexists _, _.
Qed.

Lemma cycle_names arg ps names :
  Forall2 (fun p name => forall n w, exists r w', p_run p n w = (Ok r, w') /\ pr_name r = name) ps names ->
  forall w, exists rs w', map_m (fun p => try_except (p_run p (arg p))
    (fun exc => mret (ProcessorResult (p_name p) false (exn_str exc) 0))) ps w = (Ok rs, w') /\ pr_name <$> rs = names.
Proof.
  induction 1 as [|p name ps names Hp _ IH]; intros w; [by exists [], w|].
  destruct (Hp (arg p) w) as (r & w2 & E & Hn). destruct (IH w2) as (rs & w3 & Es & Hns). exists (r :: rs), w3. cbn [map_m].
  rewrite (bind_run _ _ w r w2) by (unfold try_except; by rewrite E). rewrite (bind_run _ _ _ _ _ Es).
  split; [done|]. cbn. by rewrite Hn, Hns.
Qed.

(** One processor that fails does not stop the others.  Whatever the node, the mail
    server, the AI provider and the stored rows are, a cycle runs all seven processors in
    order and reports each of them under its name. *)
Theorem worker_cycle_reports kwargs w :
  exists rs w', run_worker_cycle ST read_error client node providers_ ai similarity provider decode_error json_error
      elapsed_ms kwargs w = (Ok rs, w') /\
    pr_name <$> rs = ["triage"; "blockchain_outbox"; "integrity"; "deadline_risk"; "notifications"; "stale_devices";
      "registration_expiry"].
Proof.
  refine (cycle_names (fun p => default (p_default p) (_kwargs_for (p_name p) kwargs)) _ _ _ w). unfold PROCESSORS. repeat first [by apply Forall2_nil | apply Forall2_cons; split];
    intros n w1; cbn [p_run]; apply processor_body_named.
Qed.
End Cycles.



(** ** Concrete runs *)

Definition succeeds {A} (r : result A) : bool := match r with Ok _ => true | Err _ => false end.
Definition demo_batch (quote : option string) (limit n : nat) : world -> world :=
  integrity_batches (CR := demo_crypto) (ETH := demo_account) (demo_files quote (Some "transfer"))
    (fun _ => "not found") (Ok demo_rpc) limit n.

(** A published entry in order verifies, whatever was observed before. *)
Lemma demo_verifies o a d ns :
  succeeds (verify_published_entry (CR := demo_crypto) (ETH := demo_account) (demo_files (Some "quote") (Some "transfer"))
    (fun _ => "not found") (Ok demo_rpc) 1
    (demo_delivered <| observations := o |> <| audits := a |> <| deliveries := d |> <| w_on_commit := ns |>)).1 = true.
Proof. vm_compute. reflexivity. Qed.

Lemma integrity_drains_witness :
  (observed demo_delivered 1 = false /\ pk <$> unobserved demo_delivered = [1]) /\
  observed (demo_batch (Some "quote") 20 1 demo_delivered) 1 = true.
Proof.
  split; [vm_compute; done|].
  refine (proj2 (integrity_drains (CR := demo_crypto) (ETH := demo_account) (demo_files (Some "quote") (Some "transfer"))
    (fun _ => "not found") (Ok demo_rpc) 20 1 demo_delivered _ _ _) 1
    (default (Ledger PNone (Some 0) 0 0 0 "" 0) (rows (ledger demo_delivered) !! 1)) _).
  - apply table_wf_b_true. vm_compute. reflexivity.
  - vm_compute. lia.
  - intros e w1 x He Hw E. assert (pk e = 1) as Hk.
    { assert (pk e ∈ pk <$> unobserved demo_delivered) as H by by apply list_elem_of_fmap_2.
      assert (pk <$> unobserved demo_delivered = [1]) as El by (vm_compute; reflexivity). rewrite El in H.
      by apply list_elem_of_singleton in H. }
    pose proof (demo_verifies (observations w1) (audits w1) (deliveries w1) (w_on_commit w1)) as H.
    rewrite <-Hw, <-Hk, E in H. discriminate.
  - vm_compute. reflexivity.
Defined.

(** Checked once while a file could not be read, forged afterwards. *)
Definition demo_unreadable : world := demo_batch None 20 1 demo_delivered.
Lemma integrity_never_rechecked_witness :
  ob_result <$> rows (observations demo_unreadable) !! 1 = Some VUnavailable /\
  forall k r, rows (observations (demo_batch (Some "forged") 20 100 demo_unreadable)) !! k = Some r ->
    ob_published_entry r = 1 -> rows (observations demo_unreadable) !! k = Some r.
Proof.
  split; [vm_compute; reflexivity|]. intros k r.
  refine (integrity_never_rechecked (CR := demo_crypto) (ETH := demo_account) (demo_files (Some "forged") (Some "transfer"))
    (fun _ => "not found") (Ok demo_rpc) 20 100 demo_unreadable 1 k r _ _).
  - apply table_wf_b_true. vm_compute. reflexivity.
  - vm_compute. reflexivity.
Defined.

(** A case due within the day, and its manager. *)
Definition demo_due : world :=
  notify_world
    <| memberships ::= insert_row (Membership 1 1 true) |>
    <| cases ::= insert_row (Case 1 1 "PLUMBING" "HIGH" 1 "MAINTENANCE" (hours 20) true None None None) |>.

Lemma deadline_told_once_witness :
  length (objs (deliveries (process_deadline_risk_batch 50 demo_due).2)) = 2%nat /\
  process_deadline_risk_batch 50 (process_deadline_risk_batch 50 demo_due).2 = process_deadline_risk_batch 50 demo_due.
Proof.
  split; [vm_compute; reflexivity|].
  destruct (deadline_told_once 50 demo_due) as (t & E & _ & E').
  - apply table_wf_b_true. vm_compute. reflexivity.
  - vm_compute. reflexivity.
  - rewrite E. exact E'.
Defined.
