(* ===== verification/Inbox.v ===== *)
(** * Inbox: what waits for a manager

    [web/action_inbox.py]: the queues of a building, merged, sorted and shown to one of its
    managers.  Routes are named, not resolved; translated messages are functions of the
    message and its arguments. *)

From S2P Require Import OutboxWorker.
From S2P Require Import Prelude Table PyStr Schema Timestamps Store Accounts Documents Evidence Registration.
From S2P Require Import Notifications Triage Json AiClient TriageAi Proposals FundSeries Integrity Explorer.
Open Scope Z_scope.

Inductive target := IntId (z : Z) | StrId (s : string).
#[export] Instance target_eq_dec : EqDecision target.
Proof. solve_decision. Defined.

Record ActionItem := Item {
  ai_kind : string; ai_title : string; ai_summary : string; ai_target_type : string; ai_target_id : target;
  ai_url : string * list string; ai_priority : Z; ai_deadline_at : option Z; ai_amount_vnd : option Z }.

Definition ACTION_KIND_LABELS : list (string * string) := [
  ("registration", "Resident registration"); ("manual_triage", "Manual triage"); ("review_report", "Report review");
  ("deadline_risk", "Deadline risk"); ("in_progress_case", "Case in progress"); ("proposal_create", "Proposal creation");
  ("proposal_decision", "Proposal decision"); ("settlement", "Settlement recording");
  ("integrity_mismatch", "Integrity mismatch"); ("failed_outbox", "Failed evidence anchor");
  ("quarantined_upload", "Quarantined upload")].
Definition UPLOAD_REASON_LABELS : list (string * string) := [
  ("unsupported content type", "the file type is not supported");
  ("upload exceeds size limit", "the file exceeds the size limit");
  ("file signature does not match content type", "the file content does not match its declared type");
  ("image verification failed", "the image could not be verified");
  ("scanner unavailable", "the virus scanner was unavailable");
  ("malware detected", "the scan detected malware")].

(** ** Order *)

Definition target_leb (a b : target) : bool :=
  match a, b with
  | IntId a, IntId b => a <=? b
  | StrId a, StrId b => String.leb a b
  | IntId _, StrId _ => true
  | StrId _, IntId _ => false
  end.
(** [(i.priority, i.title, i.target_id)] *)
Definition item_leb (a b : ActionItem) : bool :=
  match ai_priority a ?= ai_priority b with
  | Lt => true
  | Gt => false
  | Eq => match String.compare (ai_title a) (ai_title b) with
          | Lt => true
          | Gt => false
          | Eq => target_leb (ai_target_id a) (ai_target_id b)
          end
  end.
Definition item_le (a b : ActionItem) : Prop := item_leb a b = true.
#[export] Instance item_le_dec : RelDecision item_le.
Proof. intros a b. unfold item_le. apply _. Defined.

(** Items that only their identifiers could order, one a number and one a text: comparing
    them raises. *)
Definition incomparable (a b : ActionItem) : bool :=
  (ai_priority a =? ai_priority b) && (ai_title a ==? ai_title b) &&
  match ai_target_id a, ai_target_id b with IntId _, StrId _ | StrId _, IntId _ => true | _, _ => false end.
Definition sorted_items (items : list ActionItem) : result (list ActionItem) :=
  if existsb (fun a => existsb (incomparable a) items) items
  then Err (TypeError "'<' not supported between instances of 'str' and 'int'")
  else Ok (merge_sort item_le items).

Definition item_key (i : ActionItem) : string * string * target := (ai_kind i, ai_target_type i, ai_target_id i).
Fixpoint unique_items (seen : list (string * string * target)) (items : list ActionItem) : list ActionItem :=
  match items with
  | [] => []
  | i :: items =>
    if bool_decide (item_key i ∈ seen) then unique_items seen items
    else i :: unique_items (item_key i :: seen) items
  end.

Section Inbox.
(** [gettext], the translation of a message with its arguments, [get_category_display()]
    and the [updated_at] of an outbox row, a column that nothing else reads. *)
Context (gettext : string -> string) (message : string -> list (string * string) -> string).
Context (category_label : string -> string) (updated_at : obj outbox_row -> Z).

Definition _kind_title (kind : string) : string := gettext (default "" (assoc kind ACTION_KIND_LABELS)).
Definition upload_reason_label (value : string) : string :=
  match assoc (py_strip value) UPLOAD_REASON_LABELS with Some l => gettext l | None => value end.

(** ** The queues *)

Definition _registration_items (building_id : Z) : DB (list ActionItem) :=
  rs ← query registrations (fun r => (r~>rg_building ==? building_id) && is_pending (val r));
  map_m (fun r =>
    unit_ ← get_row units "Unit" r~>rg_unit;
    mret (Item "registration" r~>rg_full_name (unit_~>un_label +:+ " · " +:+ r~>rg_phone) "RegistrationRequest"
      (StrId (zstr (pk r))) ("web:staff-registration-detail", [zstr (pk r)]) 40 None None)) rs.

Definition report_item (kind : string) (priority : Z) (r : obj report_row) : ActionItem :=
  Item kind (_kind_title kind) (py_take 120 r~>rp_text) "IssueReport" (IntId (pk r))
    ("web:staff-report-detail", [zstr (pk r)]) priority None None.
Definition manual_triage_items (building_id : Z) : DB (list ActionItem) :=
  rs ← TriageAi._manual_triage_items building_id;
  mret (report_item "manual_triage" 10 <$> take 50 rs).
Definition review_queue_items (building_id : Z) : DB (list ActionItem) :=
  rs ← TriageAi._review_queue_items building_id;
  mret (report_item "review_report" 11 <$> take 20 rs).

Definition case_item (kind : string) (priority : Z) (c : obj case_row) : ActionItem :=
  Item kind (_kind_title kind)
    (message "Case #%(id)s · %(category)s" [("id", zstr (pk c)); ("category", category_label c~>ca_category)])
    "MaintenanceCase" (IntId (pk c)) ("web:case-detail", [zstr (pk c)]) priority (Some c~>ca_deadline_at) None.
Definition open_case (building_id : Z) (c : obj case_row) : bool :=
  (c~>ca_building ==? building_id) && c~>ca_active && (c~>ca_completed_at ==? None).
Definition _deadline_risk_items (building_id : Z) : DB (list ActionItem) :=
  now ← timezone_now;
  cs ← query cases (fun c => open_case building_id c && (c~>ca_deadline_at <? now + hours 24));
  mret (case_item "deadline_risk" 15 <$> take 30 (order_by (fun c => c~>ca_deadline_at) cs)).
Definition _in_progress_case_items (building_id : Z) : DB (list ActionItem) :=
  cs ← gets (fun w => select (fun c => open_case building_id c &&
    has_report w (pk c) (fun r => rp_status r ==? RInProgress)) (cases w));
  mret (case_item "in_progress_case" 20 <$> take 50 (order_by (fun c => c~>ca_deadline_at) cs)).

Definition _proposal_create_candidates (building_id : Z) : DB (list ActionItem) :=
  all ← spending_proposal_cases;
  cs ← gets (fun w => List.filter (fun c => (c~>ca_building ==? building_id) &&
    negb (exists_ (fun p => p~>pr_case ==? Some (pk c)) (proposals w))) all);
  mret ((fun c => Item "proposal_create" (_kind_title "proposal_create")
      (message "Case #%(id)s needs a spending proposal" [("id", zstr (pk c))]) "MaintenanceCase" (IntId (pk c))
      ("web:proposal-create", [zstr (pk c)]) 25 None None) <$> take 30 cs).

Definition proposal_item (kind summary : string) (amount : option Z) (p : obj proposal_row) : ActionItem :=
  Item kind (_kind_title kind) (message summary [("id", zstr (pk p))]) "Proposal" (IntId (pk p))
    ("web:proposal-detail", [zstr (pk p)]) 16 None amount.
Definition _proposal_decision_items (building_id : Z) : DB (list ActionItem) :=
  ps ← query proposals (fun p => (p~>pr_building ==? building_id) && (p~>pr_status ==? PPublished) &&
    (p~>pr_decided_at ==? None));
  mret (proposal_item "proposal_decision" "Proposal #%(id)s awaits a proceed decision" None <$> take 30 ps).
(** Without an order the rows come in that of their keys. *)
Definition _settlement_items (building_id : Z) : DB (list ActionItem) :=
  ps ← gets (fun w => select (fun p => (p~>pr_building ==? building_id) && (p~>pr_status ==? PCompleted) &&
    negb (exists_ (fun s => s~>se_proposal ==? pk p) (settlements w))) (proposals w));
  map_m (fun p =>
    version ← current_version_of p;
    v ← of_option AttributeError version;
    mret (proposal_item "settlement" "Proposal #%(id)s" (Some v~>ve_amount_vnd) p)) (take 40 ps).

(** *** Mismatches *)

Definition in_building (building_id : Z) (w : world) (o : obj observation_row) : bool :=
  exists_ (fun l => (pk l ==? o~>ob_published_entry) &&
    exists_ (fun p => (pk p ==? l~>le_proposal) && (p~>pr_building ==? building_id)) (proposals w)) (ledger w).
Fixpoint still_mismatched (entry_ids : list Z) (latest_mismatch : list (obj observation_row)) : DB (list Z) :=
  match latest_mismatch with
  | [] => mret entry_ids
  | obs :: rest =>
    if bool_decide (obs~>ob_published_entry ∈ entry_ids) then still_mismatched entry_ids rest else
    latest ← latest_verification_observation obs~>ob_published_entry;
    match latest with
    | Some l =>
      if l~>ob_result ==? VMismatch then still_mismatched (entry_ids ++ [obs~>ob_published_entry]) rest
      else still_mismatched entry_ids rest
    | None => still_mismatched entry_ids rest
    end
  end.
Definition mismatched_ledger_entry_ids (building_id : Z) (limit : nat) : DB (list Z) :=
  all ← gets (fun w => select (fun o => in_building building_id w o && (o~>ob_result ==? VMismatch)) (observations w));
  still_mismatched [] (take limit (newest_first (fun o => o~>ob_observed_at) all)).
Definition _integrity_mismatch_items (building_id : Z) : DB (list ActionItem) :=
  ids ← mismatched_ledger_entry_ids building_id 30;
  mret ((fun k => Item "integrity_mismatch" (_kind_title "integrity_mismatch")
    (message "Ledger entry #%(id)s" [("id", zstr k)]) "PublishedLedgerEntry" (IntId k)
    ("web:exception-review", ["integrity_mismatch"; zstr k]) 8 None None) <$> ids).

Definition _failed_outbox_items (building_id : Z) : DB (list ActionItem) :=
  es ← query outbox (fun e => (e~>ev_status ==? FAILED) && (e~>ev_building ==? building_id));
  mret ((fun e => Item "failed_outbox" (_kind_title "failed_outbox")
    (message "Event %(event_id)s… · %(error)s"
      [("event_id", py_take 18 e~>ev_event_id); ("error", py_take 80 e~>ev_last_error)])
    "BlockchainOutboxEvent" (IntId (pk e)) ("web:exception-review", ["failed_outbox"; zstr (pk e)]) 9 None None)
    <$> take 30 (newest_first updated_at es)).

Definition _quarantined_upload_items (building_id : Z) : DB (list ActionItem) :=
  us ← query quarantined (fun u => u~>qu_building ==? Some building_id);
  mret ((fun u => Item "quarantined_upload" (_kind_title "quarantined_upload")
    (u~>qu_filename +:+ " · " +:+ upload_reason_label u~>qu_reason) "QuarantinedUpload" (IntId (pk u))
    ("web:exception-review", ["quarantined_upload"; zstr (pk u)]) 12 None None) <$> take 20 (rev us)).

(** ** The inbox *)

Definition queues (building_id : Z) : list (DB (list ActionItem)) := [
  manual_triage_items building_id; review_queue_items building_id; _deadline_risk_items building_id;
  _in_progress_case_items building_id; _proposal_create_candidates building_id;
  _proposal_decision_items building_id; _settlement_items building_id; _integrity_mismatch_items building_id;
  _failed_outbox_items building_id; _quarantined_upload_items building_id; _registration_items building_id].

Definition action_items_for (membership : option (obj membership_row)) : DB (list ActionItem) :=
  match membership with
  | None => mret []
  | Some m =>
    if negb m~>mb_active then mret [] else
    current ← query_first memberships (fun o => (pk o ==? pk m) && o~>mb_active);
    match current with
    | None => mret []
    | Some current =>
      items ← map_m id (queues current~>mb_building);
      items ← of_result (sorted_items (List.concat items));
      mret (unique_items [] items)
    end
  end.
End Inbox.

(** ** Facts *)

Section Facts.
Implicit Types (w : world).

(** *** Mismatches *)

Definition latest_of w (entry : Z) : option (obj observation_row) :=
  head (newest_first (fun o => o~>ob_observed_at) (select (fun o => o~>ob_published_entry ==? entry) (observations w))).
(** The latest observation of the entry is a mismatch. *)
Definition open_mismatch w (entry : Z) : bool :=
  match latest_of w entry with Some o => o~>ob_result ==? VMismatch | None => false end.
Definition entry_in w (building entry : Z) : Prop :=
  exists l p, rows (ledger w) !! entry = Some l /\ rows (proposals w) !! le_proposal l = Some p /\ pr_building p = building.

Lemma latest_of_run w k : latest_verification_observation k w = (Ok (latest_of w k), w).
Proof. done. Qed.
Lemma latest_of_Some w k o : latest_of w k = Some o -> rows (observations w) !! pk o = Some (val o) /\ o~>ob_published_entry = k.
Proof.
  unfold latest_of. intros H. assert (o ∈ select (fun o => o~>ob_published_entry ==? k) (observations w)) as [Ho Hk]%elem_of_select.
  { rewrite <-(newest_first_perm (fun o => o~>ob_observed_at)). destruct (newest_first _ _); simplify_eq/=. left. }
  by to_prop.
Qed.

Lemma still_mismatched_run l w ids : NoDup ids -> exists ids', still_mismatched ids l w = (Ok ids', w) /\ NoDup ids' /\
  forall k, k ∈ ids' <-> k ∈ ids \/ (open_mismatch w k = true /\ exists o, o ∈ l /\ o~>ob_published_entry = k).
Proof.
  revert ids. induction l as [|o l IH]; intros ids Hn.
  { exists ids. split; [done|]. split; [done|]. intros k. split; [by left|]. intros [?|(_ & ? & []%not_elem_of_nil & _)]; done. }
  cbn [still_mismatched]. assert (forall k, k ∈ ids \/ (open_mismatch w k = true /\ exists o', o' ∈ o :: l /\ o'~>ob_published_entry = k) <->
    (k ∈ ids \/ (open_mismatch w k = true /\ k = o~>ob_published_entry)) \/ (open_mismatch w k = true /\ exists o', o' ∈ l /\ o'~>ob_published_entry = k)) as Hsplit.
  { intros k. setoid_rewrite elem_of_cons. naive_solver. }
  case_bool_decide as Hin.
  { destruct (IH ids Hn) as (ids' & E & Hn' & H). exists ids'. split; [done|]. split; [done|]. intros k. rewrite H, Hsplit. naive_solver. }
  rewrite (bind_run _ _ _ _ _ (latest_of_run w _)). unfold open_mismatch in Hsplit at 2.
  destruct (open_mismatch w o~>ob_published_entry) eqn:Eo.
  - unfold open_mismatch in Eo. destruct (latest_of w _) as [x|] eqn:Ex; [|done]. rewrite Eo.
    destruct (IH (ids ++ [o~>ob_published_entry])) as (ids' & E & Hn' & H).
    { apply NoDup_app. split; [done|]. split; [|apply NoDup_singleton]. intros z Hz ->%list_elem_of_singleton. done. }
    exists ids'. split; [done|]. split; [done|]. intros k. rewrite H, Hsplit, elem_of_app, list_elem_of_singleton.
    split; intros [[?|?]|?]; auto; [left; right|by destruct_and?; auto]. subst. by rewrite Ex.
  - destruct (IH ids Hn) as (ids' & E & Hn' & H). exists ids'. split.
    { unfold open_mismatch in Eo. destruct (latest_of w _) as [x|]; [by rewrite Eo|done]. }
    split; [done|]. intros k. rewrite H, Hsplit. split; [naive_solver|]. intros [[?|[Hk ->]]|?]; auto.
    unfold open_mismatch in Eo. congruence.
Qed.

Lemma in_building_spec w b o : in_building b w o = true <-> entry_in w b o~>ob_published_entry.
Proof.
  unfold in_building, entry_in. rewrite exists_true. split.
  - intros (k & l & Hl & [Hk H]%andb_true_iff). apply exists_true in H as (j & p & Hp & H). to_prop. cbn in *. subst. eauto 6.
  - intros (l & p & Hl & Hp & Hb). exists o~>ob_published_entry, l. split; [done|]. cbn. rewrite bool_decide_eq_true_2 by done.
    apply exists_true. exists (le_proposal l), p. split; [done|]. cbn. by rewrite !bool_decide_eq_true_2 by done.
Qed.

(** The mismatches of a building, newest first. *)
Definition mismatches w (building : Z) : list (obj observation_row) :=
  newest_first (fun o => o~>ob_observed_at)
    (select (fun o => in_building building w o && (o~>ob_result ==? VMismatch)) (observations w)).
Lemma elem_of_mismatches w b o : o ∈ mismatches w b <->
  rows (observations w) !! pk o = Some (val o) /\ entry_in w b o~>ob_published_entry /\ o~>ob_result = VMismatch.
Proof.
  unfold mismatches. rewrite newest_first_perm, elem_of_select, andb_true_iff, in_building_spec, bool_decide_eq_true. done.
Qed.
Lemma mismatched_run b limit w : exists ids, mismatched_ledger_entry_ids b limit w = (Ok ids, w) /\ NoDup ids /\
  forall k, k ∈ ids <-> open_mismatch w k = true /\ exists o, o ∈ take limit (mismatches w b) /\ o~>ob_published_entry = k.
Proof.
  destruct (still_mismatched_run (take limit (mismatches w b)) w [] (NoDup_nil_2)) as (ids & E & Hn & H).
  exists ids. split; [exact E|]. split; [done|]. intros k. rewrite H, elem_of_nil. naive_solver.
Qed.
Lemma open_mismatch_seen w b k : open_mismatch w k = true -> entry_in w b k ->
  exists o, o ∈ mismatches w b /\ o~>ob_published_entry = k.
Proof.
  unfold open_mismatch. intros H Hb. destruct (latest_of w k) as [o|] eqn:Eo; [|done]. apply latest_of_Some in Eo as [Ho Hk].
  to_prop. exists o. split; [|done]. apply elem_of_mismatches. by rewrite Hk.
Qed.
End Facts.

(** *** The queues *)

Section Queues.
Context (gettext : string -> string) (message : string -> list (string * string) -> string).
Context (category_label : string -> string) (updated_at : obj outbox_row -> Z).
Implicit Types (w : world) (b : Z).

Definition case_open (b : Z) (c : case_row) : Prop := ca_building c = b /\ ca_active c = true /\ ca_completed_at c = None.

(** What waits in a building: kind, target and priority of an item. *)
Inductive waiting w b : string -> string -> target -> Z -> Prop :=
  | WaitsRegistration k r : rows (registrations w) !! k = Some r -> rg_building r = b -> rg_status r = RegPending ->
      waiting w b "registration" "RegistrationRequest" (StrId (zstr k)) 40
  | WaitsTriage k r u : rows (reports w) !! k = Some r -> rows (units w) !! rp_unit r = Some u -> un_building u = b ->
      rp_status r = RSubmitted \/ rp_status r = RInReview -> waiting w b "manual_triage" "IssueReport" (IntId k) 10
  | WaitsReview k r : rows (reports w) !! k = Some r -> rp_building r = b -> rp_status r = RInReview ->
      decided w k = false -> waiting w b "review_report" "IssueReport" (IntId k) 11
  | WaitsDeadline k c : rows (cases w) !! k = Some c -> case_open b c -> ca_deadline_at c < w_now w + hours 24 ->
      waiting w b "deadline_risk" "MaintenanceCase" (IntId k) 15
  | WaitsWork k c : rows (cases w) !! k = Some c -> case_open b c ->
      has_report w k (fun r => rp_status r ==? RInProgress) = true ->
      waiting w b "in_progress_case" "MaintenanceCase" (IntId k) 20
  | WaitsProposal k c : rows (cases w) !! k = Some c -> case_open b c ->
      (forall j p, rows (proposals w) !! j = Some p -> pr_case p <> Some k) ->
      waiting w b "proposal_create" "MaintenanceCase" (IntId k) 25
  | WaitsDecision k p : rows (proposals w) !! k = Some p -> pr_building p = b -> pr_status p = PPublished ->
      pr_decided_at p = None -> waiting w b "proposal_decision" "Proposal" (IntId k) 16
  | WaitsSettlement k p : rows (proposals w) !! k = Some p -> pr_building p = b -> pr_status p = PCompleted ->
      (forall j s, rows (settlements w) !! j = Some s -> se_proposal s <> k) ->
      waiting w b "settlement" "Proposal" (IntId k) 16
  | WaitsMismatch k : open_mismatch w k = true -> entry_in w b k ->
      waiting w b "integrity_mismatch" "PublishedLedgerEntry" (IntId k) 8
  | WaitsOutbox k e : rows (outbox w) !! k = Some e -> ev_building e = b -> ev_status e = FAILED ->
      waiting w b "failed_outbox" "BlockchainOutboxEvent" (IntId k) 9
  | WaitsUpload k u : rows (quarantined w) !! k = Some u -> qu_building u = Some b ->
      waiting w b "quarantined_upload" "QuarantinedUpload" (IntId k) 12.

(** A queue: items of one kind, each target once, all of them waiting. *)
Record queue_spec w b (kind : string) (l : list ActionItem) : Prop := {
  qs_targets : NoDup (ai_target_id <$> l);
  qs_waiting : forall i, i ∈ l -> ai_kind i = kind /\ waiting w b (ai_kind i) (ai_target_type i) (ai_target_id i) (ai_priority i) }.

#[local] Instance IntId_inj : Inj eq eq IntId.
Proof. by intros ? ? [=]. Qed.

(** A queue made of rows. *)
Lemma queue_of_rows {R} w b kind (ident : Z -> target) `{!Inj eq eq ident} (l : list (obj R)) (items : list ActionItem) :
  NoDup (pk <$> l) -> Forall2 (fun o i => ai_target_id i = ident (pk o) /\ ai_kind i = kind /\
    waiting w b kind (ai_target_type i) (ident (pk o)) (ai_priority i)) l items ->
  queue_spec w b kind items.
Proof.
  intros Hn Hl. split.
  - assert (ai_target_id <$> items = ident <$> (pk <$> l)) as ->.
    { clear Hn. induction Hl as [|o i l items (H & _ & _) _ IH]; [done|]. cbn. by rewrite H, IH. }
    apply NoDup_fmap_2; [apply _|done].
  - intros i Hi. clear Hn. induction Hl as [|o j l items (H1 & H2 & H3) _ IH]; [by apply not_elem_of_nil in Hi|].
    apply elem_of_cons in Hi as [->|Hi]; [|by apply IH]. by rewrite H1, H2.
Qed.
Lemma queue_of_items {R} w b kind (item : obj R -> ActionItem) (l : list (obj R)) :
  NoDup (pk <$> l) -> (forall o, o ∈ l -> ai_target_id (item o) = IntId (pk o) /\ ai_kind (item o) = kind /\
    waiting w b kind (ai_target_type (item o)) (IntId (pk o)) (ai_priority (item o))) ->
  queue_spec w b kind (item <$> l).
Proof.
  intros Hn Hl. apply (queue_of_rows w b kind IntId l); [done|]. apply Forall2_fmap_r. clear Hn.
  induction l as [|o l IH]; constructor; [apply Hl; left|]. apply IH. intros x Hx. apply Hl. by right.
Qed.
(** [[:limit]] of the selected rows, in any order. *)
Lemma NoDup_taken {R} P (t : table R) limit l : l ≡ₚ select P t -> NoDup (pk <$> take limit l).
Proof.
  intros Hl. refine (sublist_NoDup _ (pk <$> l) _ _); [rewrite Hl; apply NoDup_pk_select|]. apply fmap_sublist, sublist_take.
Qed.
Lemma elem_of_taken {R} P (t : table R) limit l o : l ≡ₚ select P t -> o ∈ take limit l ->
  rows t !! pk o = Some (val o) /\ P o = true.
Proof.
  intros Hl Ho. apply (elem_of_sublist _ l) in Ho; [|apply sublist_take]. rewrite Hl in Ho. by apply elem_of_select.
Qed.


(** The result of a queue that reads, and what is in it. *)
Definition runs_to w b kind (q : DB (list ActionItem)) : Prop :=
  forall l w', q w = (Ok l, w') -> w' = w /\ queue_spec w b kind l.

(** Queues that take the first rows of a selection. *)
Ltac take_queue :=
  intros l w' H; inv_db; split; [done|];
  apply queue_of_items; [eapply NoDup_taken; rewrite ?order_by_perm, ?newest_first_perm, <-?Permutation_rev; reflexivity|];
  intros o Ho; eapply elem_of_taken in Ho as [Ho HP]; [|rewrite ?order_by_perm, ?newest_first_perm, <-?Permutation_rev; reflexivity];
  unfold open_case in *; to_prop; split; [done|]; split; [done|].

Lemma triage_queue w b : runs_to w b "manual_triage" (manual_triage_items gettext b).
Proof.
  unfold runs_to, manual_triage_items, TriageAi._manual_triage_items. take_queue.
  match goal with H : match find ?k ?t with _ => _ end = true |- _ => destruct (find k t) as [u|] eqn:Eu; [|done] end.
  apply find_Some in Eu as [_ Eu]. to_prop. eapply WaitsTriage; try done.
  match goal with H : _ || _ = true |- _ => apply orb_true_iff in H as [H|H] end; to_prop; auto.
Qed.
Lemma review_queue w b : runs_to w b "review_report" (review_queue_items gettext b).
Proof. unfold runs_to, review_queue_items, TriageAi._review_queue_items. take_queue; by econstructor. Qed.
Lemma deadline_queue w b : runs_to w b "deadline_risk" (_deadline_risk_items gettext message category_label b).
Proof. unfold runs_to, _deadline_risk_items. take_queue; by econstructor. Qed.
Lemma work_queue w b : runs_to w b "in_progress_case" (_in_progress_case_items gettext message category_label b).
Proof. unfold runs_to, _in_progress_case_items. take_queue; by econstructor. Qed.
Lemma decision_queue w b : runs_to w b "proposal_decision" (_proposal_decision_items gettext message b).
Proof. unfold runs_to, _proposal_decision_items. take_queue; by econstructor. Qed.
Lemma outbox_queue w b : runs_to w b "failed_outbox" (_failed_outbox_items gettext message updated_at b).
Proof. unfold runs_to, _failed_outbox_items. take_queue; by econstructor. Qed.
Lemma upload_queue w b : runs_to w b "quarantined_upload" (_quarantined_upload_items gettext b).
Proof. unfold runs_to, _quarantined_upload_items. take_queue; by econstructor. Qed.

Lemma proposal_queue w b : runs_to w b "proposal_create" (_proposal_create_candidates gettext message b).
Proof.
  unfold runs_to, _proposal_create_candidates, spending_proposal_cases. intros l w' H. inv_db.
  split; [done|]. unfold select. rewrite filter_and.
  apply queue_of_items; [eapply (NoDup_taken _ (cases _)); unfold select; reflexivity|].
  intros o Ho. eapply (elem_of_taken _ (cases _)) in Ho as [Ho HP]; [|unfold select; reflexivity]. cbn beta in HP. to_prop.
  split; [done|]. split; [done|]. eapply WaitsProposal; [done|done|]. intros j p Hp Hc.
  match goal with H : exists_ _ (proposals _) = false |- _ => rewrite exists_false in H; specialize (H j p Hp) end. cbn in *. by to_prop.
Qed.

Lemma mismatch_queue w b : runs_to w b "integrity_mismatch" (_integrity_mismatch_items gettext message b).
Proof.
  unfold runs_to, _integrity_mismatch_items. intros l w' H. inv_ok_step.
  destruct (mismatched_run b 30 w) as (ids & E & Hn & Hk).
  match goal with H : mismatched_ledger_entry_ids _ _ _ = _ |- _ => rewrite E in H; injection H as <- <- end.
  inv_ok. split; [done|]. split.
  - rewrite <-list_fmap_compose. by apply NoDup_fmap_2; [apply _|].
  - intros i (k & -> & Hin)%list_elem_of_fmap. split; [done|]. cbn. apply Hk in Hin as (Ho & o & Hin & <-). constructor; [done|].
    apply (elem_of_sublist _ (mismatches w' b)) in Hin; [|apply sublist_take]. by apply elem_of_mismatches in Hin as (_ & ? & _).
Qed.

#[local] Instance StrId_zstr_inj : Inj eq eq (fun k => StrId (zstr k)).
Proof. intros ? ? [= H]. by apply zstr_inj. Qed.
Lemma registration_queue w b : runs_to w b "registration" (_registration_items b).
Proof.
  unfold runs_to, _registration_items. intros l w' H. inv_ok_step. apply query_Ok in H as [-> ->].
  match goal with H : map_m _ _ _ = _ |- _ => rename H into Hm end.
  eapply (map_m_run _ (fun r i => ai_target_id i = StrId (zstr (pk r)) /\ ai_kind i = "registration" /\
    ai_target_type i = "RegistrationRequest" /\ ai_priority i = 40)) in Hm as [-> Hl]; [|intros r i w2 E; by inv_db].
  split; [done|]. eapply (queue_of_rows w b _ (fun k => StrId (zstr k))); [apply NoDup_pk_select|].
  apply Forall2_same_length_lookup_2; [by eapply Forall2_length|]. intros j r i Hr Hi.
  eapply Forall2_lookup_lr in Hl as (H1 & H2 & H3 & H4); [|done..]. rewrite H1, H2, H3, H4. split_and!; try done.
  apply list_elem_of_lookup_2, elem_of_select in Hr as [Hr HP]. cbn beta in HP. unfold is_pending in HP. to_prop. by econstructor.
Qed.

Lemma settlement_queue w b : runs_to w b "settlement" (_settlement_items gettext message b).
Proof.
  unfold runs_to, _settlement_items. intros l w' H. inv_ok_step. apply gets_Ok in H as [<- <-].
  match goal with H : map_m _ _ _ = _ |- _ => rename H into Hm end.
  eapply (map_m_run _ (fun r i => ai_target_id i = IntId (pk r) /\ ai_kind i = "settlement" /\
    ai_target_type i = "Proposal" /\ ai_priority i = 16)) in Hm as [-> Hl].
  2: { intros r i w2 E. unfold current_version_of in E. destruct (pr_current_version (val r)); inv_db; done. }
  split; [done|]. eapply (queue_of_rows w b _ IntId); [by eapply NoDup_taken|].
  apply Forall2_same_length_lookup_2; [by eapply Forall2_length|]. intros j r i Hr Hi.
  eapply Forall2_lookup_lr in Hl as (H1 & H2 & H3 & H4); [|done..]. rewrite H1, H2, H3, H4. split_and!; try done.
  apply list_elem_of_lookup_2 in Hr. eapply elem_of_taken in Hr as [Hr HP]; [|done]. cbn beta in HP. to_prop. eapply WaitsSettlement; [exact Hr|done|done|].
  intros k s Hk Hs. match goal with H : exists_ _ (settlements _) = false |- _ => rewrite exists_false in H; specialize (H k s Hk) end.
  cbn in *. by to_prop.
Qed.

(** *** All of them *)

Definition KINDS : list string := ["manual_triage"; "review_report"; "deadline_risk"; "in_progress_case";
  "proposal_create"; "proposal_decision"; "settlement"; "integrity_mismatch"; "failed_outbox"; "quarantined_upload";
  "registration"].
Notation all_queues b := (queues gettext message category_label updated_at b).

Lemma queues_specs w b : Forall2 (runs_to w b) KINDS (all_queues b).
Proof.
  unfold queues, KINDS. repeat first [by apply Forall2_nil | apply Forall2_cons; split; [first
    [apply triage_queue|apply review_queue|apply deadline_queue|apply work_queue|apply proposal_queue|apply decision_queue
    |apply settlement_queue|apply mismatch_queue|apply outbox_queue|apply upload_queue|apply registration_queue]|]].
Qed.

Lemma queues_run w b ks qs ls w' : Forall2 (runs_to w b) ks qs -> map_m id qs w = (Ok ls, w') ->
  w' = w /\ Forall2 (queue_spec w b) ks ls.
Proof.
  intros Hq. revert ls. induction Hq as [|k q ks qs Hk _ IH]; intros ls H; cbn [map_m] in H; inv_ok; [by split|].
  match goal with H : id q w = _ |- _ => apply Hk in H as [-> Hs] end.
  match goal with H : map_m id qs w = _ |- _ => apply IH in H as [-> Hl] end. split; [done|]. by constructor.
Qed.

(** What the queues look up: the units of registrations and the versions of completed proposals. *)
Record answerable w : Prop := {
  an_units : forall k g, rows (registrations w) !! k = Some g -> is_Some (rows (units w) !! rg_unit g);
  an_versions : forall k p, rows (proposals w) !! k = Some p -> pr_status p = PCompleted ->
    exists v, pr_current_version p = Some v /\ is_Some (rows (versions w) !! v) }.

Lemma settlement_answers w b : answerable w -> exists l, _settlement_items gettext message b w = (Ok l, w).
Proof.
  intros Hw. unfold _settlement_items. rewrite (bind_run _ _ w _ w) by reflexivity. apply map_m_quiet.
  intros o Ho. eapply elem_of_taken in Ho as [Ho HP]; [|reflexivity]. cbn beta in HP. to_prop.
  destruct (an_versions _ Hw _ _ Ho) as (v & Ev & r & Er); [done|]. unfold current_version_of. rewrite Ev.
  eexists. rewrite (bind_run _ _ w (Some (Obj v r)) w); [reflexivity|].
  by rewrite (bind_run _ _ w (Obj v r) w) by (by apply get_row_Ok; split; [apply find_Some|]).
Qed.
Lemma registration_answers w b : answerable w -> exists l, _registration_items b w = (Ok l, w).
Proof.
  intros Hw. unfold _registration_items. rewrite (bind_run _ _ w _ w) by reflexivity. apply map_m_quiet.
  intros o [Ho _]%elem_of_select. destruct (an_units _ Hw _ _ Ho) as [u Eu]. eexists.
  by rewrite (bind_run _ _ w (Obj (rg_unit (val o)) u) w) by (by apply get_row_Ok; split; [apply find_Some|]).
Qed.
Lemma mismatch_answers w b : exists l, _integrity_mismatch_items gettext message b w = (Ok l, w).
Proof.
  destruct (mismatched_run b 30 w) as (ids & E & _). eexists. unfold _integrity_mismatch_items. by rewrite (bind_run _ _ _ _ _ E).
Qed.
Lemma queues_answer w b : answerable w -> exists ls, map_m id (all_queues b) w = (Ok ls, w).
Proof.
  intros Hw. apply map_m_quiet. intros q Hq. unfold id, queues in *.
  repeat (apply elem_of_cons in Hq as [->|Hq]); try (by apply not_elem_of_nil in Hq); try (by eexists).
  - by apply settlement_answers.
  - apply mismatch_answers.
  - by apply registration_answers.
Qed.

Lemma kinds_apart w b ks ls : Forall2 (queue_spec w b) ks ls -> NoDup ks -> NoDup (item_key <$> List.concat ls) /\
  forall i, i ∈ List.concat ls -> ai_kind i ∈ ks /\ waiting w b (ai_kind i) (ai_target_type i) (ai_target_id i) (ai_priority i).
Proof.
  induction 1 as [|k l ks ls [Hn Hk] _ IH]; intros Hd; [split; [constructor|by intros i Hi%not_elem_of_nil]|].
  apply NoDup_cons in Hd as [Hnk Hd]. destruct (IH Hd) as [IH1 IH2]. cbn [List.concat]. rewrite fmap_app. split.
  - apply NoDup_app. split; [|split; [|done]].
    + apply (NoDup_fmap_1 snd). by rewrite <-list_fmap_compose.
    + intros x (i & -> & Hi)%list_elem_of_fmap (j & E & Hj)%list_elem_of_fmap. apply Hnk.
      destruct (Hk i Hi) as [<- _]. destruct (IH2 j Hj) as [? _]. injection E as -> _ _. done.
  - intros i [Hi|Hi]%elem_of_app.
    + destruct (Hk i Hi) as [E H]. split; [rewrite E; left|done].
    + destruct (IH2 i Hi) as [? ?]. split; [by right|done].
Qed.

(** Only registrations have textual identifiers, and nothing else has their priority. *)
Lemma waiting_comparable w b k t x p : waiting w b k t x p -> (p = 40 <-> exists s, x = StrId s).
Proof. intros H. destruct H; split; try done; try lia; try by intros [? [=]]. by eexists. Qed.

Lemma sorted_comparable (l : list ActionItem) : (forall i, i ∈ l -> (ai_priority i = 40 <-> exists s, ai_target_id i = StrId s)) ->
  sorted_items l = Ok (merge_sort item_le l).
Proof.
  intros H. unfold sorted_items. assert (existsb (fun a => existsb (incomparable a) l) l = false) as ->; [|done].
  apply not_true_is_false. intros (a & Ha & (c & Hc & E)%existsb_In)%existsb_In. unfold incomparable in E. to_prop.
  match goal with E : (_ =? _) = true |- _ => apply Z.eqb_eq in E as Ep end.
  pose proof (H a Ha) as Pa. pose proof (H c Hc) as Pc. rewrite <-Ep in Pc.
  destruct (ai_target_id a) eqn:Ea, (ai_target_id c) eqn:Ec; try done.
  - assert (ai_priority a = 40) as E40 by (apply Pc; eauto). apply Pa in E40 as [? [=]].
  - assert (ai_priority a = 40) as E40 by (apply Pa; eauto). apply Pc in E40 as [? [=]].
Qed.

Lemma unique_items_id l seen : NoDup (item_key <$> l) -> (forall i, i ∈ l -> item_key i ∉ seen) -> unique_items seen l = l.
Proof.
  revert seen. induction l as [|i l IH]; intros seen Hn Hs; [done|]. cbn in Hn |- *. apply NoDup_cons in Hn as [Hi Hn].
  rewrite bool_decide_eq_false_2 by (apply Hs; left). f_equal. apply IH; [done|]. intros j Hj [E|Hin]%elem_of_cons.
  - apply Hi. rewrite <-E. by apply list_elem_of_fmap_2.
  - by apply (Hs j); [right|].
Qed.

#[local] Instance item_le_total : Total item_le.
Proof.
  intros a c. unfold item_le, item_leb. rewrite (Z.compare_antisym (ai_priority a)). destruct (ai_priority a ?= ai_priority c); cbn; auto.
  rewrite (String.compare_antisym (ai_title c)). destruct (String.compare (ai_title a) (ai_title c)); cbn; auto.
  destruct (ai_target_id a), (ai_target_id c); cbn; auto; [rewrite !Z.leb_le; lia|apply String.leb_total].
Qed.
End Queues.

Section Properties.
Implicit Types (w : world).

(** The list of open mismatches.  It names, once each, entries of the building whose
    latest observation is a mismatch, whatever the limit; and all of them, as long as the
    building has had no more than [limit] mismatches, closed ones included. *)
Theorem mismatches_listed b limit w :
  exists ids, mismatched_ledger_entry_ids b limit w = (Ok ids, w) /\ NoDup ids /\
    (forall k, k ∈ ids -> open_mismatch w k = true /\ entry_in w b k) /\
    ((length (mismatches w b) <= limit)%nat -> forall k, open_mismatch w k = true -> entry_in w b k -> k ∈ ids).
Proof.
  destruct (mismatched_run b limit w) as (ids & E & Hn & H). exists ids. split; [done|]. split; [done|]. split.
  - intros k Hk. apply H in Hk as (Ho & o & Hin & <-). split; [done|].
    apply (elem_of_sublist _ (mismatches w b)) in Hin; [|apply sublist_take]. by apply elem_of_mismatches in Hin as (_ & ? & _).
  - intros Hlen k Hk Hb. apply H. split; [done|]. rewrite take_ge by done. by apply open_mismatch_seen.
Qed.

(** A mismatch repeated hides the others.  The limit is taken on observations before
    entries are told apart: once the newest [limit] mismatches of the building are of other
    entries, an entry whose own latest observation is a mismatch is neither in the inbox
    nor among the exceptions. *)
Theorem repeated_mismatch_hides b limit w k :
  open_mismatch w k = true -> entry_in w b k ->
  (forall o, o ∈ take limit (mismatches w b) -> o~>ob_published_entry <> k) ->
  exists ids, mismatched_ledger_entry_ids b limit w = (Ok ids, w) /\ k ∉ ids.
Proof.
  intros _ _ Hnew. destruct (mismatched_run b limit w) as (ids & E & _ & H). exists ids. split; [done|].
  intros (_ & o & Ho & Hk)%H. by apply (Hnew o).
Qed.

End Properties.

(** ** Concrete runs *)

(** A building with a pending registration, two reports, a late case and an upload. *)
Definition demo_inbox : world :=
  notify_world
    <| w_now := hours 1 |>
    <| units ::= insert_row (Unit_ 1 "A-101") |>
    <| memberships ::= insert_row (Membership 1 1 true) |>
    <| registrations ::= insert_row
         (Registration "Binh" "0901234567" None 1 1 "hash" "digest" RegPending "" None None 0 (days 30)) |>
    <| reports ::= insert_row (Report 1 1 1 "Leak in the lobby" 1 "Lobby" RSubmitted false "" None None None) |>
    <| reports ::= insert_row (Report 1 1 1 "Broken light" 1 "Lobby" RInReview false "" None None None) |>
    <| cases ::= insert_row (Case 1 1 "PLUMBING" "HIGH" 1 "MAINTENANCE" (hours 20) true None None None) |>.
Definition demo_manager_1 : obj membership_row := Obj 1 (Membership 1 1 true).
Definition demo_label (s : string) (_ : list (string * string)) : string := s.
Definition demo_lists : list (list ActionItem) :=
  got [] (map_m id (queues id demo_label id (fun _ => 0) 1) demo_inbox).

Lemma demo_inbox_answerable : answerable demo_inbox.
Proof.
  split.
  - intros k g H. assert (rows (registrations demo_inbox) = {[1 := Registration "Binh" "0901234567" None 1 1 "hash" "digest" RegPending "" None None 0 (days 30)]}) as Er by reflexivity.
    rewrite Er in H. apply lookup_singleton_Some in H as [_ <-]. by eexists.
  - intros k p H. assert (rows (proposals demo_inbox) = ∅) as Er by reflexivity. by rewrite Er in H.
Qed.

(** Two entries mismatch; the second was checked thirty times since. *)
Definition demo_checked (entry at_ : Z) : observation_row := Observation entry VMismatch [] [] false PNone at_.
Definition demo_rechecked : world :=
  foldl (fun w t => w <| observations ::= insert_row (demo_checked 2 t) |>)
    (notify_world
      <| proposals ::= insert_row (Proposal (Some 1) 1 1 PCompleted (Some 1) None None "" None None None) |>
      <| ledger ::= insert_row (Ledger PNone (Some 1) 1 1 5000000 "Fix" 0) |>
      <| ledger ::= insert_row (Ledger PNone (Some 1) 1 1 5000000 "Fix" 0) |>
      <| observations ::= insert_row (demo_checked 1 0) |>) (seqZ 1 30).

Lemma repeated_mismatch_hides_witness :
  (open_mismatch demo_rechecked 1 = true /\ open_mismatch demo_rechecked 2 = true) /\
  exists ids, mismatched_ledger_entry_ids 1 30 demo_rechecked = (Ok ids, demo_rechecked) /\ 1 ∉ ids.
Proof.
  split; [vm_compute; done|]. refine (repeated_mismatch_hides 1 30 demo_rechecked 1 _ _ _).
  - vm_compute. reflexivity.
  - eexists _, _. split; [vm_compute; reflexivity|]. split; [vm_compute; reflexivity|]. reflexivity.
  - intros o Ho E. assert (forallb (fun o => negb (o~>ob_published_entry ==? 1)) (take 30 (mismatches demo_rechecked 1)) = true) as H
      by (vm_compute; reflexivity).
    rewrite forallb_forall in H. specialize (H o (proj1 (list_elem_of_In _ _) Ho)). by rewrite bool_decide_eq_true_2 in H.
Defined.
