(* ===== verification/ResidentPages.v ===== *)
(** * ResidentPages: what the resident API shows

    The reading views of [api/views.py] with the serializers that compute something, and
    the selectors behind them ([maintenance/selectors.py], [finance/selectors.py]): a
    report's timeline, the published ledger and the proof of an entry, the fund, proposals,
    the notification feed and the account.  Pages of a list are the paginator's; a view
    stands for the whole list. *)

From S2P Require Import OutboxWorker.
From S2P Require Import Prelude Table PyStr Schema Store Accounts Documents Evidence Calendar.
From S2P Require Import Notifications Cases Proposals Json AiClient Doubles Prices Fund FundSeries Books.
From S2P Require Import Integrity Tenancy Downloads Explorer.
Open Scope Z_scope.

(** ** Pages *)

Record link := Link_ { li_id : Z; li_filename : string; li_sha256 : string; li_download_url : string }.
Record shown_update := ShownUpdate { su_id : Z; su_cause : string; su_result : string }.
Record timeline_case := TimelineCase {
  tc_id : Z; tc_category : string; tc_urgency : string; tc_deadline_at : Z; tc_active : bool;
  tc_completed_at : option Z; tc_closed_at : option Z; tc_updates : list shown_update; tc_can_rate : bool }.
Record timeline := Timeline {
  tl_id : Z; tl_text : string; tl_status : report_status; tl_declined_reason : option string;
  tl_is_private : bool; tl_open_info_request : option (Z * string); tl_location_path_snapshot : string;
  tl_unit_label : string; tl_triage_status : option triage_status; tl_category : option string;
  tl_photos : list (obj doc_version_row); tl_cases : list timeline_case; tl_ledger_entry_ids : list Z }.

Record anchor := Anchor { ac_event_id : string; ac_payload_hash : string; ac_evidence_level : evidence_level_t }.
Record shown_event := ShownEvent {
  sv_event_id : string; sv_event_type : Z; sv_status : outbox_status; sv_evidence_level : evidence_level_t;
  sv_transaction_hash : string }.
Record entry_proof := EntryProof {
  ep_payload : pyval; ep_proposed_amount : pyval; ep_proceed_decision : option (string * option Z);
  ep_docs : list (doc_kind * obj doc_version_row); ep_events : list (obj outbox_row);
  ep_transaction_ids : list string; ep_evidence_level : evidence_level_t; ep_proposal_version : anchor;
  ep_settlement : anchor; ep_what_was_fixed : string; ep_why : string }.
Record ledger_item := LedgerItem {
  lg_id : Z; lg_contractor_name : string; lg_actual_cost_vnd : Z; lg_published_at : Z;
  lg_integrity_status : string; lg_evidence_level : evidence_level_t; lg_what_was_fixed : string }.
Record ledger_page := LedgerPage {
  lp_id : Z; lp_contractor_name : string; lp_actual_cost_vnd : Z; lp_published_at : Z;
  lp_integrity_status : string; lp_explorer_url : option string; lp_chain_consulted : option bool;
  lp_documents : list (doc_kind * string * link); lp_events : list shown_event; lp_proof : entry_proof }.

Record shown_version := ShownVersion {
  sh_number : Z; sh_evidence_level : evidence_level_t; sh_supporting_documents : list link }.
Record proposal_page := ProposalPage {
  pg_id : Z; pg_case_id : option Z; pg_building_id : Z; pg_status : proposal_status;
  pg_completed_at : option Z; pg_closed_at : option Z; pg_purpose : string; pg_proposed_action : string;
  pg_amount_vnd : Z; pg_contractor_name : string; pg_expected_schedule : string;
  pg_explorer_url : option string; pg_comparison : option (formatted * prediction_source);
  pg_shown_versions : list shown_version; pg_progress : list shown_update;
  pg_shown_settlement : option (Z * Z); pg_can_rate : bool }.

Record fund_summary := FundSummary {
  fs_balance_vnd : Z; fs_period_days : Z; fs_period_inflows_vnd : Z; fs_period_outflows_vnd : Z }.
Record me_page := MePage {
  me_display_name : string; me_email : option string; me_phone : option string;
  me_occupancies : list (Z * string * string); me_preferences : list (obj preference_row) }.

Definition shown_update_of (u : obj work_update_row) : shown_update :=
  ShownUpdate (pk u) u~>wu_cause u~>wu_result.

Section Pages.
Context {CR : Crypto} {SG : Signing}.
(** The addresses Django's URL resolver and the request build, the grouping of digits of
    [intcomma], and the order of the database's collation on event codes. *)
Context (download_path : string -> string) (explorer_uri : string -> string).
Context (intcomma : Z -> string) (by_event_code : list (obj preference_row) -> list (obj preference_row)).

Definition explorer_public_url (public_token : option string) : option string :=
  match public_token with
  | Some (String _ _ as t) => Some (explorer_uri t)
  | _ => None
  end.
Definition link_of (user : Z) (v : obj doc_version_row) : DB link :=
  token ← issue_download_token user (pk v);
  mret (Link_ (pk v) v~>dv_filename v~>dv_sha256 (download_path token)).

(** ** Reports *)

(** Reports are created in the order of their keys. *)
Definition resident_reports (user : Z) : DB (list (obj report_row)) :=
  all ← query reports (fun r => r~>rp_reporter ==? user);
  mret (rev all).

Definition timeline_of_case (rated : list (option Z)) (l : obj case_report_row) : DB timeline_case :=
  case ← get_row cases "MaintenanceCase" l~>cr_case;
  updates ← query work_updates (fun u => u~>wu_case ==? Some (pk case));
  mret (TimelineCase (pk case) case~>ca_category case~>ca_urgency case~>ca_deadline_at case~>ca_active
    case~>ca_completed_at case~>ca_closed_at (shown_update_of <$> updates)
    (bool_decide (is_Some case~>ca_completed_at) && negb (bool_decide (Some (pk case) ∈ rated)))).
(** [case__reports=report] *)
Definition entry_about (w : world) (report : Z) (l : obj ledger_row) : bool :=
  match l~>le_case with Some c => linked w c report | None => false end.
Definition or_none (s : string) : option string := if truthy s then Some s else None.

Definition resident_report_timeline (report : obj report_row) : DB timeline :=
  triage_job ← query_first triage_jobs (fun j => j~>tj_report ==? pk report);
  decision ← query_first decisions (fun d => d~>de_report ==? pk report);
  rated ← query ratings (fun r => r~>ra_resident ==? report~>rp_reporter);
  links ← query case_reports (fun l => l~>cr_report ==? pk report);
  cases_ ← map_m (timeline_of_case ((fun r => r~>ra_case) <$> rated)) (order_by (fun l => l~>cr_case) links);
  info ← query_first info_requests (open_request (pk report));
  entries ← published_ledger_entries report~>rp_building;
  about ← gets (fun w => List.filter (entry_about w (pk report)) entries);
  unit_ ← get_row units "Unit" report~>rp_unit;
  attached ← query report_photos (fun p => p~>ph_report ==? pk report);
  photos ← map_m (fun p => get_row doc_versions "DocumentVersion" p~>ph_version) attached;
  mret (Timeline (pk report) report~>rp_text report~>rp_status (or_none report~>rp_declined_reason)
    report~>rp_is_private ((fun i => (pk i, i~>ir_message)) <$> info) report~>rp_location_path_snapshot
    unit_~>un_label ((fun j => j~>tj_status) <$> triage_job) ((fun d => d~>de_category) <$> decision) photos cases_
    (pk <$> order_by (fun l => l~>le_published_at) (order_by pk about))).

(** [IssueReport.objects.filter(pk=pk, reporter=request.user).first()] *)
Definition own_report (user report_id : Z) : DB (obj report_row) :=
  found ← query_first reports (fun r => (pk r ==? report_id) && (r~>rp_reporter ==? user));
  of_option (NotFound "Report not found.") found.

Definition report_detail (user report_id : Z) : DB (timeline * list link) :=
  report ← own_report user report_id;
  shown ← resident_report_timeline report;
  links ← map_m (link_of user) (tl_photos shown);
  mret (shown, links).

(** ** The ledger *)

(** The validated query parameters. *)
Definition ledger_filters (year month : option Z) : result unit :=
  let within lo hi (v : option Z) := match v with Some z => (lo <=? z) && (z <=? hi) | None => true end in
  if negb (within 2000 2100 year) then Err (ApiValidationError "year") else
  if negb (within 1 12 month) then Err (ApiValidationError "month") else
  match month, year with
  | Some _, None => Err (ApiValidationError "month requires a year.")
  | _, _ => Ok tt
  end.
Definition published_in (year month : option Z) (l : obj ledger_row) : bool :=
  let day := local_date l~>le_published_at in
  match year with Some y => d_year day =? y | None => true end &&
  match month with Some m => d_month day =? m | None => true end.

Definition verdict_name (v : verdict) : string :=
  match v with VVerified => "VERIFIED" | VMismatch => "MISMATCH" | VUnavailable => "UNAVAILABLE" end.
Definition effective_integrity_status (entry : Z) : DB string :=
  latest ← latest_verification_observation entry;
  mret match latest with None => "UNCHECKED" | Some o => verdict_name o~>ob_result end.

Definition settlement_event (entry : obj ledger_row) : DB (option (obj outbox_row)) :=
  settlement ← get_row settlements "Settlement" entry~>le_settlement;
  event_of settlement~>se_outbox_event.
Definition ledger_item_of (entry : obj ledger_row) : DB ledger_item :=
  status ← effective_integrity_status (pk entry);
  event ← settlement_event entry;
  e ← of_option AttributeError event;
  story ← ledger_story_fields entry;
  mret (LedgerItem (pk entry) entry~>le_contractor_name entry~>le_actual_cost_vnd entry~>le_published_at status
    (evidence_level e~>ev_status) story.1).
Definition ledger_list (user : Z) (header : option string) (year month : option Z) : DB (list ledger_item) :=
  of_result (ledger_filters year month) ;;
  selected ← resolve_api_occupancy user header;
  entries ← published_ledger_entries (tc_building_id selected.2);
  map_m ledger_item_of (List.filter (published_in year month) entries).

Definition published_ledger_entry_for_proof (building_id entry : Z) : DB (option (obj ledger_row)) :=
  entries ← published_ledger_entries building_id;
  mret (List.find (fun l => pk l ==? entry) entries).

Definition anchor_of (event : option (obj outbox_row)) : DB anchor :=
  e ← of_option AttributeError event;
  mret (Anchor e~>ev_event_id e~>ev_payload_hash (evidence_level e~>ev_status)).
(** [payload.get("proposed_amount_vnd")] *)
Definition payload_amount (payload : pyval) : result pyval :=
  match payload with PDict d => Ok (dict_field "proposed_amount_vnd" d) | _ => Err AttributeError end.
Definition or_empty (payload : pyval) : pyval :=
  match payload with
  | PNone | PBool false | PInt 0 | PStr EmptyString | PList [] | PDict [] => PDict []
  | p => p
  end.

Definition ledger_entry_proof (entry : obj ledger_row) : DB entry_proof :=
  let payload := or_empty entry~>le_resident_payload in
  proposal ← get_row proposals "Proposal" entry~>le_proposal;
  version ← current_version_of proposal;
  settlement ← get_row settlements "Settlement" entry~>le_settlement;
  transfer ← get_row doc_versions "DocumentVersion" settlement~>se_transfer;
  document ← get_row documents "Document" transfer~>dv_document;
  proposal_event ← event_of ((fun v => v~>ve_outbox_event) <$> version);
  settled ← event_of settlement~>se_outbox_event;
  story ← ledger_story_fields entry;
  proposed ← (match version with
    | Some v => mret (PInt v~>ve_amount_vnd)
    | None => of_result (payload_amount payload)
    end);
  decision ← proceed_decision (Some proposal);
  event ← of_option AttributeError settled;
  proposal_anchor ← anchor_of proposal_event;
  settlement_anchor ← anchor_of settled;
  let events := option_list proposal_event ++ option_list settled in
  mret (EntryProof payload proposed decision [(document~>dc_kind, transfer)] events
    (List.filter truthy ((fun e => e~>ev_transaction_hash) <$> events)) (evidence_level event~>ev_status)
    proposal_anchor settlement_anchor story.1 story.2).

Definition shown_event_of (e : obj outbox_row) : shown_event :=
  ShownEvent e~>ev_event_id e~>ev_event_type e~>ev_status (evidence_level e~>ev_status) e~>ev_transaction_hash.
Definition document_link (user : Z) (d : doc_kind * obj doc_version_row) : DB (doc_kind * string * link) :=
  l ← link_of user d.2;
  mret (d.1, d.2~>dv_content_type, l).
Definition ledger_detail (user : Z) (header : option string) (entry_id : Z) : DB ledger_page :=
  selected ← resolve_api_occupancy user header;
  found ← published_ledger_entry_for_proof (tc_building_id selected.2) entry_id;
  entry ← of_option (NotFound "Published ledger entry not found.") found;
  proof ← ledger_entry_proof entry;
  observation ← latest_verification_observation (pk entry);
  status ← effective_integrity_status (pk entry);
  proposal ← get_row proposals "Proposal" entry~>le_proposal;
  docs ← map_m (document_link user) (ep_docs proof);
  mret (LedgerPage (pk entry) entry~>le_contractor_name entry~>le_actual_cost_vnd entry~>le_published_at status
    (explorer_public_url proposal~>pr_public_token) ((fun o => o~>ob_chain_consulted) <$> observation) docs
    (shown_event_of <$> ep_events proof) proof).

(** ** The fund *)

Definition fund_summary_view (user : Z) (header : option string) : DB fund_summary :=
  selected ← resolve_api_occupancy user header;
  flows ← fund_period_flows (tc_building_id selected.2) 30;
  balance ← fund_balance (tc_building_id selected.2) true;
  mret (FundSummary balance 30 flows.1 flows.2).
Definition fund_series_view (user : Z) (header range_param : option string) : DB (string * list point) :=
  selected ← resolve_api_occupancy user header;
  let range_key := default "6m" range_param in
  require (bool_decide (range_key ∈ FUND_SERIES_RANGE_KEYS)) (ApiValidationError "range") ;;
  points ← fund_series (tc_building_id selected.2) range_key;
  mret (range_key, points).

(** ** Proposals *)

(** Proposals are created in the order of their keys. *)
Definition resident_proposals (building_id : Z) : DB (list (obj proposal_row)) :=
  all ← query proposals (fun p => (p~>pr_building ==? building_id) && negb (p~>pr_status ==? PDraft));
  mret (rev all).
Definition has_current_user_rating (user proposal : Z) : DB bool :=
  query_exists ratings (fun r => (r~>ra_resident ==? user) && (r~>ra_proposal ==? Some proposal)).

Definition get_comparison (version : obj version_row) : DB (option (formatted * prediction_source)) :=
  prediction ← query_first predictions (fun p => p~>pp_proposal_version ==? Some (pk version));
  match prediction with
  | None => mret None
  | Some p =>
    shown ← of_result (format_price_comparison intcomma
      (Band p~>pp_category p~>pp_minimum_vnd p~>pp_central_vnd p~>pp_maximum_vnd) p~>pp_amount_vnd p~>pp_reasoning);
    mret (Some (shown, p~>pp_source))
  end.
Definition shown_version_of (user : Z) (version : obj version_row) : DB shown_version :=
  quoted ← query prop_docs (fun l => l~>pd_version ==? pk version);
  quotations ← map_m (fun l => get_row doc_versions "DocumentVersion" l~>pd_document_version) quoted;
  links ← map_m (link_of user) quotations;
  event ← get_row outbox "BlockchainOutboxEvent" version~>ve_outbox_event;
  mret (ShownVersion version~>ve_number (evidence_level event~>ev_status) links).
Definition get_versions (user proposal : Z) : DB (list shown_version) :=
  all ← query versions (fun v => v~>ve_proposal ==? proposal);
  map_m (shown_version_of user) (order_by (fun v => v~>ve_number) all).
Definition get_progress (p : obj proposal_row) : DB (list shown_update) :=
  updates ← query work_updates (fun u => match p~>pr_case with
    | Some c => u~>wu_case ==? Some c
    | None => u~>wu_proposal ==? Some (pk p)
    end);
  mret (shown_update_of <$> updates).
Definition get_settlement (proposal : Z) : DB (option (Z * Z)) :=
  settlement ← settlement_of proposal;
  mret ((fun s => (s~>se_amount_vnd, s~>se_settled_at)) <$> settlement).
Definition get_can_rate (user : Z) (p : obj proposal_row) : DB bool :=
  rated ← has_current_user_rating user (pk p);
  mret ((p~>pr_case ==? None) && (p~>pr_status ==? PCompleted) && bool_decide (is_Some p~>pr_completed_at) && negb rated).

Definition proposal_page_of (user : Z) (p : obj proposal_row) : DB proposal_page :=
  current ← current_version_of p;
  version ← of_option AttributeError current;
  comparison ← get_comparison version;
  all ← get_versions user (pk p);
  progress ← get_progress p;
  settlement ← get_settlement (pk p);
  can_rate ← get_can_rate user p;
  mret (ProposalPage (pk p) p~>pr_case p~>pr_building p~>pr_status p~>pr_completed_at p~>pr_closed_at
    version~>ve_purpose version~>ve_proposed_action version~>ve_amount_vnd version~>ve_contractor_name
    version~>ve_expected_schedule (explorer_public_url p~>pr_public_token) comparison all progress settlement can_rate).
Definition proposal_list (user : Z) (header : option string) : DB (list proposal_page) :=
  selected ← resolve_api_occupancy user header;
  all ← resident_proposals (tc_building_id selected.2);
  map_m (proposal_page_of user) all.
Definition proposal_detail (user : Z) (header : option string) (proposal : Z) : DB proposal_page :=
  selected ← resolve_api_occupancy user header;
  all ← resident_proposals (tc_building_id selected.2);
  p ← of_option (NotFound "Proposal not found.") (List.find (fun p => pk p ==? proposal) all);
  proposal_page_of user p.

(** ** Notifications and the account *)

Definition notification_list (user : Z) (header event_code : option string) (unread : option bool) :
    DB (list (obj delivery_row)) :=
  selected ← resolve_api_occupancy user header;
  feed ← resident_feed user (tc_building_id selected.2);
  mret (List.filter (fun d =>
    match event_code with Some (String _ _ as c) => d~>dl_event_code ==? c | _ => true end &&
    match unread with Some b => Bool.eqb (d~>dl_read_at ==? None) b | None => true end) feed).

Definition preferences_of (user : Z) : DB (list (obj preference_row)) :=
  all ← query preferences (fun p => p~>pf_user ==? user);
  mret (by_event_code all).
Definition shown_occupancy (o : obj occupancy_row) : DB (Z * string * string) :=
  unit_ ← get_row units "Unit" o~>oc_unit;
  building ← get_row buildings "Building" unit_~>un_building;
  mret (pk o, unit_~>un_label, val building).
Definition me (user : obj user_row) : DB me_page :=
  occupancies ← active_occupancies (pk user);
  require (negb (bool_decide (occupancies = []))) (PermissionDenied "An active resident occupancy is required.") ;;
  prefs ← preferences_of (pk user);
  shown ← map_m shown_occupancy occupancies;
  mret (MePage user~>u_display_name user~>u_email user~>u_phone shown prefs).
End Pages.

(** ** Facts *)

Section Facts.
Implicit Types (w : world).

Lemma resolved_lives user header w sel w' : resolve_api_occupancy user header w = (Ok sel, w') ->
  w' = w /\ lives_at w user (tc_building_id sel.2).
Proof.
  intros E. pose proof (api_occupancy_exact user header w) as [Hw H]. rewrite E in Hw, H. cbn in Hw, H. subst w'.
  destruct sel as [o t]. destruct H as (Ho & _ & u & Hu & ->). split; [done|]. by exists o, u.
Qed.

Lemma can_download_entitled user v w d :
  rows (documents w) !! dv_document (val v) = Some d -> entitled w user (dc_kind d) (pk v) ->
  resident_can_download user v w = (Ok true, w).
Proof.
  intros Hd He. assert (exists b, resident_can_download user v w = (Ok b, w)) as [b E].
  { unfold resident_can_download. rewrite (bind_run _ _ w (Obj (dv_document (val v)) d) w).
    2: { apply get_row_Ok. split; [|done]. by apply find_Some. }
    cbv zeta. destruct (active_occupancies_list user w) as (l & El & _ & _).
    repeat case_match; try (by eexists). all: rewrite (bind_run _ _ _ _ _ El), (bind_run _ _ w _ w) by done;
      case_match; [by eexists|]; rewrite (bind_run _ _ w _ w) by done; case_match; by eexists. }
  destruct (can_download_exact _ _ _ _ _ E) as (_ & d' & Hd' & H). simplify_eq. destruct b; [done|]. by apply H in He.
Qed.

Lemma find_in {R} (l : list (obj R)) k o : List.find (fun x => pk x ==? k) l = Some o -> o ∈ l /\ pk o = k.
Proof. intros H. apply List.find_some in H as [Hin Hk]. to_prop. by rewrite <-list_elem_of_In in Hin. Qed.

(** An entry that residents of the building see. *)
Definition published_for w (building : Z) (l : obj ledger_row) : Prop :=
  rows (ledger w) !! pk l = Some (val l) /\
  (exists p, rows (proposals w) !! le_proposal (val l) = Some p /\ pr_building p = building /\
    exists k v, pr_current_version p = Some k /\ rows (versions w) !! k = Some v /\ settled_event w (ve_outbox_event v)) /\
  exists s e, rows (settlements w) !! le_settlement (val l) = Some s /\ se_outbox_event s = Some e /\ settled_event w e.

Lemma published_ledger_entries_run b w : exists l, published_ledger_entries b w = (Ok l, w) /\ NoDup l /\
  forall o, o ∈ l <-> published_for w b o.
Proof.
  eexists. split; [reflexivity|]. split; [rewrite newest_first_perm; apply NoDup_select|]. intros o.
  rewrite newest_first_perm, elem_of_select, andb_true_iff, !exists_true. unfold published_for. split.
  - intros (Ho & (k & p & Hk & Hp) & j & s & Hj & Hs). split; [done|]. to_prop. cbn in *. subst. split.
    + exists p. split; [done|]. split; [done|]. match goal with H : version_settled _ _ = true |- _ => by apply version_settled_spec in H end.
    + match goal with H : settlement_settled _ _ = true |- _ => apply settlement_settled_spec in H as (e & ? & ?) end. by exists s, e.
  - intros (Ho & (p & Hp & Hb & Hv) & s & e & Hs & He & Hse). split; [done|]. split.
    + exists (le_proposal (val o)), p. split; [done|]. cbn. rewrite !bool_decide_eq_true_2 by done.
      by apply version_settled_spec.
    + exists (le_settlement (val o)), s. split; [done|]. cbn. rewrite bool_decide_eq_true_2 by done.
      apply settlement_settled_spec. eauto.
Qed.
Lemma entry_for_proof_run b k w : exists found, published_ledger_entry_for_proof b k w = (Ok found, w) /\
  forall o, found = Some o <-> published_for w b o /\ pk o = k.
Proof.
  destruct (published_ledger_entries_run b w) as (l & E & _ & Hl). eexists. unfold published_ledger_entry_for_proof.
  rewrite (bind_run _ _ _ _ _ E). split; [reflexivity|]. intros o. split.
  - intros [Ho Hk]%find_in. by rewrite <-Hl.
  - intros [Ho Hk]. destruct (List.find _ l) as [x|] eqn:Ex.
    + apply find_in in Ex as [Hx%Hl Hxk]. destruct Ho as [Ho _], Hx as [Hx _]. rewrite Hxk, <-Hk, Ho in Hx.
      destruct o, x. cbn in *. by simplify_eq.
    + apply Hl in Ho. rewrite list_elem_of_In in Ho. pose proof (List.find_none _ _ Ex _ Ho) as H. cbn in H. by to_prop.
Qed.

Lemma get_row_found {R} (T : world -> table R) `{!Setter T} m k r w : rows (T w) !! k = Some r ->
  get_row T m k w = (Ok (Obj k r), w).
Proof. intros H. apply get_row_Ok. split; [|done]. by apply find_Some. Qed.

(** *** The proof of an entry *)

(** What an entry's proof follows: the case with its decision and report, the transfer and
    who decided. *)
Record proof_rows w : Prop := {
  pw_cases : forall k l c, rows (ledger w) !! k = Some l -> le_case l = Some c -> exists r d p,
    rows (cases w) !! c = Some r /\ rows (decisions w) !! ca_decision r = Some d /\ rows (reports w) !! de_report d = Some p;
  pw_transfers : forall k s, rows (settlements w) !! k = Some s -> exists v d,
    rows (doc_versions w) !! se_transfer s = Some v /\ rows (documents w) !! dv_document v = Some d;
  pw_deciders : forall k p m, rows (proposals w) !! k = Some p -> pr_decided_by p = Some m -> exists r u,
    rows (memberships w) !! m = Some r /\ rows (users w) !! mb_user r = Some u }.

Lemma story_runs w l p k v : proof_rows w -> rows (ledger w) !! pk l = Some (val l) ->
  rows (proposals w) !! le_proposal (val l) = Some p -> pr_current_version p = Some k -> rows (versions w) !! k = Some v ->
  exists s, ledger_story_fields l w = (Ok s, w).
Proof.
  intros Hw Hl Hp Hk Hv. unfold ledger_story_fields.
  assert (forall c, exists u, newest_work c (le_proposal (val l)) w = (Ok u, w)) as Hwork by (intros [c|]; by eexists).
  assert (current_version_of (Obj (le_proposal (val l)) p) w = (Ok (Some (Obj k v)), w)) as Hcur.
  { unfold current_version_of. cbn. rewrite Hk. by rewrite (bind_run _ _ _ _ _ (get_row_found versions _ _ _ _ Hv)). }
  assert (exists c, case_of (le_case (val l)) w = (Ok c, w) /\ exists t, reported_text c w = (Ok t, w)) as (c & Hc & t & Ht).
  { unfold case_of, reported_text. destruct (le_case (val l)) as [c|] eqn:Ec; [|exists None; eauto].
    destruct (pw_cases _ Hw _ _ _ Hl Ec) as (r & d & q & Hr & Hd & Hq). exists (Some (Obj c r)).
    rewrite (bind_run _ _ _ _ _ (get_row_found cases _ _ _ _ Hr)). split; [done|]. eexists. cbn [val].
    rewrite (bind_run _ _ _ _ _ (get_row_found decisions _ _ _ _ Hd)). cbn [val].
    by rewrite (bind_run _ _ _ _ _ (get_row_found reports _ _ _ _ Hq)). }
  destruct (Hwork c) as [u Hu]. rewrite (bind_run _ _ _ _ _ Hc), (bind_run _ _ _ _ _ Hu), (bind_run _ _ _ _ _ Ht).
  rewrite (bind_run _ _ _ _ _ (get_row_found proposals _ _ _ _ Hp)), (bind_run _ _ _ _ _ Hcur). by eexists.
Qed.

Lemma decision_runs w k p : proof_rows w -> rows (proposals w) !! k = Some p ->
  exists d, proceed_decision (Some (Obj k p)) w = (Ok d, w).
Proof.
  intros Hw Hp. unfold proceed_decision. cbn. destruct (pr_decided_by p) as [m|] eqn:Em; [|by eexists].
  case_match; [by eexists|]. destruct (pw_deciders _ Hw _ _ _ Hp Em) as (r & u & Hr & Hu).
  rewrite (bind_run _ _ _ _ _ (get_row_found memberships _ _ _ _ Hr)). cbn.
  rewrite (bind_run _ _ _ _ _ (get_row_found users _ _ _ _ Hu)). by eexists.
Qed.

Lemma event_of_found w k r : rows (outbox w) !! k = Some r -> event_of (Some k) w = (Ok (Some (Obj k r)), w).
Proof. intros H. unfold event_of. by rewrite (bind_run _ _ _ _ _ (get_row_found outbox _ _ _ _ H)). Qed.

Definition event_settled_of (e : obj outbox_row) : Prop := is_settled e~>ev_status = true.
Lemma proof_runs b l w : proof_rows w -> published_for w b l -> exists p s v d,
  ledger_entry_proof l w = (Ok p, w) /\ rows (settlements w) !! le_settlement (val l) = Some s /\
  rows (doc_versions w) !! se_transfer s = Some v /\ rows (documents w) !! dv_document v = Some d /\
  ep_docs p = [(dc_kind d, Obj (se_transfer s) v)] /\ length (ep_events p) = 2%nat /\ Forall event_settled_of (ep_events p).
Proof.
  intros Hw (Hl & (p & Hp & Hb & k & v & Hk & Hv & ev & Hev & Hsv) & s & e & Hs & He & es & Hes & Hss).
  destruct (pw_transfers _ Hw _ _ Hs) as (t & d & Ht & Hd).
  destruct (story_runs w l p k v Hw Hl Hp Hk Hv) as [story Hstory].
  destruct (decision_runs w _ p Hw Hp) as [dec Hdec].
  eexists _, s, t, d. unfold ledger_entry_proof. cbv zeta.
  rewrite (bind_run _ _ _ _ _ (get_row_found proposals _ _ _ _ Hp)).
  rewrite (bind_run _ _ w (Some (Obj k v)) w).
  2: { unfold current_version_of. cbn. rewrite Hk. by rewrite (bind_run _ _ _ _ _ (get_row_found versions _ _ _ _ Hv)). }
  rewrite (bind_run _ _ _ _ _ (get_row_found settlements _ _ _ _ Hs)). cbn [val].
  rewrite (bind_run _ _ _ _ _ (get_row_found doc_versions _ _ _ _ Ht)). cbn [val].
  rewrite (bind_run _ _ _ _ _ (get_row_found documents _ _ _ _ Hd)). cbn [val fmap option_fmap option_map].
  rewrite (bind_run _ _ _ _ _ (event_of_found _ _ _ Hev)), He.
  rewrite (bind_run _ _ _ _ _ (event_of_found _ _ _ Hes)), (bind_run _ _ _ _ _ Hstory).
  rewrite (bind_run _ _ w _ w) by reflexivity. rewrite (bind_run _ _ _ _ _ Hdec).
  do 3 (rewrite (bind_run _ _ w _ w) by reflexivity). split_and!; try done. repeat constructor; done.
Qed.
End Facts.

Section Properties.
Context {CR : Crypto} {SG : Signing}.
Context (download_path explorer_uri : string -> string) (intcomma : Z -> string).
Implicit Types (w : world).

Definition the_link w (user : Z) (v : obj doc_version_row) : link :=
  Link_ (pk v) v~>dv_filename v~>dv_sha256
    (download_path (signing_dumps DOWNLOAD_SALT (w_now w) (token_payload user (pk v)))).
Lemma link_of_run user v w : link_of download_path user v w = (Ok (the_link w user v), w).
Proof. done. Qed.
Lemma links_run user vs w : map_m (link_of download_path user) vs w = (Ok (the_link w user <$> vs), w).
Proof. induction vs as [|v vs IH]; [done|]. cbn [map_m]. by rewrite (bind_run _ _ _ _ _ (link_of_run user v w)), (bind_run _ _ _ _ _ IH). Qed.

(** A link the user may follow. *)
Definition opens w (user : Z) (l : link) : Prop := exists v,
  rows (doc_versions w) !! pk v = Some (val v) /\ l = the_link w user v /\ resident_can_download user v w = (Ok true, w).
(** Documents of the kind their owner was made with. *)
Definition kind_is w (version : Z) (kind : doc_kind) : Prop := forall v,
  rows (doc_versions w) !! version = Some v -> exists d, rows (documents w) !! dv_document v = Some d /\ dc_kind d = kind.
Record kinds_ok w : Prop := {
  ko_photos : forall k p, rows (report_photos w) !! k = Some p -> kind_is w (ph_version p) REPORT_PHOTO;
  ko_quotations : forall k p, rows (prop_docs w) !! k = Some p -> kind_is w (pd_document_version p) QUOTATION;
  ko_transfers : forall k s, rows (settlements w) !! k = Some s -> kind_is w (se_transfer s) PAYMENT_PROOF }.

Lemma opens_entitled w user v kind :
  rows (doc_versions w) !! pk v = Some (val v) -> kind_is w (pk v) kind -> entitled w user kind (pk v) ->
  opens w user (the_link w user v).
Proof.
  intros Hv Hk He. destruct (Hk _ Hv) as (d & Hd & Ek). exists v. split; [done|]. split; [done|].
  eapply can_download_entitled; [exact Hd|by rewrite Ek].
Qed.

(** The rows a list of keys names. *)
Lemma rows_named {R Q} (T : world -> table R) `{!Setter T} m (f : obj Q -> Z) l w vs w' :
  map_m (fun o => get_row T m (f o)) l w = (Ok vs, w') -> w' = w /\
  forall v, v ∈ vs -> rows (T w) !! pk v = Some (val v) /\ exists o, o ∈ l /\ pk v = f o.
Proof.
  intros H. eapply (map_m_run _ (fun o v => rows (T w) !! pk v = Some (val v) /\ pk v = f o)) in H as [-> H].
  - split; [done|]. intros v Hv. induction H as [|o v' l vs [H1 H2] _ IH]; [by apply not_elem_of_nil in Hv|].
    apply elem_of_cons in Hv as [->|Hv]; [split; [done|]; exists o; split; [left|done]|].
    destruct (IH Hv) as (? & x & ? & ?). split; [done|]. exists x. split; [by right|done].
  - intros o v w2 E. apply get_row_Ok in E as [E ->]. by apply find_Some in E as [-> E].
Qed.

Lemma timeline_reads c l w : keeps eq (timeline_of_case c l) w.
Proof. unfold timeline_of_case. keeps_db. Qed.
Lemma report_timeline_run report w tl w' : resident_report_timeline report w = (Ok tl, w') ->
  w' = w /\ (forall v, v ∈ tl_photos tl -> rows (doc_versions w) !! pk v = Some (val v) /\
    exists k p, rows (report_photos w) !! k = Some p /\ ph_report p = pk report /\ ph_version p = pk v) /\
  exists entries, published_ledger_entries report~>rp_building w = (Ok entries, w) /\
    tl_ledger_entry_ids tl = pk <$> order_by (fun l => l~>le_published_at)
      (order_by pk (List.filter (entry_about w (pk report)) entries)).
Proof.
  unfold resident_report_timeline. intros H.
  do 4 (apply bind_Ok in H as (? & ? & E & H); unfold query_first, query in E; apply gets_Ok in E as [<- <-]).
  apply bind_Ok in H as (cs & w1 & E & H).
  assert (w1 = w) as -> by (eapply keeps_eq; [|exact E]; apply (keeps_map_m eq); intros; apply timeline_reads).
  apply bind_Ok in H as (info & w1 & Ei & H). unfold query_first in Ei. apply gets_Ok in Ei as [<- <-].
  destruct (published_ledger_entries_run report~>rp_building w) as (l & El & _).
  rewrite (bind_run _ _ _ _ _ El), (bind_run _ _ w _ w) in H by reflexivity.
  apply bind_Ok in H as (u & w1 & Eu & H). apply get_row_Ok in Eu as [_ ->].
  apply bind_Ok in H as (ps & w1 & Eq & H). apply query_Ok in Eq as [-> ->].
  apply bind_Ok in H as (vs & w1 & Ev & H). apply (rows_named doc_versions) in Ev as [-> Hv].
  apply ret_Ok in H as [<- <-]. split; [done|]. split; [|by exists l].
  intros v Hin. destruct (Hv v Hin) as (Hr & o & Ho & Hk). split; [done|]. apply elem_of_select in Ho as [Ho Hp]. to_prop.
  by exists (pk o), (val o).
Qed.

(** C22: the timeline links to what opens.  The ledger entries a report's timeline names are,
    once each and oldest first, those about a case of the report that the page of an entry
    shows the residents of the building. *)
Theorem timeline_links_open report w tl w' : resident_report_timeline report w = (Ok tl, w') ->
  w' = w /\ exists entries, tl_ledger_entry_ids tl = pk <$> entries /\ NoDup (tl_ledger_entry_ids tl) /\
    Sorted (fun a b => le_published_at (val a) <= le_published_at (val b)) entries /\
    forall k, k ∈ tl_ledger_entry_ids tl <-> exists entry,
      published_ledger_entry_for_proof report~>rp_building k w = (Ok (Some entry), w) /\ entry_about w (pk report) entry = true.
Proof.
  intros (-> & _ & l & E & ->)%report_timeline_run. split; [done|]. eexists. split; [done|].
  destruct (published_ledger_entries_run report~>rp_building w) as (l' & E' & Hn & Hl). rewrite E in E'. injection E' as <-.
  split_and!.
  - rewrite !order_by_perm. eapply sublist_NoDup; [|apply fmap_sublist, sublist_filter].
    injection E as <-. rewrite newest_first_perm. apply NoDup_pk_select.
  - apply Sorted_merge_sort. intros a b. unfold key_le. lia.
  - intros k. rewrite list_elem_of_fmap. setoid_rewrite elem_of_order_by. setoid_rewrite elem_of_order_by. split.
    + intros (o & -> & Ho). rewrite list_elem_of_In, filter_In, <-list_elem_of_In in Ho. destruct Ho as [Ho%Hl Ha].
      exists o. split; [|done]. destruct (entry_for_proof_run report~>rp_building (pk o) w) as (found & Ef & H).
      rewrite Ef. do 2 f_equal. by apply H.
    + intros (o & Eo & Ha). destruct (entry_for_proof_run report~>rp_building k w) as (found & Ef & H).
      rewrite Ef in Eo. injection Eo as ->. destruct (proj1 (H o) eq_refl) as [Ho <-]. exists o. split; [done|].
      rewrite list_elem_of_In, filter_In, <-list_elem_of_In. by rewrite Hl.
Qed.

Lemma ledger_proof_docs l w p w' : ledger_entry_proof l w = (Ok p, w') -> exists s v d,
  rows (settlements w) !! le_settlement (val l) = Some s /\ rows (doc_versions w) !! se_transfer s = Some v /\
  ep_docs p = [(d, Obj (se_transfer s) v)].
Proof.
  unfold ledger_entry_proof. cbv zeta. intros H. apply bind_Ok in H as (pr & w1 & E & H). apply get_row_Ok in E as [_ ->].
  apply bind_Ok in H as (cv & w1 & E & H). apply current_version_reads in E as ->.
  apply bind_Ok in H as (s & w1 & E & H). apply get_row_Ok in E as [[<- Hs]%find_Some ->].
  apply bind_Ok in H as (v & w1 & E & H). apply get_row_Ok in E as [[Hk Hv]%find_Some ->].
  apply bind_Ok in H as (d & w1 & E & H). apply get_row_Ok in E as [_ ->].
  do 8 (apply bind_Ok in H as (? & ? & _ & H)). apply ret_Ok in H as [<- _].
  exists (val s), (val v), (dc_kind (val d)). split_and!; try done. cbn. rewrite <-Hk. by destruct v.
Qed.

Lemma own_report_run user k w r w' : own_report user k w = (Ok r, w') ->
  w' = w /\ pk r = k /\ rows (reports w) !! k = Some (val r) /\ rp_reporter (val r) = user.
Proof. unfold own_report. intros H. inv_db. inv_query. to_prop. by subst. Qed.

(** *** The page of an entry *)

Lemma ledger_detail_found user header k w page w' :
  ledger_detail download_path explorer_uri user header k w = (Ok page, w') -> exists sel l p,
    resolve_api_occupancy user header w = (Ok sel, w) /\ w' = w /\
    published_for w (tc_building_id sel.2) l /\ pk l = k /\ lp_id page = k /\
    ledger_entry_proof l w = (Ok p, w) /\ lp_proof page = p /\
    (lp_documents page).*2 = the_link w user <$> (ep_docs p).*2 /\ lp_events page = shown_event_of <$> ep_events p.
Proof.
  unfold ledger_detail. intros H. apply bind_Ok in H as (sel & w1 & E & H).
  destruct (resolved_lives _ _ _ _ _ E) as [-> _]. exists sel.
  destruct (entry_for_proof_run (tc_building_id sel.2) k w) as (found & Ef & Hf). rewrite (bind_run _ _ _ _ _ Ef) in H.
  destruct found as [l|]; [|by inv_db]. rewrite (bind_run _ _ w l w) in H by done. destruct (proj1 (Hf l) eq_refl) as [Hl Hk].
  apply bind_Ok in H as (p & w1 & Ep & H). exists l, p.
  assert (w1 = w) as ->.
  { eapply keeps_eq; [|exact Ep]. unfold ledger_entry_proof, anchor_of, event_of.
    repeat first [apply story_reads | apply ledger_story_reads | keeps_step | keeps_db_step]. }
  assert (exists o, latest_verification_observation (pk l) w = (Ok o, w)) as [o Eo] by by eexists.
  rewrite (bind_run _ _ _ _ _ Eo) in H.
  assert (exists st, effective_integrity_status (pk l) w = (Ok st, w)) as [st Est] by by eexists.
  rewrite (bind_run _ _ _ _ _ Est) in H.
  apply bind_Ok in H as (pr & w1 & Epr & H). apply get_row_Ok in Epr as [_ ->].
  assert (forall ds, exists x, map_m (document_link download_path user) ds w = (Ok x, w) /\ x.*2 = the_link w user <$> ds.*2) as Hds.
  { induction ds as [|d ds (x & Ex & IH)]; [by exists []|]. eexists. cbn [map_m].
    unfold document_link at 1. rewrite (bind_run _ _ w (d.1, d.2~>dv_content_type, the_link w user d.2) w) by done.
    rewrite (bind_run _ _ _ _ _ Ex). split; [done|]. cbn. by rewrite IH. }
  destruct (Hds (ep_docs p)) as (x & Ex & Hx). rewrite (bind_run _ _ _ _ _ Ex) in H. apply ret_Ok in H as [<- <-].
  by split_and!.
Qed.

(** C21: the page of an entry answers.  If the rows a proof follows exist, a resident who is
    admitted to a building gets the page of exactly the entries published for it: with the
    events of the version and of the settlement, both settled.  Any other key is an unknown
    entry, and nothing is written. *)
Theorem ledger_detail_answers user header k w sel :
  proof_rows w -> resolve_api_occupancy user header w = (Ok sel, w) ->
  match ledger_detail download_path explorer_uri user header k w with
  | (Ok page, w') => w' = w /\ lp_id page = k /\ length (lp_events page) = 2%nat /\
      Forall (fun e => is_settled (sv_status e) = true) (lp_events page) /\
      exists l, published_for w (tc_building_id sel.2) l /\ pk l = k
  | (Err e, w') => w' = w /\ e = NotFound "Published ledger entry not found." /\
      forall l, published_for w (tc_building_id sel.2) l -> pk l <> k
  end.
Proof.
  intros Hw E. destruct (ledger_detail _ _ _ _ _ _) as [[page|e] w'] eqn:Ed.
  - apply ledger_detail_found in Ed as (sel' & l & p & E' & -> & Hl & Hk & Hid & Ep & <- & _ & Hev).
    rewrite E in E'. injection E' as <-. destruct (proof_runs _ _ _ Hw Hl) as (p' & _ & _ & _ & Ep' & _ & _ & _ & _ & Hn & Hf).
    rewrite Ep in Ep'. injection Ep' as <-. rewrite Hev. split_and!; [done|done|by rewrite length_fmap|by apply Forall_fmap|by exists l].
  - unfold ledger_detail in Ed. rewrite (bind_run _ _ _ _ _ E) in Ed.
    destruct (entry_for_proof_run (tc_building_id sel.2) k w) as (found & Ef & Hf). rewrite (bind_run _ _ _ _ _ Ef) in Ed.
    destruct found as [l|].
    2: { injection Ed as <- <-. split_and!; try done. intros l Hl Hk. pose proof (proj2 (Hf l) (conj Hl Hk)). done. }
    exfalso. rewrite (bind_run _ _ w l w) in Ed by done. destruct (proj1 (Hf l) eq_refl) as [Hl Hk].
    destruct (proof_runs _ _ _ Hw Hl) as (p & s & v & d & Ep & _ & _ & _ & Hdocs & _).
    rewrite (bind_run _ _ _ _ _ Ep) in Ed. do 2 (rewrite (bind_run _ _ w _ w) in Ed by reflexivity).
    destruct Hl as (_ & (pr & Hpr & _) & _). rewrite (bind_run _ _ _ _ _ (get_row_found proposals _ _ _ _ Hpr)), Hdocs in Ed.
    done.
Qed.

Lemma transfer_entitled w user b l s : lives_at w user b -> published_for w b l ->
  rows (settlements w) !! le_settlement (val l) = Some s -> entitled w user PAYMENT_PROOF (se_transfer s).
Proof.
  intros Hb (Hl & (p & Hp & <- & Hv) & s' & e & Hs & He & Hes) Hs'. rewrite Hs in Hs'. injection Hs' as <-.
  exists (pk l), (val l), p, s'. split_and!; try done. by exists e.
Qed.

Lemma shown_version_links user v w x w' : shown_version_of download_path user v w = (Ok x, w') -> w' = w /\
  forall li, li ∈ sh_supporting_documents x -> exists d, rows (doc_versions w) !! pk d = Some (val d) /\ li = the_link w user d /\
    exists k q, rows (prop_docs w) !! k = Some q /\ pd_version q = pk v /\ pd_document_version q = pk d.
Proof.
  unfold shown_version_of. intros H. apply bind_Ok in H as (qs & w1 & Eq & H). apply query_Ok in Eq as [-> ->].
  apply bind_Ok in H as (vs & w1 & Ev & H). apply (rows_named doc_versions) in Ev as [-> Hv].
  rewrite (bind_run _ _ _ _ _ (links_run user vs w)) in H. apply bind_Ok in H as (e & w1 & Ee & H).
  apply get_row_Ok in Ee as [_ ->]. apply ret_Ok in H as [<- <-]. split; [done|]. cbn.
  intros li (d & -> & Hd)%list_elem_of_fmap. destruct (Hv d Hd) as (Hr & o & [Ho Hp]%elem_of_select & Hk). to_prop.
  exists d. split_and!; try done. by exists (pk o), (val o).
Qed.
Lemma get_versions_links user p w vs w' : get_versions download_path user p w = (Ok vs, w') -> w' = w /\
  forall li, li ∈ List.concat (sh_supporting_documents <$> vs) -> exists d v k q,
    rows (doc_versions w) !! pk d = Some (val d) /\ li = the_link w user d /\ rows (prop_docs w) !! k = Some q /\
    rows (versions w) !! pd_version q = Some v /\ ve_proposal v = p /\ pd_document_version q = pk d.
Proof.
  unfold get_versions. intros H. apply bind_Ok in H as (all & w1 & Ea & H). apply query_Ok in Ea as [-> ->].
  eapply (map_m_run _ (fun v x => forall li, li ∈ sh_supporting_documents x -> exists d, rows (doc_versions w) !! pk d = Some (val d) /\
    li = the_link w user d /\ exists k q, rows (prop_docs w) !! k = Some q /\ pd_version q = pk v /\ pd_document_version q = pk d)) in H as [-> H].
  2: { intros v x w2 Hx. by apply shown_version_links in Hx. }
  split; [done|]. assert (forall v, v ∈ order_by (fun v => ve_number (val v)) (select (fun v => v~>ve_proposal ==? p) (versions w)) ->
    rows (versions w) !! pk v = Some (val v) /\ ve_proposal (val v) = p) as Hall.
  { intros v Hv. rewrite elem_of_order_by, elem_of_select in Hv. destruct Hv as [? Hv]. by to_prop. }
  revert Hall H. generalize (order_by (fun v => ve_number (val v)) (select (fun v => v~>ve_proposal ==? p) (versions w))) as l.
  intros l Hall H li Hli. induction H as [|v x l vs Hx _ IH]; [by apply not_elem_of_nil in Hli|]. cbn in Hli.
  apply elem_of_app in Hli as [Hli|Hli]; [|apply IH; [|done]; intros; apply Hall; by right].
  destruct (Hx li Hli) as (d & Hd & -> & k & q & Hk & Hq & Hqd). destruct (Hall v ltac:(left)) as [Hv Hp].
  exists d, (val v), k, q. split_and!; try done. by rewrite Hq.
Qed.
Lemma proposal_detail_found user header k w page w' :
  proposal_detail download_path explorer_uri intcomma user header k w = (Ok page, w') -> exists p vs,
    rows (proposals w) !! k = Some p /\ pr_status p <> PDraft /\ lives_at w user (pr_building p) /\
    get_versions download_path user k w = (Ok vs, w) /\ pg_shown_versions page = vs.
Proof.
  unfold proposal_detail, proposal_page_of. intros H. apply bind_Ok in H as (sel & w1 & E & H).
  destruct (resolved_lives _ _ _ _ _ E) as [-> Hlives].
  apply bind_Ok in H as (all & w1 & Ea & H). unfold resident_proposals in Ea. inv_db.
  match goal with H : List.find _ _ = Some ?o |- _ => apply find_in in H as [Ho <-]; rename o into p end.
  rewrite <-Permutation_rev, elem_of_select in Ho. destruct Ho as [Ho HP]. to_prop.
  match goal with H : current_version_of _ _ = _ |- _ => apply current_version_reads in H as -> end.
  match goal with H : get_comparison _ _ _ = (_, ?w1) |- _ => assert (w1 = w) as -> by
    (eapply keeps_eq; [|exact H]; unfold get_comparison; keeps_db) end.
  match goal with H : get_versions _ _ _ _ = _ |- _ => pose proof H as Ev; apply get_versions_links in H as [-> _] end.
  eexists (val p), _. split_and!; try done. cbn. congruence.
Qed.

(** C16: every link opens.  If documents are of the kind their owner was made with, whatever
    page hands out a link to a document, a report's photos, an entry's payment proof, a
    proposal's quotations, the resident it was made for may download that document now. *)
Theorem links_open user w : kinds_ok w ->
  (forall k shown links w', report_detail download_path user k w = (Ok (shown, links), w') -> Forall (opens w user) links) /\
  (forall header k page w', ledger_detail download_path explorer_uri user header k w = (Ok page, w') ->
    Forall (opens w user) (lp_documents page).*2) /\
  (forall header k page w', proposal_detail download_path explorer_uri intcomma user header k w = (Ok page, w') ->
    Forall (opens w user) (List.concat (sh_supporting_documents <$> pg_shown_versions page))).
Proof.
  intros Hw. split_and!.
  - intros k shown links w' H. unfold report_detail in H.
    apply bind_Ok in H as (r & w1 & Er & H). apply own_report_run in Er as (-> & Hk & Hr & Hu).
    apply bind_Ok in H as (tl & w1 & Et & H). apply report_timeline_run in Et as (-> & Hph & _).
    rewrite (bind_run _ _ _ _ _ (links_run user _ w)) in H. apply ret_Ok in H as [[= <- <-] _].
    apply Forall_forall. intros li (v & -> & (Hv & j & p & Hp & Hpr & Hpv)%Hph)%list_elem_of_fmap.
    eapply (opens_entitled _ _ _ REPORT_PHOTO); [done|rewrite <-Hpv; by eapply ko_photos|].
    exists j, p, (val r). split_and!; try done. by rewrite Hpr, Hk.
  - intros header k page w' (sel & l & p & E & -> & Hl & _ & _ & Ep & _ & -> & _)%ledger_detail_found.
    destruct (resolved_lives _ _ _ _ _ E) as [_ Hb]. apply ledger_proof_docs in Ep as (s & v & d & Hs & Hv & ->).
    constructor; [|constructor]. apply (opens_entitled w user (Obj (se_transfer s) v) PAYMENT_PROOF); cbn; [done| |].
    + by eapply ko_transfers.
    + by eapply transfer_entitled.
  - intros header k page w' (p & vs & Hp & Hs & Hb & Hvs & ->)%proposal_detail_found.
    apply get_versions_links in Hvs as [_ Hvs]. apply Forall_forall.
    intros li (d & v & j & q & Hd & -> & Hq & Hv & Hvp & Hqd)%Hvs.
    eapply (opens_entitled _ _ _ QUOTATION); [done|rewrite <-Hqd; by eapply ko_quotations|]. left.
    exists j, q, v, p. split_and!; try done. by rewrite Hvp.
Qed.
End Properties.

(** ** Concrete runs *)

(** The reporter lives in the building, and the report has a photo. *)
Definition demo_neighbour : world :=
  demo_delivered
    <| occupancies ::= insert_row (Occupancy 2 1 true) |>
    <| documents ::= insert_row (Document 1 REPORT_PHOTO) |>
    <| doc_versions ::= insert_row (DocVersion 4 1 "documents/1/p" "1" "leak.png" "image/png" 8 "aa" "CLEAN" 2) |>
    <| report_photos ::= insert_row (ReportPhoto 1 4 "aa") |>.

(** [H] looks a stored row up. *)
Ltac row_is H :=
  let E := fresh in
  match type of H with
  | ?x = _ => let v := eval vm_compute in x in assert (x = v) as E by (vm_compute; reflexivity); rewrite E in H; injection H as <-
  end.
(** The row is the only one of its table, and has key [k]. *)
Ltac sole_row H t k :=
  let E := fresh in
  pose proof (proj1 (exists_false (fun o => negb (pk o =? k)) t) ltac:(vm_compute; reflexivity) _ _ H) as E;
  cbn in E; apply negb_false_iff, Z.eqb_eq in E; subst; row_is H.

Lemma demo_proof_rows : proof_rows demo_neighbour.
Proof.
  split.
  - intros k l c Hl Hc. sole_row Hl (ledger demo_neighbour) 1. cbn in Hc. injection Hc as <-.
    eexists _, _, _. split_and!; vm_compute; reflexivity.
  - intros k s Hs. sole_row Hs (settlements demo_neighbour) 1. eexists _, _. split; vm_compute; reflexivity.
  - intros k p m Hp Hm. sole_row Hp (proposals demo_neighbour) 1. cbn in Hm. injection Hm as <-.
    eexists _, _. split; vm_compute; reflexivity.
Qed.
Lemma demo_kinds : kinds_ok demo_neighbour.
Proof.
  split; intros k r Hr v Hv.
  - sole_row Hr (report_photos demo_neighbour) 1. row_is Hv. eexists. split; vm_compute; reflexivity.
  - sole_row Hr (prop_docs demo_neighbour) 1. row_is Hv. eexists. split; vm_compute; reflexivity.
  - sole_row Hr (settlements demo_neighbour) 1. row_is Hv. eexists. split; vm_compute; reflexivity.
Qed.

Definition demo_report : obj report_row :=
  Obj 1 (Report 2 1 1 "Leak" 1 "Tower A / Roof" RCompleted false "" None None None).
Definition demo_timeline : timeline :=
  got (Timeline 0 "" RSubmitted None false None "" "" None None [] [] []) (resident_report_timeline demo_report demo_neighbour).
Lemma timeline_links_open_witness :
  tl_ledger_entry_ids demo_timeline = [1] /\
  exists entry, published_ledger_entry_for_proof 1 1 demo_neighbour = (Ok (Some entry), demo_neighbour).
Proof.
  assert (tl_ledger_entry_ids demo_timeline = [1]) as Hids by (vm_compute; reflexivity). split; [exact Hids|].
  destruct (timeline_links_open demo_report demo_neighbour demo_timeline demo_neighbour ltac:(vm_compute; reflexivity))
    as (_ & entries & _ & _ & _ & H).
  destruct (proj1 (H 1)) as (entry & He & _); [rewrite Hids; left|]. exists entry. exact He.
Defined.

Definition demo_path (token : string) : string := "/api/v1/documents/" +:+ token.
Definition demo_admitted : obj occupancy_row * TenantContext :=
  (Obj 1 (Occupancy 2 1 true), Tenant 1 "resident" (Some 1) None).
Definition is_ok {A} (r : result A) : bool := match r with Ok _ => true | Err _ => false end.
Lemma ok_run {A} (x : result A * world) : is_ok x.1 = true -> exists a, x = (Ok a, x.2).
Proof. destruct x as [[a|e] w]; [by exists a|done]. Qed.
Lemma err_run {A} (x : result A * world) : is_ok x.1 = false -> exists e, x = (Err e, x.2).
Proof. destruct x as [[a|e] w]; [done|by exists e]. Qed.
Notation demo_entry k := (ledger_detail (SG := demo_signing) demo_path id 2 None k demo_neighbour).
Lemma ledger_detail_answers_witness :
  (exists page, (demo_entry 1).1 = Ok page /\ lp_id page = 1) /\
  (demo_entry 7).1 = Err (NotFound "Published ledger entry not found.").
Proof.
  pose proof (fun k => ledger_detail_answers (SG := demo_signing) demo_path id 2 None k demo_neighbour demo_admitted
    demo_proof_rows ltac:(vm_compute; reflexivity)) as H.
  destruct (ok_run (demo_entry 1)) as [page E1]; [vm_compute; reflexivity|].
  destruct (err_run (demo_entry 7)) as [e E7]; [vm_compute; reflexivity|].
  pose proof (H 1) as H1. pose proof (H 7) as H7. rewrite E1 in H1. rewrite E7 in H7. split.
  - exists page. rewrite E1. split; [reflexivity|]. destruct H1 as (_ & Hk & _). exact Hk.
  - rewrite E7. destruct H7 as (_ & -> & _). reflexivity.
Defined.

Definition demo_links : list link :=
  snd (got (demo_timeline, []) (report_detail (SG := demo_signing) demo_path 2 1 demo_neighbour)).
Lemma links_open_witness :
  li_filename <$> demo_links = ["leak.png"] /\
  Forall (fun l => exists v, li_id l = pk v /\ resident_can_download 2 v demo_neighbour = (Ok true, demo_neighbour)) demo_links.
Proof.
  split; [vm_compute; reflexivity|].
  destruct (links_open (SG := demo_signing) demo_path id zstr 2 demo_neighbour demo_kinds) as [H _].
  eapply Forall_impl; [apply (H 1 demo_timeline demo_links demo_neighbour); vm_compute; reflexivity|].
  intros l (v & _ & -> & Hv). exists v. split; [reflexivity|exact Hv].
Defined.
