(* ===== verification/ResidentApi.v ===== *)
(** * ResidentApi: what the resident API changes

    The views of [api/views.py] that write: reports, replies, photos, ratings, read stamps,
    notification preferences, devices and signing out, with the problems of
    [api/problems.py].  A view takes the authenticated user and validated data; what the
    serializers themselves require of the data (types, lengths) is theirs. *)

From S2P Require Import OutboxWorker.
From S2P Require Import Prelude Table PyStr Schema Store Accounts Documents Evidence.
From S2P Require Import Notifications Devices Hooks Cases Reporting Proposals Books Integrity.
From S2P Require Import Tenancy Tokens Downloads Explorer ResidentPages.
Open Scope Z_scope.

(** ** Problems *)

(** [problem_exception_handler]: the status and the code of an API exception; anything else
    is a server error. *)
Definition problem_exception_handler (e : exn) : option (Z * string) :=
  match e with
  | OccupancySelectionRequired => Some (422, "occupancy_selection_required")
  | ClientRefConflict => Some (409, "client_ref_conflict")
  | AuthenticationFailed => Some (401, "authentication_failed")
  | PermissionDenied _ => Some (403, "permission_denied")
  | NotFound _ | Http404 => Some (404, "not_found")
  | Throttled => Some (429, "throttled")
  | ApiValidationError _ => Some (400, "validation_failed")
  | _ => None
  end.

(** [except DjangoValidationError as error: raise exceptions.ValidationError(error.messages)]
    and [except DjangoPermissionDenied: raise exceptions.PermissionDenied(detail)] *)
Definition as_problem {A} (detail : string) (m : DB A) : DB A :=
  try_except m (fun e => match e with
    | ValidationError msg => raise (ApiValidationError msg)
    | PermissionDenied _ => raise (PermissionDenied detail)
    | e => raise e
    end).

(** ** Reports *)

Section Api.
Context {CR : Crypto} {SG : Signing} (ST : storage) (DS : doc_settings).
Context (image_verifies : string -> bool) (scanner : string -> option bool) (download_path : string -> string).
Context (by_event_code : list (obj preference_row) -> list (obj preference_row)).

(** The report, and the status of the response. *)
Definition create_report (user : Z) (header : option string) (text : string) (location_id : Z)
    (client_ref : string) (is_private : bool) : DB (obj report_row * Z) :=
  selected ← resolve_api_occupancy user header;
  found ← query_first locations (fun l =>
    (pk l ==? location_id) && (l~>lo_building ==? tc_building_id selected.2) && l~>lo_active);
  location ← of_option (ApiValidationError "Unknown active location for this building.") found;
  result ← try_except
    (submit_report_idempotent user selected.1~>oc_unit (PStr text) (pk location) [] client_ref is_private)
    (fun e => match e with
      | ReportClientRefConflict => raise ClientRefConflict
      | ValidationError msg => raise (ApiValidationError msg)
      | PermissionDenied _ => raise (PermissionDenied "An active resident occupancy is required.")
      | e => raise e
      end);
  mret (result.1, if result.2 : bool then 201 else 200).

Definition info_reply (user report_id : Z) (text : string) : DB (Z * report_status) :=
  report ← own_report user report_id;
  as_problem "Only the reporter may reply." (_ ← reply_information user (pk report) text; mret tt) ;;
  refreshed ← get_row reports "IssueReport" (pk report);
  mret (pk report, refreshed~>rp_status).

(** [uuid] names the stored object. *)
Definition upload_photo (user report_id : Z) (photo : uploaded_file) (uuid : string) : DB (link * Z) :=
  report ← own_report user report_id;
  result ← try_except (attach_report_photo ST DS image_verifies scanner user report photo uuid)
    (fun e => match e with
      | DocumentUploadRejected reason | DocumentUploadQuarantined reason => raise (ApiValidationError reason)
      | ValidationError msg => raise (ApiValidationError msg)
      | PermissionDenied _ => raise (PermissionDenied "Active occupancy in the report building is required.")
      | e => raise e
      end);
  l ← link_of download_path user result.1;
  mret (l, if result.2 : bool then 201 else 200).

(** ** Ratings *)

(** [comment]: the empty string when the request has none. *)
Definition rate_case (user case_id : Z) (satisfied : bool) (comment : option string) : DB (Z * Z * bool) :=
  found ← gets (fun w => first (fun c => (pk c ==? case_id) &&
    exists_ (fun r => linked w (pk c) (pk r) && (r~>rp_reporter ==? user)) (reports w)) (cases w));
  case ← of_option (NotFound "Case not found.") found;
  rating ← as_problem "Only residents who reported this case may rate the work."
    (rate_completed_case user (pk case) (PBool satisfied) (PStr (default "" comment)));
  mret (pk rating, pk case, rating~>ra_satisfied).

Definition rate_proposal (user : Z) (header : option string) (proposal_id : Z) (satisfied : bool)
    (comment : option string) : DB (Z * Z * bool) :=
  selected ← resolve_api_occupancy user header;
  found ← query_first proposals (fun p =>
    (pk p ==? proposal_id) && (p~>pr_building ==? tc_building_id selected.2) && (p~>pr_case ==? None));
  proposal ← of_option (NotFound "Proposal not found.") found;
  rating ← as_problem "Active occupancy in the building is required."
    (rate_completed_proposal user (pk proposal) (PBool satisfied) (PStr (default "" comment)));
  mret (pk rating, pk proposal, rating~>ra_satisfied).

(** ** Notifications *)

Definition read_notification (user delivery : Z) : DB unit :=
  found ← query_first deliveries (fun d =>
    (pk d ==? delivery) && (d~>dl_recipient ==? user) && (d~>dl_channel ==? IN_APP));
  _ ← of_option (NotFound "Notification not found.") found;
  _ ← mark_notification_read user delivery;
  mret tt.

(** The codes of [PREFERENCE_EVENT_CHOICES]. *)
Definition PREFERENCE_EVENT_CODES : list string := [
  EVENT_ANNOUNCEMENT; EVENT_BILL_ISSUED; EVENT_REPORT_RECEIPT; EVENT_TRIAGE_STATUS; EVENT_WORK_COMPLETED;
  "work.assigned"; EVENT_DEADLINE_RISK; EVENT_SETTLEMENT_RECORDED; EVENT_PUBLICATION; EVENT_INTEGRITY_MISMATCH].

(** An item of the request, with the flags it has. *)
Record preference_item := PrefItem { it_event_code : string; it_email : option bool; it_push : option bool }.
(** [NotificationPreferenceUpdateItemSerializer.validate] and [allow_empty=False] *)
Definition validate_item (i : preference_item) : result unit :=
  match it_email i, it_push i with
  | None, None => Err (ApiValidationError "At least one of email_enabled or push_enabled is required.")
  | _, _ => Ok tt
  end.
Definition validate_items (items : list preference_item) : result unit :=
  if items is [] then Err (ApiValidationError "preferences") else _ ← rmap validate_item items; Ok tt.
Definition check_item (i : preference_item) : result unit :=
  if negb (str_in (it_event_code i) PREFERENCE_EVENT_CODES)
  then Err (ApiValidationError ("Unknown event_code: " +:+ it_event_code i))
  else if bool_decide (is_Some (it_push i)) && negb (str_in (it_event_code i) RESIDENT_PUSH_EVENT_CODES)
  then Err (ApiValidationError ("push_enabled is not supported for event_code: " +:+ it_event_code i))
  else Ok tt.

(** The preference with the flags of the item set. *)
Definition with_item (i : preference_item) (p : preference_row) : preference_row :=
  Preference (pf_user p) (pf_event_code p) (default (pf_email_enabled p) (it_email i)) (default (pf_push_enabled p) (it_push i)).
(** [update_or_create]; the columns are true by default. *)
Definition apply_item (user : Z) (i : preference_item) : DB unit :=
  found ← query preferences (pref_for user (it_event_code i));
  match found with
  | [p] => save preferences (pk p) (with_item i)
  | [] =>
    _ ← insert_unless preferences "notification_preference_once"
      (fun r o => (o~>pf_user ==? pf_user r) && (o~>pf_event_code ==? pf_event_code r))
      (with_item i (Preference user (it_event_code i) true true));
    mret tt
  | _ => raise (MultipleObjectsReturned "NotificationPreference")
  end.
Definition patch_preferences (user : Z) (items : list preference_item) : DB (list (obj preference_row)) :=
  occupancies ← active_occupancies user;
  require (negb (bool_decide (occupancies = []))) (PermissionDenied "An active resident occupancy is required.") ;;
  of_result (validate_items items) ;;
  of_result (_ ← rmap check_item items; Ok tt) ;;
  atomic (for_each (apply_item user) items) ;;
  preferences_of by_event_code user.

(** ** Devices and signing out *)

Definition register_device_view (user : Z) (install_id fcm_token platform app_version : string) :
    DB (string * string * bool) :=
  device ← register_device user install_id fcm_token platform app_version;
  mret (device~>dv_install_id, device~>dv_platform, device~>dv_active).
Definition delete_device (user : Z) (install_id : string) : DB unit :=
  _ ← deactivate_device user install_id; mret tt.
(** [token] is the one the request came with; [request.headers.get(...) or
    request.data.get(...)]. *)
Definition logout (user token : Z) (header body : option string) : DB unit :=
  let install_id := match header with Some (String _ _ as h) => Some h | _ => body end in
  bulk_delete tokens (fun t => pk t ==? token) ;;
  match install_id with
  | Some (String _ _ as i) => _ ← deactivate_device user i; mret tt
  | _ => mret tt
  end.
Definition logout_all (user : Z) : DB unit :=
  bulk_delete tokens (fun t => t~>tk_user ==? user) ;;
  _ ← deactivate_user_devices user;
  mret tt.

(** ** Requests *)

Inductive api_request :=
  | CreateReport (header : option string) (text : string) (location : Z) (client_ref : string) (is_private : bool)
  | InfoReply (report : Z) (text : string)
  | UploadPhoto (report : Z) (photo : uploaded_file) (uuid : string)
  | RateCase (case : Z) (satisfied : bool) (comment : option string)
  | RateProposal (header : option string) (proposal : Z) (satisfied : bool) (comment : option string)
  | ReadNotification (delivery : Z)
  | PatchPreferences (items : list preference_item)
  | RegisterDevice (install_id fcm_token platform app_version : string)
  | DeleteDevice (install_id : string)
  | Logout (token : Z) (header body : option string)
  | LogoutAll.

Definition run_request (user : Z) (r : api_request) : DB unit :=
  match r with
  | CreateReport h t l c p => _ ← create_report user h t l c p; mret tt
  | InfoReply k t => _ ← info_reply user k t; mret tt
  | UploadPhoto k f u => _ ← upload_photo user k f u; mret tt
  | RateCase k s c => _ ← rate_case user k s c; mret tt
  | RateProposal h k s c => _ ← rate_proposal user h k s c; mret tt
  | ReadNotification k => read_notification user k
  | PatchPreferences l => _ ← patch_preferences user l; mret tt
  | RegisterDevice i f p v => _ ← register_device_view user i f p v; mret tt
  | DeleteDevice i => delete_device user i
  | Logout t h b => logout user t h b
  | LogoutAll => logout_all user
  end.
(** The requests of everybody, in the order they are served. *)
Definition serve (l : list (Z * api_request)) (w : world) : world :=
  foldl (fun w r => (run_request r.1 r.2 w).2) w l.
End Api.

(** ** Whose rows a request may write *)

(** A row that is not the user's stays as it is. *)
Definition mine_only {R} (owner : R -> Z) (user : Z) (r r' : R) : Prop := owner r <> user -> r' = r.
#[export] Instance mine_only_preorder {R} (owner : R -> Z) user : PreOrder (mine_only owner user).
Proof. split; [by intros r _|]. intros a b c H1 H2 Ha. rewrite <-(H1 Ha) in Ha |- *. by apply H2. Qed.
(** A device of somebody else may lose its token to the user. *)
Definition device_spared (user : Z) (r r' : device_row) : Prop :=
  dv_user r <> user -> r' = r \/ r' = r <| dv_active := false |>.
#[export] Instance device_spared_preorder user : PreOrder (device_spared user).
Proof.
  split; [by intros r _; left|]. intros a b c H1 H2 Ha. destruct (H1 Ha) as [->| ->]; [by apply H2|].
  destruct (H2 Ha) as [->| ->]; right; [done|]. by destruct a.
Qed.

Record spared (user : Z) (w w' : world) : Prop := {
  sp_reports : evolves (mine_only rp_reporter user) (reports w) (reports w');
  sp_ratings : evolves (mine_only ra_resident user) (ratings w) (ratings w');
  sp_deliveries : evolves (mine_only dl_recipient user) (deliveries w) (deliveries w');
  sp_preferences : evolves (mine_only pf_user user) (preferences w) (preferences w');
  sp_devices : evolves (device_spared user) (devices w) (devices w') }.
#[export] Instance spared_preorder user : PreOrder (spared user).
Proof.
  split; [by intros w; split|]. intros x y z [A1 A2 A3 A4 A5] [B1 B2 B3 B4 B5].
  split; etrans; eauto.
Qed.

(** An update of one table leaves the others. *)
Ltac spare_leaf := split; cbn; first
  [ reflexivity
  | apply evolves_insert; apply _
  | apply evolves_update; [apply _|intros ? ? ?]
  | apply evolves_update_where; [apply _|intros ? ? ? ? ?] ].
Section Spared.
Implicit Types (w : world).

Lemma spared_told user (m : DB unit) w : told m w -> keeps (spared user) (swallow m) w.
Proof. intros [ns H]. unfold keeps. rewrite H. by split. Qed.
End Spared.

Ltac spare :=
  repeat first
    [ (match goal with |- keeps (spared _) (swallow _) _ => apply spared_told; auto with told end)
    | (match goal with |- spared _ _ _ => spare_leaf end)
    | keeps_step | keeps_db_step | keeps_op_step | keeps_svc_unfold ].

Section SparedOps.
Context {CR : Crypto} {SG : Signing} (ST : storage) (DS : doc_settings).
Context (image_verifies : string -> bool) (scanner : string -> option bool) (download_path : string -> string).
Context (by_event_code : list (obj preference_row) -> list (obj preference_row)).
Implicit Types (w : world).

Lemma spared_resolve user u h w : keeps (spared user) (resolve_api_occupancy u h) w.
Proof. unfold resolve_api_occupancy, active_occupancies, from_occupancy. spare. Qed.
Lemma spared_own_report user u k w : keeps (spared user) (own_report u k) w.
Proof. unfold own_report. spare. Qed.

Lemma spared_reply user k t w : keeps (spared user) (reply_information user k t) w.
Proof. unfold reply_information. spare. all: inv_svc; to_prop; cbn in *; congruence. Qed.
Lemma spared_submit user u t l ph c p w : keeps (spared user) (submit_report user u t l ph c p) w.
Proof. unfold submit_report, insert_report, insert_photo, insert_triage_job. spare. Qed.
Lemma spared_submit_idempotent user u t l ph c p w : keeps (spared user) (submit_report_idempotent user u t l ph c p) w.
Proof. unfold submit_report_idempotent, replayed. spare. all: apply spared_submit. Qed.
Lemma spared_attach user r f uuid w : keeps (spared user) (attach_report_photo ST DS image_verifies scanner user r f uuid) w.
Proof.
  unfold attach_report_photo, attached_version, create_resident_report_photo, create_document_version, insert_photo, insert_version,
    _create_rejection, audit_upload, standing_building, uploader_standing, membership_or_none, _occupancy_for,
    occupancy_building, _audit. spare.
Qed.
Lemma spared_rate_case user c s x w : keeps (spared user) (rate_completed_case user c s x) w.
Proof. unfold rate_completed_case. spare. all: to_prop; cbn in *; to_prop; congruence. Qed.
Lemma spared_rate_proposal user c s x w : keeps (spared user) (rate_completed_proposal user c s x) w.
Proof. unfold rate_completed_proposal. spare. Qed.
(** The row a query returned alone. *)
Lemma sole_row_of {R} P (t : table R) o k r : [o] = select P t -> k = pk o -> rows t !! k = Some r -> o = Obj k r /\ P o = true.
Proof. intros H -> Hr. symmetry in H. apply select_singleton in H as [Ho HP]. rewrite Ho in Hr. injection Hr as <-. by destruct o. Qed.
Lemma spared_upsert user i f p v w : keeps (spared user) (_upsert user i f p v) w.
Proof.
  unfold _upsert, check_token. spare. inv_db.
  match goal with H : [_] = select _ _, Hr : rows _ !! _ = Some _ |- _ => eapply sole_row_of in H as [-> H]; [|reflexivity|exact Hr] end.
  unfold same_install in *. to_prop. cbn in *. congruence.
Qed.
Lemma spared_register user i f p v w : keeps (spared user) (register_device user i f p v) w.
Proof. unfold register_device, _deactivate_other_holders. spare. all: first [apply spared_upsert|by right]. Qed.
Lemma spared_apply user i w : keeps (spared user) (apply_item user i) w.
Proof.
  unfold apply_item. spare. inv_db.
  match goal with H : [_] = select _ _, Hr : rows _ !! _ = Some _ |- _ => eapply sole_row_of in H as [-> H]; [|reflexivity|exact Hr] end.
  unfold pref_for in *. to_prop. cbn in *. congruence.
Qed.

Lemma spared_request user r w :
  keeps (spared user) (run_request ST DS image_verifies scanner download_path by_event_code user r) w.
Proof.
  destruct r; cbn [run_request]; unfold create_report, info_reply, upload_photo, rate_case, rate_proposal, read_notification,
    patch_preferences, register_device_view, delete_device, logout, logout_all, as_problem, link_of, issue_download_token,
    mark_notification_read, deactivate_device, deactivate_user_devices, preferences_of, active_occupancies.
  all: spare; try first [apply spared_resolve | apply spared_own_report | apply spared_submit_idempotent | apply spared_reply
    | apply spared_attach | apply spared_rate_case | apply spared_rate_proposal | apply spared_register | apply spared_apply
    | by right | (to_prop; cbn in *; congruence)].
Qed.

(** What a resident [me] owns is kept. *)
Definition kept_for {R} (owner : R -> Z) (me : Z) (t t' : table R) : Prop :=
  forall k r, rows t !! k = Some r -> owner r = me -> rows t' !! k = Some r.
#[export] Instance kept_for_preorder {R} (owner : R -> Z) me : PreOrder (kept_for owner me).
Proof. split; [by intros t k r|]. intros x y z H1 H2 k r Hk E. by apply H2, E; apply H1. Qed.
Record mine_kept (me : Z) (w w' : world) : Prop := {
  mk_reports : kept_for rp_reporter me (reports w) (reports w');
  mk_ratings : kept_for ra_resident me (ratings w) (ratings w');
  mk_deliveries : kept_for dl_recipient me (deliveries w) (deliveries w');
  mk_preferences : kept_for pf_user me (preferences w) (preferences w');
  mk_devices : forall k d, rows (devices w) !! k = Some d -> dv_user d = me ->
    rows (devices w') !! k = Some d \/ rows (devices w') !! k = Some (d <| dv_active := false |>) }.
Record tables_wf (w : world) : Prop := {
  tw_reports : table_wf (reports w); tw_ratings : table_wf (ratings w); tw_deliveries : table_wf (deliveries w);
  tw_preferences : table_wf (preferences w); tw_devices : table_wf (devices w) }.

Lemma evolves_kept {R} (owner : R -> Z) user me t t' : user <> me -> evolves (mine_only owner user) t t' -> table_wf t ->
  table_wf t' /\ kept_for owner me t t'.
Proof.
  intros Hu H Hwf. destruct (H Hwf) as [Hwf' Hr]. split; [done|]. intros k r Hk <-. destruct (Hr k r Hk) as (r' & Hk' & E).
  by rewrite Hk', E by done.
Qed.
Lemma spared_mine user me w w' : user <> me -> spared user w w' -> tables_wf w -> tables_wf w' /\ mine_kept me w w'.
Proof.
  intros Hu [H1 H2 H3 H4 H5] [W1 W2 W3 W4 W5].
  destruct (evolves_kept _ _ _ _ _ Hu H1 W1), (evolves_kept _ _ _ _ _ Hu H2 W2), (evolves_kept _ _ _ _ _ Hu H3 W3),
    (evolves_kept _ _ _ _ _ Hu H4 W4). destruct (H5 W5) as [W5' Hd]. split; [by split|]. split; try done.
  intros k d Hk <-. destruct (Hd k d Hk) as (d' & Hk' & E). rewrite Hk'. destruct E as [->| ->]; auto.
Qed.
#[export] Instance mine_kept_preorder me : PreOrder (mine_kept me).
Proof.
  split; [intros w; split; [reflexivity..|by left]|].
  intros x y z [A1 A2 A3 A4 A5] [B1 B2 B3 B4 B5]. split; [by etrans|by etrans|by etrans|by etrans|].
  intros k d Hk <-. destruct (A5 k d Hk eq_refl) as [Hy|Hy]; destruct (B5 k _ Hy eq_refl) as [Hz|Hz]; auto.
Qed.

(** C17: residents do not write each other's rows.  Whatever requests the other residents
    make, of the eleven writing requests of [api/views.py], with whatever arguments and in
    whatever order, a resident's reports, ratings, notifications and preferences stay
    exactly as they were, and so do the devices, except that one may be deactivated (by
    whoever registers its token). *)
Theorem others_spared me l w :
  tables_wf w -> Forall (fun r => r.1 <> me) l ->
  mine_kept me w (serve ST DS image_verifies scanner download_path by_event_code l w).
Proof.
  intros Hwf Hl. revert w Hwf. induction Hl as [|[u r] l Hu _ IH]; intros w Hwf; [reflexivity|].
  destruct (spared_mine u me w _ Hu (spared_request u r w) Hwf) as [Hwf' Hm]. etrans; [exact Hm|]. by apply IH.
Qed.
End SparedOps.

(** ** Retries *)

Section Retries.
Implicit Types (w : world).

(** Submitting a report leaves homes and locations. *)
Definition same_homes (w w' : world) : Prop :=
  occupancies w' = occupancies w /\ units w' = units w /\ locations w' = locations w.
#[export] Instance same_homes_preorder : PreOrder same_homes.
Proof. split; [by intros w|]. intros x y z (A1 & A2 & A3) (B1 & B2 & B3). split_and!; congruence. Qed.
Lemma homes_told (m : DB unit) w : told m w -> keeps same_homes (swallow m) w.
Proof. intros [ns H]. unfold keeps. by rewrite H. Qed.
Lemma submit_homes user u t l ph c p w : keeps same_homes (submit_report_idempotent user u t l ph c p) w.
Proof.
  unfold submit_report_idempotent, replayed, submit_report, insert_report, insert_photo, insert_triage_job.
  repeat first
    [ (match goal with |- keeps same_homes (swallow _) _ => apply homes_told; auto with told end)
    | (match goal with |- same_homes _ _ => done end)
    | keeps_step | keeps_db_step | keeps_op_step | keeps_svc_unfold ].
Qed.

Lemma resolve_same_homes user h w w' sel : same_homes w w' ->
  resolve_api_occupancy user h w = (Ok sel, w) -> resolve_api_occupancy user h w' = (Ok sel, w').
Proof.
  intros (Ho & Hu & _). unfold resolve_api_occupancy. set (l := select (fun o => (o~>oc_user ==? user) && o~>oc_active) (occupancies w)).
  assert (active_occupancies user w = (Ok l, w) /\ active_occupancies user w' = (Ok l, w')) as [E E'].
  { unfold active_occupancies, query, gets. by rewrite Ho. }
  rewrite (bind_run _ _ _ _ _ E), (bind_run _ _ _ _ _ E').
  assert (forall o, (tenant ← from_occupancy o; mret (o, tenant)) w = (Ok sel, w) ->
    (tenant ← from_occupancy o; mret (o, tenant)) w' = (Ok sel, w')) as Hfrom.
  { intros o H. unfold mbind, M_bind in *. destruct (from_occupancy_cases o w) as [(u & Hun & E1)|[_ E1]]; rewrite E1 in H; [|done].
    rewrite <-Hu in Hun. destruct (from_occupancy_cases o w') as [(u' & Hun' & ->)|[Hun' _]]; rewrite Hun in Hun'; [|done].
    injection Hun' as <-. by injection H as <-. }
  destruct l as [|o l]; [done|]. intros H. apply bind_Ok in H as (x & w1 & Ex & H).
  destruct h as [s|].
  - apply of_option_Ok in Ex as [Ex ->]. rewrite (bind_run _ _ w' x w') by (unfold of_option; by rewrite Ex). by apply Hfrom.
  - apply bind_Ok in Ex as (? & w2 & Er & Ex). apply require_Ok in Er as [Hb ->]. apply ret_Ok in Ex as [<- ->].
    rewrite (bind_run _ _ w' o w'); [by apply Hfrom|]. by rewrite (bind_run _ _ w' tt w') by (unfold require; by rewrite Hb).
Qed.

Lemma content_text (r : report_row) text text' u l p : _content_matches r (PStr text) u l p = Ok true ->
  _content_matches r (PStr text') u l p = Ok (bool_decide (py_strip text' = py_strip text)).
Proof.
  unfold _content_matches. cbn. intros [= H]. to_prop. match goal with H : rp_text r = _ |- _ => rewrite H end.
  rewrite (bool_decide_eq_true_2 (rp_unit r = u)), (bool_decide_eq_true_2 (rp_selected_location r = l)) by done.
  match goal with H : Bool.eqb _ _ = true |- _ => rewrite H end. rewrite !andb_true_r. f_equal. apply bool_decide_ext. naive_solver.
Qed.

(** C18: retrying a submission is safe.  Once a report was created, the same request answers
    with the same report, as already there, and writes nothing; the same client reference
    with another text is a conflict, and writes nothing either. *)
Theorem report_retry_safe user header text loc ref priv w r w' :
  table_wf (reports w) -> create_report user header text loc ref priv w = (Ok (r, 201), w') ->
  forall text', create_report user header text' loc ref priv w' =
    (if bool_decide (py_strip text' = py_strip text) then Ok (r, 200) else Err ClientRefConflict, w').
Proof.
  intros Hwf H text'. unfold create_report in *. apply bind_Ok in H as (sel & v & Es & H).
  destruct (resolved_lives _ _ _ _ _ Es) as [-> _]. apply bind_Ok in H as (found & v & Ef & H).
  unfold query_first in Ef. apply gets_Ok in Ef as [Ef <-]. apply bind_Ok in H as (l & v & El & H). apply of_option_Ok in El as [-> <-].
  apply bind_Ok in H as ([r0 b] & v & Er & H). apply ret_Ok in H as [[= -> Hb] <-]. destruct b; [|discriminate].
  unfold try_except in Er. destruct (submit_report_idempotent _ _ _ _ _ _ _ _) as [[x|e] v2] eqn:E;
    [injection Er as -> ->|destruct e; discriminate].
  pose proof (submit_homes user sel.1~>oc_unit (PStr text) (pk l) [] ref priv w) as Hh. unfold keeps in Hh. rewrite E in Hh. cbn in Hh.
  rewrite (bind_run _ _ _ _ _ (resolve_same_homes _ _ _ _ _ Hh Es)).
  destruct Hh as (_ & _ & Hl). rewrite (bind_run _ _ v (Some l) v) by (unfold query_first, gets; by rewrite Hl, Ef).
  rewrite (bind_run _ _ v l v) by done. apply submit_idempotent_created in E as [E1 E2]; [|done].
  unfold try_except, mbind at 1, M_bind at 1. rewrite (submit_again _ _ _ _ _ _ _ _ _ E1), (content_text _ _ text' _ _ _ E2).
  by case_bool_decide.
Qed.
End Retries.

(** ** Who may rate *)

Section Ratings.
Implicit Types (w : world).

Lemma first_sole {R} P (t : table R) o : rows t !! pk o = Some (val o) -> P o = true ->
  (forall k r, rows t !! k = Some r -> P (Obj k r) = true -> k = pk o) -> first P t = Some o.
Proof.
  intros Ho HP Hu. destruct (first P t) as [x|] eqn:E.
  - apply first_Some in E as [Hx HPx]. destruct x as [j r], o as [k s]. cbn in *. pose proof (Hu _ _ Hx HPx) as ->. by simplify_eq.
  - pose proof (proj1 (first_None _ _) E _ _ Ho) as H. destruct o. cbn in *. congruence.
Qed.

Lemma lives_occupancy w user b : lives_at w user b -> exists o, active_occupancy user b w = (Ok (Some o), w) /\
  valid_occupancy w user (Some (pk o)) = true.
Proof.
  intros (o & u & (Ho & Hu & Ha) & Hun & Hb). unfold active_occupancy, gets.
  destruct (first _ (occupancies w)) as [x|] eqn:E.
  - exists x. split; [done|]. apply first_Some in E as [Hx HP]. to_prop. unfold valid_occupancy. apply exists_true.
    exists (pk x), (val x). split; [done|]. cbn. rewrite !bool_decide_eq_true_2 by done. by cbn.
  - exfalso. pose proof (proj1 (first_None _ _) E _ _ Ho) as H. cbn in H. unfold find in H. rewrite Hun in H. cbn in H.
    by rewrite Hu, Ha, Hb, !bool_decide_eq_true_2 in H by done.
Qed.

Definition rated_by w (user proposal : Z) : bool :=
  exists_ (fun r => (r~>ra_resident ==? user) && (r~>ra_proposal ==? Some proposal)) (ratings w).
(** What a rating that is accepted does. *)
Lemma rate_standalone user p satisfied comment w :
  rows (proposals w) !! pk p = Some (val p) -> pr_case (val p) = None -> lives_at w user (pr_building (val p)) ->
  py_len (py_strip comment) <= 500 ->
  let run := rate_completed_proposal user (pk p) (PBool satisfied) (PStr comment) w in
  if (pr_status (val p) ==? PCompleted) && bool_decide (is_Some (pr_completed_at (val p))) && negb (rated_by w user (pk p))
  then exists r a, run = (Ok (Obj (next (ratings w)) r), w <| ratings ::= insert_row r |> <| audits := a |>) /\
    ra_resident r = user /\ ra_proposal r = Some (pk p) /\ ra_satisfied r = satisfied
  else exists msg, run = (Err (ValidationError msg), w).
Proof.
  intros Hp Hc Hlives Hlen run. subst run. unfold rate_completed_proposal, atomic.
  rewrite (bind_run _ _ w (Some p) w).
  2: { unfold query_first, gets. erewrite first_sole; [reflexivity|exact Hp|cbn; by rewrite !bool_decide_eq_true_2|].
       intros k r _ H. cbn in H. by to_prop. }
  rewrite (bind_run _ _ w p w) by done.
  destruct ((pr_status (val p) ==? PCompleted) && bool_decide (is_Some (pr_completed_at (val p)))) eqn:Ec; cbn [andb].
  2: { eexists. reflexivity. }
  rewrite (bind_run _ _ w tt w) by done. rewrite (bind_run _ _ w satisfied w) by done.
  rewrite (bind_run _ _ w (py_strip comment) w).
  2: { rewrite (bind_run _ _ w tt w); [done|]. unfold require. by rewrite (proj2 (Z.leb_le _ _) Hlen). }
  destruct (lives_occupancy _ _ _ Hlives) as (o & Eo & Hv). rewrite (bind_run _ _ _ _ _ Eo), (bind_run _ _ w o w) by done.
  rewrite (bind_run _ _ w (rated_by w user (pk p)) w) by done. destruct (rated_by w user (pk p)) eqn:Er; cbn [negb].
  { eexists. reflexivity. }
  rewrite (bind_run _ _ w tt w) by done. rewrite (bind_run _ _ w (w_now w) w) by done.
  set (r := Rating user None (Some (pk p)) satisfied (py_strip comment) (w_now w)).
  rewrite (bind_run _ _ w (Obj (next (ratings w)) r) (w <| ratings ::= insert_row r |>)).
  2: { unfold insert_rating. rewrite (bind_run _ _ w tt w) by done. apply insert_unless_Ok. split; [|done].
       intros k x Hx. unfold rated_by in Er. rewrite exists_false in Er. specialize (Er k x Hx). cbn in *. exact Er. }
  eexists r, _. erewrite bind_run; [|apply record_audit_Ok; split; [|split; reflexivity]].
  - split; [reflexivity|done].
  - unfold attribution_ok. cbn - [valid_occupancy]. unfold valid_occupancy in *. cbn in *. by rewrite Hv.
Qed.

(** C23: the button works.  A resident admitted to the building of a proposal may rate it
    exactly when the page says so: with a comment of at most 500 characters the rating is
    stored, and the page no longer offers it; otherwise the answer is a 400 or a 404, and
    nothing is written. *)
Theorem can_rate_exact user header p satisfied comment w sel b :
  rows (proposals w) !! pk p = Some (val p) ->
  resolve_api_occupancy user header w = (Ok sel, w) -> pr_building (val p) = tc_building_id sel.2 ->
  py_len (py_strip (default "" comment)) <= 500 -> get_can_rate user p w = (Ok b, w) ->
  match rate_proposal user header (pk p) satisfied comment w with
  | (Ok (k, proposal, s), w') => b = true /\ proposal = pk p /\ s = satisfied /\
      (exists r, rows (ratings w') !! k = Some r /\ ra_resident r = user /\ ra_proposal r = Some (pk p)) /\
      get_can_rate user p w' = (Ok false, w')
  | (Err e, w') => b = false /\ w' = w /\
      exists status code, problem_exception_handler e = Some (status, code) /\ (status = 400 \/ status = 404)
  end.
Proof.
  intros Hp Hsel Hb Hlen Hcan. destruct (resolved_lives _ _ _ _ _ Hsel) as [_ Hlives]. rewrite <-Hb in Hlives.
  unfold get_can_rate, has_current_user_rating in *. rewrite (bind_run _ _ w (rated_by w user (pk p)) w) in Hcan by done.
  injection Hcan as <-. unfold rate_proposal. rewrite (bind_run _ _ _ _ _ Hsel).
  destruct (pr_case (val p) ==? None) eqn:Ec.
  - to_prop. rewrite (bind_run _ _ w (Some p) w).
    2: { unfold query_first, gets. erewrite first_sole; [reflexivity|exact Hp|cbn; by rewrite !bool_decide_eq_true_2|].
         intros k r _ H. cbn in H. by to_prop. }
    rewrite (bind_run _ _ w p w) by done. unfold as_problem, try_except, mbind at 1, M_bind at 1.
    pose proof (rate_standalone user p satisfied (default "" comment) w Hp Ec Hlives Hlen) as Hr. cbv zeta in Hr. cbn [andb].
    destruct (_ && _ && negb (rated_by w user (pk p))).
    + destruct Hr as (r & a & -> & Hu & Hrp & Hs). cbn. split_and!; try done.
      * exists r. split_and!; try done. apply lookup_inserted.
      * unfold mbind, M_bind, query_exists, gets, mret, M_ret. cbn. rewrite exists_inserted by (cbn; by rewrite !bool_decide_eq_true_2).
        by rewrite andb_false_r.
    + destruct Hr as (msg & ->). cbn. split_and!; try done. exists 400, "validation_failed". auto.
  - cbn [andb]. rewrite (bind_run _ _ w None w).
    { split_and!; try done. exists 404, "not_found". auto. }
    unfold query_first, gets. do 2 f_equal. apply first_None. intros k r Hk. cbn.
    destruct (k ==? pk p) eqn:Ek; [|done]. to_prop. subst. rewrite Hp in Hk. injection Hk as <-.
    rewrite (bool_decide_eq_false_2 (pr_case (val p) = None)) by done. by rewrite andb_false_r.
Qed.
End Ratings.

(** ** Preferences *)

Section Preferences.
Context (by_event_code : list (obj preference_row) -> list (obj preference_row)).
Implicit Types (w : world).

(** One row per user and code. *)
Record prefs_ok (t : table preference_row) : Prop := {
  po_wf : table_wf t;
  po_once : forall j k a b, rows t !! j = Some a -> rows t !! k = Some b ->
    pf_user a = pf_user b -> pf_event_code a = pf_event_code b -> j = k }.
(** The channels the user gets an event on. *)
Definition flags w (user : Z) (code : string) : bool * bool :=
  match first (pref_for user code) (preferences w) with
  | None => (true, true)
  | Some p => (p~>pf_email_enabled, p~>pf_push_enabled)
  end.
Lemma enabled_flags w user code :
  email_enabled_for user code w = (Ok (flags w user code).1, w) /\ push_enabled_for user code w = (Ok (flags w user code).2, w).
Proof.
  unfold email_enabled_for, push_enabled_for, flags, query_first, gets, mbind, M_bind, mret, M_ret. by destruct (first _ _).
Qed.
Definition item_flags (code : string) (fl : bool * bool) (i : preference_item) : bool * bool :=
  if it_event_code i ==? code then (default fl.1 (it_email i), default fl.2 (it_push i)) else fl.
Definition wanted (user : Z) (items : list preference_item) (u : Z) (code : string) (fl : bool * bool) : bool * bool :=
  if u ==? user then foldl (item_flags code) fl items else fl.

Lemma pref_for_true u c (o : obj preference_row) : pref_for u c o = true <-> pf_user (val o) = u /\ pf_event_code (val o) = c.
Proof. unfold pref_for. rewrite andb_true_iff, !bool_decide_eq_true. done. Qed.
Lemma pref_first t u c p : prefs_ok t -> rows t !! pk p = Some (val p) -> pref_for u c p = true -> first (pref_for u c) t = Some p.
Proof.
  intros Ht Hp HP. apply first_sole; [done|done|]. intros k r Hk Hr. apply pref_for_true in HP as [H1 H2], Hr as [H3 H4].
  cbn in *.
  apply (po_once _ Ht k (pk p) r (val p)); congruence.
Qed.

Lemma wanted_one w user i u c t fl fl' : 
  flags w u c = fl -> flags (w <| preferences := t |>) u c = fl' ->
  (if (u ==? user) && (it_event_code i ==? c) then fl' = (default fl.1 (it_email i), default fl.2 (it_push i)) else fl' = fl) ->
  flags (w <| preferences := t |>) u c = wanted user [i] u c (flags w u c).
Proof. intros -> ->. unfold wanted, item_flags. cbn. by repeat case_bool_decide. Qed.

Lemma add_item user i w : prefs_ok (preferences w) -> first (pref_for user (it_event_code i)) (preferences w) = None ->
  let t := insert_row (with_item i (Preference user (it_event_code i) true true)) (preferences w) in
  prefs_ok t /\ forall u c, flags (w <| preferences := t |>) u c = wanted user [i] u c (flags w u c).
Proof.
  intros Ht Hno t. pose proof (proj1 (first_None _ _) Hno) as Hn. split.
  - split; [apply insert_row_wf, Ht|]. subst t. intros j k a b. rewrite !lookup_insert_row.
    repeat case_decide; intros; simplify_eq; try done; [| |by eapply (po_once _ Ht)]; cbn in *; exfalso;
      match goal with H : rows _ !! _ = Some _ |- _ => specialize (Hn _ _ H) end;
      apply not_true_iff_false in Hn; apply Hn, pref_for_true; cbn; by split.
  - intros u c. eapply wanted_one; [reflexivity|reflexivity|]. unfold flags. cbn - [first insert_row]. subst t.
    rewrite first_insert_row by apply Ht.
    destruct (first (pref_for u c) (preferences w)) as [x|] eqn:Ex.
    + destruct (_ && _) eqn:E; [|done]. to_prop. subst. congruence.
    + unfold pref_for. cbn. rewrite (bool_decide_ext (user = u) (u = user)) by (split; congruence). by destruct (_ && _).
Qed.

Lemma update_item user i w p : prefs_ok (preferences w) -> rows (preferences w) !! pk p = Some (val p) ->
  pref_for user (it_event_code i) p = true ->
  let t := update (pk p) (with_item i) (preferences w) in
  prefs_ok t /\ forall u c, flags (w <| preferences := t |>) u c = wanted user [i] u c (flags w u c).
Proof.
  intros Ht Hp HP t. split.
  - split; [apply update_wf, Ht|]. subst t. intros j k a b. rewrite !lookup_update. intros Ha Hb H1 H2.
    assert (forall n x, (if decide (pk p = n) then with_item i <$> rows (preferences w) !! n else rows (preferences w) !! n) = Some x ->
      exists y, rows (preferences w) !! n = Some y /\ pf_user y = pf_user x /\ pf_event_code y = pf_event_code x) as Hsame.
    { intros n x Hx. case_decide; [|eauto]. apply fmap_Some in Hx as (y & Hy & ->). eauto. }
    destruct (Hsame _ _ Ha) as (a' & Ha' & ? & ?), (Hsame _ _ Hb) as (b' & Hb' & ? & ?).
    apply (po_once _ Ht j k a' b'); congruence.
  - intros u c. eapply wanted_one; [reflexivity|reflexivity|]. unfold flags. cbn - [first update]. subst t.
    rewrite first_update by done. pose proof (proj1 (pref_for_true _ _ _) HP) as [Hu Hc].
    destruct (first (pref_for u c) (preferences w)) as [x|] eqn:Ex; cbn - [first].
    + apply first_Some in Ex as [Hx [Hxu Hxc]%pref_for_true]. unfold updated. case_decide as E.
      * rewrite E, Hp in Hx. injection Hx as Hv. cbn. rewrite <-Hv in *. by rewrite !bool_decide_eq_true_2 by congruence.
      * destruct (_ && _) eqn:Eb; [|done]. to_prop. subst. destruct E. apply (po_once _ Ht _ _ _ _ Hx Hp); congruence.
    + destruct (_ && _) eqn:Eb; [|done]. to_prop. subst. pose proof (pref_first _ _ _ _ Ht Hp HP). congruence.
Qed.

Lemma apply_item_run user i w : prefs_ok (preferences w) -> exists t, prefs_ok t /\
  apply_item user i w = (Ok tt, w <| preferences := t |>) /\
  forall u c, flags (w <| preferences := t |>) u c = wanted user [i] u c (flags w u c).
Proof.
  intros Ht. unfold apply_item. rewrite (bind_run _ _ w _ w) by reflexivity.
  destruct (select (pref_for user (it_event_code i)) (preferences w)) as [|p [|q l]] eqn:Es.
  - assert (first (pref_for user (it_event_code i)) (preferences w) = None) as Ef by (unfold first; by rewrite Es).
    destruct (add_item user i w Ht Ef) as [Ht' Hf]. eexists. split; [exact Ht'|]. split; [|exact Hf].
    erewrite bind_run; [|apply insert_unless_Ok; split; [|split; reflexivity]; intros k x Hx; exact (proj1 (first_None _ _) Ef k x Hx)].
    by destruct w.
  - assert (p ∈ select (pref_for user (it_event_code i)) (preferences w)) as [Hp HP]%elem_of_select by (rewrite Es; left).
    destruct (update_item user i w p Ht Hp HP) as [Ht' Hf]. eexists. split; [exact Ht'|]. split; [|exact Hf]. done.
  - exfalso. assert (p ∈ select (pref_for user (it_event_code i)) (preferences w) /\ q ∈ select (pref_for user (it_event_code i)) (preferences w))
      as [[Hp HP]%elem_of_select [Hq HQ]%elem_of_select] by (rewrite Es; split; [left|right; left]).
    apply pref_for_true in HP as [H1 H2], HQ as [H3 H4]. pose proof (po_once _ Ht _ _ _ _ Hp Hq ltac:(congruence) ltac:(congruence)) as E.
    pose proof (NoDup_pk_select (pref_for user (it_event_code i)) (preferences w)) as Hn. rewrite Es in Hn. cbn in Hn.
    apply NoDup_cons in Hn as [Hn _]. apply Hn. rewrite E. left.
Qed.

Lemma apply_items_run user items w : prefs_ok (preferences w) -> exists t, prefs_ok t /\
  for_each (apply_item user) items w = (Ok tt, w <| preferences := t |>) /\
  forall u c, flags (w <| preferences := t |>) u c = wanted user items u c (flags w u c).
Proof.
  revert w. induction items as [|i items IH]; intros w Ht.
  { exists (preferences w). split; [done|]. split; [by destruct w|]. intros u c. unfold wanted. by case_match; destruct w. }
  destruct (apply_item_run user i w Ht) as (t1 & Ht1 & E1 & F1).
  specialize (IH (w <| preferences := t1 |>)). destruct (IH Ht1) as (t & Ht' & E & F). exists t. split; [done|].
  cbn [for_each]. rewrite (bind_run _ _ _ _ _ E1). split; [exact E|]. intros u c. etrans; [exact (F u c)|]. rewrite F1.
  unfold wanted. by case_match.
Qed.

(** C24: preferences are patched as a whole.  With one row per user and code, a request either
    fails with a 400 or a 403 and writes nothing, or every item of it is applied, a later
    one over an earlier one: the notification queue asks the flags it set, finds the others
    as they were, and those of other users too. *)
Theorem preferences_patched user items w :
  prefs_ok (preferences w) ->
  match patch_preferences by_event_code user items w with
  | (Ok _, w') => (exists t, prefs_ok t /\ w' = w <| preferences := t |>) /\
      forall u code,
        email_enabled_for u code w' = (Ok (wanted user items u code (flags w u code)).1, w') /\
        push_enabled_for u code w' = (Ok (wanted user items u code (flags w u code)).2, w')
  | (Err e, w') => w' = w /\ exists status code, problem_exception_handler e = Some (status, code) /\ (status = 400 \/ status = 403)
  end.
Proof.
  intros Ht. unfold patch_preferences. destruct (active_occupancies_list user w) as (l & El & _). rewrite (bind_run _ _ _ _ _ El).
  destruct (l ==? []) eqn:E0.
  { cbn. split; [done|]. exists 403, "permission_denied". auto. }
  rewrite (bind_run _ _ w tt w) by done.
  assert (forall (f : preference_item -> result unit) l, (forall i, f i = Ok tt \/ exists d, f i = Err (ApiValidationError d)) ->
    (exists ys, rmap f l = Ok ys) \/ exists d, rmap f l = Err (ApiValidationError d)) as Hmap.
  { intros f l0 Hf. induction l0 as [|i l0 [[ys IH]|[d IH]]]; [left; by exists []|..]; cbn; destruct (Hf i) as [->|[d' ->]]; cbn;
      rewrite ?IH; cbn; eauto. }
  assert (exists r, validate_items items = r /\ (r = Ok tt \/ exists d, r = Err (ApiValidationError d))) as (r & Er & Hr).
  { eexists. split; [reflexivity|]. unfold validate_items. destruct items as [|i0 l0]; [by right; eexists|].
    destruct (Hmap validate_item (i0 :: l0)) as [[ys ->]|[d ->]]; cbn; eauto.
    intros i. unfold validate_item. destruct (it_email i), (it_push i); eauto. }
  unfold mbind at 1, M_bind at 1, of_result at 1. rewrite Er.
  destruct Hr as [->|[d ->]]; [|split; [done|exists 400, "validation_failed"; auto]].
  destruct (Hmap check_item items) as [[ys Ey]|[d Ey]].
  { intros i. unfold check_item. repeat case_match; eauto. }
  2: { unfold mbind at 1, M_bind at 1, of_result at 1. rewrite Ey. split; [done|exists 400, "validation_failed"; auto]. }
  rewrite (bind_run _ _ w tt w) by (unfold of_result; by rewrite Ey).
  destruct (apply_items_run user items w Ht) as (t & Ht' & E & F).
  rewrite (bind_run _ _ w tt (w <| preferences := t |>)) by (unfold atomic; by rewrite E).
  split; [by exists t|]. intros u code. rewrite <-F. apply enabled_flags.
Qed.
End Preferences.

(** ** Concrete runs *)

Notation demo_create text := (create_report 2 None text 1 "ref-1" false).
Definition demo_filed : world := (demo_create " leak " demo_home).2.
Definition demo_filed_report : obj report_row :=
  fst (got (demo_stored, 0) (demo_create " leak " demo_home)).
Lemma report_retry_safe_witness :
  demo_create "leak" demo_filed = (Ok (demo_filed_report, 200), demo_filed) /\
  demo_create "flood" demo_filed = (Err ClientRefConflict, demo_filed).
Proof.
  assert (forall text', demo_create text' demo_filed =
    (if bool_decide (py_strip text' = py_strip " leak ") then Ok (demo_filed_report, 200) else Err ClientRefConflict, demo_filed)) as H.
  { refine (report_retry_safe 2 None " leak " 1 "ref-1" false demo_home demo_filed_report demo_filed _ _).
    - apply table_wf_b_true. vm_compute. reflexivity.
    - vm_compute. reflexivity. }
  split; [rewrite (H "leak")|rewrite (H "flood")]; reflexivity.
Defined.

(** A resident of the building of a completed standalone proposal. *)
Definition demo_standing : world :=
  demo_home <| proposals ::= insert_row (Proposal None 2 1 PCompleted None None None "" None (Some 0) None) |>.
Definition demo_standing_proposal : obj proposal_row :=
  Obj 1 (Proposal None 2 1 PCompleted None None None "" None (Some 0) None).

Lemma can_rate_exact_witness :
  exists k t w', rate_proposal 2 None 1 true (Some "thanks") demo_standing = (Ok (k, pk demo_standing_proposal, t), w') /\
    t = true /\ get_can_rate 2 demo_standing_proposal w' = (Ok false, w').
Proof.
  pose proof (can_rate_exact 2 None demo_standing_proposal true (Some "thanks") demo_standing
    (got demo_admitted (resolve_api_occupancy 2 None demo_standing)) true
    ltac:(vm_compute; reflexivity) ltac:(vm_compute; reflexivity) ltac:(vm_compute; reflexivity)
    ltac:(vm_compute; discriminate) ltac:(vm_compute; reflexivity)) as H.
  change (pk demo_standing_proposal) with 1 in *.
  destruct (rate_proposal 2 None 1 true (Some "thanks") demo_standing) as [[[[k p] s]|e] w'].
  - destruct H as (_ & -> & -> & _ & H). by exists k, true, w'.
  - by destruct H.
Defined.

(** User 2 takes only the e-mail of announcements. *)
Definition demo_choice : list preference_item := [
  PrefItem EVENT_ANNOUNCEMENT None (Some false); PrefItem EVENT_TRIAGE_STATUS (Some false) None].
Lemma preferences_patched_witness :
  match patch_preferences (fun l => l) 2 demo_choice demo_home with
  | (Ok _, w') => email_enabled_for 2 EVENT_ANNOUNCEMENT w' = (Ok true, w') /\
      push_enabled_for 2 EVENT_ANNOUNCEMENT w' = (Ok false, w') /\
      email_enabled_for 2 EVENT_TRIAGE_STATUS w' = (Ok false, w') /\
      push_enabled_for 1 EVENT_ANNOUNCEMENT w' = (Ok true, w')
  | (Err _, _) => False
  end.
Proof.
  pose proof (preferences_patched (fun l => l) 2 demo_choice demo_home) as H.
  assert (prefs_ok (preferences demo_home)) as Hok.
  { split; [apply table_wf_b_true; vm_compute; reflexivity|]. intros j k a b Hj.
    assert (rows (preferences demo_home) = ∅) as E by (vm_compute; reflexivity). by rewrite E in Hj. }
  specialize (H Hok). pose proof (eq_refl : is_ok (patch_preferences (fun l => l) 2 demo_choice demo_home).1 = true) as Hr.
  destruct (patch_preferences (fun l => l) 2 demo_choice demo_home) as [[l|e] w']; [|done].
  destruct H as [_ H].
  split_and!; [apply (H 2 EVENT_ANNOUNCEMENT)|apply (H 2 EVENT_ANNOUNCEMENT)|apply (H 2 EVENT_TRIAGE_STATUS)|apply (H 1 EVENT_ANNOUNCEMENT)].
Defined.

(** Other users register devices, read and sign out while user 2 has a report. *)
Definition demo_others : list (Z * api_request) := [
  (1, RegisterDevice "phone" "token" "android" "1.0"); (3, CreateReport None "noise" 1 "ref-1" false);
  (1, InfoReply 1 "not mine"); (1, ReadNotification 1); (3, DeleteDevice "phone"); (1, LogoutAll)].
Notation demo_serve := (serve (CR := demo_crypto) (SG := demo_signing) demo_bucket demo_limits (fun _ => true)
  (fun _ => Some true) demo_path (fun l => l)).
Lemma others_spared_witness :
  rows (devices (demo_serve demo_others demo_filed)) <> ∅ /\
  rows (reports (demo_serve demo_others demo_filed)) !! 1 = rows (reports demo_filed) !! 1.
Proof.
  split; [vm_compute; discriminate|].
  assert (rows (reports demo_filed) !! 1 = Some (val demo_filed_report)) as E by (vm_compute; reflexivity). rewrite E.
  refine (mk_reports _ _ _ (others_spared (CR := demo_crypto) (SG := demo_signing) demo_bucket demo_limits (fun _ => true)
    (fun _ => Some true) demo_path (fun l => l) 2 demo_others demo_filed _ _) 1 _ E _).
  - split; apply table_wf_b_true; vm_compute; reflexivity.
  - repeat constructor; discriminate.
  - vm_compute. reflexivity.
Defined.
