(* ===== verification/Staff.v ===== *)
(** * Staff: the manager's workspace

    [web/staff.py], which picks the membership a request acts under,
    [web/views/exceptions.py], the review of trust-critical failures, and the stages of
    accountability and deadline tones of [web/views/staff_common.py].  Labels, sidebars and
    templates are layout. *)

From S2P Require Import OutboxWorker.
From S2P Require Import Prelude Table PyStr Schema Store Accounts Evidence Proposals Fund Settlements.
From S2P Require Import Notifications Books Integrity Tenancy Explorer Inbox ResidentPages.
Open Scope Z_scope.

(** ** The membership of a request *)

(** What a request says about the building: the two form fields and the session's value. *)
Record staff_request := StaffRequest {
  sq_get_building : option string; sq_post_building : option string; sq_session : option pyval }.

(** [a or b] on form fields *)
Definition field_or (a b : option string) : option string :=
  match a with Some (String _ _) => a | _ => b end.
Definition candidate_of (rq : staff_request) (building_id : option string) : option pyval :=
  match building_id with
  | Some b => Some (PStr b)
  | None =>
    match field_or (sq_get_building rq) (sq_post_building rq) with
    | Some b => Some (PStr b)
    | None => sq_session rq
    end
  end.

(** The membership whose key the candidate is. *)
Definition pick (memberships : list (obj membership_row)) (candidate : option pyval) : option (obj membership_row) :=
  c ← candidate;
  cid ← int_of c;
  List.find (fun m => pk m ==? cid) memberships.

Section Workspace.
(** [order_by("building__name", "pk")] under the database's collation. *)
Context (by_building_name : list (obj membership_row) -> list (obj membership_row)).

Definition user_memberships (user : Z) : DB (list (obj membership_row)) :=
  all ← query memberships (fun m => (m~>mb_user ==? user) && m~>mb_active);
  mret (by_building_name all).

(** The membership, all of them, and the session's new value. *)
Definition resolve_active_management (user : Z) (rq : staff_request) (building_id : option string) :
    DB (obj membership_row * list (obj membership_row) * pyval) :=
  memberships ← user_memberships user;
  match memberships with
  | [] => raise (PermissionDenied "An active management membership is required.")
  | default_ :: _ =>
    let selected := default default_ (pick memberships (candidate_of rq building_id)) in
    mret (selected, memberships, PInt (pk selected))
  end.
Definition require_management_context (user : Z) (rq : staff_request) := resolve_active_management user rq None.
(** The membership and the session's value after it. *)
Definition switch_building_redirect (user : Z) (rq : staff_request) : DB (obj membership_row * pyval) :=
  r ← resolve_active_management user rq (field_or (sq_post_building rq) (sq_get_building rq));
  mret (r.1.1, PInt (pk r.1.1)).

(** ** Exceptions *)

Definition RESPONSE_ACTION : string := "exception.review".
Definition EXCEPTION_TARGET_TYPES : list (string * string) := [
  ("integrity_mismatch", "PublishedLedgerEntry"); ("failed_outbox", "BlockchainOutboxEvent");
  ("quarantined_upload", "QuarantinedUpload")].
Definition LIST_CAP : nat := 50.

(** Responses by target, newest first; the audit log is written in the order of its keys. *)
Definition grouped (rows_ : list (obj audit_row)) : gmap string (list (obj audit_row)) :=
  foldl (fun g row => <[row~>au_target_id := default [] (g !! row~>au_target_id) ++ [row]]> g) ∅ rows_.
Definition _responses_for (target_type : string) (target_ids : list Z) : DB (gmap string (list (obj audit_row))) :=
  found ← query audits (fun a => (a~>au_action ==? RESPONSE_ACTION) && (a~>au_target_type ==? target_type) &&
    bool_decide (a~>au_target_id ∈ zstr <$> target_ids));
  mret (grouped (rev found)).
Definition has_key {A} (key : string) (g : gmap string A) : bool := bool_decide (is_Some (g !! key)).

(** [list.index] *)
Definition index_of (k : Z) (l : list Z) : Z := Z.of_nat (default 0%nat (fst <$> list_find (fun x => x = k) l)).

Record exceptions_page := ExceptionsPage {
  ex_mismatch_items : list (obj ledger_row * bool);
  ex_outbox_items : list (obj outbox_row * bool); ex_outbox_total : nat; ex_outbox_capped : bool;
  ex_quarantine_items : list (obj quarantined_row * bool * bool); ex_quarantine_total : nat;
  ex_quarantine_capped : bool }.

(** The column [updated_at] of an event, which the model does not keep. *)
Context (updated_at : obj outbox_row -> Z).

Definition exceptions_of (building_id : Z) : DB exceptions_page :=
  mismatch_ids ← mismatched_ledger_entry_ids building_id 30;
  found ← query ledger (fun e => bool_decide (pk e ∈ mismatch_ids));
  let mismatch_entries := order_by (fun e => index_of (pk e) mismatch_ids) found in
  failed ← query outbox (fun e => (e~>ev_status ==? FAILED) && (e~>ev_building ==? building_id));
  let outbox_events := take LIST_CAP (newest_first updated_at failed) in
  uploads ← query quarantined (fun u => u~>qu_building ==? Some building_id);
  let quarantined_ := take LIST_CAP (rev uploads) in
  mismatch_responses ← _responses_for "PublishedLedgerEntry" (pk <$> mismatch_entries);
  outbox_responses ← _responses_for "BlockchainOutboxEvent" (pk <$> outbox_events);
  quarantine_responses ← _responses_for "QuarantinedUpload" (pk <$> quarantined_);
  now ← timezone_now;
  mret (ExceptionsPage
    ((fun e => (e, has_key (zstr (pk e)) mismatch_responses)) <$> mismatch_entries)
    ((fun e => (e, has_key (zstr (pk e)) outbox_responses)) <$> outbox_events)
    (length failed) (bool_decide (length outbox_events < length failed)%nat)
    ((fun u => (u, has_key (zstr (pk u)) quarantine_responses, u~>qu_retention_expires_at <=? now)) <$> quarantined_)
    (length uploads) (bool_decide (length quarantined_ < length uploads)%nat)).
Definition exception_list (user : Z) (rq : staff_request) : DB exceptions_page :=
  ctx ← require_management_context user rq;
  exceptions_of ctx.1.1~>mb_building.

Inductive exception_target :=
  | TargetEntry (e : obj ledger_row)
  | TargetEvent (e : obj outbox_row)
  | TargetUpload (u : obj quarantined_row).
Definition _get_target (kind : string) (k building_id : Z) : DB exception_target :=
  if kind ==? "integrity_mismatch" then
    found ← gets (fun w => first (fun e => (pk e ==? k) &&
      exists_ (fun p => (pk p ==? e~>le_proposal) && (p~>pr_building ==? building_id)) (proposals w)) (ledger w));
    e ← of_option Http404 found; mret (TargetEntry e)
  else if kind ==? "failed_outbox" then
    found ← query_first outbox (fun e => (pk e ==? k) && (e~>ev_building ==? building_id));
    e ← of_option Http404 found; mret (TargetEvent e)
  else if kind ==? "quarantined_upload" then
    found ← query_first quarantined (fun u => (pk u ==? k) && (u~>qu_building ==? Some building_id));
    u ← of_option Http404 found; mret (TargetUpload u)
  else raise Http404.
(** [cleared], or [expired] of an upload *)
Definition over (target : exception_target) : DB bool :=
  match target with
  | TargetEntry e =>
    latest ← latest_verification_observation (pk e);
    mret match latest with Some o => negb (o~>ob_result ==? VMismatch) | None => false end
  | TargetEvent e => mret (negb (e~>ev_status ==? FAILED))
  | TargetUpload u => now ← timezone_now; mret (u~>qu_retention_expires_at <=? now)
  end.

Inductive review_outcome :=
  | Recorded
  | ReviewPage (target : exception_target) (over : bool) (responses : list (obj audit_row)).
(** [posted]: the field [note] of a POST, [None] for a GET. *)
Definition exception_review (user : Z) (rq : staff_request) (kind : string) (k : Z) (posted : option string) :
    DB review_outcome :=
  target_type ← of_option Http404 (assoc kind EXCEPTION_TARGET_TYPES);
  ctx ← require_management_context user rq;
  target ← _get_target kind k ctx.1.1~>mb_building;
  let note := py_strip (default "" posted) in
  if truthy note then
    record_audit user (Some (pk ctx.1.1)) RESPONSE_ACTION target_type (zstr k) "accepted"
      [("kind", PStr kind); ("note", PStr note)] ;;
    mret Recorded
  else
    over_ ← over target;
    responses ← _responses_for target_type [k];
    mret (ReviewPage target over_ (default [] (responses !! zstr k))).
End Workspace.

(** ** Accountability *)

Definition deadline_tone (deadline_at : option Z) (now : Z) : string :=
  match deadline_at with
  | None => "neutral"
  | Some d => if d <? now then "overdue" else if d <=? now + hours 48 then "soon" else "neutral"
  end.

Definition ACCOUNTABILITY_STAGES : list string :=
  ["report"; "triage"; "work"; "proposal"; "settlement"; "publication"].
(** The stages with their states. *)
Definition accountability_chain (current : option string) (blocked pending : bool) : result (list (string * string)) :=
  index ← (match current with
    | None => Ok (length ACCOUNTABILITY_STAGES)
    | Some key => match list_find (fun k => k = key) ACCOUNTABILITY_STAGES with
                  | Some (i, _) => Ok i
                  | None => Err (ValueError "list.index(x): x not in list")
                  end
    end);
  Ok (imap (fun i key => (key,
    if (i ==? index) && blocked then "blocked"
    else if (i ==? index) && pending then "pending"
    else if i ==? index then "current"
    else if bool_decide (i < index)%nat then "complete"
    else "upcoming")) ACCOUNTABILITY_STAGES).

(** [_related_or_none] along a foreign key. *)
Definition related {R} (T : world -> table R) (k : option Z) : DB (option (obj R)) :=
  match k with None => mret None | Some k => query_pk T k end.
Definition version_event (proposal : obj proposal_row) : DB (option (obj outbox_row)) :=
  version ← related versions proposal~>pr_current_version;
  related outbox ((fun v => v~>ve_outbox_event) <$> version).
#[export] Instance evidence_level_eq_dec : EqDecision evidence_level_t.
Proof. solve_decision. Defined.
Definition confirmed (event : obj outbox_row) : bool :=
  (evidence_level event~>ev_status ==? CHAIN_CONFIRMED) || (event~>ev_status ==? CONFIRMED).
Definition _publication_still_pending (entry : option (obj ledger_row)) (proposal : option (obj proposal_row))
    (settlement : option (obj settlement_row)) : DB bool :=
  let settlement_event (s : option (obj settlement_row)) := related outbox (s ≫= (fun s => s~>se_outbox_event)) in
  let proposal_event (p : option (obj proposal_row)) := match p with Some p => version_event p | None => mret None end in
  entry_settlement ← related settlements ((fun e => e~>le_settlement) <$> entry);
  e1 ← settlement_event entry_settlement;
  entry_proposal ← related proposals ((fun e => e~>le_proposal) <$> entry);
  e2 ← proposal_event entry_proposal;
  e3 ← settlement_event settlement;
  e4 ← proposal_event proposal;
  let events := option_list e1 ++ option_list e2 ++ option_list e3 ++ option_list e4 in
  mret (bool_decide (events = []) || negb (forallb confirmed events)).

(** The record a page passes; any other object is a report. *)
Inductive source :=
  | SEntry (e : obj ledger_row)
  | SSettlement (s : obj settlement_row)
  | SProposal (p : obj proposal_row)
  | SCase (c : obj case_row)
  | SReport.
Definition stage := (option string * bool * bool)%type.
(** [REJECTED] is no status of a proposal. *)
Definition authorized (s : proposal_status) : bool := (s ==? PInProgress) || (s ==? PCompleted).

(** Views pass the source and, the page of a proposal, [publication_pending]. *)
Definition resolve_accountability_stage (source_ : source) (publication_pending : option bool) : DB stage :=
  let entry := match source_ with SEntry e => Some e | _ => None end in
  let settlement := match source_ with SSettlement s => Some s | _ => None end in
  let proposal := match source_ with SProposal p => Some p | _ => None end in
  let case := match source_ with SCase c => Some c | _ => None end in
  proposal ← (match proposal, settlement with
    | None, Some s => p ← get_row proposals "Proposal" s~>se_proposal; mret (Some p)
    | p, _ => mret p
    end);
  case ← (match case, proposal with None, Some p => related cases p~>pr_case | c, _ => mret c end);
  proposal ← (match proposal, case with
    | None, Some c => query_first proposals (fun p => p~>pr_case ==? Some (pk c))
    | p, _ => mret p
    end);
  settlement ← (match settlement, proposal with None, Some p => settlement_of (pk p) | s, _ => mret s end);
  entry ← (match entry, proposal with
    | None, Some p => query_first ledger (fun l => l~>le_proposal ==? pk p)
    | e, _ => mret e
    end);
  entry ← (match entry, case with
    | None, Some c => query_first ledger (fun l => l~>le_case ==? Some (pk c))
    | e, _ => mret e
    end);
  match entry with
  | Some _ =>
    pending ← (match publication_pending with
      | Some b => mret b
      | None => _publication_still_pending entry proposal settlement
      end);
    mret (if pending : bool then (Some "publication", false, true) else (None, false, false))
  | None =>
    let settled_ := match settlement with Some _ => true | None => false end in
    mret (match case, proposal with
      | Some c, None =>
        if settled_ then (Some "publication", false, false)
        else if c~>ca_completed_at ==? None then (Some "work", false, false) else (Some "settlement", false, false)
      | _, Some p =>
        if settled_ then (Some "publication", false, false)
        else if authorized p~>pr_status then (Some "settlement", false, false)
        else if p~>pr_status ==? PNotProceeding then (Some "proposal", true, false)
        else (Some "proposal", false, false)
      | None, None => (Some "report", false, false)
      end)
  end.
Definition accountability_chain_for (source_ : source) (publication_pending : option bool) : DB (list (string * string)) :=
  s ← resolve_accountability_stage source_ publication_pending;
  of_result (accountability_chain s.1.1 s.1.2 s.2).

(** [publication_pending] of [proposal_detail] ([web/views/proposals.py]). *)
Definition version_pending (proposal : obj proposal_row) : DB bool :=
  version ← Explorer.current_version_of proposal;
  event ← event_of ((fun v => v~>ve_outbox_event) <$> version);
  mret match event with Some e => (e~>ev_status ==? PENDING) || (e~>ev_status ==? SUBMITTED) | None => false end.
Definition proposal_stages (proposal : obj proposal_row) : DB (list (string * string)) :=
  pending ← version_pending proposal;
  accountability_chain_for (SProposal proposal) (Some pending).

(** ** Facts *)

Section Memberships.
Context (by_building_name : list (obj membership_row) -> list (obj membership_row)).
Context (Hname : forall l, by_building_name l ≡ₚ l).
Implicit Types (w : world).

(** An active membership of the user, as stored. *)
Definition manager_of w (user : Z) (m : obj membership_row) : Prop :=
  rows (memberships w) !! pk m = Some (val m) /\ mb_user (val m) = user /\ mb_active (val m) = true.
Lemma manager_of_eq w user x y : manager_of w user x -> manager_of w user y -> pk x = pk y -> x = y.
Proof. intros (Hx & _) (Hy & _) E. rewrite E, Hy in Hx. destruct x, y. cbn in *. by simplify_eq. Qed.

Lemma user_memberships_run user w : exists l, user_memberships by_building_name user w = (Ok l, w) /\
  forall m, m ∈ l <-> manager_of w user m.
Proof.
  eexists. split; [reflexivity|]. intros m. rewrite Hname, elem_of_select. unfold manager_of.
  rewrite andb_true_iff, bool_decide_eq_true. naive_solver.
Qed.
Lemma pick_Some l c m : pick l c = Some m -> m ∈ l.
Proof.
  unfold pick. destruct c as [c|]; [cbn|done]. destruct (int_of c) as [k|]; [cbn|done].
  intros [Hm _]%find_some. by apply list_elem_of_In.
Qed.
Lemma pick_own w user l c x : (forall m, m ∈ l <-> manager_of w user m) -> manager_of w user x -> int_of c = Some (pk x) ->
  pick l (Some c) = Some x.
Proof.
  intros Hl Hx Hc. unfold pick. cbn. rewrite Hc. cbn. destruct (List.find _ l) as [y|] eqn:E.
  - apply find_some in E as [Hy E]. to_prop. f_equal. eapply manager_of_eq; [|exact Hx|done]. by apply Hl, list_elem_of_In.
  - eapply find_none in E; [|by apply list_elem_of_In, Hl]. cbn in E. by to_prop.
Qed.

Lemma resolve_management user rq bid w :
  (exists m l, resolve_active_management by_building_name user rq bid w = (Ok (m, l, PInt (pk m)), w) /\
    (forall x, x ∈ l <-> manager_of w user x) /\ manager_of w user m) \/
  (resolve_active_management by_building_name user rq bid w =
    (Err (PermissionDenied "An active management membership is required."), w) /\ forall m, ~ manager_of w user m).
Proof.
  destruct (user_memberships_run user w) as (l & E & Hl). unfold resolve_active_management. rewrite (bind_run _ _ _ _ _ E).
  destruct l as [|d l]; [right; split; [done|]; intros m Hm%Hl; by apply elem_of_nil in Hm|].
  left. eexists _, _. split; [reflexivity|]. split; [done|]. apply Hl.
  destruct (pick (d :: l) _) as [m|] eqn:Ep; [by apply pick_Some in Ep|left].
Qed.

(** A manager acts under a membership of his own.  Whatever the form and the session say,
    the membership picked is an active one of the user, it is the one they name when that
    one is the user's, the session remembers it, and a later request that names none stays
    with it; only a user without active memberships is refused. *)
Theorem management_own user rq bid w :
  match resolve_active_management by_building_name user rq bid w with
  | (Ok (m, ms, session), w') => w' = w /\ manager_of w user m /\ (forall x, x ∈ ms <-> manager_of w user x) /\
      (forall c x, candidate_of rq bid = Some c -> int_of c = Some (pk x) -> manager_of w user x -> m = x) /\
      forall rq', candidate_of rq' None = Some session ->
        resolve_active_management by_building_name user rq' None w = (Ok (m, ms, session), w)
  | (Err e, w') => w' = w /\ e = PermissionDenied "An active management membership is required." /\ forall x, ~ manager_of w user x
  end.
Proof.
  destruct (user_memberships_run user w) as (l & E & Hl). unfold resolve_active_management at 1. rewrite (bind_run _ _ _ _ _ E).
  destruct l as [|d l]; [split_and!; try done; intros m Hm%Hl; by apply elem_of_nil in Hm|].
  assert (manager_of w user (default d (pick (d :: l) (candidate_of rq bid)))) as Hm.
  { apply Hl. destruct (pick (d :: l) _) as [m|] eqn:Ep; [by apply pick_Some in Ep|left]. }
  cbn - [pick candidate_of]. split_and!; try done.
  - intros c x Hc Hk Hx. rewrite Hc. by rewrite (pick_own w user) with (x := x).
  - intros rq' Hrq. unfold resolve_active_management. rewrite (bind_run _ _ _ _ _ E), Hrq.
    by rewrite (pick_own w user) with (x := default d (pick (d :: l) (candidate_of rq bid))).
Qed.
End Memberships.

Section Exceptions.
Context (by_building_name : list (obj membership_row) -> list (obj membership_row)).
Context (Hname : forall l, by_building_name l ≡ₚ l) (updated_at : obj outbox_row -> Z).
Implicit Types (w : world).

Lemma grouped_lookup l key : grouped l !! key =
  match List.filter (fun r => r~>au_target_id ==? key) l with [] => None | l => Some l end.
Proof.
  unfold grouped. induction l as [|r l IH] using rev_ind; [done|]. rewrite foldl_app. cbn.
  rewrite List.filter_app. cbn. case_bool_decide as E.
  - subst. rewrite lookup_insert_eq, IH. by destruct (List.filter _ l).
  - by rewrite lookup_insert_ne, IH, app_nil_r.
Qed.

(** A response to one target, read back. *)
Definition response_row (target_type : string) (k : Z) (a : audit_row) : Prop :=
  au_action a = RESPONSE_ACTION /\ au_target_type a = target_type /\ au_target_id a = zstr k.
Lemma responses_for_insert tt k a tt' ids w : table_wf (audits w) -> response_row tt k a -> exists g g',
  _responses_for tt' ids w = (Ok g, w) /\
  _responses_for tt' ids (w <| audits ::= insert_row a |>) = (Ok g', w <| audits ::= insert_row a |>) /\
  forall j, j ∈ ids -> g' !! zstr j = (if (tt' ==? tt) && (j ==? k)
    then Some (Obj (next (audits w)) a :: default [] (g !! zstr j)) else g !! zstr j).
Proof.
  intros Hwf (Ha & Htt & Hk). eexists _, _. split; [reflexivity|]. split; [reflexivity|]. intros j Hj. cbn [audits set].
  rewrite select_insert_row by done. cbn. rewrite Ha, Htt, Hk, (bool_decide_eq_true_2 (RESPONSE_ACTION = _)) by done. cbn [andb].
  rewrite (bool_decide_ext (tt = tt') (tt' = tt)) by done. destruct (tt' ==? tt); cbn [andb]; [|by rewrite app_nil_r].
  case_bool_decide as Hin.
  - rewrite rev_app_distr, !grouped_lookup. cbn. rewrite ?Hk, (bool_decide_ext (zstr k = zstr j) (j = k)).
    2: { split; [by intros ->%zstr_inj|by intros ->]. }
    case_bool_decide; [|done]. by destruct (List.filter _ _).
  - rewrite app_nil_r. rewrite (bool_decide_eq_false_2 (j = k)); [done|]. intros ->. apply Hin. apply list_elem_of_fmap. eauto.
Qed.
Lemma reviewed_insert tt k a tt' ids w : table_wf (audits w) -> response_row tt k a -> exists g g',
  _responses_for tt' ids w = (Ok g, w) /\
  _responses_for tt' ids (w <| audits ::= insert_row a |>) = (Ok g', w <| audits ::= insert_row a |>) /\
  forall j, j ∈ ids -> has_key (zstr j) g' = has_key (zstr j) g || ((tt' ==? tt) && (j ==? k)).
Proof.
  intros Hwf Ha. destruct (responses_for_insert tt k a tt' ids w Hwf Ha) as (g & g' & E & E' & H). exists g, g'. split; [done|]. split; [done|].
  intros j Hj. unfold has_key. rewrite (H j Hj). destruct (_ && _); [by rewrite orb_true_r, bool_decide_eq_true_2 by eauto|by rewrite orb_false_r].
Qed.

Lemma mismatched_audits b n w t : mismatched_ledger_entry_ids b n (w <| audits := t |>) =
  ((mismatched_ledger_entry_ids b n w).1, w <| audits := t |>).
Proof.
  change (still_mismatched [] (take n (mismatches w b)) (w <| audits := t |>) =
    ((still_mismatched [] (take n (mismatches w b)) w).1, w <| audits := t |>)).
  generalize (@nil Z). induction (take n _) as [|o l IH]; intros ids; [done|]. cbn [still_mismatched].
  case_bool_decide; [apply IH|]. rewrite !(bind_run _ _ _ _ _ (latest_of_run _ _)).
  change (latest_of (w <| audits := t |>)) with (latest_of w). destruct (latest_of w _); [|apply IH]. case_bool_decide; apply IH.
Qed.

(** The page with one target reviewed. *)
Definition reviewed_too {A} (same : bool) (k : Z) (l : list (obj A * bool)) : list (obj A * bool) :=
  (fun i => (i.1, i.2 || (same && (pk i.1 ==? k)))) <$> l.
Definition mark (target_type : string) (k : Z) (p : exceptions_page) : exceptions_page :=
  ExceptionsPage (reviewed_too ("PublishedLedgerEntry" ==? target_type) k (ex_mismatch_items p))
    (reviewed_too ("BlockchainOutboxEvent" ==? target_type) k (ex_outbox_items p)) (ex_outbox_total p) (ex_outbox_capped p)
    ((fun i => (i.1.1, i.1.2 || (("QuarantinedUpload" ==? target_type) && (pk i.1.1 ==? k)), i.2)) <$> ex_quarantine_items p)
    (ex_quarantine_total p) (ex_quarantine_capped p).

Lemma exceptions_insert tt k a b w : table_wf (audits w) -> response_row tt k a -> exists page,
  exceptions_of updated_at b w = (Ok page, w) /\
  exceptions_of updated_at b (w <| audits ::= insert_row a |>) = (Ok (mark tt k page), w <| audits ::= insert_row a |>).
Proof.
  intros Hwf Ha. unfold exceptions_of. destruct (mismatched_run b 30 w) as (ids & E & _).
  assert (mismatched_ledger_entry_ids b 30 (w <| audits ::= insert_row a |>) = (Ok ids, w <| audits ::= insert_row a |>)) as E'.
  { change (w <| audits ::= insert_row a |>) with (w <| audits := insert_row a (audits w) |>). by rewrite mismatched_audits, E. }
  rewrite (bind_run _ _ _ _ _ E), (bind_run _ _ _ _ _ E').
  do 3 (rewrite (bind_run _ _ w _ w) by reflexivity; rewrite (bind_run _ _ (w <| audits ::= insert_row a |>) _ _) by reflexivity).
  cbn [ledger outbox quarantined set].
  set (es := order_by _ _). set (fs := take LIST_CAP (newest_first _ _)). set (us := take LIST_CAP (rev _)).
  destruct (reviewed_insert tt k a "PublishedLedgerEntry" (pk <$> es) w Hwf Ha) as (g1 & g1' & R1 & R1' & H1).
  destruct (reviewed_insert tt k a "BlockchainOutboxEvent" (pk <$> fs) w Hwf Ha) as (g2 & g2' & R2 & R2' & H2).
  destruct (reviewed_insert tt k a "QuarantinedUpload" (pk <$> us) w Hwf Ha) as (g3 & g3' & R3 & R3' & H3).
  rewrite (bind_run _ _ _ _ _ R1), (bind_run _ _ _ _ _ R1'), (bind_run _ _ _ _ _ R2), (bind_run _ _ _ _ _ R2'),
    (bind_run _ _ _ _ _ R3), (bind_run _ _ _ _ _ R3').
  eexists. split; [reflexivity|]. unfold timezone_now, gets, mbind, M_bind, mret, M_ret, mark, reviewed_too.
  cbn [ex_mismatch_items ex_outbox_items ex_outbox_total ex_outbox_capped ex_quarantine_items ex_quarantine_total ex_quarantine_capped].
  rewrite <-!list_fmap_compose. do 2 f_equal. f_equal; apply list_fmap_ext; intros i x Hx%list_elem_of_lookup_2; cbn;
    rewrite ?H1, ?H2, ?H3 by (apply list_elem_of_fmap; eauto); done.
Qed.

(** Another audit row changes neither the targets nor whether they are over. *)
Lemma target_cases kind k b w a :
  (exists t, _get_target kind k b w = (Ok t, w) /\
    _get_target kind k b (w <| audits ::= insert_row a |>) = (Ok t, w <| audits ::= insert_row a |>)) \/
  _get_target kind k b w = (Err Http404, w).
Proof.
  unfold _get_target. repeat case_bool_decide; try (by right);
    unfold query_first, gets, of_option, mbind, M_bind; cbn; destruct (first _ _) as [o|];
      first [left; eexists; split; reflexivity|right; reflexivity].
Qed.
(** The record reviewed is one of the building. *)
Definition belongs w (b k : Z) (t : exception_target) : Prop :=
  match t with
  | TargetEntry e => pk e = k /\ rows (ledger w) !! k = Some (val e) /\ entry_in w b k
  | TargetEvent e => pk e = k /\ rows (outbox w) !! k = Some (val e) /\ ev_building (val e) = b
  | TargetUpload u => pk u = k /\ rows (quarantined w) !! k = Some (val u) /\ qu_building (val u) = Some b
  end.
Lemma target_belongs kind k b w t w' : _get_target kind k b w = (Ok t, w') -> belongs w b k t.
Proof.
  unfold _get_target. repeat case_bool_decide; intros Hrun; inv_db; inv_query; to_prop; subst; cbn; split_and!; try done.
  match goal with H : exists_ _ _ = true |- _ => apply exists_true in H as (j & p & Hp & Hb) end. to_prop. cbn in *. subst.
  by eexists _, _.
Qed.
Lemma over_cases t w a : exists o, over t w = (Ok o, w) /\ over t (w <| audits ::= insert_row a |>) = (Ok o, w <| audits ::= insert_row a |>).
Proof. destruct t; eexists; split; reflexivity. Qed.
Lemma resolve_audits user rq m l w a :
  resolve_active_management by_building_name user rq None w = (Ok (m, l, PInt (pk m)), w) ->
  resolve_active_management by_building_name user rq None (w <| audits ::= insert_row a |>) =
    (Ok (m, l, PInt (pk m)), w <| audits ::= insert_row a |>).
Proof.
  unfold resolve_active_management, user_memberships, query, gets, mbind, M_bind, mret, M_ret. cbn [memberships set].
  destruct (by_building_name _) as [|d ms]; [done|]. congruence.
Qed.

(** C26: a response clears nothing, and names its author.  Recording a response to a
    trust-critical failure writes one audit row, under the name of the user and a membership
    of the user in the building of the record; every building's list of exceptions stays as
    it was, but for the mark on that record; and the page of the record stays as it was, but
    for the response, which is shown first.  An empty note records nothing, and the records
    of other buildings do not exist. *)
Theorem review_recorded user rq kind k note w :
  table_wf (audits w) ->
  match exception_review by_building_name user rq kind k (Some note) w with
  | (Ok Recorded, w') => exists m target_type a target over_ rs,
      assoc kind EXCEPTION_TARGET_TYPES = Some target_type /\ truthy (py_strip note) = true /\ manager_of w user m /\
      w' = w <| audits ::= insert_row a |> /\ au_actor a = user /\ au_membership a = Some (pk m) /\ response_row target_type k a /\
      belongs w (mb_building (val m)) k target /\
      exception_review by_building_name user rq kind k None w = (Ok (ReviewPage target over_ rs), w) /\
      exception_review by_building_name user rq kind k None w' = (Ok (ReviewPage target over_ (Obj (next (audits w)) a :: rs)), w') /\
      forall b, exists page, exceptions_of updated_at b w = (Ok page, w) /\ exceptions_of updated_at b w' = (Ok (mark target_type k page), w')
  | (Ok (ReviewPage _ _ _), w') => w' = w /\ truthy (py_strip note) = false
  | (Err e, w') => w' = w /\ (e = Http404 \/ e = PermissionDenied "An active management membership is required.")
  end.
Proof.
  intros Hwf. unfold exception_review. destruct (assoc kind EXCEPTION_TARGET_TYPES) as [tt|] eqn:Ek; [|split; [done|by left]].
  rewrite !(bind_run _ _ w tt w) by done. change (default "" (Some note)) with note.
  change (truthy (py_strip (default "" None))) with false. cbn [andb].
  destruct (resolve_management by_building_name Hname user rq None w) as [(m & l & E & _ & Hm)|[E Hno]].
  2: { unfold require_management_context, mbind at 1, M_bind at 1. rewrite E. split; [done|by right]. }
  unfold require_management_context. rewrite !(bind_run _ _ _ _ _ E). cbn [fst snd].
  set (a := Audit user (Some (pk m)) RESPONSE_ACTION tt (zstr k) "accepted"
    (mk_dict [("kind", PStr kind); ("note", PStr (py_strip note))])).
  destruct (target_cases kind k (mb_building (val m)) w a) as [(t & T & T')|T].
  2: { unfold mbind at 1, M_bind at 1. rewrite T. split; [done|by left]. }
  rewrite !(bind_run _ _ _ _ _ T). destruct (over_cases t w a) as (o & O & O').
  destruct (truthy (py_strip note)) eqn:En.
  2: { rewrite !(bind_run _ _ _ _ _ O). done. }
  erewrite (bind_run (record_audit _ _ _ _ _ _ _)) by (apply record_audit_Ok; split; [|split; reflexivity];
    unfold attribution_ok; apply exists_true; destruct Hm as (? & ? & Hact); exists (pk m), (val m); split; [done|];
    cbn; by rewrite Hact, !bool_decide_eq_true_2).
  assert (response_row tt k a) as Ha by done.
  destruct (responses_for_insert tt k a tt [k] w Hwf Ha) as (g & g' & G & G' & Hg).
  specialize (Hg k (list_elem_of_here _ _)). rewrite !bool_decide_eq_true_2 in Hg by done. cbn [andb] in Hg.
  exists m, tt, a, t, o, (default [] (g !! zstr k)). split_and!; try done.
  - by eapply target_belongs.
  - rewrite !(bind_run _ _ _ _ _ O), !(bind_run _ _ _ _ _ G). done.
  - apply (resolve_audits _ _ _ _ _ a) in E. set (w' := w <| audits ::= insert_row a |>) in *.
    rewrite (bind_run _ _ w' tt w') by done. rewrite !(bind_run _ _ _ _ _ E). cbn [fst snd].
    rewrite (bind_run _ _ _ _ _ T'), (bind_run _ _ _ _ _ O'), (bind_run _ _ _ _ _ G'). by rewrite Hg.
  - intros b. by apply exceptions_insert.
Qed.
End Exceptions.

Section Stages.
Implicit Types (w : world).

(** A settled proposal as its settlement leaves it: its ledger entry, and the events of the
    settlement and of the current version. *)
Record published_as w (p : obj proposal_row) (s : obj settlement_row) (es ev : obj outbox_row) : Prop := {
  pa_proposal : rows (proposals w) !! pk p = Some (val p);
  pa_settlement : first (fun x => x~>se_proposal ==? pk p) (settlements w) = Some s;
  pa_entry : exists l, first (fun x => x~>le_proposal ==? pk p) (ledger w) = Some l /\ l~>le_settlement = pk s;
  pa_event : s~>se_outbox_event = Some (pk es) /\ rows (outbox w) !! pk es = Some (val es);
  pa_version : exists v, p~>pr_current_version = Some (pk v) /\ rows (versions w) !! pk v = Some (val v) /\
    v~>ve_outbox_event = pk ev /\ rows (outbox w) !! pk ev = Some (val ev) }.

Lemma found {R} (t : table R) o : rows t !! pk o = Some (val o) -> find (pk o) t = Some o.
Proof. unfold find. intros ->. by destruct o. Qed.
Lemma related_run {R} (T : world -> table R) w o : rows (T w) !! pk o = Some (val o) -> related T (Some (pk o)) w = (Ok (Some o), w).
Proof. intros H. unfold related, query_pk, gets. by rewrite (found _ _ H). Qed.
Lemma confirmed_spec e : confirmed e = true <-> e~>ev_status = CONFIRMED.
Proof. unfold confirmed. destruct e~>ev_status; cbn; naive_solver. Qed.

Lemma version_event_run w p s es ev : published_as w p s es ev -> version_event p w = (Ok (Some ev), w).
Proof.
  intros [_ _ _ _ (v & Hv & Hrv & He & Hev)]. unfold version_event. rewrite Hv, (bind_run _ _ _ _ _ (related_run versions _ _ Hrv)).
  cbn [fmap option_fmap option_map]. rewrite He. by apply related_run.
Qed.
Lemma pending_run w p s es ev l : published_as w p s es ev -> rows (ledger w) !! pk l = Some (val l) ->
  l~>le_settlement = pk s -> l~>le_proposal = pk p ->
  _publication_still_pending (Some l) (Some p) (Some s) w = (Ok (negb (confirmed es && confirmed ev)), w).
Proof.
  intros Hp Hl Hs Hlp. pose proof (version_event_run _ _ _ _ _ Hp) as Hv. destruct Hp as [Hp Hfs _ [He Hre] _].
  apply first_Some in Hfs as [Hrs _]. unfold _publication_still_pending. cbn [fmap option_fmap option_map mbind option_bind].
  rewrite Hs, Hlp, (bind_run _ _ _ _ _ (related_run settlements _ _ Hrs)). cbn [mbind option_bind].
  rewrite He, (bind_run _ _ _ _ _ (related_run outbox _ _ Hre)), (bind_run _ _ _ _ _ (related_run proposals _ _ Hp)).
  rewrite (bind_run _ _ _ _ _ Hv), (bind_run _ _ _ _ _ (related_run outbox _ _ Hre)), (bind_run _ _ _ _ _ Hv).
  cbn. by destruct (confirmed es), (confirmed ev).
Qed.
Lemma related_any {R} (T : world -> table R) k w : exists o, related T k w = (Ok o, w).
Proof. destruct k; by eexists. Qed.

(** Whichever of the two pages asks, the entry decides. *)
Lemma resolve_settled w p s es ev b source_ : published_as w p s es ev -> source_ = SSettlement s \/ source_ = SProposal p ->
  resolve_accountability_stage source_ b w =
  (Ok (if default (negb (confirmed es && confirmed ev)) b then (Some "publication", false, true) else (None, false, false)), w).
Proof.
  intros Hp Hsrc. pose proof Hp as [Hrp Hfs (l & Hfl & Hls) _ _]. pose proof (first_Some _ _ _ Hfs) as [Hrs Hsp].
  pose proof (first_Some _ _ _ Hfl) as [Hrl Hlp]. to_prop. unfold resolve_accountability_stage.
  destruct (related_any cases p~>pr_case w) as [c Hc].
  destruct Hsrc as [-> | ->].
  - rewrite (bind_run _ _ w (Some p) w) by (unfold get_row, gets, of_option, mbind, M_bind; by rewrite Hsp, (found _ _ Hrp)).
    rewrite (bind_run _ _ _ _ _ Hc), (bind_run _ _ w (Some p) w) by done. rewrite (bind_run _ _ w (Some s) w) by done.
    rewrite (bind_run _ _ w (Some l) w) by (unfold query_first, gets; by rewrite Hfl). rewrite (bind_run _ _ w (Some l) w) by done.
    destruct b as [b|]; [done|]. by rewrite (bind_run _ _ _ _ _ (pending_run _ _ _ _ _ _ Hp Hrl Hls Hlp)).
  - rewrite (bind_run _ _ w (Some p) w) by done.
    rewrite (bind_run _ _ _ _ _ Hc), (bind_run _ _ w (Some p) w) by done.
    rewrite (bind_run _ _ w (Some s) w) by (unfold settlement_of, query_first, gets; by rewrite Hfs).
    rewrite (bind_run _ _ w (Some l) w) by (unfold query_first, gets; by rewrite Hfl). rewrite (bind_run _ _ w (Some l) w) by done.
    destruct b as [b|]; [done|]. by rewrite (bind_run _ _ _ _ _ (pending_run _ _ _ _ _ _ Hp Hrl Hls Hlp)).
Qed.

Definition all_complete (chain : list (string * string)) : Prop := Forall (fun x => x.2 = "complete") chain.
Lemma chain_complete (b : bool) : exists chain,
  of_result (accountability_chain (if b then Some "publication" else None) false b) = (fun w : world => (Ok chain, w)) /\
  (all_complete chain <-> b = false).
Proof.
  destruct b; eexists; (split; [reflexivity|]); unfold all_complete; cbn.
  - split; [|done]. rewrite !Forall_cons. cbn. intros (_ & _ & _ & _ & _ & H & _). done.
  - split; [done|]. intros _. repeat constructor.
Qed.

(** C40: two pages of one settled proposal.  The page of the settlement calls it complete once
    the events of the settlement and of the current version are both confirmed on the
    chain; the page of the proposal as soon as the event of its version is no longer
    pending or submitted, whether it failed, mismatched or was only signed locally, and
    whatever became of the settlement's event. *)
Theorem settled_stages p s es ev w : published_as w p s es ev ->
  exists of_settlement of_proposal,
    accountability_chain_for (SSettlement s) None w = (Ok of_settlement, w) /\
    proposal_stages p w = (Ok of_proposal, w) /\
    (all_complete of_settlement <-> es~>ev_status = CONFIRMED /\ ev~>ev_status = CONFIRMED) /\
    (all_complete of_proposal <-> ev~>ev_status <> PENDING /\ ev~>ev_status <> SUBMITTED).
Proof.
  intros Hp. pose proof Hp as [_ _ _ _ (v & Hv & Hrv & He & Hev)].
  set (waits := (ev~>ev_status ==? PENDING) || (ev~>ev_status ==? SUBMITTED)).
  assert (version_pending p w = (Ok waits, w)) as Ew.
  { unfold version_pending, Explorer.current_version_of. rewrite Hv. unfold get_row, event_of, gets, of_option, mbind, M_bind.
    rewrite (found _ _ Hrv). cbn. rewrite He. unfold get_row, gets, of_option, mbind, M_bind. by rewrite (found _ _ Hev). }
  destruct (chain_complete (negb (confirmed es && confirmed ev))) as (c1 & E1 & C1), (chain_complete waits) as (c2 & E2 & C2).
  exists c1, c2. unfold proposal_stages, accountability_chain_for. rewrite (bind_run _ _ _ _ _ Ew).
  rewrite (bind_run _ _ _ _ _ (resolve_settled _ _ _ _ _ None _ Hp (or_introl eq_refl))).
  rewrite (bind_run _ _ _ _ _ (resolve_settled _ _ _ _ _ (Some waits) _ Hp (or_intror eq_refl))). cbn [default id].
  split_and!.
  - destruct (negb _); cbn [fst snd] in *; by rewrite E1.
  - destruct waits; cbn [fst snd] in *; by rewrite E2.
  - rewrite C1, negb_false_iff, andb_true_iff, !confirmed_spec. done.
  - rewrite C2. unfold waits. rewrite orb_false_iff, !bool_decide_eq_false. done.
Qed.
End Stages.

(** ** Concrete runs *)

(** User 1 manages buildings 1 and 2, and managed building 3; an upload of building 2 was
    quarantined. *)
Definition demo_offices : world :=
  notify_world
    <| memberships ::= insert_row (Membership 1 1 true) |>
    <| memberships ::= insert_row (Membership 1 2 true) |>
    <| memberships ::= insert_row (Membership 1 3 false) |>
    <| quarantined ::= insert_row (Quarantined 5 (Some 2) "quote.pdf" "application/pdf" 10 "sha" "infected" None "" (days 30)) |>.
Definition demo_at (building : string) : staff_request := StaffRequest (Some building) None (Some (PInt 1)).
Definition demo_second : obj membership_row := Obj 2 (Membership 1 2 true).
Definition demo_resolved (building : string) : result (obj membership_row * list (obj membership_row) * pyval) :=
  (resolve_active_management id 1 (demo_at building) None demo_offices).1.

Lemma management_own_witness :
  exists ms, demo_resolved "2" = Ok (demo_second, ms, PInt 2) /\
    (forall x, x ∈ ms <-> manager_of demo_offices 1 x) /\
    resolve_active_management id 1 (StaffRequest None (Some "") (Some (PInt 2))) None demo_offices <> (Ok (demo_second, ms, PInt 2), demo_offices) /\
    resolve_active_management id 1 (StaffRequest None None (Some (PInt 2))) None demo_offices = (Ok (demo_second, ms, PInt 2), demo_offices).
Proof.
  assert (is_ok (demo_resolved "2") = true) as Hok by (vm_compute; reflexivity). unfold demo_resolved in *.
  pose proof (management_own id (fun l => Permutation_refl l) 1 (demo_at "2") None demo_offices) as H.
  destruct (resolve_active_management id 1 (demo_at "2") None demo_offices) as [[[[m ms] s]|e] w'] eqn:E; [|done].
  destruct H as (-> & _ & Hms & Hpick & Hstay).
  assert (m = demo_second) as ->.
  { apply (Hpick (PStr "2") demo_second); [reflexivity|reflexivity|]. split; [vm_compute; reflexivity|by split]. }
  assert (s = PInt 2) as ->.
  { assert ((resolve_active_management id 1 (demo_at "2") None demo_offices).1 = Ok (demo_second, [demo_manager_1; demo_second], PInt 2)) as R
      by (vm_compute; reflexivity). rewrite E in R. by injection R. }
  exists ms. split; [done|]. split; [done|]. split; [vm_compute; discriminate|]. by apply Hstay.
Defined.

Lemma review_recorded_witness :
  exists w', exception_review id 1 (demo_at "2") "quarantined_upload" 1 (Some " Deleted it ") demo_offices = (Ok Recorded, w') /\
    (exists p p', exceptions_of (fun _ => 0) 2 demo_offices = (Ok p, demo_offices) /\ exceptions_of (fun _ => 0) 2 w' = (Ok p', w') /\
      (snd <$> (fst <$> ex_quarantine_items p)) = [false] /\ (snd <$> (fst <$> ex_quarantine_items p')) = [true]) /\
    length (objs (audits w')) = 1%nat.
Proof.
  assert (table_wf (audits demo_offices)) as Hwf by (apply table_wf_b_true; vm_compute; reflexivity).
  pose proof (review_recorded id (fun l => Permutation_refl l) (fun _ => 0) 1 (demo_at "2") "quarantined_upload" 1 " Deleted it "
    demo_offices Hwf) as H.
  pose proof (eq_refl : (exception_review id 1 (demo_at "2") "quarantined_upload" 1 (Some " Deleted it ") demo_offices).1 = Ok Recorded) as R.
  destruct (exception_review id 1 (demo_at "2") "quarantined_upload" 1 (Some " Deleted it ") demo_offices) as [r w']. cbn in R. subst r.
  destruct H as (m & tt & a & t & o & rs & Htt & _ & _ & -> & _ & _ & _ & _ & _ & _ & Hb). exists (demo_offices <| audits ::= insert_row a |>).
  split; [done|]. destruct (Hb 2) as (p & E & E').
  assert (exists q, exceptions_of (fun _ => 0) 2 demo_offices = (Ok q, demo_offices) /\ (snd <$> (fst <$> ex_quarantine_items q)) = [false] /\
    (snd <$> (fst <$> ex_quarantine_items (mark "QuarantinedUpload" 1 q))) = [true]) as (q & Eq & Q1 & Q2).
  { eexists. split; [vm_compute; reflexivity|]. split; reflexivity. }
  injection Htt as <-. rewrite E in Eq. injection Eq as ->. split.
  - exists q, (mark "QuarantinedUpload" 1 q). done.
  - vm_compute. reflexivity.
Defined.

(** Anchoring is disabled: the events of the settled proposal are signed locally. *)
Definition demo_shown_proposal : obj proposal_row :=
  default (Obj 0 (Proposal None 0 0 PDraft None None None "" None None None)) (find 1 (proposals demo_delivered)).
Definition demo_stored_event (k : Z) : obj outbox_row := default (Obj 0 demo_row) (find k (outbox demo_delivered)).
Lemma settled_stages_witness :
  exists of_settlement of_proposal,
    accountability_chain_for (SSettlement demo_settlement) None demo_delivered = (Ok of_settlement, demo_delivered) /\
    proposal_stages demo_shown_proposal demo_delivered = (Ok of_proposal, demo_delivered) /\
    ~ all_complete of_settlement /\ all_complete of_proposal.
Proof.
  destruct (settled_stages demo_shown_proposal demo_settlement (demo_stored_event 2) (demo_stored_event 1) demo_delivered)
    as (c1 & c2 & E1 & E2 & H1 & H2).
  - split; [vm_compute; reflexivity|vm_compute; reflexivity| | |].
    + eexists. split; vm_compute; reflexivity.
    + split; vm_compute; reflexivity.
    + eexists (Obj 1 (default (Version 0 0 0 "" "" "" None None "" PNone "" 0 0) (rows (versions demo_delivered) !! 1))).
      split_and!; vm_compute; reflexivity.
  - exists c1, c2. split; [exact E1|]. split; [exact E2|].
    assert (ev_status (val (demo_stored_event 2)) = LOCAL /\ ev_status (val (demo_stored_event 1)) = LOCAL) as [S1 S2]
      by (split; vm_compute; reflexivity).
    split; [intros [Hx _]%H1; congruence|apply H2; split; congruence].
Defined.
