(* ===== verification/Exports.v ===== *)
(** * Exports: the auditor's CSV files

    [web/views/exports.py]: the five tables a manager may export, as the text Python's
    [csv.writer] writes of them. *)

From S2P Require Import OutboxWorker.
From S2P Require Import Prelude Table PyStr Schema Timestamps Store Accounts Canonical Evidence Proposals Fund.
From S2P Require Import Books Integrity Tenancy Explorer Worker Inbox Staff.
Open Scope Z_scope.

(** ** Cells *)

Definition cr : ascii := chr 13.
Definition lf : ascii := chr 10.
Definition comma : ascii := ","%char.
Definition FORMULA_PREFIXES : list ascii := ["="; "+"; "-"; "@"; chr 9; cr]%char.

Section Cells.
(** [str] of containers. *)
Context (py_repr : pyval -> string).

Definition py_text (value : pyval) : string :=
  match value with
  | PStr s => s
  | PInt z => zstr z
  | PBool b => if b then "True" else "False"
  | v => py_repr v
  end.
Definition neutralize_cell (value : pyval) : string :=
  match value with
  | PNone => ""
  | v =>
    match py_text v with
    | String c _ as text => if bool_decide (c ∈ FORMULA_PREFIXES) then String "'" text else text
    | text => text
    end
  end.
End Cells.

(** ** [csv.writer] in its default dialect *)

(** The characters that make a field quoted. *)
Definition special (c : ascii) : bool :=
  Ascii.eqb c comma || Ascii.eqb c quote_ || Ascii.eqb c cr || Ascii.eqb c lf.
Fixpoint has_special (s : string) : bool :=
  match s with EmptyString => false | String c s => special c || has_special s end.
Fixpoint doubled (s : string) : string :=
  match s with
  | EmptyString => EmptyString
  | String c s => if Ascii.eqb c quote_ then String quote_ (String quote_ (doubled s)) else String c (doubled s)
  end.
Definition quoted_field (s : string) : string := String quote_ (doubled s +:+ String quote_ EmptyString).
Definition field (s : string) : string := if has_special s then quoted_field s else s.
(** A row of one empty field is quoted. *)
Definition writerow (fields : list string) : string :=
  match fields with
  | [EmptyString] => quoted_field ""
  | _ => join "," (List.map field fields)
  end +:+ String cr (String lf EmptyString).

Section Exports.
Context (py_repr : pyval -> string).
(** Columns the model does not keep: when an audit event and a version of a document were
    created. *)
Context (audit_created_at document_created_at : Z -> Z).

Definition _csv_stream (header : list string) (rows : list (list pyval)) : string :=
  let neutral := List.map (neutralize_cell py_repr) in
  join "" (List.map writerow (neutral (List.map PStr header) :: List.map neutral rows)).

(** ** Rows *)

Definition opt_int (o : option Z) : pyval := match o with Some z => PInt z | None => PNone end.
Definition isoformat_or_empty (o : option Z) : pyval := match o with Some t => PStr (datetime_text "T" t) | None => PStr "" end.
Definition level_str (l : evidence_level_t) : string :=
  match l with
  | LevelPending => "PENDING" | LOCAL_SIGNED => "LOCAL_SIGNED" | CHAIN_CONFIRMED => "CHAIN_CONFIRMED" | LevelMismatch => "MISMATCH"
  end.

Definition audit_header : list string :=
  ["id"; "created_at"; "actor_id"; "membership_id"; "action"; "target_type"; "target_id"; "result"].
Definition audit_of (building_id : Z) (w : world) (a : obj audit_row) : bool :=
  match a~>au_membership with
  | Some m => exists_ (fun o => (pk o ==? m) && (o~>mb_building ==? building_id)) (memberships w)
  | None => false
  end.
Definition audit_cells (a : obj audit_row) : list pyval :=
  [PInt (pk a); PStr (datetime_str (audit_created_at (pk a))); PInt a~>au_actor; opt_int a~>au_membership;
   PStr a~>au_action; PStr a~>au_target_type; PStr a~>au_target_id; PStr a~>au_result].
Definition _audit_event_rows (building_id : Z) : DB (list (list pyval)) :=
  gets (fun w => audit_cells <$> select (audit_of building_id w) (audits w)).

Definition fund_header : list string :=
  ["id"; "entry_type"; "amount_vnd"; "evidence_hash"; "recorder_membership_id"; "source_key"; "recorded_at"].
Definition fund_entry_of (building_id : Z) (w : world) (e : obj fund_entry_row) : bool :=
  exists_ (fun f => (pk f ==? e~>fe_fund) && (f~>fu_building ==? building_id)) (funds w).
Definition fund_cells (e : obj fund_entry_row) : list pyval :=
  [PInt (pk e); PStr (entry_type_str e~>fe_entry_type); PInt e~>fe_amount_vnd; PStr e~>fe_evidence_hash;
   opt_int e~>fe_recorder; PStr e~>fe_source_key; isoformat_or_empty (Some e~>fe_recorded_at)].
Definition _fund_entry_rows (building_id : Z) : DB (list (list pyval)) :=
  gets (fun w => fund_cells <$> select (fund_entry_of building_id w) (fund_entries w)).

Definition document_header : list string :=
  ["id"; "document_id"; "version"; "filename"; "content_type"; "byte_size"; "sha256"; "scan_status"; "uploader_id"; "created_at"].
Definition document_of (building_id : Z) (w : world) (v : obj doc_version_row) : bool :=
  exists_ (fun d => (pk d ==? v~>dv_document) && (d~>dc_building ==? building_id)) (documents w).
Definition document_cells (v : obj doc_version_row) : list pyval :=
  [PInt (pk v); PInt v~>dv_document; PInt v~>dv_version; PStr v~>dv_filename; PStr v~>dv_content_type; PInt v~>dv_byte_size;
   PStr v~>dv_sha256; PStr v~>dv_scan_status; PInt v~>dv_uploader; PStr (datetime_str (document_created_at (pk v)))].
Definition _document_rows (building_id : Z) : DB (list (list pyval)) :=
  gets (fun w => document_cells <$> select (document_of building_id w) (doc_versions w)).

Definition outbox_header : list string :=
  ["id"; "event_id"; "event_type"; "payload_hash"; "status"; "evidence_level"; "transaction_hash"; "chain_confirmed_block";
   "signer_address"; "created_at"; "confirmed_at"].
Definition outbox_cells (e : obj outbox_row) : list pyval :=
  [PInt (pk e); PStr e~>ev_event_id; PInt e~>ev_event_type; PStr e~>ev_payload_hash; PStr (outbox_status_str e~>ev_status);
   PStr (level_str (evidence_level e~>ev_status)); PStr e~>ev_transaction_hash; opt_int e~>ev_chain_confirmed_block;
   PStr e~>ev_signer_address; isoformat_or_empty (Some e~>ev_created_at); isoformat_or_empty e~>ev_confirmed_at].
Definition _outbox_rows (building_id : Z) : DB (list (list pyval)) :=
  gets (fun w => outbox_cells <$> select (fun e => e~>ev_building ==? building_id) (outbox w)).

Definition observation_header : list string := ["id"; "published_entry_id"; "result"; "details"; "observed_at"].
(** [details or notes or ""]: there is no [notes] *)
Definition details_cell (details : pyval) : pyval :=
  match details with
  | PNone | PBool false | PInt 0 | PStr EmptyString | PList [] | PDict [] => PStr ""
  | PDict _ as d => PStr (py_repr d)
  | v => v
  end.
Definition observation_cells (o : obj observation_row) : list pyval :=
  [PInt (pk o); PInt o~>ob_published_entry; PStr (verdict_str o~>ob_result); details_cell o~>ob_details;
   isoformat_or_empty (Some o~>ob_observed_at)].
Definition _observation_rows (building_id : Z) : DB (list (list pyval)) :=
  gets (fun w => observation_cells <$> select (in_building building_id w) (observations w)).

Definition EXPORT_KINDS : list string := ["audit_events"; "fund_entries"; "documents"; "outbox"].
Definition _kind_counts (building_id : Z) : DB (list (string * nat)) :=
  a ← gets (fun w => length (select (audit_of building_id w) (audits w)));
  f ← gets (fun w => length (select (fund_entry_of building_id w) (fund_entries w)));
  d ← gets (fun w => length (select (document_of building_id w) (doc_versions w)));
  o ← gets (fun w => length (select (fun e => e~>ev_building ==? building_id) (outbox w)));
  mret [("audit_events", a); ("fund_entries", f); ("documents", d); ("outbox", o)].

(** ** The view *)

Context (by_building_name : list (obj membership_row) -> list (obj membership_row)) (class_name : exn -> string).

(** [(request.GET.get("kind") or "audit_events").strip()], the unknown ones replaced. *)
Definition export_kind (requested : option string) : string :=
  let kind := py_strip (match requested with Some (String _ _ as k) => k | _ => "audit_events" end) in
  if str_in kind EXPORT_KINDS || (kind ==? "observations") then kind else "audit_events".

(** The header and the rows; querysets of values are read when the response is streamed,
    after the view, the lists at once. *)
Definition export_rows (kind : string) (building_id : Z) : DB (list string * DB (list (list pyval))) :=
  if kind ==? "fund_entries" then rows ← _fund_entry_rows building_id; mret (fund_header, mret rows)
  else if kind ==? "documents" then mret (document_header, _document_rows building_id)
  else if kind ==? "outbox" then rows ← _outbox_rows building_id; mret (outbox_header, mret rows)
  else if kind ==? "observations" then rows ← _observation_rows building_id; mret (observation_header, mret rows)
  else mret (audit_header, _audit_event_rows building_id).

(** [strftime("%Y%m%dT%H%M%SZ")] *)
Definition stamp (now : Z) : string :=
  let day := ord2ymd (now / DAY + EPOCH_ORDINAL) in
  let us := now mod DAY in
  zpad 4 (d_year day) +:+ zpad 2 (d_month day) +:+ zpad 2 (d_day day) +:+ "T" +:+ zpad 2 (us / hours 1) +:+
  zpad 2 (us / minutes 1 mod 60) +:+ zpad 2 (us / seconds 1 mod 60) +:+ "Z".

(** The name and the text of the file. *)
Definition audit_export (user : Z) (rq : staff_request) (requested : option string) : DB (string * string) :=
  ctx ← require_management_context by_building_name user rq;
  let membership := ctx.1.1 in
  let kind := export_kind requested in
  let audit result meta := _ ← record_audit user (Some (pk membership)) "audit.export" "Export" kind result meta; mret tt in
  table ← try_except
    (table ← export_rows kind membership~>mb_building; audit "accepted" [("kind", PStr kind)] ;; mret table)
    (fun error => swallow (audit "denied" [("reason", PStr (class_name error))]) ;; raise error);
  now ← timezone_now;
  rows ← table.2;
  mret ("lamto-" +:+ kind +:+ "-" +:+ stamp now +:+ ".csv", _csv_stream table.1 rows).
End Exports.

(** ** Reading a file back *)

(** Where a reader of the dialect (RFC 4180) is: before a row or a field, in a bare or a
    quoted field, behind a quote, or behind the [\r] of a row. *)
Inductive reading := RowStart | FieldStart | Bare | Quoted | QuoteEnd | RowEnd (empty : bool).
(** The characters and fields read are put in front of what follows. *)
Definition prepend (x : string) (rows : list (list string)) : list (list string) :=
  match rows with (y :: r) :: l => ((x +:+ y) :: r) :: l | l => l end.
Definition push (c : ascii) : list (list string) -> list (list string) := prepend (String c EmptyString).
Definition new_field (rows : list (list string)) : list (list string) :=
  match rows with r :: l => ("" :: r) :: l | [] => [] end.
Fixpoint read_csv (st : reading) (s : string) : option (list (list string)) :=
  match s with
  | EmptyString => match st with RowStart => Some [] | _ => None end
  | String c s =>
    match st with
    | Quoted => if Ascii.eqb c quote_ then read_csv QuoteEnd s else option_map (push c) (read_csv Quoted s)
    | RowEnd empty =>
      if Ascii.eqb c lf then option_map (cons (if empty then [] else [""])) (read_csv RowStart s) else None
    | RowStart | FieldStart | Bare | QuoteEnd =>
      if Ascii.eqb c quote_ then
        match st with
        | Bare => option_map (push c) (read_csv Bare s)
        | QuoteEnd => option_map (push c) (read_csv Quoted s)
        | _ => read_csv Quoted s
        end
      else if Ascii.eqb c comma then option_map new_field (read_csv FieldStart s)
      else if Ascii.eqb c cr then read_csv (RowEnd match st with RowStart => true | _ => false end) s
      else match st with QuoteEnd => None | _ => option_map (push c) (read_csv Bare s) end
    end
  end.
(** A cell a spreadsheet does not take for a formula. *)
Definition harmless (cell : string) : Prop := match cell with String c _ => c ∉ FORMULA_PREFIXES | EmptyString => True end.

Section Reading.
Implicit Types (x rest : string).

Lemma option_map_map {A B C} (f : B -> C) (g : A -> B) o : option_map f (option_map g o) = option_map (fun a => f (g a)) o.
Proof. by destruct o. Qed.
Lemma option_map_same {A B} (f g : A -> B) o : (forall a, f a = g a) -> option_map f o = option_map g o.
Proof. intros H. destruct o; cbn; by rewrite ?H. Qed.
Lemma prepend_cons c x rows : prepend (String c x) rows = push c (prepend x rows).
Proof. by destruct rows as [|[|]]. Qed.
Lemma prepend_nil o : option_map (prepend "") o = o.
Proof. destruct o as [[|[|]]|]; done. Qed.
Lemma prepend_map c x o : option_map (prepend (String c x)) o = option_map (push c) (option_map (prepend x) o).
Proof. rewrite option_map_map. apply option_map_same, prepend_cons. Qed.

(** A delimiter ends a bare field as it ends a quoted one. *)
Definition ends (c : ascii) : Prop := c = comma \/ c = cr.
Lemma ends_after c rest : ends c -> read_csv QuoteEnd (String c rest) = read_csv Bare (String c rest) /\
  read_csv FieldStart (String c rest) = read_csv Bare (String c rest).
Proof. by intros [-> | ->]. Qed.

Lemma read_bare x rest : has_special x = false -> read_csv Bare (x +:+ rest) = option_map (prepend x) (read_csv Bare rest).
Proof.
  induction x as [|c x IH]; [by rewrite prepend_nil|]. cbn [has_special]. intros [Hc Hx]%orb_false_iff. unfold special in Hc.
  rewrite !orb_false_iff in Hc. destruct Hc as [[[H1 H2] H3] _]. rewrite app_cons, prepend_map. cbn [read_csv].
  by rewrite H1, H2, H3, IH.
Qed.
Lemma read_quoted_back x rest : read_csv Quoted (doubled x +:+ String quote_ rest) = option_map (prepend x) (read_csv QuoteEnd rest).
Proof.
  induction x as [|c x IH]; [by rewrite prepend_nil|]. rewrite prepend_map, <-IH. cbn [doubled]. destruct (Ascii.eqb c quote_) eqn:E.
  - apply Ascii.eqb_eq in E as ->. done.
  - rewrite app_cons. cbn [read_csv]. by rewrite E.
Qed.
Lemma read_field x c rest : ends c ->
  read_csv FieldStart (field x +:+ String c rest) = option_map (prepend x) (read_csv Bare (String c rest)).
Proof.
  intros Hc. destruct (ends_after c rest Hc) as [E1 E2]. unfold field. destruct (has_special x) eqn:Ex.
  - unfold quoted_field. rewrite app_cons, <-string_app_assoc, app_cons, app_nil_l. change (read_csv FieldStart (String quote_ ?s)) with (read_csv Quoted s).
    by rewrite read_quoted_back, E1.
  - destruct x as [|d x]; [by rewrite prepend_nil|]. pose proof (read_bare _ (String c rest) Ex) as H. rewrite <-H.
    cbn [has_special] in Ex. apply orb_false_iff in Ex as [Ed _]. unfold special in Ed. rewrite !orb_false_iff in Ed.
    destruct Ed as [[[H1 H2] H3] _]. rewrite app_cons. cbn [read_csv]. by rewrite H1, H2, H3.
Qed.

Definition crlf : string := String cr (String lf EmptyString).
Lemma read_fields x xs rest :
  read_csv FieldStart (join "," (List.map field (x :: xs)) +:+ crlf +:+ rest) = option_map (cons (x :: xs)) (read_csv RowStart rest).
Proof.
  revert x. induction xs as [|y xs IH]; intros x.
  - cbn [List.map join]. change (crlf +:+ rest) with (String cr (String lf rest)). rewrite read_field by by right.
    change (read_csv Bare (String cr (String lf rest))) with (option_map (cons [""]) (read_csv RowStart rest)).
    rewrite option_map_map. apply option_map_same. intros rows. cbn. by rewrite string_app_nil_r.
  - change (join "," (List.map field (x :: y :: xs))) with (field x +:+ "," +:+ join "," (List.map field (y :: xs))).
    rewrite <-!string_app_assoc, app_cons, app_nil_l. rewrite read_field by by left.
    change (read_csv Bare (String "," ?s)) with (option_map new_field (read_csv FieldStart s)). rewrite IH, !option_map_map.
    apply option_map_same. intros rows. cbn. by rewrite string_app_nil_r.
Qed.

Lemma row_or_field c rest : c <> cr -> read_csv RowStart (String c rest) = read_csv FieldStart (String c rest).
Proof.
  intros Hc. cbn [read_csv]. destruct (Ascii.eqb c quote_); [done|]. destruct (Ascii.eqb c comma); [done|].
  destruct (Ascii.eqb c cr) eqn:E; [|done]. by apply Ascii.eqb_eq in E.
Qed.
Lemma row_text x xs : x :: xs <> [""] -> exists c s, c <> cr /\ join "," (List.map field (x :: xs)) = String c s.
Proof.
  intros Hne. destruct x as [|c x].
  - destruct xs as [|y xs]; [done|]. exists comma, (join "," (List.map field (y :: xs))). done.
  - assert (exists d s, d <> cr /\ field (String c x) = String d s) as (d & s & Hd & E).
    { unfold field. destruct (has_special _) eqn:Ex; [by exists quote_; eexists|]. exists c, x. split; [|done].
      cbn in Ex. apply orb_false_iff in Ex as [Ec _]. unfold special in Ec. rewrite !orb_false_iff in Ec.
      destruct Ec as [[_ H3] _]. by apply Ascii.eqb_neq in H3. }
    destruct xs as [|y xs]; [exists d, s; done|]. exists d, (s +:+ "," +:+ join "," (List.map field (y :: xs))). split; [done|].
    change (join "," (List.map field (String c x :: y :: xs))) with (field (String c x) +:+ "," +:+ join "," (List.map field (y :: xs))).
    by rewrite E, app_cons.
Qed.

Lemma read_row fields rest : read_csv RowStart (writerow fields +:+ rest) = option_map (cons fields) (read_csv RowStart rest).
Proof.
  destruct fields as [|x xs]; [done|]. destruct (decide (x :: xs = [""])) as [E|E]; [by rewrite E|].
  assert (writerow (x :: xs) = join "," (List.map field (x :: xs)) +:+ crlf) as -> by (destruct x, xs; done).
  rewrite <-string_app_assoc, <-read_fields. destruct (row_text x xs E) as (c & s & Hc & ->). rewrite app_cons. by apply row_or_field.
Qed.
Lemma read_rows rows : read_csv RowStart (join "" (List.map writerow rows)) = Some rows.
Proof.
  induction rows as [|r rows IH]; [done|]. destruct rows as [|r' rows].
  - cbn [List.map join]. rewrite <-(string_app_nil_r (writerow r)), read_row. done.
  - change (join "" (List.map writerow (r :: r' :: rows))) with (writerow r +:+ join "" (List.map writerow (r' :: rows))).
    by rewrite read_row, IH.
Qed.
End Reading.

(** ** What is exported *)

Section Exported.
Context (py_repr : pyval -> string) (audit_created_at document_created_at : Z -> Z).
Context (by_building_name : list (obj membership_row) -> list (obj membership_row)) (class_name : exn -> string).
Context (Hname : forall l, by_building_name l ≡ₚ l).
Implicit Types (w : world).

Lemma neutralize_harmless v : harmless (neutralize_cell py_repr v).
Proof.
  assert (forall c t, harmless (if bool_decide (c ∈ FORMULA_PREFIXES) then String "'" (String c t) else String c t)) as H.
  { intros c t. case_bool_decide; [|done]. apply (bool_decide_unpack ("'"%char ∉ FORMULA_PREFIXES)). vm_compute. exact I. }
  unfold neutralize_cell. destruct v as [|b|z|t|l|d|n]; [done|..]; (destruct (py_text _ _) as [|c s]; [done|apply H]).
Qed.

(** The rows of the building, by kind. *)
Definition header_of (kind : string) : list string :=
  if kind ==? "fund_entries" then fund_header else if kind ==? "documents" then document_header
  else if kind ==? "outbox" then outbox_header else if kind ==? "observations" then observation_header else audit_header.
Definition exported (kind : string) (b : Z) w : list (list pyval) :=
  if kind ==? "fund_entries" then fund_cells <$> select (fund_entry_of b w) (fund_entries w)
  else if kind ==? "documents" then document_cells document_created_at <$> select (document_of b w) (doc_versions w)
  else if kind ==? "outbox" then outbox_cells <$> select (fun e => e~>ev_building ==? b) (outbox w)
  else if kind ==? "observations" then observation_cells py_repr <$> select (in_building b w) (observations w)
  else audit_cells audit_created_at <$> select (audit_of b w) (audits w).

(** The header and the rows, ready for a spreadsheet. *)
Definition sheet (kind : string) (b : Z) w : list (list string) :=
  List.map (List.map (neutralize_cell py_repr)) (List.map PStr (header_of kind) :: exported kind b w).

Lemma export_rows_run kind b w a : exists late,
  export_rows py_repr audit_created_at document_created_at kind b w = (Ok (header_of kind, late), w) /\
  late (w <| audits ::= insert_row a |>) = (Ok (exported kind b (w <| audits ::= insert_row a |>)), w <| audits ::= insert_row a |>).
Proof. unfold export_rows, header_of, exported. repeat case_bool_decide; eexists; (split; [reflexivity|]); reflexivity. Qed.

(** C27: an export reads back.  Whatever cells the tables hold, with commas, quotes and line
    breaks in them, a reader of the format gets from the file exactly the neutralized header
    and rows of the building the manager acts for, no cell of which starts a formula; the
    export is in the audit log under his name, and in the file when it is the audit log
    that is exported.  Only a user without active memberships is refused. *)
Theorem export_reads_back user rq requested w :
  let kind := export_kind requested in
  match audit_export py_repr audit_created_at document_created_at by_building_name class_name user rq requested w with
  | (Ok (name, text), w') => exists m a, manager_of w user m /\ w' = w <| audits ::= insert_row a |> /\
      au_actor a = user /\ au_membership a = Some (pk m) /\ au_action a = "audit.export" /\ au_target_id a = kind /\
      read_csv RowStart text = Some (sheet kind (mb_building (val m)) w') /\
      Forall (Forall harmless) (sheet kind (mb_building (val m)) w') /\
      (kind = "audit_events" -> audit_cells audit_created_at (Obj (next (audits w)) a) ∈ exported kind (mb_building (val m)) w')
  | (Err e, w') => e = PermissionDenied "An active management membership is required." /\ w' = w /\ forall m, ~ manager_of w user m
  end.
Proof.
  intros kind. unfold audit_export. fold kind.
  destruct (resolve_management by_building_name Hname user rq None w) as [(m & l & E & _ & Hm)|[E Hno]].
  2: { unfold require_management_context, mbind at 1, M_bind at 1. by rewrite E. }
  unfold require_management_context. rewrite (bind_run _ _ _ _ _ E). cbn [fst snd].
  set (a := Audit user (Some (pk m)) "audit.export" "Export" kind "accepted" (mk_dict [("kind", PStr kind)])).
  destruct (export_rows_run kind (mb_building (val m)) w a) as (late & R & Hlate). set (w' := w <| audits ::= insert_row a |>) in *.
  assert (attribution_ok w user (Some (pk m)) "audit.export" "Export" [("kind", PStr kind)] = true) as Hok.
  { destruct Hm as (? & ? & Hact). unfold attribution_ok. apply exists_true. exists (pk m), (val m). split; [done|].
    cbn. by rewrite Hact, !bool_decide_eq_true_2. }
  erewrite (bind_run (try_except _ _) _ w _ w').
  2: { unfold try_except. rewrite (bind_run _ _ _ _ _ R). erewrite bind_run; [reflexivity|].
    erewrite bind_run; [reflexivity|]. apply record_audit_Ok. split; [exact Hok|split; reflexivity]. }
  rewrite (bind_run _ _ w' (w_now w') w') by done. cbn [fst snd]. rewrite (bind_run _ _ _ _ _ Hlate).
  exists m, a. split_and!; try done.
  - unfold _csv_stream. rewrite read_rows. done.
  - unfold sheet. apply Forall_forall. intros r Hr. apply list_elem_of_In, in_map_iff in Hr as (c & <- & _).
    apply Forall_forall. intros x Hx. apply list_elem_of_In, in_map_iff in Hx as (v & <- & _). apply neutralize_harmless.
  - intros Hk. rewrite Hk. apply list_elem_of_fmap. eexists. split; [reflexivity|]. apply elem_of_select. split; [apply lookup_inserted|].
    unfold audit_of. cbn [au_membership a val]. destruct Hm as (Hr & _). apply exists_true. exists (pk m), (val m). split; [exact Hr|].
    cbn. by rewrite !bool_decide_eq_true_2.
Qed.

(** A negative number is text in the file: the amounts of outflows are. *)
Lemma negative_is_text z : z < 0 -> exists s, neutralize_cell py_repr (PInt z) = String "'" s /\ s = zstr z.
Proof.
  intros Hz. unfold neutralize_cell, py_text. destruct z as [|p|p]; try lia. exists (zstr (Zneg p)). split; [|done].
  assert (exists t, zstr (Zneg p) = String "-" t) as [t ->] by (unfold zstr; cbn; eauto).
  by rewrite bool_decide_eq_true_2 by (apply (bool_decide_unpack ("-"%char ∈ FORMULA_PREFIXES)); vm_compute; exact I).
Qed.
End Exported.

(** ** Concrete runs *)

(** An audit event of building 2 with a formula, a comma and a line break in its target. *)
Definition demo_logged : world :=
  demo_offices <| audits ::= insert_row (Audit 1 (Some 2) "demo" "Demo" ("=1,2" +:+ String lf "3") "accepted" PNone) |>.
Notation demo_export := (audit_export (fun _ => "") (fun _ => 0) (fun _ => 0) id (fun _ => "") 1 (demo_at "2") (Some " audit_events ")
  demo_logged).
Lemma export_reads_back_witness :
  exists text, (demo_export).1 = Ok ("lamto-audit_events-19700101T000000Z.csv", text) /\
    option_map (List.map (fun row => nth 6 row "")) (read_csv RowStart text) =
      Some ["target_id"; "'=1,2" +:+ String lf "3"; "audit_events"].
Proof.
  pose proof (export_reads_back (fun _ => "") (fun _ => 0) (fun _ => 0) id (fun _ => "") (fun l => Permutation_refl l) 1 (demo_at "2")
    (Some " audit_events ") demo_logged) as H. cbv zeta in H.
  assert (exists text w', demo_export = (Ok ("lamto-audit_events-19700101T000000Z.csv", text), w') /\
    au_membership <$> rows (audits w') !! 2 = Some (Some 2) /\
    option_map (List.map (fun row => nth 6 row "")) (Some (sheet (fun _ => "") (fun _ => 0) (fun _ => 0) "audit_events" 2 w')) =
      Some ["target_id"; "'=1,2" +:+ String lf "3"; "audit_events"]) as (text & w' & E & Ha & S).
  { eexists _, _. split; [vm_compute; reflexivity|]. split; vm_compute; reflexivity. }
  rewrite E in H. destruct H as (m & a & (Hm & _) & -> & _ & Hma & _ & _ & R & _). exists text. split; [by rewrite E|].
  assert (rows (insert_row a (audits demo_logged)) !! 2 = Some a) as Hrow by exact (lookup_inserted a (audits demo_logged)).
  cbn [audits set] in Ha. rewrite Hrow in Ha. injection Ha as Ha. rewrite Hma in Ha. injection Ha as Hpk. rewrite Hpk in Hm.
  assert (rows (memberships demo_logged) !! 2 = Some (Membership 1 2 true)) as Hm2 by (vm_compute; reflexivity).
  rewrite Hm2 in Hm. injection Hm as Hv. rewrite <-Hv in R. rewrite R. exact S.
Defined.
