(* ===== verification/Billing.v ===== *)
(** * Billing: the bills management issues to residents

    [billing/services.py] with the constraints of [billing/models.py].  A bill is issued
    once, then paid or voided; the resident's in-app notice of a voided bill is removed. *)

From S2P Require Import Prelude Table PyStr Schema Store Accounts Notifications.
Open Scope Z_scope.

Definition in_app_event_key (bill_id : Z) : string :=
  EVENT_BILL_ISSUED +:+ ":bill:" +:+ zstr bill_id.
Definition push_event_key (bill_id : Z) : string :=
  EVENT_BILL_ISSUED +:+ ":bill:" +:+ zstr bill_id +:+ ":issued".

(** [f"{n:,}"]: a comma after every digit that a multiple of three digits follows. *)
Fixpoint group_digits (s : string) : string :=
  match s with
  | EmptyString => EmptyString
  | String c r =>
    let rest := group_digits r in
    String c (if (0 <? slen r) && (slen r mod 3 =? 0) then String "," rest else rest)
  end.
Definition with_commas (n : Z) : string :=
  if n <? 0 then "-" +:+ group_digits (zstr (- n)) else group_digits (zstr n).

(** [Bill.objects.create]: the columns' widths and [bill_amount_positive]. *)
Definition insert_bill (r : bill_row) : DB (obj bill_row) :=
  require ((py_len (bi_title r) <=? 160) && (py_len (bi_period r) <=? 64) &&
    (py_len (bi_reference r) <=? 64)) (DatabaseError "value too long") ;;
  require (bi_amount_vnd r <? 2 ^ 63) (DatabaseError "bigint out of range") ;;
  require (0 <? bi_amount_vnd r) (IntegrityError "bill_amount_positive") ;;
  create bills r.

Definition in_app_notice (bill_id : Z) (o : obj delivery_row) : bool :=
  (o~>dl_event_key ==? in_app_event_key bill_id) && (o~>dl_channel ==? IN_APP).

(** [reference] is what [secrets.token_urlsafe(12)] returned. *)
Definition issue_bill (actor building_id resident_id : Z) (title : string) (amount_vnd : Z)
    (document : obj doc_version_row) (note period : string) (due_date : option date)
    (reference : string) : DB (obj bill_row) :=
  atomic (
    membership ← require_management actor building_id;
    resident ← query_pk users resident_id;
    resident ← of_option (BillError "Resident does not exist.") resident;
    lives ← gets (fun w => exists_ (resides w resident_id building_id) (occupancies w));
    require lives (BillError "Resident has no active occupancy in this building.") ;;
    doc ← get_row documents "Document" document~>dv_document;
    require (doc~>dc_kind ==? RESIDENT_BILL) (BillError "Document must be a resident bill.") ;;
    require (doc~>dc_building ==? building_id)
      (BillError "Document must belong to the target building.") ;;
    now ← timezone_now;
    bill ← insert_bill (Bill building_id (pk resident) title note period due_date amount_vnd
      (pk document) reference BIssued None actor now None None None None "");
    let subject := title +:+ " — " +:+ with_commas amount_vnd +:+ "đ" in
    queue_notification (pk resident) (in_app_event_key (pk bill)) subject note (Some [IN_APP])
      EVENT_BILL_ISSUED (Some building_id) ;;
    queue_notification (pk resident) (push_event_key (pk bill)) subject note (Some [PUSH])
      EVENT_BILL_ISSUED (Some building_id) ;;
    bulk_update deliveries (in_app_notice (pk bill)) (fun r => r <| dl_status := DAvailable |>) ;;
    record_audit actor (Some (pk membership)) "bill.issued" "Bill" (zstr (pk bill)) "accepted"
      [("bill_id", PInt (pk bill)); ("amount_vnd", PInt amount_vnd)] ;;
    mret bill).

Definition payment_source_code (s : payment_source) : string :=
  match s with
  | SELF_ATTESTED_DEMO => "SELF_ATTESTED_DEMO"
  | BANK_WEBHOOK => "BANK_WEBHOOK"
  | MANAGEMENT_MANUAL => "MANAGEMENT_MANUAL"
  end.

Definition paid_row (now actor : Z) (source : payment_source) (r : bill_row) : bill_row :=
  r <| bi_status := BPaid |> <| bi_payment_source := Some source |>
    <| bi_paid_at := Some now |> <| bi_paid_confirmed_by := Some actor |>.

Definition confirm_payment (bill : Z) (source : payment_source) (actor : Z) (reference : string) :
    DB (obj bill_row) :=
  atomic (
    locked ← get_row bills "Bill" bill;
    require (negb (locked~>bi_status ==? BVoid)) BillVoidedError ;;
    require (reference ==? locked~>bi_reference) BillReferenceError ;;
    require (negb ((source ==? SELF_ATTESTED_DEMO) && negb (actor ==? locked~>bi_resident)))
      BillActorError ;;
    if locked~>bi_status ==? BPaid then mret locked else
    now ← timezone_now;
    let row := paid_row now actor source in
    let locked := Obj (pk locked) (row (val locked)) in
    save bills (pk locked) row ;;
    record_audit actor None "bill.payment_recorded" "Bill" (zstr (pk locked)) "accepted"
      [("bill_id", PInt (pk locked)); ("source", PStr (payment_source_code source))] ;;
    mret locked).

Definition voided_row (now actor : Z) (reason : string) (r : bill_row) : bill_row :=
  r <| bi_status := BVoid |> <| bi_void_by := Some actor |> <| bi_void_at := Some now |>
    <| bi_void_reason := reason |>.

Definition void_bill (actor bill_id : Z) (reason : option string) : DB (obj bill_row) :=
  atomic (
    let reason := py_strip (default "" reason) in
    require (truthy reason) (BillError "A void reason is required.") ;;
    locked ← get_row bills "Bill" bill_id;
    membership ← require_management actor locked~>bi_building;
    require (locked~>bi_status ==? BIssued) (BillError "Only an issued bill can be voided.") ;;
    now ← timezone_now;
    let row := voided_row now actor reason in
    let locked := Obj (pk locked) (row (val locked)) in
    save bills (pk locked) row ;;
    bulk_delete deliveries (in_app_notice (pk locked)) ;;
    record_audit actor (Some (pk membership)) "bill.voided" "Bill" (zstr (pk locked)) "accepted"
      [("bill_id", PInt (pk locked))] ;;
    mret locked).

(** [_own_bills] of [api/bill_views.py]: the bills a resident is shown, void ones left out. *)
Definition _own_bills (user : Z) : DB (list (obj bill_row)) :=
  query bills (fun b => (b~>bi_resident ==? user) && negb (b~>bi_status ==? BVoid)).

(** ** The life of a bill *)

(** Nothing of what was issued changes, and a bill that was paid or voided stays so. *)
Definition bill_step (r r' : bill_row) : Prop :=
  r' = r \/
  bi_status r = BIssued /\ bi_status r' <> BIssued /\
  r' = Bill (bi_building r) (bi_resident r) (bi_title r) (bi_note r) (bi_period r) (bi_due_date r)
    (bi_amount_vnd r) (bi_document r) (bi_reference r) (bi_status r') (bi_payment_source r')
    (bi_issued_by r) (bi_issued_at r) (bi_paid_at r') (bi_paid_confirmed_by r') (bi_void_by r')
    (bi_void_at r') (bi_void_reason r').
#[export] Instance bill_step_preorder : PreOrder bill_step.
Proof.
  split; [by left|]. intros x y z [->|Hxy] [->|Hyz]; unfold bill_step in *; auto.
  destruct Hxy as (_ & Hn & _), Hyz as (Hi & _). done.
Qed.

Definition unpaid (r : bill_row) : Prop :=
  bi_payment_source r = None /\ bi_paid_at r = None /\ bi_paid_confirmed_by r = None.
Definition unvoided (r : bill_row) : Prop :=
  bi_void_by r = None /\ bi_void_at r = None /\ bi_void_reason r = "".
Definition bill_wf (r : bill_row) : Prop :=
  0 < bi_amount_vnd r < 2 ^ 63 /\
  match bi_status r with
  | BIssued => unpaid r /\ unvoided r
  | BPaid => unvoided r /\ is_Some (bi_paid_at r) /\
    exists source actor, bi_payment_source r = Some source /\ bi_paid_confirmed_by r = Some actor /\
      (source = SELF_ATTESTED_DEMO -> actor = bi_resident r)
  | BVoid => unpaid r /\ is_Some (bi_void_by r) /\ is_Some (bi_void_at r) /\
    truthy (bi_void_reason r) = true
  end.
Definition bills_ok (t : table bill_row) : Prop := forall k r, rows t !! k = Some r -> bill_wf r.

(** What an operation does to the table: every bill takes steps, and no bill goes wrong. *)
Definition bills_evolve (t t' : table bill_row) : Prop :=
  evolves bill_step t t' /\ (bills_ok t -> bills_ok t').
#[local] Instance bills_evolve_preorder : PreOrder bills_evolve.
Proof.
  split; [intros t; split; [reflexivity|done]|].
  intros x y z [E1 H1] [E2 H2]. split; [by etransitivity|auto].
Qed.

Lemma bills_evolve_update k f t :
  (forall r, rows t !! k = Some r -> bill_step r (f r) /\ (bill_wf r -> bill_wf (f r))) ->
  bills_evolve t (update k f t).
Proof.
  intros Hf. split; [apply evolves_update; [apply _|]; intros r Hr; by apply Hf|].
  intros H j r. rewrite lookup_update. case_decide as E; [|by apply H]. subst.
  destruct (rows t !! j) as [r0|] eqn:Hj; [|done]. intros [= <-].
  apply (proj2 (Hf r0 eq_refl)). eauto.
Qed.
Lemma bills_evolve_insert r t : bill_wf r -> bills_evolve t (insert_row r t).
Proof.
  intros Hr. split; [apply evolves_insert; apply _|]. intros H k r'.
  rewrite lookup_insert_row. case_decide; [by intros [= <-]|apply H].
Qed.

Inductive billing_op :=
  | Issue (actor building resident : Z) (title : string) (amount : Z) (document : obj doc_version_row)
      (note period : string) (due : option date) (reference : string)
  | Confirm (bill : Z) (source : payment_source) (actor : Z) (reference : string)
  | Void (actor bill : Z) (reason : option string).
Definition run_billing (op : billing_op) : DB unit :=
  match op with
  | Issue a b u t m d n p dd r => _ ← issue_bill a b u t m d n p dd r; mret tt
  | Confirm b s a r => _ ← confirm_payment b s a r; mret tt
  | Void a b r => _ ← void_bill a b r; mret tt
  end.
(** Operations at the instants they are called at. *)
Definition billing_run : list (Z * billing_op) -> world -> world :=
  fun ops w => foldl (fun w top => (run_billing top.2 (at_time top.1 w)).2) w ops.

Section Lifecycle.
Implicit Types (w : world) (r : bill_row).

Definition step_ok (r r' : bill_row) : Prop := bill_step r r' /\ (bill_wf r -> bill_wf r').

Lemma paid_ok now actor source r :
  bi_status r = BIssued -> (source = SELF_ATTESTED_DEMO -> actor = bi_resident r) ->
  step_ok r (paid_row now actor source r).
Proof.
  intros Hi Hs. split; [right; by destruct r|]. unfold bill_wf. rewrite Hi.
  intros (Ha & _ & Hv). cbn. do 2 (split; [done|]). eauto 6.
Qed.
Lemma voided_ok now actor reason r :
  bi_status r = BIssued -> truthy reason = true -> step_ok r (voided_row now actor reason r).
Proof.
  intros Hi Ht. split; [right; by destruct r|]. unfold bill_wf. rewrite Hi.
  intros (Ha & Hp & _). cbn. do 2 (split; [done|]). eauto.
Qed.
Lemma payable_issued (s : bill_status) :
  negb (s ==? BVoid) = true -> (s ==? BPaid) = false -> s = BIssued.
Proof. by destruct s. Qed.

Lemma demo_payer (a b : Z) :
  (SELF_ATTESTED_DEMO ==? SELF_ATTESTED_DEMO) && negb (a ==? b) = false -> a = b.
Proof. rewrite bool_decide_eq_true_2 by done. cbn. intros H. by to_prop. Qed.

(** What a confirmation that succeeds leaves. *)
Lemma confirmed b source actor reference w o w' :
  confirm_payment b source actor reference w = (Ok o, w') ->
  pk o = b /\ rows (bills w') !! b = Some (val o) /\ o~>bi_reference = reference /\
  o~>bi_status = BPaid.
Proof.
  unfold confirm_payment. intros H. inv_op. inv_query. to_prop.
  destruct (bi_status _ ==? BPaid) eqn:Ep; inv_op; inv_query; to_prop; [done|].
  cbn. rewrite lookup_alter, decide_True by done.
  match goal with H : rows (bills _) !! _ = _ |- _ => rewrite H end. done.
Qed.
Lemma confirm_paid (o : obj bill_row) source actor w :
  rows (bills w) !! pk o = Some (val o) -> o~>bi_status = BPaid ->
  (source = SELF_ATTESTED_DEMO -> actor = o~>bi_resident) ->
  confirm_payment (pk o) source actor o~>bi_reference w = (Ok o, w).
Proof.
  intros Hr Hs Ha. unfold confirm_payment, atomic, get_row, gets, of_option, mbind, M_bind, find.
  rewrite Hr. destruct o as [k r]. cbn in *. unfold require.
  rewrite Hs, (bool_decide_eq_true_2 (bi_reference r = _)) by done. cbn.
  destruct (source ==? SELF_ATTESTED_DEMO) eqn:E; [|done]. to_prop.
  by rewrite (bool_decide_eq_true_2 (actor = _)) by auto.
Qed.

Lemma keeps_queue_bills u k s b chs c bl w :
  keeps (on bills bills_evolve) (queue_notification u k s b chs c bl) w.
Proof.
  unfold queue_notification, queue_channel, channel_enabled, email_enabled_for, push_enabled_for.
  keeps_db.
Qed.

Lemma keeps_bills op w : keeps (on bills bills_evolve) (run_billing op) w.
Proof.
  destruct op; cbn [run_billing]; unfold issue_bill, insert_bill, confirm_payment, void_bill;
    keeps_op; try apply keeps_queue_bills; inv_op; inv_query; unfold on; cbn.
  - apply bills_evolve_insert. cbn in *. to_prop. unfold bill_wf. cbn. done.
  - apply bills_evolve_update. intros r Hr. simplify_eq. apply paid_ok; [by apply payable_issued|].
    intros ->. to_prop. by apply demo_payer.
  - apply bills_evolve_update. intros r Hr. to_prop. apply voided_ok; [congruence|done].
Qed.
End Lifecycle.

(** ** Properties *)

Section Properties.
Implicit Types (w : world).

(** C38: a bill's life.  After any sequence of issuing, paying and voiding at any instants,
    a bill is still there with everything it was issued with, and has changed only if it was
    still issued; every bill has a positive amount that fits its column, and is issued and
    bare, or paid with its source, instant and payer (the resident, when self-attested) and
    never voided, or voided with a reason, author and instant and never paid. *)
Theorem bill_lifecycle ops w :
  table_wf (bills w) -> bills_ok (bills w) ->
  bills_ok (bills (billing_run ops w)) /\
  forall k r, rows (bills w) !! k = Some r ->
    exists r', rows (bills (billing_run ops w)) !! k = Some r' /\ bill_step r r'.
Proof.
  intros Hwf Hok. assert (bills_evolve (bills w) (bills (billing_run ops w))) as [He Hk].
  - clear Hwf Hok. revert w. induction ops as [|[t op] ops IH]; intros w; [reflexivity|].
    etransitivity; [exact (keeps_bills op (at_time t w))|apply IH].
  - split; [auto|]. by apply He.
Qed.

(** A payment is recorded once.  A confirmation that succeeds carried the bill's
    reference and leaves the bill paid; confirming it again, from any source that is allowed
    to, returns the same bill and writes nothing, and it can no longer be voided. *)
Theorem payment_once b source actor reference w o w' :
  confirm_payment b source actor reference w = (Ok o, w') ->
  pk o = b /\ rows (bills w') !! b = Some (val o) /\ o~>bi_reference = reference /\
  o~>bi_status = BPaid /\
  (forall t source2 actor2, (source2 = SELF_ATTESTED_DEMO -> actor2 = o~>bi_resident) ->
    confirm_payment b source2 actor2 reference (at_time t w') = (Ok o, at_time t w')) /\
  (forall t a reason o2 w2, void_bill a b reason (at_time t w') <> (Ok o2, w2)).
Proof.
  intros H. apply confirmed in H as (<- & Hr & <- & Hs). do 4 (split; [done|]). split.
  - intros t source2 actor2 Ha. by apply confirm_paid.
  - intros t a reason o2 w2 Hv. unfold void_bill in Hv. inv_op. inv_query. to_prop. cbn in *. congruence.
Qed.

(** Voiding withdraws the bill.  Only a manager of its building voids a bill, with a
    reason, while it is issued; the notice leaves the resident's feed, no resident is shown
    the bill any more, and it can no longer be paid. *)
Theorem void_withdraws a b reason w o w' :
  void_bill a b reason w = (Ok o, w') ->
  (exists r m, rows (bills w) !! b = Some r /\ bi_status r = BIssued /\
     rows (memberships w) !! pk m = Some (val m) /\     manages a (bi_building r) m = true) /\
  o~>bi_status = BVoid /\ truthy (o~>bi_void_reason) = true /\
  (forall j d, rows (deliveries w') !! j = Some d -> in_app_notice b (Obj j d) = false) /\
  (forall u l w2, _own_bills u w' = (Ok l, w2) -> b ∉ pk <$> l) /\
  (forall t source actor, confirm_payment b source actor o~>bi_reference (at_time t w') =
     (Err BillVoidedError, at_time t w')).
Proof.
  unfold void_bill. intros H. apply atomic_Ok in H. inv_ok_step. 
  inv_op. inv_query. to_prop. cbn in *.
  match goal with H : rows (memberships _) !! _ = _ |- _ => rename H into Hm end.
  match goal with H : rows (bills _) !! _ = Some (val ?x) |- _ => rename H into Hb, x into b end.
  match goal with H : rows (memberships _) !! _ = Some (val ?x) |- _ => rename x into m end.
  split. { exists (val b), m. repeat (split; [done|]). unfold manages. by rewrite !bool_decide_eq_true_2. }
  do 2 (split; [done|]). split; [|split].
  - intros j d. rewrite map_lookup_imap. intros (d0 & _ & Hd)%bind_Some.
    destruct (in_app_notice _ _) eqn:E; congruence.
  - intros u l w2. unfold _own_bills, query, gets. intros [= <- _] Hin.
    apply list_elem_of_fmap in Hin as (o & Hk & [Ho Hs]%elem_of_select). cbn in *.
    rewrite <-Hk, lookup_alter, decide_True, Hb in Ho by done. injection Ho as Ho.
    rewrite <-Ho in Hs. cbn in Hs. by rewrite andb_false_r in Hs.
  - intros t source actor. unfold confirm_payment, atomic, get_row, gets, of_option, mbind, M_bind, find.
    cbn. rewrite lookup_alter, decide_True, Hb by done. done.
Qed.

(** Issuing shows the bill.  A bill is issued by a manager of the building to one of its
    active residents, for a positive amount, on a bill document of that building; the
    resident is shown it and finds an available notice of it. *)
Theorem issue_shows actor building resident title amount document note period due reference w o w' :
  table_wf (deliveries w) ->
  issue_bill actor building resident title amount document note period due reference w = (Ok o, w') ->
  (exists m, rows (memberships w) !! pk m = Some (val m) /\ manages actor building m = true) /\
  exists_ (resides w resident building) (occupancies w) = true /\
  (exists d, rows (documents w) !! document~>dv_document = Some d /\ dc_kind d = RESIDENT_BILL /\
     dc_building d = building) /\
  0 < amount < 2 ^ 63 /\ o~>bi_amount_vnd = amount /\ o~>bi_status = BIssued /\
  (exists l, _own_bills resident w' = (Ok l, w') /\ o ∈ l) /\
  (exists j d, rows (deliveries w') !! j = Some d /\ in_app_notice (pk o) (Obj j d) = true /\
     dl_recipient d = resident /\ dl_status d = DAvailable).
Proof.
  unfold issue_bill, insert_bill. intros Hwf H. inv_op. inv_query. to_prop. cbn [bi_amount_vnd] in *.
  match goal with H : queue_notification ?u ?k ?s ?b (Some [IN_APP]) ?c ?bl ?w1 = _ |- _ =>
    destruct (queue_in_app_copy u k s b c bl w1) as (l1 & w2 & E1 & [Hw2 Ev2] & Hc);
    rewrite E1 in H; injection H as <- <- end.
  match goal with H : queue_notification ?u ?k ?s ?b (Some [PUSH]) ?c ?bl ?w1 = _ |- _ =>
    destruct (queue_total_queued u k s b (Some [PUSH]) c bl w1) as (l2 & w3 & E2 & [Hw3 Ev3]);
    rewrite E2 in H; injection H as <- <- end.
  cbn [pk val] in *.
  match goal with H : rows (memberships _) !! _ = Some (val ?x) |- _ => rename x into m, H into Hm end.
  split. { exists m. split; [done|]. unfold manages. by rewrite !bool_decide_eq_true_2. }
  split; [done|]. split; [eauto|]. do 2 (split; [done|]). split; [done|].
  assert (has_copy (pk x2) (in_app_event_key (next (bills w))) (deliveries w3)) as (j & d & Hj & Hd).
  { eapply has_copy_evolves; [|exact Ev3|exact Hc]. by apply Ev2. }
  assert (bills w3 = bills (w <| bills ::= insert_row _ |>)) as Hbills by by rewrite Hw3, Hw2.
  split.
  - eexists. split; [reflexivity|]. apply elem_of_select. cbn [pk val].
    change (bills (set audits ?f (set deliveries ?g w3))) with (bills w3). rewrite Hbills.
    split; [apply lookup_inserted|]. cbn. by rewrite bool_decide_eq_true_2.
  - unfold same_delivery in Hd. to_prop. cbn in *.
    eexists j, (d <| dl_status := DAvailable |>). rewrite map_lookup_imap, Hj. cbn.
    unfold in_app_notice. cbn. by rewrite !bool_decide_eq_true_2 by done.
Qed.
End Properties.

(** ** Concrete runs *)

Example with_commas_amount : with_commas 1250000 = "1,250,000".
Proof. reflexivity. Qed.

Definition demo_invoice : obj doc_version_row :=
  Obj 1 (DocVersion 1 1 "k" "" "bill.pdf" "application/pdf" 10 "" CLEAN 1).
Definition demo_tower : world :=
  empty_world (Settings true 0 "" "" "" "" true 10) 0
    <| buildings ::= insert_row "Tower A" |>
    <| users ::= insert_row (User None "Staff" None "pw" true) |>
    <| users ::= insert_row (User None "An" None "pw" true) |>
    <| memberships ::= insert_row (Membership 1 1 true) |>
    <| units ::= insert_row (Unit_ 1 "A-101") |>
    <| occupancies ::= insert_row (Occupancy 2 1 true) |>
    <| documents ::= insert_row (Document 1 RESIDENT_BILL) |>
    <| doc_versions ::= insert_row (val demo_invoice) |>.
Definition demo_issue : billing_op :=
  Issue 1 1 2 "Water" 1250000 demo_invoice "March" "2026-03" None "qrs".
Definition demo_issued : obj bill_row :=
  Obj 1 (Bill 1 2 "Water" "March" "2026-03" None 1250000 1 "qrs" BIssued None 1 0 None None None None "").
Definition demo_bills : world := billing_run [(0, demo_issue)] demo_tower.
Definition demo_paid : obj bill_row := Obj 1 (paid_row 5 2 SELF_ATTESTED_DEMO (val demo_issued)).
Definition demo_voided : obj bill_row := Obj 1 (voided_row 5 1 "wrong amount" (val demo_issued)).

(** The status of the bill an operation returns. *)
Definition o_status (r : result (obj bill_row) * world) : option bill_status :=
  match r.1 with Ok o => Some o~>bi_status | Err _ => None end.

Lemma issue_shows_witness :
  exists l, _own_bills 2 demo_bills = (Ok l, demo_bills) /\ demo_issued ∈ l.
Proof.
  refine (proj1 (proj2 (proj2 (proj2 (proj2 (proj2 (proj2 (issue_shows 1 1 2 "Water" 1250000 demo_invoice
    "March" "2026-03" None "qrs" demo_tower demo_issued demo_bills _ _)))))))).
  - apply table_wf_b_true. vm_compute. reflexivity.
  - vm_compute. reflexivity.
Defined.

Lemma payment_once_witness :
  o_status (confirm_payment 1 SELF_ATTESTED_DEMO 2 "qrs" (at_time 5 demo_bills)) = Some BPaid /\
  forall t a reason o2 w2, void_bill a 1 reason
    (at_time t (billing_run [(5, Confirm 1 SELF_ATTESTED_DEMO 2 "qrs")] demo_bills)) <> (Ok o2, w2).
Proof.
  split; [vm_compute; reflexivity|].
  refine (proj2 (proj2 (proj2 (proj2 (proj2 (payment_once 1 SELF_ATTESTED_DEMO 2 "qrs"
    (at_time 5 demo_bills) demo_paid _ _)))))).
  vm_compute. reflexivity.
Defined.

Lemma void_withdraws_witness :
  o_status (void_bill 1 1 (Some " wrong amount ") (at_time 5 demo_bills)) = Some BVoid /\
  forall t source actor, confirm_payment 1 source actor "qrs"
    (at_time t (billing_run [(5, Void 1 1 (Some " wrong amount "))] demo_bills)) =
    (Err BillVoidedError, at_time t (billing_run [(5, Void 1 1 (Some " wrong amount "))] demo_bills)).
Proof.
  split; [vm_compute; reflexivity|].
  refine (proj2 (proj2 (proj2 (proj2 (proj2 (void_withdraws 1 1 (Some " wrong amount ")
    (at_time 5 demo_bills) demo_voided _ _)))))).
  vm_compute. reflexivity.
Defined.

Lemma bill_lifecycle_witness :
  bills_ok (bills (billing_run [(5, Confirm 1 SELF_ATTESTED_DEMO 2 "qrs")] demo_bills)).
Proof.
  assert (bills_ok (bills demo_bills)) as Hok.
  { assert (bills demo_bills = insert_row (val demo_issued) (bills demo_tower)) as -> by (vm_compute; reflexivity).
    intros k r. rewrite lookup_insert_row. case_decide; [|done]. intros [= <-]. done. }
  refine (proj1 (bill_lifecycle [(5, Confirm 1 SELF_ATTESTED_DEMO 2 "qrs")] demo_bills _ Hok)).
  apply table_wf_b_true. vm_compute. reflexivity.
Defined.
