(* ===== verification/Gate.v ===== *)
(** * Gate: face enrolments and their review photos

    [gate/photos.py], [gate/enrollment.py] and [gate/review.py] on faces, and the photo part
    of [gate/retention.py].  The private storage is part of the store, as the versions of the
    photos it holds; what a transaction queues for deletion is deleted from it when the
    transaction has committed, which may fail and is then tried again by the purge. *)

From S2P Require Import Prelude Table PyStr Schema Store Accounts.
Open Scope Z_scope.

(** ** The storage *)

(** The storage answers: [ps_put key] is what [put_object] returns as [VersionId], or [None]
    when it raises; [ps_cleanup key] whether listing and deleting the versions of a key
    succeeds; [ps_save key] the name a plain file storage saves under; [ps_delete] whether
    deleting that version succeeds. *)
Record photo_storage := PhotoStorage {
  ps_s3 : bool; ps_put : string -> option (option string); ps_cleanup : string -> bool;
  ps_save : string -> option string; ps_delete : string -> string -> bool }.

Definition storage_error : exn := DocumentStorageError "storage".
Definition PREFIX : string := "gate/pending-enrollment".
Definition add_object (key version : string) : DB unit :=
  modify (fun w => w <| w_photo_objects ::= fun l => (key, version) :: l |>).
Definition remove_object (key version : string) : DB unit :=
  modify (fun w => w <| w_photo_objects ::= List.filter (fun o => negb (o ==? (key, version))) |>).

(** [hex] is the one of the [uuid4] drawn.  A put without a [VersionId] is undone and raises. *)
Definition store_pending_photo (st : photo_storage) (hex : string) : DB (string * string) :=
  let key := PREFIX +:+ "/" +:+ hex in
  if ps_s3 st then
    answer ← of_option storage_error (ps_put st key);
    let version_id := default "" answer in
    if truthy version_id then add_object key version_id ;; mret (key, version_id)
    else if ps_cleanup st key then raise PhotoVersionMissing
    else add_object key "" ;; raise storage_error
  else
    name ← of_option storage_error (ps_save st key);
    add_object name "" ;; mret (name, "").

Definition delete_pending_photo (st : photo_storage) (storage_key provider_version_id : string) :
    DB unit :=
  if negb (truthy storage_key) then mret tt
  else if ps_s3 st then
    require (truthy provider_version_id) PhotoVersionMissing ;;
    require (ps_delete st storage_key provider_version_id) storage_error ;;
    remove_object storage_key provider_version_id
  else
    require (ps_delete st storage_key "") storage_error ;;
    remove_object storage_key "".

(** ** Queued deletions *)

Definition insert_deletion : photo_deletion_row -> DB (obj photo_deletion_row) :=
  insert_unless photo_deletions "gate_photodeletion_storage_key_key"
    (fun r o => o~>pq_storage_key ==? pq_storage_key r).

Definition queue_photo_deletion (photo : obj pending_photo_row) : DB unit :=
  deletion ← insert_deletion (PhotoDeletion photo~>ph_storage_key photo~>ph_version_id);
  bulk_delete pending_photos (fun o => pk o ==? pk photo) ;;
  modify (fun w => w <| w_photo_callbacks ::= fun l => l ++ [pk deletion] |>).

(** [if photo: queue_photo_deletion(photo)] *)
Definition drop_found (photo : option (obj pending_photo_row)) : DB unit :=
  match photo with Some p => queue_photo_deletion p | None => mret tt end.

Definition process_photo_deletion (st : photo_storage) (deletion_id : Z) : DB bool :=
  deletion ← query_pk photo_deletions deletion_id;
  match deletion with
  | None => mret true
  | Some d =>
    deleted ← try_except
      (delete_pending_photo st d~>pq_storage_key d~>pq_version_id ;; mret true)
      (fun _ => mret false);
    if deleted : bool
    then bulk_delete photo_deletions (fun o => pk o ==? deletion_id) ;; mret true
    else mret false
  end.

(** How many of them succeeded. *)
Definition process_photo_deletions (st : photo_storage) : DB Z :=
  ds ← query photo_deletions (fun _ => true);
  done_ ← map_m (fun d => process_photo_deletion st (pk d)) ds;
  mret (Z.of_nat (length (List.filter (fun b : bool => b) done_))).

(** The outermost [transaction.atomic]: its callbacks run once it has committed. *)
Definition commit {A} (st : photo_storage) (body : DB A) : DB A :=
  a ← atomic body;
  ks ← gets w_photo_callbacks;
  modify (fun w => w <| w_photo_callbacks := [] |>) ;;
  for_each (fun k => _ ← process_photo_deletion st k; mret tt) ks ;;
  mret a.

(** ** The columns *)

Definition live (s : review_status) : bool := (s ==? RvPending) || (s ==? RvApproved).
(** The widths, and [gate_no_embedding_when_not_live]. *)
Definition check_face (r : face_row) : DB unit :=
  require ((py_len (fc_model_name r) <=? 64) && (py_len (fc_model_version r) <=? 64) &&
    (py_len (fc_review_note r) <=? 255)) (DatabaseError "value too long") ;;
  require (live (fc_status r) || bool_decide (fc_embedding r = None))
    (IntegrityError "gate_no_embedding_when_not_live").

Definition photo_of (enrollment : Z) : DB (option (obj pending_photo_row)) :=
  query_first pending_photos (fun p => p~>ph_enrollment ==? enrollment).
Definition insert_photo (r : pending_photo_row) : DB (obj pending_photo_row) :=
  require ((py_len (ph_storage_key r) <=? 512) && (py_len (ph_version_id r) <=? 512) &&
    (py_len (ph_content_type r) <=? 127)) (DatabaseError "value too long") ;;
  insert_unless pending_photos "gate_pendingenrollmentphoto"
    (fun r o => (o~>ph_enrollment ==? ph_enrollment r) || (o~>ph_storage_key ==? ph_storage_key r)) r.

(** ** Enrolment *)

Definition ALLOWED_IMAGE_TYPES : list string := ["image/jpeg"; "image/png"].

Record gate_settings := GateSettings {
  gs_max_face_upload_bytes : Z; gs_photo_ttl_hours : Z; gs_event_retention_hours : Z;
  gs_rotation_grace_hours : Z; gs_match_threshold : Z; gs_face_calibrated : bool }.

(** Vectors belong to the embedding model; [seal_embedding] raises [ValueError] on an empty
    or nested one. *)
Record embedding_result (V : Type) := EmbeddingResult {
  er_vector : V; er_model_name : string; er_model_version : string }.
Arguments EmbeddingResult {V}.
Arguments er_vector {V}.
Arguments er_model_name {V}.
Arguments er_model_version {V}.

Section Enrollment.
Context {V : Type} (gs : gate_settings).
Context (embed : string -> result (embedding_result V)) (seal_embedding : V -> option string).

(** [FaceEnrollment.objects.get_or_create(occupancy=...)] *)
Definition get_or_create_face (occupancy : Z) : DB (obj face_row) :=
  found ← query_first faces (fun f => f~>fc_occupancy ==? occupancy);
  match found with
  | Some f => mret f
  | None => now ← timezone_now; create faces (Face occupancy None "" "" RvPending now None None "")
  end.

Definition submitted_row (now : Z) (sealed : string) (result : embedding_result V) (r : face_row) : face_row :=
  r <| fc_embedding := Some sealed |> <| fc_model_name := er_model_name result |>
    <| fc_model_version := er_model_version result |> <| fc_status := RvPending |>
    <| fc_submitted_at := now |> <| fc_reviewed_by := None |> <| fc_reviewed_at := None |>
    <| fc_review_note := "" |>.

(** The transaction of [submit_face_enrollment]. *)
Definition enroll (occupancy : Z) (content_type : string) (byte_size now : Z)
    (result : embedding_result V) (key version_id : string) : DB (obj face_row) :=
  enrollment ← get_or_create_face occupancy;
  previous ← photo_of (pk enrollment);
  drop_found previous ;;
  sealed ← of_option (ValueError "Embedding must be a non-empty 1-D vector.")
    (seal_embedding (er_vector result));
  let row := submitted_row now sealed result (val enrollment) in
  check_face row ;;
  save faces (pk enrollment) (fun _ => row) ;;
  insert_photo (PendingPhoto (pk enrollment) key version_id content_type byte_size
    (now + hours (gs_photo_ttl_hours gs))) ;;
  mret (Obj (pk enrollment) row).

(** [data]: what the upload's [read()] returns; [scanner] may raise. *)
Definition submit_face_enrollment (st : photo_storage) (occupancy : obj occupancy_row)
    (content_type data : string) (scanner : string -> result bool) (hex : string) : DB (obj face_row) :=
  require (str_in content_type ALLOWED_IMAGE_TYPES) (PhotoRejected "Only JPEG or PNG images are accepted.") ;;
  require (negb ((gs_max_face_upload_bytes gs <? Z.of_nat (String.length data)) || negb (truthy data)))
    (PhotoRejected "Image is too large or empty.") ;;
  clean ← of_result (scanner data);
  require clean (PhotoRejected "Image failed the malware scan.") ;;
  result ← of_result (embed data);
  now ← timezone_now;
  stored ← store_pending_photo st hex;
  try_except
    (commit st (enroll (pk occupancy) content_type (Z.of_nat (String.length data)) now result stored.1 stored.2))
    (fun e => delete_pending_photo st stored.1 stored.2 ;; raise e).
End Enrollment.

Definition revoke_face_enrollment (st : photo_storage) (occupancy : Z) : DB unit :=
  commit st (
    found ← query_first faces (fun f => f~>fc_occupancy ==? occupancy);
    match found with
    | None => mret tt
    | Some enrollment =>
      photo ← photo_of (pk enrollment);
      drop_found photo ;;
      (* the delete cascades to the photos of the enrolment *)
      bulk_delete pending_photos (fun o => o~>ph_enrollment ==? pk enrollment) ;;
      bulk_delete faces (fun o => pk o ==? pk enrollment)
    end).

(** ** Review *)

(** [enrollment.occupancy.unit.building_id] *)
Definition occupancy_building (occupancy : Z) : DB Z :=
  o ← get_row occupancies "ResidentOccupancy" occupancy;
  u ← get_row units "Unit" o~>oc_unit;
  mret u~>un_building.

Definition _assert_manages (membership : obj membership_row) (building_id : Z) : DB unit :=
  require ((membership~>mb_building ==? building_id) && membership~>mb_active) ReviewNotPermitted.

Definition _drop_photo (enrollment : Z) : DB unit :=
  photo ← photo_of enrollment;
  drop_found photo.

Definition approved_face (user now : Z) (r : face_row) : face_row :=
  r <| fc_status := RvApproved |> <| fc_reviewed_by := Some user |> <| fc_reviewed_at := Some now |>
    <| fc_review_note := "" |>.

(** The row is read again, under a lock: [enrollment] only says which. *)
Definition approve_face (st : photo_storage) (enrollment : obj face_row) (membership : obj membership_row) :
    DB (obj face_row) :=
  building ← occupancy_building enrollment~>fc_occupancy;
  _assert_manages membership building ;;
  commit st (
    enrollment ← get_row faces "FaceEnrollment" (pk enrollment);
    require (enrollment~>fc_status ==? RvPending) (ReviewNotPossible "Only a pending enrolment can be approved.") ;;
    require (bool_decide (is_Some enrollment~>fc_embedding))
      (ReviewNotPossible "The face embedding is missing; the resident must resubmit.") ;;
    photo ← query_exists pending_photos (fun p => p~>ph_enrollment ==? pk enrollment);
    require photo (ReviewNotPossible "The review photo has expired; the resident must resubmit.") ;;
    now ← timezone_now;
    let row := approved_face membership~>mb_user now in
    save_fields faces check_face (pk enrollment) row ;;
    _drop_photo (pk enrollment) ;;
    mret (Obj (pk enrollment) (row (val enrollment)))).

Definition closed_face (user now : Z) (note : string) (r : face_row) : face_row :=
  r <| fc_status := RvRejected |> <| fc_embedding := None |> <| fc_reviewed_by := Some user |>
    <| fc_reviewed_at := Some now |> <| fc_review_note := py_take 255 note |>.

Definition _close_face (st : photo_storage) (enrollment : obj face_row) (membership : obj membership_row)
    (note : string) : DB (obj face_row) :=
  commit st (
    now ← timezone_now;
    let row := closed_face membership~>mb_user now note in
    save_fields faces check_face (pk enrollment) row ;;
    _drop_photo (pk enrollment) ;;
    mret (Obj (pk enrollment) (row (val enrollment)))).

Definition reject_face (st : photo_storage) (enrollment : obj face_row) (membership : obj membership_row)
    (note : option string) : DB (obj face_row) :=
  building ← occupancy_building enrollment~>fc_occupancy;
  _assert_manages membership building ;;
  require (truthy (py_strip (default "" note))) (ReviewNotPossible "A rejection reason is required.") ;;
  require (live enrollment~>fc_status) (ReviewNotPossible "This enrolment has already been closed.") ;;
  _close_face st enrollment membership (py_strip (default "" note)).

Definition revoke_face (st : photo_storage) (enrollment : obj face_row) (membership : obj membership_row) :
    DB (obj face_row) :=
  building ← occupancy_building enrollment~>fc_occupancy;
  _assert_manages membership building ;;
  _close_face st enrollment membership "Revoked by management.".

(** ** Retention of the photos *)

Definition expired_photo (now : Z) (p : obj pending_photo_row) : bool := p~>ph_expires_at <=? now.
Definition expired_face (r : face_row) : face_row := r <| fc_status := RvExpired |> <| fc_embedding := None |>.

Definition expire_enrollment (now enrollment_id : Z) : DB unit :=
  enrollment ← get_row faces "FaceEnrollment" enrollment_id;
  photo ← query_first pending_photos (fun p => (p~>ph_enrollment ==? pk enrollment) && expired_photo now p);
  match photo with
  | None => mret tt
  | Some photo =>
    (if enrollment~>fc_status ==? RvPending then save_fields faces check_face (pk enrollment) expired_face
     else mret tt) ;;
    queue_photo_deletion photo
  end.

Definition purge_expired_enrollment_photos (st : photo_storage) (now : Z) : DB Z :=
  expired ← query pending_photos (expired_photo now);
  for_each (fun p => commit st (expire_enrollment now p~>ph_enrollment)) expired ;;
  process_photo_deletions st ;;
  mret (Z.of_nat (length expired)).

(** ** The invariant *)

Implicit Types (w : world).

(** An enrolment holds a vector exactly while it is pending or approved, and has a review
    photo exactly while it is pending; one enrolment per occupancy, one photo each. *)
Record gate_ok w : Prop := {
  go_faces : table_wf (faces w);
  go_photos : table_wf (pending_photos w);
  go_deletions : table_wf (photo_deletions w);
  go_vector : forall k f, rows (faces w) !! k = Some f -> is_Some (fc_embedding f) <-> live (fc_status f) = true;
  go_pending : forall k f, rows (faces w) !! k = Some f ->
    fc_status f = RvPending <-> exists j p, rows (pending_photos w) !! j = Some p /\ ph_enrollment p = k;
  go_owner : forall j p, rows (pending_photos w) !! j = Some p -> is_Some (rows (faces w) !! ph_enrollment p);
  go_once : forall i j p q, rows (pending_photos w) !! i = Some p -> rows (pending_photos w) !! j = Some q ->
    ph_enrollment p = ph_enrollment q -> i = j;
  go_one : forall i j f g, rows (faces w) !! i = Some f -> rows (faces w) !! j = Some g ->
    fc_occupancy f = fc_occupancy g -> i = j;
  go_callbacks : w_photo_callbacks w = [];
}.

(** Every stored photo is under review or queued for deletion. *)
Definition owned w (o : string * string) : Prop :=
  (exists j p, rows (pending_photos w) !! j = Some p /\ (ph_storage_key p, ph_version_id p) = o) \/
  (exists j d, rows (photo_deletions w) !! j = Some d /\ (pq_storage_key d, pq_version_id d) = o).
(** As the storage names them: [s3] versions have a [VersionId], plain files none. *)
Definition named (s3 : bool) (o : string * string) : Prop :=
  truthy o.1 = true /\ (if s3 then truthy o.2 = true else o.2 = "").
Definition objects_owned (s3 : bool) w : Prop :=
  forall o, o ∈ w_photo_objects w -> named s3 o /\ owned w o.

(** A step that concerns the enrolment [k] and its photos only. *)
Record at_face (k : Z) w w' : Prop := {
  af_faces : table_wf (faces w');
  af_photos : table_wf (pending_photos w');
  af_deletions : table_wf (photo_deletions w');
  af_others : forall j, j <> k -> rows (faces w') !! j = rows (faces w) !! j;
  af_other_photos : forall j p, ph_enrollment p <> k ->
    rows (pending_photos w') !! j = Some p <-> rows (pending_photos w) !! j = Some p;
}.

Lemma at_face_ok k w w' :
  gate_ok w -> at_face k w w' -> w_photo_callbacks w' = [] ->
  match rows (faces w') !! k with
  | None => forall j p, rows (pending_photos w') !! j = Some p -> ph_enrollment p <> k
  | Some f =>
    (is_Some (fc_embedding f) <-> live (fc_status f) = true) /\
    (fc_status f = RvPending <-> exists j p, rows (pending_photos w') !! j = Some p /\ ph_enrollment p = k) /\
    (forall i j p q, rows (pending_photos w') !! i = Some p -> rows (pending_photos w') !! j = Some q ->
      ph_enrollment p = k -> ph_enrollment q = k -> i = j) /\
    (forall j g, j <> k -> rows (faces w) !! j = Some g -> fc_occupancy g <> fc_occupancy f)
  end -> gate_ok w'.
Proof.
  intros [F P D V N O U I C] [F' P' D' HF HP] C' Hk. split; try done.
  - intros j f Hj. destruct (decide (j = k)) as [->|Hne]; [|rewrite HF in Hj by done; by eapply V].
    rewrite Hj in Hk. apply Hk.
  - intros j f Hj. destruct (decide (j = k)) as [->|Hne]; [rewrite Hj in Hk; apply Hk|].
    rewrite HF in Hj by done. rewrite (N j f Hj). split; intros (i & p & Hi & He); exists i, p;
      (split; [|done]); apply HP; congruence.
  - intros j p Hj. destruct (decide (ph_enrollment p = k)) as [E|Hne].
    + rewrite E. destruct (rows (faces w') !! k) eqn:Ek; [eauto|]. by destruct (Hk j p Hj).
    + rewrite HF by done. apply (O j). by apply HP.
  - intros i j p q Hi Hj E. destruct (decide (ph_enrollment p = k)) as [Ep|Hne].
    + destruct (rows (faces w') !! k) eqn:Ek; [|by destruct (Hk i p Hi)].
      destruct Hk as (_ & _ & Hu & _). apply (Hu i j p q); congruence.
    + apply (U i j p q); [apply HP..|done]; congruence.
  - intros i j f g Hi Hj E. destruct (decide (i = k)) as [->|Hi'], (decide (j = k)) as [->|Hj']; [done| | |].
    + rewrite Hi in Hk. rewrite HF in Hj by done. destruct Hk as (_ & _ & _ & Ho). by destruct (Ho j g Hj' Hj).
    + rewrite Hj in Hk. rewrite HF in Hi by done. destruct Hk as (_ & _ & _ & Ho). by destruct (Ho i f Hi' Hi).
    + rewrite HF in Hi, Hj by done. by apply (I i j f g).
Qed.

(** ** What the steps write *)

Lemma lookup_delete_pk {R} k (t : table R) j x :
  rows (delete_where (fun o => pk o ==? k) t) !! j = Some x <-> j <> k /\ rows t !! j = Some x.
Proof.
  rewrite lookup_delete_where. destruct (rows t !! j) as [q|] eqn:E; cbn; [|naive_solver].
  destruct (decide (j = k)) as [->|Hne].
  - rewrite bool_decide_eq_true_2 by done. naive_solver.
  - rewrite bool_decide_eq_false_2 by done. naive_solver.
Qed.

(** The photo of an enrolment is gone, its deletion queued. *)
Definition dropped (k : Z) w w' : Prop :=
  faces w' = faces w /\ w_photo_objects w' = w_photo_objects w /\
  (table_wf (photo_deletions w) -> table_wf (photo_deletions w')) /\
  (table_wf (pending_photos w) -> table_wf (pending_photos w')) /\
  (forall j p, ph_enrollment p <> k ->
    rows (pending_photos w') !! j = Some p <-> rows (pending_photos w) !! j = Some p) /\
  (forall j p, rows (pending_photos w') !! j = Some p -> rows (pending_photos w) !! j = Some p) /\
  (table_wf (photo_deletions w) -> forall o, owned w o -> owned w' o) /\
  occupancies w' = occupancies w /\ w_now w' = w_now w /\ gate_events w' = gate_events w.

Lemma dropped_refl k w : dropped k w w.
Proof. by unfold dropped. Qed.

Lemma queue_deletion_run photo w u w' :
  rows (pending_photos w) !! pk photo = Some (val photo) ->
  queue_photo_deletion photo w = (Ok u, w') ->
  dropped photo~>ph_enrollment w w' /\
  (forall j p, rows (pending_photos w') !! j = Some p <-> j <> pk photo /\ rows (pending_photos w) !! j = Some p) /\
  exists n, w_photo_callbacks w' = w_photo_callbacks w ++ [n].
Proof.
  intros Hp H. unfold queue_photo_deletion, insert_deletion in H. inv_db.
  assert (forall j p, rows (delete_where (fun o => pk o ==? pk photo) (pending_photos w)) !! j = Some p <->
    j <> pk photo /\ rows (pending_photos w) !! j = Some p) as Hrows.
  { intros. apply lookup_delete_pk. }
  split; [|split; [exact Hrows|by eexists]]. unfold dropped. cbn.
  split; [done|]. split; [done|]. split; [apply insert_row_wf|]. split; [apply delete_where_wf|].
  split; [|split; [|split; [|done]]].
  - intros j p Hne. rewrite Hrows. split; [by intros [_ ?]|]. intros Hj. split; [|done]. intros ->. congruence.
  - intros j p Hj%Hrows. apply Hj.
  - intros Hwf o [(j & p & Hj & <-)|(j & d & Hj & <-)].
    + destruct (decide (j = pk photo)) as [->|Hne].
      * right. eexists _, _. split; [apply lookup_inserted|]. cbn. congruence.
      * left. exists j, p. split; [|done]. apply Hrows. done.
    + right. exists j, d. split; [|done]. cbn. rewrite lookup_insert_ne; [done|].
      intros <-. by rewrite table_wf_fresh in Hj.
Qed.

Lemma drop_run k w u w' :
  drop_found (first (fun p => p~>ph_enrollment ==? k) (pending_photos w)) w = (Ok u, w') ->
  (forall i j p q, rows (pending_photos w) !! i = Some p -> rows (pending_photos w) !! j = Some q ->
    ph_enrollment p = k -> ph_enrollment q = k -> i = j) ->
  dropped k w w' /\ (forall j p, rows (pending_photos w') !! j = Some p -> ph_enrollment p <> k).
Proof.
  intros H Hu. unfold drop_found in H. destruct (first _ _) as [photo|] eqn:E.
  - apply first_Some in E as [Hp Hk]. to_prop. apply queue_deletion_run in H as (Hd & Hrows & _); [|done].
    rewrite Hk in Hd. split; [done|]. intros j p [Hne Hj]%Hrows Hjk. apply Hne. by apply (Hu j (pk photo) p (val photo)).
  - apply ret_Ok in H as [_ <-]. split; [apply dropped_refl|]. intros j p Hj Hjk.
    rewrite first_None in E. specialize (E j p Hj). cbn in E. by to_prop.
Qed.

Lemma check_face_Ok r w u w' : check_face r w = (Ok u, w') ->
  w' = w /\ (live (fc_status r) = true \/ fc_embedding r = None).
Proof.
  unfold check_face. intros H. inv_db. split; [done|].
  match goal with H : _ || _ = true |- _ => apply orb_true_iff in H as [?|?%bool_decide_eq_true]; auto end.
Qed.

Lemma save_face_run k f w u w' :
  save_fields faces check_face k f w = (Ok u, w') ->
  exists r, rows (faces w) !! k = Some r /\ w' = w <| faces ::= update k f |>.
Proof.
  unfold save_fields. intros H. inv_db. destruct (find k (faces _)) as [o|] eqn:E; inv_db.
  apply find_Some in E as [Hk Ho]. match goal with H : check_face _ _ = _ |- _ => apply check_face_Ok in H as [-> _] end.
  eauto.
Qed.

(** The other enrolments keep their occupancies. *)
Lemma other_occupancy k r w : gate_ok w -> rows (faces w) !! k = Some r ->
  forall j g, j <> k -> rows (faces w) !! j = Some g -> fc_occupancy g <> fc_occupancy r.
Proof. intros Hok Hr j g Hne Hg E. apply Hne. by eapply (go_one _ Hok). Qed.
Lemma once_at k w : gate_ok w ->
  forall i j p q, rows (pending_photos w) !! i = Some p -> rows (pending_photos w) !! j = Some q ->
    ph_enrollment p = k -> ph_enrollment q = k -> i = j.
Proof. intros Hok i j p q Hi Hj E1 E2. eapply (go_once _ Hok); eauto. congruence. Qed.

(** Closing the review of an enrolment: the row is written, its photo dropped. *)
Lemma decided_ok s3 k f g w w' :
  gate_ok w -> rows (faces w) !! k = Some f ->
  (is_Some (fc_embedding (g f)) <-> live (fc_status (g f)) = true) -> fc_status (g f) <> RvPending ->
  fc_occupancy (g f) = fc_occupancy f ->
  dropped k (w <| faces ::= update k g |>) w' ->
  (forall j p, rows (pending_photos w') !! j = Some p -> ph_enrollment p <> k) ->
  gate_ok (w' <| w_photo_callbacks := [] |>) /\ (objects_owned s3 w -> objects_owned s3 w').
Proof.
  intros Hok Hf Hv Hs Ho (HF & Hobj & HD & HP & Hother & _ & Hown & _) Hno. cbn in *.
  split; [|intros H o Hin; rewrite Hobj in Hin; destruct (H o Hin); split; [done|]; apply Hown; [apply Hok|done]].
  apply (at_face_ok k w); [done| |done|].
  - split; cbn; [rewrite HF; apply update_wf, Hok|apply HP, Hok|apply HD, Hok| |exact Hother].
    intros j Hne. rewrite HF. cbn. by rewrite lookup_alter_ne.
  - cbn. rewrite HF. cbn. rewrite lookup_alter, Hf by done. rewrite decide_True by done. cbn. split; [done|]. split; [|split].
    + split; [done|]. intros (j & p & Hj & E). by destruct (Hno j p Hj).
    + intros i j p q Hi Hj E _. by destruct (Hno i p Hi).
    + intros j h Hne Hj. rewrite Ho. by eapply other_occupancy.
Qed.

(** ** Committing *)

(** What processing queued deletions leaves alone, and what it loses. *)
Record cleared (s3 : bool) w w' : Prop := {
  cl_rest : (faces w', pending_photos w', w_photo_callbacks w', occupancies w', units w', gate_events w', heartbeats w', w_now w') =
    (faces w, pending_photos w, w_photo_callbacks w, occupancies w, units w, gate_events w, heartbeats w, w_now w);
  cl_wf : table_wf (photo_deletions w) -> table_wf (photo_deletions w');
  cl_rows : forall k d, rows (photo_deletions w') !! k = Some d -> rows (photo_deletions w) !! k = Some d;
  cl_objects : forall o, o ∈ w_photo_objects w' -> o ∈ w_photo_objects w;
  cl_owned : objects_owned s3 w -> objects_owned s3 w';
}.
#[local] Instance cleared_preorder s3 : PreOrder (cleared s3).
Proof.
  split; [by split|]. intros x y z [A1 A2 A3 A4 A5] [B1 B2 B3 B4 B5].
  split; [congruence|auto..].
Qed.

Lemma cleared_ok s3 w w' : cleared s3 w w' -> gate_ok w -> gate_ok w'.
Proof.
  intros [R D _ _ _] [F P D' V N O U I C]. injection R as HF HP HC _ _ _ _ _.
  split; rewrite ?HF, ?HP, ?HC; auto.
Qed.

Lemma delete_pending_run st key version w :
  exists r, delete_pending_photo st key version w = r /\
    ((exists e, r = (Err e, w)) \/
     (r = (Ok tt, w) /\ truthy key = false) \/
     r = (Ok tt, w <| w_photo_objects ::= List.filter (fun o =>
       negb (o ==? (key, if ps_s3 st then version else ""))) |>)).
Proof.
  eexists. split; [done|]. unfold delete_pending_photo, remove_object, require, mbind, M_bind, mret, M_ret, modify, raise.
  destruct (truthy key), (ps_s3 st), (truthy version); cbn; try (destruct (ps_delete _ _ _)); eauto 6.
Qed.

Lemma process_run st k w :
  exists b w', process_photo_deletion st k w = (Ok b, w') /\ cleared (ps_s3 st) w w'.
Proof.
  unfold process_photo_deletion, query_pk, gets, try_except, bulk_delete, modify, mbind, M_bind, mret, M_ret.
  destruct (find k (photo_deletions w)) as [d|] eqn:E; [|eexists _, _; split; [done|reflexivity]].
  apply find_Some in E as [_ Hd].
  destruct (delete_pending_run st d~>pq_storage_key d~>pq_version_id w) as (r & -> & [[e ->]|[[-> Ht]| ->]]); cbn.
  - eexists _, _. split; [done|reflexivity].
  - eexists _, _. split; [done|]. split; cbn - [delete_where]; [done|apply delete_where_wf| |done|].
    + by intros j x [_ Hj]%lookup_delete_pk.
    + intros H o Hin. destruct (H o Hin) as [Hn Ho]. split; [done|]. destruct Ho as [Ho|(j & x & Hj & <-)]; [by left|].
      right. exists j, x. split; [|done]. apply lookup_delete_pk. split; [|done]. intros ->. assert (x = val d) as -> by congruence.
      destruct Hn as [Hn _]. cbn in Hn. congruence.
  - eexists _, _. split; [done|]. split; cbn - [delete_where]; [done|apply delete_where_wf| | |].
    + by intros j x [_ Hj]%lookup_delete_pk.
    + intros o [Ho _]%list_elem_of_In%filter_In. by apply list_elem_of_In.
    + intros H o [Hin Hne]%list_elem_of_In%filter_In.
      destruct (H o ltac:(by apply list_elem_of_In)) as [Hn Ho]. split; [done|]. destruct Ho as [Ho|(j & x & Hj & <-)]; [by left|].
      right. exists j, x. split; [|done]. apply lookup_delete_pk. split; [|done]. intros ->. assert (x = val d) as -> by congruence. to_prop. apply Hne.
      destruct Hn as [_ Hn]. cbn in Hn. destruct (ps_s3 st); [done|]. by rewrite Hn.
Qed.

Lemma for_each_total {A} (f : A -> DB unit) (E : world -> world -> Prop) `{!PreOrder E} l :
  (forall x w, exists w', f x w = (Ok tt, w') /\ E w w') ->
  forall w, exists w', for_each f l w = (Ok tt, w') /\ E w w'.
Proof.
  intros Hf. induction l as [|x l IH]; intros w; cbn; [exists w; by split|].
  destruct (Hf x w) as (w1 & H1 & E1), (IH w1) as (w2 & H2 & E2).
  exists w2. unfold mbind, M_bind. rewrite H1. split; [done|]. by transitivity w1.
Qed.

Lemma callbacks_run st ks w :
  exists w', for_each (fun k => _ ← process_photo_deletion st k; mret tt) ks w = (Ok tt, w') /\
    cleared (ps_s3 st) w w'.
Proof.
  apply for_each_total; [apply _|]. intros k v. destruct (process_run st k v) as (b & v' & E & C).
  exists v'. unfold mbind, M_bind. by rewrite E.
Qed.

(** A transaction that commits is followed by its callbacks, one that raises by nothing. *)
Lemma commit_run {A} st (body : DB A) w :
  match body w with
  | (Ok a, w1) => exists w', commit st body w = (Ok a, w') /\
      cleared (ps_s3 st) (w1 <| w_photo_callbacks := [] |>) w'
  | (Err e, _) => commit st body w = (Err e, w)
  end.
Proof.
  unfold commit, atomic, gets, modify, mbind, M_bind, mret, M_ret. destruct (body w) as [[a|e] w1]; [|done]. cbn beta iota.
  destruct (callbacks_run st (w_photo_callbacks w1) (w1 <| w_photo_callbacks := [] |>)) as (w' & E & C).
  exists w'. split; [|done]. unfold mbind, M_bind, mret, M_ret in E. by rewrite E.
Qed.
Lemma commit_Ok {A} st (body : DB A) w a w' :
  commit st body w = (Ok a, w') ->
  exists w1, body w = (Ok a, w1) /\ cleared (ps_s3 st) (w1 <| w_photo_callbacks := [] |>) w'.
Proof.
  intros H. pose proof (commit_run st body w) as Hc. destruct (body w) as [[b|e] w1]; [|congruence].
  destruct Hc as (w2 & H2 & C). exists w1. rewrite H in H2. by injection H2 as <- <-.
Qed.
Lemma commit_Err {A} st (body : DB A) w e w' : commit st body w = (Err e, w') -> w' = w.
Proof.
  intros H. pose proof (commit_run st body w) as Hc. destruct (body w) as [[b|x] w1]; [|congruence].
  destruct Hc as (w2 & H2 & C). congruence.
Qed.

(** ** Every operation keeps the invariant *)

Definition gate_step (s3 : bool) w w' : Prop :=
  gate_ok w -> gate_ok w' /\ (objects_owned s3 w -> objects_owned s3 w').
#[local] Instance gate_step_preorder s3 : PreOrder (gate_step s3).
Proof. unfold gate_step. split; [by intros w H|]. intros x y z H1 H2 Hx. destruct (H1 Hx), (H2 ltac:(done)). auto. Qed.

Lemma commit_step {A} s3 st (body : DB A) w :
  ps_s3 st = s3 ->
  (forall a w1, body w = (Ok a, w1) -> gate_ok w ->
    gate_ok (w1 <| w_photo_callbacks := [] |>) /\ (objects_owned s3 w -> objects_owned s3 w1)) ->
  gate_step s3 w (commit st body w).2.
Proof.
  intros <- Hb Hok. pose proof (commit_run st body w) as Hc. destruct (body w) as [[a|e] w1].
  - destruct Hc as (w' & -> & C). destruct (Hb a w1 eq_refl Hok) as [H1 H2]. split; [by eapply cleared_ok|].
    intros H. by apply (cl_owned _ _ _ C), H2.
  - by rewrite Hc.
Qed.

Ltac inv_gate :=
  repeat match goal with
  | H : save_fields faces check_face _ _ _ = (Ok _, _) |- _ =>
    let r := fresh "r" in let Hr := fresh "Hr" in apply save_face_run in H as (r & Hr & ->)
  end.

Lemma face_closed_step s3 st e m note w :
  ps_s3 st = s3 -> gate_step s3 w (_close_face st e m note w).2.
Proof.
  intros Hst. apply commit_step; [done|]. intros a w1 H Hok. unfold _drop_photo, photo_of in H. inv_db. inv_gate.
  match goal with H : drop_found _ _ = _ |- _ => apply drop_run in H as [Hd Hno]; [|exact (once_at _ _ Hok)] end.
  eapply (decided_ok _ _ r); try done; cbn; [by split; [intros []|]|done|done].
Qed.

Lemma approved_step s3 st e m w :
  ps_s3 st = s3 -> gate_step s3 w (approve_face st e m w).2.
Proof.
  intros Hst. unfold approve_face, occupancy_building, _assert_manages.
  repeat (apply (keeps_bind (gate_step s3)); [keeps_db; apply _|intros ? ? ?]). inv_db.
  apply commit_step; [done|]. intros a w1 Hb Hok. unfold _drop_photo, photo_of in Hb. inv_db. inv_gate. inv_query. to_prop.
  match goal with H : drop_found _ _ = _ |- _ => apply drop_run in H as [Hd Hno]; [|exact (once_at _ _ Hok)] end.
  assert (r = val x0) as -> by congruence.
  eapply (decided_ok _ _ (val x0)); try done; cbn; [by split|done|done].
Qed.

Lemma review_step {A} s3 (e : obj face_row) (m : obj membership_row) (body : DB A) w :
  gate_step s3 w (body w).2 ->
  gate_step s3 w ((building ← occupancy_building e~>fc_occupancy; _assert_manages m building ;; body) w).2.
Proof.
  intros Hb. unfold occupancy_building, _assert_manages.
  repeat (apply (keeps_bind (gate_step s3)); [keeps_db; apply _|intros ? ? ?]). inv_db. done.
Qed.

Lemma revoked_step s3 st occupancy w :
  ps_s3 st = s3 -> gate_step s3 w (revoke_face_enrollment st occupancy w).2.
Proof.
  intros Hst. apply commit_step; [done|]. intros a w1 H Hok. unfold photo_of in H. inv_db.
  destruct (first _ (faces _)) as [f|] eqn:Ef; inv_db.
  2: { split; [|done]. destruct Hok. by split. }
  inv_query.
  match goal with H : drop_found _ _ = _ |- _ => apply drop_run in H as [Hd Hno]; [|exact (once_at _ _ Hok)] end.
  match goal with Hd : dropped _ _ ?v |- _ => set (w2 := v) in * end.
  destruct Hd as (HF & Hobj & HD & HP & Hother & Hsub & Hown & _). cbn in *.
  assert (forall j p, rows (delete_where (fun o => o~>ph_enrollment ==? pk f) (pending_photos w2)) !! j = Some p <->
    rows (pending_photos w2) !! j = Some p) as Hsame.
  { intros j p. rewrite lookup_delete_where. destruct (rows (pending_photos w2) !! j) as [q|] eqn:Ej; cbn; [|done].
    by rewrite bool_decide_eq_false_2 by (by eapply Hno). }
  split.
  - apply (at_face_ok (pk f) w); [done| |done|].
    + split; cbn - [delete_where]; [apply delete_where_wf; rewrite HF; apply Hok|apply delete_where_wf, HP, Hok|apply HD, Hok| |].
      * intros j Hne. rewrite HF. destruct (rows (faces w) !! j) as [x|] eqn:Ej; [by apply lookup_delete_pk|].
        destruct (rows (delete_where _ _) !! j) as [x|] eqn:E2; [|done]. apply lookup_delete_pk in E2 as [_ E2]. congruence.
      * intros j p Hne. rewrite Hsame. by apply Hother.
    + cbn - [delete_where]. destruct (rows (delete_where _ (faces w2)) !! pk f) as [x|] eqn:E.
      * by apply lookup_delete_pk in E as [? _].
      * intros j p Hj%Hsame. by eapply Hno.
  - intros Ho o Hin. cbn in Hin. rewrite Hobj in Hin. destruct (Ho o Hin) as [Hn Hw]. split; [done|].
    destruct (Hown (go_deletions _ Hok) o Hw) as [(j & p & Hj & E)|Hdel]; [left|by right].
    exists j, p. split; [|done]. by apply Hsame.
Qed.

Lemma expired_run now k w u w1 :
  expire_enrollment now k w = (Ok u, w1) -> gate_ok w ->
  w1 = w /\ (forall j p, rows (pending_photos w) !! j = Some p -> ph_enrollment p = k -> now < ph_expires_at p) \/
  exists f, rows (faces w) !! k = Some f /\ dropped k (w <| faces ::= update k expired_face |>) w1 /\
    (forall j p, rows (pending_photos w1) !! j = Some p -> ph_enrollment p <> k).
Proof.
  unfold expire_enrollment. intros H Hok. inv_db. inv_query.
  match goal with H : match ?o with _ => _ end _ = _ |- _ => destruct o as [photo|] eqn:E; inv_db end.
  - right. inv_query. to_prop. unfold expired_photo in *. to_prop.
    match goal with H : rows (faces _) !! pk ?f = Some (val ?f) |- _ => exists (val f); split; [done|];
      assert (fc_status (val f) = RvPending) as Hs by (apply (go_pending _ Hok _ _ H); eauto) end.
    rewrite bool_decide_eq_true_2 in * by done. inv_gate.
    match goal with H : queue_photo_deletion _ _ = _ |- _ => apply queue_deletion_run in H as (Hd & Hrows & _); [|done] end.
    split; [congruence|]. intros j p [Hne Hj]%Hrows Hp. apply Hne. cbn in Hj.
    by eapply (once_at _ _ Hok); eauto.
  - left. split; [done|]. intros j p Hj Hp. inv_query. 
    match goal with H : forall k r, rows (pending_photos _) !! k = Some r -> _ = false |- _ => specialize (H j p Hj); cbn in H end.
    rewrite bool_decide_eq_true_2 in * by congruence. unfold expired_photo in *. cbn in *. to_prop. done.
Qed.

Lemma expire_step s3 st now k w :
  ps_s3 st = s3 -> gate_step s3 w (commit st (expire_enrollment now k) w).2.
Proof.
  intros Hst. apply commit_step; [done|]. intros a w1 H Hok.
  apply expired_run in H as [[-> _]|(f & Hf & Hd & Hno)]; [split; [by destruct Hok|done]| |done].
  eapply (decided_ok _ _ f); try done; cbn; [by split; [intros []|]|done|done].
Qed.

(** A purged enrolment has no expired photo left, the others keep theirs. *)
Lemma expire_all st now l : forall w u w',
  for_each (fun p : obj pending_photo_row => commit st (expire_enrollment now p~>ph_enrollment)) l w = (Ok u, w') ->
  gate_ok w ->
  gate_ok w' /\ gate_events w' = gate_events w /\ w_now w' = w_now w /\
  (forall j q, rows (pending_photos w') !! j = Some q -> rows (pending_photos w) !! j = Some q) /\
  (forall p, p ∈ l -> forall j q, rows (pending_photos w') !! j = Some q ->
    ph_enrollment q = p~>ph_enrollment -> now < ph_expires_at q).
Proof.
  induction l as [|p l IH]; intros w u w' H Hok; cbn [for_each] in H; inv_db.
  { split; [done|]. split; [done|]. split; [done|]. split; [done|]. intros p Hp. inversion Hp. }
  match goal with H : commit _ _ _ = _ |- _ => rename H into Hc end.
  pose proof (expire_step (ps_s3 st) st now p~>ph_enrollment w eq_refl Hok) as Hst. rewrite Hc in Hst. destruct Hst as [Hok1 _].
  apply commit_Ok in Hc as (w1 & Hb & C). destruct C as [R _ _ _ _]. injection R as EF EP EC EO EU EG EH EN.
  match goal with H : for_each _ _ _ = _ |- _ => apply IH in H as (Hok2 & HG & HN & Hsub & Hall); [|done] end.
  assert ((forall j q, rows (pending_photos w1) !! j = Some q -> rows (pending_photos w) !! j = Some q) /\
    gate_events w1 = gate_events w /\ w_now w1 = w_now w /\
    forall j q, rows (pending_photos w1) !! j = Some q -> ph_enrollment q = p~>ph_enrollment -> now < ph_expires_at q)
    as (Hsub1 & HG1 & HN1 & Hp1).
  { apply expired_run in Hb as [[-> Hun]|(f & Hf & (_ & _ & _ & _ & _ & Hs & _ & _ & Hn & Hg) & Hno)]; [by eauto| |done].
    cbn in *. split; [done|]. split; [done|]. split; [done|]. intros j q Hj Hq. by destruct (Hno j q Hj). }
  cbn in *. split; [done|]. split; [congruence|]. split; [congruence|]. split.
  - intros j q Hj%Hsub. rewrite EP in Hj. auto.
  - intros y [->|Hy]%elem_of_cons j q Hj Hq; [|by eauto]. apply Hsub in Hj. rewrite EP in Hj. eauto.
Qed.

Lemma process_all_run st w :
  exists n w', process_photo_deletions st w = (Ok n, w') /\ cleared (ps_s3 st) w w'.
Proof.
  assert (forall ds w, exists bs w', map_m (fun d : obj photo_deletion_row => process_photo_deletion st (pk d)) ds w = (Ok bs, w') /\
    cleared (ps_s3 st) w w') as H.
  { induction ds as [|d ds IH]; intros v; cbn [map_m]; [eexists _, _; split; [done|reflexivity]|].
    destruct (process_run st (pk d) v) as (b & v1 & E1 & C1), (IH v1) as (bs & v2 & E2 & C2).
    exists (b :: bs), v2. unfold mbind, M_bind in *. rewrite E1, E2. split; [done|]. by transitivity v1. }
  unfold process_photo_deletions, query, gets. unfold mbind at 1, M_bind at 1.
  destruct (H (select (fun _ => true) (photo_deletions w)) w) as (bs & w' & E & C).
  unfold mbind, M_bind. rewrite E. by eexists _, _.
Qed.

Lemma process_all_step s3 st w : ps_s3 st = s3 -> gate_step s3 w (process_photo_deletions st w).2.
Proof.
  intros <-. destruct (process_all_run st w) as (n & w' & -> & C). intros Hok. split; [by eapply cleared_ok|apply C].
Qed.

(** What a purge of the photos that returns leaves. *)
Lemma purged_run st now w n w' : purge_expired_enrollment_photos st now w = (Ok n, w') -> gate_ok w ->
  gate_ok w' /\ gate_events w' = gate_events w /\ w_now w' = w_now w /\
  forall j q, rows (pending_photos w') !! j = Some q -> now < ph_expires_at q.
Proof.
  unfold purge_expired_enrollment_photos. intros H Hok. inv_db.
  match goal with H : for_each _ _ _ = _ |- _ => apply expire_all in H as (Hok1 & HG & HN & Hsub & Hall); [|done] end.
  match goal with H : process_photo_deletions st ?v = _ |- _ =>
    destruct (process_all_run st v) as (k & w2 & E & C); rewrite E in H; injection H as <- <- end.
  split; [by eapply cleared_ok|]. destruct C as [R _ _ _ _]. injection R as EF EP EC EO EU EG EH EN.
  split; [congruence|]. split; [congruence|]. intros j q Hj. rewrite EP in Hj.
  destruct (Z.leb_spec (ph_expires_at q) now) as [Hle|]; [|done].
  apply (Hall (Obj j q)) with j; [|done..]. apply elem_of_select. split; [by apply Hsub|].
  unfold expired_photo. by apply Z.leb_le.
Qed.

Lemma purged_step s3 st now w : ps_s3 st = s3 -> gate_step s3 w (purge_expired_enrollment_photos st now w).2.
Proof.
  intros Hst. unfold purge_expired_enrollment_photos.
  apply (keeps_bind (gate_step s3)); [keeps_db; apply _|intros ps w1 _].
  apply (keeps_bind (gate_step s3)).
  - apply (keeps_for_each (gate_step s3)). intros p w2 _. by apply expire_step.
  - intros [] w2 _. apply (keeps_bind (gate_step s3)); [by apply process_all_step|intros; apply keeps_ret; apply _].
Qed.

(** ** Submitting *)

Section Submit.
Context {V : Type} (gs : gate_settings).
Context (embed : string -> result (embedding_result V)) (seal_embedding : V -> option string).

Lemma get_or_create_face_run occupancy w f w1 :
  get_or_create_face occupancy w = (Ok f, w1) -> gate_ok w ->
  f~>fc_occupancy = occupancy /\ rows (faces w1) !! pk f = Some (val f) /\ table_wf (faces w1) /\
  (forall j, j <> pk f -> rows (faces w1) !! j = rows (faces w) !! j) /\
  (forall j g, j <> pk f -> rows (faces w) !! j = Some g -> fc_occupancy g <> occupancy) /\
  w1 = w <| faces := faces w1 |>.
Proof.
  unfold get_or_create_face. intros H Hok. inv_db. destruct (first _ (faces _)) as [g|] eqn:E; inv_db; inv_query; to_prop.
  - split; [done|]. split; [done|]. split; [apply Hok|]. split; [done|]. split; [|by destruct w1].
    intros j h Hne Hj. match goal with H : _ = occupancy |- _ => rewrite <- H end.
    by eapply (other_occupancy _ _ _ Hok); eauto.
  - cbn. split; [done|]. split; [by rewrite lookup_insert, decide_True|]. split; [apply insert_row_wf, Hok|].
    split; [intros j Hne; by rewrite lookup_insert_ne|]. split; [|done].
    intros j g _ Hj Hg. specialize (E j g Hj). cbn in E. by to_prop.
Qed.

Lemma enroll_run occupancy ct size now result key version w o w1 :
  enroll gs seal_embedding occupancy ct size now result key version w = (Ok o, w1) -> gate_ok w ->
  gate_ok (w1 <| w_photo_callbacks := [] |>) /\
  (forall v, owned w v -> owned w1 v) /\ owned w1 (key, version) /\ w_photo_objects w1 = w_photo_objects w.
Proof.
  unfold enroll, photo_of, insert_photo. intros H Hok. inv_db.
  repeat match goal with
  | H : get_or_create_face _ _ = _ |- _ => apply get_or_create_face_run in H as (Hocc & Hrow & Hwf & Hoth & Hnew & Hw); [|done]
  | H : check_face _ _ = _ |- _ => apply check_face_Ok in H as [-> _]
  end.
  match type of Hrow with rows (faces ?v) !! pk ?e = _ => set (k := pk e) in *; set (wa := v) in * end.
  assert (pending_photos wa = pending_photos w /\ photo_deletions wa = photo_deletions w /\
    w_photo_objects wa = w_photo_objects w) as (EP & ED & EO) by (by rewrite Hw).
  match goal with H : drop_found _ _ = _ |- _ => apply (drop_run k) in H as [Hd Hno];
    [|rewrite EP; exact (once_at _ _ Hok)] end.
  destruct Hd as (HF & Hobj & HD & HP & Hother & Hsub & Hown & _).
  match type of HF with faces ?v = _ => set (wb := v) in * end. rewrite EP, ED in *.
  split.
  - apply (at_face_ok k w); [done| |done|].
    + split; cbn - [update insert_row].
      * apply update_wf. by rewrite HF.
      * apply insert_row_wf, HP, Hok.
      * apply HD, Hok.
      * intros j Hne. rewrite lookup_update, decide_False by done. rewrite HF. by apply Hoth.
      * intros j p Hne. rewrite lookup_insert_row. case_decide as E; [|by apply Hother]. subst j.
        rewrite <- Hother by done. rewrite table_wf_fresh by (apply HP, Hok). split; [intros [= <-]; by destruct Hne|done].
    + cbn - [update insert_row]. rewrite lookup_update, decide_True, HF, Hrow by done. cbn - [insert_row].
      split; [by split|]. split; [|split].
      * split; [|done]. intros _. eexists _, _. split; [apply lookup_inserted|done].
      * intros i j p q Hi Hj Ep Eq. rewrite lookup_insert_row in Hi, Hj.
        repeat case_decide; first [congruence|by destruct (Hno j q Hj)|by destruct (Hno i p Hi)].
      * intros j g Hne Hj. rewrite Hocc. by eapply Hnew.
  - split; [|split; [|cbn; congruence]].
    + intros v Hv. assert (owned wa v) as Ha by (unfold owned; by rewrite EP, ED).
      destruct (Hown ltac:(apply Hok) v Ha) as [(j & p & Hj & E)|Hdel]; [left|by right].
      exists j, p. split; [|done]. cbn - [insert_row]. rewrite lookup_insert_row. case_decide; [|done]. subst j.
      rewrite table_wf_fresh in Hj; [done|apply HP, Hok].
    + left. eexists _, _. split; [cbn - [insert_row]; apply lookup_inserted|done].
Qed.

(** A storage whose deletions work, as far as the new photo goes. *)
Definition reliable (st : photo_storage) : Prop :=
  forall key, ps_cleanup st key = true /\ (forall version, ps_delete st key version = true) /\
    (forall name, ps_save st key = Some name -> truthy name = true).

(** The new photo is stored, or nothing is, unless undoing a put fails. *)
Lemma store_run st hex w r w1 : store_pending_photo st hex w = (r, w1) ->
  (exists e, r = Err e /\ (w1 = w \/ (~ reliable st /\ exists o, w1 = w <| w_photo_objects ::= cons o |>))) \/
  exists o, r = Ok o /\ w1 = w <| w_photo_objects ::= cons o |> /\ (reliable st -> named (ps_s3 st) o).
Proof.
  unfold store_pending_photo, of_option, add_object, modify, raise, mbind, M_bind, mret, M_ret.
  set (key := PREFIX +:+ "/" +:+ hex). destruct (ps_s3 st) eqn:Es.
  - destruct (ps_put st key) as [answer|]; [|intros [= <- <-]; left; eauto].
    destruct (truthy (default "" answer)) eqn:Ev.
    + intros [= <- <-]. right. eexists. split; [done|]. split; [done|]. by intros _.
    + destruct (ps_cleanup st key) eqn:Ec; intros [= <- <-]; left; eexists; (split; [done|]); [by left|right].
      split; [|eauto]. intros Hr. destruct (Hr key) as [Hc _]. congruence.
  - destruct (ps_save st key) as [name|] eqn:En; intros [= <- <-]; [|left; eauto].
    right. eexists. split; [done|]. split; [done|]. intros Hr. destruct (Hr key) as (_ & _ & Hn). split; [by apply Hn|done].
Qed.

Lemma gate_ok_object l w : gate_ok (w <| w_photo_objects := l |>) <-> gate_ok w.
Proof. split; intros [? ? ? ? ? ? ? ? ?]; by split. Qed.

Lemma delete_reliable st key version w : reliable st -> named (ps_s3 st) (key, version) ->
  delete_pending_photo st key version w =
    (Ok tt, w <| w_photo_objects ::= List.filter (fun o => negb (o ==? (key, version))) |>).
Proof.
  intros Hr [Hk Hv]. cbn in *. destruct (Hr key) as (_ & Hd & _). unfold delete_pending_photo, require, mbind, M_bind.
  rewrite Hk. cbn [negb]. destruct (ps_s3 st); [rewrite Hv|subst version]; by rewrite Hd.
Qed.

Lemma submit_step s3 st occupancy ct data scanner hex w :
  ps_s3 st = s3 -> gate_ok w ->
  gate_ok (submit_face_enrollment gs embed seal_embedding st occupancy ct data scanner hex w).2 /\
  (reliable st -> objects_owned s3 w ->
    objects_owned s3 (submit_face_enrollment gs embed seal_embedding st occupancy ct data scanner hex w).2).
Proof.
  intros Hst Hok. unfold submit_face_enrollment, require, of_result, timezone_now, gets, raise, mbind, M_bind, mret, M_ret.
  destruct (str_in _ _); [|done]. destruct (negb _); [|done]. destruct (scanner data) as [[]|]; [|done|done].
  destruct (embed data) as [result|]; [|done]. cbn beta iota.
  destruct (store_pending_photo st hex w) as [r w1] eqn:E. apply store_run in E as [(e & -> & H)|([key version] & -> & -> & Hn)].
  { destruct H as [->|(Hr & o & ->)]; [done|]. split; [by apply (gate_ok_object (o :: w_photo_objects w))|done]. }
  cbn beta iota. unfold try_except. rewrite <- Hst.
  set (w1 := w <| w_photo_objects ::= cons (key, version) |>).
  assert (gate_ok w1) as Hok1 by (by apply (gate_ok_object ((key, version) :: w_photo_objects w))).
  match goal with |- context [commit st ?b w1] => pose proof (commit_run st b w1) as Hc; destruct (b w1) as [[f|e] w2] eqn:Eb end.
  - destruct Hc as (w3 & -> & C). apply enroll_run in Eb as (H2 & Hown & Hnew & Hobj); [|done].
    split; [by eapply cleared_ok|]. intros Hr Ho. apply (cl_owned _ _ _ C). intros o Hin. cbn in Hin. rewrite Hobj in Hin.
    apply elem_of_cons in Hin as [->|Hin]; [by split; [apply Hn|]|].
    destruct (Ho o Hin) as [? Hw]. split; [done|]. apply (Hown o) in Hw. exact Hw.
  - rewrite Hc. cbn beta iota. cbn [fst snd]. split.
    + destruct (delete_pending_run st key version w1) as (r & -> & [[x ->]|[[-> _]| ->]]); cbn beta iota;
        [done|done|]. by eapply (gate_ok_object _ w1).
    + intros Hr Ho. rewrite delete_reliable by auto. cbn beta iota. intros o Hin.
      apply list_elem_of_In, filter_In in Hin as [Hin Hne]. to_prop. apply list_elem_of_In in Hin.
      apply elem_of_cons in Hin as [->|Hin]; [done|]. exact (Ho o Hin).
Qed.
End Submit.

(** ** Runs *)

Section Machine.
Context {V : Type} (gs : gate_settings).
Context (embed : string -> result (embedding_result V)) (seal_embedding : V -> option string).

(** What residents, managers and the retention job do with faces. *)
Inductive gate_op :=
  | Submit (occupancy : obj occupancy_row) (content_type data : string) (scanner : string -> result bool)
      (hex : string)
  | Leave (occupancy : Z)
  | Approve (enrollment : obj face_row) (membership : obj membership_row)
  | Reject (enrollment : obj face_row) (membership : obj membership_row) (note : option string)
  | Revoke (enrollment : obj face_row) (membership : obj membership_row)
  | PurgePhotos
  | RetryDeletions.
Definition run_gate (st : photo_storage) (op : gate_op) : DB unit :=
  match op with
  | Submit o ct data scanner hex =>
    _ ← submit_face_enrollment gs embed seal_embedding st o ct data scanner hex; mret tt
  | Leave o => revoke_face_enrollment st o
  | Approve e m => _ ← approve_face st e m; mret tt
  | Reject e m note => _ ← reject_face st e m note; mret tt
  | Revoke e m => _ ← revoke_face st e m; mret tt
  | PurgePhotos => now ← timezone_now; _ ← purge_expired_enrollment_photos st now; mret tt
  | RetryDeletions => _ ← process_photo_deletions st; mret tt
  end.
(** Operations at the instants they run at, with what the storage answers them. *)
Definition gate_run : list (Z * photo_storage * gate_op) -> world -> world :=
  fun ops w => foldl (fun w x => (run_gate x.1.2 x.2 (at_time x.1.1 w)).2) w ops.

(** The storage is the one the photos are in, and a photo that was not enrolled is deleted. *)
Definition storage_works (s3 : bool) (x : Z * photo_storage * gate_op) : Prop :=
  ps_s3 x.1.2 = s3 /\ match x.2 with Submit _ _ _ _ _ => reliable x.1.2 | _ => True end.

Lemma gate_ok_at t w : gate_ok w -> gate_ok (at_time t w).
Proof. intros [? ? ? ? ? ? ? ? ?]. by split. Qed.
Lemma bind_unit {A} (m : DB A) w : ((m ≫= (fun _ => mret tt)) w).2 = (m w).2.
Proof. unfold mbind, M_bind. by destruct (m w) as [[?|?] ?]. Qed.

Lemma run_gate_step st op w : gate_ok w ->
  gate_ok (run_gate st op w).2 /\
  forall s3, storage_works s3 (0, st, op) -> objects_owned s3 w -> objects_owned s3 (run_gate st op w).2.
Proof.
  intros Hok.
  assert (forall s3, (match op with Submit _ _ _ _ _ => False | _ => True end) -> ps_s3 st = s3 ->
    gate_step s3 w (run_gate st op w).2) as Hstep.
  { intros s3 Hop Hs. destruct op as [| |e m|e m note|e m| |]; cbn [run_gate] in *; rewrite ?bind_unit; [done|..].
    - by apply revoked_step.
    - by apply approved_step.
    - unfold reject_face. apply review_step.
      repeat (apply (keeps_bind (gate_step s3)); [apply keeps_require; apply _|intros ? ? _]). by apply face_closed_step.
    - apply review_step. by apply face_closed_step.
    - unfold timezone_now, gets. unfold mbind at 1, M_bind at 1. rewrite bind_unit. by apply purged_step.
    - by apply process_all_step. }
  destruct op as [o ct data scanner hex| | | | | |]; cbn [run_gate];
    [|split; [by apply (Hstep _ I eq_refl)|intros s3 [Hs _]; by apply (Hstep s3 I Hs)]..].
  rewrite bind_unit. split; [by apply (submit_step gs embed seal_embedding (ps_s3 st))|]. intros s3 [Hs Hr]. by apply submit_step.
Qed.
End Machine.

(** ** Properties *)

Section Properties.
Context {V : Type} (gs : gate_settings).
Context (embed : string -> result (embedding_result V)) (seal_embedding : V -> option string).


(** What an approval does.  An approval that returns was made by an active manager of the
    building, found the enrolment pending with its vector and its photo; it keeps the vector
    and the occupancy, stamps who and when, drops the photo, and touches no other enrolment. *)
Theorem approve_face_effect st e m w o w' :
  gate_ok w -> approve_face st e m w = (Ok o, w') ->
  exists f, rows (faces w) !! pk e = Some f /\ fc_status f = RvPending /\ is_Some (fc_embedding f) /\
    m~>mb_active = true /\ (exists oc u, rows (occupancies w) !! e~>fc_occupancy = Some oc /\
      rows (units w) !! oc_unit oc = Some u /\ un_building u = m~>mb_building) /\
    o = Obj (pk e) (approved_face m~>mb_user (w_now w) f) /\
    faces w' = update (pk e) (approved_face m~>mb_user (w_now w)) (faces w) /\
    (forall j p, rows (pending_photos w') !! j = Some p -> ph_enrollment p <> pk e).
Proof.
  intros Hok H. unfold approve_face, occupancy_building, _assert_manages in H. inv_db. inv_query. to_prop.
  match goal with H : commit _ _ _ = _ |- _ => apply commit_Ok in H as (w1 & Hb & C) end.
  unfold _drop_photo, photo_of in Hb. inv_db. inv_gate. inv_query. to_prop.
  match goal with H : drop_found _ _ = _ |- _ => apply drop_run in H as [Hd Hno]; [|exact (once_at _ _ Hok)] end.
  destruct Hd as (HF & _). destruct C as [R _ _ _ _]. injection R as EF EP _ _ _ _ _ _.
  match goal with H : rows (faces w) !! pk e = Some (val ?x) |- _ => exists (val x) end.
  repeat (split; [done || congruence|]). split; [eauto 6|]. split; [congruence|]. split; [rewrite EF, HF; cbn; congruence|].
  rewrite EP. match goal with H : pk _ = pk e |- _ => rewrite <- H end. exact Hno.
Qed.
End Properties.

(** ** Concrete runs *)

Definition demo_gate : gate_settings := GateSettings 8000000 72 24 24 0 true.
(** A model whose vector is the image, sealed as it is. *)
Definition demo_embed (data : string) : result (embedding_result string) := Ok (EmbeddingResult data "m" "1").
Definition demo_seal (v : string) : option string := Some v.
Definition demo_disk : photo_storage :=
  PhotoStorage false (fun _ => None) (fun _ => true) Some (fun _ _ => true).
(** A building with a resident (2) and a manager (1). *)
Definition demo_lobby : world :=
  empty_world (Settings true 0 "" "" "" "" true 10) 0
    <| buildings ::= insert_row "Tower A" |>
    <| users ::= insert_row (User None "Staff" None "pw" true) |>
    <| users ::= insert_row (User None "An" None "pw" true) |>
    <| units ::= insert_row (Unit_ 1 "A-101") |>
    <| occupancies ::= insert_row (Occupancy 2 1 true) |>.
Definition demo_resident : obj occupancy_row := Obj 1 (Occupancy 2 1 true).
Definition demo_guard : obj membership_row := Obj 1 (Membership 1 1 true).
Definition demo_photo (data hex : string) : gate_op :=
  Submit demo_resident "image/png" data (fun _ => Ok true) hex.
Definition demo_gate_run (ops : list gate_op) : world :=
  gate_run demo_gate demo_embed demo_seal ((fun op => (5, demo_disk, op)) <$> ops) demo_lobby.
Definition demo_first : world := demo_gate_run [demo_photo "face-a" "a"].
(** The page the manager looks at shows the first photo. *)
Definition demo_shown : obj face_row := got (Obj 0 (Face 0 None "" "" RvExpired 0 None None ""))
  (get_row faces "FaceEnrollment" 1 demo_first).

Lemma demo_lobby_ok : gate_ok demo_lobby.
Proof. split; try (apply table_wf_b_true; vm_compute; reflexivity); try done. Qed.

(** A photo sent after the page was shown is approved unseen: the approval reads the row
    again and checks nothing that ties it to what was shown. *)
Example approved_unseen :
  fc_embedding (val demo_shown) = Some "face-a" /\
  fc_embedding <$> rows (faces (demo_gate_run [demo_photo "face-a" "a"; demo_photo "face-b" "b";
    Approve demo_shown demo_guard])) !! 1 = Some (Some "face-b") /\
  fc_status <$> rows (faces (demo_gate_run [demo_photo "face-a" "a"; demo_photo "face-b" "b";
    Approve demo_shown demo_guard])) !! 1 = Some RvApproved.
Proof. vm_compute. done. Qed.


Lemma approve_face_effect_witness :
  exists f, rows (faces demo_first) !! 1 = Some f /\ fc_status f = RvPending.
Proof.
  assert (gate_ok demo_first) as Hok
    by exact (proj1 (run_gate_step demo_gate demo_embed demo_seal demo_disk (demo_photo "face-a" "a") _ (gate_ok_at 5 demo_lobby demo_lobby_ok))).
  destruct (approve_face_effect demo_disk demo_shown demo_guard demo_first
    (got demo_shown (approve_face demo_disk demo_shown demo_guard demo_first))
    (approve_face demo_disk demo_shown demo_guard demo_first).2 Hok) as (f & Hf & Hs & _).
  - vm_compute. reflexivity.
  - exists f. split; [exact Hf|exact Hs].
Defined.
