(* ===== verification/Plates.v ===== *)
(** * Plates: vehicle plates at the gate

    [gate/plates.py], the plate parts of [gate/enrollment.py] and [gate/review.py], and
    [match_plate] of [gate/matching.py]: a resident claims a plate, a manager approves it,
    and a building has at most one approved holder of a plate. *)

From S2P Require Import Prelude Table PyStr Schema Store Accounts Gate.
Open Scope Z_scope.

(** ** Normalization *)

Definition MIN_LENGTH : Z := 5.
Definition MAX_LENGTH : Z := 12.
(** [[A-Z0-9]] *)
Definition plate_char (c : ascii) : bool := is_upper c || is_digit c.

Section Plates.
(** [unicodedata.normalize("NFKD", s).upper()], from the Unicode tables. *)
Context (fold_nfkd : string -> string).

Definition normalize_plate (raw : option string) : result string :=
  let normalized := sfilter plate_char (fold_nfkd (default "" raw)) in
  if negb ((MIN_LENGTH <=? slen normalized) && (slen normalized <=? MAX_LENGTH))
  then Err PlateFormatError else Ok normalized.

(** ** Constraints *)

(** The widths, [gate_plate_once_per_occupancy] and [gate_approved_plate_once_per_building],
    for the row written as [k]. *)
Definition same_claim (r : plate_row) (o : obj plate_row) : bool :=
  (o~>vp_occupancy ==? vp_occupancy r) && (o~>vp_plate ==? vp_plate r).
Definition holds (building : Z) (plate : string) (o : obj plate_row) : bool :=
  (o~>vp_building ==? building) && (o~>vp_plate ==? plate) && (o~>vp_status ==? RvApproved).
Definition check_plate (k : Z) (r : plate_row) : DB unit :=
  require ((py_len (vp_plate r) <=? 12) && (py_len (vp_review_note r) <=? 255))
    (DatabaseError "value too long") ;;
  claimed ← query_exists plates (fun o => same_claim r o && negb (pk o ==? k));
  require (negb claimed) (IntegrityError "gate_plate_once_per_occupancy") ;;
  held ← query_exists plates (fun o => holds (vp_building r) (vp_plate r) o && negb (pk o ==? k));
  require (negb ((vp_status r ==? RvApproved) && held)) (IntegrityError "gate_approved_plate_once_per_building").

(** ** Claiming *)

Definition resubmitted_plate (now : Z) (r : plate_row) : plate_row :=
  r <| vp_status := RvPending |> <| vp_reviewed_by := None |> <| vp_reviewed_at := None |>
    <| vp_review_note := "" |> <| vp_submitted_at := now |>.

Definition submit_plate (occupancy : obj occupancy_row) (raw_plate : option string) : DB (obj plate_row) :=
  plate ← of_result (normalize_plate raw_plate);
  unit_ ← get_row units "Unit" occupancy~>oc_unit;
  let building := unit_~>un_building in
  taken ← query_exists plates (fun o => holds building plate o && negb (o~>vp_occupancy ==? pk occupancy));
  require (negb taken) PlateAlreadyRegistered ;;
  now ← timezone_now;
  found ← query_first plates (fun o => (o~>vp_occupancy ==? pk occupancy) && (o~>vp_plate ==? plate));
  match found with
  | None =>
    let row := Plate (pk occupancy) building plate RvPending now None None "" in
    k ← gets (fun w => next (plates w));
    check_plate k row ;;
    create plates row
  | Some o =>
    if o~>vp_status ==? RvRejected then
      let row := resubmitted_plate now (val o) in
      check_plate (pk o) row ;;
      save plates (pk o) (fun _ => row) ;;
      mret (Obj (pk o) row)
    else mret o
  end.

(** The delete cascades to the events that matched the plate. *)
Definition revoke_plate (occupancy plate_id : Z) : DB unit :=
  gone ← query plates (fun o => (o~>vp_occupancy ==? occupancy) && (pk o ==? plate_id));
  bulk_delete gate_events (fun e => existsb (fun o => e~>ge_matched_plate ==? Some (pk o)) gone) ;;
  bulk_delete plates (fun o => (o~>vp_occupancy ==? occupancy) && (pk o ==? plate_id)).

(** ** Review *)

Definition decided_plate (status : review_status) (user now : Z) (note : string) (r : plate_row) : plate_row :=
  r <| vp_status := status |> <| vp_reviewed_by := Some user |> <| vp_reviewed_at := Some now |>
    <| vp_review_note := note |>.

(** [plate] is the object the view loaded. *)
Definition approve_plate (plate : obj plate_row) (membership : obj membership_row) : DB (obj plate_row) :=
  _assert_manages membership plate~>vp_building ;;
  if plate~>vp_status ==? RvApproved then mret plate else
  held ← query_exists plates (fun o => holds plate~>vp_building plate~>vp_plate o && negb (pk o ==? pk plate));
  require (negb held) (ReviewNotPossible "Another resident already holds this plate in this building.") ;;
  now ← timezone_now;
  let row := decided_plate RvApproved membership~>mb_user now "" in
  save_fields plates (check_plate (pk plate)) (pk plate) row ;;
  mret (Obj (pk plate) (row (val plate))).

Definition reject_plate (plate : obj plate_row) (membership : obj membership_row) (note : option string) :
    DB (obj plate_row) :=
  _assert_manages membership plate~>vp_building ;;
  require (truthy (py_strip (default "" note))) (ReviewNotPossible "A rejection reason is required.") ;;
  now ← timezone_now;
  let row := decided_plate RvRejected membership~>mb_user now (py_take 255 (py_strip (default "" note))) in
  save_fields plates (check_plate (pk plate)) (pk plate) row ;;
  mret (Obj (pk plate) (row (val plate))).
Definition revoke_plate_as_manager (plate : obj plate_row) (membership : obj membership_row) :
    DB (obj plate_row) :=
  reject_plate plate membership (Some "Revoked by management.").

(** ** Matching *)

Definition active_occupancy (w : world) (occupancy : Z) : bool :=
  exists_ (fun o => (pk o ==? occupancy) && o~>oc_active) (occupancies w).
Definition match_plate (building : Z) (normalized : string) : DB (option (obj plate_row)) :=
  gets (fun w => first (fun o => holds building normalized o && active_occupancy w o~>vp_occupancy) (plates w)).

(** ** Runs *)

Inductive plate_op :=
  | Claim (occupancy : obj occupancy_row) (raw : option string)
  | Withdraw (occupancy plate_id : Z)
  | ApprovePlate (plate : obj plate_row) (membership : obj membership_row)
  | RejectPlate (plate : obj plate_row) (membership : obj membership_row) (note : option string)
  | RevokePlate (plate : obj plate_row) (membership : obj membership_row).
Definition run_plate (op : plate_op) : DB unit :=
  match op with
  | Claim o raw => _ ← submit_plate o raw; mret tt
  | Withdraw o k => revoke_plate o k
  | ApprovePlate p m => _ ← approve_plate p m; mret tt
  | RejectPlate p m note => _ ← reject_plate p m note; mret tt
  | RevokePlate p m => _ ← revoke_plate_as_manager p m; mret tt
  end.
Definition plate_run : list (Z * plate_op) -> world -> world :=
  fun ops w => foldl (fun w x => (run_plate x.2 (at_time x.1 w)).2) w ops.

(** ** The invariant *)

Definition normalized (s : string) : Prop :=
  sforall plate_char s = true /\ MIN_LENGTH <= slen s <= MAX_LENGTH.

(** Plates are normal, claimed once per occupancy, approved once per building. *)
Record plates_ok (t : table plate_row) : Prop := {
  po_keys : table_wf t;
  po_normal : forall k r, rows t !! k = Some r -> normalized (vp_plate r);
  po_claim : forall i j r s, rows t !! i = Some r -> rows t !! j = Some s ->
    vp_occupancy r = vp_occupancy s -> vp_plate r = vp_plate s -> i = j;
  po_holder : forall i j r s, rows t !! i = Some r -> rows t !! j = Some s ->
    vp_status r = RvApproved -> vp_status s = RvApproved ->
    vp_building r = vp_building s -> vp_plate r = vp_plate s -> i = j;
}.

Lemma normalize_plate_Ok raw s : normalize_plate raw = Ok s -> normalized s.
Proof.
  unfold normalize_plate, normalized. destruct (_ && _) eqn:E; [|done]. intros [= <-].
  split; [apply sforall_sfilter|]. by to_prop.
Qed.

Lemma check_plate_Ok k r w u w' : check_plate k r w = (Ok u, w') ->
  w' = w /\
  (forall j s, j <> k -> rows (plates w) !! j = Some s ->
    ~ (vp_occupancy s = vp_occupancy r /\ vp_plate s = vp_plate r)) /\
  (vp_status r = RvApproved -> forall j s, j <> k -> rows (plates w) !! j = Some s ->
    ~ (vp_status s = RvApproved /\ vp_building s = vp_building r /\ vp_plate s = vp_plate r)).
Proof.
  unfold check_plate. intros H. inv_db. split; [done|].
  match goal with H1 : negb (exists_ _ _) = true, H2 : negb (_ && exists_ _ _) = true |- _ =>
    apply negb_true_iff in H1; apply negb_true_iff in H2; rename H1 into Hc; rename H2 into Hh end.
  rewrite exists_false in Hc. split.
  - intros j s Hne Hj [E1 E2]. specialize (Hc j s Hj). unfold same_claim in Hc. cbn [pk val] in Hc.
    by rewrite E1, E2, (bool_decide_eq_false_2 (j = k)), !bool_decide_eq_true_2 in Hc by done.
  - intros Ha j s Hne Hj (E1 & E2 & E3). rewrite Ha, bool_decide_eq_true_2 in Hh by done. cbn [andb] in Hh.
    rewrite exists_false in Hh. specialize (Hh j s Hj). unfold holds in Hh. cbn [pk val] in Hh.
    by rewrite E1, E2, E3, (bool_decide_eq_false_2 (j = k)), !bool_decide_eq_true_2 in Hh by done.
Qed.

Lemma check_plate_reads k r w : (check_plate k r w).2 = w.
Proof.
  assert (keeps eq (check_plate k r) w) as H; [|by rewrite <- H]. unfold check_plate. keeps_db; done.
Qed.

(** Writing a checked row keeps the invariant. *)
Lemma plates_ok_write k r w t u w' :
  check_plate k r w = (Ok u, w') -> plates_ok (plates w) -> table_wf t -> normalized (vp_plate r) ->
  rows t = <[k := r]> (rows (plates w)) -> plates_ok t.
Proof.
  intros (_ & Hc & Hh)%check_plate_Ok [K N C H] Hwf Hn Ht. split; [done|..]; rewrite Ht.
  - intros j s. rewrite lookup_insert_Some. intros [[_ <-]|[_ Hj]]; eauto.
  - intros i j x y. rewrite !lookup_insert_Some.
    intros [[<- <-]|[Hi Hx]] [[<- <-]|[Hj Hy]] E1 E2; [done| | |by eauto].
    + by destruct (Hc j y ltac:(congruence) Hy).
    + by destruct (Hc i x ltac:(congruence) Hx).
  - intros i j x y. rewrite !lookup_insert_Some.
    intros [[<- <-]|[Hi Hx]] [[<- <-]|[Hj Hy]] A1 A2 E1 E2; [done| | |by eauto].
    + by destruct (Hh A1 j y ltac:(congruence) Hy).
    + by destruct (Hh A2 i x ltac:(congruence) Hx).
Qed.

Definition keeps_plates w w' : Prop := plates_ok (plates w) -> plates_ok (plates w').
#[local] Instance keeps_plates_preorder : PreOrder keeps_plates.
Proof. unfold keeps_plates. split; [by intros ?|]. intros ??? H1 H2 ?. auto. Qed.

Lemma save_plate_keeps k f w : (forall r, vp_plate (f r) = vp_plate r) ->
  keeps keeps_plates (save_fields plates (check_plate k) k f) w.
Proof.
  intros Hf. unfold save_fields. apply (keeps_bind keeps_plates); [keeps_db; apply _|]. intros found w1 H. inv_db.
  destruct (find k (plates w)) as [o|] eqn:E; [|apply keeps_raise; apply _]. apply find_Some in E as [_ Ho].
  pose proof (check_plate_reads k (f (val o)) w) as Hr.
  unfold keeps, mbind, M_bind. destruct (check_plate k (f (val o)) w) as [[u|e] w2] eqn:Ec; cbn in Hr; subst w2; [|by intros ?].
  intros Hok. cbn. eapply (plates_ok_write k (f (val o))); try done.
  - apply update_wf, Hok.
  - rewrite Hf. by eapply po_normal.
  - cbn. apply map_eq. intros j. rewrite lookup_alter, lookup_insert. case_decide; [subst; by rewrite Ho|done].
Qed.

Lemma assert_manages_keeps m b w : keeps keeps_plates (_assert_manages m b) w.
Proof. unfold _assert_manages. keeps_db; apply _. Qed.

(** A write of a checked row, created or saved. *)
Lemma claim_keeps k r (m : DB (obj plate_row)) w :
  normalized (vp_plate r) ->
  (plates_ok (plates w) -> table_wf (plates (m w).2) /\ rows (plates (m w).2) = <[k := r]> (rows (plates w))) ->
  keeps keeps_plates (check_plate k r ;; m) w.
Proof.
  intros Hn Hm. pose proof (check_plate_reads k r w) as Hr. unfold keeps, mbind, M_bind.
  destruct (check_plate k r w) as [[u|e] w2] eqn:Ec; cbn in Hr; subst w2; [|by intros ?].
  intros Hok. destruct (Hm Hok) as [Hwf Hrows]. by eapply plates_ok_write.
Qed.

Lemma submit_keeps o raw w : keeps keeps_plates (submit_plate o raw) w.
Proof.
  unfold submit_plate. repeat (apply (keeps_bind keeps_plates); [keeps_db; apply _|intros ? ? ?]). inv_db.
  match goal with H : normalize_plate _ = Ok _ |- _ => apply normalize_plate_Ok in H as Hn end.
  match goal with |- keeps _ (match ?f with _ => _ end) _ => destruct f as [found|] eqn:E end.
  - apply first_Some in E as [Hf HP]. to_prop. case_match; [|apply keeps_ret; apply _].
    apply claim_keeps; [cbn; congruence|]. intros Hok. unfold save, modify, mbind, M_bind, mret, M_ret. split; [apply update_wf, Hok|].
    cbn. apply map_eq. intros j. rewrite lookup_alter, lookup_insert. case_decide; [subst; by rewrite Hf|done].
  - apply (keeps_bind keeps_plates); [apply keeps_gets; apply _|intros k w1 Hk]. inv_db.
    apply claim_keeps; [done|]. intros Hok. split; [apply insert_row_wf, Hok|done].
Qed.

Lemma reject_keeps p m note w : keeps keeps_plates (reject_plate p m note) w.
Proof.
  unfold reject_plate. apply (keeps_bind keeps_plates); [apply assert_manages_keeps|intros ? ? _].
  repeat (apply (keeps_bind keeps_plates); [keeps_db; apply _|intros ? ? _]).
  apply (keeps_bind keeps_plates); [by apply save_plate_keeps|intros; apply keeps_ret; apply _].
Qed.

Lemma run_plate_keeps op w : keeps keeps_plates (run_plate op) w.
Proof.
  destruct op as [o raw|o k|p m|p m note|p m]; cbn [run_plate];
    try (apply (keeps_bind keeps_plates); [|intros; apply keeps_ret; apply _]).
  - apply submit_keeps.
  - unfold revoke_plate. repeat (apply (keeps_bind keeps_plates); [keeps_db; done|intros ? ? _]).
    unfold keeps, bulk_delete, modify. cbn - [delete_where]. intros [K N C H].
    assert (forall j r, rows (delete_where (fun o0 => (o0~>vp_occupancy ==? o) && (pk o0 ==? k)) (plates w')) !! j = Some r ->
      rows (plates w') !! j = Some r) as Hsub.
    { intros j r. rewrite lookup_delete_where. destruct (rows _ !! j); cbn; [by case_match|done]. }
    split; cbn - [delete_where]; [by apply delete_where_wf|eauto..].
  - unfold approve_plate. apply (keeps_bind keeps_plates); [apply assert_manages_keeps|intros ? ? _].
    case_match; [apply keeps_ret; apply _|].
    repeat (apply (keeps_bind keeps_plates); [keeps_db; apply _|intros ? ? _]).
    apply (keeps_bind keeps_plates); [by apply save_plate_keeps|intros; apply keeps_ret; apply _].
  - apply reject_keeps.
  - apply reject_keeps.
Qed.

(** ** Properties *)


(** A stored plate normalizes to itself. *)
Lemma normalize_plate_normal s : normalized s -> fold_nfkd s = s -> normalize_plate (Some s) = Ok s.
Proof.
  intros [Hs Hl] Hf. unfold normalize_plate. change (default "" (Some s)) with s. rewrite Hf.
  rewrite (sfilter_id plate_char s Hs).
  assert ((MIN_LENGTH <=? slen s) && (slen s <=? MAX_LENGTH) = true) as ->; [|done].
  apply andb_true_iff. rewrite !Z.leb_le. lia.
Qed.
End Plates.

(** ** Concrete runs *)

Definition demo_plates : world :=
  demo_lobby <| occupancies ::= insert_row (Occupancy 1 1 true) |>.
Definition demo_claim (occupancy : Z) (raw : string) : plate_op :=
  Claim (Obj occupancy (Occupancy 2 1 true)) (Some raw).
Definition demo_plate (k occupancy : Z) : obj plate_row :=
  Obj k (Plate occupancy 1 "51F12345" RvPending 5 None None "").
(** Two occupancies claim the plate; the manager approves the first, and tries the second. *)
Definition demo_gatehouse : world :=
  plate_run py_upper ((fun op => (5, op)) <$> [demo_claim 1 "51F-123.45"; demo_claim 2 "51f 123.45";
    ApprovePlate (demo_plate 1 1) demo_guard; ApprovePlate (demo_plate 2 2) demo_guard]) demo_plates.

Lemma demo_plates_ok : plates_ok (plates demo_plates).
Proof. split; [apply table_wf_b_true; vm_compute; reflexivity|done..]. Qed.

