(* ===== verification/Readers.v ===== *)
(** * Readers: gate readers, recognition and retention

    [gate/devices.py], [gate/matching.py] on faces, [gate/recognition.py], the event part of
    [gate/retention.py] and the purge command.  A reader authenticates with a token, sends an
    image or a plate, and gets the resident it matches; the sighting is an event that the
    purge deletes a day later. *)

From S2P Require Import Prelude Table PyStr Schema Store Accounts Gate Plates.
Open Scope Z_scope.

(** ** Tokens *)

Definition AUTH_SCHEME : string := "GateDevice".
Definition _THROTTLE_ACCOUNT : string := "gate_device".

(** [s.split()] *)
Fixpoint words (s : string) : list string :=
  match s with
  | EmptyString => []
  | String c r =>
    if is_space c then words r else
    match r with
    | String d _ =>
      if is_space d then String c EmptyString :: words r
      else match words r with x :: l => String c x :: l | [] => [String c EmptyString] end
    | EmptyString => [String c EmptyString]
    end
  end.
Definition token_from_header (value : option string) : string :=
  match words (default "" value) with
  | [scheme; token] => if String.eqb (py_lower scheme) (py_lower AUTH_SCHEME) then token else ""
  | _ => ""
  end.

Definition is_valid (now : Z) (r : credential_row) : bool :=
  bool_decide (gc_revoked_at r = None) &&
  match gc_expires_at r with None => true | Some e => now <? e end.

Section Devices.
Context {CR : Crypto}.

Definition insert_credential : credential_row -> DB (obj credential_row) :=
  insert_unless credentials "gate_gatedevicecredential_token_sha256_key"
    (fun r o => o~>gc_token_sha256 ==? gc_token_sha256 r).

(** [token]: what [secrets.token_urlsafe(32)] returned. *)
Definition issue_credential (device : Z) (membership : obj membership_row) (token : string) :
    DB (obj credential_row * string) :=
  credential ← insert_credential (Credential device (sha256 token) membership~>mb_user None None None);
  mret (credential, token).

Definition outlives (device expiry : Z) (o : obj credential_row) : bool :=
  (o~>gc_device ==? device) && bool_decide (o~>gc_revoked_at = None) &&
  match o~>gc_expires_at with None => true | Some e => expiry <? e end.
Definition rotate_credential (gs : gate_settings) (device : Z) (membership : obj membership_row)
    (grace_hours : option Z) (token : string) : DB (obj credential_row * string) :=
  let grace := default (gs_rotation_grace_hours gs) grace_hours in
  now ← timezone_now;
  let expiry := now + hours grace in
  atomic (
    bulk_update credentials (outlives device expiry) (fun r => r <| gc_expires_at := Some expiry |>) ;;
    issue_credential device membership token).

Definition revoke_credential (credential : obj credential_row) (membership : obj membership_row) :
    DB (obj credential_row) :=
  now ← timezone_now;
  let row r := r <| gc_revoked_at := Some now |> <| gc_revoked_by := Some membership~>mb_user |> in
  save_fields credentials (fun _ => mret tt) (pk credential) row ;;
  mret (Obj (pk credential) (row (val credential))).

(** [now.replace(minute=0, second=0, microsecond=0)] *)
Definition hour_of (now : Z) : Z := now / hours 1 * hours 1.

(** Refusing a token counts as a failed login of the reader's address. *)
Definition refuse {A} (ip : option string) (e : exn) : DB A :=
  record_auth_failure _THROTTLE_ACCOUNT ip ;; raise e.

(** The credential, and its device as it is then. *)
Definition authenticate_device (token : string) (ip : option string) :
    DB (obj credential_row * obj gate_device_row) :=
  assert_not_throttled _THROTTLE_ACCOUNT ip ;;
  found ← query_first credentials (fun o => o~>gc_token_sha256 ==? sha256 token);
  match found with
  | None => refuse ip GateAuthenticationFailed
  | Some credential =>
    device ← get_row gate_devices "GateDevice" credential~>gc_device;
    if negb device~>gd_active then refuse ip GateAuthenticationFailed
    else if bool_decide (is_Some credential~>gc_revoked_at) then refuse ip GateCredentialRevoked
    else
      now ← timezone_now;
      if negb (is_valid now (val credential)) then refuse ip GateCredentialExpired
      else
        reset_auth_throttle _THROTTLE_ACCOUNT ip ;;
        let hour := hour_of now in
        if device~>gd_last_seen_hour ==? Some hour then mret (credential, device)
        else
          let seen r := r <| gd_last_seen_hour := Some hour |> in
          save gate_devices (pk device) seen ;;
          mret (credential, Obj (pk device) (seen (val device)))
  end.
End Devices.

(** ** Matching *)

Definition MATCH_METRIC : string := "cosine".
(** -1.0 *)
Definition LOWEST : Z := - 2 ^ 1074.

Record FaceMatch := Matched { fm_occupancy : option Z; fm_score : Z }.
Record RecognitionOutcome := Outcome {
  ro_matched : bool; ro_display_name : string; ro_unit_label : string;
  ro_direction : gate_direction; ro_score : option Z; ro_event_id : Z }.

Section Recognition.
Context {V : Type} (gs : gate_settings) (fold_nfkd : string -> string).
Context (embed : string -> result (embedding_result V)).
(** [open_embedding] raises when the key is not the one the vector was sealed with;
    [unit_vector] raises on a zero vector; [dot] is [None] when it is not a number. *)
Context (open_embedding : string -> option V) (unit_vector : V -> option V).
Context (shape : V -> Z) (dot : V -> V -> option Z).

Definition in_building (w : world) (building occupancy : Z) : bool :=
  exists_ (fun o => (pk o ==? occupancy) && o~>oc_active &&
    exists_ (fun u => (pk u ==? o~>oc_unit) && (u~>un_building ==? building)) (units w)) (occupancies w).
Definition matchable (w : world) (building : Z) (model_name model_version : string) (f : obj face_row) : bool :=
  (f~>fc_status ==? RvApproved) && bool_decide (is_Some f~>fc_embedding) &&
  String.eqb f~>fc_model_name model_name && String.eqb f~>fc_model_version model_version &&
  in_building w building f~>fc_occupancy.

(** The score of one row: [None] when it cannot be compared. *)
Definition score_of (probe : V) (f : obj face_row) : result (option Z) :=
  match open_embedding (default "" f~>fc_embedding) with
  | None => Err EmbeddingDecryptionError
  | Some candidate =>
    if shape candidate =? shape probe then
      match unit_vector candidate with
      | None => Err (ValueError "Cannot match a zero-length embedding.")
      | Some u => Ok (dot probe u)
      end
    else Ok None
  end.
Fixpoint best_match (probe : V) (rows : list (obj face_row)) (best : option Z) (best_score : Z) :
    result (option Z * Z) :=
  match rows with
  | [] => Ok (best, best_score)
  | f :: rows =>
    score ← score_of probe f;
    match score with
    | Some s =>
      if best_score <? s then best_match probe rows (Some f~>fc_occupancy) s
      else best_match probe rows best best_score
    | None => best_match probe rows best best_score
    end
  end.

Definition match_face (building : Z) (vector : V) (model_name model_version : string) : DB FaceMatch :=
  probe ← of_option (ValueError "Cannot match a zero-length embedding.") (unit_vector vector);
  rows ← gets (fun w => select (matchable w building model_name model_version) (faces w));
  found ← of_result (best_match probe rows None LOWEST);
  match found with
  | (None, _) => mret (Matched None 0)
  | (Some best, best_score) =>
    mret (Matched (if gs_match_threshold gs <=? best_score then Some best else None) best_score)
  end.

(** ** Recognition *)

Definition insert_event (r : gate_event_row) : DB (obj gate_event_row) :=
  require ((py_len (ge_raw_plate_text r) <=? 64) && (py_len (ge_model_name r) <=? 64) &&
    (py_len (ge_model_version r) <=? 64)) (DatabaseError "value too long") ;;
  require (storable_str (ge_raw_plate_text r)) (DatabaseError "unsupported character") ;;
  create gate_events r.

Definition _outcome (occupancy : option Z) (device : obj gate_device_row) (score : option Z)
    (event : obj gate_event_row) : DB RecognitionOutcome :=
  match occupancy with
  | None => mret (Outcome false "" "" device~>gd_direction score (pk event))
  | Some k =>
    o ← get_row occupancies "ResidentOccupancy" k;
    user ← get_row users "User" o~>oc_user;
    unit_ ← get_row units "Unit" o~>oc_unit;
    mret (Outcome true user~>u_display_name unit_~>un_label device~>gd_direction score (pk event))
  end.

Definition require_face_calibration : DB unit :=
  require (gs_face_calibrated gs) (FaceEmbedderUnavailable "Face recognition calibration is incomplete.").

Definition recognize_face (device : obj gate_device_row) (image_bytes : string) : DB RecognitionOutcome :=
  require_face_calibration ;;
  result ← of_result (embed image_bytes);
  found ← match_face device~>gd_building (er_vector result) (er_model_name result) (er_model_version result);
  now ← timezone_now;
  event ← insert_event (GateEvent device~>gd_building (pk device) FACE device~>gd_direction now
    (fm_occupancy found) None "" "" (er_model_name result) (er_model_version result)
    MATCH_METRIC (Some (gs_match_threshold gs)) (Some (fm_score found)));
  _outcome (fm_occupancy found) device (Some (fm_score found)) event.

Definition recognize_plate (device : obj gate_device_row) (raw_text : option string) : DB RecognitionOutcome :=
  normalized ← of_result (normalize_plate fold_nfkd raw_text);
  plate ← match_plate device~>gd_building normalized;
  let occupancy := (fun p => p~>vp_occupancy) <$> plate in
  now ← timezone_now;
  event ← insert_event (GateEvent device~>gd_building (pk device) PLATE device~>gd_direction now
    occupancy (pk <$> plate) (py_take 64 (default "" raw_text)) normalized "" "" "" None None);
  _outcome occupancy device None event.
End Recognition.

(** ** Retention *)

Definition PURGE_STALE_AFTER_HOURS : Z := 2.

Section Retention.
Context (gs : gate_settings).

Definition event_expired (now : Z) (e : obj gate_event_row) : bool :=
  e~>ge_occurred_at <? now - hours (gs_event_retention_hours gs).
Definition purge_expired_gate_events (now : Z) : DB Z :=
  gone ← query gate_events (event_expired now);
  bulk_delete gate_events (event_expired now) ;;
  mret (Z.of_nat (length gone)).

Definition record_purge_success (events photos : Z) : DB (obj heartbeat_row) :=
  heartbeat ← query_first heartbeats (fun _ => true);
  now ← timezone_now;
  match heartbeat with
  | None => create heartbeats (Heartbeat now events photos)
  | Some h =>
    save heartbeats (pk h) (fun _ => Heartbeat now events photos) ;;
    mret (Obj (pk h) (Heartbeat now events photos))
  end.

(** The newest heartbeat. *)
Definition purge_is_stale (now : Z) : DB bool :=
  hs ← query heartbeats (fun _ => true);
  match order_by (fun h => - h~>hb_last_success_at) hs with
  | [] => mret true
  | h :: _ => mret (h~>hb_last_success_at <? now - hours PURGE_STALE_AFTER_HOURS)
  end.

(** The command [purge_gate_data]: any exception ends it as a [CommandError]. *)
Definition purge_gate_data (st : photo_storage) : DB (Z * Z) :=
  try_except (
    t1 ← timezone_now;
    events ← purge_expired_gate_events t1;
    t2 ← timezone_now;
    photos ← purge_expired_enrollment_photos st t2;
    process_photo_deletions st ;;
    queued ← query_exists photo_deletions (fun _ => true);
    require (negb queued) (ValueError "enrollment photo deletions remain queued") ;;
    record_purge_success events photos ;;
    mret (events, photos))
  (fun e => raise (ValueError "gate retention purge failed")).
End Retention.

(** ** Facts *)

Implicit Types (w : world).

Section Matching.
Context {V : Type} (gs : gate_settings).
Context (open_embedding : string -> option V) (unit_vector : V -> option V).
Context (shape : V -> Z) (dot : V -> V -> option Z).
Notation score := (score_of open_embedding unit_vector shape dot).

Lemma best_match_sound probe rows : forall best s0 b s,
  best_match open_embedding unit_vector shape dot probe rows best s0 = Ok (b, s) ->
  s0 <= s /\
  ((b, s) = (best, s0) \/ exists f, f ∈ rows /\ b = Some f~>fc_occupancy /\ score probe f = Ok (Some s)) /\
  forall f x, f ∈ rows -> score probe f = Ok (Some x) -> x <= s.
Proof.
  induction rows as [|f rows IH]; intros best s0 b s H; cbn [best_match] in H.
  { injection H as <- <-. split; [done|]. split; [by left|]. intros f x Hf. inversion Hf. }
  apply result_bind_Ok in H as (o & Ho & H). destruct o as [x|]; [destruct (Z.ltb_spec s0 x)|].
  - apply IH in H as (Hle & Hb & Hall). split; [lia|]. split.
    + right. destruct Hb as [[= -> ->]|(g & Hg & ?)]; [exists f; split; [left|done]|exists g; split; [by right|done]].
    + intros g y [->|Hg]%elem_of_cons Hy; [|by eauto]. assert (y = x) as -> by congruence. done.
  - apply IH in H as (Hle & Hb & Hall). split; [done|]. split.
    + destruct Hb as [?|(g & Hg & ?)]; [by left|right; exists g; split; [by right|done]].
    + intros g y [->|Hg]%elem_of_cons Hy; [|by eauto]. assert (y = x) as -> by congruence. lia.
  - apply IH in H as (Hle & Hb & Hall). split; [done|]. split.
    + destruct Hb as [?|(g & Hg & ?)]; [by left|right; exists g; split; [by right|done]].
    + intros g y [->|Hg]%elem_of_cons Hy; [congruence|by eauto].
Qed.

(** The occupancy is active, in a unit of the building. *)
Definition lives_in w (building occupancy : Z) : Prop :=
  exists oc un, rows (occupancies w) !! occupancy = Some oc /\ oc_active oc = true /\
    rows (units w) !! oc_unit oc = Some un /\ un_building un = building.

Lemma matchable_true w building model version f : matchable w building model version f = true ->
  f~>fc_status = RvApproved /\ f~>fc_model_name = model /\ f~>fc_model_version = version /\
  lives_in w building f~>fc_occupancy.
Proof.
  unfold matchable, in_building. intros H. to_prop.
  repeat match goal with H : String.eqb _ _ = true |- _ => apply String.eqb_eq in H end.
  match goal with H : exists_ _ _ = true |- _ => apply exists_true in H as (k & oc & Hoc & H) end. to_prop.
  match goal with H : exists_ _ _ = true |- _ => apply exists_true in H as (j & un & Hun & H) end. to_prop.
  cbn in *. split_and!; try done. exists oc, un. by subst.
Qed.

(** What a match says of the enrolments it looked at. *)
Definition match_spec w (building : Z) (probe : V) (model version : string) (m : FaceMatch) : Prop :=
  match fm_occupancy m with
  | Some k => exists f, rows (faces w) !! pk f = Some (val f) /\ f~>fc_status = RvApproved /\
      f~>fc_model_name = model /\ f~>fc_model_version = version /\ lives_in w building k /\ f~>fc_occupancy = k /\ score probe f = Ok (Some (fm_score m)) /\ gs_match_threshold gs <= fm_score m /\
      forall g x, rows (faces w) !! pk g = Some (val g) -> matchable w building model version g = true ->
        score probe g = Ok (Some x) -> x <= fm_score m
  | None => forall g x, rows (faces w) !! pk g = Some (val g) -> matchable w building model version g = true ->
      score probe g = Ok (Some x) -> x <= LOWEST \/ x < gs_match_threshold gs
  end.

Lemma match_face_run building v model version w m w' :
  match_face gs open_embedding unit_vector shape dot building v model version w = (Ok m, w') ->
  w' = w /\ exists probe, unit_vector v = Some probe /\ match_spec w building probe model version m.
Proof.
  unfold match_face. intros H. inv_db.
  match goal with H : match ?p with _ => _ end _ = _ |- _ => destruct p as [[k|] s] end; inv_db;
    (split; [done|]; eexists; split; [done|]);
    match goal with H : best_match _ _ _ _ _ _ _ _ = _ |- _ => apply best_match_sound in H as (Hle & Hb & Hall) end;
    unfold match_spec; cbn [fm_occupancy fm_score].
  - destruct Hb as [?|(f & Hf & [= ->] & Hs)]; [done|]. apply elem_of_select in Hf as [Hf Hm].
    destruct (Z.leb_spec (gs_match_threshold gs) s) as [Ht|Ht].
    + apply matchable_true in Hm as (? & ? & ? & ?). exists f. repeat (split; [done|]).
      intros g y Hg Hgm. apply Hall. by apply elem_of_select.
    + intros g y Hg Hgm Hy. right. assert (y <= s); [|lia]. eapply Hall; [|done]. by apply elem_of_select.
  - destruct Hb as [[= ->]|(f & _ & ? & _)]; [|done]. intros g y Hg Hgm Hy. left. eapply Hall; [|done].
    by apply elem_of_select.
Qed.

(** One vector that does not open stops every match in its building. *)
Lemma broken_embedding_blocks building v model version f w :
  rows (faces w) !! pk f = Some (val f) -> matchable w building model version f = true ->
  open_embedding (default "" f~>fc_embedding) = None ->
  exists e, match_face gs open_embedding unit_vector shape dot building v model version w = (Err e, w).
Proof.
  intros Hf Hm Ho.
  destruct (match_face gs open_embedding unit_vector shape dot building v model version w) as [[m|e] w'] eqn:E.
  - exfalso. unfold match_face in E. inv_db.
    match goal with H : best_match _ _ _ _ ?p ?l ?b ?s = Ok _ |- _ =>
      assert (f ∈ l) as Hin by (by apply elem_of_select); revert H; generalize b s; revert Hin; generalize l end.
    clear -Ho. intros l Hin. induction Hin as [f l|f g l _ IH]; intros b s H; cbn [best_match] in H.
    + apply result_bind_Ok in H as (o & Hs & _). unfold score_of in Hs. by rewrite Ho in Hs.
    + apply result_bind_Ok in H as (o & _ & H). destruct o as [y|]; [destruct (_ <? _)|]; by eapply IH.
  - exists e. f_equal. unfold match_face, of_option, of_result, gets, raise, mbind, M_bind, mret, M_ret in E.
    destruct (unit_vector v); [|by injection E as _ <-]. destruct (best_match _ _ _ _ _ _ _ _) as [[[k|] s]|];
      [|done|]; by injection E as _ <-.
Qed.
End Matching.

(** ** Properties *)

Section Credentials.
Context {CR : Crypto}.

Lemma throttle_reads account ip w u w' : assert_not_throttled account ip w = (Ok u, w') -> w' = w.
Proof. unfold assert_not_throttled. intros H. inv_db. destruct (first _ _); inv_db; done. Qed.
Lemma reset_throttle_run account ip w u w' :
  reset_auth_throttle account ip w = (Ok u, w') -> w' = w <| throttles := throttles w' |>.
Proof. unfold reset_auth_throttle. intros H. inv_db. destruct (first _ _); inv_db; first [by destruct w|by destruct w']. Qed.

Lemma hour_of_bounds now : hour_of now <= now < hour_of now + hours 1.
Proof.
  unfold hour_of. change (hours 1) with 3600000000. pose proof (Z.div_mod now 3600000000).
  pose proof (Z.mod_pos_bound now 3600000000). lia.
Qed.

(** Who gets in.  A reader is authenticated only with the token of a stored credential
    that is neither revoked nor expired, of an active device, from an address that is not
    locked out; what is kept of the visit is the hour it fell in. *)
Theorem reader_admitted token ip w c d w' :
  authenticate_device token ip w = (Ok (c, d), w') ->
  assert_not_throttled _THROTTLE_ACCOUNT ip w = (Ok tt, w) /\
  rows (credentials w) !! pk c = Some (val c) /\ c~>gc_token_sha256 = sha256 token /\
  is_valid (w_now w) (val c) = true /\
  (exists r, rows (gate_devices w) !! c~>gc_device = Some r /\ gd_active r = true /\
    val d = r <| gd_last_seen_hour := Some (hour_of (w_now w)) |>) /\
  rows (gate_devices w') !! c~>gc_device = Some (val d) /\
  hour_of (w_now w) <= w_now w < hour_of (w_now w) + hours 1 /\
  w' = w <| throttles := throttles w' |> <| gate_devices := gate_devices w' |>.
Proof.
  unfold authenticate_device. intros H. apply bind_Ok in H as ([] & w1 & Ht & H).
  pose proof (throttle_reads _ _ _ _ _ Ht) as ->. split; [done|]. inv_db.
  match goal with H : match ?o with _ => _ end _ = _ |- _ => destruct o as [cred|] eqn:Ec end;
    [|unfold refuse in *; inv_ok; done].
  inv_db. inv_query. to_prop.
  repeat (case_match; [unfold refuse in *; by inv_ok|]; inv_db; to_prop).
  match goal with H : is_valid _ _ = _ |- _ => idtac | H : negb (is_valid _ _) = false |- _ => apply negb_false_iff in H end.
  match goal with H : reset_auth_throttle _ _ ?w = _ |- _ =>
    pose proof (hour_of_bounds (w_now w)) as Hh; apply reset_throttle_run in H as Hw; rewrite Hw in * end.
  destruct (gd_last_seen_hour (val x) ==? Some (hour_of (w_now x1))) eqn:Es; inv_db; to_prop;
    cbn - [hour_of hours is_valid].
  - assert (val d = val d <| gd_last_seen_hour := Some (hour_of (w_now x1)) |>) as Hd
      by (rewrite <-Es; by destruct (val d)).
    split_and!; try done; try lia. exists (val d). by split_and!.
  - split_and!; try done; try lia.
    + exists (val x). by split_and!.
    + rewrite H. rewrite lookup_alter_eq, H1. done.
Qed.


(** Rotating a reader's credential.  The new token is the only one of the device that
    outlives the grace period: every other credential of it is good until then if it was and
    not a moment longer, no credential is prolonged, and those of other devices and the rest
    of the store are as they were. *)
Theorem rotation_bounds gs device membership grace token w c t w' :
  table_wf (credentials w) ->
  rotate_credential gs device membership grace token w = (Ok (c, t), w') ->
  let expiry := w_now w + hours (default (gs_rotation_grace_hours gs) grace) in
  t = token /\ rows (credentials w) !! pk c = None /\ rows (credentials w') !! pk c = Some (val c) /\
  (c~>gc_device = device /\ c~>gc_token_sha256 = sha256 token /\ forall now, is_valid now (val c) = true) /\
  (forall k r, rows (credentials w) !! k = Some r -> exists r', rows (credentials w') !! k = Some r' /\
    gc_device r' = gc_device r /\ gc_token_sha256 r' = gc_token_sha256 r /\ gc_revoked_at r' = gc_revoked_at r /\
    forall now, is_valid now r' = is_valid now r && (negb (gc_device r ==? device) || (now <? expiry))) /\
  w' = w <| credentials := credentials w' |>.
Proof.
  intros Hwf H expiry. unfold rotate_credential, issue_credential, insert_credential in H. inv_db.
  match type of Hwf with table_wf (credentials ?v) => rename v into w end.
  assert (table_wf (update_where (outlives device expiry) (fun r => r <| gc_expires_at := Some expiry |>) (credentials w)))
    as Hwf' by auto with tables.
  set (T1 := update_where _ _ _) in *.
  assert (next T1 = next (credentials w)) as Hn by done.
  split; [done|]. cbn - [update_where insert_row is_valid]. fold expiry. change (update_where _ _ (credentials w)) with T1.
  split; [rewrite Hn; by apply table_wf_fresh|]. split; [by rewrite lookup_insert_row, decide_True|].
  split; [by split_and!|]. split; [|by destruct w].
  intros k r Hk. assert (k <> next T1) as Hne.
  { intros ->. rewrite Hn, table_wf_fresh in Hk by done. done. }
  rewrite lookup_insert_row, decide_False by done. subst T1. rewrite lookup_update_where, Hk. cbn - [outlives].
  eexists. split; [reflexivity|]. unfold outlives; cbn. unfold is_valid.
  destruct (gc_device r ==? device) eqn:Ed, (bool_decide (gc_revoked_at r = None)) eqn:Er; cbn;
    (split; [by repeat case_match|]); (split; [by repeat case_match|]); (split; [by repeat case_match|]); intros now;
    destruct (gc_expires_at r) as [e|] eqn:Ee; cbn; rewrite ?Er, ?Ee, ?andb_true_r, ?andb_false_r; cbn; try done.
  - destruct (Z.ltb_spec expiry e); cbn; rewrite ?Er, ?Ee; cbn; lia.
Qed.
End Credentials.

Section Recognising.
Context {V : Type} (gs : gate_settings).
Context (embed : string -> result (embedding_result V)).
Context (open_embedding : string -> option V) (unit_vector : V -> option V).
Context (shape : V -> Z) (dot : V -> V -> option Z).

Lemma outcome_run occupancy device score event w o w' :
  _outcome occupancy device score event w = (Ok o, w') ->
  w' = w /\ ro_direction o = gd_direction (val device) /\ ro_score o = score /\ ro_event_id o = pk event /\
  match occupancy with
  | None => ro_matched o = false /\ ro_display_name o = "" /\ ro_unit_label o = ""
  | Some k => ro_matched o = true /\ exists oc u un, rows (occupancies w) !! k = Some oc /\
      rows (users w) !! oc_user oc = Some u /\ rows (units w) !! oc_unit oc = Some un /\
      ro_display_name o = u_display_name u /\ ro_unit_label o = un_label un
  end.
Proof.
  unfold _outcome. intros H. destruct occupancy as [k|]; inv_db; [inv_query|]; split_and!; try done; eauto 10.
Qed.

(** C11: recognition.  A reader that gets an answer for an image gets the resident of an
    approved enrolment of its own building whose vector is of the same model, reaches the
    threshold and is the nearest of all, or nobody when none reaches it; the answer carries
    that resident's name and home, and one event is logged with the reader's building and
    direction, the match, the threshold and the score. *)
Theorem recognize_face_sound (device : obj gate_device_row) image w o w' :
  recognize_face gs embed open_embedding unit_vector shape dot device image w = (Ok o, w') ->
  exists res probe m, gs_face_calibrated gs = true /\ embed image = Ok res /\ unit_vector (er_vector res) = Some probe /\
    match_spec gs open_embedding unit_vector shape dot w device~>gd_building probe (er_model_name res) (er_model_version res) m /\
    w' = w <| gate_events ::= insert_row (GateEvent device~>gd_building (pk device) FACE device~>gd_direction (w_now w)
      (fm_occupancy m) None "" "" (er_model_name res) (er_model_version res)
      MATCH_METRIC (Some (gs_match_threshold gs)) (Some (fm_score m))) |> /\
    ro_event_id o = next (gate_events w) /\ ro_direction o = device~>gd_direction /\ ro_score o = Some (fm_score m) /\
    match fm_occupancy m with
    | None => ro_matched o = false /\ ro_display_name o = "" /\ ro_unit_label o = ""
    | Some k => ro_matched o = true /\ exists oc u un, rows (occupancies w) !! k = Some oc /\
        oc_active oc = true /\ un_building un = device~>gd_building /\ rows (users w) !! oc_user oc = Some u /\ rows (units w) !! oc_unit oc = Some un /\
        ro_display_name o = u_display_name u /\ ro_unit_label o = un_label un
    end.
Proof.
  unfold recognize_face, require_face_calibration, insert_event. intros H. inv_db.
  match goal with H : match_face _ _ _ _ _ _ _ _ _ _ = _ |- _ => apply match_face_run in H as (-> & probe & Hp & Hm) end.
  match goal with H : _outcome _ _ _ _ _ = _ |- _ => apply outcome_run in H as (-> & Hd & Hs & He & Ho) end.
  match goal with H : embed _ = Ok ?r, m : FaceMatch |- _ => exists r, probe, m end.
  repeat (split; [done|]). destruct (fm_occupancy _) as [k|] eqn:Ek; [|done].
  unfold match_spec in Hm. rewrite Ek in Hm. destruct Hm as (f & _ & _ & _ & _ & (oc & un & Hoc & Ha & Hun & Hb) & _).
  destruct Ho as [Hmt (oc' & u & un' & Hoc' & Hu & Hun' & Hn1 & Hn2)]. split; [done|]. exists oc, u, un.
  cbn in Hoc, Hoc', Hun, Hun', Hu.   assert (oc' = oc) as -> by congruence. assert (un' = un) as -> by congruence. by split_and!.
Qed.
End Recognising.

Section Purging.
Context (gs : gate_settings).

Lemma record_run events photos w h w' :
  record_purge_success events photos w = (Ok h, w') ->
  w' = w <| heartbeats := heartbeats w' |> /\
  exists k, rows (heartbeats w') !! k = Some (Heartbeat (w_now w) events photos).
Proof.
  unfold record_purge_success. intros H. inv_db. destruct (first _ _) as [b|] eqn:E; inv_db; inv_query;
    cbn - [insert_row]; (split; [first [by destruct w|by destruct w'|done]|]).
  - exists (pk b). rewrite lookup_alter_eq. match goal with H : rows (heartbeats _) !! _ = _ |- _ => by rewrite H end.
  - eexists. apply lookup_inserted.
Qed.

(** The purge.  A purge that reports success has deleted the sightings past the
    retention time and no other, closed every enrolment whose photo was due, and left no
    deletion pending; the photos still stored are those of enrolments under review that are
    not due, and the success is recorded. *)
Theorem purge_clears st w n w' :
  gate_ok w -> objects_owned (ps_s3 st) w -> purge_gate_data gs st w = (Ok n, w') ->
  gate_ok w' /\
  (forall k e, rows (gate_events w') !! k = Some e <-> rows (gate_events w) !! k = Some e /\
    w_now w - hours (gs_event_retention_hours gs) <= ge_occurred_at e) /\
  n.1 = Z.of_nat (length (select (event_expired gs (w_now w)) (gate_events w))) /\
  (forall k p, rows (pending_photos w') !! k = Some p -> w_now w < ph_expires_at p) /\
  (forall k d, ~ rows (photo_deletions w') !! k = Some d) /\
  (forall o, o ∈ w_photo_objects w' -> exists k p f, rows (pending_photos w') !! k = Some p /\
    (ph_storage_key p, ph_version_id p) = o /\ w_now w < ph_expires_at p /\
    rows (faces w') !! ph_enrollment p = Some f /\ fc_status f = RvPending) /\
  (exists k, rows (heartbeats w') !! k = Some (Heartbeat (w_now w) n.1 n.2)).
Proof.
  intros Hok Hown H. unfold purge_gate_data, try_except in H.
  match type of H with (match ?b with _ => _ end) = _ => destruct b as [[a|e] w1] eqn:E end; [|done].
  injection H as <- <-. unfold purge_expired_gate_events in E. inv_db.
  match type of Hok with gate_ok ?v => rename v into w end.
  set (w0 := w <| gate_events ::= _ |>) in *.
  assert (gate_ok w0) as Hok0 by (destruct Hok; by split).
  match goal with H : purge_expired_enrollment_photos _ _ _ = _ |- _ =>
    pose proof (purged_step (ps_s3 st) st (w_now w0) w0 eq_refl Hok0) as [_ Hown1]; rewrite H in Hown1;
    apply purged_run in H as (Hok1 & HG & HN & Hdue); [|done] end.
  match goal with H : process_photo_deletions st ?v = _ |- _ =>
    destruct (process_all_run st v) as (k & w2 & E & C); rewrite E in H; injection H as <- <- end.
  pose proof (cleared_ok _ _ _ C Hok1) as Hok2. pose proof (cl_owned _ _ _ C (Hown1 Hown)) as Hown2.
  destruct C as [R _ _ _ _]. injection R as EF EP EC EO EU EG EH EN.
  inv_query. match goal with H : record_purge_success _ _ _ = _ |- _ => apply record_run in H as (Hw1 & j & Hj) end.
  assert (forall j d, ~ rows (photo_deletions w2) !! j = Some d) as Hnone.
  { intros i d Hi. match goal with H : negb (exists_ _ _) = true |- _ => apply negb_true_iff in H; rename H into Hq end.
    by pose proof (proj1 (exists_false _ _) Hq i d Hi). }
  assert (w_now w2 = w_now w) as HN2 by (rewrite EN, HN; done). rewrite HN2 in Hj.
  assert (forall i e, rows (gate_events w2) !! i = Some e <-> rows (gate_events w) !! i = Some e /\
    w_now w - hours (gs_event_retention_hours gs) <= ge_occurred_at e) as Hev.
  { intros i e. rewrite EG, HG. unfold w0. cbn - [delete_where]. rewrite lookup_delete_where. unfold event_expired.
    destruct (rows (gate_events w) !! i) as [x|]; cbn; [|naive_solver].
    destruct (Z.ltb_spec (ge_occurred_at x) (w_now w - hours (gs_event_retention_hours gs))); split;
      [done|intros [[= <-] ?]; lia|by intros [= <-]|by intros [[= <-] _]]. }
  rewrite Hw1. clear Hw1 E. cbn - [hours]. split; [by destruct Hok2; split|]. split; [exact Hev|]. split; [done|].
  rewrite EP. split; [exact Hdue|]. split; [exact Hnone|]. split; [|by exists j].
  intros o Ho. destruct (Hown2 o Ho) as [_ [(i & p & Hi & Hp)|(i & d & Hi & _)]]; [|by destruct (Hnone i d)].
  rewrite EP in Hi. destruct (go_owner _ Hok1 _ _ Hi) as [f Hf]. exists i, p, f. rewrite EF.
  split_and!; try done; [by eapply Hdue|]. apply (go_pending _ Hok1 _ _ Hf). eauto.
Qed.
End Purging.

(** ** Concrete runs *)

Definition demo_door : obj gate_device_row := Obj 1 (GateDevice 1 "Lobby" ENTRY true None).
(** The resident's enrolment is approved, and the door has a credential. *)
Definition demo_home : world :=
  demo_gate_run [demo_photo "face-a" "a"; Approve demo_shown demo_guard]
    <| gate_devices ::= insert_row (val demo_door) |>.
Definition demo_issued : world := (issue_credential (CR := demo_crypto) 1 demo_guard "key-1" demo_home).2.
Definition demo_admit : DB (obj credential_row * obj gate_device_row) :=
  authenticate_device (CR := demo_crypto) "key-1" None.
Definition demo_recognize : string -> DB RecognitionOutcome :=
  recognize_face demo_gate demo_embed Some Some (fun _ => 0)
    (fun a b => Some (if String.eqb a b then 1 else -1)) demo_door.

Lemma reader_admitted_witness :
  exists c d w', demo_admit demo_issued = (Ok (c, d), w') /\ gd_active (val d) = true /\
    is_valid (w_now demo_issued) (val c) = true /\
    rows (credentials demo_issued) !! pk c = Some (val c).
Proof.
  eexists _, _, _. split; [vm_compute; reflexivity|]. split; [reflexivity|].
  edestruct (reader_admitted (CR := demo_crypto) "key-1" None demo_issued) as (_ & Hc & _ & Hv & _);
    [vm_compute; reflexivity|]. split; [exact Hv|exact Hc].
Defined.

Lemma rotation_bounds_witness :
  exists c t w', rotate_credential (CR := demo_crypto) demo_gate 1 demo_guard None "key-2" demo_issued = (Ok (c, t), w') /\
    exists r, rows (credentials w') !! 1 = Some r /\ is_valid (w_now demo_issued + hours 24) r = false.
Proof.
  eexists _, _, _. split; [vm_compute; reflexivity|].
  edestruct (rotation_bounds (CR := demo_crypto) demo_gate 1 demo_guard None "key-2" demo_issued)
    as (_ & _ & _ & _ & H & _); [apply table_wf_b_true; vm_compute; reflexivity|vm_compute; reflexivity|].
  destruct (H 1 (val (got (Obj 0 (Credential 0 "" 0 None None None)) (get_row credentials "" 1 demo_issued)))
    ltac:(vm_compute; reflexivity)) as (r & Hr & _ & _ & _ & Hv).
  exists r. split; [exact Hr|]. rewrite Hv. vm_compute. reflexivity.
Defined.

Lemma recognize_face_sound_witness :
  exists o w', demo_recognize "face-a" demo_home = (Ok o, w') /\ ro_display_name o = "An" /\
    ro_unit_label o = "A-101" /\ ro_event_id o = next (gate_events demo_home).
Proof.
  eexists _, _. split; [vm_compute; reflexivity|]. split; [reflexivity|]. split; [reflexivity|].
  edestruct (recognize_face_sound demo_gate demo_embed Some Some (fun _ => 0)
    (fun a b => Some (if String.eqb a b then 1 else -1)) demo_door "face-a" demo_home)
    as (res & probe & m & _ & _ & _ & _ & _ & He & _); [vm_compute; reflexivity|]. exact He.
Defined.

(** The photo was due when the purge ran a day later. *)
Definition demo_stale : world := demo_first <| w_now := hours 80 |>.
Definition demo_purged : result (Z * Z) * world := purge_gate_data demo_gate demo_disk demo_stale.
Lemma purge_clears_witness :
  demo_purged.1 = Ok (0, 1) /\ w_photo_objects demo_stale <> [] /\ w_photo_objects demo_purged.2 = [] /\
  forall k p, rows (pending_photos demo_purged.2) !! k = Some p -> w_now demo_stale < ph_expires_at p.
Proof.
  split; [vm_compute; reflexivity|]. split; [vm_compute; discriminate|]. split; [vm_compute; reflexivity|].
  apply (purge_clears demo_gate demo_disk demo_stale (0, 1) demo_purged.2); [| |vm_compute; reflexivity].
  - apply (gate_ok_at (hours 80) demo_first). exact (proj1 (run_gate_step demo_gate demo_embed demo_seal demo_disk
      (demo_photo "face-a" "a") _ (gate_ok_at 5 demo_lobby demo_lobby_ok))).
  - intros o Ho. vm_compute in Ho. apply list_elem_of_singleton in Ho as ->. split; [done|].
    left. exists 1. eexists. split; [vm_compute; reflexivity|reflexivity].
Defined.
